(* ===== verification/_CoqProject ===== *)
-Q . S2P
Prelude.v
Codec.v
ProbeInterface.v
CoreState.v
EngineState.v
Solana.v
ReferenceRuntime.v
FeeMath.v
EngineFrame.v
Helpers.v
Validation.v
Capability.v
Cpmm.v
Deposit.v
Settlement.v
EngineProbe.v
Progress.v
SpikeEngine.v
Initialize.v
GeneratedWire.v
GeneratedCore.v
GeneratedProgress.v
GeneratedEngine.v
RoutedWire.v
HashDomains.v
RoutedAuthorize.v
RoutedExecute.v
Rejections.v
RoutedProperties.v
RoutedProgress.v
RoutedEngine.v
RoutedClosedLoop.v
RoutedLifecycle.v
Router.v
Ledger.v
Isolation.v
Markets.v
Programs.v
NoPanic.v
EnginePhases.v
Errors.v
Sha256.v
UnitTest.v
WireTests.v
CoreTests.v
EngineTests.v
