(* ===== verification/Prelude.v ===== *)
(** * Programmable Solana: a verification development

    The repository holds three disposable Solana programs ("experiments") that
    ask how far a settlement core may trust an arbitrary pricing engine:

    - the authority kernel, [programs/core] with the wire crate
      [crates/engine-probe-interface] and the engine [test-programs/spike-engine]:
      the user names the output, the engine acknowledges the hash of the plan;
    - [experiments/engine-generated-settlement]: the engine chooses the output,
      and may be handed further accounts and a payload Core does not interpret;
    - [experiments/routed-callback-auth]: the user authorises an intent once, by
      an SPL Token delegation to an address derived from it; anyone may relay it,
      directly or through a router, and the engine is called in one phase
      (TRANSITION) or in two (PREPARE, then COMMIT after settlement).

    In each a core program keeps, per market, a domain with two accounted
    balances, a fee ledger, and three vaults that hold the tokens behind them.
    An instruction checks its accounts, hashes what it is about to do, calls the
    engine once (or twice), accepts only a receipt for that hash, moves the
    tokens, compares every balance with its expected value, and stores the new
    books. The development models these programs instruction by instruction,
    with the engines, the helper programs they reach and the router, and
    composes them.

    ** How the code is represented

    A handler is a function from the ledger and its accounts to an [outcome]:
    [Ok] with the new ledger, [Err] with the error value, or [Panic] where Rust
    would abort. The ledger ([Solana.World]) maps addresses to account data and
    carries the slot, the stack height and the return-data slot; accounts an
    Anchor struct deserializes are snapshots ([Solana.Account]), stale until the
    code reloads them and written back where Anchor's exit writes them. A failed
    handler leaves no ledger: the rollback of a failed transaction is
    [Programs.process]. Machine integers are [Z] with the checked operations'
    bounds written out; byte arrays are [list Z]; a public key is such a list,
    of 32 bytes where a theorem needs that ([NoPanic.sized]). There is no fuel:
    the code has no loop but those over slices, which are structural recursions
    or list functions, so every definition is total; the base-58 digits of a key
    in the unit tests are at most 44, as 58^44 exceeds 2^256.

    The three cores carry copies of the same files under different program ids,
    seeds and error enums. What the copies share is modelled once over the class
    [CoreState.CoreConfig], and instantiated three times.

    ** Files and sources

    Paths are relative to the repository; [G/] is
    [experiments/engine-generated-settlement/], [R/] is
    [experiments/routed-callback-auth/].

    Foundations:
    - Prelude: [outcome], [require!], checked arithmetic, little-endian bytes,
      lemmas and tactics that every file uses.
    - Codec: the [put_*]/[read_*] cursors of the wire crates, with classes that
      find the round trip of a struct from its fields.
    - CoreState: [state.rs], [constants.rs], [error.rs], [events.rs] of the cores.
    - EngineState, EngineFrame: the account structs, errors, call introspection
      and account passing of the engines and helpers.
    - Solana: the data the programs read of the chain and the class [Runtime] of
      what they call. ReferenceRuntime: one concrete runtime, for witnesses and
      for the bookkeeping of the token program in the Progress files.

    The cores:
    - FeeMath: [math.rs]. Validation: [validation.rs]. Capability: the opaque
      accounts and payloads of the two experiments, in their wire crates and in
      [validation.rs].
    - ProbeInterface, GeneratedWire, RoutedWire: the three wire crates.
    - Initialize, Deposit: [instructions/initialize_market_domain_v0.rs] and
      [instructions/deposit_v0.rs] of all three.
    - Settlement: the envelope, token transfers and exact-delta checks the three
      execute instructions repeat, and the relation [Settlement.Settles] they meet.
    - EngineProbe: [programs/core] [execute_engine_probe_v0.rs].
    - GeneratedCore: [G/programs/generated-settlement-core]
      [execute_engine_generated_probe_v0.rs].
    - RoutedAuthorize, RoutedExecute: [R/programs/routed-callback-core]
      [authorize_spend_v0.rs], [execute_callback_authenticated_probe_v0.rs].
    - Programs: the [#[program]] modules of the three [lib.rs], with their events.

    The programs around them:
    - SpikeEngine: [test-programs/spike-engine]. GeneratedEngine:
      [G/test-programs/generated-plan-engine]. RoutedEngine:
      [R/test-programs/routed-plan-engine]. Cpmm: the constant-product quote and
      the helper command both of them carry.
    - Helpers: [G/test-programs/opaque-capability-probe] and
      [R/test-programs/callback-capability-probe].
    - Router: [R/test-programs/hostile-router-probe].

    The unit tests of the sources, as programs:
    - Sha256: the hash they are evaluated with. UnitTest: assertions and slices.
      WireTests, CoreTests, EngineTests: the [tests] modules of the wire crates,
      of the cores, and of the engines, helpers and router.

    Theorems that span components:
    - HashDomains: the eleven digests as one function. Rejections: the economics
      of the cores as tables of rules. EnginePhases: the entrypoints of the routed
      engine, spelled out.
    - Progress, GeneratedProgress, RoutedProgress, RoutedProperties,
      RoutedClosedLoop, RoutedLifecycle, Ledger, Isolation, Markets, NoPanic,
      Errors.

    ** What the theorems show

    - Exact settlement: a successful execution moves exactly the debit, fee and
      output, updates the books by the same amounts, stays within the limits the
      user set and leaves every vault with at least its accounted balance
      ([EngineProbe.execute_probe_settles], [GeneratedCore.generated_execution_settles],
      [RoutedProperties.routed_execution_settles], [Deposit.deposit_exact]).
    - Authorization: what is executed is what was signed, once, in the phases the
      timing mode names, under keys only Core can sign with
      ([RoutedProperties.relayer_executes_signed_intent], [routed_replay_rejected],
      [routed_phases_authenticated], [Router.router_attacks_fail]). Binding
      theorems never assume a hash injective: they conclude equality or exhibit
      the collision; a digest identifies its subject, kind and value
      ([HashDomains.digests_identify_subjects]).
    - Initialization: what a market is configured with and what was checked of its
      mints and its engine ([Initialize.initialize_establishes]).
    - Decisions: which error the economics answer, or the exact amounts
      ([Rejections.economics_first_rejection]); when a phase of the routed engine
      succeeds and what it leaves ([EnginePhases.routed_phase_exact]).
    - Confinement: an engine can write only its own state and the opaque accounts
      that pass the checks ([GeneratedCore.generated_engine_confined],
      [RoutedProperties.routed_engine_confined], Isolation).
    - Composition with the actual engines: the settled output is the engine's
      quote, which never lowers the product of the reserves
      ([GeneratedEngine.generated_closed_loop], [RoutedClosedLoop.routed_closed_loop],
      [SpikeEngine.spike_probe_closed_loop], the Cpmm theorems).
    - Whole histories: the books of a market are a run of an abstract ledger on
      the deposits and settlements of that market, whatever else the program is
      asked to do ([Markets.markets_refine_books], by way of the interface
      [Ledger.SettlementProgram] the three cores implement); the emitted events
      are enough to recompute them ([Programs.event_log_keeps_the_books]); the
      states of an engine are well formed and its sequence counts its executions
      (RoutedLifecycle).
    - Liveness: a request whose guards pass and whose engine answers is settled;
      nothing between fails (the three Progress files).
    - Totality: no decoder and no instruction of any program panics (NoPanic).
      Errors records, per crate, the error enum and that its instructions raise
      only variants of it or an error returned to them.
    - Codecs: exact round trips and decoders that accept only canonical encodings
      (the wire files).

    - Conformance: the unit tests the authors wrote of the cores pass, for all
      admissible keys ([CoreTests.core_unit_tests_pass]), and their second
      implementation of the quote agrees with the first on every input
      ([EngineTests.quote_matches_independent_model]). The tests of the wire crates
      and of the engines are closed computations, kept as evidence that the
      definitions are the code's: with SHA-256 itself they pin the domain strings,
      layouts and discriminators the abstract-hash theorems cannot see
      ([WireTests.wire_unit_tests_pass], [EngineTests.engine_unit_tests_pass]).
      Tests of derived code are left out (the component list names them).

    ** What is assumed of the code outside the repository

    [Runtime], [Codec.Hasher] and [EngineFrame.Introspection] are parameters and
    carry no laws. A theorem that needs a documented rule of Solana, Anchor or
    SPL Token takes it as a hypothesis by name:
    - [Codec.sha256_output], a digest has 32 bytes;
    - [Settlement.transfer_frame] and [Isolation.transfer_keeps], TransferChecked
      touches its two token accounts and no owner field; [Progress.transfer_progress],
      when it succeeds;
    - [RoutedProperties.cpi_frame], an invoked program changes only accounts passed as
      writable; [Initialize.pda_law], the bump found for an address derives it;
    - [Isolation.chain_laws], these together, with the rule that only Core
      creates Core accounts; [Isolation.key_holder], no key signs for a derived
      address; [Isolation.presented], an account is presented with its owner;
    - [NoPanic.Returning] and [Errors.ForeignErrors], calls return, and not with
      an error value of the calling program's own type.
    Every theorem with such a hypothesis has a witness at a concrete runtime that
    satisfies it.

    ** What is not modelled

    - Code that is generated or not in the repository: Anchor's discriminator
      dispatch and Borsh argument decoding, account serialization and rent, the
      Instructions-sysvar readers and the token program; they appear as
      parameters, or as the values they yield. Account space is not tracked.
    - [find_program_address] panics when no bump exists; here it is a total
      function. Compute budget, transaction size and heap limits do not appear.
    - One core program is followed at a time: the ledger's core accounts are
      those of the program under study, and accounts of the other cores count as
      data of foreign programs. Execution on the ledger is sequential, as the
      runtime's account locks make it.
    - Three unit tests are about derived code and are left out: the Borsh round
      trip of the router's arguments, the size of the callback helper's account,
      and the discriminator Anchor derives for [execute_engine_probe]. Two are
      about derived addresses, and pass short of a derivation collision.
    - The LiteSVM integration tests, which run the compiled programs, build and
      release scripts and the specification documents have no behaviour of their
      own; the documents were compared with the code. Module declarations and
      re-exports have none either. *)
From stdpp Require Export base list gmap numbers strings.
From Stdlib Require Export Lia ZArith.
From Stdlib Require Ascii String.
#[global] Open Scope Z_scope.

(** ** Results of Rust functions

    A call returns [Ok], returns an error value, or panics (index out of range,
    length mismatch of [copy_from_slice], a failed debug assertion). *)
Inductive outcome (E A : Type) : Type :=
  | Ok (a : A)
  | Err (e : E)
  | Panic.
Arguments Ok {E A} a.
Arguments Err {E A} e.
Arguments Panic {E A}.

#[export] Instance outcome_eq_dec {E A} `{EqDecision E, EqDecision A} : EqDecision (outcome E A).
Proof. solve_decision. Defined.

#[export] Instance outcome_ret {E} : MRet (outcome E) := fun A a => Ok a.
#[export] Instance outcome_bind {E} : MBind (outcome E) :=
  fun A B f m => match m with Ok a => f a | Err e => Err e | Panic => Panic end.

Definition is_ok {E A} (m : outcome E A) : bool := match m with Ok _ => true | _ => false end.

(** [require!(cond, err)] *)
Definition require {E} (b : bool) (e : E) : outcome E unit :=
  if b then Ok tt else Err e.

(** [Option::ok_or] and [Result::map_err] *)
Definition ok_or {E A} (o : option A) (e : E) : outcome E A :=
  match o with Some a => Ok a | None => Err e end.

Definition map_err {E E' A} (f : E -> E') (m : outcome E A) : outcome E' A :=
  match m with Ok a => Ok a | Err e => Err (f e) | Panic => Panic end.

Section Outcome.
Context {E : Type}.

Lemma bind_Ok {A B} (m : outcome E A) (f : A -> outcome E B) b :
  m ≫= f = Ok b <-> exists a, m = Ok a /\ f a = Ok b.
Proof.
  split; [|intros (a & -> & H); exact H].
  destruct m as [a| |]; simpl; [eauto | discriminate..].
Qed.

Lemma bind_Err {A B} (m : outcome E A) (f : A -> outcome E B) e :
  m ≫= f = Err e <-> m = Err e \/ exists a, m = Ok a /\ f a = Err e.
Proof.
  split; [|intros [->|(a & -> & H)]; [reflexivity | exact H]].
  destruct m as [a| |]; simpl; intros Hm; [right; by exists a | left; congruence | discriminate].
Qed.

Lemma require_Err (b : bool) (e e' : E) : require b e = Err e' <-> b = false /\ e' = e.
Proof. destruct b; simpl; naive_solver. Qed.

Lemma require_Ok (b : bool) (e : E) u : require b e = Ok u <-> b = true.
Proof. destruct b, u; simpl; split; congruence. Qed.

Lemma ok_or_Ok {A} (o : option A) (e : E) a : ok_or o e = Ok a <-> o = Some a.
Proof. destruct o; simpl; split; congruence. Qed.

Lemma map_err_Ok {E' A} (f : E -> E') (m : outcome E A) a :
  map_err f m = Ok a <-> m = Ok a.
Proof. destruct m; simpl; split; congruence. Qed.

Lemma is_ok_Ok {A} (m : outcome E A) : is_ok m = true -> exists a, m = Ok a.
Proof. destruct m; simpl; [eauto | discriminate..]. Qed.

Lemma Ok_inj {A} (a b : A) : @Ok E A a = Ok b -> a = b.
Proof. congruence. Qed.

Lemma bind_ret_l {A B} (a : A) (f : A -> outcome E B) : Ok a ≫= f = f a.
Proof. reflexivity. Qed.
End Outcome.

(** Take apart a hypothesis that says a composed call returned [Ok]. *)
Ltac inv_ok_step :=
  match goal with
  | H : (?m ≫= _) = Ok _ |- _ =>
      let a := fresh "r" in let H1 := fresh "Hok" in
      apply bind_Ok in H as (a & H1 & H)
  | H : require _ _ = Ok _ |- _ => apply require_Ok in H
  | H : ok_or _ _ = Ok _ |- _ => apply ok_or_Ok in H
  | H : map_err _ _ = Ok _ |- _ => apply map_err_Ok in H
  | H : Ok _ = Ok _ |- _ => injection H; clear H; intros; subst
  | H : mret _ = Ok _ |- _ => unfold mret, outcome_ret in H
  | H : Err _ = Ok _ |- _ => discriminate H
  | H : Panic = Ok _ |- _ => discriminate H
  | r : unit |- _ => destruct r
  end.
Ltac inv_ok := repeat (inv_ok_step; simpl in *).

(** ** Machine integers

    An integer of width [w] is a [Z]; the predicates give its range and the
    operations are those of Rust's [checked_*] and [try_from]. *)
Definition in_width (w : Z) (v : Z) : Prop := 0 <= v < 2 ^ w.
Abbreviation is_u8 := (in_width 8).
Abbreviation is_u16 := (in_width 16).
Abbreviation is_u64 := (in_width 64).
Abbreviation is_u128 := (in_width 128).

Definition checked_add (w a b : Z) : option Z :=
  if a + b <? 2 ^ w then Some (a + b) else None.
Definition checked_sub (a b : Z) : option Z :=
  if b <=? a then Some (a - b) else None.
Definition checked_mul (w a b : Z) : option Z :=
  if a * b <? 2 ^ w then Some (a * b) else None.
Definition checked_div (a b : Z) : option Z :=
  if b =? 0 then None else Some (a / b).
Definition try_from (w a : Z) : option Z :=
  if (0 <=? a) && (a <? 2 ^ w) then Some a else None.

Section Checked.
Lemma checked_add_Some w a b c :
  checked_add w a b = Some c <-> a + b < 2 ^ w /\ c = a + b.
Proof.
  unfold checked_add. destruct (Z.ltb_spec (a + b) (2 ^ w)); split;
    [intros [= <-]; lia | intros [_ ->]; reflexivity | discriminate | lia].
Qed.
Lemma checked_sub_Some a b c : checked_sub a b = Some c <-> b <= a /\ c = a - b.
Proof.
  unfold checked_sub. destruct (Z.leb_spec b a); split;
    [intros [= <-]; lia | intros [_ ->]; reflexivity | discriminate | lia].
Qed.
Lemma checked_mul_Some w a b c :
  checked_mul w a b = Some c <-> a * b < 2 ^ w /\ c = a * b.
Proof.
  unfold checked_mul. destruct (Z.ltb_spec (a * b) (2 ^ w)); split;
    [intros [= <-]; lia | intros [_ ->]; reflexivity | discriminate | lia].
Qed.
Lemma checked_div_Some a b c : checked_div a b = Some c <-> b <> 0 /\ c = a / b.
Proof.
  unfold checked_div. destruct (Z.eqb_spec b 0); split;
    [discriminate | tauto | intros [= <-]; tauto | intros [_ ->]; reflexivity].
Qed.
Lemma try_from_Some w a c : try_from w a = Some c <-> in_width w a /\ c = a.
Proof.
  unfold try_from, in_width.
  destruct (Z.leb_spec 0 a), (Z.ltb_spec a (2 ^ w)); simpl; split;
    try discriminate; try lia; [intros [= <-]; lia | intros [_ ->]; reflexivity].
Qed.
End Checked.

(** Arithmetic facts carried by successful checked operations. *)
Ltac inv_checked :=
  repeat match goal with
  | H : checked_add _ _ _ = Some _ |- _ => apply checked_add_Some in H as [? ?]
  | H : checked_sub _ _ = Some _ |- _ => apply checked_sub_Some in H as [? ?]
  | H : checked_mul _ _ _ = Some _ |- _ => apply checked_mul_Some in H as [? ?]
  | H : checked_div _ _ = Some _ |- _ => apply checked_div_Some in H as [? ?]
  | H : try_from _ _ = Some _ |- _ => apply try_from_Some in H as [? ?]
  end.

(** Boolean guards of the source as propositions. *)
Ltac to_prop :=
  repeat match goal with
  | H : (_ && _) = true |- _ => apply andb_true_iff in H as [? ?]
  | H : (_ || _) = true |- _ => apply orb_true_iff in H
  | H : negb _ = true |- _ => apply negb_true_iff in H
  | H : bool_decide _ = true |- _ => apply bool_decide_eq_true in H
  | H : bool_decide _ = false |- _ => apply bool_decide_eq_false in H
  | H : (_ <? _) = true |- _ => apply Z.ltb_lt in H
  | H : (_ <=? _) = true |- _ => apply Z.leb_le in H
  | H : (_ =? _) = true |- _ => apply Z.eqb_eq in H
  | H : (_ <? _) = false |- _ => apply Z.ltb_ge in H
  | H : (_ <=? _) = false |- _ => apply Z.leb_gt in H
  | H : (_ =? _) = false |- _ => apply Z.eqb_neq in H
  end.

(** ** Bytes

    A byte is a [Z] in [0, 256); [to_le_bytes]/[from_le_bytes] of a [u(8n)]. *)
Definition byte_string (n : nat) (l : list Z) : Prop :=
  length l = n /\ Forall is_u8 l.

#[export] Instance in_width_dec w v : Decision (in_width w v).
Proof. unfold in_width. apply _. Defined.
#[export] Instance byte_string_dec n l : Decision (byte_string n l).
Proof. unfold byte_string. apply _. Defined.

(** Decide a closed goal by computation. *)
Ltac decide_closed := apply (bool_decide_unpack _); vm_compute; exact I.

Fixpoint to_le_bytes (n : nat) (v : Z) : list Z :=
  match n with
  | O => []
  | S n => v mod 256 :: to_le_bytes n (v / 256)
  end.

Fixpoint from_le_bytes (l : list Z) : Z :=
  match l with
  | [] => 0
  | b :: l => b + 256 * from_le_bytes l
  end.

(** Rust byte-string literals [b"..."]. *)
Definition bytes_of_string (s : string) : list Z :=
  (fun a => Z.of_N (Ascii.N_of_ascii a)) <$> String.list_ascii_of_string s.

Section Bytes.
Lemma length_to_le_bytes n v : length (to_le_bytes n v) = n.
Proof. revert v; induction n; simpl; auto. Qed.

Lemma to_le_bytes_u8 n v : Forall is_u8 (to_le_bytes n v).
Proof.
  revert v; induction n as [|n IH]; intros v; simpl; constructor; auto.
  unfold in_width. pose proof (Z.mod_pos_bound v 256); lia.
Qed.

Lemma from_to_le_bytes n v :
  0 <= v < 256 ^ Z.of_nat n -> from_le_bytes (to_le_bytes n v) = v.
Proof.
  revert v; induction n as [|n IH]; intros v Hv; simpl.
  - simpl in Hv. lia.
  - rewrite Nat2Z.inj_succ, Z.pow_succ_r in Hv by lia.
    rewrite IH.
    + pose proof (Z.div_mod v 256); lia.
    + split; [apply Z.div_pos; lia | apply Z.div_lt_upper_bound; lia].
Qed.

Lemma to_from_le_bytes l : Forall is_u8 l -> to_le_bytes (length l) (from_le_bytes l) = l.
Proof.
  unfold in_width. induction 1 as [|b l Hb _ IH]; simpl; [reflexivity|].
  rewrite (Z.mul_comm 256), Z_mod_plus_full, Z.mod_small by lia.
  rewrite Z.div_add, Z.div_small, Z.add_0_l, IH by lia. reflexivity.
Qed.

Lemma from_le_bytes_bound l :
  Forall is_u8 l -> 0 <= from_le_bytes l < 256 ^ Z.of_nat (length l).
Proof.
  unfold in_width. induction 1 as [|b l Hb _ IH]; simpl length; [simpl; lia|].
  rewrite Nat2Z.inj_succ, Z.pow_succ_r by lia. simpl; lia.
Qed.

Lemma to_le_bytes_inj n v v' :
  0 <= v < 256 ^ Z.of_nat n -> 0 <= v' < 256 ^ Z.of_nat n ->
  to_le_bytes n v = to_le_bytes n v' -> v = v'.
Proof. intros H H' Heq. rewrite <- (from_to_le_bytes n v), <- (from_to_le_bytes n v'), Heq; auto. Qed.

Lemma u64_le_bytes v : is_u64 v -> 0 <= v < 256 ^ Z.of_nat 8.
Proof. unfold in_width. intros; simpl; lia. Qed.
Lemma u16_le_bytes v : is_u16 v -> 0 <= v < 256 ^ Z.of_nat 2.
Proof. unfold in_width. intros; simpl; lia. Qed.
End Bytes.

(** ** Lists *)

Lemma NoDup_lookup_ne {A} (l : list A) i j x y :
  NoDup l -> l !! i = Some x -> l !! j = Some y -> i <> j -> x <> y.
Proof. intros Hl Hi Hj Hij ->. apply Hij. eapply NoDup_lookup; eauto. Qed.

(** The [i]-th and [j]-th entries of a duplicate-free explicit list differ. *)
Ltac distinct_entries H i j :=
  let Hne := fresh "Hne" in
  pose proof (NoDup_lookup_ne _ i j _ _ H eq_refl eq_refl ltac:(lia)) as Hne.

Arguments to_le_bytes : simpl never.
Arguments from_le_bytes : simpl never.

(** ** Lists of distinct entries *)

(** Two literal lists, the first read off the second in order. *)
Ltac solve_sublist := repeat first [apply sublist_skip | apply sublist_cons | apply sublist_nil_l].

(** An entry after a group of distinct entries is none of them. *)
Lemma NoDup_sublist_ne {A} (l keys : list A) (x k : A) :
  NoDup l -> sublist (keys ++ [x]) l -> k ∈ keys -> k <> x.
Proof.
  intros Hnd Hs Hk ->. pose proof (sublist_NoDup _ _ Hnd Hs) as Hn.
  apply NoDup_app in Hn as (_ & Hd & _). apply (Hd x Hk). by apply list_elem_of_singleton.
Qed.

(** ** The automation database of the development *)

Create HintDb core_model.
#[export] Hint Resolve length_to_le_bytes to_le_bytes_u8 u64_le_bytes u16_le_bytes : core_model.
Create Rewrite HintDb core_length.
#[export] Hint Rewrite length_to_le_bytes @length_app @length_replicate : core_length.

(** A flipped low bit. *)
Lemma lxor_1_neq b : b <> Z.lxor b 1.
Proof.
  intros Hb. assert (Z.testbit b 0 = Z.testbit (Z.lxor b 1) 0) as Ht by congruence.
  rewrite Z.lxor_spec in Ht. by destruct (Z.testbit b 0).
Qed.
