(* ===== verification/Codec.v ===== *)
(** * Cursor codecs

    The fixed-width wire helpers every wire crate of the repository repeats:
    [put_*] write into a zeroed array at a cursor, [read_*] read from a slice at
    a cursor, and [require_length]/[require_version] guard the decoders. A
    cursor past the end of the array panics, as slice indexing does in Rust.

    The classes [Writes] and [Reads] state what one codec step promises to the
    steps after it, so that the round trip of a struct is found by instance
    search from the round trips of its fields. *)
From S2P Require Import Prelude.

(** A 32-byte account address. *)
Abbreviation Pubkey := (list Z).

(** ** Errors of the three codecs

    One type for the three crates: the first four constructors are those of
    every crate, the next five those of generated-settlement-probe-wire and
    the last five those routed-callback-probe-wire adds. *)
Inductive CodecError : Type :=
  | InvalidLength (expected actual : Z)
  | InvalidDiscriminator
  | InvalidMagic
  | UnsupportedVersion (expected actual : Z)
  | TooManyCapabilityDescriptors (maximum actual : Z)
  | InvalidOpaqueAccountCount (maximum actual : Z)
  | PayloadTooLong (maximum actual : Z)
  | InvalidPayloadLength (maximum actual : Z)
  | NonCanonicalPayloadPadding
  | UnsupportedTimingMode (actual : Z)
  | UnsupportedPhase (actual : Z)
  | InvalidPhaseForTiming (timing_mode phase : Z)
  | InvalidPhaseContext (phase : Z) (expected_nonzero : bool)
  | ExecutionDigestMismatch.

#[export] Instance CodecError_eq_dec : EqDecision CodecError.
Proof. solve_decision. Defined.

Definition PROBE_WIRE_VERSION : Z := 0.

Definition require_length (data : list Z) (expected : nat) : outcome CodecError unit :=
  if Nat.eqb (length data) expected then Ok tt
  else Err (InvalidLength (Z.of_nat expected) (Z.of_nat (length data))).

Definition require_version (actual : Z) : outcome CodecError unit :=
  if actual =? PROBE_WIRE_VERSION then Ok tt
  else Err (UnsupportedVersion PROBE_WIRE_VERSION actual).

(** ** Writers: [&mut [u8; N]] and [&mut usize] threaded through the calls *)
Definition writer : Type := list Z * nat -> outcome CodecError (list Z * nat).

Definition put_bytes (value : list Z) : writer := fun '(out, cursor) =>
  let stop := (cursor + length value)%nat in
  if (stop <=? length out)%nat
  then Ok (take cursor out ++ value ++ drop stop out, stop)
  else Panic.

Definition put_u8 (value : Z) : writer := fun '(out, cursor) =>
  if (cursor <? length out)%nat then Ok (<[cursor := value]> out, S cursor) else Panic.

Definition put_u16 (value : Z) : writer := put_bytes (to_le_bytes 2 value).
Definition put_u64 (value : Z) : writer := put_bytes (to_le_bytes 8 value).
Definition put_pubkey (value : list Z) : writer := put_bytes value.

Definition seq_writer (w1 w2 : writer) : writer := fun s => w1 s ≫= w2.

Declare Scope codec_scope.
Delimit Scope codec_scope with codec.
Notation "w1 ;> w2" := (seq_writer w1 w2)
  (at level 96, right associativity) : codec_scope.
#[global] Open Scope codec_scope.

(** [let mut output = [0_u8; N]; let mut cursor = 0; ...;
    debug_assert_eq!(cursor, N); output] *)
Definition run_writer (N : nat) (w : writer) : outcome CodecError (list Z) :=
  '(out, cursor) ← w (replicate N 0, 0%nat);
  if (cursor =? N)%nat then Ok out else Panic.

(** ** Readers: [&[u8]] and [&mut usize] *)
Definition reader (A : Type) : Type := list Z -> nat -> outcome CodecError (A * nat).

Definition read_u8 : reader Z := fun data cursor =>
  match data !! cursor with Some v => Ok (v, S cursor) | None => Panic end.

(** [read_array_2], [read_array_8], [read_array_32] and [read_array_128] *)
Definition read_array (n : nat) : reader (list Z) := fun data cursor =>
  let stop := (cursor + n)%nat in
  if (stop <=? length data)%nat then Ok (take n (drop cursor data), stop) else Panic.

#[export] Instance reader_ret : MRet reader := fun A a _ cursor => Ok (a, cursor).
#[export] Instance reader_bind : MBind reader := fun A B f r data cursor =>
  '(a, cursor) ← r data cursor; f a data cursor.

Definition lift {A} (m : outcome CodecError A) : reader A := fun _ cursor =>
  a ← m; Ok (a, cursor).

Definition read_u16 : reader Z := b ← read_array 2; mret (from_le_bytes b).
Definition read_u64 : reader Z := b ← read_array 8; mret (from_le_bytes b).
Definition read_pubkey : reader (list Z) := read_array 32.

(** [let mut cursor = 0; ...; debug_assert_eq!(cursor, N)] *)
Definition run_reader {A} (N : nat) (r : reader A) (data : list Z) : outcome CodecError A :=
  '(a, cursor) ← r data 0%nat;
  if (cursor =? N)%nat then Ok a else Panic.

(** ** What a step promises *)

(** [w] writes exactly [bs] at the cursor and advances past it. *)
Class Writes (w : writer) (bs : list Z) : Prop :=
  writes : forall pre post, (length bs <= length post)%nat ->
    w (pre ++ post, length pre) =
      Ok (pre ++ bs ++ drop (length bs) post, (length pre + length bs)%nat).

(** Positioned before [bs], [r] consumes exactly [bs] and returns [a]. *)
Class Reads {A} (r : reader A) (bs : list Z) (a : A) : Prop :=
  reads : forall pre post,
    r (pre ++ bs ++ post) (length pre) = Ok (a, (length pre + length bs)%nat).

(** Side conditions of the field instances: lengths and ranges. *)
Class Holds (P : Prop) : Prop := holds : P.
#[export] Hint Extern 0 (Holds _) => (red; assumption) : typeclass_instances.

Section Writers.
#[export] Instance writes_bytes bs : Writes (put_bytes bs) bs.
Proof.
  intros pre post Hlen. unfold put_bytes.
  rewrite (proj2 (Nat.leb_le _ _)) by (rewrite length_app; lia).
  by rewrite take_app_length, drop_app_add.
Qed.
#[export] Instance writes_u8 v : Writes (put_u8 v) [v].
Proof.
  intros pre post Hlen. unfold put_u8. destruct post as [|p post]; [simpl in Hlen; lia|].
  rewrite (proj2 (Nat.ltb_lt _ _)) by (rewrite length_app; simpl; lia).
  rewrite insert_app_r_alt, Nat.sub_diag by lia. simpl. do 3 f_equal; lia.
Qed.
#[export] Instance writes_u16 v : Writes (put_u16 v) (to_le_bytes 2 v) := writes_bytes _.
#[export] Instance writes_u64 v : Writes (put_u64 v) (to_le_bytes 8 v) := writes_bytes _.
#[export] Instance writes_pubkey v : Writes (put_pubkey v) v := writes_bytes _.
#[export] Instance writes_seq w1 w2 b1 b2 :
  Writes w1 b1 -> Writes w2 b2 -> Writes (w1 ;> w2) (b1 ++ b2).
Proof.
  intros H1 H2 pre post. rewrite length_app. intros Hlen.
  unfold seq_writer. rewrite H1 by lia. simpl. rewrite <- length_app, app_assoc.
  rewrite H2 by (rewrite length_drop; lia). rewrite drop_drop, !length_app.
  by rewrite <- !app_assoc, Nat.add_assoc.
Qed.

(** A writer for a layout of exactly the array's length fills the array with
    it, never panics, and leaves the cursor at the end. *)
Lemma run_writer_ok N w bs : Writes w bs -> length bs = N -> run_writer N w = Ok bs.
Proof.
  intros Hw <-. unfold run_writer.
  specialize (Hw [] (replicate (length bs) 0)). simpl in Hw.
  rewrite Hw by (rewrite length_replicate; lia). simpl.
  by rewrite Nat.eqb_refl, drop_ge, app_nil_r by (rewrite length_replicate; lia).
Qed.
End Writers.

Section Readers.
#[export] Instance reads_u8 v : Reads read_u8 [v] v.
Proof.
  intros pre post. unfold read_u8. rewrite lookup_app_r, Nat.sub_diag by lia.
  simpl. do 2 f_equal; lia.
Qed.
#[export] Instance reads_array n bs : Holds (length bs = n) -> Reads (read_array n) bs bs.
Proof.
  unfold Holds. intros Hn pre post. unfold read_array.
  rewrite (proj2 (Nat.leb_le _ _)) by (rewrite !length_app; lia).
  rewrite drop_app_length, Hn, take_app_le, take_ge by lia. reflexivity.
Qed.
#[export] Instance reads_pubkey bs : Holds (length bs = 32%nat) -> Reads read_pubkey bs bs.
Proof. apply reads_array. Qed.
#[export] Instance reads_ret {A} (a : A) : Reads (mret a) [] a.
Proof. intros pre post. unfold mret, reader_ret. by rewrite Nat.add_0_r. Qed.
#[export] Instance reads_bind {A B} (r : reader A) (f : A -> reader B) b1 b2 a b :
  Reads r b1 a -> Reads (f a) b2 b -> Reads (r ≫= f) (b1 ++ b2) b.
Proof.
  intros H1 H2 pre post. unfold mbind, reader_bind. rewrite <- (app_assoc b1), H1. simpl.
  rewrite (app_assoc pre), <- length_app, H2, !length_app. do 2 f_equal; lia.
Qed.
(** The last field: what is read last is returned at once. *)
#[export] Instance reads_bind_ret {A B} (r : reader A) (f : A -> B) b1 a :
  Reads r b1 a -> Reads (x ← r; mret (f x)) b1 (f a).
Proof. intros H. rewrite <- (app_nil_r b1). eapply reads_bind; eauto. apply reads_ret. Qed.
#[export] Instance reads_u64 v : Holds (is_u64 v) -> Reads read_u64 (to_le_bytes 8 v) v.
Proof.
  unfold Holds. intros Hv.
  pose proof (from_to_le_bytes 8 v (u64_le_bytes v Hv)) as E. rewrite <- E at 2.
  apply (reads_bind_ret (read_array 8) from_le_bytes), reads_array; red.
  apply length_to_le_bytes.
Qed.
#[export] Instance reads_u16 v : Holds (is_u16 v) -> Reads read_u16 (to_le_bytes 2 v) v.
Proof.
  unfold Holds. intros Hv.
  pose proof (from_to_le_bytes 2 v (u16_le_bytes v Hv)) as E. rewrite <- E at 2.
  apply (reads_bind_ret (read_array 2) from_le_bytes), reads_array; red.
  apply length_to_le_bytes.
Qed.
Lemma reads_lift {A B} (m : outcome CodecError A) (f : A -> reader B) a bs b :
  m = Ok a -> Reads (f a) bs b -> Reads (x ← lift m; f x) bs b.
Proof.
  intros -> H pre post. unfold mbind, reader_bind, lift. simpl. apply H.
Qed.

Lemma run_reader_ok {A} N (r : reader A) bs a :
  Reads r bs a -> length bs = N -> run_reader N r bs = Ok a.
Proof.
  intros Hr <-. unfold run_reader. pose proof (Hr [] []) as E.
  rewrite app_nil_r in E. simpl in E. rewrite E. simpl. by rewrite Nat.eqb_refl.
Qed.
End Readers.

(** ** Taking a byte string of known length apart

    Every byte string of the right length is the layout of some struct: the
    fields are read off it in order. *)
Section Peel.
Lemma peel_array n m (l : list Z) :
  length l = (n + m)%nat -> Forall is_u8 l ->
  exists a r, l = a ++ r /\ byte_string n a /\ length r = m /\ Forall is_u8 r.
Proof.
  intros Hlen Hb. exists (take n l), (drop n l). rewrite take_drop.
  unfold byte_string. rewrite length_take, length_drop, Hlen.
  repeat split; try lia; auto using Forall_take, Forall_drop.
Qed.
Lemma byte_string_le n a :
  byte_string n a -> exists v, a = to_le_bytes n v /\ 0 <= v < 256 ^ Z.of_nat n.
Proof.
  intros [<- Hb]. exists (from_le_bytes a).
  rewrite to_from_le_bytes by done. auto using from_le_bytes_bound.
Qed.
Lemma peel_u64 m (l : list Z) :
  length l = (8 + m)%nat -> Forall is_u8 l ->
  exists v r, l = to_le_bytes 8 v ++ r /\ is_u64 v /\ length r = m /\ Forall is_u8 r.
Proof.
  intros Hlen Hb. destruct (peel_array 8 m l Hlen Hb) as (a & r & -> & Ha & Hr & Hb').
  destruct (byte_string_le 8 a Ha) as (v & -> & Hv). exists v, r. repeat split; auto; apply Hv.
Qed.
Lemma peel_u16 m (l : list Z) :
  length l = (2 + m)%nat -> Forall is_u8 l ->
  exists v r, l = to_le_bytes 2 v ++ r /\ is_u16 v /\ length r = m /\ Forall is_u8 r.
Proof.
  intros Hlen Hb. destruct (peel_array 2 m l Hlen Hb) as (a & r & -> & Ha & Hr & Hb').
  destruct (byte_string_le 2 a Ha) as (v & -> & Hv). exists v, r. repeat split; auto; apply Hv.
Qed.
Lemma peel_u8 m (l : list Z) :
  length l = S m -> Forall is_u8 l ->
  exists v r, l = [v] ++ r /\ is_u8 v /\ length r = m /\ Forall is_u8 r.
Proof.
  destruct l as [|v r]; [discriminate|]. intros [= Hlen] Hb.
  inversion Hb; subst. exists v, r. auto.
Qed.
End Peel.

(** [peel lem k x]: take field [x] of [k] bytes off the byte string whose
    length hypothesis is in the context. *)
Ltac peel_with lem k x :=
  match goal with
  | Hl : length ?l = ?N, Hb : Forall is_u8 ?l |- _ =>
      let m := eval vm_compute in (N - k)%nat in
      let Hx := fresh "H" x in let r := fresh "rest" in
      destruct (lem m l Hl Hb) as (x & r & -> & Hx & Hl' & Hb');
      clear Hl Hb; rename Hl' into Hl; rename Hb' into Hb
  end.
Tactic Notation "peel" "u64" ident(x) := peel_with peel_u64 8%nat x.
Tactic Notation "peel" "u16" ident(x) := peel_with peel_u16 2%nat x.
Tactic Notation "peel" "u8" ident(x) := peel_with peel_u8 1%nat x.
Tactic Notation "peel" "bytes" constr(n) ident(x) := peel_with (peel_array n) n x.
(** The last array: everything that is left. *)
Ltac peel_end :=
  match goal with
  | Hl : length ?l = 0%nat |- _ => apply nil_length_inv in Hl; subst l
  end.

(** ** Tactics for structs *)

#[export] Hint Extern 0 (Holds (length ?x = ?n)) =>
  (red; match goal with H : byte_string n x |- _ => exact (proj1 H) end) : typeclass_instances.

#[export] Hint Extern 5 (Holds (length _ = _)) => (red; reflexivity) : typeclass_instances.

(** A struct reader against the layout of the struct, field by field. *)
Ltac reads_step :=
  match goal with
  | |- Reads (lift _ ≫= _) _ _ => eapply reads_lift; [reflexivity|]
  | |- Reads (_ ≫= _) (_ ++ _) _ => eapply reads_bind; [apply _|cbv beta]
  | |- Reads (?r ≫= fun x => mret (@?f x)) ?bs _ =>
      refine (reads_bind_ret r f bs _ _); apply _
  end.

(** Unpack [Forall P [a; b; ...]] and conjunctions. *)
Ltac unpack :=
  repeat match goal with
  | H : _ /\ _ |- _ => destruct H
  | H : Forall _ (_ :: _) |- _ => apply Forall_cons in H as [? H]
  | H : Forall _ [] |- _ => clear H
  end.

(** Re-assemble a well-formedness predicate from the ranges of the fields. *)
Ltac solve_wf :=
  red; simpl;
  repeat match goal with
  | |- _ /\ _ => split
  | |- Forall _ (_ :: _) => apply Forall_cons_2
  | |- Forall _ [] => apply Forall_nil_2
  | _ => assumption
  end.

(** Lengths of layouts whose fields have known lengths. *)
Ltac layout_length :=
  repeat rewrite length_app; repeat rewrite length_to_le_bytes;
  repeat match goal with H : byte_string _ ?x |- context [length ?x] => rewrite (proj1 H) end;
  reflexivity.

(** Equality of two layouts, field by field. *)
Ltac layout_inj_step H :=
  let E := fresh "E" in
  apply app_inj_1 in H as [E H];
    [| repeat match goal with H' : byte_string _ ?x |- context [length ?x] => rewrite (proj1 H') end;
       rewrite ?length_to_le_bytes; reflexivity ];
  try (apply to_le_bytes_inj in E; [| solve [auto with core_model] | solve [auto with core_model]]).
Ltac layout_inj H := repeat layout_inj_step H.

(** ** Hashing

    [hashv] of solana-sha256-hasher, which is not part of the repository: a
    parameter. A collision is two preimages (the concatenations of the hashed
    slices) that differ and hash alike. *)
Class Hasher := { hashv : list (list Z) -> list Z }.

(** SHA-256 returns 32 bytes. *)
Definition sha256_output `{Hasher} : Prop := forall l, byte_string 32 (hashv l).

Definition sha256_collision `{Hasher} (xs ys : list (list Z)) : Prop :=
  concat xs <> concat ys /\ hashv xs = hashv ys.

Lemma concat_pair (a b : list Z) : concat [a; b] = a ++ b.
Proof. unfold concat. by rewrite app_nil_r. Qed.

Lemma hashv_binds `{Hasher} xs ys :
  hashv xs = hashv ys -> concat xs = concat ys \/ sha256_collision xs ys.
Proof. intros Heq. destruct (decide (concat xs = concat ys)); [by left | by right]. Qed.

Lemma require_length_Ok data n u : require_length data n = Ok u <-> length data = n.
Proof.
  unfold require_length. destruct u, (Nat.eqb_spec (length data) n); split; congruence.
Qed.
Lemma require_version_Ok v u : require_version v = Ok u <-> v = PROBE_WIRE_VERSION.
Proof.
  unfold require_version. destruct u, (Z.eqb_spec v PROBE_WIRE_VERSION); split; congruence.
Qed.

(** A decoder that starts with a rejected version byte returns that error. *)
Lemma run_reader_bad_version {A} N (r : reader A) v rest :
  v <> PROBE_WIRE_VERSION ->
  run_reader N (x ← read_u8; _ ← lift (require_version x); r) ([v] ++ rest) =
    Err (UnsupportedVersion PROBE_WIRE_VERSION v).
Proof.
  intros Hv. unfold run_reader, mbind, reader_bind, lift, require_version. simpl.
  by rewrite (proj2 (Z.eqb_neq _ _) Hv).
Qed.

(** The same for a decoder that first reads an eight-byte magic. *)
Lemma run_reader_bad_magic {A} N magic expected e (k : reader A) rest :
  length magic = 8%nat -> magic <> expected ->
  run_reader N (m ← read_array 8; _ ← lift (require (bool_decide (m = expected)) e); k)
    (magic ++ rest) = Err e.
Proof.
  intros Hm Hne. unfold run_reader, mbind, reader_bind.
  rewrite (reads_array 8 magic Hm [] rest : read_array 8 (magic ++ rest) 0%nat = _). simpl.
  unfold lift. by rewrite bool_decide_eq_false_2.
Qed.
Lemma run_reader_magic_bad_version {A} N expected e (k : Z -> reader A) v rest :
  length expected = 8%nat -> v <> PROBE_WIRE_VERSION ->
  run_reader N
    (m ← read_array 8; _ ← lift (require (bool_decide (m = expected)) e);
     x ← read_u8; _ ← lift (require_version x); k x) (expected ++ [v] ++ rest) =
  Err (UnsupportedVersion PROBE_WIRE_VERSION v).
Proof.
  intros Hm Hv. unfold run_reader, mbind, reader_bind.
  rewrite (reads_array 8 expected Hm [] ([v] ++ rest)
    : read_array 8 (expected ++ [v] ++ rest) 0%nat = _). simpl.
  unfold lift. rewrite bool_decide_eq_true_2 by done. simpl. unfold read_u8.
  rewrite lookup_app_r, Hm by lia. simpl.
  unfold require_version. by rewrite (proj2 (Z.eqb_neq _ _) Hv).
Qed.

Lemma length_ok_or data n :
  (length data = n /\ require_length data n = Ok tt) \/
  (length data <> n /\ require_length data n = Err (InvalidLength (Z.of_nat n) (Z.of_nat (length data)))).
Proof.
  unfold require_length. destruct (Nat.eqb_spec (length data) n); [left|right]; auto.
Qed.

(** Every decoder of the form length, version byte, fields accepts exactly the
    layouts of well-formed values, given that its reader reads layouts and that
    every byte string of the length with the right version is one. *)
Lemma versioned_decode_iff {A} N (body : reader A) (wf : A -> Prop) (layout : A -> list Z) :
  let read := x ← read_u8; _ ← lift (require_version x); body in
  (forall a, wf a -> Reads read (layout a) a) ->
  (forall a, wf a -> length (layout a) = N) ->
  (forall data, length data = N -> Forall is_u8 data ->
     exists v rest, data = [v] ++ rest /\
       (v = PROBE_WIRE_VERSION -> exists a, wf a /\ data = layout a)) ->
  forall data a, Forall is_u8 data ->
    (_ ← require_length data N; run_reader N read data) = Ok a <-> wf a /\ layout a = data.
Proof.
  intros read Hreads Hlen Hsplit data a Hb. split.
  - intros (? & Hok & Hd)%bind_Ok. apply require_length_Ok in Hok.
    destruct (Hsplit data Hok Hb) as (v & rest & -> & Hv).
    destruct (decide (v = PROBE_WIRE_VERSION)) as [Ev|Ev];
      [|pose proof (run_reader_bad_version N body v rest Ev : run_reader N read _ = _) as E;
        rewrite E in Hd; discriminate Hd].
    destruct (Hv Ev) as (a' & Hwf & Heq). rewrite Heq in Hd |- *.
    rewrite (run_reader_ok N read _ a' (Hreads a' Hwf) (Hlen a' Hwf)) in Hd.
    by apply Ok_inj in Hd as <-.
  - intros [Hwf <-]. rewrite (proj2 (require_length_Ok _ _ tt) (Hlen a Hwf)), bind_ret_l.
    by apply run_reader_ok; auto.
Qed.

(** [output[..k].copy_from_slice(prefix); output[k..].copy_from_slice(body)] *)
Lemma write_pair_ok N a b :
  length (a ++ b) = N -> run_writer N (put_bytes a ;> put_bytes b) = Ok (a ++ b).
Proof. intros Hl. apply run_writer_ok; [apply _ | exact Hl]. Qed.

(** The same for decoders that start with an eight-byte magic and a version. *)
Lemma magic_decode_iff {A} N magic e (body : reader A) (wf : A -> Prop) (layout : A -> list Z) :
  let read := m ← read_array 8; _ ← lift (require (bool_decide (m = magic)) e);
              x ← read_u8; _ ← lift (require_version x); body in
  length magic = 8%nat ->
  (forall a, wf a -> Reads read (layout a) a) ->
  (forall a, wf a -> length (layout a) = N) ->
  (forall data, length data = N -> Forall is_u8 data ->
     exists m v rest, data = m ++ [v] ++ rest /\ length m = 8%nat /\
       (m = magic -> v = PROBE_WIRE_VERSION -> exists a, wf a /\ data = layout a)) ->
  forall data a, Forall is_u8 data ->
    (_ ← require_length data N; run_reader N read data) = Ok a <-> wf a /\ layout a = data.
Proof.
  intros read Hmagic Hreads Hlen Hsplit data a Hb. split.
  - intros (? & Hok & Hd)%bind_Ok. apply require_length_Ok in Hok.
    destruct (Hsplit data Hok Hb) as (m & v & rest & -> & Hm & Hv).
    destruct (decide (m = magic)) as [Em|Em].
    2:{ pose proof (run_reader_bad_magic N m magic e
          (x ← read_u8; _ ← lift (require_version x); body) ([v] ++ rest) Hm Em
          : run_reader N read _ = _) as E. rewrite E in Hd. discriminate Hd. }
    destruct (decide (v = PROBE_WIRE_VERSION)) as [Ev|Ev].
    2:{ subst m. pose proof (run_reader_magic_bad_version N magic e (fun _ => body) v rest Hmagic Ev
          : run_reader N read _ = _) as E. rewrite E in Hd. discriminate Hd. }
    destruct (Hv Em Ev) as (a' & Hwf & Heq). rewrite Heq in Hd |- *.
    rewrite (run_reader_ok N read _ a' (Hreads a' Hwf) (Hlen a' Hwf)) in Hd.
    by apply Ok_inj in Hd as <-.
  - intros [Hwf <-]. rewrite (proj2 (require_length_Ok _ _ tt) (Hlen a Hwf)), bind_ret_l.
    by apply run_reader_ok; auto.
Qed.

(** A decoder whose fields are guarded by their first byte (a timing mode, a
    phase) after a prefix that reads [p]. *)
Lemma reads_prefix_guard {A} (pre : list Z) (g : Z -> outcome CodecError unit)
    (k : Z -> reader A) y rest e :
  g y = Err e ->
  (z ← read_u8; _ ← lift (g z); k z) (pre ++ [y] ++ rest) (length pre) = Err e.
Proof.
  intros Hg. unfold mbind, reader_bind. rewrite (reads_u8 y pre rest). simpl. unfold lift.
  by rewrite Hg.
Qed.

(** The general form: the reader reads the layouts of the well-formed values,
    and every other byte string of the length is rejected. *)
Lemma canonical_decode_iff {A} N (read : reader A) (wf : A -> Prop) (layout : A -> list Z) :
  (forall a, wf a -> Reads read (layout a) a) ->
  (forall a, wf a -> length (layout a) = N) ->
  (forall data, length data = N -> Forall is_u8 data ->
     (exists a, wf a /\ data = layout a) \/ (exists e, read data 0%nat = Err e)) ->
  forall data a, Forall is_u8 data ->
    (_ ← require_length data N; run_reader N read data) = Ok a <-> wf a /\ layout a = data.
Proof.
  intros Hreads Hlen Hcases data a Hb. split.
  - intros (? & Hok%require_length_Ok & Hd)%bind_Ok.
    destruct (Hcases data Hok Hb) as [(a' & Hwf & ->)|(e & He)].
    + rewrite (run_reader_ok N read _ a' (Hreads a' Hwf) (Hlen a' Hwf)) in Hd.
      by apply Ok_inj in Hd as <-.
    + unfold run_reader in Hd. rewrite He in Hd. discriminate Hd.
  - intros [Hwf <-]. rewrite (proj2 (require_length_Ok _ _ tt) (Hlen a Hwf)), bind_ret_l.
    by apply run_reader_ok; auto.
Qed.

(** The first reads of a decoder, as equations on its run. *)
Lemma read_version_step {A} (body : reader A) v rest :
  (x ← read_u8; _ ← lift (require_version x); body) ([v] ++ rest) 0%nat =
    (_ ← require_version v; body ([v] ++ rest) 1%nat).
Proof. unfold mbind, reader_bind, lift. simpl. by destruct (require_version v). Qed.

Lemma read_magic_step {A} magic e (body : reader A) m rest :
  length m = 8%nat ->
  (x ← read_array 8; _ ← lift (require (bool_decide (x = magic)) e); body) (m ++ rest) 0%nat =
    if bool_decide (m = magic) then body (m ++ rest) 8%nat else Err e.
Proof.
  intros Hm. unfold mbind, reader_bind.
  rewrite (reads_array 8 m Hm [] rest : read_array 8 (m ++ rest) 0%nat = _). simpl.
  unfold lift. rewrite Hm. by destruct (bool_decide _).
Qed.

(** ** What a reader that returned has read

    Inversion at concrete cursors: the slices a successful decode took its
    fields from. *)
Lemma read_array_slice n data c a c' :
  read_array n data c = Ok (a, c') -> a = take n (drop c data) /\ c' = (c + n)%nat.
Proof. unfold read_array. destruct (_ <=? _)%nat; [by intros [= <- <-] | discriminate]. Qed.
Lemma read_u8_slice data c v c' :
  read_u8 data c = Ok (v, c') -> data !! c = Some v /\ c' = S c.
Proof. unfold read_u8. destruct (data !! c) eqn:E; [|discriminate]. intros [= -> <-]. done. Qed.
Lemma read_u64_slice data c v c' :
  read_u64 data c = Ok (v, c') -> v = from_le_bytes (take 8 (drop c data)) /\ c' = (c + 8)%nat.
Proof.
  unfold read_u64, mbind, reader_bind. intros ([b c1] & [-> ->]%read_array_slice & Hr)%bind_Ok.
  by injection Hr as <- <-.
Qed.
Lemma read_u16_slice data c v c' :
  read_u16 data c = Ok (v, c') -> v = from_le_bytes (take 2 (drop c data)) /\ c' = (c + 2)%nat.
Proof.
  unfold read_u16, mbind, reader_bind. intros ([b c1] & [-> ->]%read_array_slice & Hr)%bind_Ok.
  by injection Hr as <- <-.
Qed.
Lemma lift_slice {A} (m : outcome CodecError A) data c a c' :
  lift m data c = Ok (a, c') -> m = Ok a /\ c' = c.
Proof. unfold lift. intros (x & Hx & [= -> ->])%bind_Ok. done. Qed.

Ltac inv_reader H :=
  repeat (unfold mbind at 1, reader_bind in H; apply bind_Ok in H as ([? ?] & ? & H));
  repeat match goal with
  | H : read_array _ _ _ = Ok _ |- _ => apply read_array_slice in H as [? ?]
  | H : read_pubkey _ _ = Ok _ |- _ => apply read_array_slice in H as [? ?]
  | H : read_u8 _ _ = Ok _ |- _ => apply read_u8_slice in H as [? ?]
  | H : read_u16 _ _ = Ok _ |- _ => apply read_u16_slice in H as [? ?]
  | H : read_u64 _ _ = Ok _ |- _ => apply read_u64_slice in H as [? ?]
  | H : lift _ _ _ = Ok _ |- _ => apply lift_slice in H as [? ?]
  | H : mret _ _ _ = Ok _ |- _ => unfold mret, reader_ret in H; injection H as ? ?
  end.

Lemma run_reader_Ok {A} N (r : reader A) data a :
  run_reader N r data = Ok a -> r data 0%nat = Ok (a, N).
Proof.
  unfold run_reader. intros ([x c] & Hr & Hc)%bind_Ok.
  destruct (Nat.eqb_spec c N) as [->|]; [|discriminate]. by injection Hc as <-.
Qed.

(** Adjacent slices. *)
Lemma take_slices n m (data : list Z) : take n data ++ take m (drop n data) = take (n + m) data.
Proof. apply take_take_drop. Qed.
Lemma take_byte_slices n m (data : list Z) v :
  data !! n = Some v -> take n data ++ [v] ++ take m (drop (S n) data) = take (n + S m) data.
Proof.
  intros Hv. rewrite <- (take_slices n (S m)). f_equal. by rewrite (drop_S _ _ _ Hv).
Qed.
