(* ===== verification/ProbeInterface.v ===== *)
(** * crates/engine-probe-interface: the authority-kernel wire codec

    The plan binding whose hash the core commits to, the request it sends to
    the engine, the receipt the engine returns, and their codecs. *)
From S2P Require Import Prelude Codec.

Definition EVALUATE_DISCRIMINATOR : list Z := [0xb3; 0xd3; 0x8e; 0xb7; 0x6c; 0x68; 0x14; 0xd6].
Definition CORE_EXECUTE_ENGINE_PROBE_DISCRIMINATOR : list Z :=
  [0xf7; 0xcc; 0xde; 0xcd; 0x95; 0x4a; 0xc2; 0xb8].
Definition RECEIPT_MAGIC : list Z := bytes_of_string "PMBRCP00".
Definition PLAN_DOMAIN : list Z := bytes_of_string "programmable:engine-probe:plan:v0".

Definition PLAN_BINDING_LEN : nat := (1 + 15 * 32 + 12 * 8)%nat.
Definition ENGINE_REQUEST_LEN : nat := (1 + 3 * 32 + 7 * 8)%nat.
Definition EVALUATE_INSTRUCTION_LEN : nat := (8 + ENGINE_REQUEST_LEN)%nat.
Definition ENGINE_RECEIPT_LEN : nat := (8 + 1 + 32 + 8)%nat.

Record PlanBinding := {
  pb_core_program : Pubkey;
  pb_market : Pubkey;
  pb_domain : Pubkey;
  pb_engine_program : Pubkey;
  pb_engine_state : Pubkey;
  pb_user_authority : Pubkey;
  pb_user_input : Pubkey;
  pb_user_output : Pubkey;
  pb_mint_in : Pubkey;
  pb_mint_out : Pubkey;
  pb_domain_input_vault : Pubkey;
  pb_domain_output_vault : Pubkey;
  pb_protocol_fee_vault : Pubkey;
  pb_fee_ledger : Pubkey;
  pb_token_program : Pubkey;
  pb_engine_revision : Z;
  pb_fee_policy_revision : Z;
  pb_amount_in : Z;
  pb_amount_out : Z;
  pb_protocol_fee : Z;
  pb_max_total_input_debit : Z;
  pb_min_output_credit : Z;
  pb_max_protocol_fee : Z;
  pb_accounted_input_before : Z;
  pb_accounted_output_before : Z;
  pb_accounted_fee_before : Z;
  pb_expires_at_slot : Z }.

Record EngineRequest := {
  er_plan_hash : list Z;
  er_market : Pubkey;
  er_domain : Pubkey;
  er_engine_revision : Z;
  er_amount_in : Z;
  er_amount_out : Z;
  er_protocol_fee : Z;
  er_accounted_input_before : Z;
  er_accounted_output_before : Z;
  er_accounted_fee_before : Z }.

Record EngineReceipt := {
  rc_plan_hash : list Z;
  rc_state_sequence : Z }.

(** ** Encoders and decoders *)

Definition encode_plan_binding (b : PlanBinding) : outcome CodecError (list Z) :=
  run_writer PLAN_BINDING_LEN (
    put_u8 PROBE_WIRE_VERSION ;>
    put_pubkey (pb_core_program b) ;>
    put_pubkey (pb_market b) ;>
    put_pubkey (pb_domain b) ;>
    put_pubkey (pb_engine_program b) ;>
    put_pubkey (pb_engine_state b) ;>
    put_pubkey (pb_user_authority b) ;>
    put_pubkey (pb_user_input b) ;>
    put_pubkey (pb_user_output b) ;>
    put_pubkey (pb_mint_in b) ;>
    put_pubkey (pb_mint_out b) ;>
    put_pubkey (pb_domain_input_vault b) ;>
    put_pubkey (pb_domain_output_vault b) ;>
    put_pubkey (pb_protocol_fee_vault b) ;>
    put_pubkey (pb_fee_ledger b) ;>
    put_pubkey (pb_token_program b) ;>
    put_u64 (pb_engine_revision b) ;>
    put_u64 (pb_fee_policy_revision b) ;>
    put_u64 (pb_amount_in b) ;>
    put_u64 (pb_amount_out b) ;>
    put_u64 (pb_protocol_fee b) ;>
    put_u64 (pb_max_total_input_debit b) ;>
    put_u64 (pb_min_output_credit b) ;>
    put_u64 (pb_max_protocol_fee b) ;>
    put_u64 (pb_accounted_input_before b) ;>
    put_u64 (pb_accounted_output_before b) ;>
    put_u64 (pb_accounted_fee_before b) ;>
    put_u64 (pb_expires_at_slot b)).

Definition compute_plan_hash `{Hasher} (b : PlanBinding) : outcome CodecError (list Z) :=
  encoded ← encode_plan_binding b;
  Ok (hashv [PLAN_DOMAIN; encoded]).

Definition encode_request (r : EngineRequest) : outcome CodecError (list Z) :=
  run_writer ENGINE_REQUEST_LEN (
    put_u8 PROBE_WIRE_VERSION ;>
    put_bytes (er_plan_hash r) ;>
    put_pubkey (er_market r) ;>
    put_pubkey (er_domain r) ;>
    put_u64 (er_engine_revision r) ;>
    put_u64 (er_amount_in r) ;>
    put_u64 (er_amount_out r) ;>
    put_u64 (er_protocol_fee r) ;>
    put_u64 (er_accounted_input_before r) ;>
    put_u64 (er_accounted_output_before r) ;>
    put_u64 (er_accounted_fee_before r)).

Definition request_fields : reader EngineRequest :=
  plan_hash ← read_array 32;
  market ← read_pubkey;
  domain ← read_pubkey;
  engine_revision ← read_u64;
  amount_in ← read_u64;
  amount_out ← read_u64;
  protocol_fee ← read_u64;
  accounted_input_before ← read_u64;
  accounted_output_before ← read_u64;
  accounted_fee_before ← read_u64;
  mret {| er_plan_hash := plan_hash; er_market := market; er_domain := domain;
          er_engine_revision := engine_revision; er_amount_in := amount_in;
          er_amount_out := amount_out; er_protocol_fee := protocol_fee;
          er_accounted_input_before := accounted_input_before;
          er_accounted_output_before := accounted_output_before;
          er_accounted_fee_before := accounted_fee_before |}.
Definition read_request : reader EngineRequest :=
  version ← read_u8; _ ← lift (require_version version); request_fields.

Definition decode_request (data : list Z) : outcome CodecError EngineRequest :=
  _ ← require_length data ENGINE_REQUEST_LEN;
  run_reader ENGINE_REQUEST_LEN read_request data.

(** [output[..8].copy_from_slice(&DISCRIMINATOR); output[8..].copy_from_slice(...)] *)
Definition encode_evaluate_instruction (r : EngineRequest) : outcome CodecError (list Z) :=
  encoded ← encode_request r;
  run_writer EVALUATE_INSTRUCTION_LEN (put_bytes EVALUATE_DISCRIMINATOR ;> put_bytes encoded).

Definition decode_evaluate_instruction (data : list Z) : outcome CodecError EngineRequest :=
  _ ← require_length data EVALUATE_INSTRUCTION_LEN;
  if bool_decide (take 8 data = EVALUATE_DISCRIMINATOR)
  then decode_request (drop 8 data)
  else Err InvalidDiscriminator.

Definition encode_receipt (r : EngineReceipt) : outcome CodecError (list Z) :=
  run_writer ENGINE_RECEIPT_LEN (
    put_bytes RECEIPT_MAGIC ;>
    put_u8 PROBE_WIRE_VERSION ;>
    put_bytes (rc_plan_hash r) ;>
    put_u64 (rc_state_sequence r)).

Definition receipt_fields : reader EngineReceipt :=
  plan_hash ← read_array 32;
  state_sequence ← read_u64;
  mret {| rc_plan_hash := plan_hash; rc_state_sequence := state_sequence |}.
Definition read_receipt : reader EngineReceipt :=
  magic ← read_array 8;
  _ ← lift (require (bool_decide (magic = RECEIPT_MAGIC)) InvalidMagic);
  version ← read_u8;
  _ ← lift (require_version version);
  receipt_fields.

Definition decode_receipt (data : list Z) : outcome CodecError EngineReceipt :=
  _ ← require_length data ENGINE_RECEIPT_LEN;
  run_reader ENGINE_RECEIPT_LEN read_receipt data.

(** ** Well-formed values: the ranges of the Rust field types *)

Definition plan_binding_wf (b : PlanBinding) : Prop :=
  Forall (byte_string 32)
    [pb_core_program b; pb_market b; pb_domain b; pb_engine_program b; pb_engine_state b;
     pb_user_authority b; pb_user_input b; pb_user_output b; pb_mint_in b; pb_mint_out b;
     pb_domain_input_vault b; pb_domain_output_vault b; pb_protocol_fee_vault b;
     pb_fee_ledger b; pb_token_program b] /\
  Forall is_u64
    [pb_engine_revision b; pb_fee_policy_revision b; pb_amount_in b; pb_amount_out b;
     pb_protocol_fee b; pb_max_total_input_debit b; pb_min_output_credit b;
     pb_max_protocol_fee b; pb_accounted_input_before b; pb_accounted_output_before b;
     pb_accounted_fee_before b; pb_expires_at_slot b].

#[export] Instance plan_binding_wf_dec b : Decision (plan_binding_wf b).
Proof. unfold plan_binding_wf. apply _. Defined.

Definition engine_request_wf (r : EngineRequest) : Prop :=
  Forall (byte_string 32) [er_plan_hash r; er_market r; er_domain r] /\
  Forall is_u64
    [er_engine_revision r; er_amount_in r; er_amount_out r; er_protocol_fee r;
     er_accounted_input_before r; er_accounted_output_before r; er_accounted_fee_before r].

#[export] Instance engine_request_wf_dec r : Decision (engine_request_wf r).
Proof. unfold engine_request_wf. apply _. Defined.

Definition engine_receipt_wf (r : EngineReceipt) : Prop :=
  byte_string 32 (rc_plan_hash r) /\ is_u64 (rc_state_sequence r).

(** ** The layouts: what the encoders promise, as plain concatenations *)

Definition plan_binding_layout (b : PlanBinding) : list Z :=
  [PROBE_WIRE_VERSION] ++
  pb_core_program b ++ pb_market b ++ pb_domain b ++ pb_engine_program b ++
  pb_engine_state b ++ pb_user_authority b ++ pb_user_input b ++ pb_user_output b ++
  pb_mint_in b ++ pb_mint_out b ++ pb_domain_input_vault b ++ pb_domain_output_vault b ++
  pb_protocol_fee_vault b ++ pb_fee_ledger b ++ pb_token_program b ++
  to_le_bytes 8 (pb_engine_revision b) ++ to_le_bytes 8 (pb_fee_policy_revision b) ++
  to_le_bytes 8 (pb_amount_in b) ++ to_le_bytes 8 (pb_amount_out b) ++
  to_le_bytes 8 (pb_protocol_fee b) ++ to_le_bytes 8 (pb_max_total_input_debit b) ++
  to_le_bytes 8 (pb_min_output_credit b) ++ to_le_bytes 8 (pb_max_protocol_fee b) ++
  to_le_bytes 8 (pb_accounted_input_before b) ++ to_le_bytes 8 (pb_accounted_output_before b) ++
  to_le_bytes 8 (pb_accounted_fee_before b) ++ to_le_bytes 8 (pb_expires_at_slot b).

Definition engine_request_layout (r : EngineRequest) : list Z :=
  [PROBE_WIRE_VERSION] ++ er_plan_hash r ++ er_market r ++ er_domain r ++
  to_le_bytes 8 (er_engine_revision r) ++ to_le_bytes 8 (er_amount_in r) ++
  to_le_bytes 8 (er_amount_out r) ++ to_le_bytes 8 (er_protocol_fee r) ++
  to_le_bytes 8 (er_accounted_input_before r) ++ to_le_bytes 8 (er_accounted_output_before r) ++
  to_le_bytes 8 (er_accounted_fee_before r).

Definition engine_receipt_layout (r : EngineReceipt) : list Z :=
  RECEIPT_MAGIC ++ [PROBE_WIRE_VERSION] ++ rc_plan_hash r ++ to_le_bytes 8 (rc_state_sequence r).

Lemma encode_plan_binding_ok b :
  plan_binding_wf b -> encode_plan_binding b = Ok (plan_binding_layout b).
Proof.
  intros [Hk Hu]. apply run_writer_ok; [apply _|]. unfold plan_binding_layout.
  unpack. layout_length.
Qed.

Lemma plan_binding_layout_inj b1 b2 :
  plan_binding_wf b1 -> plan_binding_wf b2 ->
  plan_binding_layout b1 = plan_binding_layout b2 -> b1 = b2.
Proof.
  intros [K1 U1] [K2 U2] Heq. unfold plan_binding_layout in Heq. unpack.
  layout_inj Heq. apply to_le_bytes_inj in Heq; [|auto with core_model..].
  destruct b1, b2; simpl in *; by subst.
Qed.

Lemma encode_request_ok r :
  engine_request_wf r -> encode_request r = Ok (engine_request_layout r).
Proof.
  intros [Hk Hu]. apply run_writer_ok; [apply _|]. unfold engine_request_layout.
  unpack. layout_length.
Qed.

Lemma read_request_reads r : engine_request_wf r -> Reads read_request (engine_request_layout r) r.
Proof.
  intros [Hk Hu]. destruct r; simpl in Hk, Hu. unpack.
  unfold read_request, request_fields, engine_request_layout; cbn [er_plan_hash er_market er_domain
    er_engine_revision er_amount_in er_amount_out er_protocol_fee er_accounted_input_before
    er_accounted_output_before er_accounted_fee_before].
  repeat reads_step.
Qed.

(** Every byte string of the request's length with the right version byte is
    the layout of exactly one well-formed request. *)
Lemma engine_request_split data :
  length data = ENGINE_REQUEST_LEN -> Forall is_u8 data ->
  exists v rest, data = [v] ++ rest /\
    (v = PROBE_WIRE_VERSION ->
     exists r, engine_request_wf r /\ data = engine_request_layout r).
Proof.
  intros Hl Hb. peel u8 v. exists v, rest. split; [reflexivity|]. intros ->.
  peel bytes 32%nat k1. peel bytes 32%nat k2. peel bytes 32%nat k3.
  peel u64 u1. peel u64 u2. peel u64 u3. peel u64 u4. peel u64 u5. peel u64 u6. peel u64 u7.
  peel_end. exists (Build_EngineRequest k1 k2 k3 u1 u2 u3 u4 u5 u6 u7).
  split; [solve_wf|].
  by rewrite app_nil_r.
Qed.

Lemma engine_receipt_split data :
  length data = ENGINE_RECEIPT_LEN -> Forall is_u8 data ->
  exists magic v rest, data = magic ++ [v] ++ rest /\ length magic = 8%nat /\
    (magic = RECEIPT_MAGIC -> v = PROBE_WIRE_VERSION ->
     exists r, engine_receipt_wf r /\ data = engine_receipt_layout r).
Proof.
  intros Hl Hb. peel bytes 8%nat magic. peel u8 v. exists magic, v, rest0.
  split; [reflexivity|]. split; [apply Hmagic|]. intros -> ->.
  peel bytes 32%nat h. peel u64 s. peel_end. exists (Build_EngineReceipt h s).
  split; [solve_wf|]. by rewrite app_nil_r.
Qed.

Lemma encode_receipt_ok r :
  engine_receipt_wf r -> encode_receipt r = Ok (engine_receipt_layout r).
Proof.
  intros [Hk Hu]. apply run_writer_ok; [apply _|]. unfold engine_receipt_layout. layout_length.
Qed.

Lemma read_receipt_reads r : engine_receipt_wf r -> Reads read_receipt (engine_receipt_layout r) r.
Proof.
  intros [Hk Hu]. destruct r; simpl in Hk, Hu.
  unfold read_receipt, receipt_fields, engine_receipt_layout; cbn [rc_plan_hash rc_state_sequence].
  repeat reads_step.
Qed.

Lemma engine_request_length r :
  engine_request_wf r -> length (engine_request_layout r) = ENGINE_REQUEST_LEN.
Proof. intros [Hk Hu]. unfold engine_request_layout. unpack. layout_length. Qed.

Lemma engine_receipt_length r :
  engine_receipt_wf r -> length (engine_receipt_layout r) = ENGINE_RECEIPT_LEN.
Proof. intros [Hk Hu]. unfold engine_receipt_layout. layout_length. Qed.

Lemma decode_receipt_ok r :
  engine_receipt_wf r -> decode_receipt (engine_receipt_layout r) = Ok r.
Proof.
  intros Hwf. unfold decode_receipt.
  rewrite (proj2 (require_length_Ok _ _ tt) (engine_receipt_length r Hwf)), bind_ret_l.
  by apply run_reader_ok; [apply read_receipt_reads | apply engine_receipt_length].
Qed.

(** The identity of a receipt is its first 41 bytes. *)
Lemma receipt_prefix data rc :
  decode_receipt data = Ok rc ->
  length data = ENGINE_RECEIPT_LEN /\
  take 41 data = RECEIPT_MAGIC ++ [PROBE_WIRE_VERSION] ++ rc_plan_hash rc.
Proof.
  unfold decode_receipt. intros (u & Hl%require_length_Ok & Hd%run_reader_Ok)%bind_Ok.
  unfold read_receipt, receipt_fields in Hd. inv_reader Hd. subst.
  repeat match goal with
  | H : require _ _ = Ok _ |- _ => apply require_Ok in H
  | H : require_version _ = Ok _ |- _ => apply require_version_Ok in H
  end. to_prop. subst. split; [done|]. cbn [rc_plan_hash].
  match goal with H : take _ _ = RECEIPT_MAGIC |- _ => rewrite <- H end.
  by rewrite drop_0, (take_byte_slices 8 32).
Qed.

Lemma decode_request_layout data r :
  Forall is_u8 data ->
  decode_request data = Ok r <-> engine_request_wf r /\ engine_request_layout r = data.
Proof.
  exact (versioned_decode_iff ENGINE_REQUEST_LEN request_fields engine_request_wf
    engine_request_layout read_request_reads engine_request_length engine_request_split data r).
Qed.

Lemma decode_request_ok r :
  engine_request_wf r -> decode_request (engine_request_layout r) = Ok r.
Proof.
  intros Hwf. assert (length (engine_request_layout r) = ENGINE_REQUEST_LEN) as Hl.
  { destruct Hwf. unfold engine_request_layout. unpack. layout_length. }
  unfold decode_request. rewrite (proj2 (require_length_Ok _ _ tt) Hl). simpl.
  apply run_reader_ok; [by apply read_request_reads | exact Hl].
Qed.

Lemma encode_evaluate_ok r :
  engine_request_wf r ->
  encode_evaluate_instruction r = Ok (EVALUATE_DISCRIMINATOR ++ engine_request_layout r).
Proof.
  intros Hwf. unfold encode_evaluate_instruction. rewrite (encode_request_ok r Hwf), bind_ret_l.
  apply write_pair_ok. by rewrite length_app, engine_request_length.
Qed.

Lemma decode_request_bad_version v rest :
  length ([v] ++ rest) = ENGINE_REQUEST_LEN -> v <> PROBE_WIRE_VERSION ->
  decode_request ([v] ++ rest) = Err (UnsupportedVersion PROBE_WIRE_VERSION v).
Proof.
  intros Hl Hv. unfold decode_request. rewrite (proj2 (require_length_Ok _ _ tt) Hl).
  apply run_reader_bad_version, Hv.
Qed.

(** ** Properties *)

(** The preimage of a plan hash, as [hashv] receives it. *)
Definition plan_preimage (b : PlanBinding) : list (list Z) :=
  [PLAN_DOMAIN; plan_binding_layout b].

Lemma compute_plan_hash_ok `{Hasher} b :
  plan_binding_wf b -> compute_plan_hash b = Ok (hashv (plan_preimage b)).
Proof. intros Hb. unfold compute_plan_hash. by rewrite encode_plan_binding_ok. Qed.

Lemma plan_hash_injective `{Hasher} b1 b2 h :
  plan_binding_wf b1 -> plan_binding_wf b2 ->
  compute_plan_hash b1 = Ok h -> compute_plan_hash b2 = Ok h ->
  b1 = b2 \/ sha256_collision (plan_preimage b1) (plan_preimage b2).
Proof.
  intros W1 W2. rewrite !compute_plan_hash_ok by done.
  intros H1%Ok_inj H2%Ok_inj. destruct (hashv_binds (plan_preimage b1) (plan_preimage b2))
    as [Heq|]; [congruence|left|by right].
  unfold plan_preimage in Heq. rewrite !concat_pair in Heq.
  apply plan_binding_layout_inj; auto. by eapply app_inv_head.
Qed.

(** The plan hash binds every field of the plan: encoding a well-formed
    binding never panics, and two bindings with the same plan hash are equal,
    unless their two hash preimages are themselves a collision of SHA-256. *)
Theorem compute_plan_hash_binds `{Hasher} b1 b2 :
  plan_binding_wf b1 -> plan_binding_wf b2 ->
  exists h1 h2, compute_plan_hash b1 = Ok h1 /\ compute_plan_hash b2 = Ok h2 /\
    (h1 = h2 -> b1 = b2 \/ sha256_collision (plan_preimage b1) (plan_preimage b2)).
Proof.
  intros W1 W2. eexists _, _. split; [by apply compute_plan_hash_ok|].
  split; [by apply compute_plan_hash_ok|]. intros Heq.
  apply (plan_hash_injective b1 b2 (hashv (plan_preimage b1))); try done;
    [|rewrite Heq]; by apply compute_plan_hash_ok.
Qed.

(** The request codec accepts exactly the canonical encodings: a byte
    string decodes to [r] iff [r] is in range and the string is [r]'s encoding. *)
Theorem decode_request_iff data r :
  Forall is_u8 data ->
  decode_request data = Ok r <-> engine_request_wf r /\ encode_request r = Ok data.
Proof.
  intros Hb. rewrite decode_request_layout by done.
  split; intros [Hwf He]; (split; [done|]); rewrite (encode_request_ok r Hwf) in *; congruence.
Qed.

(** The request decoder never panics and rejects for exactly two reasons,
    in this order: a length other than 153, then a version byte other than 0. *)
Theorem decode_request_errors data :
  Forall is_u8 data ->
  match decode_request data with
  | Ok r => length data = ENGINE_REQUEST_LEN /\ data !! 0%nat = Some PROBE_WIRE_VERSION
  | Err (InvalidLength e a) => e = 153 /\ a = Z.of_nat (length data) /\ a <> e
  | Err (UnsupportedVersion e v) =>
      e = 0 /\ length data = ENGINE_REQUEST_LEN /\ data !! 0%nat = Some v /\ v <> e
  | _ => False
  end.
Proof.
  intros Hb. destruct (length_ok_or data ENGINE_REQUEST_LEN) as [[Hl _]|[Hl E]].
  - destruct (engine_request_split data Hl Hb) as (v & rest & -> & Hv).
    destruct (decide (v = PROBE_WIRE_VERSION)) as [Ev|Ev].
    + destruct (Hv Ev) as (r & Hwf & Heq). rewrite Heq in Hl |- *.
      rewrite (decode_request_ok r Hwf). split; [exact Hl | reflexivity].
    + rewrite (decode_request_bad_version v rest Hl Ev). auto.
  - unfold decode_request. rewrite E. simpl. change ENGINE_REQUEST_LEN with 153%nat in *. lia.
Qed.

(** The evaluate instruction round-trips with its discriminator: it decodes
    to [r] iff it is the discriminator followed by the encoding of [r]. *)
Theorem decode_evaluate_instruction_iff data r :
  Forall is_u8 data ->
  decode_evaluate_instruction data = Ok r <->
    engine_request_wf r /\ encode_evaluate_instruction r = Ok data.
Proof.
  intros Hb. unfold decode_evaluate_instruction. split.
  - intros (? & Hl%require_length_Ok & Hd)%bind_Ok.
    case_bool_decide as Hdisc; [|discriminate].
    apply decode_request_layout in Hd as [Hwf He]; [|by apply Forall_drop].
    split; [done|]. rewrite encode_evaluate_ok, He, <- Hdisc by done. f_equal. apply take_drop.
  - intros [Hwf He]. rewrite (encode_evaluate_ok r Hwf) in He. apply Ok_inj in He as <-.
    assert (length (EVALUATE_DISCRIMINATOR ++ engine_request_layout r) = EVALUATE_INSTRUCTION_LEN)
      as Hl by (rewrite length_app, engine_request_length by done; reflexivity).
    rewrite (proj2 (require_length_Ok _ _ tt) Hl), bind_ret_l.
    by apply (decode_request_ok r).
Qed.

(** The receipt decoder accepts exactly the canonical encodings: length
    49, the magic, version 0, then the fields. *)
Theorem decode_receipt_iff data r :
  Forall is_u8 data ->
  decode_receipt data = Ok r <-> engine_receipt_wf r /\ encode_receipt r = Ok data.
Proof.
  intros Hb. unfold decode_receipt, read_receipt.
  rewrite (magic_decode_iff ENGINE_RECEIPT_LEN RECEIPT_MAGIC InvalidMagic receipt_fields
    engine_receipt_wf engine_receipt_layout eq_refl read_receipt_reads engine_receipt_length
    engine_receipt_split data r Hb).
  split; intros [Hwf He]; (split; [done|]); rewrite (encode_receipt_ok r Hwf) in *; congruence.
Qed.

(** ** Witnesses *)

#[local] Instance identity_hasher : Hasher := {| hashv := @concat Z |}.

Definition sample_key (b : Z) : Pubkey := replicate 32 b.
Definition sample_binding : PlanBinding :=
  Build_PlanBinding (sample_key 1) (sample_key 2) (sample_key 3) (sample_key 4) (sample_key 5)
    (sample_key 6) (sample_key 7) (sample_key 8) (sample_key 9) (sample_key 10) (sample_key 11)
    (sample_key 12) (sample_key 13) (sample_key 14) (sample_key 15)
    16 17 18 19 20 21 22 23 24 25 26 27.
Definition sample_request : EngineRequest :=
  Build_EngineRequest (sample_key 0xa5) (sample_key 1) (sample_key 2) 3 4 5 6 7 8 9.
Definition sample_receipt : EngineReceipt :=
  Build_EngineReceipt (sample_key 0x5a) 0x0102030405060708.

Lemma compute_plan_hash_binds_witness :
  exists h1 h2, compute_plan_hash sample_binding = Ok h1 /\
    compute_plan_hash sample_binding = Ok h2 /\
    (h1 = h2 -> sample_binding = sample_binding \/
      sha256_collision (plan_preimage sample_binding) (plan_preimage sample_binding)).
Proof. apply compute_plan_hash_binds; repeat constructor; vm_compute; congruence. Defined.

Lemma decode_request_iff_witness :
  decode_request (engine_request_layout sample_request) = Ok sample_request <->
    engine_request_wf sample_request /\
    encode_request sample_request = Ok (engine_request_layout sample_request).
Proof. apply decode_request_iff. repeat constructor; vm_compute; congruence. Defined.

Lemma decode_request_errors_witness :
  match decode_request [1] with
  | Ok r => length [1] = ENGINE_REQUEST_LEN /\ [1] !! 0%nat = Some PROBE_WIRE_VERSION
  | Err (InvalidLength e a) => e = 153 /\ a = Z.of_nat (length [1]) /\ a <> e
  | Err (UnsupportedVersion e v) =>
      e = 0 /\ length [1] = ENGINE_REQUEST_LEN /\ [1] !! 0%nat = Some v /\ v <> e
  | _ => False
  end.
Proof. apply (decode_request_errors [1]). repeat constructor; vm_compute; congruence. Defined.

Lemma decode_evaluate_instruction_iff_witness :
  decode_evaluate_instruction (EVALUATE_DISCRIMINATOR ++ engine_request_layout sample_request)
    = Ok sample_request <->
  engine_request_wf sample_request /\ encode_evaluate_instruction sample_request =
    Ok (EVALUATE_DISCRIMINATOR ++ engine_request_layout sample_request).
Proof. apply decode_evaluate_instruction_iff. repeat constructor; vm_compute; congruence. Defined.

Lemma decode_receipt_iff_witness :
  decode_receipt (engine_receipt_layout sample_receipt) = Ok sample_receipt <->
    engine_receipt_wf sample_receipt /\
    encode_receipt sample_receipt = Ok (engine_receipt_layout sample_receipt).
Proof. apply decode_receipt_iff. repeat constructor; vm_compute; congruence. Defined.
