(* ===== verification/CoreState.v ===== *)
(** * State, constants, errors and events of the three core programs

    programs/core and the two experiment cores (generated-settlement-core,
    routed-callback-core) declare the same three account structs and repeat
    most of their code; what differs between the crates is a program id, the
    PDA seeds and the error enum. The differences are collected in the class
    [CoreConfig], one instance per crate, and the shared code is modelled once
    against that class. *)
From S2P Require Import Prelude Codec.

(** ** state.rs *)

Record MarketV0 := {
  m_version : Z;
  m_bump : Z;
  m_initializer : Pubkey;
  m_market_id : list Z;
  m_engine_program : Pubkey;
  m_engine_state : Pubkey;
  m_engine_revision : Z;
  m_mint_a : Pubkey;
  m_mint_b : Pubkey;
  m_fee_bps : Z;
  m_fee_policy_revision : Z }.

Record DomainV0 := {
  d_version : Z;
  d_bump : Z;
  d_vault_a_bump : Z;
  d_vault_b_bump : Z;
  d_market : Pubkey;
  d_engine_program : Pubkey;
  d_engine_state : Pubkey;
  d_engine_revision : Z;
  d_accounted_a : Z;
  d_accounted_b : Z }.

Record FeeLedgerV0 := {
  fl_version : Z;
  fl_bump : Z;
  fl_fee_vault_bump : Z;
  fl_market : Pubkey;
  fl_mint_a : Pubkey;
  fl_accounted_fee_a : Z }.

#[export] Instance MarketV0_eq_dec : EqDecision MarketV0.
Proof. solve_decision. Defined.
#[export] Instance DomainV0_eq_dec : EqDecision DomainV0.
Proof. solve_decision. Defined.
#[export] Instance FeeLedgerV0_eq_dec : EqDecision FeeLedgerV0.
Proof. solve_decision. Defined.

(** [accounts.domain.accounted_a = ...] and the other field assignments *)
Definition set_accounted_a (d : DomainV0) (v : Z) : DomainV0 :=
  Build_DomainV0 (d_version d) (d_bump d) (d_vault_a_bump d) (d_vault_b_bump d) (d_market d)
    (d_engine_program d) (d_engine_state d) (d_engine_revision d) v (d_accounted_b d).
Definition set_accounted_b (d : DomainV0) (v : Z) : DomainV0 :=
  Build_DomainV0 (d_version d) (d_bump d) (d_vault_a_bump d) (d_vault_b_bump d) (d_market d)
    (d_engine_program d) (d_engine_state d) (d_engine_revision d) (d_accounted_a d) v.
Definition set_accounted_fee_a (l : FeeLedgerV0) (v : Z) : FeeLedgerV0 :=
  Build_FeeLedgerV0 (fl_version l) (fl_bump l) (fl_fee_vault_bump l) (fl_market l) (fl_mint_a l) v.

(** ** error.rs

    The variants of the three [CoreError] enums in one type. *)
Inductive CoreError : Type :=
  | UnexpectedRemainingAccounts | DuplicateAccountRole | UnsupportedAssetIndex | ZeroAmount
  | ArithmeticOverflow | IntegerConversionFailed | IdenticalMints | NativeMintUnsupported
  | MintNotInitialized | MintFreezeAuthorityUnsupported | TokenAccountNotInitialized
  | FrozenTokenAccount | NativeTokenAccountUnsupported | InvalidTokenMint
  | InvalidTokenAuthority | TokenDelegateUnsupported | TokenCloseAuthorityUnsupported
  | InvalidDelegatedAmount | InvalidMarket | InvalidDomainAdmission | InvalidDomain
  | InvalidDomainVault | InvalidFeeLedger | InvalidFeeVault | InvalidEngineProgram
  | InvalidEngineState | InvalidEngineRevision | InvalidFeePolicy | InvalidEngineStateOwner
  | EngineProgramNotExecutable | EngineStateExecutable | CoreCannotBeEngine
  | UnexpectedWritablePrivilege | VaultBelowAccountedBalance | InsufficientAccountedLiquidity
  | UnexpectedSourceDebit | UnexpectedDestinationCredit | UnexpectedVaultCredit
  | UnexpectedVaultDebit | UnexpectedFeeVaultCredit | RequestExpired | OutputBelowUserMinimum
  | ProtocolFeeAboveUserMaximum | TotalDebitAboveUserMaximum | DirectInvocationRequired
  | MissingEngineReceipt | InvalidEngineReceiptSetter | InvalidEngineReceipt
  | EngineReceiptPlanMismatch | TooManyOpaqueAccounts | OpaquePayloadTooLarge
  | OpaqueSignerForbidden | OpaqueFixedRoleAlias | OpaqueCoreOwnedAccount
  | OpaqueExecutableWritable | OpaqueProtectedTokenAccountWritable
  | OpaqueNormalizedPrivilegeUnavailable | CapabilityHashExpectationMismatch
  | InvalidWireEncoding | UnexpectedSignerPrivilege | InsufficientUserSourceBalance
  | EngineReceiptRequestMismatch | UnsupportedTimingMode | IntentCoreProgramMismatch
  | IntentUserAuthorityMismatch | IntentUserInputMismatch | IntentInputMintMismatch
  | IntentTokenProgramMismatch | ExistingTokenDelegate | DelegatedAmountMismatch
  | InvalidSpendAuthority | SpendDelegateNotCleared | SourceBalanceChangedDuringAuthorization
  | InvalidCallbackAuthority | EngineReceiptPhaseMismatch | EngineReceiptIntentMismatch
  | EngineReceiptExecutionMismatch | PrepareSequenceChanged | TransitionSequenceMismatch
  | CommitSequenceMismatch | CommitOutputMismatch.

#[export] Instance CoreError_eq_dec : EqDecision CoreError.
Proof. solve_decision. Defined.

(** The enum of each crate, in declaration order; a variant's position is its
    error number. *)
Definition kernel_errors : list CoreError := [
  UnexpectedRemainingAccounts; DuplicateAccountRole; UnsupportedAssetIndex; ZeroAmount;
  ArithmeticOverflow; IntegerConversionFailed; IdenticalMints; NativeMintUnsupported;
  MintNotInitialized; MintFreezeAuthorityUnsupported; TokenAccountNotInitialized;
  FrozenTokenAccount; NativeTokenAccountUnsupported; InvalidTokenMint; InvalidTokenAuthority;
  TokenDelegateUnsupported; TokenCloseAuthorityUnsupported; InvalidDelegatedAmount;
  InvalidMarket; InvalidDomainAdmission; InvalidDomain; InvalidDomainVault; InvalidFeeLedger;
  InvalidFeeVault; InvalidEngineProgram; InvalidEngineState; InvalidEngineRevision;
  InvalidFeePolicy; InvalidEngineStateOwner; EngineProgramNotExecutable;
  EngineStateExecutable; CoreCannotBeEngine; UnexpectedWritablePrivilege;
  VaultBelowAccountedBalance; InsufficientAccountedLiquidity; UnexpectedSourceDebit;
  UnexpectedDestinationCredit; UnexpectedVaultCredit; UnexpectedVaultDebit;
  UnexpectedFeeVaultCredit; RequestExpired; OutputBelowUserMinimum;
  ProtocolFeeAboveUserMaximum; TotalDebitAboveUserMaximum; DirectInvocationRequired;
  MissingEngineReceipt; InvalidEngineReceiptSetter; InvalidEngineReceipt;
  EngineReceiptPlanMismatch].

Definition generated_errors : list CoreError := [
  UnexpectedRemainingAccounts; TooManyOpaqueAccounts; OpaquePayloadTooLarge;
  OpaqueSignerForbidden; OpaqueFixedRoleAlias; OpaqueCoreOwnedAccount;
  OpaqueExecutableWritable; OpaqueProtectedTokenAccountWritable;
  OpaqueNormalizedPrivilegeUnavailable; CapabilityHashExpectationMismatch;
  InvalidWireEncoding; DuplicateAccountRole; UnsupportedAssetIndex; ZeroAmount;
  ArithmeticOverflow; IntegerConversionFailed; IdenticalMints; NativeMintUnsupported;
  MintNotInitialized; MintFreezeAuthorityUnsupported; TokenAccountNotInitialized;
  FrozenTokenAccount; NativeTokenAccountUnsupported; InvalidTokenMint; InvalidTokenAuthority;
  TokenDelegateUnsupported; TokenCloseAuthorityUnsupported; InvalidDelegatedAmount;
  InvalidMarket; InvalidDomainAdmission; InvalidDomain; InvalidDomainVault; InvalidFeeLedger;
  InvalidFeeVault; InvalidEngineProgram; InvalidEngineState; InvalidEngineRevision;
  InvalidFeePolicy; InvalidEngineStateOwner; EngineProgramNotExecutable;
  EngineStateExecutable; CoreCannotBeEngine; UnexpectedWritablePrivilege;
  UnexpectedSignerPrivilege; VaultBelowAccountedBalance; InsufficientAccountedLiquidity;
  InsufficientUserSourceBalance; UnexpectedSourceDebit; UnexpectedDestinationCredit;
  UnexpectedVaultCredit; UnexpectedVaultDebit; UnexpectedFeeVaultCredit; RequestExpired;
  OutputBelowUserMinimum; ProtocolFeeAboveUserMaximum; TotalDebitAboveUserMaximum;
  DirectInvocationRequired; MissingEngineReceipt; InvalidEngineReceiptSetter;
  InvalidEngineReceipt; EngineReceiptRequestMismatch].

Definition routed_errors : list CoreError := [
  UnexpectedRemainingAccounts; TooManyOpaqueAccounts; OpaquePayloadTooLarge;
  OpaqueSignerForbidden; OpaqueFixedRoleAlias; OpaqueCoreOwnedAccount;
  OpaqueExecutableWritable; OpaqueProtectedTokenAccountWritable;
  OpaqueNormalizedPrivilegeUnavailable; CapabilityHashExpectationMismatch;
  UnsupportedTimingMode; InvalidWireEncoding; IntentCoreProgramMismatch;
  IntentUserAuthorityMismatch; IntentUserInputMismatch; IntentInputMintMismatch;
  IntentTokenProgramMismatch; DuplicateAccountRole; UnsupportedAssetIndex; ZeroAmount;
  ArithmeticOverflow; IntegerConversionFailed; IdenticalMints; NativeMintUnsupported;
  MintNotInitialized; MintFreezeAuthorityUnsupported; TokenAccountNotInitialized;
  FrozenTokenAccount; NativeTokenAccountUnsupported; InvalidTokenMint; InvalidTokenAuthority;
  TokenDelegateUnsupported; ExistingTokenDelegate; TokenCloseAuthorityUnsupported;
  InvalidDelegatedAmount; DelegatedAmountMismatch; InvalidSpendAuthority;
  SpendDelegateNotCleared; SourceBalanceChangedDuringAuthorization; InvalidMarket;
  InvalidDomainAdmission; InvalidDomain; InvalidDomainVault; InvalidFeeLedger;
  InvalidFeeVault; InvalidEngineProgram; InvalidEngineState; InvalidEngineRevision;
  InvalidFeePolicy; InvalidEngineStateOwner; EngineProgramNotExecutable;
  EngineStateExecutable; CoreCannotBeEngine; UnexpectedWritablePrivilege;
  UnexpectedSignerPrivilege; VaultBelowAccountedBalance; InsufficientAccountedLiquidity;
  InsufficientUserSourceBalance; UnexpectedSourceDebit; UnexpectedDestinationCredit;
  UnexpectedVaultCredit; UnexpectedVaultDebit; UnexpectedFeeVaultCredit; RequestExpired;
  OutputBelowUserMinimum; ProtocolFeeAboveUserMaximum; TotalDebitAboveUserMaximum;
  DirectInvocationRequired; InvalidCallbackAuthority; MissingEngineReceipt;
  InvalidEngineReceiptSetter; InvalidEngineReceipt; EngineReceiptPhaseMismatch;
  EngineReceiptIntentMismatch; EngineReceiptExecutionMismatch; PrepareSequenceChanged;
  TransitionSequenceMismatch; CommitSequenceMismatch; CommitOutputMismatch].

Definition error_number (variants : list CoreError) (e : CoreError) : option nat :=
  fst <$> list_find (eq e) variants.

(** ** constants.rs *)

(** [pubkey!("...")] and [declare_id!]: a base-58 literal, 32 bytes big-endian. *)
Definition base58_alphabet : list Z :=
  bytes_of_string "123456789ABCDEFGHJKLMNPQRSTUVWXYZabcdefghijkmnopqrstuvwxyz".
Definition base58_digit (c : Z) : Z :=
  match list_find (eq c) base58_alphabet with Some (i, _) => Z.of_nat i | None => 0 end.
Definition pubkey_literal (s : string) : Pubkey :=
  reverse (to_le_bytes 32 (foldl (fun acc c => 58 * acc + base58_digit c) 0 (bytes_of_string s))).

Definition EXPERIMENT_VERSION_V0 : Z := 0.
Definition ASSET_A_INDEX_V0 : Z := 0.
Definition ASSET_B_INDEX_V0 : Z := 1.
Definition ASSET_A_SEED_V0 : list Z := [ASSET_A_INDEX_V0].
Definition ASSET_B_SEED_V0 : list Z := [ASSET_B_INDEX_V0].
Definition PROTOCOL_FEE_BPS_V0 : Z := 30.
Definition FEE_POLICY_REVISION_V0 : Z := 0.
Definition BASIS_POINTS_DENOMINATOR : Z := 10000.
Definition INSTRUCTIONS_SYSVAR_ID : Pubkey :=
  Eval vm_compute in pubkey_literal "Sysvar1nstructions1111111111111111111111111".

(** What differs between the crates. [ROLE_GUARD] is the tail of the role lists
    of deposit and initialize: the experiment cores append their own program
    id to the keys that must be distinct, programs/core does not. *)
Class CoreConfig := {
  ID : Pubkey;
  MARKET_SEED_V0 : list Z;
  DOMAIN_SEED_V0 : list Z;
  VAULT_SEED_V0 : list Z;
  FEE_LEDGER_SEED_V0 : list Z;
  FEE_VAULT_SEED_V0 : list Z;
  ROLE_GUARD : list Pubkey }.

(** [declare_id!] of the three crates. *)
Definition kernel_ID : Pubkey :=
  Eval vm_compute in pubkey_literal "CfBnUaJwALVpd5Dtkt39zsvY9nwNTdrNxDvoxuCtKiR3".
Definition generated_ID : Pubkey :=
  Eval vm_compute in pubkey_literal "EJKx7XFp6CZQuAHD6AC14g7nUKeczJMr2TX9XRUEjs36".
Definition routed_ID : Pubkey :=
  Eval vm_compute in pubkey_literal "Bwhiw9S9ZdHkEhFF2Ps89HMxa5dHX1xSbdsGZ8W3qR2b".

Definition kernel_config : CoreConfig := {|
  ID := kernel_ID;
  MARKET_SEED_V0 := bytes_of_string "market-v0";
  DOMAIN_SEED_V0 := bytes_of_string "domain-v0";
  VAULT_SEED_V0 := bytes_of_string "vault-v0";
  FEE_LEDGER_SEED_V0 := bytes_of_string "fee-ledger-v0";
  FEE_VAULT_SEED_V0 := bytes_of_string "fee-vault-v0";
  ROLE_GUARD := [] |}.

Definition generated_config : CoreConfig := {|
  ID := generated_ID;
  MARKET_SEED_V0 := bytes_of_string "generated-market-v0";
  DOMAIN_SEED_V0 := bytes_of_string "generated-domain-v0";
  VAULT_SEED_V0 := bytes_of_string "generated-vault-v0";
  FEE_LEDGER_SEED_V0 := bytes_of_string "generated-fee-ledger-v0";
  FEE_VAULT_SEED_V0 := bytes_of_string "generated-fee-vault-v0";
  ROLE_GUARD := [generated_ID] |}.

Definition routed_config : CoreConfig := {|
  ID := routed_ID;
  MARKET_SEED_V0 := bytes_of_string "routed-market-v0";
  DOMAIN_SEED_V0 := bytes_of_string "routed-domain-v0";
  VAULT_SEED_V0 := bytes_of_string "routed-vault-v0";
  FEE_LEDGER_SEED_V0 := bytes_of_string "routed-fee-ledger-v0";
  FEE_VAULT_SEED_V0 := bytes_of_string "routed-fee-vault-v0";
  ROLE_GUARD := [routed_ID] |}.

(** ** events.rs: the events the shared instructions emit *)

Record MarketDomainInitializedV0 := {
  mdi_market : Pubkey;
  mdi_domain : Pubkey;
  mdi_engine_program : Pubkey;
  mdi_engine_state : Pubkey;
  mdi_engine_revision : Z;
  mdi_mint_a : Pubkey;
  mdi_mint_b : Pubkey;
  mdi_fee_ledger : Pubkey;
  mdi_fee_bps : Z }.

Record LiquidityDepositedV0 := {
  ld_market : Pubkey;
  ld_domain : Pubkey;
  ld_provider : Pubkey;
  ld_mint : Pubkey;
  ld_asset_index : Z;
  ld_amount : Z;
  ld_post_accounted_balance : Z }.

Example sysvar_id_bytes : take 4 INSTRUCTIONS_SYSVAR_ID = [0x06; 0xa7; 0xd5; 0x17].
Proof. vm_compute. reflexivity. Qed.
