(* ===== verification/EngineState.v ===== *)
(** * Account data of the test engines and helper programs

    The [#[account]] structs of spike-engine, generated-plan-engine,
    routed-plan-engine, opaque-capability-probe and callback-capability-probe.
    Anchor's serialization of them is not in the repository: like Core's own
    accounts they are stored in the ledger as values. *)
From S2P Require Import Prelude Codec.

(** spike-engine *)
Record SpikeEngineState := {
  ss_authority : Pubkey;
  ss_market : Pubkey;
  ss_revision : Z;
  ss_sequence : Z;
  ss_last_plan_hash : list Z;
  ss_mode : Z }.

(** generated-plan-engine *)
Record GeneratedEngineState := {
  gs_authority : Pubkey;
  gs_market : Pubkey;
  gs_revision : Z;
  gs_lp_fee_bps : Z;
  gs_sequence : Z;
  gs_last_request_hash : list Z;
  gs_last_amount_out : Z;
  gs_capability_authority_bump : Z;
  gs_mode : Z }.

Record CapabilityAuthorityMarker := { cam_engine_state : Pubkey }.

(** routed-plan-engine *)
Record RoutedEngineState := {
  rs_authority : Pubkey;
  rs_market : Pubkey;
  rs_revision : Z;
  rs_lp_fee_bps : Z;
  rs_timing_mode : Z;
  rs_sequence : Z;
  rs_last_intent_digest : list Z;
  rs_last_phase_context_digest : list Z;
  rs_last_execution_digest : list Z;
  rs_last_amount_out : Z;
  rs_last_phase : Z;
  rs_mode : Z }.

(** opaque-capability-probe and callback-capability-probe: a counter and the
    key that may increment it ([authority], [allowed_callback]). *)
Record HelperState := {
  hs_authority : Pubkey;
  hs_calls : Z;
  hs_value : Z }.

#[export] Instance SpikeEngineState_eq_dec : EqDecision SpikeEngineState.
Proof. solve_decision. Defined.
#[export] Instance GeneratedEngineState_eq_dec : EqDecision GeneratedEngineState.
Proof. solve_decision. Defined.
#[export] Instance CapabilityAuthorityMarker_eq_dec : EqDecision CapabilityAuthorityMarker.
Proof. solve_decision. Defined.
#[export] Instance RoutedEngineState_eq_dec : EqDecision RoutedEngineState.
Proof. solve_decision. Defined.
#[export] Instance HelperState_eq_dec : EqDecision HelperState.
Proof. solve_decision. Defined.

(** The typed data of a program other than Core and the token program. *)
Inductive ProgramData :=
  | SpikeEngineData (s : SpikeEngineState)
  | GeneratedEngineData (s : GeneratedEngineState)
  | MarkerData (m : CapabilityAuthorityMarker)
  | RoutedEngineData (s : RoutedEngineState)
  | OpaqueHelperData (s : HelperState)
  | CallbackHelperData (s : HelperState).
