(* ===== verification/Solana.v ===== *)
(** * The runtime the programs are written against

    Solana, Anchor and the SPL Token program are not part of the repository.
    What the source reads of them is data (account metadata, the fields of mints
    and token accounts, the clock, the stack height, the return-data slot); what
    it calls is the class [Runtime], a parameter of every handler: PDA
    derivation, SHA-256, cross-program invocation and the token instructions.
    Nothing is assumed about a [Runtime]; theorems that need a documented
    behaviour name it as a hypothesis. *)
From S2P Require Import Prelude Codec CoreState EngineState.

(** ** Account metadata *)

Record AccountInfo := {
  ai_key : Pubkey;
  ai_owner : Pubkey;
  ai_is_signer : bool;
  ai_is_writable : bool;
  ai_executable : bool }.

Record AccountMeta := {
  am_pubkey : Pubkey;
  am_is_signer : bool;
  am_is_writable : bool }.
(** [AccountMeta::new] and [AccountMeta::new_readonly] *)
Definition meta_new (k : Pubkey) (is_signer : bool) : AccountMeta :=
  {| am_pubkey := k; am_is_signer := is_signer; am_is_writable := true |}.
Definition meta_new_readonly (k : Pubkey) (is_signer : bool) : AccountMeta :=
  {| am_pubkey := k; am_is_signer := is_signer; am_is_writable := false |}.

Record Instruction := {
  ix_program_id : Pubkey;
  ix_accounts : list AccountMeta;
  ix_data : list Z }.

(** ** The fields the source reads of SPL Token accounts and mints *)

Inductive AccountState := Uninitialized | Initialized | Frozen.
#[export] Instance AccountState_eq_dec : EqDecision AccountState.
Proof. solve_decision. Defined.

Record TokenAccount := {
  ta_mint : Pubkey;
  ta_owner : Pubkey;
  ta_amount : Z;
  ta_delegate : option Pubkey;
  ta_state : AccountState;
  ta_is_native : option Z;
  ta_delegated_amount : Z;
  ta_close_authority : option Pubkey }.

Record Mint := {
  mint_decimals : Z;
  mint_is_initialized : bool;
  mint_freeze_authority : option Pubkey }.

#[export] Instance TokenAccount_eq_dec : EqDecision TokenAccount.
Proof. solve_decision. Defined.
#[export] Instance Mint_eq_dec : EqDecision Mint.
Proof. solve_decision. Defined.

(** ** The ledger a handler runs in

    One map from addresses to account data: two roles with one address are one
    account. Data of programs outside the repository is opaque bytes. *)
Inductive AccountData :=
  | TokenData (t : TokenAccount)
  | MintData (m : Mint)
  | MarketData (m : MarketV0)
  | DomainData (d : DomainV0)
  | FeeLedgerData (l : FeeLedgerV0)
  | OtherProgramData (d : ProgramData)
  | OpaqueData (bytes : list Z).

Record World := {
  w_slot : Z;
  w_stack_height : Z;
  w_return_data : option (Pubkey * list Z);
  w_accounts : gmap Pubkey AccountData }.

Definition TRANSACTION_LEVEL_STACK_HEIGHT : Z := 1.
(** [Pubkey::default()] *)
Definition default_pubkey : Pubkey := replicate 32 0.
Definition system_program_ID : Pubkey :=
  Eval vm_compute in pubkey_literal "11111111111111111111111111111111".

Definition token_at (w : World) (k : Pubkey) : option TokenAccount :=
  match w_accounts w !! k with Some (TokenData t) => Some t | _ => None end.
Definition domain_at (w : World) (k : Pubkey) : option DomainV0 :=
  match w_accounts w !! k with Some (DomainData d) => Some d | _ => None end.
Definition market_at (w : World) (k : Pubkey) : option MarketV0 :=
  match w_accounts w !! k with Some (MarketData m) => Some m | _ => None end.
Definition fee_ledger_at (w : World) (k : Pubkey) : option FeeLedgerV0 :=
  match w_accounts w !! k with Some (FeeLedgerData l) => Some l | _ => None end.
Definition mint_at (w : World) (k : Pubkey) : option Mint :=
  match w_accounts w !! k with Some (MintData m) => Some m | _ => None end.

Definition program_data_at (w : World) (k : Pubkey) : option ProgramData :=
  match w_accounts w !! k with Some (OtherProgramData d) => Some d | _ => None end.

Definition store (w : World) (k : Pubkey) (d : AccountData) : World :=
  {| w_slot := w_slot w; w_stack_height := w_stack_height w;
     w_return_data := w_return_data w; w_accounts := <[k := d]> (w_accounts w) |}.

(** [set_return_data] *)
Definition set_return_data (w : World) (program : Pubkey) (data : list Z) : World :=
  {| w_slot := w_slot w; w_stack_height := w_stack_height w;
     w_return_data := Some (program, data); w_accounts := w_accounts w |}.

(** ** Errors of a handler *)
Inductive Error :=
  | Core (e : CoreError)
  | ProgramError (code : Z)      (** returned by a callee or by the runtime *)
  | ConstraintViolated           (** an Anchor account constraint *)
  | AccountNotLoaded.            (** an account that does not deserialize *)

#[export] Instance Error_eq_dec : EqDecision Error.
Proof. solve_decision. Defined.

Abbreviation result := (outcome Error).

(** ** Anchor's [Account<T>]: metadata and the deserialized copy *)
Record Account (T : Type) := { acc_info : AccountInfo; acc_data : T }.
Arguments acc_info {T}.
Arguments acc_data {T}.
Arguments Build_Account {T}.
Definition key {T} (a : Account T) : Pubkey := ai_key (acc_info a).
Definition set_data {T} (a : Account T) (d : T) : Account T := Build_Account (acc_info a) d.

Record TransferChecked := {
  tc_from : AccountInfo;
  tc_mint : AccountInfo;
  tc_to : AccountInfo;
  tc_authority : AccountInfo }.

Record ApproveChecked := {
  ac_to : AccountInfo;
  ac_mint : AccountInfo;
  ac_delegate : AccountInfo;
  ac_authority : AccountInfo }.

(** A signer-seed list of [invoke_signed]: one list of seeds per PDA. *)
Abbreviation SignerSeeds := (list (list (list Z))).

Class Runtime := {
  rt_hasher :: Hasher;
  create_program_address : list (list Z) -> Pubkey -> option Pubkey;
  find_program_address : list (list Z) -> Pubkey -> Pubkey * Z;
  native_mint_ID : Pubkey;
  spl_token_ID : Pubkey;
  token_2022_ID : Pubkey;
  invoke_signed : World -> Instruction -> list AccountInfo -> SignerSeeds -> result World;
  transfer_checked : World -> TransferChecked -> SignerSeeds -> Z -> Z -> result World;
  approve_checked : World -> ApproveChecked -> SignerSeeds -> Z -> Z -> result World }.

Section Operations.
Context `{Runtime}.

Definition invoke (w : World) (ix : Instruction) (infos : list AccountInfo) : result World :=
  invoke_signed w ix infos [].

(** [Account::reload]: deserialize the account again from the ledger. *)
Definition reload (w : World) (a : Account TokenAccount) : result (Account TokenAccount) :=
  t ← ok_or (token_at w (key a)) AccountNotLoaded;
  Ok (set_data a t).
End Operations.

(** [require_keys_eq!], [require_keys_neq!] and the guards of the handlers *)
Definition key_eqb (a b : Pubkey) : bool := bool_decide (a = b).
Definition require_core (b : bool) (e : CoreError) : result unit := require b (Core e).
Definition require_keys_eq (a b : Pubkey) (e : CoreError) : result unit :=
  require (key_eqb a b) (Core e).
Definition require_keys_neq (a b : Pubkey) (e : CoreError) : result unit :=
  require (negb (key_eqb a b)) (Core e).
Definition core_ok_or {A} (o : option A) (e : CoreError) : result A := ok_or o (Core e).

(** ** Anchor's account constraints

    The attributes of the [#[derive(Accounts)]] structs, as documented: an
    [Account<T>] is owned by the program that declares [T] and is the
    deserialized ledger entry, [mut] asks for write privilege, [seeds]/[bump]
    for the PDA of those seeds, [token::mint]/[token::authority] for the mint
    and owner of a token account. *)
Section Constraints.
Context `{Runtime}.

Definition is_account {T} `{EqDecision T} (at_ : World -> Pubkey -> option T) (w : World)
    (owner : Pubkey) (a : Account T) : bool :=
  key_eqb (ai_owner (acc_info a)) owner && bool_decide (at_ w (key a) = Some (acc_data a)).
Definition is_mut {T} (a : Account T) : bool := ai_is_writable (acc_info a).
Definition is_pda (seeds : list (list Z)) (bump : Z) (program k : Pubkey) : bool :=
  bool_decide (create_program_address (seeds ++ [[bump]]) program = Some k).
Definition is_token (a : Account TokenAccount) (mint authority : Pubkey) : bool :=
  key_eqb (ta_mint (acc_data a)) mint && key_eqb (ta_owner (acc_data a)) authority.
Definition is_token_program (a : AccountInfo) : bool :=
  key_eqb (ai_key a) spl_token_ID && ai_executable a.
End Constraints.

Lemma is_account_loaded {T} `{EqDecision T} at_ w owner (a : Account T) :
  is_account at_ w owner a = true -> at_ w (key a) = Some (acc_data a).
Proof. unfold is_account. intros. by to_prop. Qed.

(** An encoder without a [Result]: it returns or panics. *)
Definition infallible {E A} (m : outcome CodecError A) : outcome E A :=
  match m with Ok a => Ok a | _ => Panic end.

Lemma infallible_Ok {E A} (m : outcome CodecError A) a :
  @infallible E A m = Ok a <-> m = Ok a.
Proof. destruct m; simpl; split; congruence. Qed.

(** ** Lemmas *)

Lemma reload_Ok w a a' :
  reload w a = Ok a' <-> exists t, token_at w (key a) = Some t /\ a' = set_data a t.
Proof.
  unfold reload. split.
  - intros Hr. inv_ok. eauto.
  - intros (t & Ht & ->). by rewrite Ht.
Qed.

Lemma key_eqb_refl k : key_eqb k k = true.
Proof. unfold key_eqb. by apply bool_decide_eq_true. Qed.
Lemma key_eqb_ne a b : a <> b -> key_eqb a b = false.
Proof. unfold key_eqb. apply bool_decide_eq_false. Qed.

Lemma require_core_Ok b e u : require_core b e = Ok u <-> b = true.
Proof. apply require_Ok. Qed.
Lemma require_keys_eq_Ok a b e u : require_keys_eq a b e = Ok u <-> a = b.
Proof. unfold require_keys_eq, key_eqb. rewrite require_Ok. apply bool_decide_eq_true. Qed.
Lemma require_keys_neq_Ok a b e u : require_keys_neq a b e = Ok u <-> a <> b.
Proof.
  unfold require_keys_neq, key_eqb. rewrite require_Ok, negb_true_iff. apply bool_decide_eq_false.
Qed.
Lemma require_core_Err b e e' : require_core b e = Err e' -> b = false /\ e' = Core e.
Proof. apply require_Err. Qed.
Lemma require_keys_eq_Err a b e e' : require_keys_eq a b e = Err e' -> a <> b /\ e' = Core e.
Proof.
  intros [Hb He]%require_Err. split; [|done]. unfold key_eqb in Hb. by to_prop.
Qed.
Lemma require_keys_neq_Err a b e e' : require_keys_neq a b e = Err e' -> a = b /\ e' = Core e.
Proof.
  intros [Hb He]%require_Err. split; [|done]. apply negb_false_iff in Hb.
  unfold key_eqb in Hb. by to_prop.
Qed.
Lemma core_ok_or_Ok {A} (o : option A) e a : core_ok_or o e = Ok a <-> o = Some a.
Proof. apply ok_or_Ok. Qed.

Lemma token_at_store_ne w k k' d : k <> k' -> token_at (store w k d) k' = token_at w k'.
Proof. intros Hne. unfold token_at. simpl. by rewrite lookup_insert_ne. Qed.
Lemma token_at_store_eq w k t : token_at (store w k (TokenData t)) k = Some t.
Proof. unfold token_at. simpl. by rewrite lookup_insert_eq. Qed.
Lemma market_at_store_eq w k m : market_at (store w k (MarketData m)) k = Some m.
Proof. unfold market_at. simpl. by rewrite lookup_insert_eq. Qed.
Lemma market_at_store_ne w k k' d : k <> k' -> market_at (store w k d) k' = market_at w k'.
Proof. intros Hne. unfold market_at. simpl. by rewrite lookup_insert_ne. Qed.
Lemma domain_at_store_eq w k d : domain_at (store w k (DomainData d)) k = Some d.
Proof. unfold domain_at. simpl. by rewrite lookup_insert_eq. Qed.
Lemma domain_at_store_ne w k k' d : k <> k' -> domain_at (store w k d) k' = domain_at w k'.
Proof. intros Hne. unfold domain_at. simpl. by rewrite lookup_insert_ne. Qed.
Lemma fee_ledger_at_store_eq w k l : fee_ledger_at (store w k (FeeLedgerData l)) k = Some l.
Proof. unfold fee_ledger_at. simpl. by rewrite lookup_insert_eq. Qed.
Lemma fee_ledger_at_store_ne w k k' d :
  k <> k' -> fee_ledger_at (store w k d) k' = fee_ledger_at w k'.
Proof. intros Hne. unfold fee_ledger_at. simpl. by rewrite lookup_insert_ne. Qed.

(** The inversion tactic for handlers: [inv_ok] and the guards above. *)
Ltac inv_handler_step :=
  match goal with
  | H : infallible _ = Ok _ |- _ => apply infallible_Ok in H
  | H : reload _ _ = Ok _ |- _ => apply reload_Ok in H as (? & ? & ?)
  | H : require_core _ _ = Ok _ |- _ => apply require_core_Ok in H
  | H : require_keys_eq _ _ _ = Ok _ |- _ => apply require_keys_eq_Ok in H
  | H : require_keys_neq _ _ _ = Ok _ |- _ => apply require_keys_neq_Ok in H
  | H : core_ok_or _ _ = Ok _ |- _ => apply core_ok_or_Ok in H
  | _ => inv_ok_step
  end.
Ltac inv_handler := repeat inv_handler_step.
