(* ===== verification/ReferenceRuntime.v ===== *)
(** * A concrete runtime

    Instances of [Runtime] for the witnesses: a toy 32-byte digest for SHA-256
    and for program-derived addresses, and a token program with the documented
    behaviour of SPL Token's TransferChecked and ApproveChecked (owner or
    delegate authority, frozen accounts, mint and decimals checks, delegate
    bookkeeping). The program invoked by [invoke_signed] is an argument. The
    witnesses use this runtime; of the theorems only those that assume when a
    transfer succeeds (the Progress files) use it, for the token bookkeeping in
    their law of the token program. *)
From S2P Require Import Prelude Codec CoreState EngineState Solana.

(** A Fletcher checksum in 32 bytes. *)
Fixpoint checksum (l : list Z) (s1 s2 : Z) : list Z :=
  match l with
  | [] => to_le_bytes 4 s1 ++ to_le_bytes 4 s2 ++ replicate 24 0
  | b :: l => let s1 := s1 + b + 1 in checksum l s1 (s2 + s1)
  end.
Definition toy_digest (l : list Z) : list Z := checksum l 7 0.

Lemma toy_digest_bytes l : byte_string 32 (toy_digest l).
Proof.
  unfold toy_digest. generalize 7 0. induction l as [|b l IH]; intros s1 s2; [|apply IH].
  cbn [checksum]. split.
  - by rewrite !length_app, !length_to_le_bytes, length_replicate.
  - rewrite !Forall_app. split_and!; [apply to_le_bytes_u8..|]. apply Forall_replicate.
    unfold in_width. lia.
Qed.

Definition reference_native_mint_ID : Pubkey :=
  Eval vm_compute in pubkey_literal "So11111111111111111111111111111111111111112".
Definition reference_token_2022_ID : Pubkey :=
  Eval vm_compute in pubkey_literal "TokenzQdBNbLqP5VEhdkAS6EPFLC1PHnBqCXEpPxuEb".
Definition reference_spl_token_ID : Pubkey :=
  Eval vm_compute in pubkey_literal "TokenkegQfeZyiNwAJbNbGKPFXCWuBvf9Ss623VQ5DA".

Definition with_amount (t : TokenAccount) (amount : Z) : TokenAccount :=
  {| ta_mint := ta_mint t; ta_owner := ta_owner t; ta_amount := amount;
     ta_delegate := ta_delegate t; ta_state := ta_state t; ta_is_native := ta_is_native t;
     ta_delegated_amount := ta_delegated_amount t;
     ta_close_authority := ta_close_authority t |}.
Definition with_delegate (t : TokenAccount) (d : option Pubkey) (amount : Z) : TokenAccount :=
  {| ta_mint := ta_mint t; ta_owner := ta_owner t; ta_amount := ta_amount t;
     ta_delegate := d; ta_state := ta_state t; ta_is_native := ta_is_native t;
     ta_delegated_amount := amount; ta_close_authority := ta_close_authority t |}.

(** Who may spend: the delegate, whose allowance shrinks with each transfer and
    disappears at zero, otherwise the owner. *)
Definition spend_as (t : TokenAccount) (authority : Pubkey) (amount : Z) : option TokenAccount :=
  if bool_decide (ta_delegate t = Some authority) then
    if amount <=? ta_delegated_amount t then
      let left := ta_delegated_amount t - amount in
      Some (with_delegate t (if left =? 0 then None else Some authority) left)
    else None
  else if key_eqb authority (ta_owner t) then Some t
  else None.

(** Spending changes the allowance only, and appoints nobody. *)
Lemma spend_as_frame t authority amount t' :
  spend_as t authority amount = Some t' ->
  ta_amount t' = ta_amount t /\ ta_state t' = ta_state t /\ ta_mint t' = ta_mint t /\
  ta_owner t' = ta_owner t /\ (ta_delegate t = None -> ta_delegate t' = None).
Proof.
  unfold spend_as. case_bool_decide as Hd; intros Hs; repeat case_match; simplify_eq/=;
    split_and!; congruence.
Qed.

Definition reference_transfer (w : World) (args : TransferChecked) (seeds : SignerSeeds)
    (amount decimals : Z) : result World :=
  let from := ai_key (tc_from args) in
  let to := ai_key (tc_to args) in
  let mint := ai_key (tc_mint args) in
  let authority := ai_key (tc_authority args) in
  source ← ok_or (token_at w from) (ProgramError 1);
  dest ← ok_or (token_at w to) (ProgramError 1);
  m ← ok_or (mint_at w mint) (ProgramError 2);
  _ ← require (negb (key_eqb from to) && key_eqb (ta_mint source) mint &&
               key_eqb (ta_mint dest) mint && (mint_decimals m =? decimals)) (ProgramError 3);
  _ ← require (bool_decide (ta_state source = Initialized) &&
               bool_decide (ta_state dest = Initialized)) (ProgramError 17);
  _ ← require (amount <=? ta_amount source) (ProgramError 1);
  source ← ok_or (spend_as source authority amount) (ProgramError 4);
  let w := store w from (TokenData (with_amount source (ta_amount source - amount))) in
  Ok (store w to (TokenData (with_amount dest (ta_amount dest + amount)))).

Definition reference_approve (w : World) (args : ApproveChecked) (seeds : SignerSeeds)
    (amount decimals : Z) : result World :=
  source ← ok_or (token_at w (ai_key (ac_to args))) (ProgramError 1);
  _ ← require (key_eqb (ta_owner source) (ai_key (ac_authority args)) &&
               key_eqb (ta_mint source) (ai_key (ac_mint args))) (ProgramError 4);
  Ok (store w (ai_key (ac_to args))
        (TokenData (with_delegate source (Some (ai_key (ac_delegate args))) amount))).

Definition reference_runtime
    (callee : World -> Instruction -> list AccountInfo -> SignerSeeds -> result World)
    : Runtime := {|
  rt_hasher := {| hashv := fun parts => toy_digest (concat parts) |};
  create_program_address := fun seeds program => Some (toy_digest (concat seeds ++ program));
  find_program_address := fun seeds program =>
    (toy_digest (concat (seeds ++ [[255]]) ++ program), 255);
  native_mint_ID := reference_native_mint_ID;
  spl_token_ID := reference_spl_token_ID;
  token_2022_ID := reference_token_2022_ID;
  invoke_signed := callee;
  transfer_checked := reference_transfer;
  approve_checked := reference_approve |}.

(** ** Building blocks of the witnesses *)

Definition test_key (n : Z) : Pubkey := replicate 32 n.

Definition test_account (k owner : Pubkey) (signer writable executable : bool) : AccountInfo :=
  {| ai_key := k; ai_owner := owner; ai_is_signer := signer; ai_is_writable := writable;
     ai_executable := executable |}.

Definition test_token (mint owner : Pubkey) (amount : Z) : TokenAccount :=
  {| ta_mint := mint; ta_owner := owner; ta_amount := amount; ta_delegate := None;
     ta_state := Initialized; ta_is_native := None; ta_delegated_amount := 0;
     ta_close_authority := None |}.
Definition test_mint (decimals : Z) : Mint :=
  {| mint_decimals := decimals; mint_is_initialized := true; mint_freeze_authority := None |}.

Definition no_callee : World -> Instruction -> list AccountInfo -> SignerSeeds -> result World :=
  fun w _ _ _ => Err (ProgramError 0).

(** A market admitted by the core program of [C], its two-asset domain, fee
    ledger and vaults, a user and two classic mints. *)
Section Fixture.
Context `{Runtime} {C : CoreConfig}.

Definition user_k := test_key 1.
Definition mint_a_k := test_key 2.
Definition mint_b_k := test_key 3.
Definition engine_k := test_key 4.
Definition engine_state_k := test_key 5.
Definition source_k := test_key 6.
Definition destination_k := test_key 7.
Definition system_program_k := test_key 0.

Definition pda (seeds : list (list Z)) : Pubkey :=
  default [] (create_program_address (seeds ++ [[255]]) ID).
Definition market_k := pda [MARKET_SEED_V0; user_k; test_key 9].
Definition domain_k := pda [DOMAIN_SEED_V0; market_k].
Definition vault_a_k := pda [VAULT_SEED_V0; domain_k; [0]].
Definition vault_b_k := pda [VAULT_SEED_V0; domain_k; [1]].
Definition fee_ledger_k := pda [FEE_LEDGER_SEED_V0; market_k; mint_a_k].
Definition fee_vault_k := pda [FEE_VAULT_SEED_V0; fee_ledger_k].

Definition test_market : MarketV0 := {|
  m_version := 0; m_bump := 255; m_initializer := user_k; m_market_id := test_key 9;
  m_engine_program := engine_k; m_engine_state := engine_state_k; m_engine_revision := 3;
  m_mint_a := mint_a_k; m_mint_b := mint_b_k; m_fee_bps := 30; m_fee_policy_revision := 0 |}.
Definition test_domain (accounted_a accounted_b : Z) : DomainV0 := {|
  d_version := 0; d_bump := 255; d_vault_a_bump := 255; d_vault_b_bump := 255;
  d_market := market_k; d_engine_program := engine_k; d_engine_state := engine_state_k;
  d_engine_revision := 3; d_accounted_a := accounted_a; d_accounted_b := accounted_b |}.
Definition test_fee_ledger (accounted : Z) : FeeLedgerV0 := {|
  fl_version := 0; fl_bump := 255; fl_fee_vault_bump := 255; fl_market := market_k;
  fl_mint_a := mint_a_k; fl_accounted_fee_a := accounted |}.

(** The user owns 1 000 000 of each asset; the vaults hold ten units more than
    they account for. *)
Definition test_world (accounted_a accounted_b fee : Z) : World := {|
  w_slot := 100; w_stack_height := 1; w_return_data := None;
  w_accounts := list_to_map [
    (market_k, MarketData test_market);
    (domain_k, DomainData (test_domain accounted_a accounted_b));
    (fee_ledger_k, FeeLedgerData (test_fee_ledger fee));
    (mint_a_k, MintData (test_mint 6)); (mint_b_k, MintData (test_mint 9));
    (engine_k, OpaqueData []); (engine_state_k, OpaqueData [0]);
    (source_k, TokenData (test_token mint_a_k user_k 1000000));
    (destination_k, TokenData (test_token mint_b_k user_k 1000000));
    (vault_a_k, TokenData (test_token mint_a_k domain_k (accounted_a + 10)));
    (vault_b_k, TokenData (test_token mint_b_k domain_k (accounted_b + 10)));
    (fee_vault_k, TokenData (test_token mint_a_k fee_ledger_k (fee + 10)))] |}.

(** The same market with another engine program. *)
Definition market_of (engine : Pubkey) : MarketV0 := {|
  m_version := 0; m_bump := 255; m_initializer := user_k; m_market_id := test_key 9;
  m_engine_program := engine; m_engine_state := engine_state_k; m_engine_revision := 3;
  m_mint_a := mint_a_k; m_mint_b := mint_b_k; m_fee_bps := 30; m_fee_policy_revision := 0 |}.
Definition domain_of (engine : Pubkey) (accounted_a accounted_b : Z) : DomainV0 := {|
  d_version := 0; d_bump := 255; d_vault_a_bump := 255; d_vault_b_bump := 255;
  d_market := market_k; d_engine_program := engine; d_engine_state := engine_state_k;
  d_engine_revision := 3; d_accounted_a := accounted_a; d_accounted_b := accounted_b |}.
Definition world_of_engine (engine : Pubkey) (state : ProgramData)
    (accounted_a accounted_b fee : Z) : World :=
  store (store (store (test_world accounted_a accounted_b fee)
    market_k (MarketData (market_of engine)))
    domain_k (DomainData (domain_of engine accounted_a accounted_b)))
    engine_state_k (OtherProgramData state).

Definition user_info := test_account user_k system_program_k true true false.
Definition token_program_info := test_account spl_token_ID system_program_k false false true.
Definition market_account := Build_Account (test_account market_k ID false false false) test_market.
Definition mint_a_account :=
  Build_Account (test_account mint_a_k spl_token_ID false false false) (test_mint 6).
Definition mint_b_account :=
  Build_Account (test_account mint_b_k spl_token_ID false false false) (test_mint 9).
Definition token_account (k mint owner : Pubkey) (amount : Z) : Account TokenAccount :=
  Build_Account (test_account k spl_token_ID false true false) (test_token mint owner amount).
End Fixture.
