(* ===== verification/FeeMath.v ===== *)
(** * programs/core/src/math.rs: the protocol fee

    [fee_ceil] is the one place the protocol fee is computed; the three core
    crates carry the same function. *)
From S2P Require Import Prelude Codec CoreState Solana.

Definition fee_ceil (amount fee_bps : Z) : result Z :=
  _ ← require_core (0 <? amount) ZeroAmount;
  _ ← require_core (0 <? fee_bps) ArithmeticOverflow;
  numerator ← core_ok_or
    (value ← checked_mul 128 amount fee_bps; checked_add 128 value (BASIS_POINTS_DENOMINATOR - 1))
    ArithmeticOverflow;
  fee ← core_ok_or (checked_div numerator BASIS_POINTS_DENOMINATOR) ArithmeticOverflow;
  core_ok_or (try_from 64 fee) IntegerConversionFailed.

(** The reference: the least integer whose 10000-fold covers [amount * fee_bps]. *)
Definition is_ceil_fee (amount fee_bps fee : Z) : Prop :=
  (fee - 1) * 10000 < amount * fee_bps <= fee * 10000.

Lemma ceil_div_spec n : is_ceil_fee n 1 ((n + 9999) / 10000).
Proof.
  unfold is_ceil_fee. pose proof (Z.div_mod (n + 9999) 10000).
  pose proof (Z.mod_pos_bound (n + 9999) 10000). lia.
Qed.
Lemma is_ceil_fee_unique a b f f' : is_ceil_fee a b f -> is_ceil_fee a b f' -> f = f'.
Proof. unfold is_ceil_fee. lia. Qed.

Lemma product_u128 a b : is_u64 a -> is_u16 b -> 0 <= a * b /\ a * b + 9999 < 2 ^ 128.
Proof.
  unfold in_width. intros Ha Hb. split; [nia|].
  assert (a * b <= (2 ^ 64 - 1) * (2 ^ 16 - 1)) by (apply Z.mul_le_mono_nonneg; lia). lia.
Qed.

(** The function with its intermediate widths computed away: on [u64] and [u16]
    arguments the 128-bit product never overflows. *)
Lemma fee_ceil_eq amount fee_bps :
  is_u64 amount -> is_u16 fee_bps ->
  fee_ceil amount fee_bps =
    if amount =? 0 then Err (Core ZeroAmount)
    else if fee_bps =? 0 then Err (Core ArithmeticOverflow)
    else let fee := (amount * fee_bps + 9999) / 10000 in
         if fee <? 2 ^ 64 then Ok fee else Err (Core IntegerConversionFailed).
Proof.
  intros Ha Hb. destruct (product_u128 amount fee_bps Ha Hb) as [Hp Hlt].
  unfold in_width, fee_ceil, require_core, require, core_ok_or in *.
  destruct (Z.eqb_spec amount 0) as [->|Hna]; [reflexivity|].
  rewrite (proj2 (Z.ltb_lt 0 amount)) by lia. simpl.
  destruct (Z.eqb_spec fee_bps 0) as [->|Hnb]; [reflexivity|].
  rewrite (proj2 (Z.ltb_lt 0 fee_bps)) by lia. cbn [mbind outcome_bind].
  assert (amount * fee_bps < 2 ^ 128) as Hm by lia.
  rewrite (proj2 (checked_mul_Some 128 amount fee_bps _) (conj Hm eq_refl)).
  cbn [mbind option_bind]. change (BASIS_POINTS_DENOMINATOR - 1) with 9999.
  rewrite (proj2 (checked_add_Some 128 _ _ _) (conj Hlt eq_refl)). cbn [ok_or].
  rewrite bind_ret_l. unfold BASIS_POINTS_DENOMINATOR.
  unfold try_from. rewrite (proj2 (Z.leb_le 0 _)) by (apply Z.div_pos; lia).
  cbn [andb]. by destruct (_ <? 2 ^ 64).
Qed.

Lemma fee_ceil_Ok amount fee_bps fee :
  is_u64 amount -> is_u16 fee_bps ->
  fee_ceil amount fee_bps = Ok fee <->
    0 < amount /\ 0 < fee_bps /\ is_u64 fee /\ is_ceil_fee amount fee_bps fee.
Proof.
  intros Ha Hb. rewrite fee_ceil_eq by done. unfold in_width in *.
  pose proof (ceil_div_spec (amount * fee_bps)) as Hc. unfold is_ceil_fee in *.
  pose proof (product_u128 amount fee_bps Ha Hb) as [Hp _].
  destruct (Z.eqb_spec amount 0); [split; [discriminate|lia]|].
  destruct (Z.eqb_spec fee_bps 0); [split; [discriminate|lia]|]. cbv zeta.
  assert (0 <= (amount * fee_bps + 9999) / 10000) by (apply Z.div_pos; lia).
  destruct (Z.ltb_spec ((amount * fee_bps + 9999) / 10000) (2 ^ 64)); split.
  - intros [= <-]. lia.
  - intros (_ & _ & _ & Hf). f_equal. apply (is_ceil_fee_unique (amount * fee_bps) 1);
      unfold is_ceil_fee; lia.
  - discriminate.
  - intros (_ & _ & Hu & Hf). lia.
Qed.

(** The fee covers its share of the amount, whatever the widths. *)
Lemma fee_ceil_covers amount fee_bps fee :
  fee_ceil amount fee_bps = Ok fee -> 0 <= fee /\ amount * fee_bps <= fee * 10000.
Proof.
  unfold fee_ceil. intros Hf. inv_handler. apply bind_Some in Hok1 as (v & Hv & Hn).
  inv_checked. subst. unfold in_width, BASIS_POINTS_DENOMINATOR in *.
  pose proof (Z.div_mod (amount * fee_bps + (10000 - 1)) 10000).
  pose proof (Z.mod_pos_bound (amount * fee_bps + (10000 - 1)) 10000). lia.
Qed.

(** C37. [fee_ceil] is the exact ceiling: on [u64] amounts and [u16] rates it
    returns [fee] iff both are positive and [fee] is the [u64] that is
    [amount * fee_bps / 10000] rounded up. *)
Theorem fee_ceil_is_ceiling amount fee_bps fee :
  is_u64 amount -> is_u16 fee_bps ->
  fee_ceil amount fee_bps = Ok fee <->
    0 < amount /\ 0 < fee_bps /\ is_u64 fee /\ is_ceil_fee amount fee_bps fee.
Proof. apply fee_ceil_Ok. Qed.

(** At the protocol's rate the fee never fails and never exceeds the
    amount: every positive [u64] amount has a fee between 1 and the amount. *)
Theorem protocol_fee_total amount :
  is_u64 amount -> 0 < amount ->
  exists fee, fee_ceil amount PROTOCOL_FEE_BPS_V0 = Ok fee /\ 1 <= fee <= amount.
Proof.
  intros Ha Hpos. rewrite fee_ceil_eq by (try done; unfold in_width, PROTOCOL_FEE_BPS_V0; lia).
  unfold PROTOCOL_FEE_BPS_V0, in_width in *.
  rewrite (proj2 (Z.eqb_neq amount 0)) by lia. simpl (30 =? 0). cbv iota zeta.
  assert (1 <= (amount * 30 + 9999) / 10000 <= amount) as Hr.
  { pose proof (Z.div_mod (amount * 30 + 9999) 10000).
    pose proof (Z.mod_pos_bound (amount * 30 + 9999) 10000). lia. }
  rewrite (proj2 (Z.ltb_lt _ (2 ^ 64))) by lia. eauto.
Qed.

(** Splitting an amount never lowers the fee: the fees of the parts cover
    the fee of the whole, whatever the rate. *)
Theorem fee_ceil_split a b fee_bps fa fb fab :
  is_u64 (a + b) -> 0 <= a -> 0 <= b -> is_u16 fee_bps ->
  fee_ceil a fee_bps = Ok fa -> fee_ceil b fee_bps = Ok fb ->
  fee_ceil (a + b) fee_bps = Ok fab ->
  fab <= fa + fb.
Proof.
  intros Hab Ha Hb Hbps. unfold in_width in *.
  rewrite !fee_ceil_Ok by (unfold in_width; lia). unfold is_ceil_fee. lia.
Qed.

Ltac cases_err H :=
  destruct H as [(? & ?)|[(? & ? & ?)|(? & ? & ? & ?)]]; subst; (lia || congruence).

(** The overflow checks of the 128-bit product are dead: the only errors on
    [u64] and [u16] arguments are a zero amount, a zero rate (reported as
    overflow) and a fee above [u64]. *)
Theorem fee_ceil_errors amount fee_bps e :
  is_u64 amount -> is_u16 fee_bps ->
  fee_ceil amount fee_bps = Err e <->
    (amount = 0 /\ e = Core ZeroAmount) \/
    (amount <> 0 /\ fee_bps = 0 /\ e = Core ArithmeticOverflow) \/
    (amount <> 0 /\ fee_bps <> 0 /\ (2 ^ 64 - 1) * 10000 < amount * fee_bps /\
     e = Core IntegerConversionFailed).
Proof.
  intros Ha Hb. rewrite fee_ceil_eq by done.
  destruct (Z.eqb_spec amount 0); [split; [intros [= <-]; auto | intros Hc; by cases_err Hc]|].
  destruct (Z.eqb_spec fee_bps 0); [split; [intros [= <-]; auto | intros Hc; by cases_err Hc]|]. cbv zeta.
  pose proof (Z.div_mod (amount * fee_bps + 9999) 10000).
  pose proof (Z.mod_pos_bound (amount * fee_bps + 9999) 10000).
  destruct (Z.ltb_spec ((amount * fee_bps + 9999) / 10000) (2 ^ 64)); split;
    try discriminate; [intros Hc; by cases_err Hc | intros [= <-]; right; right; repeat split; (lia || done) | intros Hc; by cases_err Hc].
Qed.

Lemma fee_ceil_is_ceiling_witness :
  fee_ceil 334 30 = Ok 2 <-> 0 < 334 /\ 0 < 30 /\ is_u64 2 /\ is_ceil_fee 334 30 2.
Proof. apply fee_ceil_is_ceiling; unfold in_width; lia. Defined.
Lemma protocol_fee_total_witness :
  exists fee, fee_ceil 1 PROTOCOL_FEE_BPS_V0 = Ok fee /\ 1 <= fee <= 1.
Proof. apply protocol_fee_total; unfold in_width; lia. Defined.
Lemma fee_ceil_split_witness : 2 <= 1 + 1.
Proof.
  apply (fee_ceil_split 333 333 30 1 1 2); (unfold in_width; lia) || (vm_compute; reflexivity).
Defined.
Lemma fee_ceil_errors_witness :
  fee_ceil 0 30 = Err (Core ZeroAmount) <->
    (0 = 0 /\ Core ZeroAmount = Core ZeroAmount) \/
    (0 <> 0 /\ 30 = 0 /\ Core ZeroAmount = Core ArithmeticOverflow) \/
    (0 <> 0 /\ 30 <> 0 /\ (2 ^ 64 - 1) * 10000 < 0 * 30 /\
     Core ZeroAmount = Core IntegerConversionFailed).
Proof. apply fee_ceil_errors; unfold in_width; lia. Defined.
