(* ===== verification/EngineFrame.v ===== *)
(** * The frame an engine runs in

    The engines are Anchor programs invoked by Core. This file holds what their
    handlers share: the error type, the accounts a callee is handed for an
    instruction, the Instructions-sysvar introspection, and what it means that
    a runtime runs a given handler. [EngineError] merges the error enums of the
    programs, as their handlers share code; Errors separates them. *)
From S2P Require Import Prelude Codec CoreState EngineState Solana ReferenceRuntime.

(** The error enums of the test programs; a variant stands for the variant of
    that name in each program that declares it. [EngineCpi] is the error of a
    nested invocation, [EngineConstraint] an Anchor account constraint. *)
Inductive EngineError :=
  | UnexpectedAccount | InvalidMarket | InvalidRevision | InvalidLpFeeBps | InvalidTimingMode
  | InvalidAuthority | InvalidMode | InvalidRequestEncoding | EntrypointPhaseMismatch
  | EngineInvalidPhaseForTiming | EngineInvalidEngineState | EngineStateSigner
  | PrepareStateMustBeReadOnly | MutationStateMustBeWritable | InvalidCallbackPrivileges
  | EngineInvalidCallbackAuthority | AliasedCallbackAuthority | OpaqueSignerForbidden
  | PrepareCapabilityWritable | MarketMismatch | RevisionMismatch | SequenceMismatch
  | TooManyCapabilities | CapabilityCountMismatch | CapabilityHashMismatch
  | CapabilityHashComputationFailed | ExecutionDigestComputationFailed
  | EngineExecutionDigestMismatch | ZeroReserve | ZeroInput | EffectiveInputZero
  | OutputAmountZero | OutputReserveExceeded | EngineArithmeticOverflow
  | EngineIntegerConversionFailed | SequenceOverflow | InvalidInvocationDepth | InvalidCoreCaller
  | InvalidCoreInstruction | InvalidInstructionsSysvar | InvalidHelperCapabilityClosure
  | InvalidHelperProgram | InvalidHelperState | InvalidCapabilityAuthority
  | InvalidHelperPayload | InvalidReceiptEncoding | DeliberateLateCommitFailure
  | HostileCpiUnexpectedlySucceeded
  | InvalidCallback | CallbackNotSigner | CallbackWritable | CallbackExecutable | InvalidAmount
  | DeliberateFailure
  | EngineCpi (e : Error) | EngineConstraint.

Abbreviation engine_result := (outcome EngineError).
Definition require_engine (b : bool) (e : EngineError) : engine_result unit := require b e.
Definition require_engine_keys_eq (a b : Pubkey) (e : EngineError) : engine_result unit :=
  require (key_eqb a b) e.

Lemma require_engine_Ok b e u : require_engine b e = Ok u <-> b = true.
Proof. apply require_Ok. Qed.
Lemma require_engine_keys_eq_Ok a b e u : require_engine_keys_eq a b e = Ok u <-> a = b.
Proof. unfold require_engine_keys_eq, key_eqb. rewrite require_Ok. apply bool_decide_eq_true. Qed.

(** The inversion tactic of the engines' handlers. *)
Ltac inv_engine_step :=
  match goal with
  | H : require_engine _ _ = Ok _ |- _ => apply require_engine_Ok in H
  | H : require_engine_keys_eq _ _ _ = Ok _ |- _ => apply require_engine_keys_eq_Ok in H
  | _ => inv_handler_step
  end.
Ltac inv_engine := repeat inv_engine_step.

(** ** Invocation

    A callee sees the metas of its instruction in order, each with the owner
    and executability of the account and with the privileges of its key, which
    the runtime unites over the metas that repeat it. *)
Definition Cpi : Type := World -> Instruction -> list AccountInfo -> SignerSeeds -> result World.

Definition meta_flag (flag : AccountMeta -> bool) (metas : list AccountMeta) (k : Pubkey) : bool :=
  existsb (fun m => key_eqb (am_pubkey m) k && flag m) metas.

Definition callee_info (metas : list AccountMeta) (infos : list AccountInfo) (m : AccountMeta)
    : option AccountInfo :=
  info ← find (fun i => key_eqb (ai_key i) (am_pubkey m)) infos;
  Some {| ai_key := am_pubkey m; ai_owner := ai_owner info;
          ai_is_signer := meta_flag am_is_signer metas (am_pubkey m);
          ai_is_writable := meta_flag am_is_writable metas (am_pubkey m);
          ai_executable := ai_executable info |}.

Definition callee_accounts (ix : Instruction) (infos : list AccountInfo)
    : option (list AccountInfo) :=
  mapM (callee_info (ix_accounts ix) infos) (ix_accounts ix).

(** The callee runs one level deeper, with empty return data, on the same
    ledger; its caller sees its accounts and its return data. *)
Definition enter (w : World) : World :=
  {| w_slot := w_slot w; w_stack_height := w_stack_height w + 1; w_return_data := None;
     w_accounts := w_accounts w |}.
Definition leave (caller callee : World) : World :=
  {| w_slot := w_slot caller; w_stack_height := w_stack_height caller;
     w_return_data := w_return_data callee; w_accounts := w_accounts callee |}.

Definition ProgramHandler (E : Type) : Type := World -> list AccountInfo -> list Z -> outcome E World.
Definition Handler : Type := ProgramHandler EngineError.

(** The runtime's documented behaviour: an invocation of [program] with an
    instruction of this discriminator that succeeds is a successful run of the
    program's handler on the accounts of the instruction. *)
Definition runs {E} (cpi : Cpi) (program : Pubkey) (discriminator : list Z)
    (handler : ProgramHandler E) : Prop :=
  forall w ix infos seeds w' args,
    ix_program_id ix = program -> ix_data ix = discriminator ++ args ->
    cpi w ix infos seeds = Ok w' ->
    exists accounts w1,
      callee_accounts ix infos = Some accounts /\
      handler (enter w) accounts args = Ok w1 /\ w' = leave w w1.

(** A callee sees the keys of its metas, in order. *)
Lemma callee_info_key metas infos m i :
  callee_info metas infos m = Some i -> ai_key i = am_pubkey m.
Proof. unfold callee_info. by intros (info & _ & [= <-])%bind_Some. Qed.
Lemma callee_info_signer metas infos m i :
  callee_info metas infos m = Some i -> ai_is_signer i = meta_flag am_is_signer metas (am_pubkey m).
Proof. unfold callee_info. by intros (info & _ & [= <-])%bind_Some. Qed.
Lemma callee_accounts_keys ix infos accounts :
  callee_accounts ix infos = Some accounts ->
  map ai_key accounts = map am_pubkey (ix_accounts ix).
Proof.
  unfold callee_accounts. intros Ha%mapM_Some.
  revert Ha. generalize (ix_accounts ix) at 1. intros metas Ha.
  induction Ha as [|m i ms l Hm _ IH]; simpl; [done|]. by rewrite IH, (callee_info_key _ _ _ _ Hm).
Qed.

(** A runtime that does so, for the witnesses: a table of handlers. *)
Definition table_cpi (table : list (Pubkey * list Z * Handler)) : Cpi := fun w ix infos _ =>
  match find (fun '(program, discriminator, _) =>
          key_eqb program (ix_program_id ix) &&
          bool_decide (take (length discriminator) (ix_data ix) = discriminator)) table with
  | Some (_, discriminator, handler) =>
      accounts ← ok_or (callee_accounts ix infos) (ProgramError 0);
      w1 ← map_err (fun _ => ProgramError 1)
             (handler (enter w) accounts (drop (length discriminator) (ix_data ix)));
      Ok (leave w w1)
  | None => Err (ProgramError 2)
  end.

Lemma table_cpi_runs program discriminator handler table :
  runs (table_cpi ((program, discriminator, handler) :: table)) program discriminator handler.
Proof.
  intros w ix infos seeds w' args Hp Hd. unfold table_cpi. cbn [find].
  assert (key_eqb program (ix_program_id ix) = true) as ->
    by (unfold key_eqb; by apply bool_decide_eq_true).
  rewrite Hd, take_app_length, bool_decide_eq_true_2 by done. cbn [andb]. rewrite drop_app_length.
  intros (accounts & Ha%ok_or_Ok & (w1 & Hw%map_err_Ok & Heq%Ok_inj)%bind_Ok)%bind_Ok.
  eauto.
Qed.

Lemma table_cpi_skip {E} program discriminator (handler : ProgramHandler E) p d h table :
  p <> program \/ length d = length discriminator /\ d <> discriminator ->
  runs (table_cpi table) program discriminator handler ->
  runs (table_cpi ((p, d, h) :: table)) program discriminator handler.
Proof.
  intros Hne Hr w ix infos seeds w' args Hp Hd. unfold table_cpi. cbn [find].
  assert (key_eqb p (ix_program_id ix) &&
          bool_decide (take (length d) (ix_data ix) = d) = false) as ->.
  { apply not_true_iff_false. intros Hb. unfold key_eqb in Hb. to_prop.
    destruct Hne as [Hne|[Hl Hne]]; [congruence|].
    rewrite Hd, Hl, take_app_length in *. congruence. }
  intros Hc. exact (Hr w ix infos seeds w' args Hp Hd Hc).
Qed.

(** The table holds handlers of one error type; a program's own handler runs
    when the wrapped one does. *)
Definition wrap {E} (f : E -> EngineError) (handler : ProgramHandler E) : Handler :=
  fun w accounts args => map_err f (handler w accounts args).
Lemma runs_wrapped {E} cpi program discriminator (f : E -> EngineError) (handler : ProgramHandler E) :
  runs cpi program discriminator (wrap f handler) -> runs cpi program discriminator handler.
Proof.
  intros Hr w ix infos seeds w' args Hp Hd Hc.
  destruct (Hr w ix infos seeds w' args Hp Hd Hc) as (accounts & w1 & Ha & Hh%map_err_Ok & ->).
  eauto.
Qed.

(** ** The account structs the test programs share

    [init, payer] creates an account of the given address that signs for itself;
    [mut, has_one = authority] and a signing [authority]. *)
Definition init_keypair (w : World) (a : AccountInfo) : engine_result unit :=
  require_engine (ai_is_signer a && ai_is_writable a && bool_decide (w_accounts w !! ai_key a = None))
    EngineConstraint.
Definition init_payer (payer system_program : AccountInfo) : engine_result unit :=
  require_engine (ai_is_signer payer && ai_is_writable payer &&
                  key_eqb (ai_key system_program) system_program_ID) EngineConstraint.

Record InitializeState := {
  is_state : AccountInfo;
  is_authority : AccountInfo;      (** the payer *)
  is_system_program : AccountInfo }.

Record SetMode (S : Type) := { sm_engine_state : Account S; sm_authority : AccountInfo }.
Arguments sm_engine_state {S}.
Arguments sm_authority {S}.
Arguments Build_SetMode {S}.

Definition set_mode_constraints {S} `{EqDecision S} (at_ : World -> Pubkey -> option S)
    (stored_authority : S -> Pubkey) (w : World) (program : Pubkey) (a : SetMode S)
    : engine_result unit :=
  _ ← require_engine (is_account at_ w program (sm_engine_state a) && is_mut (sm_engine_state a))
        EngineConstraint;
  _ ← require_engine (ai_is_signer (sm_authority a)) EngineConstraint;
  require_engine_keys_eq (stored_authority (acc_data (sm_engine_state a))) (ai_key (sm_authority a))
    InvalidAuthority.

(** ** Introspection of the Instructions sysvar

    solana-instructions-sysvar's two readers of the transaction's top-level
    instructions, and the guard of the two engines that use them. *)
Class Introspection := {
  load_current_index_checked : World -> option Z;
  load_instruction_at_checked : Z -> World -> option Instruction }.

Definition starts_with (prefix data : list Z) : bool :=
  bool_decide (take (length prefix) data = prefix).

Definition require_direct_core_cpi `{Introspection} (core_id discriminator : list Z) (w : World)
    : engine_result unit :=
  let expected_height := TRANSACTION_LEVEL_STACK_HEIGHT + 1 in
  _ ← require_engine (w_stack_height w =? expected_height) InvalidInvocationDepth;
  current_index ← ok_or (load_current_index_checked w) InvalidInstructionsSysvar;
  top_level_instruction ← ok_or (load_instruction_at_checked current_index w)
    InvalidInstructionsSysvar;
  _ ← require_engine_keys_eq (ix_program_id top_level_instruction) core_id InvalidCoreCaller;
  require_engine (starts_with discriminator (ix_data top_level_instruction))
    InvalidCoreInstruction.

Lemma require_direct_core_cpi_Ok `{Introspection} core_id discriminator w u :
  require_direct_core_cpi core_id discriminator w = Ok u <->
  w_stack_height w = 2 /\
  exists i top, load_current_index_checked w = Some i /\
    load_instruction_at_checked i w = Some top /\ ix_program_id top = core_id /\
    starts_with discriminator (ix_data top) = true.
Proof.
  unfold require_direct_core_cpi, TRANSACTION_LEVEL_STACK_HEIGHT. split.
  - intros Hr. inv_engine. to_prop. split; [done|]. eexists _, _. by split_and!.
  - intros (Hh & i & top & Hi & Ht & Hp & Hs). rewrite Hh, Hi. cbn [ok_or]. rewrite bind_ret_l, Ht.
    cbn [ok_or]. rewrite bind_ret_l. unfold require_engine_keys_eq, key_eqb.
    rewrite bool_decide_eq_true_2 by done. rewrite Hs. by destruct u.
Qed.

(** [data\[i\] ^= 1], the byte the hostile modes spoil. *)
Definition flip_bit (i : nat) (data : list Z) : list Z := alter (fun b => Z.lxor b 1) i data.

Lemma flip_bit_prefix i n data :
  (i < n)%nat -> (i < length data)%nat -> take n (flip_bit i data) <> take n data.
Proof.
  intros Hn Hi He. destruct (lookup_lt_is_Some_2 data i Hi) as [b Hb].
  assert (take n (flip_bit i data) !! i = take n data !! i) as Hf by congruence.
  rewrite !lookup_take_lt, Hb in Hf by done. unfold flip_bit in Hf.
  rewrite list_lookup_alter_eq, Hb in Hf. injection Hf as Hf. symmetry in Hf.
  by apply lxor_1_neq in Hf.
Qed.
Lemma flip_bit_u8 i data : Forall is_u8 data -> Forall is_u8 (flip_bit i data).
Proof.
  assert (Forall (fun n => is_u8 (Z.lxor (Z.of_nat n) 1)) (seq 0 256)) as Hbytes by decide_closed.
  intros Hd. apply Forall_alter; [done|]. intros b _ [Hb Hb'].
  rewrite Forall_forall in Hbytes. rewrite <- (Z2Nat.id b) by done.
  apply Hbytes, elem_of_seq. lia.
Qed.
Lemma length_flip_bit i data : length (flip_bit i data) = length data.
Proof. apply length_alter. Qed.
Lemma flip_bit_bytes n i data : byte_string n data -> byte_string n (flip_bit i data).
Proof. intros [Hl Hd]. split; [by rewrite length_flip_bit | by apply flip_bit_u8]. Qed.

(** ** Frame lemmas *)

Lemma enter_accounts w : w_accounts (enter w) = w_accounts w.
Proof. done. Qed.
Lemma leave_accounts w w1 : w_accounts (leave w w1) = w_accounts w1.
Proof. done. Qed.
Lemma leave_return_data w w1 : w_return_data (leave w w1) = w_return_data w1.
Proof. done. Qed.
Lemma program_data_store_eq w k d :
  program_data_at (store w k (OtherProgramData d)) k = Some d.
Proof. unfold program_data_at, store. simpl. by rewrite lookup_insert_eq. Qed.

(** A transaction whose one top-level instruction is Core's. *)
Definition direct_call (core_id discriminator : list Z) : Introspection := {|
  load_current_index_checked := fun _ => Some 0;
  load_instruction_at_checked := fun _ _ =>
    Some {| ix_program_id := core_id; ix_accounts := []; ix_data := discriminator |} |}.
