(* ===== verification/Helpers.v ===== *)
(** * test-programs/opaque-capability-probe and callback-capability-probe

    The two helper programs an engine reaches through a forwarded capability:
    a counter that only one key may increment. The opaque probe's key is an
    authority that signs; the callback probe's is Core's phase-scoped PDA,
    which must sign but never be writable. *)
From S2P Require Import Prelude Codec CoreState EngineState Solana ReferenceRuntime EngineFrame.

Definition HELPER_INCREMENT_DISCRIMINATOR : list Z :=
  [0x0b; 0x12; 0x68; 0x09; 0x68; 0xae; 0x3b; 0x21].

Definition with_counters (s : HelperState) (calls value : Z) : HelperState :=
  {| hs_authority := hs_authority s; hs_calls := calls; hs_value := value |}.

Definition counters (s : HelperState) (amount : Z) : engine_result (Z * Z) :=
  next_calls ← ok_or (checked_add 64 (hs_calls s) 1) EngineArithmeticOverflow;
  next_value ← ok_or (checked_add 64 (hs_value s) amount) EngineArithmeticOverflow;
  Ok (next_calls, next_value).

Lemma counters_Ok s amount calls value :
  counters s amount = Ok (calls, value) <->
  hs_calls s + 1 < 2 ^ 64 /\ hs_value s + amount < 2 ^ 64 /\
  calls = hs_calls s + 1 /\ value = hs_value s + amount.
Proof.
  unfold counters. split.
  - intros Hc. inv_engine. inv_checked. subst. tauto.
  - intros (H1 & H2 & -> & ->).
    rewrite (proj2 (checked_add_Some 64 _ _ _) (conj H1 eq_refl)). cbn [ok_or]. rewrite bind_ret_l.
    rewrite (proj2 (checked_add_Some 64 _ _ _) (conj H2 eq_refl)). reflexivity.
Qed.

(** The two accounts of [increment], and its amount. *)
Definition increment_arguments (args : list Z) : engine_result Z :=
  _ ← require_engine (8 <=? length args)%nat EngineConstraint;
  Ok (from_le_bytes (take 8 args)).

Module OpaqueProbe.
Definition ID : Pubkey :=
  Eval vm_compute in pubkey_literal "EsZGEzu3NgpwumgwdsjxW3c6xB9wR6gy3qj9Y86nZ7Uv".
Definition PROBE_RETURN_MAGIC : list Z := bytes_of_string "OPAQPRB0".

Definition encode_probe_return_data (calls value : Z) : list Z :=
  PROBE_RETURN_MAGIC ++ to_le_bytes 8 calls ++ to_le_bytes 8 value.

Definition state_at (w : World) (k : Pubkey) : option HelperState :=
  match program_data_at w k with Some (OpaqueHelperData s) => Some s | _ => None end.

Definition initialize (w : World) (a : InitializeState) (remaining : list AccountInfo)
    (authority : Pubkey) : engine_result World :=
  _ ← init_keypair w (is_state a);
  _ ← init_payer (is_authority a) (is_system_program a);
  _ ← require_engine (bool_decide (remaining = [])) UnexpectedAccount;
  _ ← require_engine (negb (key_eqb authority default_pubkey)) InvalidAuthority;
  Ok (store w (ai_key (is_state a)) (OtherProgramData (OpaqueHelperData
        {| hs_authority := authority; hs_calls := 0; hs_value := 0 |}))).

Record Increment := { inc_helper_state : Account HelperState; inc_authority : AccountInfo }.

Definition increment_accounts (w : World) (accounts : list AccountInfo)
    : engine_result (Increment * list AccountInfo) :=
  match accounts with
  | state :: authority :: remaining =>
      s ← ok_or (state_at w (ai_key state)) EngineConstraint;
      _ ← require_engine (key_eqb (ai_owner state) ID && ai_is_writable state) EngineConstraint;
      _ ← require_engine_keys_eq (hs_authority s) (ai_key authority) InvalidAuthority;
      _ ← require_engine (ai_is_signer authority) EngineConstraint;
      Ok ({| inc_helper_state := Build_Account state s; inc_authority := authority |}, remaining)
  | _ => Err EngineConstraint
  end.

Definition increment (w : World) (a : Increment) (remaining : list AccountInfo) (amount : Z)
    : engine_result World :=
  _ ← require_engine (bool_decide (remaining = [])) UnexpectedAccount;
  let state := acc_data (inc_helper_state a) in
  '(next_calls, next_value) ← counters state amount;
  let w := set_return_data w ID (encode_probe_return_data next_calls next_value) in
  Ok (store w (key (inc_helper_state a))
        (OtherProgramData (OpaqueHelperData (with_counters state next_calls next_value)))).

Definition increment_handler : Handler := fun w accounts args =>
  '(a, remaining) ← increment_accounts w accounts;
  amount ← increment_arguments args;
  increment w a remaining amount.

Lemma opaque_increment_Ok w accounts args w' :
  increment_handler w accounts args = Ok w' ->
  exists state authority s,
    accounts = [state; authority] /\ state_at w (ai_key state) = Some s /\ ai_owner state = ID /\
    ai_is_writable state = true /\
    hs_authority s = ai_key authority /\ ai_is_signer authority = true /\
    let amount := from_le_bytes (take 8 args) in
    hs_calls s + 1 < 2 ^ 64 /\ hs_value s + amount < 2 ^ 64 /\
    w_accounts w' = <[ai_key state := OtherProgramData (OpaqueHelperData
      (with_counters s (hs_calls s + 1) (hs_value s + amount)))]> (w_accounts w) /\
    w_return_data w' =
      Some (ID, encode_probe_return_data (hs_calls s + 1) (hs_value s + amount)).
Proof.
  unfold increment_handler, increment_accounts. intros Hh.
  destruct accounts as [|state [|authority remaining]]; [discriminate..|].
  apply bind_Ok in Hh as ([a rest] & Ha & Hh). inv_engine.
  match goal with H : increment _ _ _ _ = Ok _ |- _ => unfold increment in H end.
  match goal with H : increment_arguments _ = Ok _ |- _ => unfold increment_arguments in H end.
  inv_engine.
  match goal with H : counters _ _ = Ok ?p |- _ => destruct p; apply counters_Ok in H end.
  inv_engine. to_prop. unfold key_eqb in *. to_prop. destruct_and!. subst.
  eexists state, authority, _. split_and!; eauto.
Qed.
End OpaqueProbe.

Module CallbackProbe.
Definition ID : Pubkey :=
  Eval vm_compute in pubkey_literal "6QXXm7aqjRxQGJ6V3nvtS5taHuojM9SisVrHg3Xrj1Vj".
Definition PROBE_RETURN_MAGIC : list Z := bytes_of_string "CBKPRB00".

Definition encode_probe_return_data (calls value : Z) : list Z :=
  PROBE_RETURN_MAGIC ++ to_le_bytes 8 calls ++ to_le_bytes 8 value.

Definition state_at (w : World) (k : Pubkey) : option HelperState :=
  match program_data_at w k with Some (CallbackHelperData s) => Some s | _ => None end.

Definition initialize (w : World) (a : InitializeState) (remaining : list AccountInfo)
    (allowed_callback : Pubkey) : engine_result World :=
  _ ← init_keypair w (is_state a);
  _ ← init_payer (is_authority a) (is_system_program a);
  _ ← require_engine (bool_decide (remaining = [])) UnexpectedAccount;
  _ ← require_engine (negb (key_eqb allowed_callback default_pubkey)) InvalidCallback;
  _ ← require_engine (negb (key_eqb allowed_callback (ai_key (is_state a)))) InvalidCallback;
  _ ← require_engine (negb (key_eqb allowed_callback ID)) InvalidCallback;
  Ok (store w (ai_key (is_state a)) (OtherProgramData (CallbackHelperData
        {| hs_authority := allowed_callback; hs_calls := 0; hs_value := 0 |}))).

Record Increment := {
  inc_helper_state : Account HelperState;
  inc_callback_authority : AccountInfo }.

Definition increment_accounts (w : World) (accounts : list AccountInfo)
    : engine_result (Increment * list AccountInfo) :=
  match accounts with
  | state :: callback :: remaining =>
      s ← ok_or (state_at w (ai_key state)) EngineConstraint;
      _ ← require_engine (key_eqb (ai_owner state) ID && ai_is_writable state) EngineConstraint;
      Ok ({| inc_helper_state := Build_Account state s; inc_callback_authority := callback |},
          remaining)
  | _ => Err EngineConstraint
  end.

Definition validate_increment (a : Increment) (remaining : list AccountInfo) (amount : Z)
    : engine_result unit :=
  let callback := inc_callback_authority a in
  _ ← require_engine (bool_decide (remaining = [])) UnexpectedAccount;
  _ ← require_engine (0 <? amount) InvalidAmount;
  _ ← require_engine_keys_eq (ai_key callback) (hs_authority (acc_data (inc_helper_state a)))
        InvalidCallback;
  _ ← require_engine (ai_is_signer callback) CallbackNotSigner;
  _ ← require_engine (negb (ai_is_writable callback)) CallbackWritable;
  _ ← require_engine (negb (ai_executable callback)) CallbackExecutable;
  require_engine (negb (key_eqb (ai_key callback) (key (inc_helper_state a)))) InvalidCallback.

(** [apply_increment] *)
Definition apply_increment (state : HelperState) (amount : Z)
    : engine_result (HelperState * (Z * Z)) :=
  '(next_calls, next_value) ← counters state amount;
  Ok (with_counters state next_calls next_value, (next_calls, next_value)).

Definition increment (w : World) (a : Increment) (remaining : list AccountInfo) (amount : Z)
    : engine_result World :=
  _ ← validate_increment a remaining amount;
  '(state, (next_calls, next_value)) ← apply_increment (acc_data (inc_helper_state a)) amount;
  let w := set_return_data w ID (encode_probe_return_data next_calls next_value) in
  Ok (store w (key (inc_helper_state a)) (OtherProgramData (CallbackHelperData state))).

(** The same, serialized early, and then a deliberate failure. *)
Definition increment_and_fail (w : World) (a : Increment) (remaining : list AccountInfo)
    (amount : Z) : engine_result World :=
  _ ← increment w a remaining amount;
  Err DeliberateFailure.

Definition increment_handler : Handler := fun w accounts args =>
  '(a, remaining) ← increment_accounts w accounts;
  amount ← increment_arguments args;
  increment w a remaining amount.

Lemma callback_increment_Ok w accounts args w' :
  increment_handler w accounts args = Ok w' ->
  exists state callback s,
    accounts = [state; callback] /\ state_at w (ai_key state) = Some s /\ ai_owner state = ID /\
    ai_is_writable state = true /\ hs_authority s = ai_key callback /\
    ai_is_signer callback = true /\ ai_is_writable callback = false /\
    ai_executable callback = false /\ ai_key callback <> ai_key state /\
    let amount := from_le_bytes (take 8 args) in
    0 < amount /\ hs_calls s + 1 < 2 ^ 64 /\ hs_value s + amount < 2 ^ 64 /\
    w_accounts w' = <[ai_key state := OtherProgramData (CallbackHelperData
      (with_counters s (hs_calls s + 1) (hs_value s + amount)))]> (w_accounts w) /\
    w_return_data w' =
      Some (ID, encode_probe_return_data (hs_calls s + 1) (hs_value s + amount)).
Proof.
  unfold increment_handler, increment_accounts. intros Hh.
  destruct accounts as [|state [|callback remaining]]; [discriminate..|].
  apply bind_Ok in Hh as ([a rest] & Ha & Hh). inv_engine.
  match goal with H : increment _ _ _ _ = Ok _ |- _ =>
    unfold increment, validate_increment, apply_increment in H end.
  match goal with H : increment_arguments _ = Ok _ |- _ => unfold increment_arguments in H end.
  inv_engine.
  match goal with H : counters _ _ = Ok ?p |- _ => destruct p; apply counters_Ok in H end.
  inv_engine. to_prop. unfold key_eqb in *. to_prop. destruct_and!. subst.
  eexists state, callback, _. split_and!; eauto.
Qed.
End CallbackProbe.
