(* ===== verification/Validation.v ===== *)
(** * validation.rs of the three core crates

    The guards shared by every instruction, written against [CoreConfig]; the
    functions the experiment cores add ([validate_opaque_payload],
    [validate_opaque_capabilities], the delegate checks of routed-callback-core)
    follow at the end. *)
From S2P Require Import Prelude Codec CoreState Solana.

Definition ensure_no_remaining_accounts (accounts : list AccountInfo) : result unit :=
  require_core (match accounts with [] => true | _ :: _ => false end) UnexpectedRemainingAccounts.

(** for (index, key): no equal key in keys[index + 1..] *)
Fixpoint ensure_distinct_roles (keys : list Pubkey) : result unit :=
  match keys with
  | [] => Ok tt
  | key :: rest =>
      _ ← require_core (negb (existsb (fun candidate => key_eqb candidate key) rest))
            DuplicateAccountRole;
      ensure_distinct_roles rest
  end.

Section Validation.
Context `{Runtime} {C : CoreConfig}.

Definition validate_market_domain (market_key : Pubkey) (market : MarketV0)
    (domain_key : Pubkey) (domain : DomainV0) : result unit :=
  _ ← require_core (m_version market =? EXPERIMENT_VERSION_V0) InvalidMarket;
  _ ← require_core (d_version domain =? EXPERIMENT_VERSION_V0) InvalidDomain;
  _ ← require_core ((m_fee_bps market =? PROTOCOL_FEE_BPS_V0) &&
                    (m_fee_policy_revision market =? FEE_POLICY_REVISION_V0)) InvalidFeePolicy;
  expected_market ← core_ok_or (create_program_address
    [MARKET_SEED_V0; m_initializer market; m_market_id market; [m_bump market]] ID) InvalidMarket;
  _ ← require_keys_eq market_key expected_market InvalidMarket;
  _ ← require_keys_eq (d_market domain) market_key InvalidDomainAdmission;
  expected_domain ← core_ok_or (create_program_address
    [DOMAIN_SEED_V0; market_key; [d_bump domain]] ID) InvalidDomain;
  _ ← require_keys_eq domain_key expected_domain InvalidDomain;
  _ ← require_keys_eq (d_engine_program domain) (m_engine_program market) InvalidDomainAdmission;
  _ ← require_keys_eq (d_engine_state domain) (m_engine_state market) InvalidDomainAdmission;
  require_core (d_engine_revision domain =? m_engine_revision market) InvalidEngineRevision.

Definition validate_fee_ledger (market_key : Pubkey) (market : MarketV0)
    (fee_ledger_key : Pubkey) (fee_ledger : FeeLedgerV0) : result unit :=
  _ ← require_core (fl_version fee_ledger =? EXPERIMENT_VERSION_V0) InvalidFeeLedger;
  _ ← require_keys_eq (fl_market fee_ledger) market_key InvalidFeeLedger;
  _ ← require_keys_eq (fl_mint_a fee_ledger) (m_mint_a market) InvalidFeeLedger;
  expected ← core_ok_or (create_program_address
    [FEE_LEDGER_SEED_V0; market_key; m_mint_a market; [fl_bump fee_ledger]] ID) InvalidFeeLedger;
  require_keys_eq fee_ledger_key expected InvalidFeeLedger.

Definition canonical_domain_vault (domain_key : Pubkey) (asset_index bump : Z) : result Pubkey :=
  core_ok_or (create_program_address [VAULT_SEED_V0; domain_key; [asset_index]; [bump]] ID)
    InvalidDomainVault.

Definition canonical_fee_vault (fee_ledger_key : Pubkey) (bump : Z) : result Pubkey :=
  core_ok_or (create_program_address [FEE_VAULT_SEED_V0; fee_ledger_key; [bump]] ID)
    InvalidFeeVault.

Definition validate_classic_mint (mint_key : Pubkey) (mint : Mint) : result unit :=
  _ ← require_core (mint_is_initialized mint) MintNotInitialized;
  _ ← require_keys_neq mint_key native_mint_ID NativeMintUnsupported;
  require_core (bool_decide (mint_freeze_authority mint = None)) MintFreezeAuthorityUnsupported.

Definition validate_common_token_account (account : TokenAccount) (expected_mint : Pubkey)
    : result unit :=
  _ ← require_core (bool_decide (ta_state account <> Frozen)) FrozenTokenAccount;
  _ ← require_core (bool_decide (ta_state account = Initialized)) TokenAccountNotInitialized;
  _ ← require_core (bool_decide (ta_is_native account = None)) NativeTokenAccountUnsupported;
  require_keys_eq (ta_mint account) expected_mint InvalidTokenMint.

Definition validate_protected_token_account (account : TokenAccount)
    (expected_mint expected_authority : Pubkey) : result unit :=
  _ ← validate_common_token_account account expected_mint;
  _ ← require_keys_eq (ta_owner account) expected_authority InvalidTokenAuthority;
  _ ← require_core (bool_decide (ta_delegate account = None)) TokenDelegateUnsupported;
  _ ← require_core (ta_delegated_amount account =? 0) InvalidDelegatedAmount;
  require_core (bool_decide (ta_close_authority account = None)) TokenCloseAuthorityUnsupported.

Definition validate_credit_destination (account : TokenAccount) (expected_mint : Pubkey)
    : result unit :=
  validate_common_token_account account expected_mint.

Definition require_raw_covers_accounted (raw accounted : Z) : result unit :=
  require_core (accounted <=? raw) VaultBelowAccountedBalance.

Definition exact_debit (before after expected : Z) (error_code : CoreError) : result unit :=
  observed ← core_ok_or (checked_sub before after) ArithmeticOverflow;
  if negb (observed =? expected) then Err (Core error_code) else Ok tt.

Definition exact_credit (before after expected : Z) (error_code : CoreError) : result unit :=
  observed ← core_ok_or (checked_sub after before) ArithmeticOverflow;
  if negb (observed =? expected) then Err (Core error_code) else Ok tt.

(** routed-callback-core: the source before and under a delegated spend *)
Definition validate_user_source_before_authorization (account : TokenAccount)
    (expected_mint expected_authority : Pubkey) : result unit :=
  _ ← validate_common_token_account account expected_mint;
  _ ← require_keys_eq (ta_owner account) expected_authority InvalidTokenAuthority;
  _ ← require_core (bool_decide (ta_delegate account = None)) ExistingTokenDelegate;
  _ ← require_core (ta_delegated_amount account =? 0) InvalidDelegatedAmount;
  require_core (bool_decide (ta_close_authority account = None)) TokenCloseAuthorityUnsupported.

Definition validate_delegated_spend_source (account : TokenAccount)
    (expected_mint expected_spend_authority : Pubkey) (exact_total_debit : Z) : result unit :=
  _ ← validate_common_token_account account expected_mint;
  _ ← require_core (bool_decide (ta_delegate account = Some expected_spend_authority))
        InvalidSpendAuthority;
  _ ← require_core (ta_delegated_amount account =? exact_total_debit) DelegatedAmountMismatch;
  require_core (bool_decide (ta_close_authority account = None)) TokenCloseAuthorityUnsupported.
End Validation.

(** ** Lemmas *)

Lemma existsb_key_eqb k l : existsb (fun c => key_eqb c k) l = true <-> k ∈ l.
Proof.
  rewrite existsb_exists. setoid_rewrite bool_decide_eq_true.
  rewrite list_elem_of_In. naive_solver.
Qed.

Lemma ensure_distinct_roles_Ok keys u : ensure_distinct_roles keys = Ok u <-> NoDup keys.
Proof.
  destruct u. induction keys as [|k keys IH]; simpl.
  - split; [constructor | reflexivity].
  - rewrite bind_Ok, NoDup_cons, <- IH, <- existsb_key_eqb. setoid_rewrite require_core_Ok.
    setoid_rewrite negb_true_iff. destruct (existsb _ _); naive_solver.
Qed.

Lemma ensure_distinct_roles_Err keys e :
  ensure_distinct_roles keys = Err e -> e = Core DuplicateAccountRole /\ ~ NoDup keys.
Proof.
  induction keys as [|k keys IH]; simpl; [discriminate|]. rewrite NoDup_cons.
  intros [[Hb ->]%require_core_Err|(u & _ & Hr)]%bind_Err; [|naive_solver].
  split; [done|]. apply negb_false_iff, existsb_key_eqb in Hb. tauto.
Qed.

Lemma ensure_distinct_roles_total keys : ensure_distinct_roles keys <> Panic.
Proof. induction keys as [|k keys IH]; simpl; [done|]. by destruct (existsb _ _). Qed.

Lemma duplicate_roles_rejected keys i j k :
  i <> j -> keys !! i = Some k -> keys !! j = Some k ->
  ensure_distinct_roles keys = Err (Core DuplicateAccountRole).
Proof.
  intros Hij Hi Hj. destruct (ensure_distinct_roles keys) as [u|e|] eqn:E.
  - apply ensure_distinct_roles_Ok in E. destruct Hij. by eapply NoDup_lookup.
  - by apply ensure_distinct_roles_Err in E as [-> _].
  - by apply ensure_distinct_roles_total in E.
Qed.

Lemma validate_classic_mint_Err `{Runtime} k m e :
  validate_classic_mint k m = Err e ->
  e = Core MintNotInitialized \/ e = Core NativeMintUnsupported \/
  e = Core MintFreezeAuthorityUnsupported.
Proof.
  unfold validate_classic_mint.
  intros [[_ ->]%require_core_Err|(? & _ & Hh)]%bind_Err; [auto|].
  apply bind_Err in Hh as [[_ ->]%require_keys_neq_Err|(? & _ & [_ ->]%require_core_Err)]; auto.
Qed.

Lemma exact_debit_Ok before after expected e u :
  exact_debit before after expected e = Ok u <-> before = after + expected /\ 0 <= expected.
Proof.
  unfold exact_debit. destruct u. split.
  - intros Hd. inv_handler. inv_checked. subst. case_match; [discriminate|].
    rewrite negb_false_iff in *. to_prop. lia.
  - intros [-> Hle]. assert (after <= after + expected) as Hs by lia.
    rewrite (proj2 (checked_sub_Some (after + expected) after _) (conj Hs eq_refl)).
    unfold core_ok_or, ok_or. rewrite bind_ret_l, (proj2 (Z.eqb_eq _ _)) by lia. reflexivity.
Qed.

Lemma exact_credit_Ok before after expected e u :
  exact_credit before after expected e = Ok u <-> after = before + expected /\ 0 <= expected.
Proof. apply (exact_debit_Ok after before expected e u). Qed.

Lemma require_raw_covers_accounted_Ok raw accounted u :
  require_raw_covers_accounted raw accounted = Ok u <-> accounted <= raw.
Proof. unfold require_raw_covers_accounted. by rewrite require_core_Ok, Z.leb_le. Qed.

Arguments ensure_distinct_roles : simpl never.

(** [inv_handler] with the validations whose success has a closed form. *)
Ltac inv_guarded_step :=
  match goal with
  | H : ensure_distinct_roles _ = Ok _ |- _ => apply ensure_distinct_roles_Ok in H
  | H : require_raw_covers_accounted _ _ = Ok _ |- _ =>
      apply require_raw_covers_accounted_Ok in H
  | H : exact_debit _ _ _ _ = Ok _ |- _ => apply exact_debit_Ok in H as [? ?]
  | H : exact_credit _ _ _ _ = Ok _ |- _ => apply exact_credit_Ok in H as [? ?]
  | _ => inv_handler_step
  end.
Ltac inv_guarded := repeat inv_guarded_step.
