(* ===== verification/Capability.v ===== *)
(** * Capabilities and opaque payloads

    The two experiment wire crates declare the same [CapabilityDescriptor], hash
    lists of them and opaque payloads in the same way under different hash
    domains and limits, and the two experiment cores validate the opaque
    accounts with the same function. The shared code is modelled here with the
    domain and the limit as arguments; GeneratedWire and RoutedWire supply
    theirs. *)
From S2P Require Import Prelude Codec CoreState Solana ReferenceRuntime Validation.

Definition MAX_OPAQUE_ACCOUNTS : nat := 8.
Definition MAX_OPAQUE_PAYLOAD_LEN : nat := 128.
Definition CAPABILITY_FLAGS_WRITABLE : Z := Z.shiftl 1 0.
Definition CAPABILITY_FLAGS_SIGNER : Z := Z.shiftl 1 1.

Record CapabilityDescriptor := {
  cd_key : Pubkey;
  cd_owner : Pubkey;
  cd_is_writable : bool;
  cd_is_signer : bool;
  cd_is_executable : bool }.

#[export] Instance CapabilityDescriptor_eq_dec : EqDecision CapabilityDescriptor.
Proof. solve_decision. Defined.

Definition privilege_flags (d : CapabilityDescriptor) : Z :=
  Z.lor (if cd_is_writable d then CAPABILITY_FLAGS_WRITABLE else 0)
        (if cd_is_signer d then CAPABILITY_FLAGS_SIGNER else 0).

(** for (index, descriptor) in descriptors.iter().enumerate() *)
Fixpoint encode_descriptors (index : Z) (descriptors : list CapabilityDescriptor) : list Z :=
  match descriptors with
  | [] => []
  | d :: rest =>
      to_le_bytes 2 index ++ cd_key d ++ cd_owner d ++ [Z.b2z (cd_is_executable d)] ++
      [privilege_flags d] ++ encode_descriptors (index + 1) rest
  end.

Definition encode_capabilities (engine_program : Pubkey)
    (descriptors : list CapabilityDescriptor) : list Z :=
  [PROBE_WIRE_VERSION] ++ engine_program ++ to_le_bytes 2 (Z.of_nat (length descriptors)) ++
  encode_descriptors 0 descriptors.

Definition capability_hash_with `{Hasher} (domain : list Z) (maximum : nat)
    (engine_program : Pubkey) (descriptors : list CapabilityDescriptor)
    : outcome CodecError (list Z) :=
  if (maximum <? length descriptors)%nat
  then Err (TooManyCapabilityDescriptors (Z.of_nat maximum) (Z.of_nat (length descriptors)))
  else Ok (hashv [domain; encode_capabilities engine_program descriptors]).

Definition encode_payload (payload : list Z) : list Z :=
  [PROBE_WIRE_VERSION] ++ to_le_bytes 2 (Z.of_nat (length payload)) ++ payload.

Definition payload_hash_with `{Hasher} (domain : list Z) (payload : list Z)
    : outcome CodecError (list Z) :=
  if (MAX_OPAQUE_PAYLOAD_LEN <? length payload)%nat
  then Err (PayloadTooLong (Z.of_nat MAX_OPAQUE_PAYLOAD_LEN) (Z.of_nat (length payload)))
  else Ok (hashv [domain; encode_payload payload]).

(** The length and the zero-padded array of a payload. *)
Definition canonical_payload (payload : list Z) : outcome CodecError (Z * list Z) :=
  if (MAX_OPAQUE_PAYLOAD_LEN <? length payload)%nat
  then Err (PayloadTooLong (Z.of_nat MAX_OPAQUE_PAYLOAD_LEN) (Z.of_nat (length payload)))
  else Ok (Z.of_nat (length payload),
           payload ++ replicate (MAX_OPAQUE_PAYLOAD_LEN - length payload) 0).

Definition validate_opaque_account_count (actual : Z) : outcome CodecError unit :=
  if Z.of_nat MAX_OPAQUE_ACCOUNTS <? actual
  then Err (InvalidOpaqueAccountCount (Z.of_nat MAX_OPAQUE_ACCOUNTS) actual)
  else Ok tt.

(** The tail of [validate_engine_request]: count, length, zero padding. *)
Definition validate_payload_fields (opaque_account_count payload_len : Z) (payload : list Z)
    : outcome CodecError unit :=
  _ ← validate_opaque_account_count opaque_account_count;
  if Z.of_nat MAX_OPAQUE_PAYLOAD_LEN <? payload_len
  then Err (InvalidPayloadLength (Z.of_nat MAX_OPAQUE_PAYLOAD_LEN) payload_len)
  else if existsb (fun byte => negb (byte =? 0)) (drop (Z.to_nat payload_len) payload)
  then Err NonCanonicalPayloadPadding
  else Ok tt.

(** ** validation.rs of the experiment cores *)

Definition validate_opaque_payload (payload : list Z) : result unit :=
  require_core ((length payload <=? MAX_OPAQUE_PAYLOAD_LEN)%nat) OpaquePayloadTooLarge.

(** The privilege of a key is the union over its positions. *)
Definition effective_flag (flag : AccountInfo -> bool) (opaque_accounts : list AccountInfo)
    (account : AccountInfo) : bool :=
  existsb (fun candidate => key_eqb (ai_key candidate) (ai_key account) && flag candidate)
    opaque_accounts.

Definition validate_opaque_account `{Runtime} `{CoreConfig} (opaque_accounts : list AccountInfo)
    (fixed_envelope_keys : list Pubkey) (account : AccountInfo) : result CapabilityDescriptor :=
  let effective_is_signer := effective_flag ai_is_signer opaque_accounts account in
  let effective_is_writable := effective_flag ai_is_writable opaque_accounts account in
  _ ← require_core (negb effective_is_signer) OpaqueSignerForbidden;
  _ ← require_core (negb (existsb (fun fixed_key => key_eqb fixed_key (ai_key account))
                           fixed_envelope_keys)) OpaqueFixedRoleAlias;
  _ ← require_keys_neq (ai_owner account) ID OpaqueCoreOwnedAccount;
  _ ← require_core (negb (ai_executable account && effective_is_writable))
        OpaqueExecutableWritable;
  _ ← require_core (negb (effective_is_writable &&
                          (key_eqb (ai_owner account) spl_token_ID ||
                           key_eqb (ai_owner account) token_2022_ID)))
        OpaqueProtectedTokenAccountWritable;
  Ok {| cd_key := ai_key account; cd_owner := ai_owner account;
        cd_is_writable := effective_is_writable; cd_is_signer := effective_is_signer;
        cd_is_executable := ai_executable account |}.

Fixpoint map_result {A B} (f : A -> result B) (l : list A) : result (list B) :=
  match l with
  | [] => Ok []
  | a :: l => b ← f a; bs ← map_result f l; Ok (b :: bs)
  end.

Definition validate_opaque_capabilities `{Runtime} `{CoreConfig}
    (opaque_accounts : list AccountInfo) (fixed_envelope_keys : list Pubkey)
    : result (list CapabilityDescriptor) :=
  _ ← require_core ((length opaque_accounts <=? MAX_OPAQUE_ACCOUNTS)%nat) TooManyOpaqueAccounts;
  map_result (validate_opaque_account opaque_accounts fixed_envelope_keys) opaque_accounts.

(** The account info forwarded for a descriptor: the first position of the key
    whose owner, executability and privileges are those of the descriptor. *)
Definition provides (d : CapabilityDescriptor) (candidate : AccountInfo) : bool :=
  key_eqb (ai_key candidate) (cd_key d) && key_eqb (ai_owner candidate) (cd_owner d) &&
  Bool.eqb (ai_executable candidate) (cd_is_executable d) &&
  (negb (cd_is_writable d) || ai_is_writable candidate) &&
  (negb (cd_is_signer d) || ai_is_signer candidate).

Definition normalized_info (opaque_accounts : list AccountInfo) (d : CapabilityDescriptor)
    : result AccountInfo :=
  core_ok_or (find (provides d) opaque_accounts) OpaqueNormalizedPrivilegeUnavailable.

(** [AccountMeta::new] or [AccountMeta::new_readonly], never a signer. *)
Definition descriptor_meta (d : CapabilityDescriptor) : AccountMeta :=
  if cd_is_writable d then meta_new (cd_key d) false else meta_new_readonly (cd_key d) false.

(** ** The capability encoding determines the descriptors *)

Definition descriptor_wf (d : CapabilityDescriptor) : Prop :=
  byte_string 32 (cd_key d) /\ byte_string 32 (cd_owner d).

#[export] Instance descriptor_wf_dec d : Decision (descriptor_wf d).
Proof. unfold descriptor_wf. apply _. Defined.

Lemma privilege_flags_inj d1 d2 :
  privilege_flags d1 = privilege_flags d2 ->
  cd_is_writable d1 = cd_is_writable d2 /\ cd_is_signer d1 = cd_is_signer d2.
Proof.
  unfold privilege_flags.
  destruct (cd_is_writable d1), (cd_is_signer d1), (cd_is_writable d2), (cd_is_signer d2);
    vm_compute; intuition congruence.
Qed.

Lemma encode_descriptors_inj l1 : forall l2 i,
  Forall descriptor_wf l1 -> Forall descriptor_wf l2 -> length l1 = length l2 ->
  encode_descriptors i l1 = encode_descriptors i l2 -> l1 = l2.
Proof.
  induction l1 as [|d1 l1 IH]; intros [|d2 l2] i W1 W2 Hl Heq; try discriminate; [done|].
  apply Forall_cons in W1 as [[K1 O1] W1], W2 as [[K2 O2] W2].
  cbn [encode_descriptors] in Heq.
  apply app_inj_1 in Heq as [_ Heq]; [|by rewrite !length_to_le_bytes].
  apply app_inj_1 in Heq as [Ek Heq]; [|by rewrite (proj1 K1), (proj1 K2)].
  apply app_inj_1 in Heq as [Eo Heq]; [|by rewrite (proj1 O1), (proj1 O2)].
  apply app_inj_1 in Heq as [Ex Heq]; [|done].
  apply app_inj_1 in Heq as [Ef Heq]; [|done].
  injection Ex as Ex%Z.b2z_inj. injection Ef as [Ew Es]%privilege_flags_inj.
  f_equal; [destruct d1, d2; simpl in *; by subst|].
  eapply IH; eauto.
Qed.

Lemma encode_capabilities_inj e1 e2 l1 l2 :
  byte_string 32 e1 -> byte_string 32 e2 -> Forall descriptor_wf l1 -> Forall descriptor_wf l2 ->
  Z.of_nat (length l1) < 65536 -> Z.of_nat (length l2) < 65536 ->
  encode_capabilities e1 l1 = encode_capabilities e2 l2 -> e1 = e2 /\ l1 = l2.
Proof.
  intros E1 E2 W1 W2 L1 L2 Heq. unfold encode_capabilities in Heq.
  apply app_inj_1 in Heq as [_ Heq]; [|done].
  apply app_inj_1 in Heq as [-> Heq]; [|by rewrite (proj1 E1), (proj1 E2)].
  apply app_inj_1 in Heq as [El Heq]; [|by rewrite !length_to_le_bytes].
  apply to_le_bytes_inj in El; [|simpl; lia..]. split; [done|].
  eapply encode_descriptors_inj; eauto. lia.
Qed.

Definition capability_preimage (domain : list Z) (engine_program : Pubkey)
    (descriptors : list CapabilityDescriptor) : list (list Z) :=
  [domain; encode_capabilities engine_program descriptors].

Lemma capability_hash_injective `{Hasher} domain maximum e1 e2 l1 l2 h :
  Z.of_nat maximum < 65536 ->
  byte_string 32 e1 -> byte_string 32 e2 -> Forall descriptor_wf l1 -> Forall descriptor_wf l2 ->
  capability_hash_with domain maximum e1 l1 = Ok h ->
  capability_hash_with domain maximum e2 l2 = Ok h ->
  (e1 = e2 /\ l1 = l2) \/
  sha256_collision (capability_preimage domain e1 l1) (capability_preimage domain e2 l2).
Proof.
  intros Hm E1 E2 W1 W2. unfold capability_hash_with.
  destruct (Nat.ltb_spec maximum (length l1)), (Nat.ltb_spec maximum (length l2));
    try discriminate. intros G1%Ok_inj G2%Ok_inj.
  destruct (hashv_binds (capability_preimage domain e1 l1) (capability_preimage domain e2 l2))
    as [Heq|]; [unfold capability_preimage; congruence|left|by right].
  unfold capability_preimage in Heq. rewrite !concat_pair in Heq. apply app_inv_head in Heq.
  apply encode_capabilities_inj in Heq; auto; lia.
Qed.

Lemma encode_payload_inj p1 p2 :
  encode_payload p1 = encode_payload p2 -> p1 = p2.
Proof.
  intros Heq. unfold encode_payload in Heq.
  apply app_inj_1 in Heq as [_ Heq]; [|done].
  by apply app_inj_1 in Heq as [_ Heq]; [|by rewrite !length_to_le_bytes].
Qed.

(** ** What validation accepts *)

Definition opaque_descriptor (opaque_accounts : list AccountInfo) (a : AccountInfo)
    : CapabilityDescriptor :=
  {| cd_key := ai_key a; cd_owner := ai_owner a;
     cd_is_writable := effective_flag ai_is_writable opaque_accounts a;
     cd_is_signer := false; cd_is_executable := ai_executable a |}.

(** An account an engine may be handed: nobody's signature, no fixed role, not
    the core's; writable only when it is neither a program nor a token account. *)
Definition forwardable `{Runtime} `{CoreConfig} (opaque_accounts : list AccountInfo)
    (fixed_envelope_keys : list Pubkey) (a : AccountInfo) : Prop :=
  (forall c, c ∈ opaque_accounts -> ai_key c = ai_key a -> ai_is_signer c = false) /\
  (ai_key a ∉ fixed_envelope_keys) /\ ai_owner a <> ID /\
  ((exists c, c ∈ opaque_accounts /\ ai_key c = ai_key a /\ ai_is_writable c = true) ->
   ai_executable a = false /\ ai_owner a <> spl_token_ID /\ ai_owner a <> token_2022_ID).

Lemma effective_flag_true flag l a :
  effective_flag flag l a = true <->
  exists c, c ∈ l /\ ai_key c = ai_key a /\ flag c = true.
Proof.
  unfold effective_flag. rewrite existsb_exists. setoid_rewrite andb_true_iff.
  unfold key_eqb. setoid_rewrite bool_decide_eq_true. setoid_rewrite list_elem_of_In. done.
Qed.
Lemma effective_flag_false flag l a :
  effective_flag flag l a = false <->
  forall c, c ∈ l -> ai_key c = ai_key a -> flag c = false.
Proof.
  rewrite <- not_true_iff_false, effective_flag_true. split.
  - intros Hn c Hc Hk. destruct (flag c) eqn:E; [|done]. destruct Hn; eauto.
  - intros Hf (c & Hc & Hk & Ht). rewrite (Hf c Hc Hk) in Ht. discriminate.
Qed.

Lemma validate_opaque_account_Ok `{Runtime} `{CoreConfig} l keys a d :
  validate_opaque_account l keys a = Ok d <->
  forwardable l keys a /\ d = opaque_descriptor l a.
Proof.
  unfold forwardable. rewrite <- effective_flag_false, <- effective_flag_true.
  unfold validate_opaque_account, opaque_descriptor. split.
  - intros Hv. inv_handler. to_prop. rewrite Hok.
    assert (ai_key a ∉ keys) as Hk.
    { intros Hin%existsb_key_eqb. congruence. }
    split; [|done]. split_and!; [done..|]. intros Hw. rewrite Hw in *. simpl in *.
    match goal with H : (_ || _) = false |- _ => apply orb_false_iff in H as [? ?] end.
    match goal with H : (_ && true) = false |- _ => rewrite andb_true_r in H end.
    unfold key_eqb in *. by to_prop.
  - intros [(Hs & Hk & Ho & Hw) ->]. rewrite Hs. simpl.
    destruct (existsb (fun k => key_eqb k (ai_key a)) keys) eqn:Ek;
      [by apply existsb_key_eqb in Ek|]. simpl.
    unfold require_keys_neq, key_eqb. rewrite (bool_decide_eq_false_2 _ Ho). simpl.
    destruct (effective_flag ai_is_writable l a); simpl; [|by rewrite andb_false_r].
    destruct (Hw eq_refl) as (-> & H1 & H2). simpl.
    by rewrite (bool_decide_eq_false_2 _ H1), (bool_decide_eq_false_2 _ H2).
Qed.

Lemma map_result_Ok {A B} (f : A -> result B) l bs :
  map_result f l = Ok bs <-> Forall2 (fun a b => f a = Ok b) l bs.
Proof.
  revert bs. induction l as [|a l IH]; intros bs; simpl.
  - split; [by intros [= <-] | by intros ->%Forall2_nil_inv_l].
  - setoid_rewrite bind_Ok. split.
    + intros (b & Hb & Hbs). apply bind_Ok in Hbs as (bs' & Hbs' & [= <-]).
      constructor; [done|]. by apply IH.
    + intros (b & bs' & Hb & Hbs & ->)%Forall2_cons_inv_l. exists b. split; [done|].
      apply bind_Ok. exists bs'. split; [by apply IH | done].
Qed.

Lemma validate_opaque_capabilities_Ok `{Runtime} `{CoreConfig} l keys ds :
  validate_opaque_capabilities l keys = Ok ds <->
  (length l <= MAX_OPAQUE_ACCOUNTS)%nat /\ Forall (forwardable l keys) l /\
  ds = map (opaque_descriptor l) l.
Proof.
  unfold validate_opaque_capabilities, require_core.
  rewrite bind_Ok. setoid_rewrite require_Ok. setoid_rewrite Nat.leb_le.
  setoid_rewrite map_result_Ok.
  assert (forall l' ds',
    Forall2 (fun a b => validate_opaque_account l keys a = Ok b) l' ds' <->
    Forall (forwardable l keys) l' /\ ds' = map (opaque_descriptor l) l') as Hf.
  { induction l' as [|a l' IH]; intros ds'; simpl.
    - split; [intros ->%Forall2_nil_inv_l; auto | intros [_ ->]; constructor].
    - split.
      + intros (d & ds'' & Ha & Hr & ->)%Forall2_cons_inv_l.
        apply validate_opaque_account_Ok in Ha as [? ->]. apply IH in Hr as [? ->].
        auto using Forall_cons_2.
      + intros [[? ?]%Forall_cons ->]. constructor; [by apply validate_opaque_account_Ok|].
        by apply IH. }
  setoid_rewrite Hf. split; [intros (? & ? & ? & ?); auto | intros (? & ? & ?); by exists tt].
Qed.

(** On Solana owner and executability are facts of an address, so two
    positions with one key agree on them. *)
Definition consistent_infos (l : list AccountInfo) : Prop :=
  forall a b, a ∈ l -> b ∈ l -> ai_key a = ai_key b ->
    ai_owner a = ai_owner b /\ ai_executable a = ai_executable b.

Lemma consistent_infos_Forall l :
  consistent_infos l <->
  Forall (fun a => Forall (fun b => ai_key a = ai_key b ->
    ai_owner a = ai_owner b /\ ai_executable a = ai_executable b) l) l.
Proof. unfold consistent_infos. rewrite Forall_forall. setoid_rewrite Forall_forall. firstorder. Qed.
#[export] Instance consistent_infos_dec l : Decision (consistent_infos l).
Proof.
  destruct (decide (Forall (fun a => Forall (fun b => ai_key a = ai_key b ->
    ai_owner a = ai_owner b /\ ai_executable a = ai_executable b) l) l)) as [Hf|Hf];
    [left | right]; by rewrite consistent_infos_Forall.
Defined.

(** A descriptor of the list, or its read-only demotion. *)
Definition demotes (d d' : CapabilityDescriptor) : Prop :=
  cd_key d' = cd_key d /\ cd_owner d' = cd_owner d /\
  cd_is_executable d' = cd_is_executable d /\ cd_is_signer d' = false /\
  (cd_is_writable d' = true -> cd_is_writable d = true).

Lemma normalized_info_available l a d :
  consistent_infos l -> a ∈ l -> demotes (opaque_descriptor l a) d ->
  exists info, normalized_info l d = Ok info /\ info ∈ l /\ provides d info = true.
Proof.
  intros Hc Ha (Hk & Ho & Hx & Hs & Hw). unfold normalized_info.
  assert (exists c, c ∈ l /\ provides d c = true) as (c & Hcl & Hp).
  { unfold provides, key_eqb. rewrite Hk, Ho, Hx, Hs. simpl.
    destruct (cd_is_writable d) eqn:Ew; simpl.
    - destruct (proj1 (effective_flag_true _ _ _) (Hw eq_refl)) as (c & Hcl & Hck & Hcw).
      destruct (Hc c a Hcl Ha Hck) as [Eo Ex]. exists c. split; [done|].
      by rewrite Hck, Eo, Ex, Hcw, !bool_decide_eq_true_2, eqb_reflx by done.
    - exists a. split; [done|]. by rewrite !bool_decide_eq_true_2, eqb_reflx by done. }
  destruct (find (provides d) l) as [info|] eqn:E.
  - apply find_some in E as [Hin Hpi]. exists info.
    split; [done|]. split; [by apply list_elem_of_In | done].
  - apply list_elem_of_In in Hcl. pose proof (find_none _ _ E c Hcl). congruence.
Qed.

Lemma map_result_total {A B} (f : A -> result B) l :
  (forall a, a ∈ l -> exists b, f a = Ok b) -> exists bs, map_result f l = Ok bs.
Proof.
  induction l as [|a l IH]; intros Hf; simpl; [by eexists|].
  destruct (Hf a) as [b ->]; [apply list_elem_of_here|].
  destruct IH as [bs ->]; [intros x Hx; apply Hf; by apply list_elem_of_further|]. by eexists.
Qed.

(** A validated closure can be forwarded, as it is or demoted. *)
Lemma opaque_infos_available `{Runtime} `{CoreConfig} l keys ds f :
  consistent_infos l -> validate_opaque_capabilities l keys = Ok ds ->
  (forall d, cd_is_signer d = false -> demotes d (f d)) ->
  exists infos, map_result (normalized_info l) (map f ds) = Ok infos.
Proof.
  intros Hc (_ & _ & ->)%validate_opaque_capabilities_Ok Hf. rewrite map_map. apply map_result_total.
  intros d (a & <- & Ha%list_elem_of_In)%list_elem_of_In%in_map_iff.
  destruct (normalized_info_available l a (f (opaque_descriptor l a)) Hc Ha) as (info & Hi & _).
  - by apply Hf.
  - by exists info.
Qed.

(** ** Properties *)

(** C28. Opaque capabilities, exactly: validation succeeds iff there are at most
    eight positions, none of them carries a signature in any of its positions,
    aliases a fixed role, belongs to the core, or is writable (in any position)
    while being a program or a token account; and then the descriptors are the
    positions in order, with the union of the privileges of each key. *)
Theorem opaque_capabilities_exact `{Runtime} `{CoreConfig} accounts fixed_keys descriptors :
  validate_opaque_capabilities accounts fixed_keys = Ok descriptors <->
  (length accounts <= 8)%nat /\
  (forall a, a ∈ accounts ->
    ai_is_signer a = false /\ (ai_key a ∉ fixed_keys) /\ ai_owner a <> ID /\
    ((exists c, c ∈ accounts /\ ai_key c = ai_key a /\ ai_is_writable c = true) ->
      ai_executable a = false /\ ai_owner a <> spl_token_ID /\ ai_owner a <> token_2022_ID)) /\
  descriptors = map (opaque_descriptor accounts) accounts.
Proof.
  rewrite validate_opaque_capabilities_Ok, Forall_forall. unfold forwardable, MAX_OPAQUE_ACCOUNTS.
  split.
  - intros (Hl & Hf & ->). split_and!; [done| |done]. intros a Ha.
    destruct (Hf a Ha) as (Hs & Hk & Ho & Hw). split_and!; eauto.
  - intros (Hl & Hf & ->). split_and!; [done| |done]. intros a Ha.
    destruct (Hf a Ha) as (_ & Hk & Ho & Hw). split_and!; auto. intros c Hc _. apply Hf, Hc.
Qed.

(** The guard [OpaqueNormalizedPrivilegeUnavailable] never fires: for
    validated positions that agree on owner and executability per key, every
    descriptor, and every read-only demotion of it, is provided by one of the
    positions. *)
Theorem normalized_privilege_available `{Runtime} `{CoreConfig} accounts fixed_keys descriptors :
  consistent_infos accounts ->
  validate_opaque_capabilities accounts fixed_keys = Ok descriptors ->
  forall d d', d ∈ descriptors -> demotes d d' ->
  exists info, normalized_info accounts d' = Ok info /\ info ∈ accounts /\
    ai_key info = cd_key d' /\ (cd_is_writable d' = true -> ai_is_writable info = true).
Proof.
  intros Hc (_ & _ & ->)%validate_opaque_capabilities_Ok d d' Hd Hdem.
  apply list_elem_of_In, in_map_iff in Hd as (a & <- & Ha%list_elem_of_In).
  destruct (normalized_info_available accounts a d' Hc Ha Hdem) as (info & Hn & Hin & Hp).
  exists info. split; [done|]. split; [done|]. unfold provides, key_eqb in Hp. to_prop.
  split; [done|]. intros Hw. rewrite Hw in *. simpl in *. intuition discriminate.
Qed.

(** A shared key in a writable and a read-only position. *)
Section Example.
#[local] Instance example_runtime : Runtime := reference_runtime no_callee.
#[local] Instance example_config : CoreConfig := routed_config.

Definition shared_positions : list AccountInfo :=
  [test_account (test_key 20) engine_k false false false;
   test_account (test_key 20) engine_k false true false].

Lemma normalized_privilege_available_witness :
  let d := opaque_descriptor shared_positions (test_account (test_key 20) engine_k false false false) in
  exists info, normalized_info shared_positions d = Ok info /\ info ∈ shared_positions /\
    ai_key info = test_key 20 /\ (cd_is_writable d = true -> ai_is_writable info = true).
Proof.
  intros d. apply (normalized_privilege_available shared_positions [] 
    (map (opaque_descriptor shared_positions) shared_positions)) with (d := d).
  - intros a b Ha Hb _. unfold shared_positions in *. set_solver.
  - vm_compute. reflexivity.
  - apply list_elem_of_here.
  - unfold demotes. auto.
Defined.
End Example.

(** ** Payload fields *)

Lemma validate_payload_fields_Ok count len payload u :
  validate_payload_fields count len payload = Ok u <->
  count <= 8 /\ len <= 128 /\ Forall (fun b => b = 0) (drop (Z.to_nat len) payload).
Proof.
  unfold validate_payload_fields, validate_opaque_account_count.
  change (Z.of_nat MAX_OPAQUE_ACCOUNTS) with 8.
  change (Z.of_nat MAX_OPAQUE_PAYLOAD_LEN) with 128. destruct u.
  destruct (Z.ltb_spec 8 count); simpl; [split; [discriminate|lia]|].
  destruct (Z.ltb_spec 128 len); simpl; [split; [discriminate|lia]|].
  destruct (existsb _ _) eqn:E.
  - split; [discriminate|]. intros (_ & _ & Hf). apply existsb_exists in E as (b & Hb & Hnb).
    rewrite Forall_forall in Hf. apply list_elem_of_In, Hf in Hb. subst. discriminate.
  - split; [|done]. intros _. split; [lia|]. split; [lia|]. apply Forall_forall. intros b Hb.
    destruct (Z.eqb_spec b 0) as [|Hne]; [done|]. rewrite <- not_true_iff_false in E. destruct E.
    apply existsb_exists. exists b. rewrite <- list_elem_of_In.
    by rewrite (proj2 (Z.eqb_neq b 0) Hne).
Qed.

(** What [EngineRequest::new] stores passes the validation and gives the
    payload back. *)
Lemma canonical_payload_Ok payload len padded :
  canonical_payload payload = Ok (len, padded) ->
  len = Z.of_nat (length payload) /\ (length payload <= MAX_OPAQUE_PAYLOAD_LEN)%nat /\
  length padded = MAX_OPAQUE_PAYLOAD_LEN /\ take (Z.to_nat len) padded = payload /\
  Forall (fun b => b = 0) (drop (Z.to_nat len) padded) /\
  (Forall is_u8 payload -> Forall is_u8 padded).
Proof.
  unfold canonical_payload. destruct (Nat.ltb_spec MAX_OPAQUE_PAYLOAD_LEN (length payload));
    [discriminate|]. intros [= <- <-].
  rewrite Nat2Z.id, take_app_length, drop_app_length, length_app, length_replicate.
  split_and!; try done; try lia.
  - apply Forall_replicate. done.
  - intros Hp. apply Forall_app_2; [done|]. apply Forall_replicate. unfold in_width. lia.
Qed.

Lemma canonical_payload_total payload :
  (length payload <= MAX_OPAQUE_PAYLOAD_LEN)%nat ->
  exists len padded, canonical_payload payload = Ok (len, padded).
Proof.
  intros Hl. unfold canonical_payload.
  destruct (Nat.ltb_spec MAX_OPAQUE_PAYLOAD_LEN (length payload)); [lia|]. eauto.
Qed.
