(* ===== verification/Cpmm.v ===== *)
(** * What the two plan engines share

    generated-plan-engine and routed-plan-engine carry the same quote, read
    accounts into capability descriptors in the same way, and encode the same
    helper command. The quote takes the fee off the input and prices the rest
    by the constant product; both divisions round in the pool's favour, and the
    whole gross input is settled into the reserve. *)
From S2P Require Import Prelude Codec CoreState Solana ReferenceRuntime EngineFrame Helpers Capability.

(** The descriptor of an account as this program was handed it. *)
Definition capability_descriptor (account : AccountInfo) : CapabilityDescriptor :=
  {| cd_key := ai_key account; cd_owner := ai_owner account;
     cd_is_writable := ai_is_writable account; cd_is_signer := ai_is_signer account;
     cd_is_executable := ai_executable account |}.

(** ** The helper command in an opaque payload *)

Definition HELPER_PAYLOAD_TAG : Z := 1.
Definition HELPER_INCREMENT_PAYLOAD_LEN : nat := 9.

Definition encode_helper_payload (amount : Z) : list Z :=
  HELPER_PAYLOAD_TAG :: to_le_bytes 8 amount.

(** [payload.first().copied() == Some(HELPER_PAYLOAD_TAG)] *)
Definition names_helper (payload : list Z) : bool :=
  bool_decide (payload !! 0%nat = Some HELPER_PAYLOAD_TAG).

(** The [match payload.len()]: a bare tag means one; nine bytes, or the
    longest payload, carry the amount after the tag. *)
Definition helper_amount (payload : list Z) : engine_result Z :=
  amount ← (if (length payload =? 1)%nat then Ok 1
            else if (length payload =? HELPER_INCREMENT_PAYLOAD_LEN)%nat ||
                    (length payload =? MAX_OPAQUE_PAYLOAD_LEN)%nat
            then Ok (from_le_bytes (take 8 (drop 1 payload)))
            else Err InvalidHelperPayload);
  _ ← require_engine (0 <? amount) InvalidHelperPayload;
  Ok amount.

Definition helper_increment_data (amount : Z) : list Z :=
  HELPER_INCREMENT_DISCRIMINATOR ++ to_le_bytes 8 amount.

Lemma helper_amount_u64 payload amount :
  Forall is_u8 payload -> helper_amount payload = Ok amount -> is_u64 amount.
Proof.
  intros Hu8 Ha. unfold helper_amount in Ha. inv_engine.
  destruct (length payload =? 1)%nat; [inv_engine; unfold in_width; lia|].
  destruct (_ || _); [|discriminate]. inv_engine. unfold in_width.
  pose proof (from_le_bytes_bound (take 8 (drop 1 payload))
    ltac:(by apply Forall_take, Forall_drop)) as Hb.
  assert (256 ^ Z.of_nat (length (take 8 (drop 1 payload))) <= 2 ^ 64) as Hle.
  { transitivity (256 ^ 8); [|done]. apply Z.pow_le_mono_r; [lia|]. rewrite length_take. lia. }
  lia.
Qed.

(** The helper reads back the amount the engine wrote. *)
Lemma helper_amount_read amount : is_u64 amount -> from_le_bytes (take 8 (to_le_bytes 8 amount)) = amount.
Proof.
  intros Ha. rewrite take_ge by (rewrite length_to_le_bytes; lia).
  by apply from_to_le_bytes, u64_le_bytes.
Qed.

(** ** The quote *)

Definition ENGINE_BASIS_POINTS_DENOMINATOR : Z := 10000.

Record CpmmQuote := {
  cq_effective_input : Z;
  cq_lp_fee_retained : Z;
  cq_amount_out : Z }.

Definition quote_exact_in (reserve_in reserve_out gross_input lp_fee_bps : Z)
    : engine_result CpmmQuote :=
  _ ← require_engine ((0 <? reserve_in) && (0 <? reserve_out)) ZeroReserve;
  _ ← require_engine (0 <? gross_input) ZeroInput;
  retained_bps ← ok_or (checked_sub ENGINE_BASIS_POINTS_DENOMINATOR lp_fee_bps) InvalidLpFeeBps;
  _ ← require_engine (0 <? retained_bps) InvalidLpFeeBps;
  _ ← ok_or (checked_add 64 reserve_in gross_input) EngineArithmeticOverflow;
  effective_input_u128 ← ok_or
    (value ← checked_mul 128 gross_input retained_bps;
     checked_div value ENGINE_BASIS_POINTS_DENOMINATOR) EngineArithmeticOverflow;
  effective_input ← ok_or (try_from 64 effective_input_u128) EngineIntegerConversionFailed;
  _ ← require_engine (0 <? effective_input) EffectiveInputZero;
  numerator ← ok_or (checked_mul 128 reserve_out effective_input) EngineArithmeticOverflow;
  denominator ← ok_or (checked_add 128 reserve_in effective_input) EngineArithmeticOverflow;
  amount_out_u128 ← ok_or (checked_div numerator denominator) EngineArithmeticOverflow;
  amount_out ← ok_or (try_from 64 amount_out_u128) EngineIntegerConversionFailed;
  _ ← require_engine (0 <? amount_out) OutputAmountZero;
  _ ← require_engine (amount_out <? reserve_out) OutputReserveExceeded;
  lp_fee_retained ← ok_or (checked_sub gross_input effective_input) EngineArithmeticOverflow;
  Ok {| cq_effective_input := effective_input; cq_lp_fee_retained := lp_fee_retained;
        cq_amount_out := amount_out |}.

(** ** The two floors *)

Definition effective_of (gross bps : Z) : Z := gross * (10000 - bps) / 10000.
Definition output_of (reserve_in reserve_out effective : Z) : Z :=
  reserve_out * effective / (reserve_in + effective).

Lemma effective_bounds gross bps :
  0 <= gross -> 0 <= bps <= 10000 -> 0 <= effective_of gross bps <= gross.
Proof.
  intros Hg Hb. unfold effective_of. split; [apply Z.div_pos; nia|].
  apply Z.div_le_upper_bound; nia.
Qed.

Lemma output_product r s x :
  0 < r -> 0 < s -> 0 <= x ->
  0 <= output_of r s x /\ (r + x) * (s - output_of r s x) >= r * s /\ output_of r s x < s.
Proof.
  intros Hr Hs Hx. unfold output_of.
  pose proof (Z.div_mod (s * x) (r + x) ltac:(lia)) as Hd.
  pose proof (Z.mod_pos_bound (s * x) (r + x) ltac:(lia)) as Hm.
  assert (0 <= s * x / (r + x)) by (apply Z.div_pos; nia). nia.
Qed.

Lemma output_mono r s x y :
  0 < r -> 0 < s -> 0 <= x <= y -> output_of r s x <= output_of r s y.
Proof.
  intros Hr Hs Hxy. pose proof (output_product r s x Hr Hs ltac:(lia)) as (H1 & H2 & H3).
  unfold output_of at 2. apply Z.div_le_lower_bound; [lia|]. nia.
Qed.

Lemma effective_mono g g' bps : bps <= 10000 -> g <= g' -> effective_of g bps <= effective_of g' bps.
Proof. intros Hb Hg. unfold effective_of. apply Z.div_le_mono; nia. Qed.

(** On machine integers the intermediate checks never fire. *)
Lemma quote_exact_in_Ok r s g bps q :
  is_u64 r -> is_u64 s -> is_u64 g -> is_u16 bps ->
  quote_exact_in r s g bps = Ok q <->
    0 < r /\ 0 < s /\ 0 < g /\ bps < 10000 /\ r + g < 2 ^ 64 /\
    let x := effective_of g bps in
    0 < x /\ 0 < output_of r s x /\
    q = {| cq_effective_input := x; cq_lp_fee_retained := g - x;
           cq_amount_out := output_of r s x |}.
Proof.
  unfold in_width. intros Hr Hs Hg Hb. unfold quote_exact_in, require_engine,
    ENGINE_BASIS_POINTS_DENOMINATOR. split.
  - intros Hq. inv_ok. apply bind_Some in Hok4 as (v & Hv & Hd). inv_checked. to_prop.
    unfold in_width, effective_of, output_of in *. subst. simpl. split_and!; lia || done.
  - intros (H1 & H2 & H3 & H4 & H5 & H6 & H7 & ->).
    pose proof (effective_bounds g bps ltac:(lia) ltac:(lia)) as Hx.
    pose proof (output_product r s (effective_of g bps) H1 H2 ltac:(lia)) as (Ho & _ & Hlt).
    unfold require. rewrite (proj2 (Z.ltb_lt 0 r) H1), (proj2 (Z.ltb_lt 0 s) H2).
    rewrite (proj2 (Z.ltb_lt 0 g) H3). cbn [andb]. rewrite !bind_ret_l.
    rewrite (proj2 (checked_sub_Some 10000 bps _)) by (split; [lia | reflexivity]).
    cbn [ok_or]. rewrite bind_ret_l.
    rewrite (proj2 (Z.ltb_lt 0 (10000 - bps))) by lia. rewrite bind_ret_l.
    rewrite (proj2 (checked_add_Some 64 r g _)) by (split; [lia | reflexivity]).
    cbn [ok_or]. rewrite bind_ret_l.
    rewrite (proj2 (checked_mul_Some 128 g (10000 - bps) _)) by (split; [nia | reflexivity]).
    cbn [mbind option_bind].
    rewrite (proj2 (checked_div_Some _ 10000 _)) by (split; [lia | reflexivity]).
    cbn [ok_or]. rewrite bind_ret_l.
    change (g * (10000 - bps) / 10000) with (effective_of g bps).
    rewrite (proj2 (try_from_Some 64 (effective_of g bps) _))
      by (split; [unfold in_width; lia | reflexivity]).
    cbn [ok_or]. rewrite bind_ret_l, (proj2 (Z.ltb_lt 0 _) H6), bind_ret_l.
    rewrite (proj2 (checked_mul_Some 128 s _ _)) by (split; [nia | reflexivity]).
    cbn [ok_or]. rewrite bind_ret_l.
    rewrite (proj2 (checked_add_Some 128 r _ _)) by (split; [lia | reflexivity]).
    cbn [ok_or]. rewrite bind_ret_l.
    rewrite (proj2 (checked_div_Some _ (r + _) _)) by (split; [lia | reflexivity]).
    cbn [ok_or]. rewrite bind_ret_l.
    change (s * effective_of g bps / (r + effective_of g bps))
      with (output_of r s (effective_of g bps)).
    rewrite (proj2 (try_from_Some 64 (output_of _ _ _) _))
      by (split; [unfold in_width; lia | reflexivity]).
    cbn [ok_or]. rewrite bind_ret_l, (proj2 (Z.ltb_lt 0 _) H7), bind_ret_l.
    rewrite (proj2 (Z.ltb_lt (output_of _ _ _) s)) by lia. rewrite bind_ret_l.
    rewrite (proj2 (checked_sub_Some g _ _)) by (split; [lia | reflexivity]).
    cbn [ok_or]. by rewrite bind_ret_l.
Qed.

(** What a quote gives the pool. *)
Lemma quote_facts r s g bps q :
  is_u64 r -> is_u64 s -> is_u64 g -> is_u16 bps -> quote_exact_in r s g bps = Ok q ->
  0 < cq_amount_out q < s /\ 0 < cq_effective_input q <= g /\
  cq_lp_fee_retained q = g - cq_effective_input q /\
  (r + cq_effective_input q) * (s - cq_amount_out q) >= r * s /\
  (r + g) * (s - cq_amount_out q) >= r * s + cq_lp_fee_retained q * (s - cq_amount_out q).
Proof.
  intros Hr Hs Hg Hb Hq. apply quote_exact_in_Ok in Hq as (H1 & H2 & H3 & H4 & H5 & H6 & H7 & ->);
    [|done..]. simpl. unfold in_width in *.
  pose proof (effective_bounds g bps ltac:(lia) ltac:(lia)).
  pose proof (output_product r s (effective_of g bps) H1 H2 ltac:(lia)) as (Ho & Hp & Hlt).
  split_and!; lia || nia.
Qed.

(** Settling the gross input against the output keeps the product. *)
Lemma settled_product r s g bps q :
  is_u64 r -> is_u64 s -> is_u64 g -> is_u16 bps -> quote_exact_in r s g bps = Ok q ->
  (r + g) * (s - cq_amount_out q) >= r * s /\ 0 < s - cq_amount_out q /\
  is_u64 (cq_amount_out q).
Proof.
  intros Hr Hs Hg Hb Hq. pose proof (quote_facts _ _ _ _ _ Hr Hs Hg Hb Hq) as (Ho & He & Hf & _ & Hp).
  assert (0 <= cq_lp_fee_retained q * (s - cq_amount_out q)) by (apply Z.mul_nonneg_nonneg; lia).
  unfold in_width in *. lia.
Qed.

(** A quote followed by one in the other direction. *)
Lemma round_trip_product r s g o e o' :
  0 < r -> 0 < s -> 0 < o < s -> 0 < e <= o -> o' < r + g ->
  (r + g) * (s - o) >= r * s -> (s - o + e) * (r + g - o') >= (s - o) * (r + g) -> o' <= g.
Proof.
  intros Hr Hs Ho He Ho' H1 H2.
  assert ((s - o + e) * (r + g - o') <= s * (r + g - o')) as H3
    by (apply Z.mul_le_mono_nonneg_r; lia).
  assert (s * r <= s * (r + g - o')) as H4 by lia.
  apply Z.mul_le_mono_pos_l in H4; lia.
Qed.

(** ** Properties *)

(** The quote is exactly the two floors: on machine integers
    [quote_exact_in] succeeds iff both reserves and the input are positive, the
    fee is below 100%, the new input reserve fits [u64] and neither floor is
    zero; and then the effective input and the output are
    [floor(g(10000-bps)/10000)] and [floor(s x/(r+x))]. None of the overflow
    checks, and not the check against the output reserve, can fire. *)
Theorem quote_exact_in_iff r s g bps q :
  is_u64 r -> is_u64 s -> is_u64 g -> is_u16 bps ->
  quote_exact_in r s g bps = Ok q <->
    0 < r /\ 0 < s /\ 0 < g /\ bps < 10000 /\ r + g < 2 ^ 64 /\
    let x := effective_of g bps in
    0 < x /\ 0 < output_of r s x /\
    q = {| cq_effective_input := x; cq_lp_fee_retained := g - x;
           cq_amount_out := output_of r s x |}.
Proof. apply quote_exact_in_Ok. Qed.

(** C36. The pool never loses: the product of the reserves after the whole input
    is added and the output removed is at least the product before, by at least
    the retained fee's share; and the output leaves a positive reserve. *)
Theorem quote_keeps_product r s g bps q :
  is_u64 r -> is_u64 s -> is_u64 g -> is_u16 bps -> quote_exact_in r s g bps = Ok q ->
  (r + g) * (s - cq_amount_out q) >= r * s + cq_lp_fee_retained q * (s - cq_amount_out q) /\
  0 < cq_amount_out q < s.
Proof. intros Hr Hs Hg Hb Hq. pose proof (quote_facts _ _ _ _ _ Hr Hs Hg Hb Hq). tauto. Qed.

(** No round trip profits: selling the output of a quote back to the pool it
    left, at whatever fee, returns at most the input; and a larger input never
    gets less out. *)
Theorem quote_round_trip r s g bps bps' q q' :
  is_u64 r -> is_u64 s -> is_u64 g -> is_u16 bps -> is_u16 bps' ->
  quote_exact_in r s g bps = Ok q ->
  (quote_exact_in (s - cq_amount_out q) (r + g) (cq_amount_out q) bps' = Ok q' ->
   cq_amount_out q' <= g) /\
  (forall g2 q2, is_u64 g2 -> g <= g2 -> quote_exact_in r s g2 bps = Ok q2 ->
   cq_amount_out q <= cq_amount_out q2).
Proof.
  intros Hr Hs Hg Hb Hb' Hq. split.
  - intros Hq'. pose proof (quote_facts _ _ _ _ _ Hr Hs Hg Hb Hq) as (Ho & He & Hf & _ & Hp).
    pose proof (proj1 (quote_exact_in_Ok _ _ _ _ _ Hr Hs Hg Hb) Hq)
      as (Hr0 & _ & _ & _ & Hfit & _).
    unfold in_width in *.
    apply quote_facts in Hq' as (Ho' & He' & _ & Hp' & _); [|unfold in_width; lia..].
    assert (0 <= cq_lp_fee_retained q * (s - cq_amount_out q)) by (apply Z.mul_nonneg_nonneg; lia).
    eapply (round_trip_product r s g); [..|exact Hp']; lia.
  - intros g2 q2 Hg2 Hle Hq2.
    apply quote_exact_in_Ok in Hq as (H1 & H2 & H3 & H4 & _ & H6 & _ & ->); [|done..].
    apply quote_exact_in_Ok in Hq2 as (_ & _ & _ & _ & _ & _ & _ & ->); [|done..]. simpl.
    unfold in_width in *. apply output_mono; [done..|]. split; [lia|].
    apply effective_mono; lia.
Qed.

(** ** Witnesses *)

Definition sample_quote : CpmmQuote :=
  {| cq_effective_input := 997; cq_lp_fee_retained := 3; cq_amount_out := 1368 |}.

Lemma quote_exact_in_iff_witness :
  quote_exact_in 50000 70000 1000 30 = Ok sample_quote <->
    0 < 50000 /\ 0 < 70000 /\ 0 < 1000 /\ 30 < 10000 /\ 50000 + 1000 < 2 ^ 64 /\
    let x := effective_of 1000 30 in
    0 < x /\ 0 < output_of 50000 70000 x /\
    sample_quote = {| cq_effective_input := x; cq_lp_fee_retained := 1000 - x;
                      cq_amount_out := output_of 50000 70000 x |}.
Proof. apply quote_exact_in_iff; unfold in_width; lia. Defined.

Lemma quote_keeps_product_witness :
  (50000 + 1000) * (70000 - cq_amount_out sample_quote) >=
    50000 * 70000 + cq_lp_fee_retained sample_quote * (70000 - cq_amount_out sample_quote) /\
  0 < cq_amount_out sample_quote < 70000.
Proof.
  apply (quote_keeps_product 50000 70000 1000 30 sample_quote);
    [unfold in_width; lia..|]. vm_compute. reflexivity.
Defined.

Definition reverse_quote : CpmmQuote :=
  {| cq_effective_input := 1363; cq_lp_fee_retained := 5; cq_amount_out := 993 |}.

Lemma quote_round_trip_witness :
  cq_amount_out reverse_quote <= 1000.
Proof.
  apply (quote_round_trip 50000 70000 1000 30 30 sample_quote reverse_quote);
    [unfold in_width; lia..| |]; vm_compute; reflexivity.
Defined.

(** ** The closure a callee observes

    Core hashes the privileges it united over the repeated positions of a key;
    the runtime unites the privileges of the metas Core built from them. The
    two agree: what the engine observes is what Core hashed. [granted] is
    an opaque position with its writable privilege, or demoted to read-only as
    in the PREPARE phase of the routed core. *)

Definition granted (is_writable : bool) (l : list AccountInfo) (a : AccountInfo)
    : CapabilityDescriptor :=
  {| cd_key := ai_key a; cd_owner := ai_owner a;
     cd_is_writable := is_writable && effective_flag ai_is_writable l a;
     cd_is_signer := false; cd_is_executable := ai_executable a |}.

Lemma meta_flag_app flag l1 l2 k : meta_flag flag (l1 ++ l2) k = meta_flag flag l1 k || meta_flag flag l2 k.
Proof. apply existsb_app. Qed.
Lemma meta_flag_cons flag m l k :
  meta_flag flag (m :: l) k = key_eqb (am_pubkey m) k && flag m || meta_flag flag l k.
Proof. done. Qed.
Lemma meta_flag_absent flag l k : (k ∉ map am_pubkey l) -> meta_flag flag l k = false.
Proof.
  intros Hk. apply not_true_iff_false. intros (m & Hm & Hf)%existsb_exists. apply Hk.
  apply andb_true_iff in Hf as [Hf _]. unfold key_eqb in Hf. apply bool_decide_eq_true in Hf.
  apply list_elem_of_In, in_map_iff. eauto.
Qed.
Lemma descriptor_meta_key d : am_pubkey (descriptor_meta d) = cd_key d.
Proof. unfold descriptor_meta. by destruct (cd_is_writable d). Qed.
Lemma descriptor_meta_writable d : am_is_writable (descriptor_meta d) = cd_is_writable d.
Proof. unfold descriptor_meta. by destruct (cd_is_writable d). Qed.
Lemma descriptor_meta_signer d : am_is_signer (descriptor_meta d) = false.
Proof. unfold descriptor_meta. by destruct (cd_is_writable d). Qed.

Lemma meta_flag_signer l k : meta_flag am_is_signer (map descriptor_meta l) k = false.
Proof.
  apply not_true_iff_false. intros (m & Hm & Hf)%existsb_exists.
  apply in_map_iff in Hm as (d & <- & _). rewrite descriptor_meta_signer, andb_false_r in Hf.
  discriminate.
Qed.
Lemma meta_flag_writable b l a :
  meta_flag am_is_writable (map descriptor_meta (map (granted b l) l)) (ai_key a) =
  b && effective_flag ai_is_writable l a.
Proof.
  apply Bool.eq_iff_eq_true. unfold meta_flag. rewrite existsb_exists, andb_true_iff, effective_flag_true.
  setoid_rewrite in_map_iff. setoid_rewrite in_map_iff. setoid_rewrite andb_true_iff.
  unfold key_eqb. setoid_rewrite bool_decide_eq_true. split.
  - intros (m & (d & <- & (c & <- & Hc)) & Hk & Hw).
    rewrite descriptor_meta_key in Hk. rewrite descriptor_meta_writable in Hw.
    apply andb_true_iff in Hw as [Hb (c' & Hc' & Hk' & Hw')%effective_flag_true]. simpl in *.
    split; [done|]. exists c'. split_and!; congruence || done.
  - intros [Hb (c & Hc & Hk & Hw)]. exists (descriptor_meta (granted b l c)). split.
    + eexists. split; [reflexivity|]. exists c. split; [reflexivity|]. by apply list_elem_of_In.
    + rewrite descriptor_meta_key, descriptor_meta_writable. split; [done|].
      apply andb_true_iff. split; [done|]. apply effective_flag_true. by exists c.
Qed.

Lemma normalized_info_Ok l d i :
  normalized_info l d = Ok i ->
  i ∈ l /\ ai_key i = cd_key d /\ ai_owner i = cd_owner d /\ ai_executable i = cd_is_executable d.
Proof.
  unfold normalized_info. intros Hf%core_ok_or_Ok. apply find_some in Hf as [Hin Hp].
  apply list_elem_of_In in Hin. unfold provides, key_eqb in Hp.
  rewrite !andb_true_iff, !bool_decide_eq_true, Bool.eqb_true_iff in Hp. tauto.
Qed.

Lemma find_first {A} (f : A -> bool) l x : x ∈ l -> f x = true -> exists y, find f l = Some y.
Proof.
  intros Hx Hf. destruct (find f l) as [y|] eqn:E; [eauto|].
  apply list_elem_of_In in Hx. pose proof (find_none _ _ E x Hx). congruence.
Qed.

(** One opaque position: the callee's info describes it. *)
Lemma opaque_callee_info b prefix_metas prefix_infos remaining infos a i :
  consistent_infos remaining ->
  (ai_key a ∉ map am_pubkey prefix_metas) -> (ai_key a ∉ map ai_key prefix_infos) ->
  map_result (normalized_info remaining) (map (granted b remaining) remaining) = Ok infos ->
  a ∈ remaining ->
  callee_info (prefix_metas ++ map descriptor_meta (map (granted b remaining) remaining))
    (prefix_infos ++ infos) (descriptor_meta (granted b remaining a)) = Some i ->
  capability_descriptor i = granted b remaining a.
Proof.
  intros Hc Hm Hp Hinfos Ha Hi. unfold callee_info in Hi.
  apply bind_Some in Hi as (info & Hf & [= <-]). rewrite descriptor_meta_key in *. simpl in *.
  assert (ai_owner info = ai_owner a /\ ai_executable info = ai_executable a) as [Eo Ex].
  { apply find_some in Hf as [Hin Hk]. unfold key_eqb in Hk. apply bool_decide_eq_true in Hk.
    apply in_app_or in Hin as [Hin|Hin].
    - destruct Hp. apply list_elem_of_In, in_map_iff. eauto.
    - apply map_result_Ok in Hinfos. apply list_elem_of_In in Hin.
      apply list_elem_of_lookup in Hin as [j Hj].
      destruct (Forall2_lookup_r _ _ _ _ _ Hinfos Hj) as (d & _ & Hd).
      apply normalized_info_Ok in Hd as (Hir & _). by apply Hc. }
  unfold capability_descriptor.
  cbn [ai_key ai_owner ai_is_writable ai_is_signer ai_executable].
  rewrite !meta_flag_app, !(meta_flag_absent _ prefix_metas), meta_flag_signer,
    meta_flag_writable by done.
  by rewrite Eo, Ex.
Qed.

(** All of them, in order. *)
Lemma opaque_callee_descriptors b prefix_metas prefix_infos remaining fixed infos accounts :
  consistent_infos remaining ->
  (forall a, a ∈ remaining -> ai_key a ∉ fixed) ->
  map am_pubkey prefix_metas ⊆ fixed -> map ai_key prefix_infos ⊆ fixed ->
  let opaque := map (granted b remaining) remaining in
  map_result (normalized_info remaining) opaque = Ok infos ->
  mapM (callee_info (prefix_metas ++ map descriptor_meta opaque) (prefix_infos ++ infos))
    (map descriptor_meta opaque) = Some accounts ->
  map capability_descriptor accounts = opaque.
Proof.
  intros Hc Hfix Hm Hp opaque Hinfos Hacc.
  assert (forall l accs, (forall a, a ∈ l -> a ∈ remaining) ->
    mapM (callee_info (prefix_metas ++ map descriptor_meta opaque) (prefix_infos ++ infos))
      (map descriptor_meta (map (granted b remaining) l)) = Some accs ->
    map capability_descriptor accs = map (granted b remaining) l) as Hl.
  { induction l as [|a l IH]; intros accs Hsub Ha; simpl in Ha.
    - by injection Ha as <-.
    - apply bind_Some in Ha as (i & Hi & Ha). apply bind_Some in Ha as (rest & Hr & [= <-]).
      simpl. rewrite (IH rest); [|set_solver|done]. f_equal.
      assert (a ∈ remaining) as Har by set_solver. pose proof (Hfix a Har).
      eapply opaque_callee_info; [exact Hc | | | exact Hinfos | done | exact Hi];
        intros Hin; [apply Hm in Hin | apply Hp in Hin]; contradiction. }
  by apply Hl.
Qed.
