(* ===== verification/Deposit.v ===== *)
(** * instructions/deposit_v0.rs of the three core crates

    A provider moves tokens into a domain vault and Core credits the same
    amount to the domain's accounted balance of that asset. *)
From S2P Require Import Prelude Codec CoreState Solana Validation ReferenceRuntime.

Record DepositV0Args := {
  dpa_asset_index : Z;
  dpa_amount : Z }.

Record DepositV0 := {
  dp_provider : AccountInfo;
  dp_market : Account MarketV0;
  dp_domain : Account DomainV0;
  dp_mint : Account Mint;
  dp_provider_source : Account TokenAccount;
  dp_domain_vault : Account TokenAccount;
  dp_token_program : AccountInfo }.

Section Deposit.
Context `{Runtime} {C : CoreConfig}.

(** The constraints of the [Accounts] struct. *)
Definition deposit_constraints (w : World) (a : DepositV0) : bool :=
  let market := acc_data (dp_market a) in
  let domain := acc_data (dp_domain a) in
  ai_is_signer (dp_provider a) &&
  is_account market_at w ID (dp_market a) &&
  is_pda [MARKET_SEED_V0; m_initializer market; m_market_id market] (m_bump market) ID
    (key (dp_market a)) &&
  is_account domain_at w ID (dp_domain a) && is_mut (dp_domain a) &&
  is_pda [DOMAIN_SEED_V0; key (dp_market a)] (d_bump domain) ID (key (dp_domain a)) &&
  is_account mint_at w spl_token_ID (dp_mint a) &&
  is_account token_at w spl_token_ID (dp_provider_source a) && is_mut (dp_provider_source a) &&
  is_account token_at w spl_token_ID (dp_domain_vault a) && is_mut (dp_domain_vault a) &&
  is_token_program (dp_token_program a).

Definition deposit_roles (a : DepositV0) : list Pubkey :=
  [ai_key (dp_provider a); key (dp_market a); key (dp_domain a); key (dp_mint a);
   key (dp_provider_source a); key (dp_domain_vault a); ai_key (dp_token_program a)]
  ++ ROLE_GUARD.

(** [match args.asset_index]: expected mint, vault bump, accounted balance *)
Definition select_asset (market : MarketV0) (domain : DomainV0) (asset_index : Z)
    : result (Pubkey * Z * Z) :=
  if asset_index =? ASSET_A_INDEX_V0
  then Ok (m_mint_a market, d_vault_a_bump domain, d_accounted_a domain)
  else if asset_index =? ASSET_B_INDEX_V0
  then Ok (m_mint_b market, d_vault_b_bump domain, d_accounted_b domain)
  else Err (Core UnsupportedAssetIndex).

Definition credit_asset (domain : DomainV0) (asset_index accounted_after : Z)
    : result DomainV0 :=
  if asset_index =? ASSET_A_INDEX_V0 then Ok (set_accounted_a domain accounted_after)
  else if asset_index =? ASSET_B_INDEX_V0 then Ok (set_accounted_b domain accounted_after)
  else Err (Core UnsupportedAssetIndex).

Definition handle_deposit_v0 (w : World) (a : DepositV0) (remaining : list AccountInfo)
    (args : DepositV0Args) : result (World * Account DomainV0 * LiquidityDepositedV0) :=
  _ ← ensure_no_remaining_accounts remaining;
  _ ← require_core (0 <? dpa_amount args) ZeroAmount;
  _ ← ensure_distinct_roles (deposit_roles a);
  let market := acc_data (dp_market a) in
  let domain := acc_data (dp_domain a) in
  _ ← validate_market_domain (key (dp_market a)) market (key (dp_domain a)) domain;
  _ ← validate_classic_mint (key (dp_mint a)) (acc_data (dp_mint a));
  _ ← require_core (negb (ai_is_writable (acc_info (dp_market a))) &&
                    negb (ai_is_writable (acc_info (dp_mint a))) &&
                    negb (ai_is_writable (dp_token_program a))) UnexpectedWritablePrivilege;
  '(expected_mint, vault_bump, accounted_before) ←
    select_asset market domain (dpa_asset_index args);
  _ ← require_keys_eq (key (dp_mint a)) expected_mint InvalidTokenMint;
  expected_vault ←
    canonical_domain_vault (key (dp_domain a)) (dpa_asset_index args) vault_bump;
  _ ← require_keys_eq (key (dp_domain_vault a)) expected_vault InvalidDomainVault;
  _ ← validate_protected_token_account (acc_data (dp_provider_source a)) expected_mint
        (ai_key (dp_provider a));
  _ ← validate_protected_token_account (acc_data (dp_domain_vault a)) expected_mint
        (key (dp_domain a));
  _ ← require_raw_covers_accounted (ta_amount (acc_data (dp_domain_vault a))) accounted_before;
  accounted_after ← core_ok_or (checked_add 64 accounted_before (dpa_amount args))
    ArithmeticOverflow;
  let source_before := ta_amount (acc_data (dp_provider_source a)) in
  let vault_before := ta_amount (acc_data (dp_domain_vault a)) in
  w ← transfer_checked w
    {| tc_from := acc_info (dp_provider_source a); tc_mint := acc_info (dp_mint a);
       tc_to := acc_info (dp_domain_vault a); tc_authority := dp_provider a |}
    [] (dpa_amount args) (mint_decimals (acc_data (dp_mint a)));
  provider_source ← reload w (dp_provider_source a);
  domain_vault ← reload w (dp_domain_vault a);
  _ ← exact_debit source_before (ta_amount (acc_data provider_source)) (dpa_amount args)
        UnexpectedSourceDebit;
  _ ← exact_credit vault_before (ta_amount (acc_data domain_vault)) (dpa_amount args)
        UnexpectedVaultCredit;
  domain' ← credit_asset domain (dpa_asset_index args) accounted_after;
  Ok (w, set_data (dp_domain a) domain',
      {| ld_market := key (dp_market a); ld_domain := key (dp_domain a);
         ld_provider := ai_key (dp_provider a); ld_mint := key (dp_mint a);
         ld_asset_index := dpa_asset_index args; ld_amount := dpa_amount args;
         ld_post_accounted_balance := accounted_after |}).

(** The program entry: constraints, handler, and Anchor's exit, which writes
    the mutable [Account<DomainV0>] back. *)
Definition deposit (w : World) (a : DepositV0) (remaining : list AccountInfo)
    (args : DepositV0Args) : result (World * LiquidityDepositedV0) :=
  _ ← require (deposit_constraints w a) ConstraintViolated;
  '(w, domain, event) ← handle_deposit_v0 w a remaining args;
  Ok (store w (key domain) (DomainData (acc_data domain)), event).

(** ** What a successful deposit did *)

(** The accounted balance of an asset. *)
Definition accounted_of (d : DomainV0) (asset_index : Z) : Z :=
  if asset_index =? ASSET_A_INDEX_V0 then d_accounted_a d else d_accounted_b d.

Lemma select_asset_Ok market domain i r :
  select_asset market domain i = Ok r ->
  (i = 0 \/ i = 1) /\ r.2 = accounted_of domain i.
Proof.
  unfold select_asset, accounted_of, ASSET_A_INDEX_V0, ASSET_B_INDEX_V0.
  destruct (Z.eqb_spec i 0); [intros [= <-]; auto|].
  destruct (Z.eqb_spec i 1); [intros [= <-]; auto | discriminate].
Qed.

Lemma credit_asset_Ok domain i v d :
  credit_asset domain i v = Ok d ->
  accounted_of d i = v /\ (forall j, (j =? 0) <> (i =? 0) -> accounted_of d j = accounted_of domain j) /\
  d = set_accounted_b (set_accounted_a domain (d_accounted_a d)) (d_accounted_b d).
Proof.
  unfold credit_asset, accounted_of, ASSET_A_INDEX_V0, ASSET_B_INDEX_V0.
  destruct (Z.eqb_spec i 0) as [->|Hi]; [intros [= <-]|].
  - split; [done|]. split; [|done]. intros j Hj. by destruct (j =? 0).
  - destruct (Z.eqb_spec i 1); [intros [= <-] | discriminate].
    split; [done|]. split; [|done]. intros j Hj. by destruct (j =? 0).
Qed.

Lemma handle_deposit_Ok w a remaining args w' dom ev :
  handle_deposit_v0 w a remaining args = Ok (w', dom, ev) ->
  let i := dpa_asset_index args in
  let before := accounted_of (acc_data (dp_domain a)) i in
  let after := before + dpa_amount args in
  NoDup (deposit_roles a) /\ 0 < dpa_amount args /\ (i = 0 \/ i = 1) /\
  before <= ta_amount (acc_data (dp_domain_vault a)) /\ after < 2 ^ 64 /\
  (exists d, credit_asset (acc_data (dp_domain a)) i after = Ok d /\
     dom = set_data (dp_domain a) d) /\
  ld_amount ev = dpa_amount args /\ ld_post_accounted_balance ev = after /\
  exists source vault,
    token_at w' (key (dp_provider_source a)) = Some source /\
    token_at w' (key (dp_domain_vault a)) = Some vault /\
    ta_amount (acc_data (dp_provider_source a)) = ta_amount source + dpa_amount args /\
    ta_amount vault = ta_amount (acc_data (dp_domain_vault a)) + dpa_amount args.
Proof.
  intros Hh. unfold handle_deposit_v0 in Hh. inv_guarded.
  match goal with H : select_asset _ _ _ = Ok ?r |- _ =>
    destruct r as [[mint bump] before]; apply select_asset_Ok in H as [Hi Hb] end.
  simpl in *. inv_guarded. inv_checked. to_prop. simpl in *. subst.
  split_and!; eauto 10.
Qed.

Lemma deposit_effects w a remaining args w' ev :
  deposit w a remaining args = Ok (w', ev) ->
  let i := dpa_asset_index args in
  let n := dpa_amount args in
  (i = 0 \/ i = 1) /\ 0 < n /\
  exists domain source vault domain' source' vault',
    domain_at w (key (dp_domain a)) = Some domain /\
    token_at w (key (dp_provider_source a)) = Some source /\
    token_at w (key (dp_domain_vault a)) = Some vault /\
    domain_at w' (key (dp_domain a)) = Some domain' /\
    token_at w' (key (dp_provider_source a)) = Some source' /\
    token_at w' (key (dp_domain_vault a)) = Some vault' /\
    ta_amount source' = ta_amount source - n /\ ta_amount vault' = ta_amount vault + n /\
    domain' = (if i =? 0 then set_accounted_a domain (d_accounted_a domain + n)
               else set_accounted_b domain (d_accounted_b domain + n)) /\
    accounted_of domain' i <= ta_amount vault' /\ accounted_of domain' i < 2 ^ 64 /\
    ld_amount ev = n /\ ld_post_accounted_balance ev = accounted_of domain' i.
Proof.
  intros Hd. unfold deposit in Hd. inv_guarded.
  match goal with H : deposit_constraints _ _ = true |- _ => rename H into Hc end.
  match goal with H : handle_deposit_v0 _ _ _ _ = Ok ?r |- _ => destruct r as [[w1 dom] ev1] end.
  simpl in *. inv_guarded.
  match goal with H : handle_deposit_v0 _ _ _ _ = _ |- _ => apply handle_deposit_Ok in H
    as (Hroles & Hn & Hi & Hcov & Hlt & (d & Hcredit & ->) & Hev1 & Hev2 &
        source' & vault' & Hs' & Hv' & Hs & Hv) end.
  split; [done|]. split; [done|].
  unfold deposit_constraints in Hc. to_prop.
  repeat match goal with H : is_account _ _ _ _ = true |- _ => apply is_account_loaded in H end.
  distinct_entries Hroles 2%nat 4%nat. distinct_entries Hroles 2%nat 5%nat.
  pose proof (credit_asset_Ok _ _ _ _ Hcredit) as (Hacc & _ & _).
  exists (acc_data (dp_domain a)), (acc_data (dp_provider_source a)),
    (acc_data (dp_domain_vault a)), d, source', vault'.
  rewrite !token_at_store_ne by done. unfold key, set_data; simpl.
  rewrite domain_at_store_eq, Hacc. split_and!; try done; try lia.
  revert Hcredit. unfold credit_asset, accounted_of, ASSET_A_INDEX_V0, ASSET_B_INDEX_V0.
  destruct Hi as [-> | ->]; simpl; by intros [= <-].
Qed.

(** C26. a deposit that succeeds, against any runtime and any token program,
    moved exactly [amount] tokens from the provider's account to the vault of
    the selected asset, credited exactly that to the accounted balance of
    that asset, left the other asset's accounted balance alone, and leaves
    the vault covering the accounted balance. *)
Theorem deposit_exact w a remaining args w' ev :
  deposit w a remaining args = Ok (w', ev) ->
  let i := dpa_asset_index args in
  let n := dpa_amount args in
  (i = 0 \/ i = 1) /\ 0 < n /\
  exists domain source vault domain' source' vault',
    domain_at w (key (dp_domain a)) = Some domain /\
    token_at w (key (dp_provider_source a)) = Some source /\
    token_at w (key (dp_domain_vault a)) = Some vault /\
    domain_at w' (key (dp_domain a)) = Some domain' /\
    token_at w' (key (dp_provider_source a)) = Some source' /\
    token_at w' (key (dp_domain_vault a)) = Some vault' /\
    ta_amount source' = ta_amount source - n /\ ta_amount vault' = ta_amount vault + n /\
    domain' = (if i =? 0 then set_accounted_a domain (d_accounted_a domain + n)
               else set_accounted_b domain (d_accounted_b domain + n)) /\
    accounted_of domain' i <= ta_amount vault' /\ accounted_of domain' i < 2 ^ 64 /\
    ld_amount ev = n /\ ld_post_accounted_balance ev = accounted_of domain' i.
Proof. apply deposit_effects. Qed.
End Deposit.

Definition deposit_example_runtime : Runtime := reference_runtime no_callee.
Definition deposit_example (C : CoreConfig) : DepositV0 :=
  let _ := deposit_example_runtime in {|
  dp_provider := user_info; dp_market := market_account;
  dp_domain := Build_Account (test_account domain_k ID false true false) (test_domain 100 200);
  dp_mint := mint_b_account;
  dp_provider_source := token_account destination_k mint_b_k user_k 1000000;
  dp_domain_vault := token_account vault_b_k mint_b_k domain_k 210;
  dp_token_program := token_program_info |}.

Lemma deposit_exact_witness :
  let _ := deposit_example_runtime in let _ := kernel_config in
  exists w' ev domain',
    deposit (test_world 100 200 0) (deposit_example kernel_config) []
      {| dpa_asset_index := 1; dpa_amount := 50 |} = Ok (w', ev) /\
    domain_at w' domain_k = Some domain' /\
    d_accounted_b domain' = 250 /\ ld_amount ev = 50.
Proof.
  intros rt cfg.
  destruct (is_ok_Ok (deposit (test_world 100 200 0) (deposit_example kernel_config) []
    {| dpa_asset_index := 1; dpa_amount := 50 |})) as [[w' ev] E]; [vm_compute; reflexivity|].
  destruct (deposit_exact _ _ _ _ _ _ E)
    as (_ & _ & d & s & v & d' & s' & v' & Hd & _ & _ & Hd' & _ & _ & _ & _ & -> & _ & _ & Hev & _).
  exists w', ev, (set_accounted_b d (d_accounted_b d + 50)).
  split; [exact E|]. split; [exact Hd'|]. split; [|exact Hev].
  assert (domain_at (test_world 100 200 0) domain_k = Some (test_domain 100 200)) as Hd0
    by (vm_compute; reflexivity).
  assert (Some d = Some (test_domain 100 200)) as [= ->] by (rewrite <- Hd0; symmetry; exact Hd).
  reflexivity.
Defined.
