(* ===== verification/Settlement.v ===== *)
(** * The settlement path the three cores share

    execute_engine_probe_v0.rs, execute_engine_generated_probe_v0.rs and
    execute_callback_authenticated_probe_v0.rs repeat the same account
    envelope, envelope checks, fee computation and token settlement. The
    repeated code is modelled here once, over the record [Envelope] of the
    thirteen accounts all three [Accounts] structs declare, together with the
    specification the settlement is proved to meet. *)
From S2P Require Import Prelude Codec CoreState Solana FeeMath Validation ReferenceRuntime.

Record Envelope := {
  ev_market : Account MarketV0;
  ev_domain : Account DomainV0;
  ev_fee_ledger : Account FeeLedgerV0;
  ev_mint_a : Account Mint;
  ev_mint_b : Account Mint;
  ev_user_source_a : Account TokenAccount;
  ev_user_destination_b : Account TokenAccount;
  ev_vault_a : Account TokenAccount;
  ev_vault_b : Account TokenAccount;
  ev_fee_vault : Account TokenAccount;
  ev_engine_program : AccountInfo;
  ev_engine_state : AccountInfo;
  ev_token_program : AccountInfo }.

(** [reload] replaces the token accounts; the commit replaces the core's own
    accounts. *)
Definition with_tokens (e : Envelope)
    (source destination vault_a vault_b fee_vault : Account TokenAccount) : Envelope :=
  Build_Envelope (ev_market e) (ev_domain e) (ev_fee_ledger e) (ev_mint_a e) (ev_mint_b e)
    source destination vault_a vault_b fee_vault
    (ev_engine_program e) (ev_engine_state e) (ev_token_program e).

Section Settlement.
Context `{Runtime} {C : CoreConfig}.

(** ** The account attributes

    [Account<T>] fields deserialize first; then the [seeds], [mut],
    [address], [owner] and [token::] attributes are checked in field order. *)
Definition envelope_loaded (w : World) (e : Envelope) : bool :=
  is_account market_at w ID (ev_market e) &&
  is_account domain_at w ID (ev_domain e) &&
  is_account fee_ledger_at w ID (ev_fee_ledger e) &&
  is_account mint_at w spl_token_ID (ev_mint_a e) &&
  is_account mint_at w spl_token_ID (ev_mint_b e) &&
  is_account token_at w spl_token_ID (ev_user_source_a e) &&
  is_account token_at w spl_token_ID (ev_user_destination_b e) &&
  is_account token_at w spl_token_ID (ev_vault_a e) &&
  is_account token_at w spl_token_ID (ev_vault_b e) &&
  is_account token_at w spl_token_ID (ev_fee_vault e) &&
  is_token_program (ev_token_program e).

(** The attributes from [market] to [mint_b]. *)
Definition envelope_state_constraints (e : Envelope) : result unit :=
  let market := acc_data (ev_market e) in
  _ ← require (is_pda [MARKET_SEED_V0; m_initializer market; m_market_id market]
                 (m_bump market) ID (key (ev_market e))) ConstraintViolated;
  _ ← require (is_mut (ev_domain e) &&
               is_pda [DOMAIN_SEED_V0; key (ev_market e)]
                 (d_bump (acc_data (ev_domain e))) ID (key (ev_domain e))) ConstraintViolated;
  _ ← require (is_mut (ev_fee_ledger e) &&
               is_pda [FEE_LEDGER_SEED_V0; key (ev_market e); key (ev_mint_a e)]
                 (fl_bump (acc_data (ev_fee_ledger e))) ID (key (ev_fee_ledger e)))
        ConstraintViolated;
  _ ← require_keys_eq (key (ev_mint_a e)) (m_mint_a market) InvalidTokenMint;
  require_keys_eq (key (ev_mint_b e)) (m_mint_b market) InvalidTokenMint.

(** The attributes of the three vaults. *)
Definition envelope_vault_constraints (e : Envelope) : result unit :=
  let domain := acc_data (ev_domain e) in
  _ ← require (is_mut (ev_vault_a e) &&
               is_pda [VAULT_SEED_V0; key (ev_domain e); ASSET_A_SEED_V0]
                 (d_vault_a_bump domain) ID (key (ev_vault_a e)) &&
               is_token (ev_vault_a e) (key (ev_mint_a e)) (key (ev_domain e)))
        ConstraintViolated;
  _ ← require (is_mut (ev_vault_b e) &&
               is_pda [VAULT_SEED_V0; key (ev_domain e); ASSET_B_SEED_V0]
                 (d_vault_b_bump domain) ID (key (ev_vault_b e)) &&
               is_token (ev_vault_b e) (key (ev_mint_b e)) (key (ev_domain e)))
        ConstraintViolated;
  require (is_mut (ev_fee_vault e) &&
           is_pda [FEE_VAULT_SEED_V0; key (ev_fee_ledger e)]
             (fl_fee_vault_bump (acc_data (ev_fee_ledger e))) ID (key (ev_fee_vault e)) &&
           is_token (ev_fee_vault e) (key (ev_mint_a e)) (key (ev_fee_ledger e)))
    ConstraintViolated.

(** The attributes of the engine's two accounts. *)
Definition envelope_engine_constraints (e : Envelope) : result unit :=
  let market := acc_data (ev_market e) in
  _ ← require_keys_eq (ai_key (ev_engine_program e)) (m_engine_program market)
        InvalidEngineProgram;
  _ ← require (ai_is_writable (ev_engine_state e)) ConstraintViolated;
  _ ← require_keys_eq (ai_key (ev_engine_state e)) (m_engine_state market) InvalidEngineState;
  require_keys_eq (ai_owner (ev_engine_state e)) (m_engine_program market)
    InvalidEngineStateOwner.

(** ** Envelope checks of the handlers *)

(** Market, domain, fee ledger, the canonical vaults. *)
Definition validate_envelope_state (e : Envelope) : result unit :=
  let domain := acc_data (ev_domain e) in
  _ ← validate_market_domain (key (ev_market e)) (acc_data (ev_market e))
        (key (ev_domain e)) domain;
  _ ← validate_fee_ledger (key (ev_market e)) (acc_data (ev_market e))
        (key (ev_fee_ledger e)) (acc_data (ev_fee_ledger e));
  vault_a ← canonical_domain_vault (key (ev_domain e)) ASSET_A_INDEX_V0 (d_vault_a_bump domain);
  _ ← require_keys_eq vault_a (key (ev_vault_a e)) InvalidDomainVault;
  vault_b ← canonical_domain_vault (key (ev_domain e)) ASSET_B_INDEX_V0 (d_vault_b_bump domain);
  _ ← require_keys_eq vault_b (key (ev_vault_b e)) InvalidDomainVault;
  fee_vault ← canonical_fee_vault (key (ev_fee_ledger e))
    (fl_fee_vault_bump (acc_data (ev_fee_ledger e)));
  require_keys_eq fee_vault (key (ev_fee_vault e)) InvalidFeeVault.

Definition validate_engine_accounts (e : Envelope) : result unit :=
  _ ← require_core (ai_executable (ev_engine_program e)) EngineProgramNotExecutable;
  _ ← require_keys_neq (ai_key (ev_engine_program e)) ID CoreCannotBeEngine;
  _ ← require_core (negb (ai_executable (ev_engine_state e))) EngineStateExecutable;
  require_keys_eq (ai_owner (ev_engine_state e)) (ai_key (ev_engine_program e))
    InvalidEngineStateOwner.

Definition validate_mints (e : Envelope) : result unit :=
  _ ← validate_classic_mint (key (ev_mint_a e)) (acc_data (ev_mint_a e));
  validate_classic_mint (key (ev_mint_b e)) (acc_data (ev_mint_b e)).

(** The credited account, the protected vaults, and raw >= accounted. *)
Definition validate_vaults (e : Envelope) : result unit :=
  _ ← validate_credit_destination (acc_data (ev_user_destination_b e)) (key (ev_mint_b e));
  _ ← validate_protected_token_account (acc_data (ev_vault_a e)) (key (ev_mint_a e))
        (key (ev_domain e));
  _ ← validate_protected_token_account (acc_data (ev_vault_b e)) (key (ev_mint_b e))
        (key (ev_domain e));
  _ ← validate_protected_token_account (acc_data (ev_fee_vault e)) (key (ev_mint_a e))
        (key (ev_fee_ledger e));
  _ ← require_raw_covers_accounted (ta_amount (acc_data (ev_vault_a e)))
        (d_accounted_a (acc_data (ev_domain e)));
  _ ← require_raw_covers_accounted (ta_amount (acc_data (ev_vault_b e)))
        (d_accounted_b (acc_data (ev_domain e)));
  require_raw_covers_accounted (ta_amount (acc_data (ev_fee_vault e)))
    (fl_accounted_fee_a (acc_data (ev_fee_ledger e))).

(** ** The protocol fee and the user's limits on it *)
Definition quote_fee (e : Envelope) (amount_in max_protocol_fee max_total_input_debit : Z)
    : result (Z * Z) :=
  protocol_fee ← fee_ceil amount_in (m_fee_bps (acc_data (ev_market e)));
  _ ← require_core (protocol_fee <=? max_protocol_fee) ProtocolFeeAboveUserMaximum;
  total_input_debit ← core_ok_or (checked_add 64 amount_in protocol_fee) ArithmeticOverflow;
  _ ← require_core (total_input_debit <=? max_total_input_debit) TotalDebitAboveUserMaximum;
  Ok (protocol_fee, total_input_debit).

(** ** Settlement: three transfers, five reloads, five exact deltas

    [authority] spends the user's source: the user in the first two cores,
    the spend PDA (with its seeds) in routed-callback-core. *)
Definition settle_transfers (w : World) (e : Envelope) (authority : AccountInfo)
    (source_seeds : SignerSeeds) (amount_in protocol_fee amount_out : Z) : result World :=
  let decimals_a := mint_decimals (acc_data (ev_mint_a e)) in
  let decimals_b := mint_decimals (acc_data (ev_mint_b e)) in
  w ← transfer_checked w
    {| tc_from := acc_info (ev_user_source_a e); tc_mint := acc_info (ev_mint_a e);
       tc_to := acc_info (ev_vault_a e); tc_authority := authority |}
    source_seeds amount_in decimals_a;
  w ← transfer_checked w
    {| tc_from := acc_info (ev_user_source_a e); tc_mint := acc_info (ev_mint_a e);
       tc_to := acc_info (ev_fee_vault e); tc_authority := authority |}
    source_seeds protocol_fee decimals_a;
  transfer_checked w
    {| tc_from := acc_info (ev_vault_b e); tc_mint := acc_info (ev_mint_b e);
       tc_to := acc_info (ev_user_destination_b e); tc_authority := acc_info (ev_domain e) |}
    [[DOMAIN_SEED_V0; key (ev_market e); [d_bump (acc_data (ev_domain e))]]]
    amount_out decimals_b.

Definition reload_tokens (w : World) (e : Envelope) : result Envelope :=
  source ← reload w (ev_user_source_a e);
  destination ← reload w (ev_user_destination_b e);
  vault_a ← reload w (ev_vault_a e);
  vault_b ← reload w (ev_vault_b e);
  fee_vault ← reload w (ev_fee_vault e);
  Ok (with_tokens e source destination vault_a vault_b fee_vault).

Definition exact_deltas (before after : Envelope)
    (amount_in protocol_fee total_input_debit amount_out : Z) : result unit :=
  let amount {T} (field : T -> Account TokenAccount) e := ta_amount (acc_data (field e)) in
  _ ← exact_debit (amount ev_user_source_a before) (amount ev_user_source_a after)
        total_input_debit UnexpectedSourceDebit;
  _ ← exact_credit (amount ev_vault_a before) (amount ev_vault_a after)
        amount_in UnexpectedVaultCredit;
  _ ← exact_credit (amount ev_fee_vault before) (amount ev_fee_vault after)
        protocol_fee UnexpectedFeeVaultCredit;
  _ ← exact_debit (amount ev_vault_b before) (amount ev_vault_b after)
        amount_out UnexpectedVaultDebit;
  exact_credit (amount ev_user_destination_b before) (amount ev_user_destination_b after)
    amount_out UnexpectedDestinationCredit.

Definition settle (w : World) (e : Envelope) (authority : AccountInfo)
    (source_seeds : SignerSeeds) (amount_in protocol_fee total_input_debit amount_out : Z)
    : result (World * Envelope) :=
  w ← settle_transfers w e authority source_seeds amount_in protocol_fee amount_out;
  e' ← reload_tokens w e;
  _ ← exact_deltas e e' amount_in protocol_fee total_input_debit amount_out;
  Ok (w, e').

(** ** Commit: the accounted balances, and Anchor's exit

    [exit] writes back the two [mut] accounts the core owns; token accounts
    belong to another program and are not written. *)
Definition commit_accounts (e : Envelope) (post_a post_b post_fee : Z) : Envelope :=
  Build_Envelope (ev_market e)
    (set_data (ev_domain e)
       (set_accounted_b (set_accounted_a (acc_data (ev_domain e)) post_a) post_b))
    (set_data (ev_fee_ledger e) (set_accounted_fee_a (acc_data (ev_fee_ledger e)) post_fee))
    (ev_mint_a e) (ev_mint_b e) (ev_user_source_a e) (ev_user_destination_b e)
    (ev_vault_a e) (ev_vault_b e) (ev_fee_vault e)
    (ev_engine_program e) (ev_engine_state e) (ev_token_program e).

Definition exit_accounts (w : World) (e : Envelope) : World :=
  store (store w (key (ev_domain e)) (DomainData (acc_data (ev_domain e))))
    (key (ev_fee_ledger e)) (FeeLedgerData (acc_data (ev_fee_ledger e))).
End Settlement.

(** ** What a settlement is specified to do *)

Definition balance (w : World) (k : Pubkey) : option Z := ta_amount <$> token_at w k.

(** The balance of [k] goes from some [b] in [w] to [b + delta] in [w']. *)
Definition moves (w w' : World) (k : Pubkey) (delta : Z) : Prop :=
  exists b, balance w k = Some b /\ balance w' k = Some (b + delta).

(** Five exact token deltas: the user pays [amount_in + fee] of asset A, split
    between the domain vault and the fee vault, and receives [amount_out] of
    asset B from the domain vault. *)
Definition token_effect (w w' : World) (e : Envelope) (amount_in fee amount_out : Z) : Prop :=
  moves w w' (key (ev_user_source_a e)) (- (amount_in + fee)) /\
  moves w w' (key (ev_vault_a e)) amount_in /\
  moves w w' (key (ev_fee_vault e)) fee /\
  moves w w' (key (ev_vault_b e)) (- amount_out) /\
  moves w w' (key (ev_user_destination_b e)) amount_out.

(** The core's own accounts: the accounted balances follow the tokens, stay in
    [u64], and nothing else of the domain or the fee ledger changes. *)
Definition core_effect (w w' : World) (e : Envelope) (amount_in fee amount_out : Z) : Prop :=
  exists d l,
    domain_at w (key (ev_domain e)) = Some d /\
    fee_ledger_at w (key (ev_fee_ledger e)) = Some l /\
    domain_at w' (key (ev_domain e)) =
      Some (set_accounted_b (set_accounted_a d (d_accounted_a d + amount_in))
              (d_accounted_b d - amount_out)) /\
    fee_ledger_at w' (key (ev_fee_ledger e)) =
      Some (set_accounted_fee_a l (fl_accounted_fee_a l + fee)) /\
    d_accounted_a d + amount_in < 2 ^ 64 /\ amount_out <= d_accounted_b d /\
    fl_accounted_fee_a l + fee < 2 ^ 64.

(** Every vault holds at least what the core accounts for. *)
Definition solvent (w : World) (e : Envelope) : Prop :=
  exists d l a b f,
    domain_at w (key (ev_domain e)) = Some d /\
    fee_ledger_at w (key (ev_fee_ledger e)) = Some l /\
    balance w (key (ev_vault_a e)) = Some a /\ d_accounted_a d <= a /\
    balance w (key (ev_vault_b e)) = Some b /\ d_accounted_b d <= b /\
    balance w (key (ev_fee_vault e)) = Some f /\ fl_accounted_fee_a l <= f.

(** The user's limits, as the fee policy and the signed arguments give them. *)
Definition fee_within_limits (e : Envelope) (amount_in max_fee max_debit fee total : Z) : Prop :=
  fee_ceil amount_in (m_fee_bps (acc_data (ev_market e))) = Ok fee /\
  total = amount_in + fee /\ total < 2 ^ 64 /\ fee <= max_fee /\ total <= max_debit.

(** The written and the read keys of a settlement. *)
Definition settlement_keys (e : Envelope) : list Pubkey :=
  [key (ev_domain e); key (ev_fee_ledger e); key (ev_user_source_a e);
   key (ev_user_destination_b e); key (ev_vault_a e); key (ev_vault_b e); key (ev_fee_vault e)].

(** Reloading changes the token data only. *)
Definition same_accounts (e e' : Envelope) : Prop :=
  ev_market e' = ev_market e /\ ev_domain e' = ev_domain e /\
  ev_fee_ledger e' = ev_fee_ledger e /\ ev_engine_program e' = ev_engine_program e /\
  ev_engine_state e' = ev_engine_state e /\ ev_mint_a e' = ev_mint_a e /\
  ev_mint_b e' = ev_mint_b e /\ ev_token_program e' = ev_token_program e /\
  acc_info (ev_user_source_a e') = acc_info (ev_user_source_a e) /\
  acc_info (ev_user_destination_b e') = acc_info (ev_user_destination_b e) /\
  acc_info (ev_vault_a e') = acc_info (ev_vault_a e) /\
  acc_info (ev_vault_b e') = acc_info (ev_vault_b e) /\
  acc_info (ev_fee_vault e') = acc_info (ev_fee_vault e).

(** The loaded token accounts of an envelope are those of a world. *)
Definition tokens_loaded (w : World) (e : Envelope) : Prop :=
  let loaded a := token_at w (key a) = Some (acc_data a) in
  loaded (ev_user_source_a e) /\ loaded (ev_user_destination_b e) /\
  loaded (ev_vault_a e) /\ loaded (ev_vault_b e) /\ loaded (ev_fee_vault e).

Lemma quote_fee_Ok `{Runtime} `{CoreConfig} e amount_in max_fee max_debit fee total :
  quote_fee e amount_in max_fee max_debit = Ok (fee, total) ->
  fee_within_limits e amount_in max_fee max_debit fee total.
Proof.
  unfold quote_fee, fee_within_limits. intros Hq. inv_guarded. inv_checked. to_prop. by subst.
Qed.

Lemma envelope_loaded_tokens `{Runtime} `{CoreConfig} w e :
  envelope_loaded w e = true ->
  tokens_loaded w e /\ domain_at w (key (ev_domain e)) = Some (acc_data (ev_domain e)) /\
  fee_ledger_at w (key (ev_fee_ledger e)) = Some (acc_data (ev_fee_ledger e)).
Proof.
  unfold envelope_loaded, tokens_loaded. intros Hc. to_prop.
  repeat match goal with H : is_account _ _ _ _ = true |- _ => apply is_account_loaded in H end.
  tauto.
Qed.

Lemma validate_vaults_covers `{Runtime} `{CoreConfig} e u :
  validate_vaults e = Ok u ->
  d_accounted_a (acc_data (ev_domain e)) <= ta_amount (acc_data (ev_vault_a e)) /\
  d_accounted_b (acc_data (ev_domain e)) <= ta_amount (acc_data (ev_vault_b e)) /\
  fl_accounted_fee_a (acc_data (ev_fee_ledger e)) <= ta_amount (acc_data (ev_fee_vault e)).
Proof. unfold validate_vaults. intros Hv. inv_guarded. auto. Qed.

(** A validated market charges the protocol's rate. *)
Lemma validate_envelope_state_bps `{Runtime} `{CoreConfig} e u :
  validate_envelope_state e = Ok u ->
  m_fee_bps (acc_data (ev_market e)) = PROTOCOL_FEE_BPS_V0.
Proof.
  unfold validate_envelope_state, validate_market_domain. intros Hv. inv_guarded. by to_prop.
Qed.

(** [settle] succeeds only with exact deltas from the loaded balances. *)
Lemma settle_Ok `{Runtime} `{CoreConfig} w e auth seeds amount_in fee total amount_out w' e' :
  settle w e auth seeds amount_in fee total amount_out = Ok (w', e') ->
  same_accounts e e' /\ tokens_loaded w' e' /\
  ta_amount (acc_data (ev_user_source_a e')) = ta_amount (acc_data (ev_user_source_a e)) - total /\
  ta_amount (acc_data (ev_vault_a e')) = ta_amount (acc_data (ev_vault_a e)) + amount_in /\
  ta_amount (acc_data (ev_fee_vault e')) = ta_amount (acc_data (ev_fee_vault e)) + fee /\
  ta_amount (acc_data (ev_vault_b e')) = ta_amount (acc_data (ev_vault_b e)) - amount_out /\
  ta_amount (acc_data (ev_user_destination_b e')) =
    ta_amount (acc_data (ev_user_destination_b e)) + amount_out.
Proof.
  unfold settle, reload_tokens, exact_deltas. intros Hs. inv_guarded. simpl in *.
  split; [by unfold same_accounts|]. split; [by unfold tokens_loaded|]. lia.
Qed.

(** The documented frame of the token program: a transfer writes its two
    token accounts. *)
Definition transfer_frame `{Runtime} : Prop :=
  forall w args seeds amount decimals w' k,
    transfer_checked w args seeds amount decimals = Ok w' ->
    k <> ai_key (tc_from args) -> k <> ai_key (tc_to args) ->
    w_accounts w' !! k = w_accounts w !! k.

Lemma reference_transfer_frame callee : @transfer_frame (reference_runtime callee).
Proof.
  intros w args seeds amount decimals w' k Ht Hf Hto. simpl in Ht.
  unfold reference_transfer in Ht. inv_handler. simpl.
  by rewrite !lookup_insert_ne by done.
Qed.

(** Under it a settlement writes the five token accounts, *)
Lemma settle_world_frame `{Runtime} `{CoreConfig} w e auth seeds amount_in fee total amount_out w' e' k :
  transfer_frame ->
  settle w e auth seeds amount_in fee total amount_out = Ok (w', e') ->
  (k ∉ settlement_keys e) -> w_accounts w' !! k = w_accounts w !! k.
Proof.
  intros Hframe Hs Hk. unfold settle in Hs. inv_guarded.
  match goal with H : settle_transfers _ _ _ _ _ _ _ = Ok _ |- _ =>
    unfold settle_transfers in H; inv_guarded end.
  unfold settlement_keys in Hk. rewrite !not_elem_of_cons in Hk. destruct_and! Hk. unfold key in *.
  repeat match goal with H : transfer_checked ?w _ _ _ _ = Ok ?w1 |- context [w_accounts ?w1 !! k] =>
    rewrite (Hframe _ _ _ _ _ _ k H) by (simpl; congruence) end.
  done.
Qed.

(** and Core's exit its own two. *)
Lemma exit_frame e e' w post_a post_b post_fee k :
  same_accounts e e' -> (k ∉ settlement_keys e) ->
  w_accounts (exit_accounts w (commit_accounts e' post_a post_b post_fee)) !! k =
    w_accounts w !! k.
Proof.
  intros (_ & Kd & Kl & _) Hk. unfold settlement_keys in Hk. rewrite !not_elem_of_cons in Hk.
  unfold exit_accounts, commit_accounts, set_data, key in *; simpl.
  rewrite Kd, Kl. by rewrite !lookup_insert_ne by (destruct_and! Hk; congruence).
Qed.

Lemma settle_frame `{Runtime} `{CoreConfig} w e auth seeds amount_in fee total amount_out w' e'
    post_a post_b post_fee k :
  transfer_frame ->
  settle w e auth seeds amount_in fee total amount_out = Ok (w', e') ->
  (k ∉ settlement_keys e) ->
  w_accounts (exit_accounts w' (commit_accounts e' post_a post_b post_fee)) !! k =
    w_accounts w !! k.
Proof.
  intros Hframe Hs Hk. pose proof (settle_Ok _ _ _ _ _ _ _ _ _ _ Hs) as (Hsame & _).
  rewrite (exit_frame e) by done. by eapply settle_world_frame.
Qed.

(** From the facts [settle] guarantees to the token specification. *)
Lemma settle_token_effect `{Runtime} `{CoreConfig}
    w0 w e auth seeds amount_in fee amount_out w' e' :
  tokens_loaded w0 e ->
  settle w e auth seeds amount_in fee (amount_in + fee) amount_out = Ok (w', e') ->
  token_effect w0 w' e amount_in fee amount_out.
Proof.
  intros (L1 & L2 & L3 & L4 & L5) Hs.
  apply settle_Ok in Hs as (Hsame & (M1 & M2 & M3 & M4 & M5) & Hs & Ha & Hf & Hb & Hd).
  destruct Hsame as (_ & _ & _ & _ & _ & _ & _ & _ & K1 & K2 & K3 & K4 & K5).
  unfold token_effect, moves, balance, key in *. rewrite K1, K2, K3, K4, K5 in *.
  rewrite L1, L2, L3, L4, L5, M1, M2, M3, M4, M5. simpl.
  split_and!; eexists; (split; [reflexivity | f_equal; lia]).
Qed.

(** Writing the core's accounts back does not disturb a token account. *)
Lemma exit_accounts_balance w e k :
  k <> key (ev_domain e) -> k <> key (ev_fee_ledger e) ->
  balance (exit_accounts w e) k = balance w k.
Proof. intros Hd Hl. unfold balance, exit_accounts. by rewrite !token_at_store_ne by done. Qed.

Lemma token_effect_exit w w' e e' amount_in fee amount_out :
  NoDup (settlement_keys e) ->
  key (ev_domain e') = key (ev_domain e) -> key (ev_fee_ledger e') = key (ev_fee_ledger e) ->
  token_effect w w' e amount_in fee amount_out ->
  token_effect w (exit_accounts w' e') e amount_in fee amount_out.
Proof.
  intros Hnd Kd Kl Ht. unfold settlement_keys in Hnd. unfold token_effect, moves in *.
  repeat match type of Hnd with
  | NoDup (_ :: _) => apply NoDup_cons in Hnd as [? Hnd] end.
  rewrite !exit_accounts_balance; rewrite ?Kd, ?Kl; [exact Ht|set_solver..].
Qed.

Lemma commit_core_effect w w' e e' amount_in fee amount_out :
  key (ev_domain e) <> key (ev_fee_ledger e) ->
  ev_domain e' = ev_domain e -> ev_fee_ledger e' = ev_fee_ledger e ->
  domain_at w (key (ev_domain e)) = Some (acc_data (ev_domain e)) ->
  fee_ledger_at w (key (ev_fee_ledger e)) = Some (acc_data (ev_fee_ledger e)) ->
  d_accounted_a (acc_data (ev_domain e)) + amount_in < 2 ^ 64 ->
  amount_out <= d_accounted_b (acc_data (ev_domain e)) ->
  fl_accounted_fee_a (acc_data (ev_fee_ledger e)) + fee < 2 ^ 64 ->
  core_effect w
    (exit_accounts w' (commit_accounts e'
       (d_accounted_a (acc_data (ev_domain e)) + amount_in)
       (d_accounted_b (acc_data (ev_domain e)) - amount_out)
       (fl_accounted_fee_a (acc_data (ev_fee_ledger e)) + fee)))
    e amount_in fee amount_out.
Proof.
  intros Hne Kd Kl Hd Hl Ha Hb Hf.
  exists (acc_data (ev_domain e)), (acc_data (ev_fee_ledger e)).
  unfold exit_accounts, commit_accounts, key, set_data in *; simpl. rewrite Kd, Kl in *.
  rewrite domain_at_store_ne, domain_at_store_eq, fee_ledger_at_store_eq by done.
  split_and!; done.
Qed.

(** Exact deltas on both sides carry solvency from the checked pre-state. *)
Lemma effects_solvent w w' e amount_in fee amount_out :
  solvent w e -> token_effect w w' e amount_in fee amount_out ->
  core_effect w w' e amount_in fee amount_out -> solvent w' e.
Proof.
  intros (d & l & a & b & f & Hd & Hl & Ha & Hda & Hb & Hdb & Hf & Hlf)
    (_ & (a0 & Ma & Ma') & (f0 & Mf & Mf') & (b0 & Mb & Mb') & _)
    (d0 & l0 & Cd & Cl & Cd' & Cl' & _). simplify_eq.
  eexists _, _, _, _, _. split_and!; eauto; simpl; lia.
Qed.

(** ** The envelope of the example world, for the witnesses *)
Section ExampleEnvelope.
Context `{Runtime} {C : CoreConfig}.

Definition example_envelope (accounted_a accounted_b fee : Z) : Envelope := {|
  ev_market := market_account;
  ev_domain := Build_Account (test_account domain_k ID false true false)
    (test_domain accounted_a accounted_b);
  ev_fee_ledger := Build_Account (test_account fee_ledger_k ID false true false)
    (test_fee_ledger fee);
  ev_mint_a := mint_a_account;
  ev_mint_b := mint_b_account;
  ev_user_source_a := token_account source_k mint_a_k user_k 1000000;
  ev_user_destination_b := token_account destination_k mint_b_k user_k 1000000;
  ev_vault_a := token_account vault_a_k mint_a_k domain_k (accounted_a + 10);
  ev_vault_b := token_account vault_b_k mint_b_k domain_k (accounted_b + 10);
  ev_fee_vault := token_account fee_vault_k mint_a_k fee_ledger_k (fee + 10);
  ev_engine_program := test_account engine_k system_program_k false false true;
  ev_engine_state := test_account engine_state_k engine_k false true false;
  ev_token_program := token_program_info |}.

(** The same envelope for the market of another engine program. *)
Definition envelope_of_engine (engine : Pubkey) (accounted_a accounted_b fee : Z) : Envelope :=
  let e := example_envelope accounted_a accounted_b fee in
  Build_Envelope (set_data (ev_market e) (market_of engine))
    (set_data (ev_domain e) (domain_of engine accounted_a accounted_b)) (ev_fee_ledger e)
    (ev_mint_a e) (ev_mint_b e) (ev_user_source_a e) (ev_user_destination_b e)
    (ev_vault_a e) (ev_vault_b e) (ev_fee_vault e)
    (test_account engine system_program_k false false true)
    (test_account engine_state_k engine false true false) (ev_token_program e).
End ExampleEnvelope.

