(* ===== verification/EngineProbe.v ===== *)
(** * programs/core: execute_engine_probe_v0.rs

    The authority kernel's settlement instruction: Core validates the envelope
    and the user's limits, hashes the plan, invokes the engine once, accepts
    only a receipt for exactly that plan, settles, and commits. *)
From S2P Require Import Prelude Codec ProbeInterface CoreState Solana FeeMath Validation Settlement ReferenceRuntime.

Record ExecuteEngineProbeV0Args := {
  ea_amount_in : Z;
  ea_amount_out : Z;
  ea_max_total_input_debit : Z;
  ea_min_output_credit : Z;
  ea_max_protocol_fee : Z;
  ea_expires_at_slot : Z }.

(** The [Accounts] struct: the shared envelope, the user and the Instructions
    sysvar. *)
Record ExecuteEngineProbeV0 := {
  ee_user : AccountInfo;
  ee_env : Envelope;
  ee_instructions_sysvar : AccountInfo }.

Record EngineProbeExecutedV0 := {
  epx_market : Pubkey;
  epx_domain : Pubkey;
  epx_engine_program : Pubkey;
  epx_engine_state : Pubkey;
  epx_user : Pubkey;
  epx_mint_a : Pubkey;
  epx_mint_b : Pubkey;
  epx_amount_in : Z;
  epx_amount_out : Z;
  epx_protocol_fee : Z;
  epx_plan_digest : list Z;
  epx_engine_sequence : Z;
  epx_post_accounted_a : Z;
  epx_post_accounted_b : Z;
  epx_post_accounted_fee_a : Z }.

Section EngineProbe.
Context `{Runtime} {C : CoreConfig}.

Definition probe_constraints (w : World) (a : ExecuteEngineProbeV0) : result unit :=
  let e := ee_env a in
  _ ← require (ai_is_signer (ee_user a)) ConstraintViolated;
  _ ← require (envelope_loaded w e) ConstraintViolated;
  _ ← envelope_state_constraints e;
  _ ← require (is_mut (ev_user_source_a e) &&
               is_token (ev_user_source_a e) (key (ev_mint_a e)) (ai_key (ee_user a)))
        ConstraintViolated;
  _ ← require (is_mut (ev_user_destination_b e) &&
               key_eqb (ta_mint (acc_data (ev_user_destination_b e))) (key (ev_mint_b e)))
        ConstraintViolated;
  _ ← envelope_vault_constraints e;
  _ ← envelope_engine_constraints e;
  require (key_eqb (ai_key (ee_instructions_sysvar a)) INSTRUCTIONS_SYSVAR_ID)
    ConstraintViolated.

Definition probe_roles (a : ExecuteEngineProbeV0) : list Pubkey :=
  let e := ee_env a in
  [ai_key (ee_user a); key (ev_market e); key (ev_domain e); key (ev_fee_ledger e);
   key (ev_mint_a e); key (ev_mint_b e); key (ev_user_source_a e);
   key (ev_user_destination_b e); key (ev_vault_a e); key (ev_vault_b e); key (ev_fee_vault e);
   ai_key (ev_engine_program e); ai_key (ev_engine_state e);
   ai_key (ee_instructions_sysvar a); ai_key (ev_token_program e)].

(** From the stack-height guard to the raw >= accounted checks. *)
Definition probe_envelope (w : World) (a : ExecuteEngineProbeV0)
    (remaining : list AccountInfo) : result unit :=
  let e := ee_env a in
  _ ← ensure_no_remaining_accounts remaining;
  _ ← require_core (w_stack_height w =? TRANSACTION_LEVEL_STACK_HEIGHT)
        DirectInvocationRequired;
  _ ← ensure_distinct_roles (probe_roles a);
  _ ← validate_envelope_state e;
  _ ← validate_engine_accounts e;
  _ ← require_core (negb (ai_is_writable (acc_info (ev_market e))) &&
                    negb (ai_is_writable (acc_info (ev_mint_a e))) &&
                    negb (ai_is_writable (acc_info (ev_mint_b e))) &&
                    negb (ai_is_writable (ev_engine_program e)) &&
                    negb (ai_is_writable (ee_instructions_sysvar a)) &&
                    negb (ai_is_writable (ev_token_program e))) UnexpectedWritablePrivilege;
  _ ← validate_mints e;
  _ ← validate_protected_token_account (acc_data (ev_user_source_a e)) (key (ev_mint_a e))
        (ai_key (ee_user a));
  validate_vaults e.

Record ProbePlan := {
  pp_protocol_fee : Z;
  pp_total_input_debit : Z;
  pp_post_accounted_a : Z;
  pp_post_accounted_b : Z;
  pp_post_accounted_fee_a : Z }.

(** The user's limits and the post-trade balances. *)
Definition probe_economics (w : World) (e : Envelope) (args : ExecuteEngineProbeV0Args)
    : result ProbePlan :=
  let domain := acc_data (ev_domain e) in
  _ ← require_core ((0 <? ea_amount_in args) && (0 <? ea_amount_out args)) ZeroAmount;
  _ ← require_core (w_slot w <=? ea_expires_at_slot args) RequestExpired;
  _ ← require_core (ea_min_output_credit args <=? ea_amount_out args) OutputBelowUserMinimum;
  _ ← require_core (ea_amount_out args <=? d_accounted_b domain) InsufficientAccountedLiquidity;
  '(protocol_fee, total_input_debit) ←
    quote_fee e (ea_amount_in args) (ea_max_protocol_fee args) (ea_max_total_input_debit args);
  post_accounted_a ← core_ok_or (checked_add 64 (d_accounted_a domain) (ea_amount_in args))
    ArithmeticOverflow;
  post_accounted_b ← core_ok_or (checked_sub (d_accounted_b domain) (ea_amount_out args))
    ArithmeticOverflow;
  post_accounted_fee_a ← core_ok_or
    (checked_add 64 (fl_accounted_fee_a (acc_data (ev_fee_ledger e))) protocol_fee)
    ArithmeticOverflow;
  Ok {| pp_protocol_fee := protocol_fee; pp_total_input_debit := total_input_debit;
        pp_post_accounted_a := post_accounted_a; pp_post_accounted_b := post_accounted_b;
        pp_post_accounted_fee_a := post_accounted_fee_a |}.

Definition probe_plan_binding (a : ExecuteEngineProbeV0) (args : ExecuteEngineProbeV0Args)
    (protocol_fee : Z) : PlanBinding :=
  let e := ee_env a in
  {| pb_core_program := ID;
     pb_market := key (ev_market e);
     pb_domain := key (ev_domain e);
     pb_engine_program := ai_key (ev_engine_program e);
     pb_engine_state := ai_key (ev_engine_state e);
     pb_user_authority := ai_key (ee_user a);
     pb_user_input := key (ev_user_source_a e);
     pb_user_output := key (ev_user_destination_b e);
     pb_mint_in := key (ev_mint_a e);
     pb_mint_out := key (ev_mint_b e);
     pb_domain_input_vault := key (ev_vault_a e);
     pb_domain_output_vault := key (ev_vault_b e);
     pb_protocol_fee_vault := key (ev_fee_vault e);
     pb_fee_ledger := key (ev_fee_ledger e);
     pb_token_program := ai_key (ev_token_program e);
     pb_engine_revision := m_engine_revision (acc_data (ev_market e));
     pb_fee_policy_revision := m_fee_policy_revision (acc_data (ev_market e));
     pb_amount_in := ea_amount_in args;
     pb_amount_out := ea_amount_out args;
     pb_protocol_fee := protocol_fee;
     pb_max_total_input_debit := ea_max_total_input_debit args;
     pb_min_output_credit := ea_min_output_credit args;
     pb_max_protocol_fee := ea_max_protocol_fee args;
     pb_accounted_input_before := d_accounted_a (acc_data (ev_domain e));
     pb_accounted_output_before := d_accounted_b (acc_data (ev_domain e));
     pb_accounted_fee_before := fl_accounted_fee_a (acc_data (ev_fee_ledger e));
     pb_expires_at_slot := ea_expires_at_slot args |}.

Definition probe_request (e : Envelope) (args : ExecuteEngineProbeV0Args)
    (protocol_fee : Z) (plan_digest : list Z) : EngineRequest :=
  {| er_plan_hash := plan_digest;
     er_market := key (ev_market e);
     er_domain := key (ev_domain e);
     er_engine_revision := m_engine_revision (acc_data (ev_market e));
     er_amount_in := ea_amount_in args;
     er_amount_out := ea_amount_out args;
     er_protocol_fee := protocol_fee;
     er_accounted_input_before := d_accounted_a (acc_data (ev_domain e));
     er_accounted_output_before := d_accounted_b (acc_data (ev_domain e));
     er_accounted_fee_before := fl_accounted_fee_a (acc_data (ev_fee_ledger e)) |}.

(** The one engine CPI: engine state and the Instructions sysvar, no signer. *)
Definition probe_instruction (a : ExecuteEngineProbeV0) (data : list Z) : Instruction :=
  {| ix_program_id := ai_key (ev_engine_program (ee_env a));
     ix_accounts := [meta_new (ai_key (ev_engine_state (ee_env a))) false;
                     meta_new_readonly (ai_key (ee_instructions_sysvar a)) false];
     ix_data := data |}.

Definition probe_invoke (w : World) (a : ExecuteEngineProbeV0) (request : EngineRequest)
    : result World :=
  data ← infallible (encode_evaluate_instruction request);
  invoke w (probe_instruction a data)
    [ev_engine_state (ee_env a); ee_instructions_sysvar a].

(** [get_return_data], the setter check, and the receipt for this plan. *)
Definition probe_receipt (w : World) (e : Envelope) (plan_digest : list Z)
    : result EngineReceipt :=
  '(receipt_setter, receipt_data) ← core_ok_or (w_return_data w) MissingEngineReceipt;
  _ ← require_keys_eq receipt_setter (ai_key (ev_engine_program e)) InvalidEngineReceiptSetter;
  receipt ← map_err (fun _ => Core InvalidEngineReceipt) (decode_receipt receipt_data);
  _ ← require_core (bool_decide (rc_plan_hash receipt = plan_digest)) EngineReceiptPlanMismatch;
  Ok receipt.

Definition probe_event (a : ExecuteEngineProbeV0) (args : ExecuteEngineProbeV0Args)
    (plan : ProbePlan) (plan_digest : list Z) (sequence : Z) : EngineProbeExecutedV0 :=
  let e := ee_env a in
  {| epx_market := key (ev_market e); epx_domain := key (ev_domain e);
     epx_engine_program := ai_key (ev_engine_program e);
     epx_engine_state := ai_key (ev_engine_state e); epx_user := ai_key (ee_user a);
     epx_mint_a := key (ev_mint_a e); epx_mint_b := key (ev_mint_b e);
     epx_amount_in := ea_amount_in args; epx_amount_out := ea_amount_out args;
     epx_protocol_fee := pp_protocol_fee plan; epx_plan_digest := plan_digest;
     epx_engine_sequence := sequence;
     epx_post_accounted_a := pp_post_accounted_a plan;
     epx_post_accounted_b := pp_post_accounted_b plan;
     epx_post_accounted_fee_a := pp_post_accounted_fee_a plan |}.

Definition handle_execute_engine_probe_v0 (w : World) (a : ExecuteEngineProbeV0)
    (remaining : list AccountInfo) (args : ExecuteEngineProbeV0Args)
    : result (World * Envelope * EngineProbeExecutedV0) :=
  let e := ee_env a in
  _ ← probe_envelope w a remaining;
  plan ← probe_economics w e args;
  plan_digest ←
    infallible (compute_plan_hash (probe_plan_binding a args (pp_protocol_fee plan)));
  w ← probe_invoke w a (probe_request e args (pp_protocol_fee plan) plan_digest);
  receipt ← probe_receipt w e plan_digest;
  '(w, e) ← settle w e (ee_user a) [] (ea_amount_in args) (pp_protocol_fee plan)
    (pp_total_input_debit plan) (ea_amount_out args);
  Ok (w,
      commit_accounts e (pp_post_accounted_a plan) (pp_post_accounted_b plan)
        (pp_post_accounted_fee_a plan),
      probe_event a args plan plan_digest (rc_state_sequence receipt)).

(** The program entry: constraints, handler, exit. *)
Definition execute_engine_probe (w : World) (a : ExecuteEngineProbeV0)
    (remaining : list AccountInfo) (args : ExecuteEngineProbeV0Args)
    : result (World * EngineProbeExecutedV0) :=
  _ ← probe_constraints w a;
  '(w, e, event) ← handle_execute_engine_probe_v0 w a remaining args;
  Ok (exit_accounts w e, event).

(** ** Inversion of a successful call *)

Lemma probe_economics_Ok w e args plan :
  probe_economics w e args = Ok plan ->
  let fee := pp_protocol_fee plan in
  let domain := acc_data (ev_domain e) in
  0 < ea_amount_in args /\ 0 < ea_amount_out args /\ w_slot w <= ea_expires_at_slot args /\
  ea_min_output_credit args <= ea_amount_out args /\
  fee_within_limits e (ea_amount_in args) (ea_max_protocol_fee args)
    (ea_max_total_input_debit args) fee (pp_total_input_debit plan) /\
  pp_post_accounted_a plan = d_accounted_a domain + ea_amount_in args /\
  pp_post_accounted_b plan = d_accounted_b domain - ea_amount_out args /\
  pp_post_accounted_fee_a plan = fl_accounted_fee_a (acc_data (ev_fee_ledger e)) + fee /\
  d_accounted_a domain + ea_amount_in args < 2 ^ 64 /\
  ea_amount_out args <= d_accounted_b domain /\
  fl_accounted_fee_a (acc_data (ev_fee_ledger e)) + fee < 2 ^ 64.
Proof.
  unfold probe_economics. intros He. inv_guarded.
  match goal with H : quote_fee _ _ _ _ = Ok ?r |- _ =>
    destruct r as [fee total]; apply quote_fee_Ok in H end.
  inv_guarded. inv_checked. to_prop. by split_and!.
Qed.

Lemma probe_envelope_Ok w a remaining u :
  probe_envelope w a remaining = Ok u ->
  w_stack_height w = 1 /\ NoDup (probe_roles a) /\
  d_accounted_a (acc_data (ev_domain (ee_env a))) <= ta_amount (acc_data (ev_vault_a (ee_env a))) /\
  d_accounted_b (acc_data (ev_domain (ee_env a))) <= ta_amount (acc_data (ev_vault_b (ee_env a))) /\
  fl_accounted_fee_a (acc_data (ev_fee_ledger (ee_env a))) <=
    ta_amount (acc_data (ev_fee_vault (ee_env a))).
Proof.
  unfold probe_envelope. intros He. inv_guarded. to_prop.
  match goal with H : validate_vaults _ = _ |- _ => apply validate_vaults_covers in H end.
  tauto.
Qed.

Lemma probe_roles_settlement_keys a :
  NoDup (probe_roles a) -> NoDup (settlement_keys (ee_env a)).
Proof.
  intros Hnd. eapply sublist_NoDup; [exact Hnd|].
  unfold probe_roles, settlement_keys.
  solve_sublist.
Qed.

Lemma execute_engine_probe_Ok w a remaining args w' ev :
  execute_engine_probe w a remaining args = Ok (w', ev) ->
  exists plan digest w1 receipt w2 e2,
    envelope_loaded w (ee_env a) = true /\
    probe_envelope w a remaining = Ok tt /\
    probe_economics w (ee_env a) args = Ok plan /\
    compute_plan_hash (probe_plan_binding a args (pp_protocol_fee plan)) = Ok digest /\
    probe_invoke w a (probe_request (ee_env a) args (pp_protocol_fee plan) digest) = Ok w1 /\
    probe_receipt w1 (ee_env a) digest = Ok receipt /\
    settle w1 (ee_env a) (ee_user a) [] (ea_amount_in args) (pp_protocol_fee plan)
      (pp_total_input_debit plan) (ea_amount_out args) = Ok (w2, e2) /\
    w' = exit_accounts w2 (commit_accounts e2 (pp_post_accounted_a plan)
           (pp_post_accounted_b plan) (pp_post_accounted_fee_a plan)) /\
    ev = probe_event a args plan digest (rc_state_sequence receipt).
Proof.
  unfold execute_engine_probe. intros Hx. inv_guarded.
  match goal with H : probe_constraints _ _ = _ |- _ =>
    unfold probe_constraints in H; inv_guarded end.
  match goal with H : handle_execute_engine_probe_v0 _ _ _ _ = Ok ?r |- _ =>
    destruct r as [[w2 e2] ev0]; unfold handle_execute_engine_probe_v0 in H end.
  inv_guarded.
  match goal with H : settle _ _ _ _ _ _ _ _ = Ok ?r |- _ => destruct r as [w3 e3] end.
  inv_guarded.
  eexists _, _, _, _, _, _. split_and!; eauto.
Qed.

Lemma execute_probe_effects w a remaining args w' ev :
  execute_engine_probe w a remaining args = Ok (w', ev) ->
  let e := ee_env a in
  exists fee,
    w_stack_height w = 1 /\ w_slot w <= ea_expires_at_slot args /\
    0 < ea_amount_in args /\ 0 < ea_amount_out args /\
    ea_min_output_credit args <= ea_amount_out args /\
    fee_within_limits e (ea_amount_in args) (ea_max_protocol_fee args)
      (ea_max_total_input_debit args) fee (ea_amount_in args + fee) /\
    token_effect w w' e (ea_amount_in args) fee (ea_amount_out args) /\
    core_effect w w' e (ea_amount_in args) fee (ea_amount_out args) /\
    solvent w e /\ solvent w' e /\ epx_protocol_fee ev = fee.
Proof.
  intros Hx. simpl. apply execute_engine_probe_Ok in Hx
    as (plan & digest & w1 & rc & w2 & e2 & Hl & Henv & Hec & _ & _ & _ & Hs & -> & ->).
  apply envelope_loaded_tokens in Hl as (Ht & Hd & Hf).
  apply probe_envelope_Ok in Henv as (Hh & Hnd & Ca & Cb & Cf).
  apply probe_economics_Ok in Hec
    as (? & ? & ? & ? & Hlim & -> & -> & -> & Ba & Bb & Bf).
  apply probe_roles_settlement_keys in Hnd.
  pose proof Hlim as (_ & Htot & _). rewrite Htot in *.
  exists (pp_protocol_fee plan).
  assert (solvent w (ee_env a)) as Hsol.
  { destruct Ht as (_ & _ & Ta & Tb & Tf). unfold solvent, balance.
    eexists _, _, _, _, _. rewrite Ta, Tb, Tf. split_and!; eauto. }
  pose proof (settle_Ok _ _ _ _ _ _ _ _ _ _ Hs) as ((_ & Kd & Kl & _) & _).
  pose proof (settle_token_effect _ _ _ _ _ _ _ _ _ _ Ht Hs) as Hte.
  distinct_entries Hnd 0%nat 1%nat.
  pose proof (commit_core_effect w w2 (ee_env a) e2 _ _ _ Hne Kd Kl Hd Hf Ba Bb Bf) as Hce.
  eapply token_effect_exit in Hte; [| exact Hnd | ..].
  - split_and!; try done. eapply effects_solvent; eauto.
  - unfold commit_accounts, set_data, key; simpl. by rewrite Kd.
  - unfold commit_accounts, set_data, key; simpl. by rewrite Kl.
Qed.

(** C1. A successful [execute_engine_probe], whatever the engine and the
    token program do, ran at transaction level before its expiry, within
    every limit the user signed, moved exactly the five token deltas of the
    plan, moved the accounted balances by the same amounts without overflow,
    and leaves every vault covering its accounted balance. *)
Theorem execute_probe_settles w a remaining args w' ev :
  execute_engine_probe w a remaining args = Ok (w', ev) ->
  let e := ee_env a in
  exists fee,
    w_stack_height w = 1 /\ w_slot w <= ea_expires_at_slot args /\
    0 < ea_amount_in args /\ 0 < ea_amount_out args /\
    ea_min_output_credit args <= ea_amount_out args /\
    fee_within_limits e (ea_amount_in args) (ea_max_protocol_fee args)
      (ea_max_total_input_debit args) fee (ea_amount_in args + fee) /\
    token_effect w w' e (ea_amount_in args) fee (ea_amount_out args) /\
    core_effect w w' e (ea_amount_in args) fee (ea_amount_out args) /\
    solvent w e /\ solvent w' e /\ epx_protocol_fee ev = fee.
Proof. apply execute_probe_effects. Qed.


End EngineProbe.

(** ** A concrete call: an engine that acknowledges every plan *)

Definition acknowledging_engine (w : World) (ix : Instruction) (infos : list AccountInfo)
    (seeds : SignerSeeds) : result World :=
  match decode_evaluate_instruction (ix_data ix) with
  | Ok request =>
      match encode_receipt {| rc_plan_hash := er_plan_hash request; rc_state_sequence := 8 |} with
      | Ok bytes => Ok (set_return_data w (ix_program_id ix) bytes)
      | _ => Err (ProgramError 1)
      end
  | _ => Err (ProgramError 2)
  end.

Definition example_runtime : Runtime := reference_runtime acknowledging_engine.

Definition sysvar_info : AccountInfo :=
  test_account INSTRUCTIONS_SYSVAR_ID system_program_k false false false.

Definition example_probe (C : CoreConfig) : ExecuteEngineProbeV0 :=
  let _ := example_runtime in {|
  ee_user := user_info; ee_env := example_envelope 50000 70000 6;
  ee_instructions_sysvar := sysvar_info |}.
Definition example_probe_args : ExecuteEngineProbeV0Args := {|
  ea_amount_in := 1000; ea_amount_out := 900; ea_max_total_input_debit := 1003;
  ea_min_output_credit := 900; ea_max_protocol_fee := 3; ea_expires_at_slot := 100 |}.

Lemma execute_probe_settles_witness :
  let _ := example_runtime in let _ := kernel_config in
  exists w' ev,
    execute_engine_probe (test_world 50000 70000 6) (example_probe kernel_config) []
      example_probe_args = Ok (w', ev) /\
    (exists fee,
      token_effect (test_world 50000 70000 6) w' (example_envelope 50000 70000 6) 1000 fee 900) /\
    solvent w' (example_envelope 50000 70000 6).
Proof.
  intros rt cfg.
  destruct (is_ok_Ok (execute_engine_probe (test_world 50000 70000 6)
    (example_probe kernel_config) [] example_probe_args)) as [[w' ev] E];
    [vm_compute; reflexivity|].
  exists w', ev. split; [exact E|].
  destruct (execute_probe_settles _ _ _ _ _ _ E)
    as (fee & _ & _ & _ & _ & _ & _ & Ht & _ & _ & Hs & _).
  split; [exists fee; exact Ht | exact Hs].
Defined.


