(* ===== verification/Progress.v ===== *)
(** * Progress: validated requests go through

    The theorems of the other files say what a successful instruction did. This
    file says when an instruction succeeds: once the guards of an instruction
    pass, its engine answers and the user's account is funded, nothing that
    follows can fail, so no accepted request gets stuck half way. The token
    program is the parameter [transfer_checked], of which only the documented
    success condition of TransferChecked is assumed. *)
From S2P Require Import Prelude Codec ProbeInterface CoreState Solana ReferenceRuntime FeeMath.
From S2P Require Import Validation Deposit Settlement EngineProbe.

(** ** TransferChecked, as documented *)

Section TokenProgram.
Context `{Runtime}.

(** The authority signed the transaction, or the caller signs for it as a PDA. *)
Definition signs (program : Pubkey) (authority : AccountInfo) (seeds : SignerSeeds) : Prop :=
  ai_is_signer authority = true \/
  exists s, s ∈ seeds /\ create_program_address s program = Some (ai_key authority).

(** A transfer the token program accepts: two initialized accounts of the mint,
    an authority that may spend the amount, and balances that stay in u64. *)
Record transferable (program : Pubkey) (w : World) (args : TransferChecked) (seeds : SignerSeeds)
    (amount decimals : Z) (s s' d : TokenAccount) : Prop := {
  tr_source : token_at w (ai_key (tc_from args)) = Some s;
  tr_destination : token_at w (ai_key (tc_to args)) = Some d;
  tr_mint : exists m, mint_at w (ai_key (tc_mint args)) = Some m /\ mint_decimals m = decimals;
  tr_distinct : ai_key (tc_from args) <> ai_key (tc_to args);
  tr_writable : ai_is_writable (tc_from args) = true /\ ai_is_writable (tc_to args) = true;
  tr_mints : ta_mint s = ai_key (tc_mint args) /\ ta_mint d = ai_key (tc_mint args);
  tr_initialized : ta_state s = Initialized /\ ta_state d = Initialized;
  tr_signs : signs program (tc_authority args) seeds;
  tr_amount : 0 <= amount <= ta_amount s;
  tr_room : ta_amount d + amount < 2 ^ 64;
  tr_spend : spend_as s (ai_key (tc_authority args)) amount = Some s' }.

(** It succeeds and moves the amount between the two accounts. *)
Definition transfer_progress (program : Pubkey) : Prop :=
  forall w args seeds amount decimals s s' d,
    transferable program w args seeds amount decimals s s' d ->
    exists w', transfer_checked w args seeds amount decimals = Ok w' /\
      w_accounts w' =
        <[ai_key (tc_to args) := TokenData (with_amount d (ta_amount d + amount))]>
          (<[ai_key (tc_from args) := TokenData (with_amount s' (ta_amount s - amount))]>
             (w_accounts w)).

Lemma transfer_steps program w args seeds amount decimals s s' d :
  transfer_progress program ->
  transferable program w args seeds amount decimals s s' d ->
  exists w', transfer_checked w args seeds amount decimals = Ok w' /\
    token_at w' (ai_key (tc_from args)) = Some (with_amount s' (ta_amount s - amount)) /\
    token_at w' (ai_key (tc_to args)) = Some (with_amount d (ta_amount d + amount)) /\
    forall k, k <> ai_key (tc_from args) -> k <> ai_key (tc_to args) ->
      w_accounts w' !! k = w_accounts w !! k.
Proof.
  intros Hlaw Ht. pose proof (tr_distinct _ _ _ _ _ _ _ _ _ Ht) as Hne.
  destruct (Hlaw _ _ _ _ _ _ _ _ Ht) as (w' & Hw & Ha). exists w'. split; [done|].
  unfold token_at. rewrite Ha. split_and!.
  - by rewrite lookup_insert_ne, lookup_insert_eq by congruence.
  - by rewrite lookup_insert_eq.
  - intros k Hf Ht'. by rewrite !lookup_insert_ne by congruence.
Qed.
End TokenProgram.

Lemma token_lookup w w' k : w_accounts w' !! k = w_accounts w !! k -> token_at w' k = token_at w k.
Proof. intros Hk. unfold token_at. by rewrite Hk. Qed.
Lemma mint_lookup w w' k : w_accounts w' !! k = w_accounts w !! k -> mint_at w' k = mint_at w k.
Proof. intros Hk. unfold mint_at. by rewrite Hk. Qed.
Lemma token_mint_ne w k k' t m : token_at w k = Some t -> mint_at w k' = Some m -> k <> k'.
Proof. unfold token_at, mint_at. intros Ht Hm ->. by destruct (w_accounts w !! k') as [[]|]. Qed.

(** The reference token program has this property. *)
Lemma reference_transfer_progress callee program :
  @transfer_progress (reference_runtime callee) program.
Proof.
  intros w args seeds amount decimals s s' d [Hs Hd (m & Hm & Hdec) Hne _ [Ms Md] [Ss Sd] _ Ha _ Hsp].
  eexists. split; [simpl; unfold reference_transfer; rewrite Hs, Hd, Hm|].
  - cbn [ok_or]. rewrite !bind_ret_l, Ms, Md, Ss, Sd, Hdec, !key_eqb_refl, key_eqb_ne by done.
    rewrite Z.eqb_refl, !bool_decide_eq_true_2, (proj2 (Z.leb_le _ _)) by (done || lia).
    cbn [negb andb require]. rewrite !bind_ret_l, Hsp. reflexivity.
  - apply spend_as_frame in Hsp as (<- & _). reflexivity.
Qed.

(** ** Who may spend *)

Definition owned_by (t : TokenAccount) (mint authority : Pubkey) : Prop :=
  ta_state t = Initialized /\ ta_mint t = mint /\ ta_owner t = authority /\ ta_delegate t = None.

Lemma validate_common_Ok t mint u :
  validate_common_token_account t mint = Ok u -> ta_state t = Initialized /\ ta_mint t = mint.
Proof. unfold validate_common_token_account. intros Hv. inv_guarded. by to_prop. Qed.
Lemma validate_protected_Ok t mint authority u :
  validate_protected_token_account t mint authority = Ok u -> owned_by t mint authority.
Proof.
  unfold validate_protected_token_account. intros Hv. inv_guarded. to_prop.
  match goal with H : validate_common_token_account _ _ = _ |- _ =>
    apply validate_common_Ok in H as [??] end.
  by split_and!.
Qed.

Lemma spend_as_owner t mint authority amount :
  owned_by t mint authority -> spend_as t authority amount = Some t.
Proof.
  intros (_ & _ & <- & Hn). unfold spend_as. rewrite Hn. by rewrite key_eqb_refl.
Qed.
Lemma owned_by_amount t mint authority n :
  owned_by t mint authority -> owned_by (with_amount t n) mint authority.
Proof. done. Qed.

Lemma spend_as_delegate t authority amount :
  ta_delegate t = Some authority -> amount = ta_delegated_amount t ->
  exists t', spend_as t authority amount = Some t' /\ ta_delegate t' = None /\
    ta_delegated_amount t' = 0.
Proof.
  intros Hd ->. unfold spend_as. rewrite bool_decide_eq_true_2, Z.leb_refl, Z.sub_diag by done.
  by eexists.
Qed.

(** Two accounts that differ in their balance. *)
Definition same_allowance (t t' : TokenAccount) : Prop :=
  ta_delegate t = ta_delegate t' /\ ta_delegated_amount t = ta_delegated_amount t'.

(** An allowance that covers two transfers covers them one after the other, and
    ends up the same. *)
Lemma spend_as_split t authority a b t' :
  0 <= a -> 0 < b -> spend_as t authority (a + b) = Some t' ->
  exists t1, spend_as t authority a = Some t1 /\
    forall n, exists t2, spend_as (with_amount t1 n) authority b = Some t2 /\ same_allowance t2 t'.
Proof.
  unfold spend_as, same_allowance. intros Ha Hb. case_bool_decide as Hd.
  - destruct (Z.leb_spec (a + b) (ta_delegated_amount t)); [|discriminate]. intros [= <-].
    rewrite (proj2 (Z.leb_le a _)) by lia. eexists. split; [reflexivity|].
    intros n. simpl. rewrite (proj2 (Z.eqb_neq _ 0)) by lia.
    rewrite bool_decide_eq_true_2, (proj2 (Z.leb_le b _)) by (done || lia).
    eexists. split; [reflexivity|]. simpl. by replace (ta_delegated_amount t - (a + b)) with
      (ta_delegated_amount t - a - b) by lia.
  - destruct (key_eqb _ _) eqn:Ho; [|discriminate]. intros [= <-]. exists t. split; [done|].
    intros n. simpl. rewrite bool_decide_eq_false_2, Ho by done. by eexists.
Qed.

(** ** The settlement completes *)

Abbreviation amount_of a := (ta_amount (acc_data a)).

Section Settle.
Context `{Runtime} {C : CoreConfig}.

(** What the guards of the three cores leave a settlement with. *)
Record settleable (w : World) (e : Envelope) (authority : AccountInfo) (seeds : SignerSeeds)
    (amount_in fee amount_out : Z) : Prop := {
  sa_tokens : tokens_loaded w e;
  sa_mints : mint_at w (key (ev_mint_a e)) = Some (acc_data (ev_mint_a e)) /\
             mint_at w (key (ev_mint_b e)) = Some (acc_data (ev_mint_b e));
  sa_distinct : NoDup (settlement_keys e);
  sa_writable : is_mut (ev_user_source_a e) && is_mut (ev_user_destination_b e) &&
                is_mut (ev_vault_a e) && is_mut (ev_vault_b e) && is_mut (ev_fee_vault e) = true;
  sa_source : ta_state (acc_data (ev_user_source_a e)) = Initialized /\
              ta_mint (acc_data (ev_user_source_a e)) = key (ev_mint_a e);
  sa_destination : ta_state (acc_data (ev_user_destination_b e)) = Initialized /\
                   ta_mint (acc_data (ev_user_destination_b e)) = key (ev_mint_b e);
  sa_vault_a : owned_by (acc_data (ev_vault_a e)) (key (ev_mint_a e)) (key (ev_domain e));
  sa_vault_b : owned_by (acc_data (ev_vault_b e)) (key (ev_mint_b e)) (key (ev_domain e));
  sa_fee_vault : owned_by (acc_data (ev_fee_vault e)) (key (ev_mint_a e)) (key (ev_fee_ledger e));
  sa_authority : signs ID authority seeds;
  sa_spend : is_Some (spend_as (acc_data (ev_user_source_a e)) (ai_key authority) (amount_in + fee));
  sa_domain : create_program_address
    [DOMAIN_SEED_V0; key (ev_market e); [d_bump (acc_data (ev_domain e))]] ID =
    Some (key (ev_domain e));
  sa_amounts : 0 <= amount_in /\ 0 < fee /\ 0 <= amount_out;
  sa_funds : amount_in + fee <= ta_amount (acc_data (ev_user_source_a e)) /\
             amount_out <= ta_amount (acc_data (ev_vault_b e));
  sa_room : ta_amount (acc_data (ev_vault_a e)) + amount_in < 2 ^ 64 /\
            ta_amount (acc_data (ev_fee_vault e)) + fee < 2 ^ 64 /\
            ta_amount (acc_data (ev_user_destination_b e)) + amount_out < 2 ^ 64 }.

(** The two transfers from the user's source. *)
Lemma source_transfers_complete w e authority seeds amount_in fee amount_out :
  transfer_progress ID -> settleable w e authority seeds amount_in fee amount_out ->
  let decimals := mint_decimals (acc_data (ev_mint_a e)) in
  exists w1 w2,
    transfer_checked w (Build_TransferChecked (acc_info (ev_user_source_a e))
      (acc_info (ev_mint_a e)) (acc_info (ev_vault_a e)) authority) seeds amount_in decimals = Ok w1 /\
    transfer_checked w1 (Build_TransferChecked (acc_info (ev_user_source_a e))
      (acc_info (ev_mint_a e)) (acc_info (ev_fee_vault e)) authority) seeds fee decimals = Ok w2 /\
    (exists s, token_at w2 (key (ev_user_source_a e)) = Some s /\
       ta_amount s = amount_of (ev_user_source_a e) - (amount_in + fee) /\
       forall t, spend_as (acc_data (ev_user_source_a e)) (ai_key authority) (amount_in + fee) =
         Some t -> same_allowance s t) /\
    balance w2 (key (ev_vault_a e)) = Some (amount_of (ev_vault_a e) + amount_in) /\
    balance w2 (key (ev_fee_vault e)) = Some (amount_of (ev_fee_vault e) + fee) /\
    forall k, k <> key (ev_user_source_a e) -> k <> key (ev_vault_a e) -> k <> key (ev_fee_vault e) ->
      w_accounts w2 !! k = w_accounts w !! k.
Proof.
  intros Hlaw [(T1 & _ & T3 & _ & T5) [Ma _] Hnd Hmut [Ss Sm] _ (Va1 & Va2 & _) _ (Vf1 & Vf2 & _)
    Hauth [s2 Hsp] _ (A1 & A2 & _) (F1 & _) (R1 & R2 & _)].
  unfold settlement_keys in Hnd. rewrite !NoDup_cons, !not_elem_of_cons in Hnd. destruct_and! Hnd.
  to_prop. destruct (spend_as_split _ _ _ _ _ A1 A2 Hsp) as (s1 & Hs1 & Hnext).
  pose proof (spend_as_frame _ _ _ _ Hs1) as (Es1 & Ess1 & Esm1 & _).
  destruct (Hnext (amount_of (ev_user_source_a e) - amount_in)) as (s3 & Hs3 & Hallow).
  pose proof (token_mint_ne _ _ _ _ _ T1 Ma). pose proof (token_mint_ne _ _ _ _ _ T3 Ma).
  unfold is_mut, balance, key in *.
  destruct (transfer_steps ID w (Build_TransferChecked (acc_info (ev_user_source_a e))
    (acc_info (ev_mint_a e)) (acc_info (ev_vault_a e)) authority) seeds amount_in
    _ _ _ _ Hlaw ltac:(constructor; simpl; eauto; lia)) as (w1 & E1 & S1 & D1 & Fr1); simpl in *.
  destruct (transfer_steps ID w1 (Build_TransferChecked (acc_info (ev_user_source_a e))
    (acc_info (ev_mint_a e)) (acc_info (ev_fee_vault e)) authority) seeds fee
    (mint_decimals (acc_data (ev_mint_a e)))
    (with_amount s1 (amount_of (ev_user_source_a e) - amount_in)) s3 (acc_data (ev_fee_vault e)))
    as (w2 & E2 & S2 & D2 & Fr2); simpl in *; [done | |].
  { constructor; simpl; try done; try lia; try (split; congruence);
      rewrite ?(token_lookup w w1), ?(mint_lookup w w1) by (apply Fr1; congruence); eauto. }
  exists w1, w2. rewrite (token_lookup w1 w2 (ai_key (acc_info (ev_vault_a e)))) by (apply Fr2; congruence).
  rewrite S2, D2, D1. simpl. split_and!; try done.
  - eexists. split; [reflexivity|]. split; [simpl; lia|]. intros t Hspt. assert (t = s2) as -> by congruence. exact Hallow.
  - intros k Hk1 Hk2 Hk3. by rewrite Fr2, Fr1.
Qed.

(** The transfer of the output, signed by the domain. *)
Lemma output_transfer_completes w w2 e authority seeds amount_in fee amount_out :
  transfer_progress ID -> settleable w e authority seeds amount_in fee amount_out ->
  (forall k, k <> key (ev_user_source_a e) -> k <> key (ev_vault_a e) -> k <> key (ev_fee_vault e) ->
    w_accounts w2 !! k = w_accounts w !! k) ->
  exists w3,
    transfer_checked w2 (Build_TransferChecked (acc_info (ev_vault_b e)) (acc_info (ev_mint_b e))
      (acc_info (ev_user_destination_b e)) (acc_info (ev_domain e)))
      [[DOMAIN_SEED_V0; key (ev_market e); [d_bump (acc_data (ev_domain e))]]]
      amount_out (mint_decimals (acc_data (ev_mint_b e))) = Ok w3 /\
    balance w3 (key (ev_vault_b e)) = Some (amount_of (ev_vault_b e) - amount_out) /\
    balance w3 (key (ev_user_destination_b e)) =
      Some (amount_of (ev_user_destination_b e) + amount_out) /\
    forall k, k <> key (ev_vault_b e) -> k <> key (ev_user_destination_b e) ->
      w_accounts w3 !! k = w_accounts w2 !! k.
Proof.
  intros Hlaw [(T1 & T2 & T3 & T4 & T5) [_ Mb] Hnd Hmut _ [Ds Dm] _ (Vb1 & Vb2 & Vb3 & Vb4) _ _ _ Hdom
    (_ & _ & A3) (_ & F2) (_ & _ & R3)] Hfr.
  assert (spend_as (acc_data (ev_vault_b e)) (key (ev_domain e)) amount_out =
    Some (acc_data (ev_vault_b e))) as Hsb by (by eapply spend_as_owner).
  unfold settlement_keys in Hnd. rewrite !NoDup_cons, !not_elem_of_cons in Hnd. destruct_and! Hnd.
  to_prop. pose proof (token_mint_ne _ _ _ _ _ T1 Mb). pose proof (token_mint_ne _ _ _ _ _ T3 Mb).
  pose proof (token_mint_ne _ _ _ _ _ T5 Mb). unfold is_mut, balance, key in *.
  destruct (transfer_steps ID w2 (Build_TransferChecked (acc_info (ev_vault_b e))
    (acc_info (ev_mint_b e)) (acc_info (ev_user_destination_b e)) (acc_info (ev_domain e)))
    [[DOMAIN_SEED_V0; ai_key (acc_info (ev_market e)); [d_bump (acc_data (ev_domain e))]]]
    amount_out (mint_decimals (acc_data (ev_mint_b e))) (acc_data (ev_vault_b e))
    (acc_data (ev_vault_b e)) (acc_data (ev_user_destination_b e)))
    as (w3 & E3 & S3 & D3 & Fr3); simpl in *; [done | |].
  { constructor; simpl; try done; try lia;
      rewrite ?(token_lookup w w2), ?(mint_lookup w w2) by (apply Hfr; congruence); eauto.
    right. eexists. split; [apply list_elem_of_here | exact Hdom]. }
  exists w3. rewrite S3, D3. by split_and!.
Qed.

Definition token_keys (e : Envelope) : list Pubkey :=
  [key (ev_user_source_a e); key (ev_user_destination_b e); key (ev_vault_a e); key (ev_vault_b e);
   key (ev_fee_vault e)].

Lemma reload_balance w a n :
  balance w (key a) = Some n -> exists a', reload w a = Ok a' /\ amount_of a' = n.
Proof.
  unfold balance, reload. intros (t & Ht & ->)%fmap_Some. rewrite Ht. by eexists.
Qed.

(** A settlement of validated accounts succeeds, spends the allowance and writes
    the five token accounts. *)
Lemma settle_completes w e authority seeds amount_in fee amount_out :
  transfer_progress ID -> settleable w e authority seeds amount_in fee amount_out ->
  exists w' e', settle w e authority seeds amount_in fee (amount_in + fee) amount_out = Ok (w', e') /\
    (forall t, spend_as (acc_data (ev_user_source_a e)) (ai_key authority) (amount_in + fee) = Some t ->
       same_allowance (acc_data (ev_user_source_a e')) t) /\
    forall k, (k ∉ token_keys e) -> w_accounts w' !! k = w_accounts w !! k.
Proof.
  intros Hlaw Hs.
  destruct (source_transfers_complete _ _ _ _ _ _ _ Hlaw Hs) as (w1 & w2 & E1 & E2 & (s & Bs & Es & Hallow) & Ba & Bf & F2).
  destruct (output_transfer_completes _ w2 _ _ _ _ _ _ Hlaw Hs F2) as (w3 & E3 & Bb & Bd & F3).
  destruct Hs as [_ _ Hnd _ _ _ _ _ _ _ _ _ (A1 & A2 & A3) _ _].
  unfold settlement_keys in Hnd. rewrite !NoDup_cons, !not_elem_of_cons in Hnd. destruct_and! Hnd.
  assert (forall k, k <> key (ev_vault_b e) -> k <> key (ev_user_destination_b e) ->
    balance w3 k = balance w2 k) as Hb
    by (intros k Hk1 Hk2; unfold balance; by rewrite (token_lookup w2 w3) by auto).
  unfold settle, settle_transfers, reload_tokens. rewrite E1, bind_ret_l, E2, bind_ret_l, E3, bind_ret_l.
  assert (reload w3 (ev_user_source_a e) = Ok (set_data (ev_user_source_a e) s)) as ->.
  { unfold reload. rewrite (token_lookup w2 w3) by (apply F3; auto). by rewrite Bs. }
  destruct (reload_balance w3 (ev_user_destination_b e) _ Bd) as (d & -> & Ed).
  destruct (reload_balance w3 (ev_vault_a e) _ ltac:(rewrite Hb by done; exact Ba)) as (a & -> & Ea).
  destruct (reload_balance w3 (ev_vault_b e) _ Bb) as (b & -> & Eb).
  destruct (reload_balance w3 (ev_fee_vault e) _ ltac:(rewrite Hb by done; exact Bf)) as (f & -> & Ef).
  rewrite !bind_ret_l. unfold exact_deltas, with_tokens. simpl. rewrite Es, Ed, Ea, Eb, Ef.
  assert (forall x y z er, x = y + z -> 0 <= z -> exact_debit x y z er = Ok tt) as Hdebit
    by (intros; by apply exact_debit_Ok).
  assert (forall x y z er, y = x + z -> 0 <= z -> exact_credit x y z er = Ok tt) as Hcredit
    by (intros; by apply exact_credit_Ok).
  rewrite !Hdebit, !Hcredit by lia. do 2 eexists. split; [reflexivity|]. split; [exact Hallow|].
  intros k Hk. unfold token_keys in Hk. rewrite !not_elem_of_cons in Hk. destruct_and! Hk.
  by rewrite F3, F2.
Qed.
End Settle.

(** ** From the guards to the settlement *)

Section Guards.
Context `{Runtime} {C : CoreConfig}.

(** The accounts a settlement reads, as they were validated. *)
Definition same_tokens_and_mints (w w' : World) (e : Envelope) : Prop :=
  forall k, k ∈ [key (ev_mint_a e); key (ev_mint_b e); key (ev_user_source_a e);
    key (ev_user_destination_b e); key (ev_vault_a e); key (ev_vault_b e); key (ev_fee_vault e)] ->
  w_accounts w' !! k = w_accounts w !! k.

(** What the user brings: the balance, and balances that stay in u64 (SPL Token
    keeps the supply of a mint in u64). *)
Definition funded (e : Envelope) (amount_in fee amount_out : Z) : Prop :=
  amount_in + fee <= amount_of (ev_user_source_a e) /\
  amount_of (ev_vault_a e) + amount_in < 2 ^ 64 /\
  amount_of (ev_fee_vault e) + fee < 2 ^ 64 /\
  amount_of (ev_user_destination_b e) + amount_out < 2 ^ 64.

Lemma envelope_loaded_mints w e :
  envelope_loaded w e = true ->
  mint_at w (key (ev_mint_a e)) = Some (acc_data (ev_mint_a e)) /\
  mint_at w (key (ev_mint_b e)) = Some (acc_data (ev_mint_b e)).
Proof.
  unfold envelope_loaded. intros Hc. to_prop.
  repeat match goal with H : is_account _ _ _ _ = true |- _ => apply is_account_loaded in H end.
  tauto.
Qed.

Lemma same_tokens_loaded w w' e :
  same_tokens_and_mints w w' e -> envelope_loaded w e = true ->
  tokens_loaded w' e /\ mint_at w' (key (ev_mint_a e)) = Some (acc_data (ev_mint_a e)) /\
  mint_at w' (key (ev_mint_b e)) = Some (acc_data (ev_mint_b e)).
Proof.
  intros Hs Hl. pose proof (envelope_loaded_mints _ _ Hl) as (Ma & Mb).
  apply envelope_loaded_tokens in Hl as ((T1 & T2 & T3 & T4 & T5) & _).
  unfold tokens_loaded. rewrite !(token_lookup w w'), !(mint_lookup w w') by (apply Hs; set_solver).
  by split_and!.
Qed.

(** A positive amount pays a positive fee at the protocol's rate. *)
Lemma protocol_fee_pos amount fee :
  0 < amount -> fee_ceil amount PROTOCOL_FEE_BPS_V0 = Ok fee -> 0 < fee.
Proof. intros Ha Hf%fee_ceil_covers. unfold PROTOCOL_FEE_BPS_V0 in Hf. lia. Qed.

Lemma guards_settleable w w' e authority seeds amount_in fee amount_out :
  envelope_loaded w e = true -> same_tokens_and_mints w w' e ->
  envelope_state_constraints e = Ok tt -> envelope_vault_constraints e = Ok tt ->
  validate_envelope_state e = Ok tt -> validate_vaults e = Ok tt ->
  is_mut (ev_user_source_a e) = true -> is_mut (ev_user_destination_b e) = true ->
  validate_common_token_account (acc_data (ev_user_source_a e)) (key (ev_mint_a e)) = Ok tt ->
  is_Some (spend_as (acc_data (ev_user_source_a e)) (ai_key authority) (amount_in + fee)) ->
  signs ID authority seeds ->
  NoDup (settlement_keys e) ->
  0 < amount_in -> 0 < amount_out -> amount_out <= d_accounted_b (acc_data (ev_domain e)) ->
  fee_ceil amount_in (m_fee_bps (acc_data (ev_market e))) = Ok fee ->
  funded e amount_in fee amount_out ->
  settleable w' e authority seeds amount_in fee amount_out.
Proof.
  intros Hl Hsame Hst Hva Hes Hv Ms Md Hcommon Hspend Hsig Hnd Hin Hout Hliq Hfee (F1 & R1 & R2 & R3).
  destruct (same_tokens_loaded _ _ _ Hsame Hl) as (HT & HM).
  pose proof (validate_vaults_covers _ _ Hv) as (_ & Cb & _).
  rewrite (validate_envelope_state_bps _ _ Hes) in Hfee. apply protocol_fee_pos in Hfee; [|done].
  unfold validate_vaults, validate_credit_destination in Hv. inv_guarded.
  repeat match goal with
  | H : validate_protected_token_account _ _ _ = _ |- _ => apply validate_protected_Ok in H
  | H : validate_common_token_account _ _ = _ |- _ => apply validate_common_Ok in H
  end.
  unfold envelope_state_constraints in Hst. inv_guarded.
  unfold envelope_vault_constraints in Hva. inv_guarded. to_prop.
  unfold is_pda in *. to_prop.
  constructor; try done; try lia. by repeat (apply andb_true_iff; split).
Qed.

(** The user spends from a source that passes the owner checks. *)
Lemma owner_spends t mint authority amount u :
  validate_protected_token_account t mint authority = Ok u ->
  validate_common_token_account t mint = Ok tt /\ is_Some (spend_as t authority amount).
Proof.
  intros Hv. pose proof (validate_protected_Ok _ _ _ _ Hv) as Ho.
  unfold validate_protected_token_account in Hv. apply bind_Ok in Hv as ([] & Hv & _).
  split; [done|]. eexists. by eapply spend_as_owner.
Qed.
End Guards.

(** ** execute_engine_probe *)

Section Kernel.
Context `{Runtime} {C : CoreConfig}.

(** An engine that answers a request: its invocation succeeds, returns a
    receipt for the request's plan, and changes no account but its state. *)
Definition engine_acknowledges (w : World) (a : ExecuteEngineProbeV0) (request : EngineRequest)
    : Prop :=
  let e := ee_env a in
  forall data, encode_evaluate_instruction request = Ok data ->
  exists w' bytes receipt,
    invoke w (probe_instruction a data) [ev_engine_state e; ee_instructions_sysvar a] = Ok w' /\
    w_return_data w' = Some (ai_key (ev_engine_program e), bytes) /\
    decode_receipt bytes = Ok receipt /\ rc_plan_hash receipt = er_plan_hash request /\
    forall k, k <> ai_key (ev_engine_state e) -> w_accounts w' !! k = w_accounts w !! k.

Lemma probe_request_wf a args fee digest :
  plan_binding_wf (probe_plan_binding a args fee) -> byte_string 32 digest ->
  engine_request_wf (probe_request (ee_env a) args fee digest).
Proof. intros [Hk Hz] Hd. unfold engine_request_wf. simpl in *. rewrite !Forall_cons in *. tauto. Qed.

Lemma probe_invoke_completes w a args fee :
  sha256_output ->
  plan_binding_wf (probe_plan_binding a args fee) ->
  (forall digest, byte_string 32 digest ->
    engine_acknowledges w a (probe_request (ee_env a) args fee digest)) ->
  exists digest w' receipt,
    compute_plan_hash (probe_plan_binding a args fee) = Ok digest /\
    probe_invoke w a (probe_request (ee_env a) args fee digest) = Ok w' /\
    probe_receipt w' (ee_env a) digest = Ok receipt /\
    forall k, k <> ai_key (ev_engine_state (ee_env a)) -> w_accounts w' !! k = w_accounts w !! k.
Proof.
  intros Hsha Hwf Heng. eexists. pose proof (compute_plan_hash_ok _ Hwf) as Hh.
  pose proof
    (encode_evaluate_ok _ (probe_request_wf a args fee _ Hwf (Hsha (plan_preimage (probe_plan_binding a args fee))))) as He.
  destruct (Heng _ (Hsha _) _ He) as (w' & bytes & receipt & Hi & Hr & Hd & Hp & Hfr).
  exists w', receipt. split; [exact Hh|]. unfold probe_invoke, probe_receipt. rewrite He, Hr.
  cbn [infallible core_ok_or ok_or]. rewrite !bind_ret_l. split; [exact Hi|]. split; [|done].
  unfold require_keys_eq. rewrite key_eqb_refl. cbn [require]. rewrite bind_ret_l, Hd.
  cbn [map_err]. rewrite bind_ret_l, Hp. by rewrite bool_decide_eq_true_2.
Qed.

(** C12. Progress: a request that passes the account constraints, the envelope
    checks and the user's limits, whose engine answers and whose source holds
    the debit, is settled; none of the three transfers, reloads and exact-delta
    checks after the engine call can fail. *)
Theorem execute_probe_completes w a args plan :
  let e := ee_env a in
  sha256_output -> transfer_progress ID ->
  probe_constraints w a = Ok tt -> probe_envelope w a [] = Ok tt ->
  probe_economics w e args = Ok plan ->
  plan_binding_wf (probe_plan_binding a args (pp_protocol_fee plan)) ->
  (forall digest, byte_string 32 digest ->
    engine_acknowledges w a (probe_request e args (pp_protocol_fee plan) digest)) ->
  funded e (ea_amount_in args) (pp_protocol_fee plan) (ea_amount_out args) ->
  exists w' ev, execute_engine_probe w a [] args = Ok (w', ev).
Proof.
  intros e Hsha Hlaw Hc Henv Hec Hwf Heng Hf.
  destruct (probe_invoke_completes _ _ _ _ Hsha Hwf Heng) as (digest & w1 & rc & Hh & Hi & Hr & Hfr).
  pose proof (probe_economics_Ok _ _ _ _ Hec) as (Hn & Ho & _ & _ & (Hfee & Htot & _) & _ & _ & _ & _ &
    Hliq & _).
  pose proof (probe_envelope_Ok _ _ _ _ Henv) as (_ & Hnd & _).
  assert (settleable w1 e (ee_user a) [] (ea_amount_in args) (pp_protocol_fee plan)
    (ea_amount_out args)) as Hs.
  { pose proof Hc as Hc'. pose proof Henv as Henv'. unfold probe_constraints in Hc'.
    unfold probe_envelope in Henv'. inv_guarded. to_prop.
    match goal with H : validate_protected_token_account _ _ _ = _ |- _ =>
      apply (owner_spends _ _ _ (ea_amount_in args + pp_protocol_fee plan)) in H as [? ?] end.
    eapply guards_settleable; try eassumption; try reflexivity.
    - intros k Hk. apply Hfr. refine (NoDup_sublist_ne _ _ _ _ Hnd _ Hk). unfold probe_roles. simpl.
      solve_sublist.
    - by left.
    - by apply probe_roles_settlement_keys. }
  destruct (settle_completes _ _ _ _ _ _ _ Hlaw Hs) as (w2 & e2 & Hset & _).
  unfold execute_engine_probe, handle_execute_engine_probe_v0. fold e.
  rewrite Hc, bind_ret_l, Henv, bind_ret_l, Hec, bind_ret_l, Hh. cbn [infallible].
  unfold e in *. rewrite bind_ret_l, Hi, bind_ret_l, Hr, bind_ret_l, Htot, Hset, !bind_ret_l. eauto.
Qed.
End Kernel.

(** The engine of the examples answers every request. *)
Lemma decode_evaluate_ok r :
  engine_request_wf r ->
  decode_evaluate_instruction (EVALUATE_DISCRIMINATOR ++ engine_request_layout r) = Ok r.
Proof.
  intros Hwf. unfold decode_evaluate_instruction.
  rewrite (proj2 (require_length_Ok _ _ tt)) by (by rewrite length_app, engine_request_length).
  rewrite bind_ret_l. change 8%nat with (length EVALUATE_DISCRIMINATOR).
  rewrite take_app_length, bool_decide_eq_true_2, drop_app_length by done. by apply decode_request_ok.
Qed.

Lemma acknowledging_engine_answers w a request :
  engine_request_wf request -> @engine_acknowledges example_runtime w a request.
Proof.
  intros Hwf data He. rewrite encode_evaluate_ok in He by done. apply Ok_inj in He as <-.
  set (rc := {| rc_plan_hash := er_plan_hash request; rc_state_sequence := 8 |}).
  assert (engine_receipt_wf rc) as Hrc.
  { destruct Hwf as [Hk _]. rewrite !Forall_cons in Hk. split; [apply Hk|]. unfold in_width. simpl. lia. }
  exists (set_return_data w (ai_key (ev_engine_program (ee_env a))) (engine_receipt_layout rc)),
    (engine_receipt_layout rc), rc.
  split; [|split_and!; try done; by apply decode_receipt_ok].
  change (acknowledging_engine w (probe_instruction a (EVALUATE_DISCRIMINATOR ++
    engine_request_layout request)) [ev_engine_state (ee_env a); ee_instructions_sysvar a] [] =
    Ok (set_return_data w (ai_key (ev_engine_program (ee_env a))) (engine_receipt_layout rc))).
  unfold acknowledging_engine, probe_instruction, ix_data.
  rewrite decode_evaluate_ok by done. fold rc. by rewrite encode_receipt_ok.
Qed.

Lemma execute_probe_completes_witness :
  let _ := example_runtime in let _ := kernel_config in
  exists w' ev, execute_engine_probe (test_world 50000 70000 6) (example_probe kernel_config) []
    example_probe_args = Ok (w', ev).
Proof.
  intros rt cfg.
  destruct (is_ok_Ok (probe_economics (test_world 50000 70000 6)
    (ee_env (example_probe kernel_config)) example_probe_args)) as [plan Hp];
    [vm_compute; reflexivity|].
  assert (match probe_economics (test_world 50000 70000 6)
    (ee_env (example_probe kernel_config)) example_probe_args with
    | Ok p => pp_protocol_fee p | _ => 0 end = 3) as Hfee by (vm_compute; reflexivity).
  rewrite Hp in Hfee.
  apply (execute_probe_completes _ _ _ plan).
  - intros l. apply toy_digest_bytes.
  - apply reference_transfer_progress.
  - vm_compute. reflexivity.
  - vm_compute. reflexivity.
  - exact Hp.
  - rewrite Hfee. decide_closed.
  - intros digest Hd. apply acknowledging_engine_answers. rewrite Hfee.
    apply (probe_request_wf _ _ 3); [decide_closed | exact Hd].
  - rewrite Hfee. vm_compute. split_and!; congruence.
Defined.
