(* ===== verification/SpikeEngine.v ===== *)
(** * test-programs/spike-engine

    The authority kernel's test engine: it acknowledges the plan it is sent,
    or, in its hostile modes, misbehaves in one of four ways. *)
From S2P Require Import Prelude Codec ProbeInterface CoreState EngineState Solana ReferenceRuntime EngineFrame.
From S2P Require Import Validation Settlement EngineProbe.

Definition spike_engine_ID : Pubkey :=
  Eval vm_compute in pubkey_literal "HAhZQp2iaVWfP2mbSpSJvwMqUGaES4S5i4PxwHr6bNkQ".

Definition MODE_ACCEPT : Z := 0.
Definition MODE_HOSTILE_READONLY_ESCALATION : Z := 1.
Definition MODE_MISSING_RECEIPT : Z := 2.
Definition MODE_WRONG_PLAN_HASH : Z := 3.
Definition MODE_MALFORMED_RECEIPT : Z := 4.

Definition spike_state_at (w : World) (k : Pubkey) : option SpikeEngineState :=
  match program_data_at w k with Some (SpikeEngineData s) => Some s | _ => None end.

(** *** initialize and set_mode *)

Definition initial_spike_state (authority market : Pubkey) (revision : Z) : SpikeEngineState := {|
  ss_authority := authority; ss_market := market; ss_revision := revision; ss_sequence := 0;
  ss_last_plan_hash := replicate 32 0; ss_mode := MODE_ACCEPT |}.

Definition initialize (w : World) (a : InitializeState) (remaining : list AccountInfo)
    (market : Pubkey) (revision : Z) : engine_result World :=
  _ ← init_keypair w (is_state a);
  _ ← init_payer (is_authority a) (is_system_program a);
  _ ← require_engine (bool_decide (remaining = [])) UnexpectedAccount;
  _ ← require_engine (negb (key_eqb market default_pubkey)) InvalidMarket;
  _ ← require_engine (negb (revision =? 0)) InvalidRevision;
  Ok (store w (ai_key (is_state a))
        (OtherProgramData (SpikeEngineData
          (initial_spike_state (ai_key (is_authority a)) market revision)))).

Definition is_known_mode (mode : Z) : bool :=
  existsb (Z.eqb mode)
    [MODE_ACCEPT; MODE_HOSTILE_READONLY_ESCALATION; MODE_MISSING_RECEIPT; MODE_WRONG_PLAN_HASH;
     MODE_MALFORMED_RECEIPT].

Definition with_mode (s : SpikeEngineState) (mode : Z) : SpikeEngineState :=
  {| ss_authority := ss_authority s; ss_market := ss_market s; ss_revision := ss_revision s;
     ss_sequence := ss_sequence s; ss_last_plan_hash := ss_last_plan_hash s; ss_mode := mode |}.

Definition set_mode (w : World) (a : SetMode SpikeEngineState) (remaining : list AccountInfo)
    (mode : Z) : engine_result World :=
  _ ← set_mode_constraints spike_state_at ss_authority w spike_engine_ID a;
  _ ← require_engine (bool_decide (remaining = [])) UnexpectedAccount;
  _ ← require_engine (is_known_mode mode) InvalidMode;
  Ok (store w (key (sm_engine_state a))
        (OtherProgramData (SpikeEngineData (with_mode (acc_data (sm_engine_state a)) mode)))).

(** *** evaluate *)

Record Evaluate := {
  sv_engine_state : Account SpikeEngineState;
  sv_instructions : AccountInfo }.

(** The accounts of the instruction, in order: the state, mutable; the sysvar
    by address; whatever remains. *)
Definition evaluate_accounts (w : World) (accounts : list AccountInfo)
    : engine_result (Evaluate * list AccountInfo) :=
  match accounts with
  | state :: sysvar :: remaining =>
      s ← ok_or (spike_state_at w (ai_key state)) EngineConstraint;
      _ ← require_engine (key_eqb (ai_owner state) spike_engine_ID && ai_is_writable state)
            EngineConstraint;
      _ ← require_engine (key_eqb (ai_key sysvar) INSTRUCTIONS_SYSVAR_ID) EngineConstraint;
      Ok ({| sv_engine_state := Build_Account state s; sv_instructions := sysvar |}, remaining)
  | _ => Err EngineConstraint
  end.

Definition recorded (s : SpikeEngineState) (sequence : Z) (plan_hash : list Z) : SpikeEngineState :=
  {| ss_authority := ss_authority s; ss_market := ss_market s; ss_revision := ss_revision s;
     ss_sequence := sequence; ss_last_plan_hash := plan_hash; ss_mode := ss_mode s |}.

Section Evaluate.
Context `{Introspection} (cpi : Cpi) (escalation_data : list Z).

(** A CPI of the engine to itself that names the read-only sysvar writable.
    [escalation_data] is Anchor's encoding of [HostileEscalationProbe {}]. *)
Definition attempt_readonly_to_writable_self_cpi (w : World) (instructions : AccountInfo)
    : engine_result World :=
  map_err EngineCpi
    (cpi w {| ix_program_id := spike_engine_ID;
              ix_accounts := [meta_new (ai_key instructions) false];
              ix_data := escalation_data |} [instructions] []).

Definition hostile_escalation_probe : engine_result World := Err HostileCpiUnexpectedlySucceeded.

Definition evaluate (w : World) (a : Evaluate) (remaining : list AccountInfo)
    (wire_request : list Z) : engine_result World :=
  _ ← require_engine (bool_decide (remaining = [])) UnexpectedAccount;
  _ ← require_direct_core_cpi kernel_ID CORE_EXECUTE_ENGINE_PROBE_DISCRIMINATOR w;
  request ← map_err (fun _ => InvalidRequestEncoding) (decode_request wire_request);
  let state := acc_data (sv_engine_state a) in
  _ ← require_engine_keys_eq (ss_market state) (er_market request) MarketMismatch;
  _ ← require_engine (ss_revision state =? er_engine_revision request) RevisionMismatch;
  sequence ← ok_or (checked_add 64 (ss_sequence state) 1) SequenceOverflow;
  let state := recorded state sequence (er_plan_hash request) in
  receipt ← infallible
    (encode_receipt {| rc_plan_hash := er_plan_hash request; rc_state_sequence := sequence |});
  let exit w := store w (key (sv_engine_state a)) (OtherProgramData (SpikeEngineData state)) in
  let mode := ss_mode state in
  if mode =? MODE_ACCEPT then Ok (exit (set_return_data w spike_engine_ID receipt))
  else if mode =? MODE_HOSTILE_READONLY_ESCALATION then
    _ ← attempt_readonly_to_writable_self_cpi (exit w) (sv_instructions a);
    Err HostileCpiUnexpectedlySucceeded
  else if mode =? MODE_MISSING_RECEIPT then Ok (exit w)
  else if mode =? MODE_WRONG_PLAN_HASH then
    Ok (exit (set_return_data w spike_engine_ID (flip_bit 9 receipt)))
  else if mode =? MODE_MALFORMED_RECEIPT then
    Ok (exit (set_return_data w spike_engine_ID (take (length receipt - 1) receipt)))
  else Err InvalidMode.

(** The instruction: its accounts, its arguments, the handler. *)
Definition evaluate_handler : Handler := fun w accounts args =>
  '(a, remaining) ← evaluate_accounts w accounts;
  _ ← require_engine (ENGINE_REQUEST_LEN <=? length args)%nat EngineConstraint;
  evaluate w a remaining (take ENGINE_REQUEST_LEN args).
End Evaluate.

(** ** What a run of the engine does *)

(** The return-data slot after a run that returned. *)
Definition answer (mode : Z) (before : option (Pubkey * list Z)) (receipt : list Z)
    : option (Pubkey * list Z) :=
  if mode =? MODE_MISSING_RECEIPT then before
  else Some (spike_engine_ID,
             if mode =? MODE_WRONG_PLAN_HASH then flip_bit 9 receipt
             else if mode =? MODE_MALFORMED_RECEIPT then take (length receipt - 1) receipt
             else receipt).

Section Run.
Context `{Introspection} (cpi : Cpi) (escalation_data : list Z).

Lemma evaluate_handler_Ok w accounts args w' :
  evaluate_handler cpi escalation_data w accounts args = Ok w' ->
  exists state sysvar s request receipt,
    accounts = [state; sysvar] /\ ai_owner state = spike_engine_ID /\
    spike_state_at w (ai_key state) = Some s /\
    require_direct_core_cpi kernel_ID CORE_EXECUTE_ENGINE_PROBE_DISCRIMINATOR w = Ok tt /\
    decode_request (take ENGINE_REQUEST_LEN args) = Ok request /\
    ss_market s = er_market request /\ ss_revision s = er_engine_revision request /\
    ss_sequence s + 1 < 2 ^ 64 /\
    encode_receipt {| rc_plan_hash := er_plan_hash request;
                      rc_state_sequence := ss_sequence s + 1 |} = Ok receipt /\
    ss_mode s ∈ [MODE_ACCEPT; MODE_MISSING_RECEIPT; MODE_WRONG_PLAN_HASH; MODE_MALFORMED_RECEIPT] /\
    w_accounts w' = <[ai_key state := OtherProgramData (SpikeEngineData
      (recorded s (ss_sequence s + 1) (er_plan_hash request)))]> (w_accounts w) /\
    w_return_data w' = answer (ss_mode s) (w_return_data w) receipt.
Proof.
  unfold evaluate_handler, evaluate_accounts. intros Hh.
  destruct accounts as [|state [|sysvar remaining]]; [discriminate..|].
  apply bind_Ok in Hh as ([a rest] & Ha & Hh). inv_engine.
  match goal with H : evaluate _ _ _ _ _ _ = Ok _ |- _ => unfold evaluate in H end.
  inv_engine. inv_checked. to_prop. unfold key_eqb in *. to_prop. subst. simpl in *. clear Hok.
  match goal with H : decode_request _ = Ok ?r, H' : encode_receipt _ = Ok ?rc |- _ =>
    eexists state, sysvar, _, r, rc end.
  split_and!; try eassumption; try done.
  all: repeat (case_match; to_prop); inv_engine; try reflexivity; try unfold answer;
    match goal with H : ss_mode _ = _ |- _ => rewrite H end; first [reflexivity | set_solver].
Qed.
End Run.

(** ** The receipts of the hostile modes *)

(** An accepted answer is the answer of [MODE_ACCEPT]. *)
Lemma spike_accepted_answer mode digest sequence receipt bytes rc :
  mode ∈ [MODE_ACCEPT; MODE_MISSING_RECEIPT; MODE_WRONG_PLAN_HASH; MODE_MALFORMED_RECEIPT] ->
  byte_string 32 digest -> is_u64 sequence ->
  encode_receipt {| rc_plan_hash := digest; rc_state_sequence := sequence |} = Ok receipt ->
  answer mode None receipt = Some (spike_engine_ID, bytes) ->
  decode_receipt bytes = Ok rc -> rc_plan_hash rc = digest ->
  mode = MODE_ACCEPT /\ rc_state_sequence rc = sequence.
Proof.
  intros Hm Hd Hs He Ha Hdec Hh. rewrite encode_receipt_ok in He by done.
  apply Ok_inj in He as <-.
  set (r := {| rc_plan_hash := digest; rc_state_sequence := sequence |}) in *.
  assert (engine_receipt_wf r) as Hwf by done.
  pose proof (receipt_prefix _ _ Hdec) as [Hl Hprefix].
  pose proof (receipt_prefix _ _ (decode_receipt_ok r Hwf)) as [Hlen Hlayout].
  pose proof (decode_receipt_ok r Hwf) as Hr. remember (engine_receipt_layout r) as layout eqn:E.
  clear E. rewrite Hh in Hprefix. change (rc_plan_hash r) with digest in Hlayout. unfold answer in Ha. rewrite !elem_of_cons in Hm.
  destruct Hm as [->|[->|[->|[->|Hm]]]]; cbn -[flip_bit app take length Nat.sub] in Ha;
    [| | | |by apply not_elem_of_nil in Hm].
  - assert (bytes = layout) as -> by congruence. rewrite Hr in Hdec. by injection Hdec as <-.
  - discriminate.
  - exfalso. assert (bytes = flip_bit 9 layout) as -> by congruence.
    apply (flip_bit_prefix 9 41 layout); [lia | rewrite Hlen; unfold ENGINE_RECEIPT_LEN; lia | congruence].
  - exfalso. assert (bytes = take (length layout - 1) layout) as -> by congruence.
    rewrite length_take, Hlen in Hl. discriminate Hl.
Qed.

(** ** Properties *)

Section Properties.
Context `{Introspection} (cpi : Cpi) (escalation_data : list Z).

(** C13. Core and its engine together: when the market's engine is this program,
    a successful [execute_engine_probe] settled the plan of an engine in
    [MODE_ACCEPT] whose market and revision are the market's, reports the
    engine's next sequence, and besides the seven settlement accounts changed
    one account of the ledger: the engine state, which now records that
    sequence and the hash of the settled plan. No hostile mode settles. *)
Theorem spike_probe_closed_loop `{Runtime} {C : CoreConfig} w a remaining args w' ev :
  let e := ee_env a in
  let k := ai_key (ev_engine_state e) in
  transfer_frame ->
  runs invoke_signed spike_engine_ID EVALUATE_DISCRIMINATOR
    (evaluate_handler cpi escalation_data) ->
  ai_key (ev_engine_program e) = spike_engine_ID ->
  engine_request_wf (probe_request e args (epx_protocol_fee ev) (epx_plan_digest ev)) ->
  (forall s, spike_state_at w k = Some s -> is_u64 (ss_sequence s)) ->
  execute_engine_probe w a remaining args = Ok (w', ev) ->
  exists s,
    spike_state_at w k = Some s /\ ss_mode s = MODE_ACCEPT /\
    ss_market s = key (ev_market e) /\
    ss_revision s = m_engine_revision (acc_data (ev_market e)) /\
    epx_engine_sequence ev = ss_sequence s + 1 /\
    forall k', (k' ∉ settlement_keys e) ->
      w_accounts w' !! k' =
      <[k := OtherProgramData (SpikeEngineData
               (recorded s (ss_sequence s + 1) (epx_plan_digest ev)))]> (w_accounts w) !! k'.
Proof.
  intros e k Hframe Hruns Hid Hwf Hseq Hx. apply execute_engine_probe_Ok in Hx
    as (plan & digest & w1 & rc & w2 & e2 & _ & _ & _ & _ & Hi & Hr & Hs & -> & ->).
  cbn [epx_protocol_fee epx_plan_digest epx_engine_sequence probe_event] in *.
  unfold probe_invoke in Hi. rewrite encode_evaluate_ok in Hi by done.
  cbn [infallible] in Hi. rewrite bind_ret_l in Hi.
  pose proof (Hruns _ (probe_instruction a _) _ _ _ _ Hid eq_refl Hi)
    as (accounts & w3 & Hacc & Hrun & ->).
  apply callee_accounts_keys in Hacc.
  apply evaluate_handler_Ok in Hrun as (state & sysvar & s & request & receipt & -> & _ & Hst & _ &
    Hdec & Hm & Hrev & Hlt & Henc & Hmode & Hacct & Hret).
  rewrite take_ge, decode_request_ok in Hdec by (done || rewrite engine_request_length; done).
  apply Ok_inj in Hdec as <-. injection Hacc as Hk _. rewrite Hk in *.
  change (spike_state_at w k = Some s) in Hst. pose proof (Hseq s Hst) as Hu.
  unfold probe_receipt in Hr. inv_guarded. destruct r as [setter bytes]. inv_guarded. to_prop. subst.
  rewrite leave_return_data in *. unfold in_width in *.
  destruct Hwf as [(Hplan & _)%Forall_cons _].
  destruct (spike_accepted_answer (ss_mode s) (rc_plan_hash rc) (ss_sequence s + 1) receipt bytes rc)
    as [Hacc0 Hsq]; try done;
    [unfold in_width; lia | rewrite <- Hid; etransitivity; [symmetry; exact Hret | exact Hok] |].
  exists s. split_and!; try done.
  intros k' Hk'. rewrite (settle_frame _ _ _ _ _ _ _ _ _ _ _ _ _ _ Hframe Hs Hk').
  rewrite leave_accounts, Hacct. reflexivity.
Qed.
End Properties.

(** ** A concrete market of this engine *)

Section Example.
#[local] Instance spike_introspection : Introspection :=
  direct_call kernel_ID CORE_EXECUTE_ENGINE_PROBE_DISCRIMINATOR.
Definition spike_handler : Handler := evaluate_handler (table_cpi []) [].
#[local] Instance spike_runtime : Runtime :=
  reference_runtime (table_cpi [(spike_engine_ID, EVALUATE_DISCRIMINATOR, spike_handler)]).
#[local] Instance spike_config : CoreConfig := kernel_config.

Definition spike_state : SpikeEngineState := {|
  ss_authority := user_k; ss_market := market_k; ss_revision := 3; ss_sequence := 7;
  ss_last_plan_hash := replicate 32 0; ss_mode := MODE_ACCEPT |}.
Definition spike_world : World :=
  world_of_engine spike_engine_ID (SpikeEngineData spike_state) 50000 70000 6.
Definition spike_probe : ExecuteEngineProbeV0 := {|
  ee_user := user_info; ee_env := envelope_of_engine spike_engine_ID 50000 70000 6;
  ee_instructions_sysvar := sysvar_info |}.
Definition spike_run : result (World * EngineProbeExecutedV0) :=
  execute_engine_probe spike_world spike_probe [] example_probe_args.

Lemma spike_probe_closed_loop_witness :
  exists w' ev, spike_run = Ok (w', ev) /\ epx_engine_sequence ev = 8.
Proof.
  destruct (is_ok_Ok spike_run) as [[w' ev] E]; [vm_compute; reflexivity|].
  exists w', ev. split; [exact E|].
  assert (engine_request_wf (probe_request (ee_env spike_probe) example_probe_args
    (epx_protocol_fee ev) (epx_plan_digest ev))) as Hwf.
  { assert (match spike_run with
            | Ok (_, e) => bool_decide (engine_request_wf (probe_request (ee_env spike_probe)
                example_probe_args (epx_protocol_fee e) (epx_plan_digest e)))
            | _ => false end = true) as Hb by (vm_compute; reflexivity).
    rewrite E in Hb. exact (proj1 (bool_decide_eq_true _) Hb). }
  destruct (spike_probe_closed_loop (table_cpi []) [] spike_world spike_probe []
    example_probe_args w' ev) as (s & Hs & _ & _ & _ & Hq & _).
  - apply reference_transfer_frame.
  - apply table_cpi_runs.
  - reflexivity.
  - exact Hwf.
  - intros s Hs. assert (spike_state_at spike_world engine_state_k = Some spike_state) as Hs'
      by (vm_compute; reflexivity).
    change (spike_state_at spike_world engine_state_k = Some s) in Hs. rewrite Hs' in Hs.
    injection Hs as <-. unfold in_width. simpl. lia.
  - exact E.
  - assert (spike_state_at spike_world engine_state_k = Some spike_state) as Hs'
      by (vm_compute; reflexivity).
    change (spike_state_at spike_world engine_state_k = Some s) in Hs. rewrite Hs' in Hs.
    injection Hs as <-. exact Hq.
Defined.
End Example.
