(* ===== verification/Initialize.v ===== *)
(** * instructions/initialize_market_domain_v0.rs of the three core crates

    Creates a market, its domain, its fee ledger and the three vaults at their
    canonical addresses, binds an engine and two mints, and starts the books at
    zero. *)
From S2P Require Import Prelude Codec CoreState Solana Validation Settlement ReferenceRuntime.

Record InitializeMarketDomainV0Args := {
  ia_market_id : list Z;
  ia_engine_revision : Z }.

Record InitializeMarketDomainV0 := {
  in_initializer : AccountInfo;
  in_market : AccountInfo;
  in_domain : AccountInfo;
  in_fee_ledger : AccountInfo;
  in_mint_a : Account Mint;
  in_mint_b : Account Mint;
  in_vault_a : AccountInfo;
  in_vault_b : AccountInfo;
  in_fee_vault : AccountInfo;
  in_engine_program : AccountInfo;
  in_engine_state : AccountInfo;
  in_token_program : AccountInfo;
  in_system_program : AccountInfo }.

(** [ctx.bumps] *)
Record InitializeBumps := {
  bump_market : Z;
  bump_domain : Z;
  bump_fee_ledger : Z;
  bump_vault_a : Z;
  bump_vault_b : Z;
  bump_fee_vault : Z }.

(** A token account as [init] with [token::mint] and [token::authority] leaves it. *)
Definition new_token_account (mint authority : Pubkey) : TokenAccount := {|
  ta_mint := mint; ta_owner := authority; ta_amount := 0; ta_delegate := None;
  ta_state := Initialized; ta_is_native := None; ta_delegated_amount := 0;
  ta_close_authority := None |}.

Section Initialize.
Context `{Runtime} {C : CoreConfig}.

(** [init, payer = initializer, seeds = seeds, bump]: the canonical PDA of the
    seeds, not yet in the ledger; gives the bump. *)
Definition init_pda (w : World) (seeds : list (list Z)) (a : AccountInfo) : result Z :=
  let '(k, bump) := find_program_address seeds ID in
  _ ← require (key_eqb (ai_key a) k && ai_is_writable a &&
               bool_decide (w_accounts w !! ai_key a = None)) ConstraintViolated;
  Ok bump.

(** The [Accounts] attributes, in field order. The token vaults are created
    here; the three core accounts are written by the handler. *)
Definition initialize_accounts (w : World) (a : InitializeMarketDomainV0)
    (args : InitializeMarketDomainV0Args) : result (World * InitializeBumps) :=
  _ ← require (ai_is_signer (in_initializer a) && ai_is_writable (in_initializer a))
        ConstraintViolated;
  bump_market ← init_pda w
    [MARKET_SEED_V0; ai_key (in_initializer a); ia_market_id args] (in_market a);
  bump_domain ← init_pda w [DOMAIN_SEED_V0; ai_key (in_market a)] (in_domain a);
  bump_fee_ledger ← init_pda w
    [FEE_LEDGER_SEED_V0; ai_key (in_market a); key (in_mint_a a)] (in_fee_ledger a);
  _ ← require (is_account mint_at w spl_token_ID (in_mint_a a) &&
               is_account mint_at w spl_token_ID (in_mint_b a)) ConstraintViolated;
  bump_vault_a ← init_pda w
    [VAULT_SEED_V0; ai_key (in_domain a); ASSET_A_SEED_V0] (in_vault_a a);
  let w := store w (ai_key (in_vault_a a))
    (TokenData (new_token_account (key (in_mint_a a)) (ai_key (in_domain a)))) in
  bump_vault_b ← init_pda w
    [VAULT_SEED_V0; ai_key (in_domain a); ASSET_B_SEED_V0] (in_vault_b a);
  let w := store w (ai_key (in_vault_b a))
    (TokenData (new_token_account (key (in_mint_b a)) (ai_key (in_domain a)))) in
  bump_fee_vault ← init_pda w [FEE_VAULT_SEED_V0; ai_key (in_fee_ledger a)] (in_fee_vault a);
  let w := store w (ai_key (in_fee_vault a))
    (TokenData (new_token_account (key (in_mint_a a)) (ai_key (in_fee_ledger a)))) in
  _ ← require (is_token_program (in_token_program a) &&
               key_eqb (ai_key (in_system_program a)) system_program_ID) ConstraintViolated;
  Ok (w, {| bump_market := bump_market; bump_domain := bump_domain;
            bump_fee_ledger := bump_fee_ledger; bump_vault_a := bump_vault_a;
            bump_vault_b := bump_vault_b; bump_fee_vault := bump_fee_vault |}).

Definition initialize_roles (a : InitializeMarketDomainV0) : list Pubkey :=
  [ai_key (in_initializer a); ai_key (in_market a); ai_key (in_domain a);
   ai_key (in_fee_ledger a); key (in_mint_a a); key (in_mint_b a); ai_key (in_vault_a a);
   ai_key (in_vault_b a); ai_key (in_fee_vault a); ai_key (in_engine_program a);
   ai_key (in_engine_state a); ai_key (in_token_program a); ai_key (in_system_program a)]
  ++ ROLE_GUARD.

Definition initial_market (a : InitializeMarketDomainV0) (args : InitializeMarketDomainV0Args)
    (bumps : InitializeBumps) : MarketV0 := {|
  m_version := EXPERIMENT_VERSION_V0;
  m_bump := bump_market bumps;
  m_initializer := ai_key (in_initializer a);
  m_market_id := ia_market_id args;
  m_engine_program := ai_key (in_engine_program a);
  m_engine_state := ai_key (in_engine_state a);
  m_engine_revision := ia_engine_revision args;
  m_mint_a := key (in_mint_a a);
  m_mint_b := key (in_mint_b a);
  m_fee_bps := PROTOCOL_FEE_BPS_V0;
  m_fee_policy_revision := FEE_POLICY_REVISION_V0 |}.
Definition initial_domain (a : InitializeMarketDomainV0) (args : InitializeMarketDomainV0Args)
    (bumps : InitializeBumps) : DomainV0 := {|
  d_version := EXPERIMENT_VERSION_V0;
  d_bump := bump_domain bumps;
  d_vault_a_bump := bump_vault_a bumps;
  d_vault_b_bump := bump_vault_b bumps;
  d_market := ai_key (in_market a);
  d_engine_program := ai_key (in_engine_program a);
  d_engine_state := ai_key (in_engine_state a);
  d_engine_revision := ia_engine_revision args;
  d_accounted_a := 0;
  d_accounted_b := 0 |}.
Definition initial_fee_ledger (a : InitializeMarketDomainV0) (bumps : InitializeBumps)
    : FeeLedgerV0 := {|
  fl_version := EXPERIMENT_VERSION_V0;
  fl_bump := bump_fee_ledger bumps;
  fl_fee_vault_bump := bump_fee_vault bumps;
  fl_market := ai_key (in_market a);
  fl_mint_a := key (in_mint_a a);
  fl_accounted_fee_a := 0 |}.

Definition handle_initialize_market_domain_v0 (a : InitializeMarketDomainV0)
    (remaining : list AccountInfo) (args : InitializeMarketDomainV0Args)
    (bumps : InitializeBumps)
    : result (MarketV0 * DomainV0 * FeeLedgerV0 * MarketDomainInitializedV0) :=
  _ ← ensure_no_remaining_accounts remaining;
  _ ← ensure_distinct_roles (initialize_roles a);
  _ ← require_keys_neq (key (in_mint_a a)) (key (in_mint_b a)) IdenticalMints;
  _ ← require_core (negb (ia_engine_revision args =? 0)) InvalidEngineRevision;
  _ ← validate_classic_mint (key (in_mint_a a)) (acc_data (in_mint_a a));
  _ ← validate_classic_mint (key (in_mint_b a)) (acc_data (in_mint_b a));
  _ ← require_core (ai_executable (in_engine_program a)) EngineProgramNotExecutable;
  _ ← require_core (negb (ai_is_writable (in_engine_program a))) UnexpectedWritablePrivilege;
  _ ← require_keys_neq (ai_key (in_engine_program a)) ID CoreCannotBeEngine;
  _ ← require_core (negb (ai_executable (in_engine_state a))) EngineStateExecutable;
  _ ← require_keys_eq (ai_owner (in_engine_state a)) (ai_key (in_engine_program a))
        InvalidEngineStateOwner;
  _ ← require_core (negb (ai_is_writable (acc_info (in_mint_a a))) &&
                    negb (ai_is_writable (acc_info (in_mint_b a))) &&
                    negb (ai_is_writable (in_token_program a)) &&
                    negb (ai_is_writable (in_system_program a))) UnexpectedWritablePrivilege;
  Ok (initial_market a args bumps, initial_domain a args bumps, initial_fee_ledger a bumps,
      {| mdi_market := ai_key (in_market a); mdi_domain := ai_key (in_domain a);
         mdi_engine_program := ai_key (in_engine_program a);
         mdi_engine_state := ai_key (in_engine_state a);
         mdi_engine_revision := ia_engine_revision args;
         mdi_mint_a := key (in_mint_a a); mdi_mint_b := key (in_mint_b a);
         mdi_fee_ledger := ai_key (in_fee_ledger a); mdi_fee_bps := PROTOCOL_FEE_BPS_V0 |}).

Definition initialize_market_domain (w : World) (a : InitializeMarketDomainV0)
    (remaining : list AccountInfo) (args : InitializeMarketDomainV0Args)
    : result (World * MarketDomainInitializedV0) :=
  '(w, bumps) ← initialize_accounts w a args;
  '(market, domain, fee_ledger, event) ←
    handle_initialize_market_domain_v0 a remaining args bumps;
  let w := store w (ai_key (in_market a)) (MarketData market) in
  let w := store w (ai_key (in_domain a)) (DomainData domain) in
  Ok (store w (ai_key (in_fee_ledger a)) (FeeLedgerData fee_ledger), event).

(** ** What a successful initialization established *)

(** [find_program_address] finds the bump with which [create_program_address]
    gives the same address. *)
Definition pda_law : Prop := forall seeds program k bump,
  find_program_address seeds program = (k, bump) ->
  create_program_address (seeds ++ [[bump]]) program = Some k.

Lemma init_pda_Ok (Hpda : pda_law) w seeds a bump :
  init_pda w seeds a = Ok bump ->
  create_program_address (seeds ++ [[bump]]) ID = Some (ai_key a).
Proof.
  unfold init_pda. destruct (find_program_address seeds ID) as [k b] eqn:E.
  intros Hi. inv_guarded. unfold key_eqb in *. to_prop. subst. by apply Hpda.
Qed.

Lemma initialize_accounts_Ok (Hpda : pda_law) w a args w' bumps :
  initialize_accounts w a args = Ok (w', bumps) ->
  let created seeds bump k := create_program_address (seeds ++ [[bump]]) ID = Some k in
  created [MARKET_SEED_V0; ai_key (in_initializer a); ia_market_id args] (bump_market bumps)
    (ai_key (in_market a)) /\
  created [DOMAIN_SEED_V0; ai_key (in_market a)] (bump_domain bumps) (ai_key (in_domain a)) /\
  created [FEE_LEDGER_SEED_V0; ai_key (in_market a); key (in_mint_a a)] (bump_fee_ledger bumps)
    (ai_key (in_fee_ledger a)) /\
  created [VAULT_SEED_V0; ai_key (in_domain a); ASSET_A_SEED_V0] (bump_vault_a bumps)
    (ai_key (in_vault_a a)) /\
  created [VAULT_SEED_V0; ai_key (in_domain a); ASSET_B_SEED_V0] (bump_vault_b bumps)
    (ai_key (in_vault_b a)) /\
  created [FEE_VAULT_SEED_V0; ai_key (in_fee_ledger a)] (bump_fee_vault bumps)
    (ai_key (in_fee_vault a)) /\
  w' = store (store (store w
    (ai_key (in_vault_a a))
      (TokenData (new_token_account (key (in_mint_a a)) (ai_key (in_domain a)))))
    (ai_key (in_vault_b a))
      (TokenData (new_token_account (key (in_mint_b a)) (ai_key (in_domain a)))))
    (ai_key (in_fee_vault a))
      (TokenData (new_token_account (key (in_mint_a a)) (ai_key (in_fee_ledger a)))).
Proof.
  unfold initialize_accounts. intros Hi. inv_guarded.
  repeat match goal with H : init_pda _ _ _ = Ok _ |- _ => apply (init_pda_Ok Hpda) in H end.
  by split_and!.
Qed.

Lemma new_token_account_protected mint authority :
  validate_protected_token_account (new_token_account mint authority) mint authority = Ok tt.
Proof.
  unfold validate_protected_token_account, validate_common_token_account, require_core,
    require_keys_eq, key_eqb; simpl.
  by rewrite !(bool_decide_eq_true_2 _ eq_refl).
Qed.

Lemma handle_initialize_Ok a remaining args bumps m d l ev :
  handle_initialize_market_domain_v0 a remaining args bumps = Ok (m, d, l, ev) ->
  NoDup (initialize_roles a) /\ ia_engine_revision args <> 0 /\
  ai_key (in_engine_program a) <> ID /\ key (in_mint_a a) <> key (in_mint_b a) /\
  m = initial_market a args bumps /\ d = initial_domain a args bumps /\
  l = initial_fee_ledger a bumps /\ ai_owner (in_engine_state a) = ai_key (in_engine_program a).
Proof.
  unfold handle_initialize_market_domain_v0. intros Hh. inv_guarded. to_prop. by split_and!.
Qed.

Lemma initial_market_domain_valid a args bumps :
  create_program_address [MARKET_SEED_V0; ai_key (in_initializer a); ia_market_id args;
    [bump_market bumps]] ID = Some (ai_key (in_market a)) ->
  create_program_address [DOMAIN_SEED_V0; ai_key (in_market a); [bump_domain bumps]] ID =
    Some (ai_key (in_domain a)) ->
  validate_market_domain (ai_key (in_market a)) (initial_market a args bumps)
    (ai_key (in_domain a)) (initial_domain a args bumps) = Ok tt.
Proof.
  intros Pm Pd. unfold validate_market_domain, initial_market, initial_domain; simpl.
  rewrite Pm; simpl. unfold require_keys_eq, key_eqb, require_core.
  rewrite !(bool_decide_eq_true_2 _ eq_refl). simpl. rewrite Pd. simpl.
  rewrite !(bool_decide_eq_true_2 _ eq_refl). simpl. by rewrite Z.eqb_refl.
Qed.

Lemma initial_fee_ledger_valid a args bumps :
  create_program_address [FEE_LEDGER_SEED_V0; ai_key (in_market a); key (in_mint_a a);
    [bump_fee_ledger bumps]] ID = Some (ai_key (in_fee_ledger a)) ->
  validate_fee_ledger (ai_key (in_market a)) (initial_market a args bumps)
    (ai_key (in_fee_ledger a)) (initial_fee_ledger a bumps) = Ok tt.
Proof.
  intros Pl. unfold validate_fee_ledger, initial_market, initial_fee_ledger; simpl.
  unfold require_keys_eq, key_eqb. rewrite !(bool_decide_eq_true_2 _ eq_refl). simpl.
  rewrite Pl. simpl. by rewrite !(bool_decide_eq_true_2 _ eq_refl).
Qed.

(** Solve a lookup through a chain of stores at distinct keys. *)
Ltac lookup_stores :=
  unfold token_at, market_at, domain_at, fee_ledger_at; simpl;
  rewrite ?lookup_insert_ne by congruence; by rewrite lookup_insert_eq.

(** The ledger after a successful initialization. *)
Lemma initialize_ledger (Hpda : pda_law) w a remaining args w' ev :
  initialize_market_domain w a remaining args = Ok (w', ev) ->
  exists bumps,
    let market := ai_key (in_market a) in
    let domain := ai_key (in_domain a) in
    let ledger := ai_key (in_fee_ledger a) in
    let m := initial_market a args bumps in
    let d := initial_domain a args bumps in
    let l := initial_fee_ledger a bumps in
    let empty := new_token_account in
    (market_at w' market = Some m /\ domain_at w' domain = Some d /\
     fee_ledger_at w' ledger = Some l /\
     token_at w' (ai_key (in_vault_a a)) = Some (empty (key (in_mint_a a)) domain) /\
     token_at w' (ai_key (in_vault_b a)) = Some (empty (key (in_mint_b a)) domain) /\
     token_at w' (ai_key (in_fee_vault a)) = Some (empty (key (in_mint_a a)) ledger)) /\
    (validate_market_domain market m domain d = Ok tt /\
     validate_fee_ledger market m ledger l = Ok tt /\
     canonical_domain_vault domain ASSET_A_INDEX_V0 (d_vault_a_bump d) =
       Ok (ai_key (in_vault_a a)) /\
     canonical_domain_vault domain ASSET_B_INDEX_V0 (d_vault_b_bump d) =
       Ok (ai_key (in_vault_b a)) /\
     canonical_fee_vault ledger (fl_fee_vault_bump l) = Ok (ai_key (in_fee_vault a))) /\
    NoDup (initialize_roles a) /\ ia_engine_revision args <> 0 /\
    ai_key (in_engine_program a) <> ID /\ key (in_mint_a a) <> key (in_mint_b a) /\
    ai_owner (in_engine_state a) = ai_key (in_engine_program a).
Proof.
  unfold initialize_market_domain. intros Hi. inv_guarded.
  match goal with H : initialize_accounts _ _ _ = Ok ?r |- _ =>
    destruct r as [w1 bumps]; apply (initialize_accounts_Ok Hpda) in H
      as (Pm & Pd & Pl & Pa & Pb & Pf & ->) end.
  inv_guarded.
  match goal with H : handle_initialize_market_domain_v0 _ _ _ _ = Ok ?r |- _ =>
    destruct r as [[[m d] l] ev']; apply handle_initialize_Ok in H
      as (Hnd & Hrev & Hid & Hmint & -> & -> & -> & Hown) end.
  inv_guarded. exists bumps. split; [|split; [|done]].
  - assert (NoDup [ai_key (in_market a); ai_key (in_domain a); ai_key (in_fee_ledger a);
      ai_key (in_vault_a a); ai_key (in_vault_b a); ai_key (in_fee_vault a)]) as Hk.
    { eapply sublist_NoDup; [exact Hnd|]. unfold initialize_roles.
      solve_sublist. }
    rewrite !NoDup_cons, !not_elem_of_cons in Hk. destruct_and! Hk.
    simpl in *. split_and!; lookup_stores.
  - split; [by apply initial_market_domain_valid|]. split; [by apply initial_fee_ledger_valid|].
    unfold canonical_domain_vault, canonical_fee_vault; simpl.
    unfold ASSET_A_SEED_V0, ASSET_B_SEED_V0 in *. simpl in Pa, Pb, Pf. by rewrite Pa, Pb, Pf.
Qed.

(** What the handler checked of the two mints and of the engine. *)
Lemma handle_initialize_checks a remaining args bumps r :
  handle_initialize_market_domain_v0 a remaining args bumps = Ok r ->
  validate_classic_mint (key (in_mint_a a)) (acc_data (in_mint_a a)) = Ok tt /\
  validate_classic_mint (key (in_mint_b a)) (acc_data (in_mint_b a)) = Ok tt /\
  ai_executable (in_engine_program a) = true /\ ai_is_writable (in_engine_program a) = false /\
  ai_executable (in_engine_state a) = false.
Proof.
  unfold handle_initialize_market_domain_v0. intros Hh. inv_guarded.
  repeat match goal with u : unit |- _ => destruct u end. to_prop. by split_and!.
Qed.

Lemma initialize_checks w a remaining args w' ev :
  initialize_market_domain w a remaining args = Ok (w', ev) ->
  (mint_at w (key (in_mint_a a)) = Some (acc_data (in_mint_a a)) /\
   mint_at w (key (in_mint_b a)) = Some (acc_data (in_mint_b a))) /\
  validate_classic_mint (key (in_mint_a a)) (acc_data (in_mint_a a)) = Ok tt /\
  validate_classic_mint (key (in_mint_b a)) (acc_data (in_mint_b a)) = Ok tt /\
  ai_executable (in_engine_program a) = true /\ ai_is_writable (in_engine_program a) = false /\
  ai_executable (in_engine_state a) = false.
Proof.
  unfold initialize_market_domain. intros Hi. inv_guarded.
  match goal with H : initialize_accounts _ _ _ = Ok ?r |- _ =>
    destruct r as [w1 bumps]; unfold initialize_accounts in H end.
  inv_guarded. to_prop.
  repeat match goal with H : is_account _ _ _ _ = true |- _ => apply is_account_loaded in H end.
  split; [done|]. by eapply handle_initialize_checks.
Qed.

(** C27. What a successful initialization establishes. The stored market, domain
    and fee ledger name exactly the supplied initializer, market id, engine,
    engine state, revision and mints, at the protocol's fee rate; they pass
    [validate_market_domain] and [validate_fee_ledger] at their canonical PDAs;
    the three vaults are the canonical ones, pass the protected-account check and
    are empty, and the three books are zero; the mints are two different classic
    mints, and the engine is an executable read-only program other than Core that
    owns the non-executable engine state, with a nonzero revision. *)
Theorem initialize_establishes (Hpda : pda_law) w a remaining args w' ev :
  initialize_market_domain w a remaining args = Ok (w', ev) ->
  let market := ai_key (in_market a) in
  let domain := ai_key (in_domain a) in
  let ledger := ai_key (in_fee_ledger a) in
  let engine := in_engine_program a in
  let state := in_engine_state a in
  exists m d l va vb vf,
    (market_at w' market = Some m /\ domain_at w' domain = Some d /\
     fee_ledger_at w' ledger = Some l /\
     token_at w' (ai_key (in_vault_a a)) = Some va /\
     token_at w' (ai_key (in_vault_b a)) = Some vb /\
     token_at w' (ai_key (in_fee_vault a)) = Some vf) /\
    (m_initializer m = ai_key (in_initializer a) /\ m_market_id m = ia_market_id args /\
     m_engine_program m = ai_key engine /\ m_engine_state m = ai_key state /\
     m_engine_revision m = ia_engine_revision args /\
     m_mint_a m = key (in_mint_a a) /\ m_mint_b m = key (in_mint_b a) /\
     m_fee_bps m = PROTOCOL_FEE_BPS_V0 /\ m_fee_policy_revision m = FEE_POLICY_REVISION_V0 /\
     d_market d = market /\ d_engine_program d = ai_key engine /\ d_engine_state d = ai_key state /\
     d_engine_revision d = ia_engine_revision args /\
     fl_market l = market /\ fl_mint_a l = key (in_mint_a a)) /\
    (validate_market_domain market m domain d = Ok tt /\
     validate_fee_ledger market m ledger l = Ok tt /\
     canonical_domain_vault domain ASSET_A_INDEX_V0 (d_vault_a_bump d) =
       Ok (ai_key (in_vault_a a)) /\
     canonical_domain_vault domain ASSET_B_INDEX_V0 (d_vault_b_bump d) =
       Ok (ai_key (in_vault_b a)) /\
     canonical_fee_vault ledger (fl_fee_vault_bump l) = Ok (ai_key (in_fee_vault a)) /\
     validate_protected_token_account va (m_mint_a m) domain = Ok tt /\
     validate_protected_token_account vb (m_mint_b m) domain = Ok tt /\
     validate_protected_token_account vf (m_mint_a m) ledger = Ok tt) /\
    (ta_amount va = 0 /\ ta_amount vb = 0 /\ ta_amount vf = 0 /\
     d_accounted_a d = 0 /\ d_accounted_b d = 0 /\ fl_accounted_fee_a l = 0) /\
    (m_mint_a m <> m_mint_b m /\
     mint_at w (m_mint_a m) = Some (acc_data (in_mint_a a)) /\
     mint_at w (m_mint_b m) = Some (acc_data (in_mint_b a)) /\
     validate_classic_mint (m_mint_a m) (acc_data (in_mint_a a)) = Ok tt /\
     validate_classic_mint (m_mint_b m) (acc_data (in_mint_b a)) = Ok tt) /\
    (ai_executable engine = true /\ ai_is_writable engine = false /\ ai_key engine <> ID /\
     ai_executable state = false /\ ai_owner state = ai_key engine /\
     ia_engine_revision args <> 0).
Proof.
  intros Hi. pose proof (initialize_checks _ _ _ _ _ _ Hi) as ([Da Db] & Ma & Mb & Hx & Hro & Hsx).
  apply (initialize_ledger Hpda) in Hi as (bumps & (Lm & Ld & Ll & La & Lb & Lf) &
    (Vm & Vl & Va & Vb & Vf) & _ & Hrev & Hid & Hmint & Hown). simpl in *.
  do 6 eexists. split; [by split_and!|]. split; [by split_and!|].
  split; [split_and!; try eassumption; apply new_token_account_protected|]. by split_and!.
Qed.

(** The [IdenticalMints] guard is dead: two equal mints are already two
    equal roles, so the handler answers [DuplicateAccountRole], and no input
    makes it answer [IdenticalMints]. *)
Theorem identical_mints_unreachable a args bumps :
  (key (in_mint_a a) = key (in_mint_b a) ->
   handle_initialize_market_domain_v0 a [] args bumps = Err (Core DuplicateAccountRole)) /\
  (forall remaining,
   handle_initialize_market_domain_v0 a remaining args bumps <> Err (Core IdenticalMints)).
Proof.
  split.
  - intros Heq. unfold handle_initialize_market_domain_v0. simpl.
    rewrite (duplicate_roles_rejected _ 4 5 (key (in_mint_a a))); [reflexivity | done..|].
    by rewrite Heq.
  - intros remaining Hh. unfold handle_initialize_market_domain_v0 in Hh.
    apply bind_Err in Hh as [Hh|(? & _ & Hh)].
    { by apply require_core_Err in Hh as [_ ?]. }
    apply bind_Err in Hh as [Hh|(? & Hd & Hh)].
    { by apply ensure_distinct_roles_Err in Hh as [? _]. }
    apply ensure_distinct_roles_Ok in Hd. distinct_entries Hd 4%nat 5%nat.
    repeat (apply bind_Err in Hh as [Hh|(? & _ & Hh)];
      [first [apply require_keys_neq_Err in Hh as [? ?]; congruence
             |apply require_keys_eq_Err in Hh as [? ?]; congruence
             |apply require_core_Err in Hh as [? ?]; congruence
             |apply validate_classic_mint_Err in Hh; naive_solver] |]).
    discriminate Hh.
Qed.
End Initialize.

Definition initialize_example_runtime : Runtime := reference_runtime no_callee.
Definition initialize_example (C : CoreConfig) : InitializeMarketDomainV0 :=
  let _ := initialize_example_runtime in
  let created k := test_account k system_program_ID false true false in {|
  in_initializer := test_account user_k system_program_ID true true false;
  in_market := created market_k; in_domain := created domain_k;
  in_fee_ledger := created fee_ledger_k; in_mint_a := mint_a_account;
  in_mint_b := mint_b_account; in_vault_a := created vault_a_k; in_vault_b := created vault_b_k;
  in_fee_vault := created fee_vault_k;
  in_engine_program := test_account engine_k system_program_ID false false true;
  in_engine_state := test_account engine_state_k engine_k false false false;
  in_token_program := token_program_info;
  in_system_program := test_account system_program_ID system_program_ID false false true |}.
Definition initialize_example_world : World := {|
  w_slot := 0; w_stack_height := 1; w_return_data := None;
  w_accounts := list_to_map [
    (mint_a_k, MintData (test_mint 6)); (mint_b_k, MintData (test_mint 9))] |}.

Lemma reference_pda_law callee : @pda_law (reference_runtime callee).
Proof. intros seeds program k bump [= <- <-]. reflexivity. Qed.

Lemma initialize_establishes_witness :
  let _ := initialize_example_runtime in let _ := routed_config in
  exists w' ev m,
    initialize_market_domain initialize_example_world (initialize_example routed_config) []
      {| ia_market_id := test_key 9; ia_engine_revision := 3 |} = Ok (w', ev) /\
    market_at w' market_k = Some m /\ m_engine_state m = engine_state_k /\ m_mint_a m <> m_mint_b m.
Proof.
  intros rt cfg.
  destruct (is_ok_Ok (initialize_market_domain initialize_example_world
    (initialize_example routed_config) []
    {| ia_market_id := test_key 9; ia_engine_revision := 3 |})) as [[w' ev] E];
    [vm_compute; reflexivity|].
  destruct (initialize_establishes (reference_pda_law no_callee) _ _ _ _ _ _ E)
    as (m & d & l & va & vb & vf & (Hm & _) & (_ & _ & _ & Hs & _) & _ & _ & (Hne & _) & _).
  exists w', ev, m. by split_and!.
Defined.
