(* ===== verification/GeneratedWire.v ===== *)
(** * crates/generated-settlement-probe-wire: the engine-generated codec

    The request binding whose hash names a settlement request, the request sent
    to the engine with its opaque payload, the receipt in which the engine
    chooses the output, and the hashes of capabilities and payloads. *)
From S2P Require Import Prelude Codec CoreState Solana Validation Capability.

Definition CAPABILITY_PREFIX_ACCOUNTS : nat := 2.
Definition MAX_CAPABILITY_DESCRIPTORS : nat := (CAPABILITY_PREFIX_ACCOUNTS + MAX_OPAQUE_ACCOUNTS)%nat.
Definition EVALUATE_DISCRIMINATOR : list Z := [0xb3; 0xd3; 0x8e; 0xb7; 0x6c; 0x68; 0x14; 0xd6].
Definition RECEIPT_MAGIC : list Z := bytes_of_string "PMBGSR00".
Definition CAPABILITY_HASH_DOMAIN : list Z :=
  bytes_of_string "programmable:generated-settlement:capability:v0".
Definition PAYLOAD_HASH_DOMAIN : list Z :=
  bytes_of_string "programmable:generated-settlement:payload:v0".
Definition REQUEST_HASH_DOMAIN : list Z :=
  bytes_of_string "programmable:generated-settlement:request:v0".

Definition REQUEST_BINDING_LEN : nat := (1 + 15 * 32 + 11 * 8 + 2 * 32)%nat.
Definition ENGINE_REQUEST_LEN : nat :=
  (1 + 32 + 2 * 32 + 4 * 8 + 2 + 32 + 2 + MAX_OPAQUE_PAYLOAD_LEN)%nat.
Definition EVALUATE_INSTRUCTION_LEN : nat := (8 + ENGINE_REQUEST_LEN)%nat.
Definition ENGINE_RECEIPT_LEN : nat := (8 + 1 + 32 + 2 * 8)%nat.

Record RequestBinding := {
  rb_core_program : Pubkey;
  rb_market : Pubkey;
  rb_domain : Pubkey;
  rb_engine_program : Pubkey;
  rb_engine_state : Pubkey;
  rb_user_authority : Pubkey;
  rb_user_input : Pubkey;
  rb_user_output : Pubkey;
  rb_mint_in : Pubkey;
  rb_mint_out : Pubkey;
  rb_domain_input_vault : Pubkey;
  rb_domain_output_vault : Pubkey;
  rb_protocol_fee_vault : Pubkey;
  rb_fee_ledger : Pubkey;
  rb_token_program : Pubkey;
  rb_engine_revision : Z;
  rb_fee_policy_revision : Z;
  rb_amount_in : Z;
  rb_protocol_fee : Z;
  rb_max_total_input_debit : Z;
  rb_min_output_credit : Z;
  rb_max_protocol_fee : Z;
  rb_accounted_input_before : Z;
  rb_accounted_output_before : Z;
  rb_accounted_fee_before : Z;
  rb_expires_at_slot : Z;
  rb_capability_hash : list Z;
  rb_payload_hash : list Z }.

Record EngineRequest := {
  gq_request_hash : list Z;
  gq_market : Pubkey;
  gq_domain : Pubkey;
  gq_engine_revision : Z;
  gq_amount_in : Z;
  gq_accounted_input_before : Z;
  gq_accounted_output_before : Z;
  gq_opaque_account_count : Z;
  gq_capability_hash : list Z;
  gq_payload_len : Z;
  gq_payload : list Z }.

Record EngineReceipt := {
  gr_request_hash : list Z;
  gr_amount_out : Z;
  gr_state_sequence : Z }.

(** ** Hashes of capabilities and payloads *)

Definition compute_capability_hash `{Hasher} (engine_program : Pubkey)
    (descriptors : list CapabilityDescriptor) : outcome CodecError (list Z) :=
  capability_hash_with CAPABILITY_HASH_DOMAIN MAX_CAPABILITY_DESCRIPTORS engine_program descriptors.

Definition compute_payload_hash `{Hasher} (payload : list Z) : outcome CodecError (list Z) :=
  payload_hash_with PAYLOAD_HASH_DOMAIN payload.

(** ** Encoders and decoders *)

Definition encode_request_binding (b : RequestBinding) : outcome CodecError (list Z) :=
  run_writer REQUEST_BINDING_LEN (
    put_u8 PROBE_WIRE_VERSION ;>
    put_pubkey (rb_core_program b) ;>
    put_pubkey (rb_market b) ;>
    put_pubkey (rb_domain b) ;>
    put_pubkey (rb_engine_program b) ;>
    put_pubkey (rb_engine_state b) ;>
    put_pubkey (rb_user_authority b) ;>
    put_pubkey (rb_user_input b) ;>
    put_pubkey (rb_user_output b) ;>
    put_pubkey (rb_mint_in b) ;>
    put_pubkey (rb_mint_out b) ;>
    put_pubkey (rb_domain_input_vault b) ;>
    put_pubkey (rb_domain_output_vault b) ;>
    put_pubkey (rb_protocol_fee_vault b) ;>
    put_pubkey (rb_fee_ledger b) ;>
    put_pubkey (rb_token_program b) ;>
    put_u64 (rb_engine_revision b) ;>
    put_u64 (rb_fee_policy_revision b) ;>
    put_u64 (rb_amount_in b) ;>
    put_u64 (rb_protocol_fee b) ;>
    put_u64 (rb_max_total_input_debit b) ;>
    put_u64 (rb_min_output_credit b) ;>
    put_u64 (rb_max_protocol_fee b) ;>
    put_u64 (rb_accounted_input_before b) ;>
    put_u64 (rb_accounted_output_before b) ;>
    put_u64 (rb_accounted_fee_before b) ;>
    put_u64 (rb_expires_at_slot b) ;>
    put_bytes (rb_capability_hash b) ;>
    put_bytes (rb_payload_hash b)).

Definition request_binding_fields : reader RequestBinding :=
  core_program ← read_pubkey;
  market ← read_pubkey;
  domain ← read_pubkey;
  engine_program ← read_pubkey;
  engine_state ← read_pubkey;
  user_authority ← read_pubkey;
  user_input ← read_pubkey;
  user_output ← read_pubkey;
  mint_in ← read_pubkey;
  mint_out ← read_pubkey;
  domain_input_vault ← read_pubkey;
  domain_output_vault ← read_pubkey;
  protocol_fee_vault ← read_pubkey;
  fee_ledger ← read_pubkey;
  token_program ← read_pubkey;
  engine_revision ← read_u64;
  fee_policy_revision ← read_u64;
  amount_in ← read_u64;
  protocol_fee ← read_u64;
  max_total_input_debit ← read_u64;
  min_output_credit ← read_u64;
  max_protocol_fee ← read_u64;
  accounted_input_before ← read_u64;
  accounted_output_before ← read_u64;
  accounted_fee_before ← read_u64;
  expires_at_slot ← read_u64;
  capability_hash ← read_array 32;
  payload_hash ← read_array 32;
  mret {| rb_core_program := core_program; rb_market := market; rb_domain := domain; 
          rb_engine_program := engine_program; rb_engine_state := engine_state; 
          rb_user_authority := user_authority; rb_user_input := user_input; 
          rb_user_output := user_output; rb_mint_in := mint_in; rb_mint_out := mint_out; 
          rb_domain_input_vault := domain_input_vault; 
          rb_domain_output_vault := domain_output_vault; 
          rb_protocol_fee_vault := protocol_fee_vault; rb_fee_ledger := fee_ledger; 
          rb_token_program := token_program; rb_engine_revision := engine_revision; 
          rb_fee_policy_revision := fee_policy_revision; rb_amount_in := amount_in; 
          rb_protocol_fee := protocol_fee; rb_max_total_input_debit := max_total_input_debit; 
          rb_min_output_credit := min_output_credit; rb_max_protocol_fee := max_protocol_fee; 
          rb_accounted_input_before := accounted_input_before; 
          rb_accounted_output_before := accounted_output_before; 
          rb_accounted_fee_before := accounted_fee_before; rb_expires_at_slot := expires_at_slot; 
          rb_capability_hash := capability_hash; rb_payload_hash := payload_hash  |}.
Definition read_request_binding : reader RequestBinding :=
  version ← read_u8; _ ← lift (require_version version); request_binding_fields.

Definition decode_request_binding (data : list Z) : outcome CodecError RequestBinding :=
  _ ← require_length data REQUEST_BINDING_LEN;
  run_reader REQUEST_BINDING_LEN read_request_binding data.

Definition compute_request_hash `{Hasher} (b : RequestBinding) : outcome CodecError (list Z) :=
  encoded ← encode_request_binding b;
  Ok (hashv [REQUEST_HASH_DOMAIN; encoded]).

Definition validate_engine_request (r : EngineRequest) : outcome CodecError unit :=
  validate_payload_fields (gq_opaque_account_count r) (gq_payload_len r) (gq_payload r).

(** [EngineRequest::new] *)
Definition new_engine_request (request_hash : list Z) (market domain : Pubkey)
    (engine_revision amount_in accounted_input_before accounted_output_before
     opaque_account_count : Z) (capability_hash payload : list Z)
    : outcome CodecError EngineRequest :=
  _ ← validate_opaque_account_count opaque_account_count;
  '(payload_len, payload) ← canonical_payload payload;
  Ok {| gq_request_hash := request_hash; gq_market := market; gq_domain := domain;
        gq_engine_revision := engine_revision; gq_amount_in := amount_in;
        gq_accounted_input_before := accounted_input_before;
        gq_accounted_output_before := accounted_output_before;
        gq_opaque_account_count := opaque_account_count;
        gq_capability_hash := capability_hash; gq_payload_len := payload_len;
        gq_payload := payload |}.

Definition payload_bytes (r : EngineRequest) : outcome CodecError (list Z) :=
  _ ← validate_engine_request r;
  Ok (take (Z.to_nat (gq_payload_len r)) (gq_payload r)).

Definition encode_request (r : EngineRequest) : outcome CodecError (list Z) :=
  _ ← validate_engine_request r;
  run_writer ENGINE_REQUEST_LEN (
    put_u8 PROBE_WIRE_VERSION ;>
    put_bytes (gq_request_hash r) ;>
    put_pubkey (gq_market r) ;>
    put_pubkey (gq_domain r) ;>
    put_u64 (gq_engine_revision r) ;>
    put_u64 (gq_amount_in r) ;>
    put_u64 (gq_accounted_input_before r) ;>
    put_u64 (gq_accounted_output_before r) ;>
    put_u16 (gq_opaque_account_count r) ;>
    put_bytes (gq_capability_hash r) ;>
    put_u16 (gq_payload_len r) ;>
    put_bytes (gq_payload r)).

Definition engine_request_fields : reader EngineRequest :=
  request_hash ← read_array 32;
  market ← read_pubkey;
  domain ← read_pubkey;
  engine_revision ← read_u64;
  amount_in ← read_u64;
  accounted_input_before ← read_u64;
  accounted_output_before ← read_u64;
  opaque_account_count ← read_u16;
  capability_hash ← read_array 32;
  payload_len ← read_u16;
  payload ← read_array MAX_OPAQUE_PAYLOAD_LEN;
  mret {| gq_request_hash := request_hash; gq_market := market; gq_domain := domain; 
          gq_engine_revision := engine_revision; gq_amount_in := amount_in; 
          gq_accounted_input_before := accounted_input_before; 
          gq_accounted_output_before := accounted_output_before; 
          gq_opaque_account_count := opaque_account_count; gq_capability_hash := capability_hash; 
          gq_payload_len := payload_len; gq_payload := payload  |}.
Definition read_engine_request : reader EngineRequest :=
  version ← read_u8; _ ← lift (require_version version); engine_request_fields.

Definition decode_request (data : list Z) : outcome CodecError EngineRequest :=
  request ← (_ ← require_length data ENGINE_REQUEST_LEN;
             run_reader ENGINE_REQUEST_LEN read_engine_request data);
  _ ← validate_engine_request request;
  Ok request.

Definition encode_evaluate_instruction (r : EngineRequest) : outcome CodecError (list Z) :=
  encoded ← encode_request r;
  run_writer EVALUATE_INSTRUCTION_LEN (put_bytes EVALUATE_DISCRIMINATOR ;> put_bytes encoded).

Definition decode_evaluate_instruction (data : list Z) : outcome CodecError EngineRequest :=
  _ ← require_length data EVALUATE_INSTRUCTION_LEN;
  if bool_decide (take 8 data = EVALUATE_DISCRIMINATOR)
  then decode_request (drop 8 data)
  else Err InvalidDiscriminator.

Definition encode_receipt (r : EngineReceipt) : outcome CodecError (list Z) :=
  run_writer ENGINE_RECEIPT_LEN (
    put_bytes RECEIPT_MAGIC ;>
    put_u8 PROBE_WIRE_VERSION ;>
    put_bytes (gr_request_hash r) ;>
    put_u64 (gr_amount_out r) ;>
    put_u64 (gr_state_sequence r)).

Definition receipt_fields : reader EngineReceipt :=
  request_hash ← read_array 32;
  amount_out ← read_u64;
  state_sequence ← read_u64;
  mret {| gr_request_hash := request_hash; gr_amount_out := amount_out; 
          gr_state_sequence := state_sequence  |}.
Definition read_receipt : reader EngineReceipt :=
  magic ← read_array 8;
  _ ← lift (require (bool_decide (magic = RECEIPT_MAGIC)) InvalidMagic);
  version ← read_u8;
  _ ← lift (require_version version);
  receipt_fields.

Definition decode_receipt (data : list Z) : outcome CodecError EngineReceipt :=
  _ ← require_length data ENGINE_RECEIPT_LEN;
  run_reader ENGINE_RECEIPT_LEN read_receipt data.

(** ** Well-formed values and layouts *)

Definition request_binding_wf (b : RequestBinding) : Prop :=
  Forall (byte_string 32)
    [rb_core_program b; rb_market b; rb_domain b; rb_engine_program b; rb_engine_state b; 
    rb_user_authority b; rb_user_input b; rb_user_output b; rb_mint_in b; rb_mint_out b; 
    rb_domain_input_vault b; rb_domain_output_vault b; rb_protocol_fee_vault b; rb_fee_ledger b; 
    rb_token_program b; rb_capability_hash b; rb_payload_hash b]  /\
  Forall is_u64
    [rb_engine_revision b; rb_fee_policy_revision b; rb_amount_in b; rb_protocol_fee b; 
    rb_max_total_input_debit b; rb_min_output_credit b; rb_max_protocol_fee b; 
    rb_accounted_input_before b; rb_accounted_output_before b; rb_accounted_fee_before b; 
    rb_expires_at_slot b] .

#[export] Instance request_binding_wf_dec b : Decision (request_binding_wf b).
Proof. unfold request_binding_wf. apply _. Defined.

Definition engine_request_wf (r : EngineRequest) : Prop :=
  Forall (byte_string 32)
    [gq_request_hash r; gq_market r; gq_domain r; gq_capability_hash r]  /\
  Forall is_u64
    [gq_engine_revision r; gq_amount_in r; gq_accounted_input_before r; 
    gq_accounted_output_before r]  /\
  Forall is_u16 [gq_opaque_account_count r; gq_payload_len r] /\
  Forall (byte_string MAX_OPAQUE_PAYLOAD_LEN) [gq_payload r].

#[export] Instance engine_request_wf_dec r : Decision (engine_request_wf r).
Proof. unfold engine_request_wf. apply _. Defined.

Definition engine_receipt_wf (r : EngineReceipt) : Prop :=
  Forall (byte_string 32)
    [gr_request_hash r]  /\
  Forall is_u64
    [gr_amount_out r; gr_state_sequence r] .

#[export] Instance engine_receipt_wf_dec r : Decision (engine_receipt_wf r).
Proof. unfold engine_receipt_wf. apply _. Defined.

Definition request_binding_layout (b : RequestBinding) : list Z :=
  [PROBE_WIRE_VERSION] ++ rb_core_program b ++ rb_market b ++ rb_domain b ++ 
  rb_engine_program b ++ rb_engine_state b ++ rb_user_authority b ++ rb_user_input b ++ 
  rb_user_output b ++ rb_mint_in b ++ rb_mint_out b ++ rb_domain_input_vault b ++ 
  rb_domain_output_vault b ++ rb_protocol_fee_vault b ++ rb_fee_ledger b ++ rb_token_program b ++ 
  to_le_bytes 8 (rb_engine_revision b) ++ to_le_bytes 8 (rb_fee_policy_revision b) ++ 
  to_le_bytes 8 (rb_amount_in b) ++ to_le_bytes 8 (rb_protocol_fee b) ++ 
  to_le_bytes 8 (rb_max_total_input_debit b) ++ to_le_bytes 8 (rb_min_output_credit b) ++ 
  to_le_bytes 8 (rb_max_protocol_fee b) ++ to_le_bytes 8 (rb_accounted_input_before b) ++ 
  to_le_bytes 8 (rb_accounted_output_before b) ++ to_le_bytes 8 (rb_accounted_fee_before b) ++ 
  to_le_bytes 8 (rb_expires_at_slot b) ++ rb_capability_hash b ++ rb_payload_hash b .

Definition engine_request_layout (r : EngineRequest) : list Z :=
  [PROBE_WIRE_VERSION] ++ gq_request_hash r ++ gq_market r ++ gq_domain r ++ 
  to_le_bytes 8 (gq_engine_revision r) ++ to_le_bytes 8 (gq_amount_in r) ++ 
  to_le_bytes 8 (gq_accounted_input_before r) ++ to_le_bytes 8 (gq_accounted_output_before r) ++ 
  to_le_bytes 2 (gq_opaque_account_count r) ++ gq_capability_hash r ++ 
  to_le_bytes 2 (gq_payload_len r) ++ gq_payload r .

Definition engine_receipt_layout (r : EngineReceipt) : list Z :=
  RECEIPT_MAGIC ++ [PROBE_WIRE_VERSION] ++ gr_request_hash r ++ 
  to_le_bytes 8 (gr_amount_out r) ++ to_le_bytes 8 (gr_state_sequence r) .

Lemma request_binding_length b : request_binding_wf b -> length (request_binding_layout b) = REQUEST_BINDING_LEN.
Proof. intros Hwf. unfold request_binding_wf, request_binding_layout in *. unpack. layout_length. Qed.

Lemma read_request_binding_reads b : request_binding_wf b -> Reads read_request_binding (request_binding_layout b) b.
Proof.
  intros Hwf. unfold request_binding_wf in Hwf. destruct b; simpl in Hwf. unpack.
  unfold read_request_binding, request_binding_fields, request_binding_layout;
    cbn [rb_core_program rb_market rb_domain rb_engine_program rb_engine_state rb_user_authority
    rb_user_input rb_user_output rb_mint_in rb_mint_out rb_domain_input_vault
    rb_domain_output_vault rb_protocol_fee_vault rb_fee_ledger rb_token_program
    rb_engine_revision rb_fee_policy_revision rb_amount_in rb_protocol_fee
    rb_max_total_input_debit rb_min_output_credit rb_max_protocol_fee rb_accounted_input_before
    rb_accounted_output_before rb_accounted_fee_before rb_expires_at_slot rb_capability_hash
    rb_payload_hash].
  repeat reads_step.
Qed.

Lemma request_binding_split data :
  length data = REQUEST_BINDING_LEN -> Forall is_u8 data ->
  exists v rest, data = [v] ++ rest /\
    (v = PROBE_WIRE_VERSION -> exists a, request_binding_wf a /\ data = request_binding_layout a).
Proof.
  intros Hl Hb. peel u8 v. exists v, rest. split; [reflexivity|]. intros ->.
  peel bytes 32%nat f0. peel bytes 32%nat f1. peel bytes 32%nat f2. peel bytes 32%nat f3. 
  peel bytes 32%nat f4. peel bytes 32%nat f5. peel bytes 32%nat f6. peel bytes 32%nat f7. 
  peel bytes 32%nat f8. peel bytes 32%nat f9. peel bytes 32%nat f10. peel bytes 32%nat f11. 
  peel bytes 32%nat f12. peel bytes 32%nat f13. peel bytes 32%nat f14. peel u64 f15. 
  peel u64 f16. peel u64 f17. peel u64 f18. peel u64 f19. peel u64 f20. peel u64 f21. 
  peel u64 f22. peel u64 f23. peel u64 f24. peel u64 f25. peel bytes 32%nat f26. 
  peel bytes 32%nat f27. 
  peel_end. exists (Build_RequestBinding f0 f1 f2 f3 f4 f5 f6 f7 f8 f9 f10 f11 f12 f13 f14 f15 f16 f17 f18 f19 f20 f21 f22 f23 f24 f25 f26 f27).
  split; [solve_wf|]. by rewrite app_nil_r.
Qed.

Lemma generated_engine_request_length r : engine_request_wf r -> length (engine_request_layout r) = ENGINE_REQUEST_LEN.
Proof. intros Hwf. unfold engine_request_wf, engine_request_layout in *. unpack. layout_length. Qed.

Lemma read_engine_request_reads r : engine_request_wf r -> Reads read_engine_request (engine_request_layout r) r.
Proof.
  intros Hwf. unfold engine_request_wf in Hwf. destruct r; simpl in Hwf. unpack.
  unfold read_engine_request, engine_request_fields, engine_request_layout;
    cbn [gq_request_hash gq_market gq_domain gq_engine_revision gq_amount_in gq_accounted_input_before
    gq_accounted_output_before gq_opaque_account_count gq_capability_hash gq_payload_len
    gq_payload].
  repeat reads_step.
Qed.

Lemma generated_engine_request_split data :
  length data = ENGINE_REQUEST_LEN -> Forall is_u8 data ->
  exists v rest, data = [v] ++ rest /\
    (v = PROBE_WIRE_VERSION -> exists a, engine_request_wf a /\ data = engine_request_layout a).
Proof.
  intros Hl Hb. peel u8 v. exists v, rest. split; [reflexivity|]. intros ->.
  peel bytes 32%nat f0. peel bytes 32%nat f1. peel bytes 32%nat f2. peel u64 f3. peel u64 f4. 
  peel u64 f5. peel u64 f6. peel u16 f7. peel bytes 32%nat f8. peel u16 f9. 
  peel bytes 128%nat f10. 
  peel_end. exists (Build_EngineRequest f0 f1 f2 f3 f4 f5 f6 f7 f8 f9 f10).
  split; [solve_wf|]. by rewrite app_nil_r.
Qed.

Lemma encode_request_binding_ok b :
  request_binding_wf b -> encode_request_binding b = Ok (request_binding_layout b).
Proof.
  intros Hwf. apply run_writer_ok; [apply _|]. by apply request_binding_length.
Qed.

Lemma request_binding_layout_inj b1 b2 :
  request_binding_wf b1 -> request_binding_wf b2 ->
  request_binding_layout b1 = request_binding_layout b2 -> b1 = b2.
Proof.
  intros W1 W2 Heq. pose proof (run_reader_ok REQUEST_BINDING_LEN _ _ _
    (read_request_binding_reads b1 W1) (request_binding_length b1 W1)) as R1.
  pose proof (run_reader_ok REQUEST_BINDING_LEN _ _ _
    (read_request_binding_reads b2 W2) (request_binding_length b2 W2)) as R2.
  rewrite Heq, R2 in R1. by apply Ok_inj in R1.
Qed.

Definition request_preimage (b : RequestBinding) : list (list Z) :=
  [REQUEST_HASH_DOMAIN; request_binding_layout b].

Lemma compute_request_hash_ok `{Hasher} b :
  request_binding_wf b -> compute_request_hash b = Ok (hashv (request_preimage b)).
Proof. intros Hb. unfold compute_request_hash. by rewrite encode_request_binding_ok. Qed.

Lemma request_hash_injective `{Hasher} b1 b2 h :
  request_binding_wf b1 -> request_binding_wf b2 ->
  compute_request_hash b1 = Ok h -> compute_request_hash b2 = Ok h ->
  b1 = b2 \/ sha256_collision (request_preimage b1) (request_preimage b2).
Proof.
  intros W1 W2. rewrite !compute_request_hash_ok by done.
  intros H1%Ok_inj H2%Ok_inj. destruct (hashv_binds (request_preimage b1) (request_preimage b2))
    as [Heq|]; [congruence|left|by right].
  unfold request_preimage in Heq. rewrite !concat_pair in Heq.
  apply request_binding_layout_inj; auto. by eapply app_inv_head.
Qed.

(** ** The engine request *)

Definition engine_request_valid (r : EngineRequest) : Prop :=
  gq_opaque_account_count r <= 8 /\ gq_payload_len r <= 128 /\
  Forall (fun b => b = 0) (drop (Z.to_nat (gq_payload_len r)) (gq_payload r)).

Lemma generated_validate_engine_request_Ok r u :
  validate_engine_request r = Ok u <-> engine_request_valid r.
Proof. apply validate_payload_fields_Ok. Qed.

Lemma encode_request_layout r data :
  engine_request_wf r ->
  encode_request r = Ok data <-> engine_request_valid r /\ engine_request_layout r = data.
Proof.
  intros Hwf. unfold encode_request. split.
  - intros (u & Hv%generated_validate_engine_request_Ok & Hd)%bind_Ok. split; [done|].
    apply (Ok_inj (E:=CodecError)). rewrite <- Hd. symmetry.
    apply run_writer_ok; [apply _ | by apply generated_engine_request_length].
  - intros [Hv <-]. rewrite (proj2 (generated_validate_engine_request_Ok r tt) Hv), bind_ret_l.
    apply run_writer_ok; [apply _ | by apply generated_engine_request_length].
Qed.

Lemma generated_decode_request_layout data r :
  Forall is_u8 data ->
  decode_request data = Ok r <->
    engine_request_wf r /\ engine_request_valid r /\ engine_request_layout r = data.
Proof.
  intros Hb. unfold decode_request. rewrite bind_Ok.
  setoid_rewrite (versioned_decode_iff ENGINE_REQUEST_LEN engine_request_fields engine_request_wf
    engine_request_layout read_engine_request_reads generated_engine_request_length generated_engine_request_split
    data _ Hb).
  setoid_rewrite bind_Ok. setoid_rewrite generated_validate_engine_request_Ok. split.
  - intros (r' & [Hwf Hl] & _ & Hv & [= ->]). auto.
  - intros (Hwf & Hv & Hl). exists r. split; [done|]. by exists tt.
Qed.

Lemma generated_decode_request_ok r :
  engine_request_wf r -> engine_request_valid r -> decode_request (engine_request_layout r) = Ok r.
Proof.
  intros Hwf Hval. unfold decode_request.
  rewrite (proj2 (require_length_Ok _ _ tt) (generated_engine_request_length r Hwf)), bind_ret_l.
  rewrite (run_reader_ok _ _ _ r (read_engine_request_reads r Hwf)
    (generated_engine_request_length r Hwf)), bind_ret_l.
  by rewrite (proj2 (generated_validate_engine_request_Ok r tt) Hval).
Qed.

Lemma evaluate_instruction_roundtrip r :
  engine_request_wf r -> engine_request_valid r ->
  exists data, encode_evaluate_instruction r = Ok data /\ decode_evaluate_instruction data = Ok r.
Proof.
  intros Hwf Hval.
  pose proof (proj2 (encode_request_layout r _ Hwf) (conj Hval eq_refl)) as Henc.
  assert (length (EVALUATE_DISCRIMINATOR ++ engine_request_layout r) = EVALUATE_INSTRUCTION_LEN)
    as Hlen by (by rewrite length_app, generated_engine_request_length).
  exists (EVALUATE_DISCRIMINATOR ++ engine_request_layout r). split.
  - unfold encode_evaluate_instruction. rewrite Henc, bind_ret_l. by apply write_pair_ok.
  - unfold decode_evaluate_instruction.
    rewrite (proj2 (require_length_Ok _ _ tt) Hlen), bind_ret_l.
    change (take 8 (EVALUATE_DISCRIMINATOR ++ engine_request_layout r))
      with EVALUATE_DISCRIMINATOR. rewrite bool_decide_eq_true_2 by done.
    by apply (generated_decode_request_ok r).
Qed.

Lemma encode_evaluate_layout r data :
  engine_request_wf r -> encode_evaluate_instruction r = Ok data ->
  engine_request_valid r /\ data = EVALUATE_DISCRIMINATOR ++ engine_request_layout r.
Proof.
  intros Hwf. unfold encode_evaluate_instruction.
  intros (enc & [Hv <-]%(encode_request_layout r enc Hwf) & Hd)%bind_Ok. split; [done|].
  rewrite write_pair_ok in Hd by (by rewrite length_app, generated_engine_request_length).
  by apply Ok_inj in Hd.
Qed.

(** ** The receipt *)

Lemma generated_engine_receipt_length r :
  engine_receipt_wf r -> length (engine_receipt_layout r) = ENGINE_RECEIPT_LEN.
Proof. intros Hwf. unfold engine_receipt_wf, engine_receipt_layout in *. unpack. layout_length. Qed.

Lemma generated_read_receipt_reads r : engine_receipt_wf r -> Reads read_receipt (engine_receipt_layout r) r.
Proof.
  intros Hwf. unfold engine_receipt_wf in Hwf. destruct r; simpl in Hwf. unpack.
  unfold read_receipt, receipt_fields, engine_receipt_layout;
    cbn [gr_request_hash gr_amount_out gr_state_sequence].
  repeat reads_step.
Qed.

Lemma generated_engine_receipt_split data :
  length data = ENGINE_RECEIPT_LEN -> Forall is_u8 data ->
  exists magic v rest, data = magic ++ [v] ++ rest /\ length magic = 8%nat /\
    (magic = RECEIPT_MAGIC -> v = PROBE_WIRE_VERSION ->
     exists r, engine_receipt_wf r /\ data = engine_receipt_layout r).
Proof.
  intros Hl Hb. peel bytes 8%nat magic. peel u8 v. exists magic, v, rest0.
  split; [reflexivity|]. split; [apply Hmagic|]. intros -> ->.
  peel bytes 32%nat h. peel u64 a. peel u64 s. peel_end. exists (Build_EngineReceipt h a s).
  split; [solve_wf|]. by rewrite app_nil_r.
Qed.

Lemma generated_decode_receipt_ok r :
  engine_receipt_wf r -> decode_receipt (engine_receipt_layout r) = Ok r.
Proof.
  intros Hwf. unfold decode_receipt.
  rewrite (proj2 (require_length_Ok _ _ tt) (generated_engine_receipt_length r Hwf)), bind_ret_l.
  by apply run_reader_ok; [apply generated_read_receipt_reads | apply generated_engine_receipt_length].
Qed.

(** Where a decoded receipt was read. *)
Lemma generated_receipt_prefix data rc :
  decode_receipt data = Ok rc ->
  length data = ENGINE_RECEIPT_LEN /\
  take 41 data = RECEIPT_MAGIC ++ [PROBE_WIRE_VERSION] ++ gr_request_hash rc.
Proof.
  unfold decode_receipt. intros (u & Hl%require_length_Ok & Hd%run_reader_Ok)%bind_Ok.
  unfold read_receipt, receipt_fields in Hd. inv_reader Hd. subst.
  repeat match goal with
  | H : require _ _ = Ok _ |- _ => apply require_Ok in H
  | H : require_version _ = Ok _ |- _ => apply require_version_Ok in H
  end. to_prop. subst. split; [done|]. cbn [gr_request_hash].
  match goal with H : take _ _ = RECEIPT_MAGIC |- _ => rewrite <- H end.
  by rewrite drop_0, (take_byte_slices 8 32).
Qed.

Lemma generated_encode_receipt_ok r :
  engine_receipt_wf r -> encode_receipt r = Ok (engine_receipt_layout r).
Proof. intros Hwf. apply run_writer_ok; [apply _ | by apply generated_engine_receipt_length]. Qed.

(** ** Properties *)

(** The request hash binds every field of a generated settlement request,
    the capability and payload hashes included, unless the two preimages are a
    SHA-256 collision; hashing never panics. *)
Theorem generated_request_hash_binds `{Hasher} b1 b2 :
  request_binding_wf b1 -> request_binding_wf b2 ->
  exists h1 h2, compute_request_hash b1 = Ok h1 /\ compute_request_hash b2 = Ok h2 /\
    (h1 = h2 -> b1 = b2 \/ sha256_collision (request_preimage b1) (request_preimage b2)).
Proof.
  intros W1 W2. eexists _, _. split; [by apply compute_request_hash_ok|].
  split; [by apply compute_request_hash_ok|]. intros Heq.
  apply (request_hash_injective b1 b2 (hashv (request_preimage b1))); try done;
    [|rewrite Heq]; by apply compute_request_hash_ok.
Qed.

(** The capability hash binds the engine and the whole ordered descriptor
    list (keys, owners, executability, privileges, duplicates included), unless
    the two preimages are a SHA-256 collision. *)
Theorem generated_capability_hash_binds `{Hasher} e1 e2 l1 l2 h :
  byte_string 32 e1 -> byte_string 32 e2 -> Forall descriptor_wf l1 -> Forall descriptor_wf l2 ->
  compute_capability_hash e1 l1 = Ok h -> compute_capability_hash e2 l2 = Ok h ->
  (e1 = e2 /\ l1 = l2) \/
  sha256_collision (capability_preimage CAPABILITY_HASH_DOMAIN e1 l1)
    (capability_preimage CAPABILITY_HASH_DOMAIN e2 l2).
Proof. by apply capability_hash_injective. Qed.

(** C40. The engine request decoder accepts exactly what the encoder produces:
    a byte string decodes to [r] iff [r] is well formed and encodes to it, so
    counts above eight, lengths above 128 and nonzero padding are rejected on
    both sides. *)
Theorem generated_decode_request_iff data r :
  Forall is_u8 data ->
  decode_request data = Ok r <-> engine_request_wf r /\ encode_request r = Ok data.
Proof.
  intros Hb. rewrite generated_decode_request_layout by done.
  split; intros [Hwf Hrest]; (split; [done|]); by apply encode_request_layout.
Qed.

(** The engine reads back the payload the caller passed: every payload of
    at most 128 bytes and every count of at most eight give a request, and
    encoding it as an instruction, decoding that and taking the payload returns
    the caller's bytes. *)
Theorem generated_payload_roundtrip hash market domain revision amount a_before b_before
    count chash payload :
  Forall (byte_string 32) [hash; market; domain; chash] ->
  Forall is_u64 [revision; amount; a_before; b_before] ->
  0 <= count <= 8 -> Forall is_u8 payload -> (length payload <= 128)%nat ->
  exists r data,
    new_engine_request hash market domain revision amount a_before b_before count chash payload
      = Ok r /\
    encode_evaluate_instruction r = Ok data /\
    decode_evaluate_instruction data = Ok r /\ payload_bytes r = Ok payload.
Proof.
  intros Hk Hu Hc Hp Hl. unfold new_engine_request, validate_opaque_account_count.
  destruct (canonical_payload_total payload Hl) as (len & padded & Ecp).
  pose proof (canonical_payload_Ok _ _ _ Ecp) as (-> & _ & Hpl & Htake & Hpad & Hu8).
  rewrite (proj2 (Z.ltb_ge _ count)) by (unfold MAX_OPAQUE_ACCOUNTS; lia). rewrite bind_ret_l, Ecp.
  cbn [mbind outcome_bind]. match goal with |- exists r data, Ok ?x = _ /\ _ => set (r := x) end.
  assert (engine_request_wf r) as Hwf.
  { unpack. unfold engine_request_wf, r; simpl. split_and!; auto;
      repeat constructor; try done; try lia; by apply Hu8. }
  assert (engine_request_valid r) as Hval.
  { unfold engine_request_valid, r; simpl. split_and!; [lia|lia|done]. }
  destruct (evaluate_instruction_roundtrip r Hwf Hval) as (data & He & Hd).
  exists r, data. split; [done|]. split; [done|]. split; [done|].
  unfold payload_bytes. rewrite (proj2 (generated_validate_engine_request_Ok r tt) Hval), bind_ret_l.
  unfold r; simpl. by rewrite Htake.
Qed.

(** The generated receipt decoder accepts exactly the canonical encodings:
    length 57, the magic, version 0, then the fields. *)
Theorem generated_decode_receipt_iff data r :
  Forall is_u8 data ->
  decode_receipt data = Ok r <-> engine_receipt_wf r /\ encode_receipt r = Ok data.
Proof.
  intros Hb. unfold decode_receipt, read_receipt.
  rewrite (magic_decode_iff ENGINE_RECEIPT_LEN RECEIPT_MAGIC InvalidMagic receipt_fields
    engine_receipt_wf engine_receipt_layout eq_refl generated_read_receipt_reads generated_engine_receipt_length
    generated_engine_receipt_split data r Hb).
  split; intros [Hwf He]; (split; [done|]); rewrite (generated_encode_receipt_ok r Hwf) in *; congruence.
Qed.

(** ** Witnesses *)

#[local] Instance identity_hasher : Hasher := {| hashv := @concat Z |}.

Definition sample_request_binding : RequestBinding :=
  let k n := replicate 32 n in
  Build_RequestBinding (k 1) (k 2) (k 3) (k 4) (k 5) (k 6) (k 7) (k 8) (k 9) (k 10) (k 11) (k 12)
    (k 13) (k 14) (k 15) 16 17 18 19 20 21 22 23 24 25 26 (k 27) (k 28).
Definition sample_engine_request : EngineRequest :=
  let k n := replicate 32 n in
  Build_EngineRequest (k 1) (k 2) (k 3) 4 5 6 7 2 (k 8) 3 ([1; 2; 3] ++ replicate 125 0).
Definition sample_receipt : EngineReceipt := Build_EngineReceipt (replicate 32 9) 77 5.
Definition sample_descriptors : list CapabilityDescriptor :=
  [Build_CapabilityDescriptor (replicate 32 1) (replicate 32 2) true false false;
   Build_CapabilityDescriptor (replicate 32 1) (replicate 32 2) true false false].

Lemma generated_request_hash_binds_witness :
  exists h1 h2, compute_request_hash sample_request_binding = Ok h1 /\
    compute_request_hash sample_request_binding = Ok h2 /\
    (h1 = h2 -> sample_request_binding = sample_request_binding \/
      sha256_collision (request_preimage sample_request_binding)
        (request_preimage sample_request_binding)).
Proof. apply generated_request_hash_binds; decide_closed. Defined.

Lemma generated_capability_hash_binds_witness :
  let e := replicate 32 7 in
  (e = e /\ sample_descriptors = sample_descriptors) \/
  sha256_collision (capability_preimage CAPABILITY_HASH_DOMAIN e sample_descriptors)
    (capability_preimage CAPABILITY_HASH_DOMAIN e sample_descriptors).
Proof.
  intros e. apply (generated_capability_hash_binds e e sample_descriptors sample_descriptors
    (CAPABILITY_HASH_DOMAIN ++ encode_capabilities e sample_descriptors));
    [decide_closed | decide_closed | decide_closed | decide_closed | |];
    vm_compute; reflexivity.
Defined.

Lemma generated_decode_request_iff_witness :
  decode_request (engine_request_layout sample_engine_request) = Ok sample_engine_request <->
    engine_request_wf sample_engine_request /\
    encode_request sample_engine_request = Ok (engine_request_layout sample_engine_request).
Proof. apply generated_decode_request_iff. decide_closed. Defined.

Lemma generated_payload_roundtrip_witness :
  let k n := replicate 32 n in
  exists r data, new_engine_request (k 1) (k 2) (k 3) 4 5 6 7 8 (k 9) [10; 11] = Ok r /\
    encode_evaluate_instruction r = Ok data /\
    decode_evaluate_instruction data = Ok r /\ payload_bytes r = Ok [10; 11].
Proof.
  intros k. apply generated_payload_roundtrip;
    [decide_closed | decide_closed | lia | decide_closed | simpl; lia].
Defined.

Lemma generated_decode_receipt_iff_witness :
  decode_receipt (engine_receipt_layout sample_receipt) = Ok sample_receipt <->
    engine_receipt_wf sample_receipt /\
    encode_receipt sample_receipt = Ok (engine_receipt_layout sample_receipt).
Proof. apply generated_decode_receipt_iff. decide_closed. Defined.
