(* ===== verification/GeneratedCore.v ===== *)
(** * generated-settlement-core: execute_engine_generated_probe_v0.rs

    Here the engine chooses the output. Core validates the envelope and the
    opaque capabilities, binds everything it knows in a request hash, invokes
    the engine once with the normalized capabilities, accepts the receipt for
    that request if the output is within the user's minimum and the domain's
    accounted balance, and settles. *)
From S2P Require Import Prelude Codec CoreState Solana FeeMath Validation Capability.
From S2P Require Import GeneratedWire Settlement ReferenceRuntime.

Definition SETTLEMENT_HASH_DOMAIN_V0 : list Z :=
  bytes_of_string "programmable:generated-settlement:settlement:v0".

Record ExecuteEngineGeneratedProbeV0Args := {
  ga_amount_in : Z;
  ga_max_total_input_debit : Z;
  ga_min_output_credit : Z;
  ga_max_protocol_fee : Z;
  ga_expires_at_slot : Z;
  ga_expected_capability_hash : list Z;
  ga_opaque_payload : list Z }.

Record ExecuteEngineGeneratedProbeV0 := {
  ge_user : AccountInfo;
  ge_env : Envelope;
  ge_instructions_sysvar : AccountInfo }.

Record AcceptedEnginePlan := {
  gp_amount_out : Z;
  gp_protocol_fee : Z;
  gp_total_input_debit : Z;
  gp_request_hash : list Z;
  gp_capability_hash : list Z;
  gp_payload_hash : list Z;
  gp_settlement_hash : list Z;
  gp_engine_sequence : Z;
  gp_opaque_account_count : Z;
  gp_post_accounted_a : Z;
  gp_post_accounted_b : Z;
  gp_post_accounted_fee_a : Z }.

Record EngineGeneratedProbeExecutedV0 := {
  gx_market : Pubkey;
  gx_domain : Pubkey;
  gx_engine_program : Pubkey;
  gx_engine_state : Pubkey;
  gx_user : Pubkey;
  gx_mint_a : Pubkey;
  gx_mint_b : Pubkey;
  gx_amount_in : Z;
  gx_amount_out : Z;
  gx_protocol_fee : Z;
  gx_request_hash : list Z;
  gx_capability_hash : list Z;
  gx_payload_hash : list Z;
  gx_settlement_hash : list Z;
  gx_engine_sequence : Z;
  gx_opaque_account_count : Z;
  gx_post_accounted_a : Z;
  gx_post_accounted_b : Z;
  gx_post_accounted_fee_a : Z }.

Section GeneratedCore.
Context `{Runtime} {C : CoreConfig}.

Definition generated_constraints (w : World) (a : ExecuteEngineGeneratedProbeV0) : result unit :=
  let e := ge_env a in
  _ ← require (ai_is_signer (ge_user a)) ConstraintViolated;
  _ ← require (envelope_loaded w e) ConstraintViolated;
  _ ← envelope_state_constraints e;
  _ ← require (is_mut (ev_user_source_a e) &&
               is_token (ev_user_source_a e) (key (ev_mint_a e)) (ai_key (ge_user a)))
        ConstraintViolated;
  _ ← require (is_mut (ev_user_destination_b e) &&
               key_eqb (ta_mint (acc_data (ev_user_destination_b e))) (key (ev_mint_b e)))
        ConstraintViolated;
  _ ← envelope_vault_constraints e;
  _ ← envelope_engine_constraints e;
  require (key_eqb (ai_key (ge_instructions_sysvar a)) INSTRUCTIONS_SYSVAR_ID)
    ConstraintViolated.

Definition generated_fixed_keys (a : ExecuteEngineGeneratedProbeV0) : list Pubkey :=
  let e := ge_env a in
  [ai_key (ge_user a); key (ev_market e); key (ev_domain e); key (ev_fee_ledger e);
   key (ev_mint_a e); key (ev_mint_b e); key (ev_user_source_a e);
   key (ev_user_destination_b e); key (ev_vault_a e); key (ev_vault_b e); key (ev_fee_vault e);
   ai_key (ev_engine_program e); ai_key (ev_engine_state e);
   ai_key (ge_instructions_sysvar a); ai_key (ev_token_program e); ID].

(** The signer and writable privileges of the fixed roles. *)
Definition generated_privileges (a : ExecuteEngineGeneratedProbeV0) : result unit :=
  let e := ge_env a in
  _ ← require_core (negb (ai_is_signer (ev_engine_program e)) &&
                    negb (ai_is_signer (ev_engine_state e)) &&
                    negb (ai_is_signer (ge_instructions_sysvar a))) UnexpectedSignerPrivilege;
  _ ← require_core (negb (ai_is_signer (acc_info (ev_market e))) &&
                    negb (ai_is_signer (acc_info (ev_domain e))) &&
                    negb (ai_is_signer (acc_info (ev_fee_ledger e))) &&
                    negb (ai_is_signer (acc_info (ev_mint_a e))) &&
                    negb (ai_is_signer (acc_info (ev_mint_b e))) &&
                    negb (ai_is_signer (acc_info (ev_user_source_a e))) &&
                    negb (ai_is_signer (acc_info (ev_user_destination_b e))) &&
                    negb (ai_is_signer (acc_info (ev_vault_a e))) &&
                    negb (ai_is_signer (acc_info (ev_vault_b e))) &&
                    negb (ai_is_signer (acc_info (ev_fee_vault e))) &&
                    negb (ai_is_signer (ev_token_program e))) UnexpectedSignerPrivilege;
  _ ← require_core (ai_is_writable (ev_engine_state e)) UnexpectedWritablePrivilege;
  require_core (negb (ai_is_writable (acc_info (ev_market e))) &&
                negb (ai_is_writable (acc_info (ev_mint_a e))) &&
                negb (ai_is_writable (acc_info (ev_mint_b e))) &&
                negb (ai_is_writable (ev_engine_program e)) &&
                negb (ai_is_writable (ge_instructions_sysvar a)) &&
                negb (ai_is_writable (ev_token_program e))) UnexpectedWritablePrivilege.

(** From the stack-height guard to the raw >= accounted checks. *)
Definition generated_envelope (w : World) (a : ExecuteEngineGeneratedProbeV0)
    (args : ExecuteEngineGeneratedProbeV0Args) : result unit :=
  let e := ge_env a in
  _ ← require_core (w_stack_height w =? TRANSACTION_LEVEL_STACK_HEIGHT) DirectInvocationRequired;
  _ ← validate_opaque_payload (ga_opaque_payload args);
  _ ← ensure_distinct_roles (generated_fixed_keys a);
  _ ← validate_envelope_state e;
  _ ← validate_engine_accounts e;
  _ ← generated_privileges a;
  _ ← validate_mints e;
  _ ← validate_protected_token_account (acc_data (ev_user_source_a e)) (key (ev_mint_a e))
        (ai_key (ge_user a));
  validate_vaults e.

Record GeneratedEconomics := {
  gc_protocol_fee : Z;
  gc_total_input_debit : Z;
  gc_post_accounted_a : Z;
  gc_post_accounted_fee_a : Z }.

Definition generated_economics (w : World) (e : Envelope)
    (args : ExecuteEngineGeneratedProbeV0Args) : result GeneratedEconomics :=
  let domain := acc_data (ev_domain e) in
  _ ← require_core (0 <? ga_amount_in args) ZeroAmount;
  _ ← require_core (w_slot w <=? ga_expires_at_slot args) RequestExpired;
  '(protocol_fee, total_input_debit) ←
    quote_fee e (ga_amount_in args) (ga_max_protocol_fee args) (ga_max_total_input_debit args);
  _ ← require_core (total_input_debit <=? ta_amount (acc_data (ev_user_source_a e)))
        InsufficientUserSourceBalance;
  _ ← require_core (ga_min_output_credit args <=? d_accounted_b domain)
        InsufficientAccountedLiquidity;
  post_accounted_a ← core_ok_or (checked_add 64 (d_accounted_a domain) (ga_amount_in args))
    ArithmeticOverflow;
  post_accounted_fee_a ← core_ok_or
    (checked_add 64 (fl_accounted_fee_a (acc_data (ev_fee_ledger e))) protocol_fee)
    ArithmeticOverflow;
  Ok {| gc_protocol_fee := protocol_fee; gc_total_input_debit := total_input_debit;
        gc_post_accounted_a := post_accounted_a;
        gc_post_accounted_fee_a := post_accounted_fee_a |}.

(** Engine state, Instructions sysvar, then the opaque positions. *)
Definition generated_capabilities (a : ExecuteEngineGeneratedProbeV0)
    (opaque : list CapabilityDescriptor) : list CapabilityDescriptor :=
  let state := ev_engine_state (ge_env a) in
  let sysvar := ge_instructions_sysvar a in
  {| cd_key := ai_key state; cd_owner := ai_owner state; cd_is_writable := true;
     cd_is_signer := false; cd_is_executable := false |} ::
  {| cd_key := ai_key sysvar; cd_owner := ai_owner sysvar; cd_is_writable := false;
     cd_is_signer := false; cd_is_executable := false |} :: opaque.

Definition generated_request_binding (a : ExecuteEngineGeneratedProbeV0)
    (args : ExecuteEngineGeneratedProbeV0Args) (protocol_fee : Z)
    (capability_hash payload_hash : list Z) : RequestBinding :=
  let e := ge_env a in
  {| rb_core_program := ID;
     rb_market := key (ev_market e);
     rb_domain := key (ev_domain e);
     rb_engine_program := ai_key (ev_engine_program e);
     rb_engine_state := ai_key (ev_engine_state e);
     rb_user_authority := ai_key (ge_user a);
     rb_user_input := key (ev_user_source_a e);
     rb_user_output := key (ev_user_destination_b e);
     rb_mint_in := key (ev_mint_a e);
     rb_mint_out := key (ev_mint_b e);
     rb_domain_input_vault := key (ev_vault_a e);
     rb_domain_output_vault := key (ev_vault_b e);
     rb_protocol_fee_vault := key (ev_fee_vault e);
     rb_fee_ledger := key (ev_fee_ledger e);
     rb_token_program := ai_key (ev_token_program e);
     rb_engine_revision := m_engine_revision (acc_data (ev_market e));
     rb_fee_policy_revision := m_fee_policy_revision (acc_data (ev_market e));
     rb_amount_in := ga_amount_in args;
     rb_protocol_fee := protocol_fee;
     rb_max_total_input_debit := ga_max_total_input_debit args;
     rb_min_output_credit := ga_min_output_credit args;
     rb_max_protocol_fee := ga_max_protocol_fee args;
     rb_accounted_input_before := d_accounted_a (acc_data (ev_domain e));
     rb_accounted_output_before := d_accounted_b (acc_data (ev_domain e));
     rb_accounted_fee_before := fl_accounted_fee_a (acc_data (ev_fee_ledger e));
     rb_expires_at_slot := ga_expires_at_slot args;
     rb_capability_hash := capability_hash;
     rb_payload_hash := payload_hash |}.

Definition wire {A} (m : outcome CodecError A) : result A :=
  map_err (fun _ => Core InvalidWireEncoding) m.

Definition generated_engine_request (e : Envelope) (args : ExecuteEngineGeneratedProbeV0Args)
    (request_hash capability_hash : list Z) (opaque_account_count : Z) : result EngineRequest :=
  wire (new_engine_request request_hash (key (ev_market e)) (key (ev_domain e))
    (m_engine_revision (acc_data (ev_market e))) (ga_amount_in args)
    (d_accounted_a (acc_data (ev_domain e))) (d_accounted_b (acc_data (ev_domain e)))
    opaque_account_count capability_hash (ga_opaque_payload args)).

(** The engine CPI: its metas from the descriptors, its infos from the
    positions that provide them. *)
Definition generated_instruction (a : ExecuteEngineGeneratedProbeV0)
    (opaque : list CapabilityDescriptor) (data : list Z) : Instruction :=
  {| ix_program_id := ai_key (ev_engine_program (ge_env a));
     ix_accounts := meta_new (ai_key (ev_engine_state (ge_env a))) false ::
                    meta_new_readonly (ai_key (ge_instructions_sysvar a)) false ::
                    map descriptor_meta opaque;
     ix_data := data |}.

Definition generated_invoke (w : World) (a : ExecuteEngineGeneratedProbeV0)
    (remaining : list AccountInfo) (opaque : list CapabilityDescriptor)
    (request : EngineRequest) : result World :=
  data ← wire (encode_evaluate_instruction request);
  infos ← map_result (normalized_info remaining) opaque;
  invoke w (generated_instruction a opaque data)
    (ev_engine_state (ge_env a) :: ge_instructions_sysvar a :: infos).

Definition generated_receipt (w : World) (e : Envelope)
    (args : ExecuteEngineGeneratedProbeV0Args) (request_hash : list Z)
    : result EngineReceipt :=
  '(receipt_setter, receipt_data) ← core_ok_or (w_return_data w) MissingEngineReceipt;
  _ ← require_keys_eq receipt_setter (ai_key (ev_engine_program e)) InvalidEngineReceiptSetter;
  receipt ← map_err (fun _ => Core InvalidEngineReceipt) (decode_receipt receipt_data);
  _ ← require_core (bool_decide (gr_request_hash receipt = request_hash))
        EngineReceiptRequestMismatch;
  _ ← require_core (0 <? gr_amount_out receipt) ZeroAmount;
  _ ← require_core (ga_min_output_credit args <=? gr_amount_out receipt) OutputBelowUserMinimum;
  _ ← require_core (gr_amount_out receipt <=? d_accounted_b (acc_data (ev_domain e)))
        InsufficientAccountedLiquidity;
  Ok receipt.

Definition generated_settlement_hash (request_hash : list Z) (amount_out protocol_fee sequence : Z)
    : list Z :=
  hashv [SETTLEMENT_HASH_DOMAIN_V0; request_hash; to_le_bytes 8 amount_out;
         to_le_bytes 8 protocol_fee; to_le_bytes 8 sequence].

Definition settle_engine_generated_probe (w : World) (a : ExecuteEngineGeneratedProbeV0)
    (args : ExecuteEngineGeneratedProbeV0Args) (plan : AcceptedEnginePlan)
    : result (World * Envelope * EngineGeneratedProbeExecutedV0) :=
  let e := ge_env a in
  '(w, e') ← settle w e (ge_user a) [] (ga_amount_in args) (gp_protocol_fee plan)
    (gp_total_input_debit plan) (gp_amount_out plan);
  Ok (w,
      commit_accounts e' (gp_post_accounted_a plan) (gp_post_accounted_b plan)
        (gp_post_accounted_fee_a plan),
      {| gx_market := key (ev_market e); gx_domain := key (ev_domain e);
         gx_engine_program := ai_key (ev_engine_program e);
         gx_engine_state := ai_key (ev_engine_state e); gx_user := ai_key (ge_user a);
         gx_mint_a := key (ev_mint_a e); gx_mint_b := key (ev_mint_b e);
         gx_amount_in := ga_amount_in args; gx_amount_out := gp_amount_out plan;
         gx_protocol_fee := gp_protocol_fee plan; gx_request_hash := gp_request_hash plan;
         gx_capability_hash := gp_capability_hash plan; gx_payload_hash := gp_payload_hash plan;
         gx_settlement_hash := gp_settlement_hash plan;
         gx_engine_sequence := gp_engine_sequence plan;
         gx_opaque_account_count := gp_opaque_account_count plan;
         gx_post_accounted_a := gp_post_accounted_a plan;
         gx_post_accounted_b := gp_post_accounted_b plan;
         gx_post_accounted_fee_a := gp_post_accounted_fee_a plan |}).

Definition handle_execute_engine_generated_probe_v0 (w : World)
    (a : ExecuteEngineGeneratedProbeV0) (remaining : list AccountInfo)
    (args : ExecuteEngineGeneratedProbeV0Args)
    : result (World * Envelope * EngineGeneratedProbeExecutedV0) :=
  let e := ge_env a in
  _ ← generated_envelope w a args;
  economics ← generated_economics w e args;
  opaque ← validate_opaque_capabilities remaining (generated_fixed_keys a);
  capability_hash ← wire (compute_capability_hash (ai_key (ev_engine_program e))
                            (generated_capabilities a opaque));
  _ ← require_core (bool_decide (capability_hash = ga_expected_capability_hash args))
        CapabilityHashExpectationMismatch;
  payload_hash ← wire (compute_payload_hash (ga_opaque_payload args));
  request_hash ← infallible (compute_request_hash
    (generated_request_binding a args (gc_protocol_fee economics) capability_hash payload_hash));
  opaque_account_count ← core_ok_or (try_from 16 (Z.of_nat (length remaining)))
    IntegerConversionFailed;
  request ← generated_engine_request e args request_hash capability_hash opaque_account_count;
  w ← generated_invoke w a remaining opaque request;
  receipt ← generated_receipt w e args request_hash;
  post_accounted_b ← core_ok_or
    (checked_sub (d_accounted_b (acc_data (ev_domain e))) (gr_amount_out receipt))
    ArithmeticOverflow;
  count_u8 ← core_ok_or (try_from 8 opaque_account_count) IntegerConversionFailed;
  settle_engine_generated_probe w a args
    {| gp_amount_out := gr_amount_out receipt;
       gp_protocol_fee := gc_protocol_fee economics;
       gp_total_input_debit := gc_total_input_debit economics;
       gp_request_hash := request_hash;
       gp_capability_hash := capability_hash;
       gp_payload_hash := payload_hash;
       gp_settlement_hash := generated_settlement_hash request_hash (gr_amount_out receipt)
         (gc_protocol_fee economics) (gr_state_sequence receipt);
       gp_engine_sequence := gr_state_sequence receipt;
       gp_opaque_account_count := count_u8;
       gp_post_accounted_a := gc_post_accounted_a economics;
       gp_post_accounted_b := post_accounted_b;
       gp_post_accounted_fee_a := gc_post_accounted_fee_a economics |}.

(** The program entry: constraints, handler, exit. *)
Definition execute_engine_generated_probe (w : World) (a : ExecuteEngineGeneratedProbeV0)
    (remaining : list AccountInfo) (args : ExecuteEngineGeneratedProbeV0Args)
    : result (World * EngineGeneratedProbeExecutedV0) :=
  _ ← generated_constraints w a;
  '(w, e, event) ← handle_execute_engine_generated_probe_v0 w a remaining args;
  Ok (exit_accounts w e, event).

(** ** Inversion of a successful call *)

Lemma generated_economics_Ok w e args ec :
  generated_economics w e args = Ok ec ->
  let fee := gc_protocol_fee ec in
  let domain := acc_data (ev_domain e) in
  0 < ga_amount_in args /\ w_slot w <= ga_expires_at_slot args /\
  fee_within_limits e (ga_amount_in args) (ga_max_protocol_fee args)
    (ga_max_total_input_debit args) fee (gc_total_input_debit ec) /\
  ga_min_output_credit args <= d_accounted_b domain /\
  gc_post_accounted_a ec = d_accounted_a domain + ga_amount_in args /\
  gc_post_accounted_fee_a ec = fl_accounted_fee_a (acc_data (ev_fee_ledger e)) + fee /\
  d_accounted_a domain + ga_amount_in args < 2 ^ 64 /\
  fl_accounted_fee_a (acc_data (ev_fee_ledger e)) + fee < 2 ^ 64.
Proof.
  unfold generated_economics. intros He. inv_guarded.
  match goal with H : quote_fee _ _ _ _ = Ok ?r |- _ =>
    destruct r as [fee total]; apply quote_fee_Ok in H end.
  inv_guarded. inv_checked. to_prop. by split_and!.
Qed.

Lemma generated_envelope_Ok w a args u :
  generated_envelope w a args = Ok u ->
  let e := ge_env a in
  w_stack_height w = 1 /\ NoDup (generated_fixed_keys a) /\
  d_accounted_a (acc_data (ev_domain e)) <= ta_amount (acc_data (ev_vault_a e)) /\
  d_accounted_b (acc_data (ev_domain e)) <= ta_amount (acc_data (ev_vault_b e)) /\
  fl_accounted_fee_a (acc_data (ev_fee_ledger e)) <= ta_amount (acc_data (ev_fee_vault e)).
Proof.
  unfold generated_envelope. intros He. inv_guarded. to_prop.
  match goal with H : validate_vaults _ = _ |- _ => apply validate_vaults_covers in H end.
  tauto.
Qed.

Lemma generated_fixed_settlement_keys a :
  NoDup (generated_fixed_keys a) -> NoDup (settlement_keys (ge_env a)).
Proof.
  intros Hnd. eapply sublist_NoDup; [exact Hnd|].
  unfold generated_fixed_keys, settlement_keys.
  solve_sublist.
Qed.

Lemma generated_receipt_Ok w e args h r :
  generated_receipt w e args h = Ok r ->
  exists bytes, w_return_data w = Some (ai_key (ev_engine_program e), bytes) /\
    decode_receipt bytes = Ok r /\ gr_request_hash r = h /\ 0 < gr_amount_out r /\
    ga_min_output_credit args <= gr_amount_out r /\
    gr_amount_out r <= d_accounted_b (acc_data (ev_domain e)).
Proof.
  unfold generated_receipt. intros Hr. inv_guarded. destruct r0 as [setter bytes]. inv_guarded.
  to_prop. subst. exists bytes. by split_and!.
Qed.

(** What the handler computed on the way to a success. *)
Record GeneratedRun (w : World) (a : ExecuteEngineGeneratedProbeV0)
    (remaining : list AccountInfo) (args : ExecuteEngineGeneratedProbeV0Args)
    (w' : World) (ev : EngineGeneratedProbeExecutedV0) : Prop := {
  run_loaded : envelope_loaded w (ge_env a) = true;
  run_envelope : generated_envelope w a args = Ok tt;
  run_steps : exists ec opaque ch ph rh request w1 receipt w2 e2,
    generated_economics w (ge_env a) args = Ok ec /\
    validate_opaque_capabilities remaining (generated_fixed_keys a) = Ok opaque /\
    compute_capability_hash (ai_key (ev_engine_program (ge_env a)))
      (generated_capabilities a opaque) = Ok ch /\
    ch = ga_expected_capability_hash args /\
    compute_payload_hash (ga_opaque_payload args) = Ok ph /\
    compute_request_hash (generated_request_binding a args (gc_protocol_fee ec) ch ph) = Ok rh /\
    generated_engine_request (ge_env a) args rh ch (Z.of_nat (length remaining)) = Ok request /\
    generated_invoke w a remaining opaque request = Ok w1 /\
    generated_receipt w1 (ge_env a) args rh = Ok receipt /\
    settle w1 (ge_env a) (ge_user a) [] (ga_amount_in args) (gc_protocol_fee ec)
      (gc_total_input_debit ec) (gr_amount_out receipt) = Ok (w2, e2) /\
    w' = exit_accounts w2 (commit_accounts e2 (gc_post_accounted_a ec)
           (d_accounted_b (acc_data (ev_domain (ge_env a))) - gr_amount_out receipt)
           (gc_post_accounted_fee_a ec)) /\
    gx_request_hash ev = rh /\ gx_capability_hash ev = ch /\ gx_payload_hash ev = ph /\
    gx_protocol_fee ev = gc_protocol_fee ec /\ gx_amount_out ev = gr_amount_out receipt /\
    gx_engine_sequence ev = gr_state_sequence receipt /\
    gx_opaque_account_count ev = Z.of_nat (length remaining) }.

Lemma execute_generated_Ok w a remaining args w' ev :
  execute_engine_generated_probe w a remaining args = Ok (w', ev) ->
  GeneratedRun w a remaining args w' ev.
Proof.
  unfold execute_engine_generated_probe. intros Hx. inv_guarded.
  match goal with H : generated_constraints _ _ = _ |- _ =>
    unfold generated_constraints in H; inv_guarded end.
  match goal with H : handle_execute_engine_generated_probe_v0 _ _ _ _ = Ok ?r |- _ =>
    destruct r as [[w2 e2] ev0]; unfold handle_execute_engine_generated_probe_v0, wire in H end.
  inv_guarded.
  match goal with H : settle_engine_generated_probe _ _ _ _ = Ok _ |- _ =>
    unfold settle_engine_generated_probe in H end. inv_guarded.
  match goal with H : settle _ _ _ _ _ _ _ _ = Ok ?r |- _ => destruct r as [w3 e3] end.
  inv_guarded. inv_checked. to_prop. subst. simpl in *.
  constructor; [done..|]. do 10 eexists. split_and!; eauto.
Qed.

(** What the event reports. *)
Lemma generated_event_fields w a remaining args w' ev :
  execute_engine_generated_probe w a remaining args = Ok (w', ev) ->
  let e := ge_env a in
  gx_market ev = key (ev_market e) /\ gx_domain ev = key (ev_domain e) /\
  gx_amount_in ev = ga_amount_in args /\
  exists w2 e2, same_accounts e e2 /\ w' = exit_accounts w2 (commit_accounts e2
    (gx_post_accounted_a ev) (gx_post_accounted_b ev) (gx_post_accounted_fee_a ev)).
Proof.
  unfold execute_engine_generated_probe. intros Hx. inv_guarded.
  match goal with H : handle_execute_engine_generated_probe_v0 _ _ _ _ = Ok ?r |- _ =>
    destruct r as [[w2 e2] ev0]; unfold handle_execute_engine_generated_probe_v0 in H end.
  inv_guarded.
  match goal with H : settle_engine_generated_probe _ _ _ _ = Ok _ |- _ =>
    unfold settle_engine_generated_probe in H end. inv_guarded.
  match goal with H : settle _ _ _ _ _ _ _ _ = Ok ?r |- _ => destruct r as [w3 e3];
    pose proof (settle_Ok _ _ _ _ _ _ _ _ _ _ H) as (Hsame & _) end.
  inv_guarded. split_and!; [done..|]. by do 2 eexists.
Qed.

(** ** Properties *)

Lemma generated_execution_effects w a remaining args w' ev :
  execute_engine_generated_probe w a remaining args = Ok (w', ev) ->
  let e := ge_env a in
  let fee := gx_protocol_fee ev in
  let out := gx_amount_out ev in
  w_stack_height w = 1 /\ w_slot w <= ga_expires_at_slot args /\
  0 < ga_amount_in args /\ 0 < out /\ ga_min_output_credit args <= out /\
  fee_within_limits e (ga_amount_in args) (ga_max_protocol_fee args)
    (ga_max_total_input_debit args) fee (ga_amount_in args + fee) /\
  token_effect w w' e (ga_amount_in args) fee out /\
  core_effect w w' e (ga_amount_in args) fee out /\ solvent w e /\ solvent w' e.
Proof.
  intros [Hl Henv (ec & opaque & ch & ph & rh & request & w1 & rc & w2 & e2 & Hec & _ & _ & _ & _ &
    _ & _ & _ & Hr & Hs & -> & _ & _ & _ & -> & -> & _)]%execute_generated_Ok. simpl.
  apply envelope_loaded_tokens in Hl as (Ht & Hd & Hf).
  apply generated_envelope_Ok in Henv as (Hh & Hnd & Ca & Cb & Cf).
  apply generated_economics_Ok in Hec as (? & ? & Hlim & _ & -> & -> & Ba & Bf).
  apply generated_receipt_Ok in Hr as (_ & _ & _ & _ & Hout & Hmin & Hliq).
  apply generated_fixed_settlement_keys in Hnd.
  pose proof Hlim as (_ & Htot & _). rewrite Htot in *.
  assert (solvent w (ge_env a)) as Hsol.
  { destruct Ht as (_ & _ & Ta & Tb & Tf). unfold solvent, balance.
    eexists _, _, _, _, _. rewrite Ta, Tb, Tf. split_and!; eauto. }
  pose proof (settle_Ok _ _ _ _ _ _ _ _ _ _ Hs) as ((_ & Kd & Kl & _) & _).
  pose proof (settle_token_effect _ _ _ _ _ _ _ _ _ _ Ht Hs) as Hte.
  distinct_entries Hnd 0%nat 1%nat.
  pose proof (commit_core_effect w w2 (ge_env a) e2 _ _ _ Hne Kd Kl Hd Hf Ba Hliq Bf) as Hce.
  eapply token_effect_exit in Hte; [| exact Hnd | ..].
  - split_and!; try done. eapply effects_solvent; eauto.
  - unfold commit_accounts, set_data, key; simpl. by rewrite Kd.
  - unfold commit_accounts, set_data, key; simpl. by rewrite Kl.
Qed.

(** C4. A successful engine-generated execution, whatever the engine and the
    token program do, ran at transaction level before expiry, settled an
    engine-chosen output that is positive and at least the user's minimum, took
    a fee and a total debit within the user's limits, moved exactly the five
    token deltas and the matching accounted balances without overflow or
    underflow, and leaves every vault covering its accounted balance. *)
Theorem generated_execution_settles w a remaining args w' ev :
  execute_engine_generated_probe w a remaining args = Ok (w', ev) ->
  let e := ge_env a in
  let fee := gx_protocol_fee ev in
  let out := gx_amount_out ev in
  w_stack_height w = 1 /\ w_slot w <= ga_expires_at_slot args /\
  0 < ga_amount_in args /\ 0 < out /\ ga_min_output_credit args <= out /\
  fee_within_limits e (ga_amount_in args) (ga_max_protocol_fee args)
    (ga_max_total_input_debit args) fee (ga_amount_in args + fee) /\
  token_effect w w' e (ga_amount_in args) fee out /\
  core_effect w w' e (ga_amount_in args) fee out /\ solvent w e /\ solvent w' e.
Proof. apply generated_execution_effects. Qed.


(** The metas of the engine call: no signer, and nothing writable but the engine
    state and validated opaque positions. *)
Definition engine_may_write (a : ExecuteEngineGeneratedProbeV0) (remaining : list AccountInfo)
    (k : Pubkey) : Prop :=
  k = ai_key (ev_engine_state (ge_env a)) \/
  (k ∉ generated_fixed_keys a) /\
  exists info, info ∈ remaining /\ ai_key info = k /\ ai_owner info <> ID /\
    ai_executable info = false /\
    ai_owner info <> spl_token_ID /\ ai_owner info <> token_2022_ID.

Lemma generated_metas a remaining opaque data m :
  validate_opaque_capabilities remaining (generated_fixed_keys a) = Ok opaque ->
  m ∈ ix_accounts (generated_instruction a opaque data) ->
  am_is_signer m = false /\
  (am_is_writable m = true -> engine_may_write a remaining (am_pubkey m)).
Proof.
  intros (_ & Hf & ->)%validate_opaque_capabilities_Ok Hm.
  apply elem_of_cons in Hm as [->|Hm]; [by split; [|left]|].
  apply elem_of_cons in Hm as [->|Hm]; [by split|].
  apply list_elem_of_In, in_map_iff in Hm as (d & <- & (i & <- & Hin)%in_map_iff).
  apply list_elem_of_In in Hin. rewrite Forall_forall in Hf.
  destruct (Hf i Hin) as (_ & Hk & Hown & Hw).
  unfold descriptor_meta. destruct (cd_is_writable (opaque_descriptor remaining i)) eqn:Ew;
    simpl; [|by split].
  apply effective_flag_true in Ew. destruct (Hw Ew) as (? & ? & ?).
  split; [done|]. intros _. right. split; [done|]. exists i. by split_and!.
Qed.

(** The engine call of a successful execution, and the settlement after it. *)
Lemma generated_call_and_settlement w a remaining args w' ev :
  execute_engine_generated_probe w a remaining args = Ok (w', ev) ->
  exists opaque data infos w1 w2 e2 fee total post_a post_b post_fee,
    validate_opaque_capabilities remaining (generated_fixed_keys a) = Ok opaque /\
    invoke w (generated_instruction a opaque data)
      (ev_engine_state (ge_env a) :: ge_instructions_sysvar a :: infos) = Ok w1 /\
    settle w1 (ge_env a) (ge_user a) [] (ga_amount_in args) fee total (gx_amount_out ev) =
      Ok (w2, e2) /\
    w' = exit_accounts w2 (commit_accounts e2 post_a post_b post_fee).
Proof.
  intros [_ _ (ec & opaque & ch & ph & rh & request & w1 & rc & w2 & e2 & _ & Ho & _ & _ & _ &
    _ & _ & Hi & _ & Hs & -> & _ & _ & _ & _ & -> & _)]%execute_generated_Ok.
  unfold generated_invoke, wire in Hi. inv_guarded. do 11 eexists. split_and!; eauto.
Qed.

(** C25. The engine is confined: in the one CPI a successful execution makes,
    no account signs, and the only writable accounts are the engine state and
    opaque positions that are not a fixed role of the envelope (no vault, user
    account, domain or ledger), not owned by the core, not programs and not
    token accounts. *)
Theorem generated_engine_confined w a remaining args w' ev :
  execute_engine_generated_probe w a remaining args = Ok (w', ev) ->
  let e := ge_env a in
  exists opaque data infos w1,
    invoke w (generated_instruction a opaque data)
      (ev_engine_state e :: ge_instructions_sysvar a :: infos) = Ok w1 /\
    (forall m, m ∈ ix_accounts (generated_instruction a opaque data) ->
      am_is_signer m = false /\
      (am_is_writable m = true -> engine_may_write a remaining (am_pubkey m))).
Proof.
  intros (opaque & data & infos & w1 & w2 & e2 & fee & total & pa & pb & pf & Ho & Hi & _)
    %generated_call_and_settlement.
  exists opaque, data, infos, w1. split; [done|]. intros m. by apply generated_metas.
Qed.
End GeneratedCore.

(** ** A concrete execution: an engine that always offers 900 *)

Definition offering_engine (w : World) (ix : Instruction) (infos : list AccountInfo)
    (seeds : SignerSeeds) : result World :=
  match decode_evaluate_instruction (ix_data ix) with
  | Ok request =>
      match encode_receipt {| gr_request_hash := gq_request_hash request; gr_amount_out := 900;
                              gr_state_sequence := 8 |} with
      | Ok bytes => Ok (set_return_data w (ix_program_id ix) bytes)
      | _ => Err (ProgramError 1)
      end
  | _ => Err (ProgramError 2)
  end.

Definition offering_runtime : Runtime := reference_runtime offering_engine.

Section Example.
#[local] Instance example_runtime : Runtime := offering_runtime.
#[local] Instance example_config : CoreConfig := generated_config.

Definition generated_accounts : ExecuteEngineGeneratedProbeV0 := {|
  ge_user := user_info; ge_env := example_envelope 50000 70000 6;
  ge_instructions_sysvar := test_account INSTRUCTIONS_SYSVAR_ID system_program_k false false false |}.
Definition generated_opaque : list AccountInfo :=
  [test_account (test_key 20) engine_k false true false;
   test_account (test_key 21) engine_k false false false;
   test_account (test_key 20) engine_k false false false].
Definition generated_args : ExecuteEngineGeneratedProbeV0Args := {|
  ga_amount_in := 1000; ga_max_total_input_debit := 1003; ga_min_output_credit := 900;
  ga_max_protocol_fee := 3; ga_expires_at_slot := 100;
  ga_expected_capability_hash :=
    match (opaque ← validate_opaque_capabilities generated_opaque
                      (generated_fixed_keys generated_accounts);
           wire (compute_capability_hash engine_k
                   (generated_capabilities generated_accounts opaque))) with
    | Ok h => h | _ => [] end;
  ga_opaque_payload := [1; 2; 3] |}.

Lemma generated_execution_settles_witness :
  exists w' ev,
    execute_engine_generated_probe (test_world 50000 70000 6) generated_accounts generated_opaque
      generated_args = Ok (w', ev) /\
    token_effect (test_world 50000 70000 6) w' (example_envelope 50000 70000 6) 1000
      (gx_protocol_fee ev) (gx_amount_out ev) /\
    solvent w' (example_envelope 50000 70000 6).
Proof.
  destruct (is_ok_Ok (execute_engine_generated_probe (test_world 50000 70000 6) generated_accounts
    generated_opaque generated_args)) as [[w' ev] E]; [vm_compute; reflexivity|].
  exists w', ev. split; [exact E|].
  destruct (generated_execution_settles _ _ _ _ _ _ E)
    as (_ & _ & _ & _ & _ & _ & Ht & _ & _ & Hs).
  split; [exact Ht | exact Hs].
Defined.


Lemma generated_engine_confined_witness :
  exists w' ev opaque data infos w1,
    execute_engine_generated_probe (test_world 50000 70000 6) generated_accounts generated_opaque
      generated_args = Ok (w', ev) /\
    invoke (test_world 50000 70000 6) (generated_instruction generated_accounts opaque data)
      (ev_engine_state (example_envelope 50000 70000 6) ::
       ge_instructions_sysvar generated_accounts :: infos) = Ok w1.
Proof.
  destruct (is_ok_Ok (execute_engine_generated_probe (test_world 50000 70000 6) generated_accounts
    generated_opaque generated_args)) as [[w' ev] E]; [vm_compute; reflexivity|].
  destruct (generated_engine_confined _ _ _ _ _ _ E) as (opaque & data & infos & w1 & Hi & _).
  exists w', ev, opaque, data, infos, w1. split; [exact E | exact Hi].
Defined.
End Example.
