(* ===== verification/GeneratedProgress.v ===== *)
(** * Progress of generated-settlement-core

    As in Progress, for execute_engine_generated_probe_v0.rs: a request whose
    guards pass and whose engine answers within the user's minimum and the
    accounted liquidity is settled. Nothing between the guards and the engine
    call can fail either: the hashes, the wire request and the normalized
    account infos exist for every validated request. *)
From S2P Require Import Prelude Codec CoreState Solana FeeMath Validation Capability GeneratedWire.
From S2P Require Import Settlement EngineProbe Progress GeneratedCore ReferenceRuntime.

Section GeneratedProgress.
Context `{Runtime} {C : CoreConfig}.

(** An engine that answers: with an output the request allows, for this
    request, changing none of the other fixed accounts. *)
Definition engine_offers (w : World) (a : ExecuteEngineGeneratedProbeV0)
    (args : ExecuteEngineGeneratedProbeV0Args) (opaque : list CapabilityDescriptor)
    (infos : list AccountInfo) (request : EngineRequest) : Prop :=
  let e := ge_env a in
  exists w' bytes receipt,
    invoke w (generated_instruction a opaque (EVALUATE_DISCRIMINATOR ++ engine_request_layout request))
      (ev_engine_state e :: ge_instructions_sysvar a :: infos) = Ok w' /\
    w_return_data w' = Some (ai_key (ev_engine_program e), bytes) /\
    decode_receipt bytes = Ok receipt /\ gr_request_hash receipt = gq_request_hash request /\
    0 < gr_amount_out receipt /\ ga_min_output_credit args <= gr_amount_out receipt /\
    gr_amount_out receipt <= d_accounted_b (acc_data (ev_domain e)) /\
    forall k, k ∈ generated_fixed_keys a -> k <> ai_key (ev_engine_state e) ->
      w_accounts w' !! k = w_accounts w !! k.

(** The wire request of a validated call. *)
Lemma generated_request_total e args rh ch n :
  byte_string 32 rh -> byte_string 32 ch -> byte_string 32 (key (ev_market e)) ->
  byte_string 32 (key (ev_domain e)) ->
  Forall is_u64 [m_engine_revision (acc_data (ev_market e)); ga_amount_in args;
    d_accounted_a (acc_data (ev_domain e)); d_accounted_b (acc_data (ev_domain e))] ->
  Forall is_u8 (ga_opaque_payload args) -> (n <= MAX_OPAQUE_ACCOUNTS)%nat ->
  (length (ga_opaque_payload args) <= MAX_OPAQUE_PAYLOAD_LEN)%nat ->
  exists request, generated_engine_request e args rh ch (Z.of_nat n) = Ok request /\
    gq_request_hash request = rh /\ engine_request_wf request /\ engine_request_valid request /\
    encode_evaluate_instruction request =
      Ok (EVALUATE_DISCRIMINATOR ++ engine_request_layout request).
Proof.
  intros Hrh Hch Hm Hd Hz Hp Hn Hl.
  destruct (canonical_payload_total _ Hl) as (len & padded & Hcp).
  pose proof (canonical_payload_Ok _ _ _ Hcp) as (-> & _ & Hpl & _ & Hz0 & Hpb).
  unfold MAX_OPAQUE_ACCOUNTS, MAX_OPAQUE_PAYLOAD_LEN in *.
  unfold generated_engine_request, new_engine_request, wire, validate_opaque_account_count.
  unfold MAX_OPAQUE_ACCOUNTS. rewrite (proj2 (Z.ltb_ge _ _)) by lia. rewrite bind_ret_l, Hcp.
  eexists. split; [reflexivity|]. split; [done|].
  match goal with |- ?W /\ _ => assert W as Hwf end.
  { rewrite !Forall_cons in *. unfold engine_request_wf. simpl. rewrite !Forall_cons, !Forall_nil.
    assert (is_u16 (Z.of_nat n) /\ is_u16 (Z.of_nat (length (ga_opaque_payload args))))
      by (unfold in_width; lia).
    assert (byte_string MAX_OPAQUE_PAYLOAD_LEN padded) by (split; auto). tauto. }
  split; [done|]. match goal with |- ?V /\ _ => assert V as Hv end.
  { unfold engine_request_valid. simpl. split_and!; [lia..|done]. }
  split; [done|]. destruct (evaluate_instruction_roundtrip _ Hwf Hv) as (data & He & _).
  by destruct (encode_evaluate_layout _ _ Hwf He) as [_ <-].
Qed.

(** The engine call of a validated request succeeds. *)
Lemma generated_call_completes w a remaining args ec opaque ph :
  let e := ge_env a in
  sha256_output -> consistent_infos remaining ->
  generated_envelope w a args = Ok tt -> Forall is_u8 (ga_opaque_payload args) ->
  validate_opaque_capabilities remaining (generated_fixed_keys a) = Ok opaque ->
  request_binding_wf (generated_request_binding a args (gc_protocol_fee ec)
    (ga_expected_capability_hash args) ph) ->
  (forall infos request, map_result (normalized_info remaining) opaque = Ok infos ->
    engine_request_wf request -> engine_request_valid request ->
    engine_offers w a args opaque infos request) ->
  exists rh request w1 receipt,
    compute_request_hash (generated_request_binding a args (gc_protocol_fee ec)
      (ga_expected_capability_hash args) ph) = Ok rh /\
    generated_engine_request e args rh (ga_expected_capability_hash args)
      (Z.of_nat (length remaining)) = Ok request /\
    generated_invoke w a remaining opaque request = Ok w1 /\
    generated_receipt w1 e args rh = Ok receipt /\
    0 < gr_amount_out receipt <= d_accounted_b (acc_data (ev_domain e)) /\
    forall k, k ∈ generated_fixed_keys a -> k <> ai_key (ev_engine_state e) ->
      w_accounts w1 !! k = w_accounts w !! k.
Proof.
  intros e Hsha Hci Henv Hpay Hop Hwf Heng.
  pose proof (proj1 (validate_opaque_capabilities_Ok _ _ _) Hop) as (Hlen & _).
  destruct (opaque_infos_available _ _ _ id Hci Hop) as [infos Hinf]; [done | rewrite map_id in Hinf].
  assert (length (ga_opaque_payload args) <= MAX_OPAQUE_PAYLOAD_LEN)%nat as Hpl.
  { unfold generated_envelope, validate_opaque_payload in Henv. inv_guarded.
    by match goal with H : (_ <=? _)%nat = true |- _ => apply Nat.leb_le in H end. }
  pose proof (compute_request_hash_ok _ Hwf) as Hh. destruct Hwf as [Hk Hz]. simpl in Hk, Hz.
  rewrite !Forall_cons in Hk. rewrite !Forall_cons in Hz.
  edestruct (generated_request_total e args _ (ga_expected_capability_hash args) (length remaining)
    (Hsha (request_preimage (generated_request_binding a args (gc_protocol_fee ec)
      (ga_expected_capability_hash args) ph)))) as (request & Hr & Hrh & Hrw & Hrv & He); [tauto.. | | done | done | done |].
  { rewrite !Forall_cons. tauto. }
  destruct (Heng _ _ Hinf Hrw Hrv) as (w1 & bytes & receipt & Hi & Hret & Hdec & Hrr & H0 & Hmin & Hliq & Hfr).
  do 2 eexists. exists w1, receipt. split; [exact Hh|]. split; [exact Hr|].
  unfold generated_invoke, generated_receipt, wire. rewrite He, Hinf, Hret.
  cbn [map_err core_ok_or ok_or]. rewrite !bind_ret_l. split; [exact Hi|].
  unfold require_keys_eq, require_core. rewrite key_eqb_refl. cbn [require].
  rewrite bind_ret_l, Hdec. cbn [map_err]. rewrite bind_ret_l, bool_decide_eq_true_2 by congruence.
  cbn [require]. rewrite !bind_ret_l, (proj2 (Z.ltb_lt _ _)), !(proj2 (Z.leb_le _ _)) by done.
  by split.
Qed.

Lemma generated_settleable w w1 a args ec amount_out :
  generated_constraints w a = Ok tt -> generated_envelope w a args = Ok tt ->
  generated_economics w (ge_env a) args = Ok ec ->
  (forall k, k ∈ generated_fixed_keys a -> k <> ai_key (ev_engine_state (ge_env a)) ->
    w_accounts w1 !! k = w_accounts w !! k) ->
  0 < amount_out <= d_accounted_b (acc_data (ev_domain (ge_env a))) ->
  funded (ge_env a) (ga_amount_in args) (gc_protocol_fee ec) amount_out ->
  settleable w1 (ge_env a) (ge_user a) [] (ga_amount_in args) (gc_protocol_fee ec) amount_out.
Proof.
  intros Hc Henv Hec Hfr [Ho Hliq] Hf.
  pose proof (generated_economics_Ok _ _ _ _ Hec) as (Hn & _ & (Hfee & _) & _).
  pose proof (generated_envelope_Ok _ _ _ _ Henv) as (_ & Hnd & _).
  unfold generated_constraints in Hc. unfold generated_envelope in Henv. inv_guarded. to_prop.
  match goal with H : validate_protected_token_account _ _ _ = _ |- _ =>
    apply (owner_spends _ _ _ (ga_amount_in args + gc_protocol_fee ec)) in H as [? ?] end.
  eapply guards_settleable; try eassumption; try reflexivity.
  - intros k Hk. apply Hfr.
    + revert k Hk. unfold generated_fixed_keys. set_solver.
    + refine (NoDup_sublist_ne _ _ _ _ Hnd _ Hk). unfold generated_fixed_keys. simpl. solve_sublist.
  - by left.
  - by apply generated_fixed_settlement_keys.
Qed.

(** C11. Progress of the generated settlement: a request that passes the
    constraints, the envelope checks, the limits and the capability
    validation, with the capability hash the user signed, whose engine offers
    an acceptable output, is settled. *)
Theorem execute_generated_completes w a remaining args ec opaque ph :
  let e := ge_env a in
  sha256_output -> transfer_progress ID -> consistent_infos remaining ->
  generated_constraints w a = Ok tt -> generated_envelope w a args = Ok tt ->
  generated_economics w e args = Ok ec ->
  validate_opaque_capabilities remaining (generated_fixed_keys a) = Ok opaque ->
  compute_capability_hash (ai_key (ev_engine_program e)) (generated_capabilities a opaque) =
    Ok (ga_expected_capability_hash args) ->
  compute_payload_hash (ga_opaque_payload args) = Ok ph ->
  Forall is_u8 (ga_opaque_payload args) ->
  request_binding_wf (generated_request_binding a args (gc_protocol_fee ec)
    (ga_expected_capability_hash args) ph) ->
  (forall infos request, map_result (normalized_info remaining) opaque = Ok infos ->
    engine_request_wf request -> engine_request_valid request ->
    engine_offers w a args opaque infos request) ->
  (forall amount_out, amount_out <= d_accounted_b (acc_data (ev_domain e)) ->
    funded e (ga_amount_in args) (gc_protocol_fee ec) amount_out) ->
  exists w' ev, execute_engine_generated_probe w a remaining args = Ok (w', ev).
Proof.
  intros e Hsha Hlaw Hci Hc Henv Hec Hop Hch Hph Hpay Hwf Heng Hf.
  destruct (generated_call_completes w a remaining args ec opaque ph Hsha Hci Henv Hpay Hop Hwf Heng)
    as (rh & request & w1 & receipt & Hh & Hr & Hi & Hrc & Hout & Hfr).
  destruct (settle_completes _ _ _ _ _ _ _ Hlaw (generated_settleable w w1 a args ec _ Hc Henv Hec Hfr
    Hout (Hf _ (proj2 Hout)))) as (w2 & e2 & Hset & _).
  pose proof (generated_economics_Ok _ _ _ _ Hec) as (_ & _ & (_ & Htot & _) & _).
  pose proof (proj1 (validate_opaque_capabilities_Ok _ _ _) Hop) as (Hlen & _).
  unfold MAX_OPAQUE_ACCOUNTS in Hlen.
  assert (forall width, 4 <= width -> try_from width (Z.of_nat (length remaining)) =
    Some (Z.of_nat (length remaining))) as Htry.
  { intros width Hw. apply try_from_Some. split; [|done]. split; [lia|].
    apply Z.lt_le_trans with (2 ^ 4); [lia | by apply Z.pow_le_mono_r]. }
  unfold e in *. unfold execute_engine_generated_probe, handle_execute_engine_generated_probe_v0, wire.
  rewrite Hc, bind_ret_l, Henv, bind_ret_l, Hec, bind_ret_l, Hop, bind_ret_l, Hch.
  cbn [map_err]. unfold require_core. rewrite bind_ret_l, bool_decide_eq_true_2 by done. cbn [require].
  rewrite bind_ret_l, Hph. cbn [map_err]. rewrite bind_ret_l, Hh. cbn [infallible].
  rewrite bind_ret_l, (Htry 16) by lia. cbn [core_ok_or ok_or].
  rewrite bind_ret_l, Hr, bind_ret_l, Hi, bind_ret_l, Hrc, bind_ret_l.
  rewrite (proj2 (checked_sub_Some _ _ _) (conj (proj2 Hout) eq_refl)). cbn [core_ok_or ok_or].
  rewrite bind_ret_l, (Htry 8) by lia. cbn [core_ok_or ok_or].
  rewrite bind_ret_l. unfold settle_engine_generated_probe.
  cbn [gp_protocol_fee gp_total_input_debit gp_amount_out]. rewrite Htot, Hset, !bind_ret_l. eauto.
Qed.
End GeneratedProgress.

(** ** The engine of the examples *)

Lemma offering_engine_offers w a args opaque infos request :
  engine_request_wf request -> engine_request_valid request ->
  ga_min_output_credit args <= 900 <= d_accounted_b (acc_data (ev_domain (ge_env a))) ->
  @engine_offers offering_runtime generated_config w a args opaque infos request.
Proof.
  intros Hwf Hval [Hmin Hliq].
  destruct (evaluate_instruction_roundtrip _ Hwf Hval) as (data & He & Hd).
  apply encode_evaluate_layout in He as [_ ->]; [|done].
  set (rc := {| gr_request_hash := gq_request_hash request; gr_amount_out := 900;
    gr_state_sequence := 8 |}).
  assert (engine_receipt_wf rc) as Hrc.
  { destruct Hwf as [Hk _]. rewrite !Forall_cons in Hk.
    assert (is_u64 900 /\ is_u64 8) by (unfold in_width; lia).
    unfold engine_receipt_wf. simpl. rewrite !Forall_cons, !Forall_nil. tauto. }
  exists (set_return_data w (ai_key (ev_engine_program (ge_env a))) (engine_receipt_layout rc)),
    (engine_receipt_layout rc), rc.
  split; [|split_and!; try done; by apply generated_decode_receipt_ok].
  change (offering_engine w (generated_instruction a opaque (EVALUATE_DISCRIMINATOR ++
    engine_request_layout request)) (ev_engine_state (ge_env a) :: ge_instructions_sysvar a :: infos) [] =
    Ok (set_return_data w (ai_key (ev_engine_program (ge_env a))) (engine_receipt_layout rc))).
  unfold offering_engine, generated_instruction, ix_data.
  rewrite Hd. fold rc. by rewrite generated_encode_receipt_ok.
Qed.

Lemma execute_generated_completes_witness :
  let _ := offering_runtime in let _ := generated_config in
  exists w' ev,
    execute_engine_generated_probe (test_world 50000 70000 6) generated_accounts generated_opaque
      generated_args = Ok (w', ev).
Proof.
  intros rt cfg.
  destruct (is_ok_Ok (generated_economics (test_world 50000 70000 6) (ge_env generated_accounts)
    generated_args)) as [ec He]; [vm_compute; reflexivity|].
  assert (match generated_economics (test_world 50000 70000 6) (ge_env generated_accounts)
    generated_args with Ok ec => gc_protocol_fee ec | _ => 0 end = 3) as Hfee
    by (vm_compute; reflexivity).
  rewrite He in Hfee.
  apply (execute_generated_completes _ _ _ _ ec (map (opaque_descriptor generated_opaque)
    generated_opaque) (hashv [PAYLOAD_HASH_DOMAIN; encode_payload [1; 2; 3]])).
  - intros l. apply toy_digest_bytes.
  - apply reference_transfer_progress.
  - decide_closed.
  - vm_compute. reflexivity.
  - vm_compute. reflexivity.
  - exact He.
  - vm_compute. reflexivity.
  - vm_compute. reflexivity.
  - vm_compute. reflexivity.
  - decide_closed.
  - rewrite Hfee. decide_closed.
  - intros infos request _ Hwf Hval. apply offering_engine_offers; [done..|].
    vm_compute. split; congruence.
  - intros amount_out Ho. rewrite Hfee.
    assert (d_accounted_b (acc_data (ev_domain (ge_env generated_accounts))) = 70000 /\
      ga_amount_in generated_args = 1000 /\
      amount_of (ev_user_source_a (ge_env generated_accounts)) = 1000000 /\
      amount_of (ev_vault_a (ge_env generated_accounts)) = 50010 /\
      amount_of (ev_fee_vault (ge_env generated_accounts)) = 16 /\
      amount_of (ev_user_destination_b (ge_env generated_accounts)) = 1000000)
      as (Hb & Hi & Hs & Ha & Hv & Hd) by (split_and!; vm_compute; reflexivity).
    rewrite Hb in Ho. unfold funded. rewrite Hi, Hs, Ha, Hv, Hd. lia.
Defined.
