(* ===== verification/GeneratedEngine.v ===== *)
(** * engine-generated-settlement: test-programs/generated-plan-engine

    The engine that derives the output of a settlement: a constant-product
    quote from Core's accounted reserves, made with nothing but the capability
    closure Core hashed; and the two programs together. *)
From S2P Require Import Prelude Codec CoreState EngineState Solana ReferenceRuntime EngineFrame.
From S2P Require Import Helpers Capability Cpmm GeneratedWire Validation Settlement GeneratedCore.

Definition generated_engine_ID : Pubkey :=
  Eval vm_compute in pubkey_literal "EAX2oQEejkYYTxaVCbQ3pfy9bySj3WMwtV36gvf77Mj1".
Definition CORE_EXECUTE_ENGINE_GENERATED_PROBE_DISCRIMINATOR : list Z :=
  [0x5f; 0xaa; 0xd9; 0x7c; 0x75; 0x15; 0xb2; 0xae].
Definition CAPABILITY_AUTHORITY_SEED : list Z := bytes_of_string "capability-authority-v0".

Definition MODE_ACCEPT : Z := 0.
Definition MODE_MISSING_RECEIPT : Z := 1.
Definition MODE_WRONG_REQUEST_HASH : Z := 2.
Definition MODE_MALFORMED_RECEIPT : Z := 3.
Definition MODE_ZERO_OUTPUT : Z := 4.
Definition MODE_OVERSIZED_OUTPUT : Z := 5.
Definition MODE_HOSTILE_READONLY_ESCALATION : Z := 6.
Definition MODE_WRONG_RECEIPT_MAGIC : Z := 7.
Definition MODE_WRONG_RECEIPT_VERSION : Z := 8.
Definition MODE_TRAILING_RECEIPT_BYTE : Z := 9.

Definition is_supported_mode (mode : Z) : bool :=
  existsb (Z.eqb mode)
    [MODE_ACCEPT; MODE_MISSING_RECEIPT; MODE_WRONG_REQUEST_HASH; MODE_MALFORMED_RECEIPT;
     MODE_ZERO_OUTPUT; MODE_OVERSIZED_OUTPUT; MODE_HOSTILE_READONLY_ESCALATION;
     MODE_WRONG_RECEIPT_MAGIC; MODE_WRONG_RECEIPT_VERSION; MODE_TRAILING_RECEIPT_BYTE].

Definition generated_state_at (w : World) (k : Pubkey) : option GeneratedEngineState :=
  match program_data_at w k with Some (GeneratedEngineData s) => Some s | _ => None end.
Definition marker_at (w : World) (k : Pubkey) : option CapabilityAuthorityMarker :=
  match program_data_at w k with Some (MarkerData m) => Some m | _ => None end.

Definition U64_MAX : Z := 2 ^ 64 - 1.

Section Engine.
Context `{Runtime} `{Introspection} (cpi : Cpi) (escalation_data : list Z).

(** *** initialize and set_mode *)

Record InitializeEngine := {
  ie_state : InitializeState;
  ie_capability_authority : AccountInfo }.

Definition initial_engine_state (authority market : Pubkey) (revision lp_fee_bps bump : Z)
    : GeneratedEngineState := {|
  gs_authority := authority; gs_market := market; gs_revision := revision;
  gs_lp_fee_bps := lp_fee_bps; gs_sequence := 0; gs_last_request_hash := replicate 32 0;
  gs_last_amount_out := 0; gs_capability_authority_bump := bump; gs_mode := MODE_ACCEPT |}.

Definition initialize (w : World) (a : InitializeEngine) (remaining : list AccountInfo)
    (market : Pubkey) (revision lp_fee_bps : Z) : engine_result World :=
  let state := ie_state a in
  _ ← init_keypair w (is_state state);
  let '(expected, bump) := find_program_address
    [CAPABILITY_AUTHORITY_SEED; ai_key (is_state state)] generated_engine_ID in
  _ ← require_engine (key_eqb (ai_key (ie_capability_authority a)) expected &&
                      ai_is_writable (ie_capability_authority a) &&
                      bool_decide (w_accounts w !! ai_key (ie_capability_authority a) = None))
        EngineConstraint;
  _ ← init_payer (is_authority state) (is_system_program state);
  _ ← require_engine (bool_decide (remaining = [])) UnexpectedAccount;
  _ ← require_engine (negb (key_eqb market default_pubkey)) InvalidMarket;
  _ ← require_engine (negb (revision =? 0)) InvalidRevision;
  _ ← require_engine (lp_fee_bps <? ENGINE_BASIS_POINTS_DENOMINATOR) InvalidLpFeeBps;
  let w := store w (ai_key (is_state state)) (OtherProgramData (GeneratedEngineData
    (initial_engine_state (ai_key (is_authority state)) market revision lp_fee_bps bump))) in
  Ok (store w (ai_key (ie_capability_authority a)) (OtherProgramData (MarkerData
        {| cam_engine_state := ai_key (is_state state) |}))).

Definition with_mode (s : GeneratedEngineState) (mode : Z) : GeneratedEngineState := {|
  gs_authority := gs_authority s; gs_market := gs_market s; gs_revision := gs_revision s;
  gs_lp_fee_bps := gs_lp_fee_bps s; gs_sequence := gs_sequence s;
  gs_last_request_hash := gs_last_request_hash s; gs_last_amount_out := gs_last_amount_out s;
  gs_capability_authority_bump := gs_capability_authority_bump s; gs_mode := mode |}.

Definition set_mode (w : World) (a : SetMode GeneratedEngineState) (remaining : list AccountInfo)
    (mode : Z) : engine_result World :=
  _ ← set_mode_constraints generated_state_at gs_authority w generated_engine_ID a;
  _ ← require_engine (bool_decide (remaining = [])) UnexpectedAccount;
  _ ← require_engine (is_supported_mode mode) InvalidMode;
  Ok (store w (key (sm_engine_state a))
        (OtherProgramData (GeneratedEngineData (with_mode (acc_data (sm_engine_state a)) mode)))).

(** *** The helper command *)

Definition maybe_invoke_helper (w : World) (payload : list Z)
    (remaining_accounts : list AccountInfo) (engine_state_key : Pubkey)
    (capability_authority_bump : Z) : engine_result World :=
  if negb (names_helper payload) then Ok w else
  _ ← require_engine ((3 <=? length remaining_accounts)%nat &&
                      (length remaining_accounts <=? MAX_OPAQUE_ACCOUNTS)%nat)
        InvalidHelperCapabilityClosure;
  match remaining_accounts with
  | helper_program :: helper_state :: capability_authority :: _ =>
      _ ← require_engine (ai_executable helper_program && negb (ai_is_writable helper_program) &&
                          negb (ai_is_signer helper_program)) InvalidHelperProgram;
      _ ← require_engine_keys_eq (ai_key helper_program) OpaqueProbe.ID InvalidHelperProgram;
      _ ← require_engine (ai_is_writable helper_state && negb (ai_is_signer helper_state) &&
                          negb (ai_executable helper_state)) InvalidHelperState;
      _ ← require_engine_keys_eq (ai_owner helper_state) (ai_key helper_program) InvalidHelperState;
      _ ← require_engine (negb (ai_is_writable capability_authority) &&
                          negb (ai_is_signer capability_authority) &&
                          negb (ai_executable capability_authority)) InvalidCapabilityAuthority;
      _ ← require_engine_keys_eq (ai_owner capability_authority) generated_engine_ID
            InvalidCapabilityAuthority;
      _ ← require_engine (negb (key_eqb (ai_key helper_program) (ai_key helper_state)) &&
                          negb (key_eqb (ai_key helper_program) (ai_key capability_authority)) &&
                          negb (key_eqb (ai_key helper_state) (ai_key capability_authority)))
            InvalidHelperCapabilityClosure;
      let authority_seeds :=
        [CAPABILITY_AUTHORITY_SEED; engine_state_key; [capability_authority_bump]] in
      expected_authority ← ok_or (create_program_address authority_seeds generated_engine_ID)
        InvalidCapabilityAuthority;
      _ ← require_engine_keys_eq expected_authority (ai_key capability_authority)
            InvalidCapabilityAuthority;
      marker ← ok_or (marker_at w (ai_key capability_authority)) InvalidCapabilityAuthority;
      _ ← require_engine_keys_eq (cam_engine_state marker) engine_state_key
            InvalidCapabilityAuthority;
      amount ← helper_amount payload;
      map_err EngineCpi
        (cpi w {| ix_program_id := ai_key helper_program;
                  ix_accounts := [meta_new (ai_key helper_state) false;
                                  meta_new_readonly (ai_key capability_authority) true];
                  ix_data := helper_increment_data amount |}
           [helper_state; capability_authority; helper_program] [authority_seeds])
  | _ => Panic
  end.

(** *** evaluate *)

Record Evaluate := {
  gv_engine_state : Account GeneratedEngineState;
  gv_instructions_sysvar : AccountInfo }.

Definition evaluate_accounts (w : World) (accounts : list AccountInfo)
    : engine_result (Evaluate * list AccountInfo) :=
  match accounts with
  | state :: sysvar :: remaining =>
      s ← ok_or (generated_state_at w (ai_key state)) EngineConstraint;
      _ ← require_engine (key_eqb (ai_owner state) generated_engine_ID && ai_is_writable state)
            EngineConstraint;
      _ ← require_engine (key_eqb (ai_key sysvar) INSTRUCTIONS_SYSVAR_ID) EngineConstraint;
      Ok ({| gv_engine_state := Build_Account state s; gv_instructions_sysvar := sysvar |},
          remaining)
  | _ => Err EngineConstraint
  end.

Definition attempt_readonly_to_writable_self_cpi (w : World) (instructions : AccountInfo)
    : engine_result World :=
  map_err EngineCpi
    (cpi w {| ix_program_id := generated_engine_ID;
              ix_accounts := [meta_new (ai_key instructions) false];
              ix_data := escalation_data |} [instructions] []).

Definition hostile_escalation_probe : engine_result World := Err HostileCpiUnexpectedlySucceeded.

(** The state after an evaluation: [sequence.checked_add(1)] and the record. *)
Definition record_evaluation (s : GeneratedEngineState) (request_hash : list Z) (amount_out : Z)
    : engine_result GeneratedEngineState :=
  sequence ← ok_or (checked_add 64 (gs_sequence s) 1) SequenceOverflow;
  Ok {| gs_authority := gs_authority s; gs_market := gs_market s; gs_revision := gs_revision s;
        gs_lp_fee_bps := gs_lp_fee_bps s; gs_sequence := sequence;
        gs_last_request_hash := request_hash; gs_last_amount_out := amount_out;
        gs_capability_authority_bump := gs_capability_authority_bump s; gs_mode := gs_mode s |}.

(** The final [match state.mode]. *)
Definition emit (w : World) (mode : Z) (receipt : list Z) : engine_result World :=
  let set data := Ok (set_return_data w generated_engine_ID data) in
  if existsb (Z.eqb mode) [MODE_ACCEPT; MODE_ZERO_OUTPUT; MODE_OVERSIZED_OUTPUT] then set receipt
  else if mode =? MODE_MISSING_RECEIPT then Ok w
  else if mode =? MODE_WRONG_REQUEST_HASH then set (flip_bit 9 receipt)
  else if mode =? MODE_MALFORMED_RECEIPT then set (take (length receipt - 1) receipt)
  else if mode =? MODE_WRONG_RECEIPT_MAGIC then set (flip_bit 0 receipt)
  else if mode =? MODE_WRONG_RECEIPT_VERSION then set (flip_bit 8 receipt)
  else if mode =? MODE_TRAILING_RECEIPT_BYTE then set (receipt ++ [0])
  else Err InvalidMode.

Definition offered (mode quoted : Z) : Z :=
  if mode =? MODE_ZERO_OUTPUT then 0
  else if mode =? MODE_OVERSIZED_OUTPUT then U64_MAX else quoted.

(** The descriptors of the accounts, in the order the engine was handed them. *)
Definition observed_descriptors (accounts : list AccountInfo) : list CapabilityDescriptor :=
  map capability_descriptor accounts.

Definition evaluate (w : World) (a : Evaluate) (remaining : list AccountInfo)
    (wire_request : list Z) : engine_result World :=
  _ ← require_direct_core_cpi generated_ID CORE_EXECUTE_ENGINE_GENERATED_PROBE_DISCRIMINATOR w;
  request ← map_err (fun _ => InvalidRequestEncoding) (decode_request wire_request);
  _ ← require_engine (length remaining <=? MAX_OPAQUE_ACCOUNTS)%nat TooManyCapabilities;
  _ ← require_engine (Z.of_nat (length remaining) =? gq_opaque_account_count request)
        CapabilityCountMismatch;
  let state := acc_data (gv_engine_state a) in
  _ ← require_engine_keys_eq (gs_market state) (gq_market request) MarketMismatch;
  _ ← require_engine (gs_revision state =? gq_engine_revision request) RevisionMismatch;
  let descriptors := observed_descriptors
    (acc_info (gv_engine_state a) :: gv_instructions_sysvar a :: remaining) in
  observed_capability_hash ← map_err (fun _ => CapabilityHashComputationFailed)
    (compute_capability_hash generated_engine_ID descriptors);
  _ ← require_engine (bool_decide (observed_capability_hash = gq_capability_hash request))
        CapabilityHashMismatch;
  quote ← quote_exact_in (gq_accounted_input_before request) (gq_accounted_output_before request)
    (gq_amount_in request) (gs_lp_fee_bps state);
  let amount_out := offered (gs_mode state) (cq_amount_out quote) in
  payload ← map_err (fun _ => InvalidRequestEncoding) (payload_bytes request);
  w ← maybe_invoke_helper w payload remaining (key (gv_engine_state a))
    (gs_capability_authority_bump state);
  if gs_mode state =? MODE_HOSTILE_READONLY_ESCALATION then
    state' ← record_evaluation state (gq_request_hash request) amount_out;
    let w := store w (key (gv_engine_state a)) (OtherProgramData (GeneratedEngineData state')) in
    _ ← attempt_readonly_to_writable_self_cpi w (gv_instructions_sysvar a);
    Err HostileCpiUnexpectedlySucceeded
  else
    state' ← record_evaluation state (gq_request_hash request) amount_out;
    receipt ← infallible (encode_receipt {| gr_request_hash := gq_request_hash request;
      gr_amount_out := amount_out; gr_state_sequence := gs_sequence state' |});
    w ← emit w (gs_mode state') receipt;
    Ok (store w (key (gv_engine_state a)) (OtherProgramData (GeneratedEngineData state'))).

Definition evaluate_handler : Handler := fun w accounts args =>
  '(a, remaining) ← evaluate_accounts w accounts;
  _ ← require_engine (ENGINE_REQUEST_LEN <=? length args)%nat EngineConstraint;
  evaluate w a remaining (take ENGINE_REQUEST_LEN args).
End Engine.

(** ** What a run of the engine does *)

Definition generated_state_wf (s : GeneratedEngineState) : Prop :=
  is_u64 (gs_sequence s) /\ is_u16 (gs_lp_fee_bps s).

(** The return-data slot after [emit]. *)
Definition answer (mode : Z) (before : option (Pubkey * list Z)) (receipt : list Z)
    : option (Pubkey * list Z) :=
  if mode =? MODE_MISSING_RECEIPT then before
  else Some (generated_engine_ID,
    if mode =? MODE_WRONG_REQUEST_HASH then flip_bit 9 receipt
    else if mode =? MODE_MALFORMED_RECEIPT then take (length receipt - 1) receipt
    else if mode =? MODE_WRONG_RECEIPT_MAGIC then flip_bit 0 receipt
    else if mode =? MODE_WRONG_RECEIPT_VERSION then flip_bit 8 receipt
    else if mode =? MODE_TRAILING_RECEIPT_BYTE then receipt ++ [0] else receipt).

Definition answering_modes : list Z :=
  [MODE_ACCEPT; MODE_ZERO_OUTPUT; MODE_OVERSIZED_OUTPUT; MODE_MISSING_RECEIPT;
   MODE_WRONG_REQUEST_HASH; MODE_MALFORMED_RECEIPT; MODE_WRONG_RECEIPT_MAGIC;
   MODE_WRONG_RECEIPT_VERSION; MODE_TRAILING_RECEIPT_BYTE].

Lemma emit_Ok w mode receipt w' :
  emit w mode receipt = Ok w' ->
  mode ∈ answering_modes /\ w_accounts w' = w_accounts w /\
  w_return_data w' = answer mode (w_return_data w) receipt.
Proof.
  unfold emit. intros He.
  destruct (existsb _ _) eqn:E1.
  - apply existsb_exists in E1 as (m & Hm & ->%Z.eqb_eq). apply Ok_inj in He as <-.
    destruct Hm as [<-|[<-|[<-|[]]]]; (split; [set_solver | done]).
  - repeat (case_match; to_prop); try discriminate; apply Ok_inj in He as <-;
      match goal with H : mode = _ |- _ => rewrite H end; (split; [set_solver | done]).
Qed.

Section Run.
Context `{Runtime} `{Introspection} (cpi : Cpi) (escalation_data : list Z).

Record EvaluationRun (w : World) (accounts : list AccountInfo) (args : list Z) (w' : World)
    (state sysvar : AccountInfo) (remaining : list AccountInfo) (s : GeneratedEngineState)
    (request : EngineRequest) (q : CpmmQuote) (payload receipt : list Z) (w1 : World) : Prop := {
  er_accounts : accounts = state :: sysvar :: remaining;
  er_loaded : generated_state_at w (ai_key state) = Some s;
  er_owner : ai_owner state = generated_engine_ID;
  er_direct : require_direct_core_cpi generated_ID
    CORE_EXECUTE_ENGINE_GENERATED_PROBE_DISCRIMINATOR w = Ok tt;
  er_request : decode_request (take ENGINE_REQUEST_LEN args) = Ok request;
  er_count : Z.of_nat (length remaining) = gq_opaque_account_count request;
  er_market : gs_market s = gq_market request;
  er_revision : gs_revision s = gq_engine_revision request;
  er_closure : compute_capability_hash generated_engine_ID (observed_descriptors accounts) =
    Ok (gq_capability_hash request);
  er_quote : quote_exact_in (gq_accounted_input_before request)
    (gq_accounted_output_before request) (gq_amount_in request) (gs_lp_fee_bps s) = Ok q;
  er_payload : payload_bytes request = Ok payload;
  er_helper : maybe_invoke_helper cpi w payload remaining (ai_key state)
    (gs_capability_authority_bump s) = Ok w1;
  er_mode : gs_mode s ∈ answering_modes;
  er_sequence : gs_sequence s + 1 < 2 ^ 64;
  er_receipt : encode_receipt {| gr_request_hash := gq_request_hash request;
    gr_amount_out := offered (gs_mode s) (cq_amount_out q);
    gr_state_sequence := gs_sequence s + 1 |} = Ok receipt;
  er_written : exists s',
    record_evaluation s (gq_request_hash request) (offered (gs_mode s) (cq_amount_out q)) = Ok s' /\
    w_accounts w' = <[ai_key state := OtherProgramData (GeneratedEngineData s')]> (w_accounts w1);
  er_answer : w_return_data w' = answer (gs_mode s) (w_return_data w1) receipt }.

Lemma record_evaluation_Ok s h out s' :
  record_evaluation s h out = Ok s' ->
  gs_sequence s + 1 < 2 ^ 64 /\ gs_sequence s' = gs_sequence s + 1 /\ gs_mode s' = gs_mode s /\
  gs_last_request_hash s' = h /\ gs_last_amount_out s' = out.
Proof. unfold record_evaluation. intros Hr. inv_engine. inv_checked. subst. by split_and!. Qed.

Lemma generated_handler_Ok w accounts args w' :
  evaluate_handler cpi escalation_data w accounts args = Ok w' ->
  exists state sysvar remaining s request q payload receipt w1,
    EvaluationRun w accounts args w' state sysvar remaining s request q payload receipt w1.
Proof.
  unfold evaluate_handler, evaluate_accounts. intros Hh.
  destruct accounts as [|state [|sysvar remaining]]; [discriminate..|].
  apply bind_Ok in Hh as ([a rest] & Ha & Hh). inv_engine.
  match goal with H : evaluate _ _ _ _ _ _ = Ok _ |- _ => unfold evaluate in H end.
  inv_engine. subst. unfold key in *.
  cbn [gv_engine_state gv_instructions_sysvar acc_data acc_info] in *.
  destruct (_ =? MODE_HOSTILE_READONLY_ESCALATION); inv_engine.
  match goal with H : emit _ _ _ = Ok _ |- _ => apply emit_Ok in H as (Hm & Hacc & Hret) end.
  match goal with H : record_evaluation _ _ _ = Ok ?s' |- _ =>
    pose proof H as Hrec; apply record_evaluation_Ok in H as (Hlt & Hsq & Hmode & _) end.
  rewrite Hmode in *. rewrite Hsq in *. to_prop. unfold key_eqb in *. to_prop. subst.
  do 9 eexists. constructor; try eassumption; try reflexivity.
  eexists. split; [exact Hrec|]. cbn [store w_accounts]. by rewrite Hacc.
Qed.

(** ** The helper command *)

(** What the helper's counter gains, if the payload names the helper. *)
Lemma maybe_invoke_helper_Ok w payload remaining k bump w' :
  Forall is_u8 payload ->
  runs cpi OpaqueProbe.ID HELPER_INCREMENT_DISCRIMINATOR OpaqueProbe.increment_handler ->
  maybe_invoke_helper cpi w payload remaining k bump = Ok w' ->
  (names_helper payload = false /\ w' = w) \/
  exists program state authority rest hs amount bytes,
    names_helper payload = true /\ remaining = program :: state :: authority :: rest /\
    helper_amount payload = Ok amount /\
    create_program_address [CAPABILITY_AUTHORITY_SEED; k; [bump]] generated_engine_ID =
      Some (ai_key authority) /\
    ai_owner state = OpaqueProbe.ID /\
    OpaqueProbe.state_at w (ai_key state) = Some hs /\ hs_authority hs = ai_key authority /\
    w_accounts w' = <[ai_key state := OtherProgramData (OpaqueHelperData
      (with_counters hs (hs_calls hs + 1) (hs_value hs + amount)))]> (w_accounts w) /\
    w_return_data w' = Some (OpaqueProbe.ID, bytes).
Proof.
  intros Hu8 Hruns. unfold maybe_invoke_helper.
  destruct (names_helper payload) eqn:En; cbn [negb]; intros Hm; [right|left].
  2: { split; [done|]. by apply Ok_inj in Hm. }
  apply bind_Ok in Hm as (u & Hl & Hm).
  destruct remaining as [|program [|state [|authority rest]]]; [discriminate..|]. inv_engine.
  match goal with H : helper_amount _ = Ok ?n |- _ => rename n into amount; rename H into Hamount end.
  match goal with Hp : ai_key program = _ |- _ =>
    pose proof (Hruns w {| ix_program_id := ai_key program; ix_data := helper_increment_data amount |}
      _ _ w' (to_le_bytes 8 amount) Hp eq_refl Hm) as (accounts & w1 & Hacc & Hrun & ->) end.
  apply callee_accounts_keys in Hacc. apply OpaqueProbe.opaque_increment_Ok in Hrun
    as (st & au & hs & -> & Hst & _ & _ & Hau & _ & Hrun).
  injection Hacc as Kst Kau. rewrite Kst, Kau in *.
  rewrite (helper_amount_read _ (helper_amount_u64 _ _ Hu8 Hamount)) in Hrun.
  destruct Hrun as (_ & _ & Hw & Hr).
  do 7 eexists. split_and!; try eassumption; try reflexivity; congruence.
Qed.
End Run.

(** ** The answers Core accepts *)

Lemma accepted_answer mode hash out sequence receipt before bytes rc :
  mode ∈ answering_modes -> byte_string 32 hash -> is_u64 out -> is_u64 sequence ->
  (forall b, before <> Some (generated_engine_ID, b)) ->
  encode_receipt {| gr_request_hash := hash; gr_amount_out := out;
                    gr_state_sequence := sequence |} = Ok receipt ->
  answer mode before receipt = Some (generated_engine_ID, bytes) ->
  decode_receipt bytes = Ok rc -> gr_request_hash rc = hash ->
  mode ∈ [MODE_ACCEPT; MODE_ZERO_OUTPUT; MODE_OVERSIZED_OUTPUT] /\
  gr_amount_out rc = out /\ gr_state_sequence rc = sequence.
Proof.
  intros Hm Hhash Ho Hs Hb He Ha Hdec Hh.
  set (r := {| gr_request_hash := hash; gr_amount_out := out; gr_state_sequence := sequence |}) in *.
  assert (engine_receipt_wf r) as Hwf by (repeat constructor; done || apply Hhash || apply Ho || apply Hs).
  rewrite generated_encode_receipt_ok in He by done. apply Ok_inj in He as <-.
  pose proof (generated_receipt_prefix _ _ Hdec) as [Hl Hprefix].
  pose proof (generated_receipt_prefix _ _ (generated_decode_receipt_ok r Hwf)) as [Hlen Hlayout].
  pose proof (generated_decode_receipt_ok r Hwf) as Hr.
  remember (engine_receipt_layout r) as layout eqn:E. clear E. rewrite Hh in Hprefix.
  change (gr_request_hash r) with hash in Hlayout.
  assert (forall i, (i < 41)%nat -> bytes <> flip_bit i layout) as Hflip.
  { intros i Hi ->. apply (flip_bit_prefix i 41 layout); [done | | congruence].
    rewrite Hlen. unfold ENGINE_RECEIPT_LEN. lia. }
  assert (bytes = layout -> gr_amount_out rc = out /\ gr_state_sequence rc = sequence) as Hsame
    by (intros ->; rewrite Hr in Hdec; by injection Hdec as <-).
  unfold answering_modes in Hm. rewrite !elem_of_cons in Hm. unfold answer in Ha.
  destruct Hm as [->|[->|[->|[->|[->|[->|[->|[->|[->|Hm]]]]]]]]]; cbn -[flip_bit app take length Nat.sub] in Ha;
    try (by apply not_elem_of_nil in Hm); try (by destruct (Hb bytes)).
  1-3: split; [set_solver | apply Hsame; congruence].
  all: exfalso.
  - apply (Hflip 9%nat); [lia | congruence].
  - assert (bytes = take (length layout - 1) layout) as -> by congruence.
    rewrite length_take, Hlen in Hl. discriminate Hl.
  - apply (Hflip 0%nat); [lia | congruence].
  - apply (Hflip 8%nat); [lia | congruence].
  - assert (bytes = layout ++ [0]) as -> by congruence.
    rewrite length_app, Hlen in Hl. discriminate Hl.
Qed.

(** ** Core and its engine *)

Section ClosedLoop.
Context `{Runtime} {C : CoreConfig} `{Introspection} (cpi : Cpi) (escalation_data : list Z).

Lemma generated_state_not_settled a :
  NoDup (generated_fixed_keys a) ->
  ai_key (ev_engine_state (ge_env a)) ∉ settlement_keys (ge_env a).
Proof.
  intros Hnd.
  assert (NoDup (settlement_keys (ge_env a) ++ [ai_key (ev_engine_state (ge_env a))])) as Hn.
  { eapply sublist_NoDup; [exact Hnd|]. unfold generated_fixed_keys, settlement_keys; simpl.
    solve_sublist. }
  apply NoDup_app in Hn as (_ & Hd & _). intros Hin. apply (Hd _ Hin). set_solver.
Qed.

(** The engine's side of the one CPI a settlement makes. *)
Lemma generated_cpi_run w a remaining opaque request w1 :
  runs invoke_signed generated_engine_ID EVALUATE_DISCRIMINATOR
    (evaluate_handler cpi escalation_data) ->
  ai_key (ev_engine_program (ge_env a)) = generated_engine_ID ->
  engine_request_wf request ->
  generated_invoke w a remaining opaque request = Ok w1 ->
  exists accounts state sysvar rest s q payload receipt w2 w3,
    ai_key state = ai_key (ev_engine_state (ge_env a)) /\
    EvaluationRun cpi (enter w) accounts (engine_request_layout request) w3 state sysvar rest s
      request q payload receipt w2 /\
    w1 = leave w w3.
Proof.
  intros Hruns Hid Hwf Hi. unfold generated_invoke, wire in Hi. inv_guarded.
  match goal with H : encode_evaluate_instruction _ = Ok _ |- _ =>
    apply encode_evaluate_layout in H as [Hv ->]; [|done] end.
  pose proof (Hruns _ (generated_instruction a opaque _) _ _ _ _ Hid eq_refl Hi)
    as (accounts & w3 & Hacc & Hrun & ->).
  apply callee_accounts_keys in Hacc.
  apply generated_handler_Ok in Hrun
    as (state & sysvar & rest & s & request' & q & payload & receipt & w2 & Hrun).
  pose proof (er_accounts _ _ _ _ _ _ _ _ _ _ _ _ _ _ Hrun) as ->.
  pose proof (er_request _ _ _ _ _ _ _ _ _ _ _ _ _ _ Hrun) as Hdec.
  rewrite take_ge, generated_decode_request_ok in Hdec
    by (done || by rewrite generated_engine_request_length).
  apply Ok_inj in Hdec as <-. injection Hacc as Hk _.
  do 10 eexists. split_and!; [exact Hk | exact Hrun | reflexivity].
Qed.

Lemma generated_request_fields e args h ch n request :
  generated_engine_request e args h ch n = Ok request ->
  gq_request_hash request = h /\ gq_market request = key (ev_market e) /\
  gq_engine_revision request = m_engine_revision (acc_data (ev_market e)) /\
  gq_amount_in request = ga_amount_in args /\
  gq_accounted_input_before request = d_accounted_a (acc_data (ev_domain e)) /\
  gq_accounted_output_before request = d_accounted_b (acc_data (ev_domain e)) /\
  gq_capability_hash request = ch.
Proof.
  unfold generated_engine_request, wire, new_engine_request. intros Hq. inv_guarded.
  match goal with H : canonical_payload _ = Ok ?p |- _ => destruct p end. inv_guarded.
  by split_and!.
Qed.

(** What the engine had offered when Core accepted its receipt. *)
Lemma generated_accepted_mode w accounts args w3 state sysvar rest s request q payload receipt w2
    bytes rc accounted_b :
  runs cpi OpaqueProbe.ID HELPER_INCREMENT_DISCRIMINATOR OpaqueProbe.increment_handler ->
  EvaluationRun cpi (enter w) accounts args w3 state sysvar rest s request q payload receipt w2 ->
  engine_request_wf request -> generated_state_wf s -> is_u64 (cq_amount_out q) ->
  w_return_data w3 = Some (generated_engine_ID, bytes) -> decode_receipt bytes = Ok rc ->
  gr_request_hash rc = gq_request_hash request -> 0 < gr_amount_out rc ->
  gr_amount_out rc <= accounted_b -> accounted_b < U64_MAX ->
  gs_mode s = MODE_ACCEPT /\ gr_amount_out rc = cq_amount_out q /\
  gr_state_sequence rc = gs_sequence s + 1.
Proof.
  intros Hhelper Hrun Hwf [Hseq Hfee] Hout Hret Hdec Hh Hpos Hle Hmax. destruct Hrun.
  assert (is_u64 (offered (gs_mode s) (cq_amount_out q))) as Hoff.
  { unfold offered. destruct (_ =? _); [done|]. destruct (_ =? _); done. }
  assert (forall b, w_return_data w2 <> Some (generated_engine_ID, b)) as Hnone.
  { intros b Hb. apply (maybe_invoke_helper_Ok cpi) in er_helper0; [| |exact Hhelper].
    - destruct er_helper0 as [[_ ->]|(?&?&?&?&?&?&?&_&_&_&_&_&_&_&_&Hr)]; [discriminate|].
      rewrite Hb in Hr. discriminate Hr.
    - unfold payload_bytes in er_payload0. inv_engine. apply Forall_take.
      destruct Hwf as (_ & _ & _ & (Hb8 & _)%Forall_cons). apply Hb8. }
  destruct Hwf as [(Hhash & _)%Forall_cons _]. rewrite er_answer0 in Hret.
  assert (is_u64 (gs_sequence s + 1)) as Hseq1 by (unfold in_width in *; lia).
  destruct (accepted_answer _ _ _ _ _ _ _ _ er_mode0 Hhash Hoff Hseq1 Hnone er_receipt0 Hret Hdec Hh)
    as (Hm & Ho & Hs).
  rewrite !elem_of_cons in Hm. unfold offered, U64_MAX in *.
  destruct Hm as [Hm|[Hm|[Hm|Hm]]]; [| | |by apply not_elem_of_nil in Hm];
    rewrite Hm in *; simpl in *; [done | lia | lia].
Qed.
End ClosedLoop.

(** ** Properties *)

Section Properties.
Context `{Runtime} {C : CoreConfig} `{Introspection} (cpi : Cpi) (escalation_data : list Z).

(** C9. Core and its engine together: when the market's engine is this program
    and the nested helper is the repository's, a successful execution settled
    exactly the constant-product quote of the accounted reserves at the
    engine's fee, by an engine in [MODE_ACCEPT] whose market and revision are
    the market's, reports its next sequence, leaves that sequence, the request
    hash and the output in the engine state, and does not decrease the product
    of the accounted reserves or drain the output reserve. No hostile mode
    settles, whatever its helper command did. *)
Theorem generated_closed_loop w a remaining args w' ev :
  let e := ge_env a in
  let k := ai_key (ev_engine_state e) in
  let before := acc_data (ev_domain e) in
  transfer_frame ->
  runs invoke_signed generated_engine_ID EVALUATE_DISCRIMINATOR
    (evaluate_handler cpi escalation_data) ->
  runs cpi OpaqueProbe.ID HELPER_INCREMENT_DISCRIMINATOR OpaqueProbe.increment_handler ->
  ai_key (ev_engine_program e) = generated_engine_ID ->
  (forall request, generated_engine_request e args (gx_request_hash ev)
     (ga_expected_capability_hash args) (Z.of_nat (length remaining)) = Ok request ->
     engine_request_wf request) ->
  (forall s, generated_state_at w k = Some s -> generated_state_wf s) ->
  d_accounted_b before < U64_MAX ->
  execute_engine_generated_probe w a remaining args = Ok (w', ev) ->
  exists s q s' after,
    generated_state_at w k = Some s /\ gs_mode s = MODE_ACCEPT /\
    gs_market s = key (ev_market e) /\
    gs_revision s = m_engine_revision (acc_data (ev_market e)) /\
    quote_exact_in (d_accounted_a before) (d_accounted_b before) (ga_amount_in args)
      (gs_lp_fee_bps s) = Ok q /\
    gx_amount_out ev = cq_amount_out q /\ gx_engine_sequence ev = gs_sequence s + 1 /\
    record_evaluation s (gx_request_hash ev) (cq_amount_out q) = Ok s' /\
    generated_state_at w' k = Some s' /\
    domain_at w' (key (ev_domain e)) = Some after /\
    d_accounted_a after * d_accounted_b after >=
      d_accounted_a before * d_accounted_b before /\ 0 < d_accounted_b after.
Proof.
  intros e k before Hframe Hruns Hhelper Hid Hwf Hst Hmax Hx.
  pose proof Hx as (_ & _ & _ & _ & _ & _ & _ & Hcore & _)%generated_execution_effects.
  apply execute_generated_Ok in Hx as [Hload Henv (ec & opaque & ch & ph & rh & request & w1 & rc &
    w2 & e2 & _ & _ & _ & -> & _ & _ & Hq & Hi & Hr & Hs & -> & Erh & _ & _ & _ & Eo & Esq & _)].
  rewrite Eo, Esq, Erh in *. pose proof (Hwf request Hq) as Hrwf.
  apply generated_request_fields in Hq as (Hh & Hm & Hrev & Hn & Ha & Hb & _).
  destruct (generated_cpi_run cpi escalation_data _ _ _ _ _ _ Hruns Hid Hrwf Hi)
    as (accounts & state & sysvar & rest & s & q & payload & receipt & w3 & w4 & Hk & Hrun & ->).
  apply generated_receipt_Ok in Hr as (bytes & Hret & Hdec & Hrh & Hpos & _ & Hle).
  apply envelope_loaded_tokens in Hload as (_ & Hdom & _).
  apply generated_envelope_Ok in Henv as (_ & Hnd & _).
  rewrite leave_return_data in Hret. fold e in Hret. rewrite Hid in Hret.
  pose proof Hrun as []. rewrite Hk in *. rewrite Hh in *.
  change (generated_state_at w k = Some s) in er_loaded0. pose proof (Hst s er_loaded0) as Hswf.
  rewrite Ha, Hb, Hn in er_quote0.
  pose proof Hrwf as (_ & Hu64 & _). rewrite Ha, Hb, Hn in Hu64.
  apply Forall_cons in Hu64 as [_ [Un [Ua [Ub _]%Forall_cons]%Forall_cons]%Forall_cons].
  pose proof (settled_product _ _ _ _ _ Ua Ub Un (proj2 Hswf) er_quote0) as (Hprod & Hleft & Hout64).
  rewrite <- Hh in Hrh.
  destruct (generated_accepted_mode cpi _ _ _ _ _ _ _ _ _ _ _ _ _ _ _ _ Hhelper Hrun
    Hrwf Hswf Hout64 Hret Hdec Hrh Hpos Hle Hmax)
    as (Hacc & Ho & Hs1).
  destruct er_written0 as (s' & Hrec & Hw4). unfold offered in Hrec. rewrite Hacc in Hrec.
  destruct Hcore as (d & l & Hd & _ & Hd' & _). rewrite Hdom in Hd. injection Hd as <-.
  exists s, q, s'. eexists. split_and!; try eassumption; try congruence.
  - by rewrite er_market0.
  - by rewrite er_revision0.
  - unfold generated_state_at, program_data_at. apply generated_state_not_settled in Hnd.
    rewrite (settle_frame _ _ _ _ _ _ _ _ _ _ _ _ _ _ Hframe Hs Hnd), leave_accounts, Hw4.
    by rewrite lookup_insert_eq.
  - simpl. rewrite Ho. exact Hprod.
  - simpl. rewrite Ho. exact Hleft.
Qed.

(** The closure the engine checks is the closure Core hashed: for any
    opaque accounts that pass Core's validation, the descriptors of the
    accounts the runtime hands the engine, with the privileges it unites over
    repeated keys, are in order exactly the descriptors Core hashed with its
    own union; so an honest call never fails the engine's capability check. *)
Theorem generated_closure_observed a remaining opaque data infos accounts :
  let state := ev_engine_state (ge_env a) in
  let sysvar := ge_instructions_sysvar a in
  NoDup (generated_fixed_keys a) -> consistent_infos remaining ->
  ai_executable state = false -> ai_executable sysvar = false ->
  validate_opaque_capabilities remaining (generated_fixed_keys a) = Ok opaque ->
  map_result (normalized_info remaining) opaque = Ok infos ->
  callee_accounts (generated_instruction a opaque data) (state :: sysvar :: infos) =
    Some accounts ->
  observed_descriptors accounts = generated_capabilities a opaque.
Proof.
  intros state sysvar Hnd Hc Xs Xv Hv Hinfos Hacc.
  apply validate_opaque_capabilities_Ok in Hv as (_ & Hf & ->).
  assert (forall b, b ∈ remaining -> ai_key b ∉ generated_fixed_keys a) as Hfix.
  { intros b Hb. rewrite Forall_forall in Hf. by apply Hf. }
  assert (ai_key state ∈ generated_fixed_keys a) as Is by (unfold generated_fixed_keys; set_solver).
  assert (ai_key sysvar ∈ generated_fixed_keys a) as Iv by (unfold generated_fixed_keys; set_solver).
  assert (ai_key state <> ai_key sysvar) as Hne.
  { intros He. assert (12 = 13)%nat; [|done].
    apply (NoDup_lookup _ 12 13 (ai_key state) Hnd); [done|]. by rewrite He. }
  unfold callee_accounts in Hacc. cbn [ix_accounts generated_instruction] in Hacc.
  apply bind_Some in Hacc as (i1 & H1 & Hacc). apply bind_Some in Hacc as (l & Hl & Hacc).
  injection Hacc as <-.
  apply bind_Some in Hl as (i2 & H2 & Hl). apply bind_Some in Hl as (rest & H3 & Hl).
  injection Hl as <-.
  set (opaque := map (opaque_descriptor remaining) remaining) in *.
  assert (forall flag k, k ∈ generated_fixed_keys a ->
    meta_flag flag (map descriptor_meta opaque) k = false) as Habs.
  { intros flag k Hk. apply meta_flag_absent. intros Hin%list_elem_of_In.
    apply in_map_iff in Hin as (m & <- & (d & <- & Hd)%in_map_iff).
    apply in_map_iff in Hd as (b & <- & Hb%list_elem_of_In).
    rewrite descriptor_meta_key in Hk. by apply (Hfix b Hb). }
  fold state sysvar in H1, H2, H3. unfold callee_info in H1, H2.
  cbn [find am_pubkey meta_new meta_new_readonly] in H1, H2.
  rewrite key_eqb_refl in H1. rewrite (key_eqb_ne _ _ Hne), key_eqb_refl in H2.
  injection H1 as <-. injection H2 as <-.
  unfold observed_descriptors, generated_capabilities. fold state sysvar. cbn [map]. apply (f_equal2 cons); [|apply (f_equal2 cons)].
  - unfold capability_descriptor. cbn [ai_key ai_owner ai_is_writable ai_is_signer ai_executable].
    rewrite !Habs by done. by rewrite key_eqb_refl, !andb_false_r, Xs.
  - unfold capability_descriptor. cbn [ai_key ai_owner ai_is_writable ai_is_signer ai_executable].
    rewrite !Habs by done. by rewrite (key_eqb_ne _ _ Hne), !andb_false_r, Xv.
  - eapply (opaque_callee_descriptors true
      [meta_new (ai_key state) false; meta_new_readonly (ai_key sysvar) false] [state; sysvar]);
      [exact Hc | exact Hfix | | | exact Hinfos | exact H3]; simpl; set_solver.
Qed.
End Properties.

(** ** A concrete market of this engine, with a helper behind it *)

Section Example.
#[local] Instance closed_introspection : Introspection :=
  direct_call generated_ID CORE_EXECUTE_ENGINE_GENERATED_PROBE_DISCRIMINATOR.
Definition helper_cpi : Cpi :=
  table_cpi [(OpaqueProbe.ID, HELPER_INCREMENT_DISCRIMINATOR, OpaqueProbe.increment_handler)].
Definition closed_handler : Handler :=
  evaluate_handler (H := reference_runtime helper_cpi) helper_cpi [].
#[local] Instance closed_runtime : Runtime :=
  reference_runtime (table_cpi [(generated_engine_ID, EVALUATE_DISCRIMINATOR, closed_handler)]).
#[local] Instance closed_config : CoreConfig := generated_config.

Definition authority_k : Pubkey :=
  default [] (create_program_address [CAPABILITY_AUTHORITY_SEED; engine_state_k; [255]]
                generated_engine_ID).
Definition helper_state_k : Pubkey := test_key 31.
Definition closed_state : GeneratedEngineState := {|
  gs_authority := user_k; gs_market := market_k; gs_revision := 3; gs_lp_fee_bps := 30;
  gs_sequence := 7; gs_last_request_hash := replicate 32 0; gs_last_amount_out := 0;
  gs_capability_authority_bump := 255; gs_mode := MODE_ACCEPT |}.
Definition closed_world : World :=
  store (store (world_of_engine generated_engine_ID (GeneratedEngineData closed_state) 50000 70000 6)
    authority_k (OtherProgramData (MarkerData {| cam_engine_state := engine_state_k |})))
    helper_state_k (OtherProgramData (OpaqueHelperData
      {| hs_authority := authority_k; hs_calls := 4; hs_value := 40 |})).
Definition closed_accounts : ExecuteEngineGeneratedProbeV0 := {|
  ge_user := user_info; ge_env := envelope_of_engine generated_engine_ID 50000 70000 6;
  ge_instructions_sysvar :=
    test_account INSTRUCTIONS_SYSVAR_ID system_program_k false false false |}.
Definition closed_opaque : list AccountInfo :=
  [test_account OpaqueProbe.ID system_program_k false false true;
   test_account helper_state_k OpaqueProbe.ID false true false;
   test_account authority_k generated_engine_ID false false false].
Definition closed_args : ExecuteEngineGeneratedProbeV0Args := {|
  ga_amount_in := 1000; ga_max_total_input_debit := 1003; ga_min_output_credit := 900;
  ga_max_protocol_fee := 3; ga_expires_at_slot := 100;
  ga_expected_capability_hash :=
    match (opaque ← validate_opaque_capabilities closed_opaque (generated_fixed_keys closed_accounts);
           wire (compute_capability_hash generated_engine_ID
                   (generated_capabilities closed_accounts opaque))) with
    | Ok h => h | _ => [] end;
  ga_opaque_payload := encode_helper_payload 25 |}.
Definition closed_run : result (World * EngineGeneratedProbeExecutedV0) :=
  execute_engine_generated_probe closed_world closed_accounts closed_opaque closed_args.

(** The run settles the quote and the helper counted 25. *)
Example closed_run_outcome :
  match closed_run with
  | Ok (w, ev) => (gx_amount_out ev, gx_engine_sequence ev, OpaqueProbe.state_at w helper_state_k)
  | _ => (0, 0, None)
  end = (1368, 8, Some {| hs_authority := authority_k; hs_calls := 5; hs_value := 65 |}).
Proof. vm_compute. reflexivity. Qed.

Lemma closed_state_loaded s :
  generated_state_at closed_world engine_state_k = Some s -> s = closed_state.
Proof.
  intros Hs. assert (generated_state_at closed_world engine_state_k = Some closed_state) as Hs'
    by (vm_compute; reflexivity).
  rewrite Hs' in Hs. by injection Hs as <-.
Qed.

Lemma generated_closed_loop_witness :
  exists w' ev, closed_run = Ok (w', ev) /\ exists q,
    quote_exact_in 50000 70000 1000 30 = Ok q /\ gx_amount_out ev = cq_amount_out q.
Proof.
  destruct (is_ok_Ok closed_run) as [[w' ev] E]; [vm_compute; reflexivity|].
  exists w', ev. split; [exact E|].
  assert (forall request,
    generated_engine_request (ge_env closed_accounts) closed_args (gx_request_hash ev)
      (ga_expected_capability_hash closed_args) (Z.of_nat (length closed_opaque)) = Ok request ->
    engine_request_wf request) as Hwf.
  { assert (match closed_run with
            | Ok (_, e) =>
                match generated_engine_request (ge_env closed_accounts) closed_args
                  (gx_request_hash e) (ga_expected_capability_hash closed_args)
                  (Z.of_nat (length closed_opaque)) with
                | Ok r => bool_decide (engine_request_wf r) | _ => true end
            | _ => true end = true) as Hb by (vm_compute; reflexivity).
    rewrite E in Hb. intros request Hq. rewrite Hq in Hb. exact (proj1 (bool_decide_eq_true _) Hb). }
  destruct (generated_closed_loop helper_cpi [] closed_world closed_accounts closed_opaque
    closed_args w' ev) as (s & q & s' & after & Hs & _ & _ & _ & Hq & Ho & _).
  - apply reference_transfer_frame.
  - apply table_cpi_runs.
  - apply table_cpi_runs.
  - reflexivity.
  - exact Hwf.
  - intros s Hs. apply closed_state_loaded in Hs as ->. split; unfold in_width; simpl; lia.
  - reflexivity.
  - exact E.
  - apply closed_state_loaded in Hs as ->. exists q. split; [exact Hq | exact Ho].
Defined.

Definition closed_descriptors : list CapabilityDescriptor :=
  map (opaque_descriptor closed_opaque) closed_opaque.
Definition closed_callee : option (list AccountInfo) :=
  callee_accounts (generated_instruction closed_accounts closed_descriptors [])
    (ev_engine_state (ge_env closed_accounts) :: ge_instructions_sysvar closed_accounts ::
     closed_opaque).

Lemma generated_closure_observed_witness :
  exists accounts, closed_callee = Some accounts /\
    observed_descriptors accounts = generated_capabilities closed_accounts closed_descriptors.
Proof.
  destruct closed_callee as [accounts|] eqn:E; [|vm_compute in E; discriminate E].
  exists accounts. split; [reflexivity|].
  apply (generated_closure_observed closed_accounts closed_opaque closed_descriptors [] closed_opaque);
    [decide_closed | decide_closed | reflexivity | reflexivity | vm_compute; reflexivity
     | vm_compute; reflexivity | exact E].
Defined.
End Example.
