(* ===== verification/RoutedWire.v ===== *)
(** * crates/routed-callback-probe-wire: the routed-callback codec

    Timing modes and phases, the intent a user authorises, the execution binding
    of each engine phase, the receipt, the settlement the commit phase is bound
    to, and their digests. *)
From S2P Require Import Prelude Codec CoreState Solana Validation Capability.

Definition TIMING_SINGLE : Z := 0.
Definition TIMING_PREPARE_COMMIT : Z := 1.
Definition PHASE_TRANSITION : Z := 0.
Definition PHASE_PREPARE : Z := 1.
Definition PHASE_COMMIT : Z := 2.
Definition CAPABILITY_PREFIX_ACCOUNTS : nat := 1.
Definition MAX_CAPABILITY_DESCRIPTORS : nat := (CAPABILITY_PREFIX_ACCOUNTS + MAX_OPAQUE_ACCOUNTS)%nat.
Definition SPEND_AUTHORITY_SEED : list Z := bytes_of_string "spend:v0".
Definition CALLBACK_AUTHORITY_SEED : list Z := bytes_of_string "engine-callback:v0".
Definition ENGINE_TRANSITION_DISCRIMINATOR : list Z :=
  [0xfa; 0x8d; 0x5a; 0xf4; 0x72; 0x49; 0x21; 0x6a].
Definition ENGINE_PREPARE_DISCRIMINATOR : list Z :=
  [0x79; 0x9b; 0x9c; 0x5a; 0xa4; 0xfc; 0xdc; 0x6d].
Definition ENGINE_COMMIT_DISCRIMINATOR : list Z :=
  [0xdf; 0x8c; 0x8e; 0xa5; 0xe5; 0xd0; 0x9c; 0x4a].
Definition RECEIPT_MAGIC : list Z := bytes_of_string "PMBRCB00".
Definition CAPABILITY_HASH_DOMAIN : list Z :=
  bytes_of_string "programmable:routed-callback-auth:capability:v0".
Definition PAYLOAD_HASH_DOMAIN : list Z :=
  bytes_of_string "programmable:routed-callback-auth:payload:v0".
Definition INTENT_HASH_DOMAIN : list Z :=
  bytes_of_string "programmable:routed-callback-auth:intent:v0".
Definition EXECUTION_HASH_DOMAIN : list Z :=
  bytes_of_string "programmable:routed-callback-auth:execution:v0".
Definition RECEIPT_HASH_DOMAIN : list Z :=
  bytes_of_string "programmable:routed-callback-auth:receipt:v0".
Definition SETTLEMENT_HASH_DOMAIN : list Z :=
  bytes_of_string "programmable:routed-callback-auth:settlement:v0".

Definition INTENT_BINDING_LEN : nat := (2 + 15 * 32 + 8 * 8 + 3 * 32)%nat.
Definition EXECUTION_BINDING_LEN : nat :=
  (2 + 2 * 32 + 7 * 8 + 4 * 32 + 2 * 2 + MAX_OPAQUE_PAYLOAD_LEN)%nat.
Definition ENGINE_REQUEST_LEN : nat := (EXECUTION_BINDING_LEN + 32)%nat.
Definition ENGINE_INSTRUCTION_LEN : nat := (8 + ENGINE_REQUEST_LEN)%nat.
Definition ENGINE_RECEIPT_LEN : nat := (8 + 2 + 2 * 32 + 2 * 8)%nat.
Definition SETTLEMENT_BINDING_LEN : nat := (1 + 3 * 32 + 15 * 8)%nat.

Record IntentBinding := {
  ib_timing_mode : Z;
  ib_core_program : Pubkey;
  ib_market : Pubkey;
  ib_domain : Pubkey;
  ib_engine_program : Pubkey;
  ib_engine_state : Pubkey;
  ib_user_authority : Pubkey;
  ib_user_input : Pubkey;
  ib_user_output : Pubkey;
  ib_mint_in : Pubkey;
  ib_mint_out : Pubkey;
  ib_domain_input_vault : Pubkey;
  ib_domain_output_vault : Pubkey;
  ib_protocol_fee_vault : Pubkey;
  ib_fee_ledger : Pubkey;
  ib_token_program : Pubkey;
  ib_engine_revision : Z;
  ib_fee_policy_revision : Z;
  ib_amount_in : Z;
  ib_protocol_fee : Z;
  ib_max_total_input_debit : Z;
  ib_min_output_credit : Z;
  ib_max_protocol_fee : Z;
  ib_expires_at_slot : Z;
  ib_authorization_nonce : list Z;
  ib_authorized_capability_hash : list Z;
  ib_payload_hash : list Z }.

Record ExecutionBinding := {
  xb_phase : Z;
  xb_intent_digest : list Z;
  xb_phase_context_digest : list Z;
  xb_market : Pubkey;
  xb_domain : Pubkey;
  xb_engine_revision : Z;
  xb_amount_in : Z;
  xb_protocol_fee : Z;
  xb_accounted_input_before : Z;
  xb_accounted_output_before : Z;
  xb_accounted_fee_before : Z;
  xb_pre_sequence : Z;
  xb_authorized_capability_hash : list Z;
  xb_phase_capability_hash : list Z;
  xb_opaque_account_count : Z;
  xb_payload_len : Z;
  xb_payload : list Z }.

Record EngineRequest := {
  xq_binding : ExecutionBinding;
  xq_execution_digest : list Z }.

Record EngineReceipt := {
  xr_phase : Z;
  xr_intent_digest : list Z;
  xr_execution_digest : list Z;
  xr_amount_out : Z;
  xr_state_sequence : Z }.

Record SettlementBinding := {
  sb_intent_digest : list Z;
  sb_primary_execution_digest : list Z;
  sb_primary_receipt_digest : list Z;
  sb_amount_in : Z;
  sb_amount_out : Z;
  sb_protocol_fee : Z;
  sb_total_input_debit : Z;
  sb_accounted_input_before : Z;
  sb_accounted_output_before : Z;
  sb_accounted_fee_before : Z;
  sb_accounted_input_after : Z;
  sb_accounted_output_after : Z;
  sb_accounted_fee_after : Z;
  sb_observed_source_after : Z;
  sb_observed_destination_after : Z;
  sb_observed_input_vault_after : Z;
  sb_observed_output_vault_after : Z;
  sb_observed_fee_vault_after : Z }.

(** ** Timing modes and phases *)

Definition require_timing_mode (actual : Z) : outcome CodecError unit :=
  if (actual =? TIMING_SINGLE) || (actual =? TIMING_PREPARE_COMMIT) then Ok tt
  else Err (Codec.UnsupportedTimingMode actual).

Definition require_phase (actual : Z) : outcome CodecError unit :=
  if (actual =? PHASE_TRANSITION) || (actual =? PHASE_PREPARE) || (actual =? PHASE_COMMIT)
  then Ok tt else Err (UnsupportedPhase actual).

Definition validate_phase_for_timing (timing_mode phase : Z) : outcome CodecError unit :=
  _ ← require_timing_mode timing_mode;
  _ ← require_phase phase;
  let valid :=
    ((timing_mode =? TIMING_SINGLE) && (phase =? PHASE_TRANSITION)) ||
    ((timing_mode =? TIMING_PREPARE_COMMIT) && (phase =? PHASE_PREPARE)) ||
    ((timing_mode =? TIMING_PREPARE_COMMIT) && (phase =? PHASE_COMMIT)) in
  if negb valid then Err (InvalidPhaseForTiming timing_mode phase) else Ok tt.

Definition engine_phase_discriminator (phase : Z) : outcome CodecError (list Z) :=
  if phase =? PHASE_TRANSITION then Ok ENGINE_TRANSITION_DISCRIMINATOR
  else if phase =? PHASE_PREPARE then Ok ENGINE_PREPARE_DISCRIMINATOR
  else if phase =? PHASE_COMMIT then Ok ENGINE_COMMIT_DISCRIMINATOR
  else Err (UnsupportedPhase phase).

(** ** Hashes of capabilities and payloads *)

Definition compute_capability_hash `{Hasher} (engine_program : Pubkey)
    (descriptors : list CapabilityDescriptor) : outcome CodecError (list Z) :=
  capability_hash_with CAPABILITY_HASH_DOMAIN MAX_CAPABILITY_DESCRIPTORS engine_program descriptors.

Definition compute_payload_hash `{Hasher} (payload : list Z) : outcome CodecError (list Z) :=
  payload_hash_with PAYLOAD_HASH_DOMAIN payload.

(** ** The intent *)

Definition encode_intent_binding (b : IntentBinding) : outcome CodecError (list Z) :=
  _ ← require_timing_mode (ib_timing_mode b);
  run_writer INTENT_BINDING_LEN (
    put_u8 PROBE_WIRE_VERSION ;>
    put_u8 (ib_timing_mode b) ;>
    put_pubkey (ib_core_program b) ;>
    put_pubkey (ib_market b) ;>
    put_pubkey (ib_domain b) ;>
    put_pubkey (ib_engine_program b) ;>
    put_pubkey (ib_engine_state b) ;>
    put_pubkey (ib_user_authority b) ;>
    put_pubkey (ib_user_input b) ;>
    put_pubkey (ib_user_output b) ;>
    put_pubkey (ib_mint_in b) ;>
    put_pubkey (ib_mint_out b) ;>
    put_pubkey (ib_domain_input_vault b) ;>
    put_pubkey (ib_domain_output_vault b) ;>
    put_pubkey (ib_protocol_fee_vault b) ;>
    put_pubkey (ib_fee_ledger b) ;>
    put_pubkey (ib_token_program b) ;>
    put_u64 (ib_engine_revision b) ;>
    put_u64 (ib_fee_policy_revision b) ;>
    put_u64 (ib_amount_in b) ;>
    put_u64 (ib_protocol_fee b) ;>
    put_u64 (ib_max_total_input_debit b) ;>
    put_u64 (ib_min_output_credit b) ;>
    put_u64 (ib_max_protocol_fee b) ;>
    put_u64 (ib_expires_at_slot b) ;>
    put_bytes (ib_authorization_nonce b) ;>
    put_bytes (ib_authorized_capability_hash b) ;>
    put_bytes (ib_payload_hash b)).

Definition intent_binding_fields : reader IntentBinding :=
  timing_mode ← read_u8;
  _ ← lift (require_timing_mode timing_mode);
  core_program ← read_pubkey;
  market ← read_pubkey;
  domain ← read_pubkey;
  engine_program ← read_pubkey;
  engine_state ← read_pubkey;
  user_authority ← read_pubkey;
  user_input ← read_pubkey;
  user_output ← read_pubkey;
  mint_in ← read_pubkey;
  mint_out ← read_pubkey;
  domain_input_vault ← read_pubkey;
  domain_output_vault ← read_pubkey;
  protocol_fee_vault ← read_pubkey;
  fee_ledger ← read_pubkey;
  token_program ← read_pubkey;
  engine_revision ← read_u64;
  fee_policy_revision ← read_u64;
  amount_in ← read_u64;
  protocol_fee ← read_u64;
  max_total_input_debit ← read_u64;
  min_output_credit ← read_u64;
  max_protocol_fee ← read_u64;
  expires_at_slot ← read_u64;
  authorization_nonce ← read_array 32;
  authorized_capability_hash ← read_array 32;
  payload_hash ← read_array 32;
  mret {| ib_timing_mode := timing_mode; ib_core_program := core_program; ib_market := market; 
          ib_domain := domain; ib_engine_program := engine_program; 
          ib_engine_state := engine_state; ib_user_authority := user_authority; 
          ib_user_input := user_input; ib_user_output := user_output; ib_mint_in := mint_in; 
          ib_mint_out := mint_out; ib_domain_input_vault := domain_input_vault; 
          ib_domain_output_vault := domain_output_vault; 
          ib_protocol_fee_vault := protocol_fee_vault; ib_fee_ledger := fee_ledger; 
          ib_token_program := token_program; ib_engine_revision := engine_revision; 
          ib_fee_policy_revision := fee_policy_revision; ib_amount_in := amount_in; 
          ib_protocol_fee := protocol_fee; ib_max_total_input_debit := max_total_input_debit; 
          ib_min_output_credit := min_output_credit; ib_max_protocol_fee := max_protocol_fee; 
          ib_expires_at_slot := expires_at_slot; ib_authorization_nonce := authorization_nonce; 
          ib_authorized_capability_hash := authorized_capability_hash; 
          ib_payload_hash := payload_hash  |}.
Definition read_intent_binding : reader IntentBinding :=
  version ← read_u8; _ ← lift (require_version version); intent_binding_fields.

Definition decode_intent_binding (data : list Z) : outcome CodecError IntentBinding :=
  _ ← require_length data INTENT_BINDING_LEN;
  run_reader INTENT_BINDING_LEN read_intent_binding data.

Definition compute_intent_digest `{Hasher} (b : IntentBinding) : outcome CodecError (list Z) :=
  encoded ← encode_intent_binding b;
  Ok (hashv [INTENT_HASH_DOMAIN; encoded]).

(** ** The execution binding of a phase *)

Definition validate_execution_binding (b : ExecutionBinding) : outcome CodecError unit :=
  _ ← require_phase (xb_phase b);
  let context_is_nonzero := negb (bool_decide (xb_phase_context_digest b = replicate 32 0)) in
  let expected_nonzero := xb_phase b =? PHASE_COMMIT in
  _ ← require (Bool.eqb context_is_nonzero expected_nonzero)
        (InvalidPhaseContext (xb_phase b) expected_nonzero);
  validate_payload_fields (xb_opaque_account_count b) (xb_payload_len b) (xb_payload b).

(** [ExecutionBinding::new] *)
Definition new_execution_binding (phase : Z) (intent_digest phase_context_digest : list Z)
    (market domain : Pubkey)
    (engine_revision amount_in protocol_fee accounted_input_before accounted_output_before
     accounted_fee_before pre_sequence : Z)
    (authorized_capability_hash phase_capability_hash : list Z) (opaque_account_count : Z)
    (payload : list Z) : outcome CodecError ExecutionBinding :=
  _ ← require_phase phase;
  _ ← validate_opaque_account_count opaque_account_count;
  '(payload_len, payload) ← canonical_payload payload;
  let binding := {|
    xb_phase := phase; xb_intent_digest := intent_digest;
    xb_phase_context_digest := phase_context_digest; xb_market := market; xb_domain := domain;
    xb_engine_revision := engine_revision; xb_amount_in := amount_in;
    xb_protocol_fee := protocol_fee; xb_accounted_input_before := accounted_input_before;
    xb_accounted_output_before := accounted_output_before;
    xb_accounted_fee_before := accounted_fee_before; xb_pre_sequence := pre_sequence;
    xb_authorized_capability_hash := authorized_capability_hash;
    xb_phase_capability_hash := phase_capability_hash;
    xb_opaque_account_count := opaque_account_count; xb_payload_len := payload_len;
    xb_payload := payload |} in
  _ ← validate_execution_binding binding;
  Ok binding.

Definition payload_bytes (b : ExecutionBinding) : outcome CodecError (list Z) :=
  _ ← validate_execution_binding b;
  Ok (take (Z.to_nat (xb_payload_len b)) (xb_payload b)).

Definition encode_execution_binding (b : ExecutionBinding) : outcome CodecError (list Z) :=
  _ ← validate_execution_binding b;
  run_writer EXECUTION_BINDING_LEN (
    put_u8 PROBE_WIRE_VERSION ;>
    put_u8 (xb_phase b) ;>
    put_bytes (xb_intent_digest b) ;>
    put_bytes (xb_phase_context_digest b) ;>
    put_pubkey (xb_market b) ;>
    put_pubkey (xb_domain b) ;>
    put_u64 (xb_engine_revision b) ;>
    put_u64 (xb_amount_in b) ;>
    put_u64 (xb_protocol_fee b) ;>
    put_u64 (xb_accounted_input_before b) ;>
    put_u64 (xb_accounted_output_before b) ;>
    put_u64 (xb_accounted_fee_before b) ;>
    put_u64 (xb_pre_sequence b) ;>
    put_bytes (xb_authorized_capability_hash b) ;>
    put_bytes (xb_phase_capability_hash b) ;>
    put_u16 (xb_opaque_account_count b) ;>
    put_u16 (xb_payload_len b) ;>
    put_bytes (xb_payload b)).

Definition execution_binding_fields : reader ExecutionBinding :=
  phase ← read_u8;
  intent_digest ← read_array 32;
  phase_context_digest ← read_array 32;
  market ← read_pubkey;
  domain ← read_pubkey;
  engine_revision ← read_u64;
  amount_in ← read_u64;
  protocol_fee ← read_u64;
  accounted_input_before ← read_u64;
  accounted_output_before ← read_u64;
  accounted_fee_before ← read_u64;
  pre_sequence ← read_u64;
  authorized_capability_hash ← read_array 32;
  phase_capability_hash ← read_array 32;
  opaque_account_count ← read_u16;
  payload_len ← read_u16;
  payload ← read_array MAX_OPAQUE_PAYLOAD_LEN;
  mret {| xb_phase := phase; xb_intent_digest := intent_digest; 
          xb_phase_context_digest := phase_context_digest; xb_market := market; 
          xb_domain := domain; xb_engine_revision := engine_revision; xb_amount_in := amount_in; 
          xb_protocol_fee := protocol_fee; xb_accounted_input_before := accounted_input_before; 
          xb_accounted_output_before := accounted_output_before; 
          xb_accounted_fee_before := accounted_fee_before; xb_pre_sequence := pre_sequence; 
          xb_authorized_capability_hash := authorized_capability_hash; 
          xb_phase_capability_hash := phase_capability_hash; 
          xb_opaque_account_count := opaque_account_count; xb_payload_len := payload_len; 
          xb_payload := payload  |}.
Definition read_execution_binding : reader ExecutionBinding :=
  version ← read_u8; _ ← lift (require_version version); execution_binding_fields.

Definition decode_execution_binding (data : list Z) : outcome CodecError ExecutionBinding :=
  binding ← (_ ← require_length data EXECUTION_BINDING_LEN;
             run_reader EXECUTION_BINDING_LEN read_execution_binding data);
  _ ← validate_execution_binding binding;
  Ok binding.

Definition compute_execution_digest `{Hasher} (b : ExecutionBinding)
    : outcome CodecError (list Z) :=
  encoded ← encode_execution_binding b;
  Ok (hashv [EXECUTION_HASH_DOMAIN; encoded]).

(** ** The engine request *)

(** [EngineRequest::new] *)
Definition new_engine_request `{Hasher} (b : ExecutionBinding) : outcome CodecError EngineRequest :=
  execution_digest ← compute_execution_digest b;
  Ok {| xq_binding := b; xq_execution_digest := execution_digest |}.

Definition validate_engine_request `{Hasher} (r : EngineRequest) : outcome CodecError unit :=
  expected ← compute_execution_digest (xq_binding r);
  require (bool_decide (xq_execution_digest r = expected)) ExecutionDigestMismatch.

Definition encode_engine_request `{Hasher} (r : EngineRequest) : outcome CodecError (list Z) :=
  _ ← validate_engine_request r;
  encoded_binding ← encode_execution_binding (xq_binding r);
  run_writer ENGINE_REQUEST_LEN (put_bytes encoded_binding ;> put_bytes (xq_execution_digest r)).

Definition decode_engine_request `{Hasher} (data : list Z) : outcome CodecError EngineRequest :=
  _ ← require_length data ENGINE_REQUEST_LEN;
  binding ← decode_execution_binding (take EXECUTION_BINDING_LEN data);
  let request := {| xq_binding := binding;
                    xq_execution_digest := drop EXECUTION_BINDING_LEN data |} in
  _ ← validate_engine_request request;
  Ok request.

Definition encode_engine_instruction `{Hasher} (r : EngineRequest) : outcome CodecError (list Z) :=
  encoded_request ← encode_engine_request r;
  discriminator ← engine_phase_discriminator (xb_phase (xq_binding r));
  run_writer ENGINE_INSTRUCTION_LEN (put_bytes discriminator ;> put_bytes encoded_request).

Definition decode_engine_instruction `{Hasher} (data : list Z) : outcome CodecError EngineRequest :=
  _ ← require_length data ENGINE_INSTRUCTION_LEN;
  request ← decode_engine_request (drop 8 data);
  expected ← engine_phase_discriminator (xb_phase (xq_binding request));
  if bool_decide (take 8 data = expected) then Ok request else Err InvalidDiscriminator.

(** ** The receipt and the settlement *)

Definition encode_receipt (r : EngineReceipt) : outcome CodecError (list Z) :=
  _ ← require_phase (xr_phase r);
  run_writer ENGINE_RECEIPT_LEN (
    put_bytes RECEIPT_MAGIC ;>
    put_u8 PROBE_WIRE_VERSION ;>
    put_u8 (xr_phase r) ;>
    put_bytes (xr_intent_digest r) ;>
    put_bytes (xr_execution_digest r) ;>
    put_u64 (xr_amount_out r) ;>
    put_u64 (xr_state_sequence r)).

Definition receipt_fields : reader EngineReceipt :=
  phase ← read_u8;
  _ ← lift (require_phase phase);
  intent_digest ← read_array 32;
  execution_digest ← read_array 32;
  amount_out ← read_u64;
  state_sequence ← read_u64;
  mret {| xr_phase := phase; xr_intent_digest := intent_digest; 
          xr_execution_digest := execution_digest; xr_amount_out := amount_out; 
          xr_state_sequence := state_sequence  |}.
Definition read_receipt : reader EngineReceipt :=
  magic ← read_array 8;
  _ ← lift (require (bool_decide (magic = RECEIPT_MAGIC)) InvalidMagic);
  version ← read_u8;
  _ ← lift (require_version version);
  receipt_fields.

Definition decode_receipt (data : list Z) : outcome CodecError EngineReceipt :=
  _ ← require_length data ENGINE_RECEIPT_LEN;
  run_reader ENGINE_RECEIPT_LEN read_receipt data.

Definition compute_receipt_digest `{Hasher} (r : EngineReceipt) : outcome CodecError (list Z) :=
  encoded ← encode_receipt r;
  Ok (hashv [RECEIPT_HASH_DOMAIN; encoded]).

Definition encode_settlement_binding (b : SettlementBinding) : outcome CodecError (list Z) :=
  run_writer SETTLEMENT_BINDING_LEN (
    put_u8 PROBE_WIRE_VERSION ;>
    put_bytes (sb_intent_digest b) ;>
    put_bytes (sb_primary_execution_digest b) ;>
    put_bytes (sb_primary_receipt_digest b) ;>
    put_u64 (sb_amount_in b) ;>
    put_u64 (sb_amount_out b) ;>
    put_u64 (sb_protocol_fee b) ;>
    put_u64 (sb_total_input_debit b) ;>
    put_u64 (sb_accounted_input_before b) ;>
    put_u64 (sb_accounted_output_before b) ;>
    put_u64 (sb_accounted_fee_before b) ;>
    put_u64 (sb_accounted_input_after b) ;>
    put_u64 (sb_accounted_output_after b) ;>
    put_u64 (sb_accounted_fee_after b) ;>
    put_u64 (sb_observed_source_after b) ;>
    put_u64 (sb_observed_destination_after b) ;>
    put_u64 (sb_observed_input_vault_after b) ;>
    put_u64 (sb_observed_output_vault_after b) ;>
    put_u64 (sb_observed_fee_vault_after b)).

Definition settlement_binding_fields : reader SettlementBinding :=
  intent_digest ← read_array 32;
  primary_execution_digest ← read_array 32;
  primary_receipt_digest ← read_array 32;
  amount_in ← read_u64;
  amount_out ← read_u64;
  protocol_fee ← read_u64;
  total_input_debit ← read_u64;
  accounted_input_before ← read_u64;
  accounted_output_before ← read_u64;
  accounted_fee_before ← read_u64;
  accounted_input_after ← read_u64;
  accounted_output_after ← read_u64;
  accounted_fee_after ← read_u64;
  observed_source_after ← read_u64;
  observed_destination_after ← read_u64;
  observed_input_vault_after ← read_u64;
  observed_output_vault_after ← read_u64;
  observed_fee_vault_after ← read_u64;
  mret {| sb_intent_digest := intent_digest; 
          sb_primary_execution_digest := primary_execution_digest; 
          sb_primary_receipt_digest := primary_receipt_digest; sb_amount_in := amount_in; 
          sb_amount_out := amount_out; sb_protocol_fee := protocol_fee; 
          sb_total_input_debit := total_input_debit; 
          sb_accounted_input_before := accounted_input_before; 
          sb_accounted_output_before := accounted_output_before; 
          sb_accounted_fee_before := accounted_fee_before; 
          sb_accounted_input_after := accounted_input_after; 
          sb_accounted_output_after := accounted_output_after; 
          sb_accounted_fee_after := accounted_fee_after; 
          sb_observed_source_after := observed_source_after; 
          sb_observed_destination_after := observed_destination_after; 
          sb_observed_input_vault_after := observed_input_vault_after; 
          sb_observed_output_vault_after := observed_output_vault_after; 
          sb_observed_fee_vault_after := observed_fee_vault_after  |}.
Definition read_settlement_binding : reader SettlementBinding :=
  version ← read_u8; _ ← lift (require_version version); settlement_binding_fields.

Definition decode_settlement_binding (data : list Z) : outcome CodecError SettlementBinding :=
  _ ← require_length data SETTLEMENT_BINDING_LEN;
  run_reader SETTLEMENT_BINDING_LEN read_settlement_binding data.

Definition compute_settlement_digest `{Hasher} (b : SettlementBinding)
    : outcome CodecError (list Z) :=
  encoded ← encode_settlement_binding b;
  Ok (hashv [SETTLEMENT_HASH_DOMAIN; encoded]).

(** ** Well-formed values and layouts *)

Definition intent_binding_wf (b : IntentBinding) : Prop :=
  Forall (byte_string 32)
    [ib_core_program b; ib_market b; ib_domain b; ib_engine_program b; ib_engine_state b; 
    ib_user_authority b; ib_user_input b; ib_user_output b; ib_mint_in b; ib_mint_out b; 
    ib_domain_input_vault b; ib_domain_output_vault b; ib_protocol_fee_vault b; ib_fee_ledger b; 
    ib_token_program b; ib_authorization_nonce b; ib_authorized_capability_hash b; 
    ib_payload_hash b]  /\
  Forall is_u64
    [ib_engine_revision b; ib_fee_policy_revision b; ib_amount_in b; ib_protocol_fee b; 
    ib_max_total_input_debit b; ib_min_output_credit b; ib_max_protocol_fee b; 
    ib_expires_at_slot b]  /\
  Forall is_u8 [ib_timing_mode b].

#[export] Instance intent_binding_wf_dec b : Decision (intent_binding_wf b).
Proof. unfold intent_binding_wf. apply _. Defined.

Definition intent_binding_layout (b : IntentBinding) : list Z :=
  [PROBE_WIRE_VERSION] ++ [ib_timing_mode b] ++ ib_core_program b ++ ib_market b ++ 
  ib_domain b ++ ib_engine_program b ++ ib_engine_state b ++ ib_user_authority b ++ 
  ib_user_input b ++ ib_user_output b ++ ib_mint_in b ++ ib_mint_out b ++ 
  ib_domain_input_vault b ++ ib_domain_output_vault b ++ ib_protocol_fee_vault b ++ 
  ib_fee_ledger b ++ ib_token_program b ++ to_le_bytes 8 (ib_engine_revision b) ++ 
  to_le_bytes 8 (ib_fee_policy_revision b) ++ to_le_bytes 8 (ib_amount_in b) ++ 
  to_le_bytes 8 (ib_protocol_fee b) ++ to_le_bytes 8 (ib_max_total_input_debit b) ++ 
  to_le_bytes 8 (ib_min_output_credit b) ++ to_le_bytes 8 (ib_max_protocol_fee b) ++ 
  to_le_bytes 8 (ib_expires_at_slot b) ++ ib_authorization_nonce b ++ 
  ib_authorized_capability_hash b ++ ib_payload_hash b .

Definition execution_binding_wf (b : ExecutionBinding) : Prop :=
  Forall (byte_string 32)
    [xb_intent_digest b; xb_phase_context_digest b; xb_market b; xb_domain b; 
    xb_authorized_capability_hash b; xb_phase_capability_hash b]  /\
  Forall is_u64
    [xb_engine_revision b; xb_amount_in b; xb_protocol_fee b; xb_accounted_input_before b; 
    xb_accounted_output_before b; xb_accounted_fee_before b; xb_pre_sequence b]  /\
  Forall is_u16 [xb_opaque_account_count b; xb_payload_len b] /\
  Forall is_u8 [xb_phase b] /\
  Forall (byte_string MAX_OPAQUE_PAYLOAD_LEN) [xb_payload b].

#[export] Instance execution_binding_wf_dec b : Decision (execution_binding_wf b).
Proof. unfold execution_binding_wf. apply _. Defined.

Definition execution_binding_layout (b : ExecutionBinding) : list Z :=
  [PROBE_WIRE_VERSION] ++ [xb_phase b] ++ xb_intent_digest b ++ xb_phase_context_digest b ++ 
  xb_market b ++ xb_domain b ++ to_le_bytes 8 (xb_engine_revision b) ++ 
  to_le_bytes 8 (xb_amount_in b) ++ to_le_bytes 8 (xb_protocol_fee b) ++ 
  to_le_bytes 8 (xb_accounted_input_before b) ++ to_le_bytes 8 (xb_accounted_output_before b) ++ 
  to_le_bytes 8 (xb_accounted_fee_before b) ++ to_le_bytes 8 (xb_pre_sequence b) ++ 
  xb_authorized_capability_hash b ++ xb_phase_capability_hash b ++ 
  to_le_bytes 2 (xb_opaque_account_count b) ++ to_le_bytes 2 (xb_payload_len b) ++ xb_payload b .

Definition engine_receipt_wf (r : EngineReceipt) : Prop :=
  Forall (byte_string 32)
    [xr_intent_digest r; xr_execution_digest r]  /\
  Forall is_u64
    [xr_amount_out r; xr_state_sequence r]  /\
  Forall is_u8 [xr_phase r].

#[export] Instance engine_receipt_wf_dec r : Decision (engine_receipt_wf r).
Proof. unfold engine_receipt_wf. apply _. Defined.

Definition engine_receipt_layout (r : EngineReceipt) : list Z :=
  RECEIPT_MAGIC ++ [PROBE_WIRE_VERSION] ++ [xr_phase r] ++ xr_intent_digest r ++ 
  xr_execution_digest r ++ to_le_bytes 8 (xr_amount_out r) ++ to_le_bytes 8 (xr_state_sequence r) .

Definition settlement_binding_wf (b : SettlementBinding) : Prop :=
  Forall (byte_string 32)
    [sb_intent_digest b; sb_primary_execution_digest b; sb_primary_receipt_digest b]  /\
  Forall is_u64
    [sb_amount_in b; sb_amount_out b; sb_protocol_fee b; sb_total_input_debit b; 
    sb_accounted_input_before b; sb_accounted_output_before b; sb_accounted_fee_before b; 
    sb_accounted_input_after b; sb_accounted_output_after b; sb_accounted_fee_after b; 
    sb_observed_source_after b; sb_observed_destination_after b; sb_observed_input_vault_after b; 
    sb_observed_output_vault_after b; sb_observed_fee_vault_after b] .

#[export] Instance settlement_binding_wf_dec b : Decision (settlement_binding_wf b).
Proof. unfold settlement_binding_wf. apply _. Defined.

Definition settlement_binding_layout (b : SettlementBinding) : list Z :=
  [PROBE_WIRE_VERSION] ++ sb_intent_digest b ++ sb_primary_execution_digest b ++ 
  sb_primary_receipt_digest b ++ to_le_bytes 8 (sb_amount_in b) ++ 
  to_le_bytes 8 (sb_amount_out b) ++ to_le_bytes 8 (sb_protocol_fee b) ++ 
  to_le_bytes 8 (sb_total_input_debit b) ++ to_le_bytes 8 (sb_accounted_input_before b) ++ 
  to_le_bytes 8 (sb_accounted_output_before b) ++ to_le_bytes 8 (sb_accounted_fee_before b) ++ 
  to_le_bytes 8 (sb_accounted_input_after b) ++ to_le_bytes 8 (sb_accounted_output_after b) ++ 
  to_le_bytes 8 (sb_accounted_fee_after b) ++ to_le_bytes 8 (sb_observed_source_after b) ++ 
  to_le_bytes 8 (sb_observed_destination_after b) ++ 
  to_le_bytes 8 (sb_observed_input_vault_after b) ++ 
  to_le_bytes 8 (sb_observed_output_vault_after b) ++ 
  to_le_bytes 8 (sb_observed_fee_vault_after b) .

Lemma execution_binding_length b : execution_binding_wf b -> length (execution_binding_layout b) = EXECUTION_BINDING_LEN.
Proof. intros Hwf. unfold execution_binding_wf, execution_binding_layout in *. unpack. layout_length. Qed.

Lemma read_execution_binding_reads b : execution_binding_wf b -> Reads read_execution_binding (execution_binding_layout b) b.
Proof.
  intros Hwf. unfold execution_binding_wf in Hwf. destruct b; simpl in Hwf. unpack.
  unfold read_execution_binding, execution_binding_fields, execution_binding_layout;
    cbn [xb_phase xb_intent_digest xb_phase_context_digest xb_market xb_domain xb_engine_revision
    xb_amount_in xb_protocol_fee xb_accounted_input_before xb_accounted_output_before
    xb_accounted_fee_before xb_pre_sequence xb_authorized_capability_hash
    xb_phase_capability_hash xb_opaque_account_count xb_payload_len xb_payload].
  repeat reads_step.
Qed.

Lemma execution_binding_split data :
  length data = EXECUTION_BINDING_LEN -> Forall is_u8 data ->
  exists v rest, data = [v] ++ rest /\
    (v = PROBE_WIRE_VERSION -> exists a, execution_binding_wf a /\ data = execution_binding_layout a).
Proof.
  intros Hl Hb. peel u8 v. exists v, rest. split; [reflexivity|]. intros ->.
  peel u8 f0. peel bytes 32%nat f1. peel bytes 32%nat f2. peel bytes 32%nat f3. 
  peel bytes 32%nat f4. peel u64 f5. peel u64 f6. peel u64 f7. peel u64 f8. peel u64 f9. 
  peel u64 f10. peel u64 f11. peel bytes 32%nat f12. peel bytes 32%nat f13. peel u16 f14. 
  peel u16 f15. peel bytes 128%nat f16. 
  peel_end. exists (Build_ExecutionBinding f0 f1 f2 f3 f4 f5 f6 f7 f8 f9 f10 f11 f12 f13 f14 f15 f16).
  split; [solve_wf|]. by rewrite app_nil_r.
Qed.

Lemma settlement_binding_length b : settlement_binding_wf b -> length (settlement_binding_layout b) = SETTLEMENT_BINDING_LEN.
Proof. intros Hwf. unfold settlement_binding_wf, settlement_binding_layout in *. unpack. layout_length. Qed.

Lemma read_settlement_binding_reads b : settlement_binding_wf b -> Reads read_settlement_binding (settlement_binding_layout b) b.
Proof.
  intros Hwf. unfold settlement_binding_wf in Hwf. destruct b; simpl in Hwf. unpack.
  unfold read_settlement_binding, settlement_binding_fields, settlement_binding_layout;
    cbn [sb_intent_digest sb_primary_execution_digest sb_primary_receipt_digest sb_amount_in
    sb_amount_out sb_protocol_fee sb_total_input_debit sb_accounted_input_before
    sb_accounted_output_before sb_accounted_fee_before sb_accounted_input_after
    sb_accounted_output_after sb_accounted_fee_after sb_observed_source_after
    sb_observed_destination_after sb_observed_input_vault_after sb_observed_output_vault_after
    sb_observed_fee_vault_after].
  repeat reads_step.
Qed.

Lemma settlement_binding_split data :
  length data = SETTLEMENT_BINDING_LEN -> Forall is_u8 data ->
  exists v rest, data = [v] ++ rest /\
    (v = PROBE_WIRE_VERSION -> exists a, settlement_binding_wf a /\ data = settlement_binding_layout a).
Proof.
  intros Hl Hb. peel u8 v. exists v, rest. split; [reflexivity|]. intros ->.
  peel bytes 32%nat f0. peel bytes 32%nat f1. peel bytes 32%nat f2. peel u64 f3. peel u64 f4. 
  peel u64 f5. peel u64 f6. peel u64 f7. peel u64 f8. peel u64 f9. peel u64 f10. peel u64 f11. 
  peel u64 f12. peel u64 f13. peel u64 f14. peel u64 f15. peel u64 f16. peel u64 f17. 
  peel_end. exists (Build_SettlementBinding f0 f1 f2 f3 f4 f5 f6 f7 f8 f9 f10 f11 f12 f13 f14 f15 f16 f17).
  split; [solve_wf|]. by rewrite app_nil_r.
Qed.

Definition timing_mode_ok (b : IntentBinding) : Prop :=
  require_timing_mode (ib_timing_mode b) = Ok tt.

Lemma intent_binding_length b :
  intent_binding_wf b -> length (intent_binding_layout b) = INTENT_BINDING_LEN.
Proof. intros Hwf. unfold intent_binding_wf, intent_binding_layout in *. unpack. layout_length. Qed.

Lemma read_intent_binding_reads b :
  intent_binding_wf b -> timing_mode_ok b ->
  Reads read_intent_binding (intent_binding_layout b) b.
Proof.
  intros Hwf Ht. unfold intent_binding_wf, timing_mode_ok in *. destruct b; simpl in Hwf, Ht. unpack.
  unfold read_intent_binding, intent_binding_fields, intent_binding_layout;
    cbn [ib_timing_mode ib_core_program ib_market ib_domain ib_engine_program ib_engine_state
    ib_user_authority ib_user_input ib_user_output ib_mint_in ib_mint_out ib_domain_input_vault
    ib_domain_output_vault ib_protocol_fee_vault ib_fee_ledger ib_token_program
    ib_engine_revision ib_fee_policy_revision ib_amount_in ib_protocol_fee
    ib_max_total_input_debit ib_min_output_credit ib_max_protocol_fee ib_expires_at_slot
    ib_authorization_nonce ib_authorized_capability_hash ib_payload_hash].
  repeat first [reads_step | eapply reads_lift; [exact Ht|]].
Qed.

Lemma intent_binding_cases data :
  length data = INTENT_BINDING_LEN -> Forall is_u8 data ->
  (exists b, (intent_binding_wf b /\ timing_mode_ok b) /\ data = intent_binding_layout b) \/
  (exists e, read_intent_binding data 0%nat = Err e).
Proof.
  intros Hl Hb. peel u8 v. peel u8 f0.
  destruct (require_version v) as [u|e|] eqn:Ev; [|right; eexists; unfold read_intent_binding;
    rewrite read_version_step, Ev; reflexivity|by unfold require_version in Ev; case_match].
  destruct u. apply require_version_Ok in Ev as ->.
  destruct (require_timing_mode f0) as [u|e|] eqn:Et;
    [|right; exists e; unfold read_intent_binding; rewrite read_version_step;
      apply (reads_prefix_guard [PROBE_WIRE_VERSION]), Et
     |by unfold require_timing_mode in Et; case_match]. destruct u. left.
  peel bytes 32%nat g0. peel bytes 32%nat g1. peel bytes 32%nat g2. peel bytes 32%nat g3. 
  peel bytes 32%nat g4. peel bytes 32%nat g5. peel bytes 32%nat g6. peel bytes 32%nat g7. 
  peel bytes 32%nat g8. peel bytes 32%nat g9. peel bytes 32%nat g10. peel bytes 32%nat g11. 
  peel bytes 32%nat g12. peel bytes 32%nat g13. peel bytes 32%nat g14. peel u64 g15. 
  peel u64 g16. peel u64 g17. peel u64 g18. peel u64 g19. peel u64 g20. peel u64 g21. 
  peel u64 g22. peel bytes 32%nat g23. peel bytes 32%nat g24. peel bytes 32%nat g25. 
  peel_end. exists (Build_IntentBinding f0 g0 g1 g2 g3 g4 g5 g6 g7 g8 g9 g10 g11 g12 g13 g14 g15 g16 g17 g18 g19 g20 g21 g22 g23 g24 g25).
  split; [split; [solve_wf | exact Et]|]. by rewrite app_nil_r.
Qed.

Definition phase_ok (r : EngineReceipt) : Prop := require_phase (xr_phase r) = Ok tt.

Lemma routed_engine_receipt_length r :
  engine_receipt_wf r -> length (engine_receipt_layout r) = ENGINE_RECEIPT_LEN.
Proof. intros Hwf. unfold engine_receipt_wf, engine_receipt_layout in *. unpack. layout_length. Qed.

Lemma routed_read_receipt_reads r :
  engine_receipt_wf r -> phase_ok r -> Reads read_receipt (engine_receipt_layout r) r.
Proof.
  intros Hwf Hp. unfold engine_receipt_wf, phase_ok in *. destruct r; simpl in Hwf, Hp. unpack.
  unfold read_receipt, receipt_fields, engine_receipt_layout;
    cbn [xr_phase xr_intent_digest xr_execution_digest xr_amount_out xr_state_sequence].
  repeat first [reads_step | eapply reads_lift; [exact Hp|]].
Qed.

Lemma engine_receipt_cases data :
  length data = ENGINE_RECEIPT_LEN -> Forall is_u8 data ->
  (exists r, (engine_receipt_wf r /\ phase_ok r) /\ data = engine_receipt_layout r) \/
  (exists e, read_receipt data 0%nat = Err e).
Proof.
  intros Hl Hb. peel bytes 8%nat magic. peel u8 v. peel u8 p.
  destruct (decide (magic = RECEIPT_MAGIC)) as [->|Hne].
  2:{ right. exists InvalidMagic. unfold read_receipt.
      rewrite read_magic_step by apply Hmagic. by rewrite bool_decide_eq_false_2. }
  destruct (decide (v = PROBE_WIRE_VERSION)) as [->|Hne].
  2:{ right. exists (UnsupportedVersion PROBE_WIRE_VERSION v). unfold read_receipt.
      rewrite read_magic_step by done. rewrite bool_decide_eq_true_2 by done.
      apply (reads_prefix_guard RECEIPT_MAGIC require_version).
      unfold require_version. by rewrite (proj2 (Z.eqb_neq _ _) Hne). }
  destruct (require_phase p) as [u|e|] eqn:Ep.
  2:{ right. exists e. unfold read_receipt. rewrite read_magic_step by done.
      rewrite bool_decide_eq_true_2 by done.
      apply (reads_prefix_guard (RECEIPT_MAGIC ++ [PROBE_WIRE_VERSION]) require_phase), Ep. }
  2:{ by unfold require_phase in Ep; case_match. }
  left. destruct u. peel bytes 32%nat i. peel bytes 32%nat x. peel u64 a. peel u64 s. peel_end.
  exists (Build_EngineReceipt p i x a s).
  split; [split; [solve_wf | exact Ep]|]. by rewrite app_nil_r.
Qed.

(** ** Encoders on well-formed values *)

Definition execution_binding_valid (b : ExecutionBinding) : Prop :=
  validate_execution_binding b = Ok tt.

Lemma encode_intent_binding_layout b data :
  intent_binding_wf b ->
  encode_intent_binding b = Ok data <-> timing_mode_ok b /\ intent_binding_layout b = data.
Proof.
  intros Hwf. unfold encode_intent_binding, timing_mode_ok. split.
  - intros ([] & Hv & Hd)%bind_Ok. split; [done|].
    apply (Ok_inj (E:=CodecError)). rewrite <- Hd. symmetry.
    apply run_writer_ok; [apply _ | by apply intent_binding_length].
  - intros [Hv <-]. rewrite Hv, bind_ret_l.
    apply run_writer_ok; [apply _ | by apply intent_binding_length].
Qed.

Lemma encode_execution_binding_layout b data :
  execution_binding_wf b ->
  encode_execution_binding b = Ok data <->
    execution_binding_valid b /\ execution_binding_layout b = data.
Proof.
  intros Hwf. unfold encode_execution_binding, execution_binding_valid. split.
  - intros ([] & Hv & Hd)%bind_Ok. split; [done|].
    apply (Ok_inj (E:=CodecError)). rewrite <- Hd. symmetry.
    apply run_writer_ok; [apply _ | by apply execution_binding_length].
  - intros [Hv <-]. rewrite Hv, bind_ret_l.
    apply run_writer_ok; [apply _ | by apply execution_binding_length].
Qed.

Lemma encode_receipt_layout r data :
  engine_receipt_wf r ->
  encode_receipt r = Ok data <-> phase_ok r /\ engine_receipt_layout r = data.
Proof.
  intros Hwf. unfold encode_receipt, phase_ok. split.
  - intros ([] & Hv & Hd)%bind_Ok. split; [done|].
    apply (Ok_inj (E:=CodecError)). rewrite <- Hd. symmetry.
    apply run_writer_ok; [apply _ | by apply routed_engine_receipt_length].
  - intros [Hv <-]. rewrite Hv, bind_ret_l.
    apply run_writer_ok; [apply _ | by apply routed_engine_receipt_length].
Qed.

Lemma encode_settlement_binding_ok b :
  settlement_binding_wf b -> encode_settlement_binding b = Ok (settlement_binding_layout b).
Proof. intros Hwf. apply run_writer_ok; [apply _ | by apply settlement_binding_length]. Qed.

(** ** Decoders *)

Lemma decode_intent_binding_layout data b :
  Forall is_u8 data ->
  decode_intent_binding data = Ok b <->
    (intent_binding_wf b /\ timing_mode_ok b) /\ intent_binding_layout b = data.
Proof.
  intros Hb. refine (canonical_decode_iff INTENT_BINDING_LEN read_intent_binding
    (fun b => intent_binding_wf b /\ timing_mode_ok b) intent_binding_layout _ _
    intent_binding_cases data b Hb).
  - intros a [Hwf Ht]. by apply read_intent_binding_reads.
  - intros a [Hwf _]. by apply intent_binding_length.
Qed.

Lemma decode_execution_binding_layout data b :
  Forall is_u8 data ->
  decode_execution_binding data = Ok b <->
    execution_binding_wf b /\ execution_binding_valid b /\ execution_binding_layout b = data.
Proof.
  intros Hb. pose proof (versioned_decode_iff EXECUTION_BINDING_LEN execution_binding_fields
    execution_binding_wf execution_binding_layout read_execution_binding_reads
    execution_binding_length execution_binding_split data) as Hiff.
  unfold decode_execution_binding. split.
  - intros (b' & [Hwf Hl]%Hiff & ([] & Hv & [= <-])%bind_Ok)%bind_Ok; done.
  - intros (Hwf & Hv & Hl).
    pose proof (proj2 (Hiff b Hb) (conj Hwf Hl)) as Hd. unfold read_execution_binding.
    rewrite Hd, bind_ret_l. unfold execution_binding_valid in Hv. by rewrite Hv.
Qed.

Lemma decode_receipt_layout data r :
  Forall is_u8 data ->
  decode_receipt data = Ok r <->
    (engine_receipt_wf r /\ phase_ok r) /\ engine_receipt_layout r = data.
Proof.
  intros Hb. refine (canonical_decode_iff ENGINE_RECEIPT_LEN read_receipt
    (fun r => engine_receipt_wf r /\ phase_ok r) engine_receipt_layout _ _
    engine_receipt_cases data r Hb).
  - intros a [Hwf Hp]. by apply routed_read_receipt_reads.
  - intros a [Hwf _]. by apply routed_engine_receipt_length.
Qed.

Lemma decode_settlement_binding_layout data b :
  Forall is_u8 data ->
  decode_settlement_binding data = Ok b <->
    settlement_binding_wf b /\ settlement_binding_layout b = data.
Proof.
  exact (versioned_decode_iff SETTLEMENT_BINDING_LEN settlement_binding_fields
    settlement_binding_wf settlement_binding_layout read_settlement_binding_reads
    settlement_binding_length settlement_binding_split data b).
Qed.

(** ** Digests *)

Definition intent_preimage (b : IntentBinding) : list (list Z) :=
  [INTENT_HASH_DOMAIN; intent_binding_layout b].
Definition execution_preimage (b : ExecutionBinding) : list (list Z) :=
  [EXECUTION_HASH_DOMAIN; execution_binding_layout b].
Definition settlement_preimage (b : SettlementBinding) : list (list Z) :=
  [SETTLEMENT_HASH_DOMAIN; settlement_binding_layout b].

(** Two layouts of one struct that are equal are layouts of equal structs: the
    reader reads the same value off both. *)
Lemma reads_inj {A} N (read : reader A) l1 l2 a1 a2 :
  Reads read l1 a1 -> Reads read l2 a2 -> length l1 = N -> l1 = l2 -> a1 = a2.
Proof.
  intros R1 R2 Hl <-. pose proof (run_reader_ok N read l1 a1 R1 Hl) as E1.
  rewrite (run_reader_ok N read l1 a2 R2 Hl) in E1. by apply Ok_inj in E1.
Qed.

Lemma digest_binds `{Hasher} domain l1 l2 h :
  Ok (E:=CodecError) (hashv [domain; l1]) = Ok h -> Ok (E:=CodecError) (hashv [domain; l2]) = Ok h ->
  l1 = l2 \/ sha256_collision [domain; l1] [domain; l2].
Proof.
  intros G1%Ok_inj G2%Ok_inj. destruct (hashv_binds [domain; l1] [domain; l2]) as [Heq|];
    [congruence|left|by right].
  rewrite !concat_pair in Heq. by apply app_inv_head in Heq.
Qed.

Lemma intent_digest_injective `{Hasher} b1 b2 h :
  intent_binding_wf b1 -> intent_binding_wf b2 ->
  compute_intent_digest b1 = Ok h -> compute_intent_digest b2 = Ok h ->
  b1 = b2 \/ sha256_collision (intent_preimage b1) (intent_preimage b2).
Proof.
  intros W1 W2 (d1 & [T1 <-]%(encode_intent_binding_layout _ _ W1) & H1)%bind_Ok
    (d2 & [T2 <-]%(encode_intent_binding_layout _ _ W2) & H2)%bind_Ok.
  destruct (digest_binds _ _ _ _ H1 H2) as [Heq|]; [left|by right].
  eapply (reads_inj INTENT_BINDING_LEN read_intent_binding); [..|exact Heq];
    [by apply read_intent_binding_reads..|by apply intent_binding_length].
Qed.

Lemma execution_digest_injective `{Hasher} b1 b2 h :
  execution_binding_wf b1 -> execution_binding_wf b2 ->
  compute_execution_digest b1 = Ok h -> compute_execution_digest b2 = Ok h ->
  b1 = b2 \/ sha256_collision (execution_preimage b1) (execution_preimage b2).
Proof.
  intros W1 W2 (d1 & [T1 <-]%(encode_execution_binding_layout _ _ W1) & H1)%bind_Ok
    (d2 & [T2 <-]%(encode_execution_binding_layout _ _ W2) & H2)%bind_Ok.
  destruct (digest_binds _ _ _ _ H1 H2) as [Heq|]; [left|by right].
  eapply (reads_inj EXECUTION_BINDING_LEN read_execution_binding); [..|exact Heq];
    [by apply read_execution_binding_reads..|by apply execution_binding_length].
Qed.

Lemma settlement_digest_injective `{Hasher} b1 b2 h :
  settlement_binding_wf b1 -> settlement_binding_wf b2 ->
  compute_settlement_digest b1 = Ok h -> compute_settlement_digest b2 = Ok h ->
  b1 = b2 \/ sha256_collision (settlement_preimage b1) (settlement_preimage b2).
Proof.
  intros W1 W2. unfold compute_settlement_digest. rewrite !encode_settlement_binding_ok by done.
  rewrite !bind_ret_l. intros H1 H2.
  destruct (digest_binds _ _ _ _ H1 H2) as [Heq|]; [left|by right].
  eapply (reads_inj SETTLEMENT_BINDING_LEN read_settlement_binding); [..|exact Heq];
    [by apply read_settlement_binding_reads..|by apply settlement_binding_length].
Qed.

(** ** The engine request and instruction *)

Definition engine_request_wf (r : EngineRequest) : Prop :=
  execution_binding_wf (xq_binding r) /\ byte_string 32 (xq_execution_digest r).
#[export] Instance engine_request_wf_dec r : Decision (engine_request_wf r).
Proof. unfold engine_request_wf. apply _. Defined.

(** A valid binding with its own digest. *)
Definition engine_request_valid `{Hasher} (r : EngineRequest) : Prop :=
  execution_binding_valid (xq_binding r) /\
  xq_execution_digest r = hashv (execution_preimage (xq_binding r)).

Lemma routed_validate_engine_request_Ok `{Hasher} r u :
  engine_request_wf r -> validate_engine_request r = Ok u <-> engine_request_valid r.
Proof.
  intros [Hwf _]. unfold validate_engine_request, compute_execution_digest, engine_request_valid.
  destruct u. split.
  - intros (d & (l & [Hv <-]%(encode_execution_binding_layout _ _ Hwf) & [= <-])%bind_Ok &
      Hr%require_Ok)%bind_Ok. to_prop. by split.
  - intros [Hv Hd]. pose proof (proj2 (encode_execution_binding_layout _ _ Hwf) (conj Hv eq_refl))
      as He. rewrite He, !bind_ret_l. apply require_Ok. by apply bool_decide_eq_true.
Qed.

Definition engine_request_layout (r : EngineRequest) : list Z :=
  execution_binding_layout (xq_binding r) ++ xq_execution_digest r.

Lemma routed_engine_request_length r :
  engine_request_wf r -> length (engine_request_layout r) = ENGINE_REQUEST_LEN.
Proof.
  intros [Hb Hd]. unfold engine_request_layout.
  by rewrite length_app, (execution_binding_length _ Hb), (proj1 Hd).
Qed.

Lemma encode_engine_request_layout `{Hasher} r data :
  engine_request_wf r ->
  encode_engine_request r = Ok data <-> engine_request_valid r /\ engine_request_layout r = data.
Proof.
  intros Hwf. unfold encode_engine_request. split.
  - intros (u & Hv & (l & He & Hd)%bind_Ok)%bind_Ok.
    apply (routed_validate_engine_request_Ok r u Hwf) in Hv. split; [done|].
    apply (encode_execution_binding_layout _ _ (proj1 Hwf)) in He as [_ <-].
    rewrite write_pair_ok in Hd by (by apply routed_engine_request_length). by apply Ok_inj in Hd.
  - intros [Hv <-]. rewrite (proj2 (routed_validate_engine_request_Ok r tt Hwf) Hv), bind_ret_l.
    rewrite (proj2 (encode_execution_binding_layout _ _ (proj1 Hwf)) (conj (proj1 Hv) eq_refl)),
      bind_ret_l. apply write_pair_ok. by apply routed_engine_request_length.
Qed.

Lemma decode_engine_request_layout `{Hasher} data r :
  Forall is_u8 data ->
  decode_engine_request data = Ok r <->
    engine_request_wf r /\ engine_request_valid r /\ engine_request_layout r = data.
Proof.
  intros Hb. unfold decode_engine_request. split.
  - intros (? & Hl%require_length_Ok & (b & Hd & (u & Hv & Hr)%bind_Ok)%bind_Ok)%bind_Ok.
    apply Ok_inj in Hr as <-.
    apply decode_execution_binding_layout in Hd as (Hwf & Hval & Hlay); [|by apply Forall_take].
    match type of Hv with validate_engine_request ?q = _ => assert (engine_request_wf q) as Hq end.
    { split; [done|]. split; [simpl; rewrite length_drop, Hl; reflexivity | by apply Forall_drop]. }
    split; [done|]. split; [by apply (routed_validate_engine_request_Ok _ u Hq)|].
    unfold engine_request_layout; cbn [xq_binding xq_execution_digest].
    rewrite Hlay. apply take_drop.
  - intros (Hwf & Hval & <-).
    rewrite (proj2 (require_length_Ok _ _ tt) (routed_engine_request_length r Hwf)), bind_ret_l.
    pose proof (execution_binding_length _ (proj1 Hwf)) as Hlen.
    unfold engine_request_layout in *.
    rewrite take_app_length', drop_app_length' by done.
    apply Forall_app in Hb as [Hb _].
    rewrite (proj2 (decode_execution_binding_layout _ (xq_binding r) Hb)), bind_ret_l
      by (split; [apply Hwf | split; [apply Hval | done]]).
    replace {| xq_binding := xq_binding r; xq_execution_digest := xq_execution_digest r |} with r
      by (by destruct r).
    by rewrite (proj2 (routed_validate_engine_request_Ok r tt Hwf) Hval), bind_ret_l.
Qed.

Lemma engine_phase_discriminator_Ok phase d :
  engine_phase_discriminator phase = Ok d ->
  require_phase phase = Ok tt /\ length d = 8%nat.
Proof.
  unfold engine_phase_discriminator, require_phase.
  destruct (phase =? PHASE_TRANSITION); [by intros [= <-]|].
  destruct (phase =? PHASE_PREPARE); [by intros [= <-]|].
  destruct (phase =? PHASE_COMMIT); [by intros [= <-] | discriminate].
Qed.

Lemma valid_phase_discriminator `{Hasher} r :
  engine_request_valid r -> exists d, engine_phase_discriminator (xb_phase (xq_binding r)) = Ok d.
Proof.
  intros [Hv _]. unfold execution_binding_valid, validate_execution_binding in Hv.
  apply bind_Ok in Hv as (? & Hp & _). unfold require_phase, engine_phase_discriminator in *.
  destruct (_ =? PHASE_TRANSITION); [eauto|]. destruct (_ =? PHASE_PREPARE); [eauto|].
  destruct (_ =? PHASE_COMMIT); [eauto | discriminate].
Qed.

Lemma encode_engine_instruction_layout `{Hasher} r data :
  engine_request_wf r -> encode_engine_instruction r = Ok data ->
  engine_request_valid r /\ exists d,
    engine_phase_discriminator (xb_phase (xq_binding r)) = Ok d /\
    data = d ++ engine_request_layout r.
Proof.
  intros Hwf (l & [Hval <-]%(encode_engine_request_layout _ _ Hwf) &
    (d & Hdisc & Hd)%bind_Ok)%bind_Ok. split; [done|]. exists d. split; [done|].
  rewrite write_pair_ok in Hd; [by apply Ok_inj in Hd|].
  by rewrite length_app, routed_engine_request_length, (proj2 (engine_phase_discriminator_Ok _ _ Hdisc)).
Qed.

Lemma engine_request_bytes r : engine_request_wf r -> Forall is_u8 (engine_request_layout r).
Proof.
  intros [Hwf [_ Hd]]. unfold engine_request_layout, execution_binding_wf, execution_binding_layout,
    byte_string in *. rewrite !Forall_cons in Hwf. destruct_and! Hwf.
  repeat first [apply Forall_app_2 | apply to_le_bytes_u8 | apply Forall_cons_2 | apply Forall_nil_2];
    done || unfold in_width; done.
Qed.

Lemma engine_receipt_bytes r : engine_receipt_wf r -> Forall is_u8 (engine_receipt_layout r).
Proof.
  intros Hwf. unfold engine_receipt_wf, engine_receipt_layout, byte_string in *.
  rewrite !Forall_cons in Hwf. destruct_and! Hwf.
  rewrite !Forall_app, !Forall_cons. split_and!; auto using to_le_bytes_u8; try done.
  - apply (bool_decide_unpack _). by vm_compute.
Qed.

Lemma settlement_binding_bytes b :
  settlement_binding_wf b -> Forall is_u8 (settlement_binding_layout b).
Proof.
  intros [Hk _]. unfold settlement_binding_layout, byte_string in *. rewrite !Forall_cons in Hk.
  destruct_and! Hk.
  repeat first [apply Forall_app_2 | apply to_le_bytes_u8 | apply Forall_cons_2 | apply Forall_nil_2];
    done || unfold in_width; done.
Qed.

(** The request a receiver decodes from an instruction after its discriminator. *)
Lemma decode_engine_request_ok `{Hasher} r :
  engine_request_wf r -> engine_request_valid r ->
  decode_engine_request (engine_request_layout r) = Ok r.
Proof.
  intros Hwf Hval. by apply decode_engine_request_layout; [apply engine_request_bytes|].
Qed.

Lemma decode_engine_instruction_encoded `{Hasher} data r :
  Forall is_u8 data ->
  decode_engine_instruction data = Ok r <->
    engine_request_wf r /\ encode_engine_instruction r = Ok data.
Proof.
  intros Hb. unfold decode_engine_instruction, encode_engine_instruction. split.
  - intros (? & Hl%require_length_Ok & (r' & Hd & (d & Hdisc & Hr)%bind_Ok)%bind_Ok)%bind_Ok.
    case_bool_decide as Htake; [|discriminate]. apply Ok_inj in Hr as ->.
    apply decode_engine_request_layout in Hd as (Hwf & Hval & Hlay); [|by apply Forall_drop].
    split; [done|].
    rewrite (proj2 (encode_engine_request_layout r _ Hwf) (conj Hval eq_refl)), bind_ret_l.
    rewrite Hdisc, bind_ret_l, Hlay, <- Htake.
    rewrite write_pair_ok; [by rewrite take_drop|by rewrite take_drop].
  - intros [Hwf (l & [Hval <-]%(encode_engine_request_layout _ _ Hwf) &
      (d & Hdisc & Hd)%bind_Ok)%bind_Ok].
    pose proof (engine_phase_discriminator_Ok _ _ Hdisc) as [_ Hd8].
    assert (length (d ++ engine_request_layout r) = ENGINE_INSTRUCTION_LEN) as Hlen
      by (by rewrite length_app, Hd8, routed_engine_request_length).
    rewrite write_pair_ok in Hd by done. apply Ok_inj in Hd as <-.
    rewrite (proj2 (require_length_Ok _ _ tt) Hlen), bind_ret_l.
    apply Forall_app in Hb as [_ Hb]. rewrite <- Hd8, drop_app_length, take_app_length.
    rewrite (proj2 (decode_engine_request_layout _ r Hb)), bind_ret_l by done.
    rewrite Hdisc, bind_ret_l. by rewrite bool_decide_eq_true_2.
Qed.

Lemma encode_engine_instruction_bytes `{Hasher} r data :
  engine_request_wf r -> encode_engine_instruction r = Ok data -> Forall is_u8 data.
Proof.
  intros Hwf (_ & d & Hd & ->)%encode_engine_instruction_layout; [|done].
  apply Forall_app_2; [|by apply engine_request_bytes]. unfold engine_phase_discriminator in Hd.
  repeat case_match; simplify_eq; decide_closed.
Qed.

(** A digest is 32 bytes, when the hash is. *)
Lemma routed_digest_bytes `{Hasher} :
  sha256_output ->
  (forall p ds h, compute_capability_hash p ds = Ok h -> byte_string 32 h) /\
  (forall b h, compute_intent_digest b = Ok h -> byte_string 32 h) /\
  (forall b h, compute_execution_digest b = Ok h -> byte_string 32 h) /\
  (forall b h, compute_settlement_digest b = Ok h -> byte_string 32 h).
Proof.
  intros Hsha. unfold compute_capability_hash, capability_hash_with, compute_intent_digest,
    compute_execution_digest, compute_settlement_digest. split_and!.
  - intros p ds h Hc. case_match; [discriminate|]. apply Ok_inj in Hc as <-. apply Hsha.
  - intros b h (? & _ & <-%Ok_inj)%bind_Ok. apply Hsha.
  - intros b h (? & _ & <-%Ok_inj)%bind_Ok. apply Hsha.
  - intros b h (? & _ & <-%Ok_inj)%bind_Ok. apply Hsha.
Qed.

(** ** Properties *)

(** The intent digest binds the whole intent: the timing mode, all fifteen
    accounts, the revisions, amounts and limits, the nonce, and the capability
    and payload hashes, unless the two preimages are a SHA-256 collision. *)
Theorem routed_intent_digest_binds `{Hasher} b1 b2 h :
  intent_binding_wf b1 -> intent_binding_wf b2 ->
  compute_intent_digest b1 = Ok h -> compute_intent_digest b2 = Ok h ->
  b1 = b2 \/ sha256_collision (intent_preimage b1) (intent_preimage b2).
Proof. apply intent_digest_injective. Qed.

(** The execution digest of a phase binds the phase, the intent, the
    settlement the commit phase refers to, the domain's balances, the engine
    sequence, both capability hashes and the payload, and the settlement digest
    binds every amount and observed balance; each unless its two preimages are
    a SHA-256 collision. *)
Theorem routed_execution_digest_binds `{Hasher} :
  (forall b1 b2 h, execution_binding_wf b1 -> execution_binding_wf b2 ->
    compute_execution_digest b1 = Ok h -> compute_execution_digest b2 = Ok h ->
    b1 = b2 \/ sha256_collision (execution_preimage b1) (execution_preimage b2)) /\
  (forall s1 s2 h, settlement_binding_wf s1 -> settlement_binding_wf s2 ->
    compute_settlement_digest s1 = Ok h -> compute_settlement_digest s2 = Ok h ->
    s1 = s2 \/ sha256_collision (settlement_preimage s1) (settlement_preimage s2)).
Proof. split; [apply execution_digest_injective | apply settlement_digest_injective]. Qed.

(** C39. The engine instruction codec accepts exactly what it produces: bytes
    decode to a request iff the request is well formed and encodes to them, so
    the discriminator matches the phase, the digest is the binding's own, the
    context digest is nonzero exactly in the commit phase, and padding, counts
    and lengths are canonical. *)
Theorem routed_engine_instruction_iff `{Hasher} data r :
  Forall is_u8 data ->
  decode_engine_instruction data = Ok r <->
    engine_request_wf r /\ encode_engine_instruction r = Ok data.
Proof. apply decode_engine_instruction_encoded. Qed.

(** The receipt and intent decoders accept exactly the canonical encodings
    of supported phases and timing modes. *)
Theorem routed_decode_receipt_iff data :
  Forall is_u8 data ->
  (forall r, decode_receipt data = Ok r <-> engine_receipt_wf r /\ encode_receipt r = Ok data) /\
  (forall b, decode_intent_binding data = Ok b <->
     intent_binding_wf b /\ encode_intent_binding b = Ok data).
Proof.
  intros Hb. split; intros x.
  - rewrite decode_receipt_layout by done. split.
    + intros [[Hwf Hp] Hl]. split; [done|]. by apply encode_receipt_layout.
    + intros [Hwf He]. by apply encode_receipt_layout in He as [Hp Hl].
  - rewrite decode_intent_binding_layout by done. split.
    + intros [[Hwf Hp] Hl]. split; [done|]. by apply encode_intent_binding_layout.
    + intros [Hwf He]. by apply encode_intent_binding_layout in He as [Hp Hl].
Qed.

(** ** Witnesses *)

Definition identity_hasher : Hasher := {| hashv := @concat Z |}.
Definition constant_hasher : Hasher := {| hashv := fun _ => replicate 32 7 |}.

Definition sample_intent : IntentBinding :=
  let k n := replicate 32 n in
  Build_IntentBinding 1 (k 1) (k 2) (k 3) (k 4) (k 5) (k 6) (k 7) (k 8) (k 9) (k 10) (k 11) (k 12)
    (k 13) (k 14) (k 15) 16 17 18 19 20 21 22 23 (k 24) (k 25) (k 26).
Definition sample_execution : ExecutionBinding :=
  let k n := replicate 32 n in
  Build_ExecutionBinding 2 (k 1) (k 2) (k 3) (k 4) 5 6 7 8 9 10 11 (k 12) (k 13) 2 3
    ([1; 2; 3] ++ replicate 125 0).
Definition sample_engine_request : EngineRequest :=
  {| xq_binding := sample_execution; xq_execution_digest := replicate 32 7 |}.
Definition sample_routed_receipt : EngineReceipt :=
  Build_EngineReceipt 1 (replicate 32 1) (replicate 32 2) 3 4.

Lemma routed_intent_digest_binds_witness :
  sample_intent = sample_intent \/
  @sha256_collision identity_hasher (intent_preimage sample_intent) (intent_preimage sample_intent).
Proof.
  apply (@routed_intent_digest_binds identity_hasher sample_intent sample_intent
    (INTENT_HASH_DOMAIN ++ intent_binding_layout sample_intent));
    [decide_closed | decide_closed | |]; vm_compute; reflexivity.
Defined.

Lemma routed_execution_digest_binds_witness :
  sample_execution = sample_execution \/
  @sha256_collision identity_hasher (execution_preimage sample_execution)
    (execution_preimage sample_execution).
Proof.
  apply (proj1 (@routed_execution_digest_binds identity_hasher) sample_execution sample_execution
    (EXECUTION_HASH_DOMAIN ++ execution_binding_layout sample_execution));
    [decide_closed | decide_closed | |]; vm_compute; reflexivity.
Defined.

Lemma routed_engine_instruction_iff_witness :
  let data := ENGINE_COMMIT_DISCRIMINATOR ++ engine_request_layout sample_engine_request in
  @decode_engine_instruction constant_hasher data = Ok sample_engine_request <->
    engine_request_wf sample_engine_request /\
    @encode_engine_instruction constant_hasher sample_engine_request = Ok data.
Proof. intros data. apply routed_engine_instruction_iff. decide_closed. Defined.

Lemma routed_decode_receipt_iff_witness :
  let data := engine_receipt_layout sample_routed_receipt in
  decode_receipt data = Ok sample_routed_receipt <->
    engine_receipt_wf sample_routed_receipt /\ encode_receipt sample_routed_receipt = Ok data.
Proof. intros data. apply routed_decode_receipt_iff. decide_closed. Defined.
