(* ===== verification/HashDomains.v ===== *)
(** * Hash domains

    Every digest the repository computes is SHA-256 over a domain string and an
    encoding. This file collects the eleven digests of the three experiments as
    one function [digest_of] on what they are digests of, and shows that a digest
    identifies its subject: kind and value, short of a SHA-256 collision. *)
From S2P Require Import Prelude Codec CoreState Solana Capability ReferenceRuntime.
From S2P Require ProbeInterface GeneratedWire GeneratedCore RoutedWire.

Definition hash_domains : list (list Z) :=
  [ProbeInterface.PLAN_DOMAIN;
   GeneratedWire.CAPABILITY_HASH_DOMAIN; GeneratedWire.PAYLOAD_HASH_DOMAIN;
   GeneratedWire.REQUEST_HASH_DOMAIN; GeneratedCore.SETTLEMENT_HASH_DOMAIN_V0;
   RoutedWire.CAPABILITY_HASH_DOMAIN; RoutedWire.PAYLOAD_HASH_DOMAIN;
   RoutedWire.INTENT_HASH_DOMAIN; RoutedWire.EXECUTION_HASH_DOMAIN;
   RoutedWire.RECEIPT_HASH_DOMAIN; RoutedWire.SETTLEMENT_HASH_DOMAIN].

(** [a] and [b] differ within the length of both. *)
Fixpoint apart (a b : list Z) : bool :=
  match a, b with
  | x :: a, y :: b => negb (x =? y) || apart a b
  | _, _ => false
  end.

Lemma apart_app a b x y : apart a b = true -> a ++ x <> b ++ y.
Proof.
  revert b. induction a as [|p a IH]; intros [|q b] Ha; try discriminate. simpl in *.
  intros [= Hpq Hab]. subst. rewrite Z.eqb_refl in Ha. by apply (IH b).
Qed.

Lemma domains_apart i j d1 d2 :
  hash_domains !! i = Some d1 -> hash_domains !! j = Some d2 -> i <> j -> apart d1 d2 = true.
Proof.
  intros H1 H2 Hij.
  assert (forallb (fun p => forallb (fun q => bool_decide (p.1 = q.1) || apart p.2 q.2)
    (imap pair hash_domains)) (imap pair hash_domains) = true) as Hall
    by (vm_compute; reflexivity).
  rewrite forallb_forall in Hall.
  assert ((i, d1) ∈ imap pair hash_domains) as I1.
  { apply list_elem_of_lookup. exists i. by rewrite list_lookup_imap, H1. }
  assert ((j, d2) ∈ imap pair hash_domains) as I2.
  { apply list_elem_of_lookup. exists j. by rewrite list_lookup_imap, H2. }
  specialize (Hall _ (proj1 (list_elem_of_In _ _) I1)). rewrite forallb_forall in Hall.
  specialize (Hall _ (proj1 (list_elem_of_In _ _) I2)). simpl in Hall.
  by rewrite bool_decide_eq_false_2 in Hall.
Qed.

(** ** The digests *)

(** What the repository takes digests of. *)
Inductive subject :=
  | Plan (b : ProbeInterface.PlanBinding)
  | GeneratedCapabilities (engine_program : Pubkey) (descriptors : list CapabilityDescriptor)
  | GeneratedPayload (payload : list Z)
  | GeneratedRequest (b : GeneratedWire.RequestBinding)
  | GeneratedSettlement (request_hash : list Z) (amount_out protocol_fee sequence : Z)
  | RoutedCapabilities (engine_program : Pubkey) (descriptors : list CapabilityDescriptor)
  | RoutedPayload (payload : list Z)
  | RoutedIntent (b : RoutedWire.IntentBinding)
  | RoutedExecution (b : RoutedWire.ExecutionBinding)
  | RoutedReceipt (r : RoutedWire.EngineReceipt)
  | RoutedSettlement (b : RoutedWire.SettlementBinding).

(** The fields have the widths of their Rust types. *)
Definition subject_wf (s : subject) : Prop :=
  match s with
  | Plan b => ProbeInterface.plan_binding_wf b
  | GeneratedCapabilities engine descriptors | RoutedCapabilities engine descriptors =>
      byte_string 32 engine /\ Forall descriptor_wf descriptors
  | GeneratedPayload payload | RoutedPayload payload => Forall is_u8 payload
  | GeneratedRequest b => GeneratedWire.request_binding_wf b
  | GeneratedSettlement request_hash amount_out protocol_fee sequence =>
      byte_string 32 request_hash /\ is_u64 amount_out /\ is_u64 protocol_fee /\ is_u64 sequence
  | RoutedIntent b => RoutedWire.intent_binding_wf b
  | RoutedExecution b => RoutedWire.execution_binding_wf b
  | RoutedReceipt r => RoutedWire.engine_receipt_wf r
  | RoutedSettlement b => RoutedWire.settlement_binding_wf b
  end.

(** What is hashed: the slices the hasher is given. *)
Definition preimage_of (s : subject) : list (list Z) :=
  match s with
  | Plan b => ProbeInterface.plan_preimage b
  | GeneratedCapabilities engine descriptors =>
      capability_preimage GeneratedWire.CAPABILITY_HASH_DOMAIN engine descriptors
  | GeneratedPayload payload => [GeneratedWire.PAYLOAD_HASH_DOMAIN; encode_payload payload]
  | GeneratedRequest b => GeneratedWire.request_preimage b
  | GeneratedSettlement request_hash amount_out protocol_fee sequence =>
      [GeneratedCore.SETTLEMENT_HASH_DOMAIN_V0; request_hash; to_le_bytes 8 amount_out;
       to_le_bytes 8 protocol_fee; to_le_bytes 8 sequence]
  | RoutedCapabilities engine descriptors =>
      capability_preimage RoutedWire.CAPABILITY_HASH_DOMAIN engine descriptors
  | RoutedPayload payload => [RoutedWire.PAYLOAD_HASH_DOMAIN; encode_payload payload]
  | RoutedIntent b => RoutedWire.intent_preimage b
  | RoutedExecution b => RoutedWire.execution_preimage b
  | RoutedReceipt r => [RoutedWire.RECEIPT_HASH_DOMAIN; RoutedWire.engine_receipt_layout r]
  | RoutedSettlement b => RoutedWire.settlement_preimage b
  end.

(** The position of its domain in [hash_domains]. *)
Definition kind (s : subject) : nat :=
  match s with
  | Plan _ => 0 | GeneratedCapabilities _ _ => 1 | GeneratedPayload _ => 2
  | GeneratedRequest _ => 3 | GeneratedSettlement _ _ _ _ => 4 | RoutedCapabilities _ _ => 5
  | RoutedPayload _ => 6 | RoutedIntent _ => 7 | RoutedExecution _ => 8 | RoutedReceipt _ => 9
  | RoutedSettlement _ => 10
  end.

Section Digests.
Context `{Runtime}.

(** The digest the code computes for each. *)
Definition digest_of (s : subject) : outcome CodecError (list Z) :=
  match s with
  | Plan b => ProbeInterface.compute_plan_hash b
  | GeneratedCapabilities engine ds => GeneratedWire.compute_capability_hash engine ds
  | GeneratedPayload payload => GeneratedWire.compute_payload_hash payload
  | GeneratedRequest b => GeneratedWire.compute_request_hash b
  | GeneratedSettlement request_hash amount_out protocol_fee sequence =>
      Ok (GeneratedCore.generated_settlement_hash request_hash amount_out protocol_fee sequence)
  | RoutedCapabilities engine ds => RoutedWire.compute_capability_hash engine ds
  | RoutedPayload payload => RoutedWire.compute_payload_hash payload
  | RoutedIntent b => RoutedWire.compute_intent_digest b
  | RoutedExecution b => RoutedWire.compute_execution_digest b
  | RoutedReceipt r => RoutedWire.compute_receipt_digest r
  | RoutedSettlement b => RoutedWire.compute_settlement_digest b
  end.

Lemma capability_hash_preimage domain maximum engine ds h :
  capability_hash_with domain maximum engine ds = Ok h ->
  hashv (capability_preimage domain engine ds) = h /\ (length ds <= maximum)%nat.
Proof.
  unfold capability_hash_with. destruct (Nat.ltb_spec maximum (length ds)); [discriminate|].
  by intros <-%Ok_inj.
Qed.

Lemma payload_hash_preimage domain payload h :
  payload_hash_with domain payload = Ok h -> hashv [domain; encode_payload payload] = h.
Proof. unfold payload_hash_with. case_match; [discriminate|]. by intros <-%Ok_inj. Qed.

(** The digest is the hash of the preimage. *)
Lemma digest_of_preimage s h : subject_wf s -> digest_of s = Ok h -> hashv (preimage_of s) = h.
Proof.
  destruct s; cbn [subject_wf digest_of preimage_of]; intros Hwf Hd.
  - rewrite ProbeInterface.compute_plan_hash_ok in Hd by done. by apply Ok_inj in Hd.
  - by apply capability_hash_preimage in Hd as [? _].
  - by apply payload_hash_preimage.
  - rewrite GeneratedWire.compute_request_hash_ok in Hd by done. by apply Ok_inj in Hd.
  - by apply (Ok_inj (E:=CodecError)).
  - by apply capability_hash_preimage in Hd as [? _].
  - by apply payload_hash_preimage.
  - apply bind_Ok in Hd as (l & [_ <-]%RoutedWire.encode_intent_binding_layout & Hd); [|done].
    by apply Ok_inj in Hd.
  - apply bind_Ok in Hd as (l & [_ <-]%RoutedWire.encode_execution_binding_layout & Hd); [|done].
    by apply Ok_inj in Hd.
  - apply bind_Ok in Hd as (l & [_ <-]%RoutedWire.encode_receipt_layout & Hd); [|done].
    by apply Ok_inj in Hd.
  - unfold RoutedWire.compute_settlement_digest in Hd.
    rewrite RoutedWire.encode_settlement_binding_ok in Hd by done. by apply Ok_inj in Hd.
Qed.

Lemma preimage_domain s :
  exists domain body, hash_domains !! kind s = Some domain /\ preimage_of s = domain :: body.
Proof. destruct s; do 2 eexists; by split. Qed.

(** Preimages of one kind determine the value. *)
Lemma settlement_preimage_inj r1 r2 o1 o2 f1 f2 n1 n2 :
  subject_wf (GeneratedSettlement r1 o1 f1 n1) -> subject_wf (GeneratedSettlement r2 o2 f2 n2) ->
  concat (preimage_of (GeneratedSettlement r1 o1 f1 n1)) =
    concat (preimage_of (GeneratedSettlement r2 o2 f2 n2)) ->
  GeneratedSettlement r1 o1 f1 n1 = GeneratedSettlement r2 o2 f2 n2.
Proof.
  intros (R1 & O1 & F1 & N1) (R2 & O2 & F2 & N2) Heq.
  cbn [preimage_of concat] in Heq. apply app_inv_head in Heq.
  apply app_inj_1 in Heq as [-> Heq]; [|by rewrite (proj1 R1), (proj1 R2)].
  apply app_inj_1 in Heq as [Ho Heq]; [|by rewrite !length_to_le_bytes].
  apply app_inj_1 in Heq as [Hf Heq]; [|by rewrite !length_to_le_bytes].
  apply app_inj_1 in Heq as [Hn _]; [|by rewrite !length_to_le_bytes].
  apply to_le_bytes_inj in Ho, Hf, Hn; [|by apply u64_le_bytes..]. by subst.
Qed.

Lemma payload_digest_injective domain p1 p2 h :
  payload_hash_with domain p1 = Ok h -> payload_hash_with domain p2 = Ok h ->
  p1 = p2 \/ sha256_collision [domain; encode_payload p1] [domain; encode_payload p2].
Proof.
  intros H1%payload_hash_preimage H2%payload_hash_preimage.
  destruct (hashv_binds [domain; encode_payload p1] [domain; encode_payload p2]) as [Heq|];
    [congruence|left|by right].
  rewrite !concat_pair in Heq. by apply app_inv_head, encode_payload_inj in Heq.
Qed.

Lemma receipt_digest_injective r1 r2 h :
  RoutedWire.engine_receipt_wf r1 -> RoutedWire.engine_receipt_wf r2 ->
  RoutedWire.compute_receipt_digest r1 = Ok h -> RoutedWire.compute_receipt_digest r2 = Ok h ->
  r1 = r2 \/ sha256_collision (preimage_of (RoutedReceipt r1)) (preimage_of (RoutedReceipt r2)).
Proof.
  intros W1 W2 (d1 & [T1 <-]%(RoutedWire.encode_receipt_layout _ _ W1) & H1)%bind_Ok
    (d2 & [T2 <-]%(RoutedWire.encode_receipt_layout _ _ W2) & H2)%bind_Ok.
  destruct (RoutedWire.digest_binds _ _ _ _ H1 H2) as [Heq|]; [left|by right].
  eapply (RoutedWire.reads_inj RoutedWire.ENGINE_RECEIPT_LEN RoutedWire.read_receipt);
    [by apply RoutedWire.routed_read_receipt_reads..|by apply RoutedWire.routed_engine_receipt_length|done].
Qed.

Lemma same_kind_digest s1 s2 h :
  kind s1 = kind s2 -> subject_wf s1 -> subject_wf s2 ->
  digest_of s1 = Ok h -> digest_of s2 = Ok h ->
  s1 = s2 \/ sha256_collision (preimage_of s1) (preimage_of s2).
Proof.
  intros Hk W1 W2 D1 D2.
  destruct s1, s2; try discriminate Hk; clear Hk; cbn [subject_wf digest_of] in *.
  - destruct (ProbeInterface.plan_hash_injective _ _ _ W1 W2 D1 D2) as [->|]; auto.
  - destruct W1, W2. edestruct capability_hash_injective as [[-> ->]|]; [..|exact D1|exact D2| |];
      auto. done.
  - destruct (payload_digest_injective _ _ _ _ D1 D2) as [->|]; auto.
  - destruct (GeneratedWire.request_hash_injective _ _ _ W1 W2 D1 D2) as [->|]; auto.
  - apply Ok_inj in D1, D2. destruct (hashv_binds (preimage_of (GeneratedSettlement _ _ _ _))
      (preimage_of (GeneratedSettlement _ _ _ _)) (eq_trans D1 (eq_sym D2))) as [Heq|]; [left|by right].
    by apply settlement_preimage_inj.
  - destruct W1, W2. edestruct capability_hash_injective as [[-> ->]|]; [..|exact D1|exact D2| |];
      auto. done.
  - destruct (payload_digest_injective _ _ _ _ D1 D2) as [->|]; auto.
  - destruct (RoutedWire.intent_digest_injective _ _ _ W1 W2 D1 D2) as [->|]; auto.
  - destruct (RoutedWire.execution_digest_injective _ _ _ W1 W2 D1 D2) as [->|]; auto.
  - destruct (receipt_digest_injective _ _ _ W1 W2 D1 D2) as [->|]; auto.
  - destruct (RoutedWire.settlement_digest_injective _ _ _ W1 W2 D1 D2) as [->|]; auto.
Qed.

(** C34. A digest identifies what it is a digest of: whenever two of the eleven
    hashing functions of the repository (plan; the generated experiment's
    capability, payload, request and settlement hashes; the routed experiment's
    capability and payload hashes and intent, execution, receipt and settlement
    digests) return the same digest, they are the same function on the same
    value, unless the two hashed preimages are a SHA-256 collision. In
    particular no digest of one kind passes for a digest of another. *)
Theorem digests_identify_subjects s1 s2 h :
  subject_wf s1 -> subject_wf s2 -> digest_of s1 = Ok h -> digest_of s2 = Ok h ->
  s1 = s2 \/ sha256_collision (preimage_of s1) (preimage_of s2).
Proof.
  intros W1 W2 D1 D2. destruct (decide (kind s1 = kind s2)) as [Hk|Hk].
  { by eapply same_kind_digest. }
  right. split; [|by rewrite (digest_of_preimage s1 h), (digest_of_preimage s2 h)].
  destruct (preimage_domain s1) as (d1 & x & L1 & ->), (preimage_domain s2) as (d2 & y & L2 & ->).
  simpl. by apply apart_app, (domains_apart (kind s1) (kind s2)).
Qed.
End Digests.

(** An intent and its digest, which is not the hash of an empty payload. *)
Definition digest_example_runtime : Runtime := reference_runtime no_callee.

Lemma digests_identify_subjects_witness :
  let _ := digest_example_runtime in
  let s1 := RoutedIntent RoutedWire.sample_intent in
  let s2 := RoutedIntent RoutedWire.sample_intent in
  exists h, digest_of s1 = Ok h /\ digest_of (GeneratedPayload []) <> Ok h /\
    (s1 = s2 \/ sha256_collision (preimage_of s1) (preimage_of s2)).
Proof.
  intros rt s1 s2.
  destruct (is_ok_Ok (digest_of s1)) as [h E]; [vm_compute; reflexivity|].
  exists h. split; [exact E|]. split.
  - intros Hp. rewrite <- E in Hp. vm_compute in Hp. discriminate Hp.
  - apply (digests_identify_subjects s1 s2 h); [decide_closed | decide_closed | exact E | exact E].
Defined.
