(* ===== verification/RoutedAuthorize.v ===== *)
(** * routed-callback-core: authorize_spend_v0.rs

    The user signs once: Core checks the wire-encoded intent, derives the spend
    PDA of (source, intent digest) and has the token program record it as the
    source's delegate for exactly the intent's total debit. *)
From S2P Require Import Prelude Codec CoreState Solana Validation Capability RoutedWire.
From S2P Require Import ReferenceRuntime.

Definition SPEND_AUTHORITY_SEED_V0 : list Z := bytes_of_string "spend:v0".

Record AuthorizeSpendV0Args := { aa_wire_intent : list Z }.

Record AuthorizeSpendV0 := {
  as_user : AccountInfo;
  as_source : Account TokenAccount;
  as_mint : Account Mint;
  as_spend_authority : AccountInfo;
  as_token_program : AccountInfo }.

Record SpendAuthorizedV0 := {
  sa_user_authority : Pubkey;
  sa_user_input : Pubkey;
  sa_mint_in : Pubkey;
  sa_spend_authority : Pubkey;
  sa_intent_digest : list Z;
  sa_timing_mode : Z;
  sa_authorization_nonce : list Z;
  sa_exact_total_debit : Z;
  sa_expires_at_slot : Z }.

Section RoutedAuthorize.
Context `{Runtime} {C : CoreConfig}.

Definition authorize_constraints (w : World) (a : AuthorizeSpendV0) : bool :=
  ai_is_signer (as_user a) &&
  is_account token_at w spl_token_ID (as_source a) && is_mut (as_source a) &&
  is_token (as_source a) (key (as_mint a)) (ai_key (as_user a)) &&
  is_account mint_at w spl_token_ID (as_mint a) && is_token_program (as_token_program a).

(** The limits the intent itself must satisfy; gives the exact total debit. *)
Definition authorize_intent (w : World) (binding : IntentBinding) : result Z :=
  _ ← require_keys_eq (ib_core_program binding) ID IntentCoreProgramMismatch;
  _ ← require_core (0 <? ib_amount_in binding) ZeroAmount;
  _ ← require_core (ib_protocol_fee binding <=? ib_max_protocol_fee binding)
        ProtocolFeeAboveUserMaximum;
  exact_total_debit ← core_ok_or (checked_add 64 (ib_amount_in binding) (ib_protocol_fee binding))
    ArithmeticOverflow;
  _ ← require_core (exact_total_debit <=? ib_max_total_input_debit binding)
        TotalDebitAboveUserMaximum;
  _ ← require_core (w_slot w <=? ib_expires_at_slot binding) RequestExpired;
  Ok exact_total_debit.

Definition authorize_roles (a : AuthorizeSpendV0) : list Pubkey :=
  [ai_key (as_user a); key (as_source a); key (as_mint a); ai_key (as_spend_authority a);
   ai_key (as_token_program a); ID].

(** The accounts are the intent's, with no privilege beyond the roles'. *)
Definition authorize_accounts (a : AuthorizeSpendV0) (binding : IntentBinding) : result unit :=
  _ ← ensure_distinct_roles (authorize_roles a);
  _ ← require_keys_eq (ib_user_authority binding) (ai_key (as_user a)) IntentUserAuthorityMismatch;
  _ ← require_keys_eq (ib_user_input binding) (key (as_source a)) IntentUserInputMismatch;
  _ ← require_keys_eq (ib_mint_in binding) (key (as_mint a)) IntentInputMintMismatch;
  _ ← require_keys_eq (ib_token_program binding) (ai_key (as_token_program a))
        IntentTokenProgramMismatch;
  _ ← require_core (negb (ai_is_writable (acc_info (as_mint a))) &&
                    negb (ai_is_writable (as_spend_authority a)) &&
                    negb (ai_is_writable (as_token_program a))) UnexpectedWritablePrivilege;
  _ ← require_core (negb (ai_is_signer (acc_info (as_source a))) &&
                    negb (ai_is_signer (acc_info (as_mint a))) &&
                    negb (ai_is_signer (as_spend_authority a)) &&
                    negb (ai_is_signer (as_token_program a))) UnexpectedSignerPrivilege;
  require_core (negb (ai_executable (as_spend_authority a))) InvalidSpendAuthority.

(** The PDA of a source and an intent: [find_program_address] under [ID]. *)
Definition canonical_spend_authority (user_input : Pubkey) (intent_digest : list Z)
    : Pubkey * Z :=
  find_program_address [SPEND_AUTHORITY_SEED_V0; user_input; intent_digest] ID.

Definition handle_authorize_spend_v0 (w : World) (a : AuthorizeSpendV0)
    (remaining : list AccountInfo) (args : AuthorizeSpendV0Args)
    : result (World * SpendAuthorizedV0) :=
  _ ← require_core (w_stack_height w =? TRANSACTION_LEVEL_STACK_HEIGHT) DirectInvocationRequired;
  _ ← ensure_no_remaining_accounts remaining;
  binding ← map_err (fun _ => Core InvalidWireEncoding)
    (decode_intent_binding (aa_wire_intent args));
  exact_total_debit ← authorize_intent w binding;
  intent_digest ← map_err (fun _ => Core InvalidWireEncoding) (compute_intent_digest binding);
  _ ← authorize_accounts a binding;
  let expected := (canonical_spend_authority (key (as_source a)) intent_digest).1 in
  _ ← require_keys_eq (ai_key (as_spend_authority a)) expected InvalidSpendAuthority;
  _ ← validate_classic_mint (key (as_mint a)) (acc_data (as_mint a));
  _ ← validate_user_source_before_authorization (acc_data (as_source a)) (key (as_mint a))
        (ai_key (as_user a));
  _ ← require_core (exact_total_debit <=? ta_amount (acc_data (as_source a)))
        InsufficientUserSourceBalance;
  let source_balance_before := ta_amount (acc_data (as_source a)) in
  w ← approve_checked w
    {| ac_to := acc_info (as_source a); ac_mint := acc_info (as_mint a);
       ac_delegate := as_spend_authority a; ac_authority := as_user a |}
    [] exact_total_debit (mint_decimals (acc_data (as_mint a)));
  source ← reload w (as_source a);
  _ ← require_core (ta_amount (acc_data source) =? source_balance_before)
        SourceBalanceChangedDuringAuthorization;
  _ ← require_core (bool_decide (ta_delegate (acc_data source) = Some expected))
        InvalidSpendAuthority;
  _ ← require_core (ta_delegated_amount (acc_data source) =? exact_total_debit)
        DelegatedAmountMismatch;
  Ok (w, {| sa_user_authority := ai_key (as_user a); sa_user_input := key (as_source a);
            sa_mint_in := key (as_mint a); sa_spend_authority := expected;
            sa_intent_digest := intent_digest; sa_timing_mode := ib_timing_mode binding;
            sa_authorization_nonce := ib_authorization_nonce binding;
            sa_exact_total_debit := exact_total_debit;
            sa_expires_at_slot := ib_expires_at_slot binding |}).

(** The program entry: constraints, handler; the exit writes nothing, the
    source belongs to the token program. *)
Definition authorize_spend (w : World) (a : AuthorizeSpendV0) (remaining : list AccountInfo)
    (args : AuthorizeSpendV0Args) : result (World * SpendAuthorizedV0) :=
  _ ← require (authorize_constraints w a) ConstraintViolated;
  handle_authorize_spend_v0 w a remaining args.

(** ** Inversion of a successful call *)

Lemma authorize_spend_Ok w a remaining args w' ev :
  Forall is_u8 (aa_wire_intent args) ->
  authorize_spend w a remaining args = Ok (w', ev) ->
  exists b source source' bump, intent_binding_wf b /\
    encode_intent_binding b = Ok (aa_wire_intent args) /\
    compute_intent_digest b = Ok (sa_intent_digest ev) /\
    ai_is_signer (as_user a) = true /\ w_stack_height w = 1 /\
    ib_core_program b = ID /\ ib_user_authority b = ai_key (as_user a) /\
    ib_user_input b = key (as_source a) /\ ib_mint_in b = key (as_mint a) /\
    w_slot w <= ib_expires_at_slot b /\ 0 < ib_amount_in b /\
    ib_protocol_fee b <= ib_max_protocol_fee b /\
    token_at w (key (as_source a)) = Some source /\
    token_at w' (key (as_source a)) = Some source' /\
    ta_owner source = ai_key (as_user a) /\ ta_delegate source = None /\
    canonical_spend_authority (key (as_source a)) (sa_intent_digest ev) =
      (sa_spend_authority ev, bump) /\
    ta_delegate source' = Some (sa_spend_authority ev) /\
    ta_delegated_amount source' = ib_amount_in b + ib_protocol_fee b /\
    ib_amount_in b + ib_protocol_fee b <= ib_max_total_input_debit b /\
    ib_amount_in b + ib_protocol_fee b <= ta_amount source /\
    ta_amount source' = ta_amount source.
Proof.
  intros Hb Ha. unfold authorize_spend in Ha. inv_guarded.
  match goal with H : authorize_constraints _ _ = true |- _ => rename H into Hc end.
  unfold authorize_constraints in Hc. to_prop.
  repeat match goal with H : is_account _ _ _ _ = true |- _ => apply is_account_loaded in H end.
  unfold handle_authorize_spend_v0 in Ha. inv_guarded.
  match goal with H : decode_intent_binding _ = Ok ?r |- _ => rename r into b;
    apply decode_intent_binding_layout in H as [[Hwf Ht] Hlay]; [|done] end.
  match goal with H : authorize_intent _ _ = _ |- _ => unfold authorize_intent in H end.
  match goal with H : authorize_accounts _ _ = _ |- _ => unfold authorize_accounts in H end.
  match goal with H : validate_user_source_before_authorization _ _ _ = _ |- _ =>
    unfold validate_user_source_before_authorization in H end.
  inv_guarded. inv_checked. to_prop. subst. simpl in *.
  eexists b, _, _, (canonical_spend_authority (key (as_source a)) _).2.
  split_and!; try eassumption; eauto.
  - by apply encode_intent_binding_layout.
  - by rewrite <- surjective_pairing.
Qed.

(** ** Properties *)

(** C19. A successful authorization, whatever the token program does: the user
    signed; the wire bytes are the canonical encoding of an unexpired intent
    for this core, this user, this source, this mint and this token program;
    the source was undelegated before; and afterwards its balance is unchanged
    and its delegate is the PDA of (source, intent digest) for exactly
    amount + fee, which is within the user's maximum. *)
Theorem authorize_spend_exact w a remaining args w' ev :
  Forall is_u8 (aa_wire_intent args) ->
  authorize_spend w a remaining args = Ok (w', ev) ->
  exists b source source' bump, intent_binding_wf b /\
    encode_intent_binding b = Ok (aa_wire_intent args) /\
    compute_intent_digest b = Ok (sa_intent_digest ev) /\
    ai_is_signer (as_user a) = true /\ w_stack_height w = 1 /\
    ib_core_program b = ID /\ ib_user_authority b = ai_key (as_user a) /\
    ib_user_input b = key (as_source a) /\ ib_mint_in b = key (as_mint a) /\
    w_slot w <= ib_expires_at_slot b /\ 0 < ib_amount_in b /\
    ib_protocol_fee b <= ib_max_protocol_fee b /\
    token_at w (key (as_source a)) = Some source /\
    token_at w' (key (as_source a)) = Some source' /\
    ta_owner source = ai_key (as_user a) /\ ta_delegate source = None /\
    canonical_spend_authority (key (as_source a)) (sa_intent_digest ev) =
      (sa_spend_authority ev, bump) /\
    ta_delegate source' = Some (sa_spend_authority ev) /\
    ta_delegated_amount source' = ib_amount_in b + ib_protocol_fee b /\
    ib_amount_in b + ib_protocol_fee b <= ib_max_total_input_debit b /\
    ib_amount_in b + ib_protocol_fee b <= ta_amount source /\
    ta_amount source' = ta_amount source.
Proof. apply authorize_spend_Ok. Qed.
End RoutedAuthorize.

(** ** A concrete authorization: 1000 in, a fee of 3, at most 1003 *)

Section Example.
#[local] Instance example_runtime : Runtime := reference_runtime no_callee.
#[local] Instance example_config : CoreConfig := routed_config.

Definition signed_intent : IntentBinding :=
  Build_IntentBinding 1 ID market_k domain_k engine_k engine_state_k user_k source_k destination_k
    mint_a_k mint_b_k vault_a_k vault_b_k fee_vault_k fee_ledger_k spl_token_ID
    3 0 1000 3 1003 900 3 100 (test_key 30) (test_key 31) (test_key 32).
Definition signed_wire : list Z :=
  match encode_intent_binding signed_intent with Ok l => l | _ => [] end.
Definition signed_digest : list Z :=
  match compute_intent_digest signed_intent with Ok l => l | _ => [] end.
Definition authorize_accounts_example : AuthorizeSpendV0 := {|
  as_user := user_info;
  as_source := token_account source_k mint_a_k user_k 1000000;
  as_mint := mint_a_account;
  as_spend_authority := test_account (canonical_spend_authority source_k signed_digest).1
    system_program_k false false false;
  as_token_program := token_program_info |}.

Definition signed_args : AuthorizeSpendV0Args := {| aa_wire_intent := signed_wire |}.

Lemma authorize_spend_exact_witness :
  exists w' ev b source',
    authorize_spend (test_world 50000 70000 6) authorize_accounts_example [] signed_args =
      Ok (w', ev) /\
    encode_intent_binding b = Ok (aa_wire_intent signed_args) /\
    token_at w' (key (as_source authorize_accounts_example)) = Some source' /\
    ta_delegate source' = Some (sa_spend_authority ev).
Proof.
  assert (Forall is_u8 (aa_wire_intent signed_args)) as Hb by decide_closed.
  destruct (is_ok_Ok (authorize_spend (test_world 50000 70000 6) authorize_accounts_example []
    signed_args)) as [[w' ev] E]; [vm_compute; reflexivity|].
  destruct (authorize_spend_exact _ _ _ _ _ _ Hb E)
    as (b & source & source' & bump & _ & He & _ & _ & _ & _ & _ & _ & _ & _ & _ & _ & _ & Hs &
        _ & _ & _ & Hd & _).
  exists w', ev, b, source'. split_and!; [exact E | exact He | exact Hs | exact Hd].
Defined.
End Example.
