(* ===== verification/RoutedExecute.v ===== *)
(** * routed-callback-core: execute_callback_authenticated_probe_v0.rs

    A relayer executes a user's authorised intent. Core recomputes the intent
    digest from the accounts and arguments, accepts only a source delegated to
    that intent's spend PDA for exactly the total debit, signs the engine
    callback PDA for each phase, settles with the delegate, requires the
    delegate to be cleared, and in the two-phase mode commits its own books only
    after the engine committed the same output. *)
From S2P Require Import Prelude Codec CoreState Solana FeeMath Validation Capability.
From S2P Require Import RoutedWire Settlement RoutedAuthorize ReferenceRuntime.

Definition CALLBACK_AUTHORITY_SEED_V0 : list Z := bytes_of_string "engine-callback:v0".
Definition NO_COMMIT_DIGEST_V0 : list Z := replicate 32 0.

Record ExecuteCallbackAuthenticatedProbeV0Args := {
  ra_amount_in : Z;
  ra_max_total_input_debit : Z;
  ra_min_output_credit : Z;
  ra_max_protocol_fee : Z;
  ra_expires_at_slot : Z;
  ra_authorization_nonce : list Z;
  ra_expected_engine_sequence : Z;
  ra_timing_mode : Z;
  ra_expected_capability_hash : list Z;
  ra_opaque_payload : list Z }.

Record ExecuteCallbackAuthenticatedProbeV0 := {
  re_env : Envelope;
  re_spend_authority : AccountInfo;
  re_primary_callback : AccountInfo;
  re_commit_callback : AccountInfo }.

(** The same struct once its token accounts are reloaded. *)
Definition with_env (a : ExecuteCallbackAuthenticatedProbeV0) (e : Envelope)
    : ExecuteCallbackAuthenticatedProbeV0 :=
  {| re_env := e; re_spend_authority := re_spend_authority a;
     re_primary_callback := re_primary_callback a; re_commit_callback := re_commit_callback a |}.

Record AcceptedSettlement := {
  st_protocol_fee : Z;
  st_total_input_debit : Z;
  st_amount_out : Z;
  st_post_accounted_a : Z;
  st_post_accounted_b : Z;
  st_post_accounted_fee_a : Z }.

Record CallbackPda := { cb_key : Pubkey; cb_bump : Z }.

Record AcceptedEngineExecution := {
  ax_primary_phase : Z;
  ax_intent_digest : list Z;
  ax_payload_hash : list Z;
  ax_authorized_capability_hash : list Z;
  ax_primary_phase_capability_hash : list Z;
  ax_commit_phase_capability_hash : list Z;
  ax_primary_execution_digest : list Z;
  ax_primary_receipt_digest : list Z;
  ax_settlement_digest : list Z;
  ax_commit_execution_digest : list Z;
  ax_commit_receipt_digest : list Z;
  ax_primary_engine_sequence : Z;
  ax_commit_engine_sequence : Z;
  ax_opaque_account_count : Z }.

Record CallbackAuthenticatedProbeExecutedV0 := {
  cx_market : Pubkey;
  cx_domain : Pubkey;
  cx_engine_program : Pubkey;
  cx_engine_state : Pubkey;
  cx_user_authority : Pubkey;
  cx_user_input : Pubkey;
  cx_user_output : Pubkey;
  cx_spend_authority : Pubkey;
  cx_primary_callback : Pubkey;
  cx_commit_callback : Pubkey;
  cx_mint_a : Pubkey;
  cx_mint_b : Pubkey;
  cx_timing_mode : Z;
  cx_primary_phase : Z;
  cx_authorization_nonce : list Z;
  cx_amount_in : Z;
  cx_amount_out : Z;
  cx_protocol_fee : Z;
  cx_intent_digest : list Z;
  cx_authorized_capability_hash : list Z;
  cx_primary_phase_capability_hash : list Z;
  cx_commit_phase_capability_hash : list Z;
  cx_payload_hash : list Z;
  cx_primary_execution_digest : list Z;
  cx_primary_receipt_digest : list Z;
  cx_settlement_digest : list Z;
  cx_commit_execution_digest : list Z;
  cx_commit_receipt_digest : list Z;
  cx_expected_engine_sequence : Z;
  cx_primary_engine_sequence : Z;
  cx_commit_engine_sequence : Z;
  cx_opaque_account_count : Z;
  cx_post_accounted_a : Z;
  cx_post_accounted_b : Z;
  cx_post_accounted_fee_a : Z }.

Inductive CapabilityMode := Authorized | ReadOnly.

Definition wire {A} (m : outcome CodecError A) : result A :=
  map_err (fun _ => Core InvalidWireEncoding) m.

(** [primary_phase] *)
Definition primary_phase (timing_mode : Z) : result Z :=
  if timing_mode =? TIMING_SINGLE then Ok PHASE_TRANSITION
  else if timing_mode =? TIMING_PREPARE_COMMIT then Ok PHASE_PREPARE
  else Err (Core UnsupportedTimingMode).

(** [capability_descriptors] *)
Definition capability_descriptors (engine_state : AccountInfo)
    (opaque_descriptors : list CapabilityDescriptor) (mode : CapabilityMode)
    : list CapabilityDescriptor :=
  let is_writable := match mode with Authorized => true | ReadOnly => false end in
  {| cd_key := ai_key engine_state; cd_owner := ai_owner engine_state;
     cd_is_writable := is_writable; cd_is_signer := false; cd_is_executable := false |} ::
  map (fun d => if is_writable then d else
    {| cd_key := cd_key d; cd_owner := cd_owner d; cd_is_writable := false;
       cd_is_signer := false; cd_is_executable := cd_is_executable d |}) opaque_descriptors.

Definition validate_callback_account (callback : AccountInfo) (expected_callback : Pubkey)
    : result unit :=
  _ ← require_keys_eq (ai_key callback) expected_callback InvalidCallbackAuthority;
  require_core (negb (ai_is_signer callback) && negb (ai_is_writable callback) &&
                negb (ai_executable callback)) InvalidCallbackAuthority.

Definition validate_receipt_binding (receipt : EngineReceipt) (request : EngineRequest)
    (expected_phase : Z) (expected_intent_digest : list Z) : result unit :=
  _ ← require_core (xr_phase receipt =? expected_phase) EngineReceiptPhaseMismatch;
  _ ← require_core (bool_decide (xr_intent_digest receipt = expected_intent_digest))
        EngineReceiptIntentMismatch;
  require_core (bool_decide (xr_execution_digest receipt = xq_execution_digest request))
    EngineReceiptExecutionMismatch.

Definition validate_primary_sequence (phase expected actual : Z) : result unit :=
  if phase =? PHASE_PREPARE
  then require_core (actual =? expected) PrepareSequenceChanged
  else
    next ← core_ok_or (checked_add 64 expected 1) ArithmeticOverflow;
    require_core (actual =? next) TransitionSequenceMismatch.

Definition validate_amount_out (amount_out minimum accounted_liquidity : Z) : result unit :=
  _ ← require_core (0 <? amount_out) ZeroAmount;
  _ ← require_core (minimum <=? amount_out) OutputBelowUserMinimum;
  require_core (amount_out <=? accounted_liquidity) InsufficientAccountedLiquidity.

Section RoutedExecute.
Context `{Runtime} {C : CoreConfig}.

Definition routed_constraints (w : World) (a : ExecuteCallbackAuthenticatedProbeV0)
    : result unit :=
  let e := re_env a in
  _ ← require (envelope_loaded w e) ConstraintViolated;
  _ ← envelope_state_constraints e;
  _ ← require (is_mut (ev_user_source_a e) &&
               key_eqb (ta_mint (acc_data (ev_user_source_a e))) (key (ev_mint_a e)))
        ConstraintViolated;
  _ ← require (is_mut (ev_user_destination_b e) &&
               key_eqb (ta_mint (acc_data (ev_user_destination_b e))) (key (ev_mint_b e)))
        ConstraintViolated;
  _ ← envelope_vault_constraints e;
  envelope_engine_constraints e.

Definition routed_fixed_keys (a : ExecuteCallbackAuthenticatedProbeV0) : list Pubkey :=
  let e := re_env a in
  [key (ev_market e); key (ev_domain e); key (ev_fee_ledger e); key (ev_mint_a e);
   key (ev_mint_b e); key (ev_user_source_a e); key (ev_user_destination_b e);
   key (ev_vault_a e); key (ev_vault_b e); key (ev_fee_vault e);
   ai_key (ev_engine_program e); ai_key (ev_engine_state e); ai_key (re_spend_authority a);
   ai_key (re_primary_callback a); ai_key (re_commit_callback a);
   ai_key (ev_token_program e); ID].

(** The privilege guards of [validate_execution_envelope]. *)
Definition routed_privileges (a : ExecuteCallbackAuthenticatedProbeV0) : result unit :=
  let e := re_env a in
  _ ← require_core (negb (ai_is_writable (acc_info (ev_market e))) &&
                    negb (ai_is_writable (acc_info (ev_mint_a e))) &&
                    negb (ai_is_writable (acc_info (ev_mint_b e))) &&
                    negb (ai_is_writable (ev_engine_program e)) &&
                    negb (ai_is_writable (re_spend_authority a)) &&
                    negb (ai_is_writable (re_primary_callback a)) &&
                    negb (ai_is_writable (re_commit_callback a)) &&
                    negb (ai_is_writable (ev_token_program e))) UnexpectedWritablePrivilege;
  _ ← require_core (ai_is_writable (ev_engine_state e)) UnexpectedWritablePrivilege;
  _ ← require_core (negb (ai_is_signer (acc_info (ev_market e))) &&
                    negb (ai_is_signer (acc_info (ev_domain e))) &&
                    negb (ai_is_signer (acc_info (ev_fee_ledger e))) &&
                    negb (ai_is_signer (acc_info (ev_mint_a e))) &&
                    negb (ai_is_signer (acc_info (ev_mint_b e))) &&
                    negb (ai_is_signer (acc_info (ev_user_source_a e))) &&
                    negb (ai_is_signer (acc_info (ev_user_destination_b e))) &&
                    negb (ai_is_signer (acc_info (ev_vault_a e))) &&
                    negb (ai_is_signer (acc_info (ev_vault_b e))) &&
                    negb (ai_is_signer (acc_info (ev_fee_vault e))) &&
                    negb (ai_is_signer (ev_engine_program e)) &&
                    negb (ai_is_signer (ev_engine_state e)) &&
                    negb (ai_is_signer (re_spend_authority a)) &&
                    negb (ai_is_signer (re_primary_callback a)) &&
                    negb (ai_is_signer (re_commit_callback a)) &&
                    negb (ai_is_signer (ev_token_program e))) UnexpectedSignerPrivilege;
  _ ← require_core (negb (ai_executable (re_spend_authority a))) InvalidSpendAuthority;
  require_core (negb (ai_executable (re_primary_callback a)) &&
                negb (ai_executable (re_commit_callback a))) InvalidCallbackAuthority.

Definition validate_execution_envelope (a : ExecuteCallbackAuthenticatedProbeV0) : result unit :=
  let e := re_env a in
  _ ← validate_envelope_state e;
  _ ← validate_engine_accounts e;
  _ ← routed_privileges a;
  _ ← validate_mints e;
  validate_vaults e.

(** Fee, total, and the two balance guards: lines after the envelope. *)
Definition routed_economics (e : Envelope) (args : ExecuteCallbackAuthenticatedProbeV0Args)
    : result (Z * Z) :=
  '(protocol_fee, total_input_debit) ←
    quote_fee e (ra_amount_in args) (ra_max_protocol_fee args) (ra_max_total_input_debit args);
  _ ← require_core (total_input_debit <=? ta_amount (acc_data (ev_user_source_a e)))
        InsufficientUserSourceBalance;
  _ ← require_core (ra_min_output_credit args <=? d_accounted_b (acc_data (ev_domain e)))
        InsufficientAccountedLiquidity;
  Ok (protocol_fee, total_input_debit).

Definition bound_intent (a : ExecuteCallbackAuthenticatedProbeV0)
    (args : ExecuteCallbackAuthenticatedProbeV0Args) (protocol_fee : Z)
    (authorized_capability_hash payload_hash : list Z) : IntentBinding :=
  let e := re_env a in
  {| ib_timing_mode := ra_timing_mode args;
     ib_core_program := ID;
     ib_market := key (ev_market e);
     ib_domain := key (ev_domain e);
     ib_engine_program := ai_key (ev_engine_program e);
     ib_engine_state := ai_key (ev_engine_state e);
     ib_user_authority := ta_owner (acc_data (ev_user_source_a e));
     ib_user_input := key (ev_user_source_a e);
     ib_user_output := key (ev_user_destination_b e);
     ib_mint_in := key (ev_mint_a e);
     ib_mint_out := key (ev_mint_b e);
     ib_domain_input_vault := key (ev_vault_a e);
     ib_domain_output_vault := key (ev_vault_b e);
     ib_protocol_fee_vault := key (ev_fee_vault e);
     ib_fee_ledger := key (ev_fee_ledger e);
     ib_token_program := ai_key (ev_token_program e);
     ib_engine_revision := m_engine_revision (acc_data (ev_market e));
     ib_fee_policy_revision := m_fee_policy_revision (acc_data (ev_market e));
     ib_amount_in := ra_amount_in args;
     ib_protocol_fee := protocol_fee;
     ib_max_total_input_debit := ra_max_total_input_debit args;
     ib_min_output_credit := ra_min_output_credit args;
     ib_max_protocol_fee := ra_max_protocol_fee args;
     ib_expires_at_slot := ra_expires_at_slot args;
     ib_authorization_nonce := ra_authorization_nonce args;
     ib_authorized_capability_hash := authorized_capability_hash;
     ib_payload_hash := payload_hash |}.

Definition compute_bound_intent_digest (a : ExecuteCallbackAuthenticatedProbeV0)
    (args : ExecuteCallbackAuthenticatedProbeV0Args) (protocol_fee : Z)
    (authorized_capability_hash payload_hash : list Z) : result (list Z) :=
  wire (compute_intent_digest
          (bound_intent a args protocol_fee authorized_capability_hash payload_hash)).

Definition callback_seeds (e : Envelope) (intent_digest : list Z) (phase : Z)
    : list (list Z) :=
  [CALLBACK_AUTHORITY_SEED_V0; ai_key (ev_engine_program e); ai_key (ev_engine_state e);
   key (ev_market e); key (ev_domain e); intent_digest; [phase]].

Definition canonical_callback (e : Envelope) (intent_digest : list Z) (phase : Z) : CallbackPda :=
  let '(k, bump) := find_program_address (callback_seeds e intent_digest phase) ID in
  {| cb_key := k; cb_bump := bump |}.

Definition build_engine_request (e : Envelope) (args : ExecuteCallbackAuthenticatedProbeV0Args)
    (protocol_fee : Z) (intent_digest : list Z) (phase : Z) (phase_context_digest : list Z)
    (pre_sequence : Z) (authorized_capability_hash phase_capability_hash : list Z)
    (opaque_account_count : nat) : result EngineRequest :=
  count ← core_ok_or (try_from 16 (Z.of_nat opaque_account_count)) IntegerConversionFailed;
  binding ← wire (new_execution_binding phase intent_digest phase_context_digest
    (key (ev_market e)) (key (ev_domain e)) (m_engine_revision (acc_data (ev_market e)))
    (ra_amount_in args) protocol_fee (d_accounted_a (acc_data (ev_domain e)))
    (d_accounted_b (acc_data (ev_domain e))) (fl_accounted_fee_a (acc_data (ev_fee_ledger e)))
    pre_sequence authorized_capability_hash phase_capability_hash count (ra_opaque_payload args));
  wire (new_engine_request binding).

(** The instruction of a phase: the state is writable except in PREPARE, the
    callback signs, the opaque metas are the descriptors'. *)
Definition phase_instruction (e : Envelope) (request : EngineRequest) (callback : AccountInfo)
    (descriptors : list CapabilityDescriptor) (data : list Z) : Instruction :=
  let state_is_writable := negb (xb_phase (xq_binding request) =? PHASE_PREPARE) in
  {| ix_program_id := ai_key (ev_engine_program e);
     ix_accounts :=
       (if state_is_writable then meta_new (ai_key (ev_engine_state e)) false
        else meta_new_readonly (ai_key (ev_engine_state e)) false) ::
       meta_new_readonly (ai_key callback) true :: map descriptor_meta descriptors;
     ix_data := data |}.

Definition invoke_engine_phase (w : World) (e : Envelope) (opaque_accounts : list AccountInfo)
    (phase_opaque_descriptors : list CapabilityDescriptor) (request : EngineRequest)
    (callback : AccountInfo) (callback_bump : Z) : result (World * EngineReceipt) :=
  _ ← require_core (length phase_opaque_descriptors =? length opaque_accounts)%nat
        InvalidWireEncoding;
  data ← wire (encode_engine_instruction request);
  infos ← map_result (normalized_info opaque_accounts) phase_opaque_descriptors;
  w ← invoke_signed w (phase_instruction e request callback phase_opaque_descriptors data)
    (ev_engine_state e :: callback :: infos)
    [callback_seeds e (xb_intent_digest (xq_binding request)) (xb_phase (xq_binding request))
       ++ [[callback_bump]]];
  '(setter, data) ← core_ok_or (w_return_data w) MissingEngineReceipt;
  _ ← require_keys_eq setter (ai_key (ev_engine_program e)) InvalidEngineReceiptSetter;
  receipt ← map_err (fun _ => Core InvalidEngineReceipt) (decode_receipt data);
  Ok (w, receipt).

(** The settlement spends as the delegate, and the delegate must be gone. *)
Definition settle_authenticated_intent (w : World) (a : ExecuteCallbackAuthenticatedProbeV0)
    (amount_in : Z) (intent_digest : list Z) (spend_bump : Z) (settlement : AcceptedSettlement)
    : result (World * Envelope) :=
  let e := re_env a in
  let spend_signer :=
    [[SPEND_AUTHORITY_SEED_V0; key (ev_user_source_a e); intent_digest; [spend_bump]]] in
  '(w, e) ← settle w e (re_spend_authority a) spend_signer amount_in (st_protocol_fee settlement)
    (st_total_input_debit settlement) (st_amount_out settlement);
  let source := acc_data (ev_user_source_a e) in
  _ ← require_core (bool_decide (ta_delegate source = None) && (ta_delegated_amount source =? 0))
        SpendDelegateNotCleared;
  Ok (w, e).

Definition bound_settlement (e : Envelope) (args : ExecuteCallbackAuthenticatedProbeV0Args)
    (settlement : AcceptedSettlement)
    (intent_digest primary_execution_digest primary_receipt_digest : list Z)
    : SettlementBinding :=
  {| sb_intent_digest := intent_digest;
     sb_primary_execution_digest := primary_execution_digest;
     sb_primary_receipt_digest := primary_receipt_digest;
     sb_amount_in := ra_amount_in args;
     sb_amount_out := st_amount_out settlement;
     sb_protocol_fee := st_protocol_fee settlement;
     sb_total_input_debit := st_total_input_debit settlement;
     sb_accounted_input_before := d_accounted_a (acc_data (ev_domain e));
     sb_accounted_output_before := d_accounted_b (acc_data (ev_domain e));
     sb_accounted_fee_before := fl_accounted_fee_a (acc_data (ev_fee_ledger e));
     sb_accounted_input_after := st_post_accounted_a settlement;
     sb_accounted_output_after := st_post_accounted_b settlement;
     sb_accounted_fee_after := st_post_accounted_fee_a settlement;
     sb_observed_source_after := ta_amount (acc_data (ev_user_source_a e));
     sb_observed_destination_after := ta_amount (acc_data (ev_user_destination_b e));
     sb_observed_input_vault_after := ta_amount (acc_data (ev_vault_a e));
     sb_observed_output_vault_after := ta_amount (acc_data (ev_vault_b e));
     sb_observed_fee_vault_after := ta_amount (acc_data (ev_fee_vault e)) |}.

Definition compute_bound_settlement_digest (e : Envelope)
    (args : ExecuteCallbackAuthenticatedProbeV0Args) (settlement : AcceptedSettlement)
    (intent_digest primary_execution_digest primary_receipt_digest : list Z) : result (list Z) :=
  infallible (compute_settlement_digest
    (bound_settlement e args settlement intent_digest primary_execution_digest
       primary_receipt_digest)).

(** What the checks before the first engine call establish. *)
Record AuthorizedExecution := {
  au_protocol_fee : Z;
  au_total_input_debit : Z;
  au_opaque : list CapabilityDescriptor;
  au_capability_hash : list Z;
  au_payload_hash : list Z;
  au_intent_digest : list Z;
  au_spend_bump : Z;
  au_primary_callback : CallbackPda;
  au_commit_callback : CallbackPda }.

(** From the fee to the callback accounts. *)
Definition routed_authorization (a : ExecuteCallbackAuthenticatedProbeV0)
    (remaining : list AccountInfo) (args : ExecuteCallbackAuthenticatedProbeV0Args)
    (primary_phase : Z) : result AuthorizedExecution :=
  let e := re_env a in
  '(protocol_fee, total_input_debit) ← routed_economics e args;
  opaque ← validate_opaque_capabilities remaining (routed_fixed_keys a);
  authorized_capability_hash ← wire (compute_capability_hash (ai_key (ev_engine_program e))
    (capability_descriptors (ev_engine_state e) opaque Authorized));
  _ ← require_core (bool_decide (authorized_capability_hash = ra_expected_capability_hash args))
        CapabilityHashExpectationMismatch;
  payload_hash ← wire (compute_payload_hash (ra_opaque_payload args));
  intent_digest ← compute_bound_intent_digest a args protocol_fee authorized_capability_hash
    payload_hash;
  let '(expected_spend_authority, spend_bump) :=
    canonical_spend_authority (key (ev_user_source_a e)) intent_digest in
  _ ← require_keys_eq (ai_key (re_spend_authority a)) expected_spend_authority
        InvalidSpendAuthority;
  _ ← validate_delegated_spend_source (acc_data (ev_user_source_a e)) (key (ev_mint_a e))
        expected_spend_authority total_input_debit;
  let expected_primary_callback := canonical_callback e intent_digest primary_phase in
  let expected_commit_callback := canonical_callback e intent_digest PHASE_COMMIT in
  _ ← validate_callback_account (re_primary_callback a) (cb_key expected_primary_callback);
  _ ← validate_callback_account (re_commit_callback a) (cb_key expected_commit_callback);
  Ok {| au_protocol_fee := protocol_fee; au_total_input_debit := total_input_debit;
        au_opaque := opaque; au_capability_hash := authorized_capability_hash;
        au_payload_hash := payload_hash; au_intent_digest := intent_digest;
        au_spend_bump := spend_bump; au_primary_callback := expected_primary_callback;
        au_commit_callback := expected_commit_callback |}.

Record PrimaryExecution := {
  pe_capability_hash : list Z;
  pe_execution_digest : list Z;
  pe_receipt : EngineReceipt;
  pe_receipt_digest : list Z }.

(** The primary phase: TRANSITION, or PREPARE with read-only capabilities. *)
Definition routed_primary (w : World) (a : ExecuteCallbackAuthenticatedProbeV0)
    (remaining : list AccountInfo) (args : ExecuteCallbackAuthenticatedProbeV0Args)
    (primary_phase : Z) (au : AuthorizedExecution) : result (World * PrimaryExecution) :=
  let e := re_env a in
  let descriptors := capability_descriptors (ev_engine_state e) (au_opaque au)
    (if primary_phase =? PHASE_PREPARE then ReadOnly else Authorized) in
  capability_hash ← wire (compute_capability_hash (ai_key (ev_engine_program e)) descriptors);
  request ← build_engine_request e args (au_protocol_fee au) (au_intent_digest au) primary_phase
    (replicate 32 0) (ra_expected_engine_sequence args) (au_capability_hash au) capability_hash
    (length remaining);
  '(w, receipt) ← invoke_engine_phase w e remaining (tail descriptors) request
    (re_primary_callback a) (cb_bump (au_primary_callback au));
  _ ← validate_receipt_binding receipt request primary_phase (au_intent_digest au);
  _ ← validate_primary_sequence primary_phase (ra_expected_engine_sequence args)
        (xr_state_sequence receipt);
  _ ← validate_amount_out (xr_amount_out receipt) (ra_min_output_credit args)
        (d_accounted_b (acc_data (ev_domain e)));
  receipt_digest ← map_err (fun _ => Core InvalidEngineReceipt) (compute_receipt_digest receipt);
  Ok (w, {| pe_capability_hash := capability_hash;
            pe_execution_digest := xq_execution_digest request;
            pe_receipt := receipt; pe_receipt_digest := receipt_digest |}).

Definition accept_settlement (e : Envelope) (args : ExecuteCallbackAuthenticatedProbeV0Args)
    (au : AuthorizedExecution) (amount_out : Z) : result AcceptedSettlement :=
  post_accounted_a ← core_ok_or
    (checked_add 64 (d_accounted_a (acc_data (ev_domain e))) (ra_amount_in args))
    ArithmeticOverflow;
  post_accounted_b ← core_ok_or (checked_sub (d_accounted_b (acc_data (ev_domain e))) amount_out)
    ArithmeticOverflow;
  post_accounted_fee_a ← core_ok_or
    (checked_add 64 (fl_accounted_fee_a (acc_data (ev_fee_ledger e))) (au_protocol_fee au))
    ArithmeticOverflow;
  Ok {| st_protocol_fee := au_protocol_fee au; st_total_input_debit := au_total_input_debit au;
        st_amount_out := amount_out; st_post_accounted_a := post_accounted_a;
        st_post_accounted_b := post_accounted_b; st_post_accounted_fee_a := post_accounted_fee_a |}.

Record CommitExecution := {
  ce_capability_hash : list Z;
  ce_execution_digest : list Z;
  ce_receipt_digest : list Z;
  ce_sequence : Z }.

(** The commit phase, after settlement: the same capabilities, the settlement
    digest as context, the same output, the next sequence. [e] holds the
    reloaded token accounts. *)
Definition routed_commit (w : World) (a : ExecuteCallbackAuthenticatedProbeV0) (e : Envelope)
    (remaining : list AccountInfo) (args : ExecuteCallbackAuthenticatedProbeV0Args)
    (au : AuthorizedExecution) (primary : EngineReceipt) (settlement_digest : list Z)
    : result (World * CommitExecution) :=
  let descriptors := capability_descriptors (ev_engine_state e) (au_opaque au) Authorized in
  capability_hash ← wire (compute_capability_hash (ai_key (ev_engine_program e)) descriptors);
  _ ← require_core (bool_decide (capability_hash = au_capability_hash au))
        CapabilityHashExpectationMismatch;
  request ← build_engine_request e args (au_protocol_fee au) (au_intent_digest au) PHASE_COMMIT
    settlement_digest (xr_state_sequence primary) (au_capability_hash au) capability_hash
    (length remaining);
  '(w, receipt) ← invoke_engine_phase w e remaining (tail descriptors) request
    (re_commit_callback a) (cb_bump (au_commit_callback au));
  _ ← validate_receipt_binding receipt request PHASE_COMMIT (au_intent_digest au);
  _ ← require_core (xr_amount_out receipt =? xr_amount_out primary) CommitOutputMismatch;
  expected_commit_sequence ← core_ok_or (checked_add 64 (xr_state_sequence primary) 1)
    ArithmeticOverflow;
  _ ← require_core (xr_state_sequence receipt =? expected_commit_sequence) CommitSequenceMismatch;
  receipt_digest ← map_err (fun _ => Core InvalidEngineReceipt) (compute_receipt_digest receipt);
  Ok (w, {| ce_capability_hash := capability_hash;
            ce_execution_digest := xq_execution_digest request;
            ce_receipt_digest := receipt_digest; ce_sequence := xr_state_sequence receipt |}).

Definition emit_execution_event (a : ExecuteCallbackAuthenticatedProbeV0)
    (args : ExecuteCallbackAuthenticatedProbeV0Args) (settlement : AcceptedSettlement)
    (engine : AcceptedEngineExecution) : CallbackAuthenticatedProbeExecutedV0 :=
  let e := re_env a in
  {| cx_market := key (ev_market e); cx_domain := key (ev_domain e);
     cx_engine_program := ai_key (ev_engine_program e);
     cx_engine_state := ai_key (ev_engine_state e);
     cx_user_authority := ta_owner (acc_data (ev_user_source_a e));
     cx_user_input := key (ev_user_source_a e); cx_user_output := key (ev_user_destination_b e);
     cx_spend_authority := ai_key (re_spend_authority a);
     cx_primary_callback := ai_key (re_primary_callback a);
     cx_commit_callback := ai_key (re_commit_callback a);
     cx_mint_a := key (ev_mint_a e); cx_mint_b := key (ev_mint_b e);
     cx_timing_mode := ra_timing_mode args; cx_primary_phase := ax_primary_phase engine;
     cx_authorization_nonce := ra_authorization_nonce args; cx_amount_in := ra_amount_in args;
     cx_amount_out := st_amount_out settlement; cx_protocol_fee := st_protocol_fee settlement;
     cx_intent_digest := ax_intent_digest engine;
     cx_authorized_capability_hash := ax_authorized_capability_hash engine;
     cx_primary_phase_capability_hash := ax_primary_phase_capability_hash engine;
     cx_commit_phase_capability_hash := ax_commit_phase_capability_hash engine;
     cx_payload_hash := ax_payload_hash engine;
     cx_primary_execution_digest := ax_primary_execution_digest engine;
     cx_primary_receipt_digest := ax_primary_receipt_digest engine;
     cx_settlement_digest := ax_settlement_digest engine;
     cx_commit_execution_digest := ax_commit_execution_digest engine;
     cx_commit_receipt_digest := ax_commit_receipt_digest engine;
     cx_expected_engine_sequence := ra_expected_engine_sequence args;
     cx_primary_engine_sequence := ax_primary_engine_sequence engine;
     cx_commit_engine_sequence := ax_commit_engine_sequence engine;
     cx_opaque_account_count := ax_opaque_account_count engine;
     cx_post_accounted_a := st_post_accounted_a settlement;
     cx_post_accounted_b := st_post_accounted_b settlement;
     cx_post_accounted_fee_a := st_post_accounted_fee_a settlement |}.

Definition handle_execute_callback_authenticated_probe_v0 (w : World)
    (a : ExecuteCallbackAuthenticatedProbeV0) (remaining : list AccountInfo)
    (args : ExecuteCallbackAuthenticatedProbeV0Args)
    : result (World * Envelope * CallbackAuthenticatedProbeExecutedV0) :=
  _ ← validate_opaque_payload (ra_opaque_payload args);
  phase ← primary_phase (ra_timing_mode args);
  _ ← require_core (0 <? ra_amount_in args) ZeroAmount;
  _ ← require_core (w_slot w <=? ra_expires_at_slot args) RequestExpired;
  _ ← ensure_distinct_roles (routed_fixed_keys a);
  _ ← validate_execution_envelope a;
  au ← routed_authorization a remaining args phase;
  '(w, primary) ← routed_primary w a remaining args phase au;
  settlement ← accept_settlement (re_env a) args au (xr_amount_out (pe_receipt primary));
  '(w, e) ← settle_authenticated_intent w a (ra_amount_in args) (au_intent_digest au)
    (au_spend_bump au) settlement;
  settlement_digest ← compute_bound_settlement_digest e args settlement (au_intent_digest au)
    (pe_execution_digest primary) (pe_receipt_digest primary);
  '(w, commit) ←
    (if ra_timing_mode args =? TIMING_PREPARE_COMMIT
     then routed_commit w a e remaining args au (pe_receipt primary) settlement_digest
     else Ok (w, {| ce_capability_hash := replicate 32 0;
                    ce_execution_digest := NO_COMMIT_DIGEST_V0;
                    ce_receipt_digest := NO_COMMIT_DIGEST_V0; ce_sequence := 0 |}));
  count ← core_ok_or (try_from 8 (Z.of_nat (length remaining))) IntegerConversionFailed;
  Ok (w,
      commit_accounts e (st_post_accounted_a settlement) (st_post_accounted_b settlement)
        (st_post_accounted_fee_a settlement),
      emit_execution_event (with_env a e) args settlement
        {| ax_primary_phase := phase; ax_intent_digest := au_intent_digest au;
           ax_payload_hash := au_payload_hash au;
           ax_authorized_capability_hash := au_capability_hash au;
           ax_primary_phase_capability_hash := pe_capability_hash primary;
           ax_commit_phase_capability_hash := ce_capability_hash commit;
           ax_primary_execution_digest := pe_execution_digest primary;
           ax_primary_receipt_digest := pe_receipt_digest primary;
           ax_settlement_digest := settlement_digest;
           ax_commit_execution_digest := ce_execution_digest commit;
           ax_commit_receipt_digest := ce_receipt_digest commit;
           ax_primary_engine_sequence := xr_state_sequence (pe_receipt primary);
           ax_commit_engine_sequence := ce_sequence commit;
           ax_opaque_account_count := count |}).

(** The program entry: constraints, handler, exit. *)
Definition execute_callback_authenticated_probe (w : World)
    (a : ExecuteCallbackAuthenticatedProbeV0) (remaining : list AccountInfo)
    (args : ExecuteCallbackAuthenticatedProbeV0Args)
    : result (World * CallbackAuthenticatedProbeExecutedV0) :=
  _ ← routed_constraints w a;
  '(w, e, event) ← handle_execute_callback_authenticated_probe_v0 w a remaining args;
  Ok (exit_accounts w e, event).
End RoutedExecute.
