(* ===== verification/Rejections.v ===== *)
(** * What the economics of an execution reject, and in which order

    The user's limits, the market's liquidity and the width of the books decide
    whether an execution is admissible before (and, where the engine chooses the
    output, after) the engine is called. This file states those decisions as
    tables of rules over unbounded integers: the answer is the error of the
    first violated rule, and the exact amounts when none is. The tables are the
    specification; the handlers' guarded machine arithmetic refines them. *)
From S2P Require Import Prelude Codec CoreState Solana FeeMath Settlement EngineProbe.
From S2P Require Import GeneratedCore RoutedExecute ReferenceRuntime.

(** A rule: the condition that violates it, and the error it answers. *)
Definition rule : Type := Prop * CoreError.

(** [first_violated rules v r]: [r] is the error of the first violated rule, or
    [Ok v] when there is none. *)
Inductive first_violated {A} (v : A) : list rule -> result A -> Prop :=
  | none_violated : first_violated v [] (Ok v)
  | rule_violated (P : Prop) e rules : P -> first_violated v ((P, e) :: rules) (Err (Core e))
  | rule_respected (P : Prop) e rules r :
      ~ P -> first_violated v rules r -> first_violated v ((P, e) :: rules) r.

(** ** From guarded code to a table *)

Lemma violated_require {A} (v : A) (P : Prop) b e rules m :
  (b = true <-> ~ P) -> (b = false -> P) -> first_violated v rules m ->
  first_violated v ((P, e) :: rules) (_ ← require_core b e; m).
Proof.
  intros Ht Hf Hm. unfold require_core, require. destruct b; simpl.
  - apply rule_respected; [by apply Ht | exact Hm].
  - apply rule_violated. by apply Hf.
Qed.

Lemma violated_require_last (P : Prop) b e :
  (b = true <-> ~ P) -> (b = false -> P) -> first_violated tt [(P, e)] (require_core b e).
Proof.
  intros Ht Hf. unfold require_core, require. destruct b.
  - apply rule_respected; [by apply Ht | apply none_violated].
  - apply rule_violated. by apply Hf.
Qed.

Lemma violated_checked {A B} (v : A) (P : Prop) (o : option B) b e rules m :
  (P -> o = None) -> (~ P -> o = Some b) -> (P \/ ~ P) -> first_violated v rules (m b) ->
  first_violated v ((P, e) :: rules) (core_ok_or o e ≫= m).
Proof.
  intros Hn Hs [HP|HP] Hm.
  - rewrite (Hn HP). by apply rule_violated.
  - rewrite (Hs HP). by apply rule_respected.
Qed.

Lemma violated_add {A} (v : A) a b e rules m :
  first_violated v rules (m (a + b)) ->
  first_violated v ((2 ^ 64 <= a + b, e) :: rules) (core_ok_or (checked_add 64 a b) e ≫= m).
Proof.
  apply violated_checked; unfold checked_add; destruct (Z.ltb_spec (a + b) (2 ^ 64)); (lia || done).
Qed.

Lemma violated_sub {A} (v : A) a b e rules m :
  first_violated v rules (m (a - b)) ->
  first_violated v ((a < b, e) :: rules) (core_ok_or (checked_sub a b) e ≫= m).
Proof. apply violated_checked; unfold checked_sub; destruct (Z.leb_spec b a); (lia || done). Qed.

(** A subtraction an earlier rule already covers. *)
Lemma violated_sub_covered {A} (v : A) a b e rules m :
  b <= a -> first_violated v rules (m (a - b)) ->
  first_violated v rules (core_ok_or (checked_sub a b) e ≫= m).
Proof. intros Hab. unfold checked_sub. by rewrite (proj2 (Z.leb_le b a) Hab). Qed.

Lemma violated_bind {A B} (a : A) (v : B) rules rules' m f :
  first_violated a rules m -> first_violated v rules' (f a) ->
  first_violated v (rules ++ rules') (m ≫= f).
Proof.
  induction 1 as [|P e rules HP|P e rules r HP _ IH]; intros Hf; [exact Hf| |].
  - by apply rule_violated.
  - by apply rule_respected; [|apply IH].
Qed.

Ltac decided := to_prop; try split; intros; to_prop; lia.

(** ** The tables *)

(** The protocol fee [fee] of an input and the user's limits on it. *)
Definition fee_rules (fee_bps amount_in fee max_protocol_fee max_total_input_debit : Z)
    : list rule :=
  [(fee_bps = 0, ArithmeticOverflow);
   (2 ^ 64 <= fee, IntegerConversionFailed);
   (max_protocol_fee < fee, ProtocolFeeAboveUserMaximum);
   (2 ^ 64 <= amount_in + fee, ArithmeticOverflow);
   (max_total_input_debit < amount_in + fee, TotalDebitAboveUserMaximum)].

Section Tables.
Context (w : World) (e : Envelope).
Let market := acc_data (ev_market e).
Let domain := acc_data (ev_domain e).
Let collected := fl_accounted_fee_a (acc_data (ev_fee_ledger e)).
Let balance := ta_amount (acc_data (ev_user_source_a e)).

(** The kernel core: the output is the caller's. *)
Definition kernel_rules (args : ExecuteEngineProbeV0Args) (fee : Z) : list rule :=
  [(ea_amount_in args = 0 \/ ea_amount_out args = 0, ZeroAmount);
   (ea_expires_at_slot args < w_slot w, RequestExpired);
   (ea_amount_out args < ea_min_output_credit args, OutputBelowUserMinimum);
   (d_accounted_b domain < ea_amount_out args, InsufficientAccountedLiquidity)] ++
  fee_rules (m_fee_bps market) (ea_amount_in args) fee (ea_max_protocol_fee args)
    (ea_max_total_input_debit args) ++
  [(2 ^ 64 <= d_accounted_a domain + ea_amount_in args, ArithmeticOverflow);
   (2 ^ 64 <= collected + fee, ArithmeticOverflow)].

(** The generated core: before the engine has answered. *)
Definition generated_rules (args : ExecuteEngineGeneratedProbeV0Args) (fee : Z) : list rule :=
  [(ga_amount_in args = 0, ZeroAmount);
   (ga_expires_at_slot args < w_slot w, RequestExpired)] ++
  fee_rules (m_fee_bps market) (ga_amount_in args) fee (ga_max_protocol_fee args)
    (ga_max_total_input_debit args) ++
  [(balance < ga_amount_in args + fee, InsufficientUserSourceBalance);
   (d_accounted_b domain < ga_min_output_credit args, InsufficientAccountedLiquidity);
   (2 ^ 64 <= d_accounted_a domain + ga_amount_in args, ArithmeticOverflow);
   (2 ^ 64 <= collected + fee, ArithmeticOverflow)].

(** The routed core: before the first phase. *)
Definition routed_rules (args : ExecuteCallbackAuthenticatedProbeV0Args) (fee : Z) : list rule :=
  [(ra_amount_in args = 0, ZeroAmount)] ++
  fee_rules (m_fee_bps market) (ra_amount_in args) fee (ra_max_protocol_fee args)
    (ra_max_total_input_debit args) ++
  [(balance < ra_amount_in args + fee, InsufficientUserSourceBalance);
   (d_accounted_b domain < ra_min_output_credit args, InsufficientAccountedLiquidity)].

(** The routed core, on the output the engine answered, and on the books. *)
Definition routed_output_rules (args : ExecuteCallbackAuthenticatedProbeV0Args)
    (amount_out : Z) : list rule :=
  [(amount_out = 0, ZeroAmount);
   (amount_out < ra_min_output_credit args, OutputBelowUserMinimum);
   (d_accounted_b domain < amount_out, InsufficientAccountedLiquidity)].
Definition routed_book_rules (args : ExecuteCallbackAuthenticatedProbeV0Args)
    (fee amount_out : Z) : list rule :=
  [(2 ^ 64 <= d_accounted_a domain + ra_amount_in args, ArithmeticOverflow);
   (d_accounted_b domain < amount_out, ArithmeticOverflow);
   (2 ^ 64 <= collected + fee, ArithmeticOverflow)].
End Tables.

Section Refinement.
Context `{Runtime} {C : CoreConfig} (w : World) (e : Envelope).
Hypothesis Hbps : is_u16 (m_fee_bps (acc_data (ev_market e))).

Lemma fee_ceil_decided amount fee_bps fee rules A (v : A) m :
  is_u64 amount -> 0 < amount -> is_u16 fee_bps -> is_ceil_fee amount fee_bps fee ->
  first_violated v rules (m fee) ->
  first_violated v ((fee_bps = 0, ArithmeticOverflow) ::
    (2 ^ 64 <= fee, IntegerConversionFailed) :: rules) (fee_ceil amount fee_bps ≫= m).
Proof.
  intros Ha Hpos Hb Hfee Hm. rewrite fee_ceil_eq by done.
  assert ((amount * fee_bps + 9999) / 10000 = fee) as ->.
  { apply (is_ceil_fee_unique (amount * fee_bps) 1); [apply ceil_div_spec|].
    unfold is_ceil_fee in *. lia. }
  rewrite (proj2 (Z.eqb_neq amount 0)) by lia.
  destruct (Z.eqb_spec fee_bps 0); [by apply rule_violated|]. apply rule_respected; [done|]. cbv zeta.
  destruct (Z.ltb_spec fee (2 ^ 64)); [apply rule_respected; [lia|exact Hm]|].
  by apply rule_violated.
Qed.

Lemma quote_fee_decided amount fee max_fee max_debit :
  is_u64 amount -> 0 < amount -> is_ceil_fee amount (m_fee_bps (acc_data (ev_market e))) fee ->
  first_violated (fee, amount + fee)
    (fee_rules (m_fee_bps (acc_data (ev_market e))) amount fee max_fee max_debit)
    (quote_fee e amount max_fee max_debit).
Proof.
  intros Ha Hpos Hfee. unfold quote_fee, fee_rules. apply fee_ceil_decided; [done..|].
  apply violated_require; [decided..|]. apply violated_add.
  apply violated_require; [decided..|]. apply none_violated.
Qed.

Lemma kernel_economics_decided args fee :
  is_u64 (ea_amount_in args) -> is_u64 (ea_amount_out args) ->
  is_ceil_fee (ea_amount_in args) (m_fee_bps (acc_data (ev_market e))) fee ->
  first_violated {|
    pp_protocol_fee := fee; pp_total_input_debit := ea_amount_in args + fee;
    pp_post_accounted_a := d_accounted_a (acc_data (ev_domain e)) + ea_amount_in args;
    pp_post_accounted_b := d_accounted_b (acc_data (ev_domain e)) - ea_amount_out args;
    pp_post_accounted_fee_a := fl_accounted_fee_a (acc_data (ev_fee_ledger e)) + fee |}
    (kernel_rules w e args fee) (probe_economics w e args).
Proof.
  intros Hin Hout Hfee. unfold probe_economics, kernel_rules. unfold in_width in Hin, Hout.
  cbv zeta. cbn [app].
  destruct (decide (ea_amount_in args = 0 \/ ea_amount_out args = 0)) as [Hz|Hz].
  { assert (((0 <? ea_amount_in args) && (0 <? ea_amount_out args)) = false) as ->.
    { apply andb_false_iff. rewrite !Z.ltb_ge. lia. }
    by apply rule_violated. }
  apply violated_require; [decided|intros Hb; apply andb_false_iff in Hb; decided|].
  apply violated_require; [decided..|]. apply violated_require; [decided..|].
  destruct (decide (ea_amount_out args <= d_accounted_b (acc_data (ev_domain e)))) as [Hl|Hl].
  - apply violated_require; [decided..|]. eapply violated_bind.
    { apply quote_fee_decided; [unfold in_width; lia | lia | exact Hfee]. }
    apply violated_add, violated_sub_covered, violated_add, none_violated. exact Hl.
  - assert ((ea_amount_out args <=? d_accounted_b (acc_data (ev_domain e))) = false) as ->
      by (apply Z.leb_gt; lia).
    apply rule_violated. lia.
Qed.

Lemma generated_economics_decided args fee :
  is_u64 (ga_amount_in args) ->
  is_ceil_fee (ga_amount_in args) (m_fee_bps (acc_data (ev_market e))) fee ->
  first_violated {|
    gc_protocol_fee := fee; gc_total_input_debit := ga_amount_in args + fee;
    gc_post_accounted_a := d_accounted_a (acc_data (ev_domain e)) + ga_amount_in args;
    gc_post_accounted_fee_a := fl_accounted_fee_a (acc_data (ev_fee_ledger e)) + fee |}
    (generated_rules w e args fee) (generated_economics w e args).
Proof.
  intros Hin Hfee. unfold generated_economics, generated_rules.
  cbv zeta. cbn [app].
  destruct (decide (ga_amount_in args = 0)) as [Hz|Hz]; [rewrite Hz; by apply rule_violated|].
  unfold in_width in Hin.
  apply violated_require; [decided..|]. apply violated_require; [decided..|].
  eapply violated_bind.
  { apply quote_fee_decided; [unfold in_width; lia | lia | exact Hfee]. }
  apply violated_require; [decided..|]. apply violated_require; [decided..|].
  apply violated_add, violated_add, none_violated.
Qed.

Lemma routed_economics_decided args fee :
  is_u64 (ra_amount_in args) ->
  is_ceil_fee (ra_amount_in args) (m_fee_bps (acc_data (ev_market e))) fee ->
  first_violated (fee, ra_amount_in args + fee) (routed_rules e args fee)
    (routed_economics e args).
Proof.
  intros Hin Hfee. unfold routed_economics, routed_rules. cbv zeta. cbn [app].
  destruct (decide (ra_amount_in args = 0)) as [Hz|Hz].
  { rewrite Hz. unfold quote_fee, fee_ceil. by apply rule_violated. }
  unfold in_width in Hin. apply rule_respected; [exact Hz|].
  eapply violated_bind.
  { apply quote_fee_decided; [unfold in_width; lia | lia | exact Hfee]. }
  apply violated_require; [decided..|]. apply violated_require; [decided..|].
  apply none_violated.
Qed.

Lemma routed_output_decided args amount_out :
  0 <= amount_out ->
  first_violated tt (routed_output_rules e args amount_out)
    (validate_amount_out amount_out (ra_min_output_credit args)
      (d_accounted_b (acc_data (ev_domain e)))).
Proof.
  intros Hout. unfold validate_amount_out, routed_output_rules. cbv zeta.
  apply violated_require; [decided..|]. apply violated_require; [decided..|].
  apply violated_require_last; decided.
Qed.

Lemma routed_books_decided args au amount_out :
  first_violated {|
    st_protocol_fee := au_protocol_fee au; st_total_input_debit := au_total_input_debit au;
    st_amount_out := amount_out;
    st_post_accounted_a := d_accounted_a (acc_data (ev_domain e)) + ra_amount_in args;
    st_post_accounted_b := d_accounted_b (acc_data (ev_domain e)) - amount_out;
    st_post_accounted_fee_a :=
      fl_accounted_fee_a (acc_data (ev_fee_ledger e)) + au_protocol_fee au |}
    (routed_book_rules e args (au_protocol_fee au) amount_out)
    (accept_settlement e args au amount_out).
Proof.
  unfold accept_settlement, routed_book_rules.
  apply violated_add, violated_sub, violated_add, none_violated.
Qed.
End Refinement.

(** A table decides: it has one answer. *)
Lemma first_violated_functional {A} (v : A) rules r r' :
  first_violated v rules r -> first_violated v rules r' -> r = r'.
Proof. induction 1; inversion 1; subst; (done || tauto || auto). Qed.

(** C24. The economics of the three cores are decided by tables of rules over
    unbounded integers. For [u64] arguments and a [u16] rate, with [fee] the exact
    ceiling of the input's share: the kernel core's [probe_economics], the
    generated core's [generated_economics] and the routed core's
    [routed_economics], [validate_amount_out] and [accept_settlement] answer the
    error of the first violated rule of their table (amounts, expiry, user limits,
    liquidity, balance, overflow of the books, in the code's order), and
    otherwise exactly the fee, the total debit and the books after the trade. *)
Theorem economics_first_rejection `{Runtime} {C : CoreConfig} w e kernel generated routed au
    fee_k fee_g fee_r amount_out :
  let rate := m_fee_bps (acc_data (ev_market e)) in
  let a := d_accounted_a (acc_data (ev_domain e)) in
  let b := d_accounted_b (acc_data (ev_domain e)) in
  let collected := fl_accounted_fee_a (acc_data (ev_fee_ledger e)) in
  is_u16 rate -> is_u64 (ea_amount_out kernel) -> is_u64 amount_out ->
  is_u64 (ea_amount_in kernel) -> is_ceil_fee (ea_amount_in kernel) rate fee_k ->
  is_u64 (ga_amount_in generated) -> is_ceil_fee (ga_amount_in generated) rate fee_g ->
  is_u64 (ra_amount_in routed) -> is_ceil_fee (ra_amount_in routed) rate fee_r ->
  first_violated {|
    pp_protocol_fee := fee_k; pp_total_input_debit := ea_amount_in kernel + fee_k;
    pp_post_accounted_a := a + ea_amount_in kernel;
    pp_post_accounted_b := b - ea_amount_out kernel;
    pp_post_accounted_fee_a := collected + fee_k |}
    (kernel_rules w e kernel fee_k) (probe_economics w e kernel) /\
  first_violated {|
    gc_protocol_fee := fee_g; gc_total_input_debit := ga_amount_in generated + fee_g;
    gc_post_accounted_a := a + ga_amount_in generated;
    gc_post_accounted_fee_a := collected + fee_g |}
    (generated_rules w e generated fee_g) (generated_economics w e generated) /\
  first_violated (fee_r, ra_amount_in routed + fee_r)
    (routed_rules e routed fee_r) (routed_economics e routed) /\
  first_violated tt (routed_output_rules e routed amount_out)
    (validate_amount_out amount_out (ra_min_output_credit routed) b) /\
  first_violated {|
    st_protocol_fee := au_protocol_fee au; st_total_input_debit := au_total_input_debit au;
    st_amount_out := amount_out; st_post_accounted_a := a + ra_amount_in routed;
    st_post_accounted_b := b - amount_out;
    st_post_accounted_fee_a := collected + au_protocol_fee au |}
    (routed_book_rules e routed (au_protocol_fee au) amount_out)
    (accept_settlement e routed au amount_out).
Proof.
  intros rate a b collected Hrate Hko Ho Hk Hfk Hg Hfg Hr Hfr. split_and!.
  - by apply kernel_economics_decided.
  - by apply generated_economics_decided.
  - by apply routed_economics_decided.
  - apply routed_output_decided. unfold in_width in Ho. lia.
  - apply routed_books_decided.
Qed.

(** One unit above the user's limits, or a slot too late: the first rule that
    is violated answers, whatever else is wrong. *)
Definition rejected_args (slot : Z) : ExecuteEngineProbeV0Args := {|
  ea_amount_in := 1000; ea_amount_out := 901; ea_max_total_input_debit := 1002;
  ea_min_output_credit := 900; ea_max_protocol_fee := 3; ea_expires_at_slot := slot |}.

Definition rejected_routed : ExecuteCallbackAuthenticatedProbeV0Args := {|
  ra_amount_in := 1000; ra_max_total_input_debit := 1003; ra_min_output_credit := 900;
  ra_max_protocol_fee := 3; ra_expires_at_slot := 100; ra_authorization_nonce := test_key 30;
  ra_expected_engine_sequence := 7; ra_timing_mode := 0; ra_expected_capability_hash := [];
  ra_opaque_payload := [] |}.
Definition rejected_authorized : AuthorizedExecution := {|
  au_protocol_fee := 3; au_total_input_debit := 1003; au_opaque := []; au_capability_hash := [];
  au_payload_hash := []; au_intent_digest := []; au_spend_bump := 255;
  au_primary_callback := {| cb_key := test_key 31; cb_bump := 255 |};
  au_commit_callback := {| cb_key := test_key 32; cb_bump := 255 |} |}.
Definition rejected_world (slot : Z) : World :=
  {| w_slot := slot; w_stack_height := 1; w_return_data := None; w_accounts := ∅ |}.

Lemma economics_first_rejection_witness :
  let _ := EngineProbe.example_runtime in let _ := kernel_config in
  let e := example_envelope 50000 70000 6 in
  let w := rejected_world 500 in
  (exists v, first_violated v (kernel_rules w e (rejected_args 499) 3)
    (probe_economics w e (rejected_args 499)) /\
    probe_economics w e (rejected_args 499) = Err (Core RequestExpired)) /\
  (exists v, first_violated v (kernel_rules w e (rejected_args 500) 3)
    (probe_economics w e (rejected_args 500)) /\
    probe_economics w e (rejected_args 500) = Err (Core TotalDebitAboveUserMaximum)).
Proof.
  intros rt cfg e w.
  assert (forall slot, exists v, first_violated v (kernel_rules w e (rejected_args slot) 3)
    (probe_economics w e (rejected_args slot))) as Hdecided.
  { intros slot. eexists.
    apply (economics_first_rejection w e (rejected_args slot)
      {| ga_amount_in := 1000; ga_max_total_input_debit := 1003; ga_min_output_credit := 900;
         ga_max_protocol_fee := 3; ga_expires_at_slot := slot; ga_expected_capability_hash := [];
         ga_opaque_payload := [] |}
      rejected_routed rejected_authorized 3 3 3 900);
      unfold is_ceil_fee, in_width; simpl; lia. }
  split; [destruct (Hdecided 499) as [v Hv] | destruct (Hdecided 500) as [v Hv]];
    exists v; (split; [exact Hv | vm_compute; reflexivity]).
Defined.
