(* ===== verification/RoutedProperties.v ===== *)
(** * Properties of the routed-callback core

    An execution is taken apart once, into [RoutedRun]; the theorems read off
    the settlement, the authorization it consumes, the two engine phases and
    what the engine can reach. [cpi_frame] names the documented rule that an
    instruction changes no account it does not pass as writable; only the
    theorems about what happens after the engine's COMMIT call use it. *)
From S2P Require Import Prelude Codec CoreState Solana FeeMath Validation Capability.
From S2P Require Import RoutedWire Settlement RoutedAuthorize RoutedExecute ReferenceRuntime.

Section RoutedProperties.
Context `{Runtime} {C : CoreConfig}.

(** A cross-program invocation leaves every account alone that its metas do
    not list as writable. *)
Definition cpi_frame : Prop :=
  forall w ix infos seeds w' k,
    invoke_signed w ix infos seeds = Ok w' ->
    (forall m, m ∈ ix_accounts ix -> am_is_writable m = true -> am_pubkey m <> k) ->
    w_accounts w' !! k = w_accounts w !! k.

(** ** Inversion of a successful call *)

Record RoutedRun (w : World) (a : ExecuteCallbackAuthenticatedProbeV0)
    (remaining : list AccountInfo) (args : ExecuteCallbackAuthenticatedProbeV0Args)
    (w' : World) (ev : CallbackAuthenticatedProbeExecutedV0) (phase : Z)
    (au : AuthorizedExecution) (w1 : World) (pe : PrimaryExecution)
    (st : AcceptedSettlement) (w2 : World) (e2 : Envelope) (sd : list Z)
    (w3 : World) (ce : CommitExecution) : Prop := {
  rr_loaded : envelope_loaded w (re_env a) = true;
  rr_phase : primary_phase (ra_timing_mode args) = Ok phase;
  rr_amount : 0 < ra_amount_in args;
  rr_slot : w_slot w <= ra_expires_at_slot args;
  rr_roles : NoDup (routed_fixed_keys a);
  rr_envelope : validate_execution_envelope a = Ok tt;
  rr_authorization : routed_authorization a remaining args phase = Ok au;
  rr_primary : routed_primary w a remaining args phase au = Ok (w1, pe);
  rr_accept : accept_settlement (re_env a) args au (xr_amount_out (pe_receipt pe)) = Ok st;
  rr_settle : settle_authenticated_intent w1 a (ra_amount_in args) (au_intent_digest au)
                (au_spend_bump au) st = Ok (w2, e2);
  rr_digest : compute_bound_settlement_digest e2 args st (au_intent_digest au)
                (pe_execution_digest pe) (pe_receipt_digest pe) = Ok sd;
  rr_commit : (ra_timing_mode args = TIMING_PREPARE_COMMIT /\
                routed_commit w2 a e2 remaining args au (pe_receipt pe) sd = Ok (w3, ce)) \/
              (ra_timing_mode args = TIMING_SINGLE /\ w3 = w2 /\ ce_sequence ce = 0);
  rr_exit : w' = exit_accounts w3 (commit_accounts e2 (st_post_accounted_a st)
                   (st_post_accounted_b st) (st_post_accounted_fee_a st));
  rr_fee : cx_protocol_fee ev = st_protocol_fee st;
  rr_out : cx_amount_out ev = st_amount_out st;
  rr_intent : cx_intent_digest ev = au_intent_digest au;
  rr_capability : cx_authorized_capability_hash ev = au_capability_hash au;
  rr_payload : cx_payload_hash ev = au_payload_hash au;
  rr_settlement : cx_settlement_digest ev = sd;
  rr_primary_sequence : cx_primary_engine_sequence ev = xr_state_sequence (pe_receipt pe);
  rr_commit_sequence : cx_commit_engine_sequence ev = ce_sequence ce;
  rr_report : cx_market ev = key (ev_market e2) /\ cx_domain ev = key (ev_domain e2) /\
    cx_amount_in ev = ra_amount_in args /\ cx_post_accounted_a ev = st_post_accounted_a st /\
    cx_post_accounted_b ev = st_post_accounted_b st /\
    cx_post_accounted_fee_a ev = st_post_accounted_fee_a st }.

Arguments rr_authorization {w a remaining args w' ev phase au w1 pe st w2 e2 sd w3 ce} _.
Arguments rr_roles {w a remaining args w' ev phase au w1 pe st w2 e2 sd w3 ce} _.

Lemma primary_phase_Ok mode phase :
  primary_phase mode = Ok phase ->
  (mode = TIMING_SINGLE /\ phase = PHASE_TRANSITION) \/
  (mode = TIMING_PREPARE_COMMIT /\ phase = PHASE_PREPARE).
Proof.
  unfold primary_phase. destruct (Z.eqb_spec mode TIMING_SINGLE); [intros [= <-]; auto|].
  destruct (Z.eqb_spec mode TIMING_PREPARE_COMMIT); [intros [= <-]; auto | discriminate].
Qed.

Lemma execute_routed_Ok w a remaining args w' ev :
  execute_callback_authenticated_probe w a remaining args = Ok (w', ev) ->
  exists phase au w1 pe st w2 e2 sd w3 ce,
    RoutedRun w a remaining args w' ev phase au w1 pe st w2 e2 sd w3 ce.
Proof.
  unfold execute_callback_authenticated_probe. intros Hx. inv_guarded.
  match goal with H : routed_constraints _ _ = _ |- _ =>
    unfold routed_constraints in H; inv_guarded end.
  match goal with H : handle_execute_callback_authenticated_probe_v0 _ _ _ _ = Ok ?r |- _ =>
    destruct r as [[w3 e3] ev0]; unfold handle_execute_callback_authenticated_probe_v0 in H end.
  inv_guarded.
  match goal with H : routed_primary _ _ _ _ _ _ = Ok ?r |- _ => destruct r as [w1 pe] end.
  inv_guarded.
  match goal with H : settle_authenticated_intent _ _ _ _ _ _ = Ok ?r |- _ =>
    destruct r as [w2 e2] end.
  inv_guarded.
  match goal with H : (if _ then _ else _) = Ok ?r |- _ => destruct r as [w4 ce] end.
  inv_guarded. to_prop.
  do 10 eexists. econstructor; try eassumption; try reflexivity; [|by split_and!].
  destruct (Z.eqb_spec (ra_timing_mode args) TIMING_PREPARE_COMMIT) as [E|E]; [by left|right].
  inv_guarded. match goal with H : primary_phase _ = _ |- _ =>
    apply primary_phase_Ok in H as [[? _]|[? _]] end; done.
Qed.

(** What the checks before the first engine call establish. *)
Lemma routed_authorization_Ok a remaining args phase au :
  routed_authorization a remaining args phase = Ok au ->
  let e := re_env a in
  let source := acc_data (ev_user_source_a e) in
  let callback p := (canonical_callback e (au_intent_digest au) p) in
  fee_within_limits e (ra_amount_in args) (ra_max_protocol_fee args)
    (ra_max_total_input_debit args) (au_protocol_fee au) (au_total_input_debit au) /\
  au_total_input_debit au <= ta_amount source /\
  ra_min_output_credit args <= d_accounted_b (acc_data (ev_domain e)) /\
  validate_opaque_capabilities remaining (routed_fixed_keys a) = Ok (au_opaque au) /\
  compute_capability_hash (ai_key (ev_engine_program e))
    (capability_descriptors (ev_engine_state e) (au_opaque au) Authorized) =
    Ok (au_capability_hash au) /\
  au_capability_hash au = ra_expected_capability_hash args /\
  compute_payload_hash (ra_opaque_payload args) = Ok (au_payload_hash au) /\
  compute_intent_digest (bound_intent a args (au_protocol_fee au) (au_capability_hash au)
    (au_payload_hash au)) = Ok (au_intent_digest au) /\
  canonical_spend_authority (key (ev_user_source_a e)) (au_intent_digest au) =
    (ai_key (re_spend_authority a), au_spend_bump au) /\
  ta_mint source = key (ev_mint_a e) /\
  ta_delegate source = Some (ai_key (re_spend_authority a)) /\
  ta_delegated_amount source = au_total_input_debit au /\
  ai_key (re_primary_callback a) = cb_key (callback phase) /\
  ai_key (re_commit_callback a) = cb_key (callback PHASE_COMMIT) /\
  au_primary_callback au = callback phase /\ au_commit_callback au = callback PHASE_COMMIT.
Proof.
  unfold routed_authorization, compute_bound_intent_digest, wire. intros Ha. inv_guarded.
  match goal with H : routed_economics _ _ = Ok ?r |- _ =>
    destruct r as [fee total]; unfold routed_economics in H end.
  inv_guarded.
  match goal with H : quote_fee _ _ _ _ = Ok ?r |- _ =>
    destruct r as [fee' total']; apply quote_fee_Ok in H end.
  inv_guarded.
  match goal with H : context [canonical_spend_authority ?k ?d] |- _ =>
    destruct (canonical_spend_authority k d) as [expected bump] eqn:Es end.
  unfold validate_delegated_spend_source, validate_common_token_account, validate_callback_account in *.
  inv_guarded. to_prop. subst. simpl in *. rewrite Es. by split_and!.
Qed.

Lemma accept_settlement_Ok e args au out st :
  accept_settlement e args au out = Ok st ->
  st_protocol_fee st = au_protocol_fee au /\ st_total_input_debit st = au_total_input_debit au /\
  st_amount_out st = out /\
  st_post_accounted_a st = d_accounted_a (acc_data (ev_domain e)) + ra_amount_in args /\
  st_post_accounted_b st = d_accounted_b (acc_data (ev_domain e)) - out /\
  st_post_accounted_fee_a st =
    fl_accounted_fee_a (acc_data (ev_fee_ledger e)) + au_protocol_fee au /\
  d_accounted_a (acc_data (ev_domain e)) + ra_amount_in args < 2 ^ 64 /\
  out <= d_accounted_b (acc_data (ev_domain e)) /\
  fl_accounted_fee_a (acc_data (ev_fee_ledger e)) + au_protocol_fee au < 2 ^ 64.
Proof. unfold accept_settlement. intros Hs. inv_guarded. inv_checked. by subst. Qed.

Lemma settle_authenticated_intent_Ok w a amount d bump st w' e' :
  settle_authenticated_intent w a amount d bump st = Ok (w', e') ->
  settle w (re_env a) (re_spend_authority a)
    [[SPEND_AUTHORITY_SEED_V0; key (ev_user_source_a (re_env a)); d; [bump]]]
    amount (st_protocol_fee st) (st_total_input_debit st) (st_amount_out st) = Ok (w', e') /\
  ta_delegate (acc_data (ev_user_source_a e')) = None /\
  ta_delegated_amount (acc_data (ev_user_source_a e')) = 0.
Proof.
  unfold settle_authenticated_intent. intros Hs. inv_guarded. destruct r as [w1 e1].
  inv_guarded. by to_prop.
Qed.

(** ** One engine phase *)

(** What a phase call returned, and for which request. *)
Lemma invoke_engine_phase_Ok w e opaque ds request callback bump w' receipt :
  invoke_engine_phase w e opaque ds request callback bump = Ok (w', receipt) ->
  exists data infos bytes,
    encode_engine_instruction request = Ok data /\
    invoke_signed w (phase_instruction e request callback ds data)
      (ev_engine_state e :: callback :: infos)
      [callback_seeds e (xb_intent_digest (xq_binding request)) (xb_phase (xq_binding request))
         ++ [[bump]]] = Ok w' /\
    w_return_data w' = Some (ai_key (ev_engine_program e), bytes) /\
    decode_receipt bytes = Ok receipt.
Proof.
  unfold invoke_engine_phase, wire. intros Hi. inv_guarded. destruct r3 as [setter bytes].
  inv_guarded. subst. do 3 eexists. split_and!; eauto.
Qed.

Lemma build_engine_request_Ok e args fee d phase context pre cap pcap n request :
  build_engine_request e args fee d phase context pre cap pcap n = Ok request ->
  let b := xq_binding request in
  xb_phase b = phase /\ xb_intent_digest b = d /\ xb_phase_context_digest b = context /\
  xb_pre_sequence b = pre /\ compute_execution_digest b = Ok (xq_execution_digest request).
Proof.
  unfold build_engine_request, wire, new_execution_binding, new_engine_request. intros Hb.
  inv_guarded. match goal with H : canonical_payload _ = Ok ?r |- _ => destruct r end.
  inv_guarded. by split_and!.
Qed.

(** One engine call of a phase and the receipt Core accepted for it: the
    request is the phase's, the return data was set by the engine, and the
    receipt names the phase, the intent and the execution digest. *)
Definition phase_call (w : World) (e : Envelope) (remaining : list AccountInfo)
    (args : ExecuteCallbackAuthenticatedProbeV0Args) (au : AuthorizedExecution) (phase : Z)
    (mode : CapabilityMode) (context : list Z) (pre_sequence : Z) (callback : AccountInfo)
    (request : EngineRequest) (w' : World) (receipt : EngineReceipt) : Prop :=
  exists phase_hash data infos bytes,
    let descriptors := capability_descriptors (ev_engine_state e) (au_opaque au) mode in
    compute_capability_hash (ai_key (ev_engine_program e)) descriptors = Ok phase_hash /\
    build_engine_request e args (au_protocol_fee au) (au_intent_digest au) phase context
      pre_sequence (au_capability_hash au) phase_hash (length remaining) = Ok request /\
    encode_engine_instruction request = Ok data /\
    invoke_signed w (phase_instruction e request callback (tail descriptors) data)
      (ev_engine_state e :: callback :: infos)
      [callback_seeds e (au_intent_digest au) phase ++
         [[cb_bump (canonical_callback e (au_intent_digest au) phase)]]] = Ok w' /\
    w_return_data w' = Some (ai_key (ev_engine_program e), bytes) /\
    decode_receipt bytes = Ok receipt /\
    xr_phase receipt = phase /\ xr_intent_digest receipt = au_intent_digest au /\
    xr_execution_digest receipt = xq_execution_digest request.

Definition primary_mode (phase : Z) : CapabilityMode :=
  if phase =? PHASE_PREPARE then ReadOnly else Authorized.

Lemma routed_primary_Ok w a remaining args phase au w' pe :
  au_primary_callback au = canonical_callback (re_env a) (au_intent_digest au) phase ->
  routed_primary w a remaining args phase au = Ok (w', pe) ->
  exists request,
    phase_call w (re_env a) remaining args au phase (primary_mode phase) (replicate 32 0)
      (ra_expected_engine_sequence args) (re_primary_callback a) request w' (pe_receipt pe) /\
    pe_execution_digest pe = xq_execution_digest request /\
    compute_receipt_digest (pe_receipt pe) = Ok (pe_receipt_digest pe) /\
    validate_primary_sequence phase (ra_expected_engine_sequence args)
      (xr_state_sequence (pe_receipt pe)) = Ok tt /\
    0 < xr_amount_out (pe_receipt pe) /\
    ra_min_output_credit args <= xr_amount_out (pe_receipt pe) /\
    xr_amount_out (pe_receipt pe) <= d_accounted_b (acc_data (ev_domain (re_env a))).
Proof.
  unfold routed_primary, validate_receipt_binding, validate_amount_out, wire. intros Hcb Hp.
  inv_guarded.
  match goal with H : invoke_engine_phase _ _ _ _ _ _ _ = Ok ?r |- _ =>
    destruct r as [w1 receipt]; apply invoke_engine_phase_Ok in H as (data & infos & bytes & ? & ? & ? & ?) end.
  inv_guarded. to_prop.
  match goal with H : build_engine_request _ _ _ _ _ _ _ _ _ _ = _ |- _ =>
    pose proof (build_engine_request_Ok _ _ _ _ _ _ _ _ _ _ _ H) as (Ep & Ed & _) end.
  rewrite Ep, Ed, Hcb in *. eexists. split; [|by split_and!].
  do 4 eexists. split_and!; try eassumption; done.
Qed.

Lemma routed_commit_Ok w a e remaining args au primary sd w' ce :
  au_commit_callback au = canonical_callback e (au_intent_digest au) PHASE_COMMIT ->
  routed_commit w a e remaining args au primary sd = Ok (w', ce) ->
  exists request receipt,
    phase_call w e remaining args au PHASE_COMMIT Authorized sd (xr_state_sequence primary)
      (re_commit_callback a) request w' receipt /\
    ce_execution_digest ce = xq_execution_digest request /\
    compute_receipt_digest receipt = Ok (ce_receipt_digest ce) /\
    ce_sequence ce = xr_state_sequence receipt /\
    xr_amount_out receipt = xr_amount_out primary /\
    xr_state_sequence receipt = xr_state_sequence primary + 1.
Proof.
  unfold routed_commit, validate_receipt_binding, wire. intros Hcb Hp.
  inv_guarded.
  match goal with H : invoke_engine_phase _ _ _ _ _ _ _ = Ok ?r |- _ =>
    destruct r as [w1 receipt]; apply invoke_engine_phase_Ok in H as (data & infos & bytes & ? & ? & ? & ?) end.
  inv_guarded. inv_checked. to_prop.
  match goal with H : build_engine_request _ _ _ _ _ _ _ _ _ _ = _ |- _ =>
    pose proof (build_engine_request_Ok _ _ _ _ _ _ _ _ _ _ _ H) as (Ep & Ed & _) end.
  rewrite Ep, Ed, Hcb in *. do 2 eexists. split; [|split_and!; try eassumption; try done; lia].
  do 4 eexists. split_and!; try eassumption; done.
Qed.

(** ** What a phase call can reach *)

(** The engine state outside PREPARE, or an opaque position that is no fixed
    role, not the core's, and neither a program nor a token account. *)
Definition engine_may_write (a : ExecuteCallbackAuthenticatedProbeV0)
    (remaining : list AccountInfo) (phase : Z) (mode : CapabilityMode) (k : Pubkey) : Prop :=
  (k = ai_key (ev_engine_state (re_env a)) /\ phase <> PHASE_PREPARE) \/
  (mode = Authorized /\ (k ∉ routed_fixed_keys a) /\
   exists info, info ∈ remaining /\ ai_key info = k /\ ai_owner info <> ID /\
     ai_executable info = false /\
     ai_owner info <> spl_token_ID /\ ai_owner info <> token_2022_ID).

Lemma opaque_metas a remaining opaque state mode m phase :
  validate_opaque_capabilities remaining (routed_fixed_keys a) = Ok opaque ->
  m ∈ map descriptor_meta (tail (capability_descriptors state opaque mode)) ->
  am_is_signer m = false /\
  (am_is_writable m = true -> engine_may_write a remaining phase mode (am_pubkey m)).
Proof.
  intros (_ & Hf & ->)%validate_opaque_capabilities_Ok Hm. simpl in Hm.
  apply list_elem_of_In, in_map_iff in Hm as (d & <- & (d0 & <- & Hd)%in_map_iff).
  apply in_map_iff in Hd as (i & <- & Hi%list_elem_of_In).
  rewrite Forall_forall in Hf. destruct (Hf i Hi) as (_ & Hk & Hown & Hw).
  destruct mode; simpl; [|by split].
  unfold descriptor_meta. destruct (cd_is_writable (opaque_descriptor remaining i)) eqn:Ew;
    simpl; [|by split].
  apply effective_flag_true in Ew. destruct (Hw Ew) as (? & ? & ?).
  split; [done|]. intros _. right. split; [done|]. split; [done|]. exists i. by split_and!.
Qed.

(** The metas of a phase instruction: only the callback signs. *)
Lemma phase_metas a e remaining opaque mode phase request callback data m :
  validate_opaque_capabilities remaining (routed_fixed_keys a) = Ok opaque ->
  xb_phase (xq_binding request) = phase ->
  ai_key (ev_engine_state e) = ai_key (ev_engine_state (re_env a)) ->
  m ∈ ix_accounts (phase_instruction e request callback
        (tail (capability_descriptors (ev_engine_state e) opaque mode)) data) ->
  (am_is_signer m = true -> am_pubkey m = ai_key callback) /\
  (am_is_writable m = true -> engine_may_write a remaining phase mode (am_pubkey m)).
Proof.
  intros Ho Ep Ek Hm. unfold phase_instruction in Hm; simpl in Hm. rewrite Ep in Hm.
  apply elem_of_cons in Hm as [->|Hm]; [|apply elem_of_cons in Hm as [->|Hm]; [by split|]].
  - destruct (Z.eqb_spec phase PHASE_PREPARE); simpl; [by split|].
    split; [done|]. intros _. left. by split.
  - destruct (opaque_metas _ _ _ (ev_engine_state e) mode m phase Ho Hm) as [Hs Hw].
    split; [congruence | done].
Qed.

(** Under [cpi_frame] a phase leaves every fixed role but the engine state alone. *)
Lemma phase_call_frame w a e remaining args au phase mode context pre callback request w' receipt k :
  cpi_frame ->
  validate_opaque_capabilities remaining (routed_fixed_keys a) = Ok (au_opaque au) ->
  ai_key (ev_engine_state e) = ai_key (ev_engine_state (re_env a)) ->
  phase_call w e remaining args au phase mode context pre callback request w' receipt ->
  k ∈ routed_fixed_keys a -> k <> ai_key (ev_engine_state (re_env a)) ->
  w_accounts w' !! k = w_accounts w !! k.
Proof.
  intros Hframe Ho Ek (h & data & infos & bytes & _ & Hb & _ & Hi & _) Hk Hne.
  apply (Hframe _ _ _ _ _ k Hi). intros m Hm Hwr <-.
  pose proof (build_engine_request_Ok _ _ _ _ _ _ _ _ _ _ _ Hb) as (Ep & _).
  destruct (phase_metas _ _ _ _ _ _ _ _ _ _ Ho Ep Ek Hm) as [_ Hw].
  destruct (Hw Hwr) as [[? _]|(_ & Hn & _)]; contradiction.
Qed.

(** ** The settled world *)

Lemma routed_settlement_keys a :
  NoDup (routed_fixed_keys a) ->
  NoDup (settlement_keys (re_env a) ++ [ai_key (ev_engine_state (re_env a))]).
Proof.
  intros Hnd. eapply sublist_NoDup; [exact Hnd|].
  unfold routed_fixed_keys, settlement_keys; simpl.
  solve_sublist.
Qed.

Lemma settlement_key_fixed a k :
  NoDup (routed_fixed_keys a) -> k ∈ settlement_keys (re_env a) ->
  k ∈ routed_fixed_keys a /\ k <> ai_key (ev_engine_state (re_env a)).
Proof.
  intros (_ & Hd & _)%routed_settlement_keys%NoDup_app Hk. split.
  - unfold settlement_keys, routed_fixed_keys in *. set_solver.
  - intros ->. apply (Hd _ Hk). by apply list_elem_of_singleton.
Qed.

Lemma token_effect_same w w1 w2 e amount_in fee out :
  (forall k, k ∈ settlement_keys e -> balance w2 k = balance w1 k) ->
  token_effect w w1 e amount_in fee out -> token_effect w w2 e amount_in fee out.
Proof.
  intros Hb Ht. unfold token_effect, moves, settlement_keys in *.
  rewrite !Hb by set_solver. exact Ht.
Qed.

Section Run.
Context (w : World) (a : ExecuteCallbackAuthenticatedProbeV0) (remaining : list AccountInfo)
  (args : ExecuteCallbackAuthenticatedProbeV0Args) (w' : World)
  (ev : CallbackAuthenticatedProbeExecutedV0) (phase : Z) (au : AuthorizedExecution)
  (w1 : World) (pe : PrimaryExecution) (st : AcceptedSettlement) (w2 : World) (e2 : Envelope)
  (sd : list Z) (w3 : World) (ce : CommitExecution)
  (Hrun : RoutedRun w a remaining args w' ev phase au w1 pe st w2 e2 sd w3 ce).

Let e := re_env a.
Let amount := ra_amount_in args.
Let fee := cx_protocol_fee ev.
Let out := cx_amount_out ev.

Lemma run_authorization :
  let source := acc_data (ev_user_source_a e) in
  fee_within_limits e amount (ra_max_protocol_fee args) (ra_max_total_input_debit args) fee
    (amount + fee) /\
  ta_delegate source = Some (ai_key (re_spend_authority a)) /\
  ta_delegated_amount source = amount + fee /\
  compute_intent_digest (bound_intent a args fee (cx_authorized_capability_hash ev)
    (cx_payload_hash ev)) = Ok (cx_intent_digest ev) /\
  canonical_spend_authority (key (ev_user_source_a e)) (cx_intent_digest ev) =
    (ai_key (re_spend_authority a), au_spend_bump au).
Proof.
  pose proof (routed_authorization_Ok _ _ _ _ _ (rr_authorization Hrun))
    as (Hlim & _ & _ & _ & _ & _ & _ & Hd & Hs & _ & Hdel & Hamt & _).
  destruct Hrun. apply accept_settlement_Ok in rr_accept0 as (Efee & _).
  unfold fee, amount. rewrite rr_fee0, rr_intent0, rr_capability0, rr_payload0, Efee.
  pose proof Hlim as (_ & Etot & _). rewrite Etot in *. by split_and!.
Qed.

Lemma run_settlement :
  0 < out /\ ra_min_output_credit args <= out /\
  token_effect w w2 e amount fee out /\ core_effect w w' e amount fee out /\ solvent w e /\
  (exists t, token_at w2 (key (ev_user_source_a e)) = Some t /\ ta_delegate t = None /\
     ta_delegated_amount t = 0) /\ same_accounts e e2.
Proof.
  pose proof (routed_authorization_Ok _ _ _ _ _ (rr_authorization Hrun))
    as ((_ & Etot & _) & _ & _ & _ & _ & _ & _ & _ & _ & _ & _ & _ & _ & _ & Ecb & _).
  destruct Hrun.
  apply envelope_loaded_tokens in rr_loaded0 as (Ht & Hd & Hf).
  apply accept_settlement_Ok in rr_accept0 as (Efee & Et & Eout & Ea & Eb & Ef & Ba & Bb & Bf).
  apply routed_primary_Ok in rr_primary0 as (_ & _ & _ & _ & _ & Hpos & Hmin & _); [|done].
  apply settle_authenticated_intent_Ok in rr_settle0 as (Hs & Hdel & Hdam).
  unfold validate_execution_envelope in rr_envelope0. inv_guarded.
  match goal with H : validate_vaults _ = _ |- _ =>
    apply validate_vaults_covers in H as (Ca & Cb & Cf) end.
  pose proof (proj1 (proj1 (NoDup_app _ _) (routed_settlement_keys _ rr_roles0))) as Hnd.
  unfold out, fee, amount, e. rewrite Et, Etot, <- Efee in Hs. rewrite rr_fee0, rr_out0, Eout.
  rewrite Eout, Efee in Hs.
  pose proof (settle_Ok _ _ _ _ _ _ _ _ _ _ Hs) as (Hsame & (Hsrc & _) & _).
  pose proof (settle_token_effect _ _ _ _ _ _ _ _ _ _ Ht Hs) as Hte.
  pose proof Hsame as (_ & Kd & Kl & _ & _ & _ & _ & _ & Ksrc & _).
  rewrite rr_exit0, Ea, Eb, Ef, Efee. distinct_entries Hnd 0%nat 1%nat.
  split_and!; try done.
  - by apply commit_core_effect.
  - destruct Ht as (_ & _ & Ta & Tb & Tf). unfold solvent, balance.
    eexists _, _, _, _, _. rewrite Ta, Tb, Tf. split_and!; eauto.
  - unfold key in *. rewrite Ksrc in Hsrc. eauto.
Qed.

(** The PDAs of the commit phase do not depend on the reloaded balances. *)
Lemma same_callback : same_accounts e e2 -> forall d p,
  canonical_callback e2 d p = canonical_callback e d p.
Proof.
  intros (Em & Ed & _ & Ep & Es & _) d p. unfold canonical_callback, callback_seeds, key in *.
  by rewrite Em, Ed, Ep, Es.
Qed.

Lemma run_commit :
  ra_timing_mode args = TIMING_PREPARE_COMMIT ->
  exists request receipt,
    phase_call w2 e2 remaining args au PHASE_COMMIT Authorized sd
      (xr_state_sequence (pe_receipt pe)) (re_commit_callback a) request w3 receipt /\
    xr_amount_out receipt = xr_amount_out (pe_receipt pe) /\
    xr_state_sequence receipt = xr_state_sequence (pe_receipt pe) + 1 /\
    cx_commit_engine_sequence ev = xr_state_sequence receipt.
Proof.
  intros Hm. pose proof run_settlement as (_ & _ & _ & _ & _ & _ & Hsame).
  pose proof (routed_authorization_Ok _ _ _ _ _ (rr_authorization Hrun))
    as (_ & _ & _ & _ & _ & _ & _ & _ & _ & _ & _ & _ & _ & _ & _ & Ecb).
  destruct Hrun. destruct rr_commit0 as [[_ Hc]|[Hs _]]; [|rewrite Hs in Hm; discriminate].
  apply routed_commit_Ok in Hc as (request & receipt & Hcall & _ & _ & Es & Eo & En);
    [|by rewrite same_callback].
  exists request, receipt. split_and!; congruence || done.
Qed.

(** After settlement only the engine writes, and not into a settlement account. *)
Lemma run_final_accounts : cpi_frame -> forall k,
  k ∈ settlement_keys e -> w_accounts w3 !! k = w_accounts w2 !! k.
Proof.
  intros Hframe k Hk. pose proof run_settlement as (_ & _ & _ & _ & _ & _ & Hsame).
  destruct (settlement_key_fixed _ _ (rr_roles Hrun) Hk) as [Hfix Hne].
  pose proof (routed_authorization_Ok _ _ _ _ _ (rr_authorization Hrun))
    as (_ & _ & _ & Ho & _).
  pose proof run_commit as Hc. destruct Hrun.
  destruct rr_commit0 as [[Hm _]|(_ & -> & _)]; [|done].
  destruct (Hc Hm) as (request & receipt & Hcall & _).
  eapply phase_call_frame; [exact Hframe | exact Ho | | exact Hcall | exact Hfix | exact Hne].
  destruct Hsame as (_ & _ & _ & _ & Es & _). by rewrite Es.
Qed.

Lemma run_final_tokens : cpi_frame ->
  token_effect w w' e amount fee out /\
  token_at w' (key (ev_user_source_a e)) = token_at w2 (key (ev_user_source_a e)).
Proof.
  intros Hframe. pose proof run_settlement as (_ & _ & Ht & _ & _ & _ & Hsame).
  pose proof (run_final_accounts Hframe) as Hacc.
  pose proof (proj1 (proj1 (NoDup_app _ _) (routed_settlement_keys _ (rr_roles Hrun)))) as Hnd.
  destruct Hrun. destruct Hsame as (_ & Kd & Kl & _). unfold e. split.
  - rewrite rr_exit0. apply token_effect_exit.
    + exact Hnd.
    + unfold commit_accounts, set_data, key; simpl. by rewrite Kd.
    + unfold commit_accounts, set_data, key; simpl. by rewrite Kl.
    + eapply token_effect_same; [|exact Ht]. intros k Hk. unfold balance, token_at.
      by rewrite Hacc.
  - rewrite rr_exit0. unfold exit_accounts, commit_accounts, set_data, key in *; simpl.
    rewrite Kd, Kl. distinct_entries Hnd 0%nat 2%nat. distinct_entries Hnd 1%nat 2%nat.
    rewrite !token_at_store_ne by done. unfold token_at. rewrite Hacc; [done|].
    unfold settlement_keys, key. set_solver.
Qed.
End Run.

(** An execution needs a delegated source. *)
Lemma undelegated_source_rejected w a remaining args t :
  token_at w (key (ev_user_source_a (re_env a))) = Some t -> ta_delegate t = None ->
  is_ok (execute_callback_authenticated_probe w a remaining args) = false.
Proof.
  intros Ht Hd. destruct (execute_callback_authenticated_probe w a remaining args)
    as [[w' ev]| |] eqn:Ex; [|done..].
  apply execute_routed_Ok in Ex as (phase & au & w1 & pe & st & w2 & e2 & sd & w3 & ce & Hrun).
  pose proof (run_authorization _ _ _ _ _ _ _ _ _ _ _ _ _ _ _ _ Hrun) as (_ & Hdel & _).
  destruct Hrun. apply envelope_loaded_tokens in rr_loaded0 as ((Hsrc & _) & _).
  simpl in *. congruence.
Qed.

(** A successful execution leaves an undelegated source behind. *)
Lemma spent_source_rejected w a remaining args w' ev :
  cpi_frame ->
  execute_callback_authenticated_probe w a remaining args = Ok (w', ev) ->
  forall w2 a2 remaining2 args2,
    key (ev_user_source_a (re_env a2)) = key (ev_user_source_a (re_env a)) ->
    token_at w2 (key (ev_user_source_a (re_env a))) =
      token_at w' (key (ev_user_source_a (re_env a))) ->
    is_ok (execute_callback_authenticated_probe w2 a2 remaining2 args2) = false.
Proof.
  intros Hframe (phase & au & w1 & pe & st & ws & e2 & sd & w3 & ce & Hrun)%execute_routed_Ok
    w2 a2 remaining2 args2 Hk Hw.
  pose proof (run_settlement _ _ _ _ _ _ _ _ _ _ _ _ _ _ _ _ Hrun)
    as (_ & _ & _ & _ & _ & (t & Hsrc & Hd & _) & _).
  pose proof (run_final_tokens _ _ _ _ _ _ _ _ _ _ _ _ _ _ _ _ Hrun Hframe) as [_ Ht].
  apply (undelegated_source_rejected _ _ _ _ t); [|done]. by rewrite Hk, Hw, Ht.
Qed.

(** ** Properties *)

(** A successful execution, whatever the engine and the token program do,
    ran before expiry with a positive amount, charged a fee and a debit within
    the arguments' limits, accepted a positive output of at least the minimum,
    and settled: in the world after the settlement the five token deltas are
    exact and the source has no delegate left; in the final world the accounted
    balances follow them without overflow; and in the single-phase mode the
    settled world is the final one, so every vault covers its accounted
    balance. *)
Theorem routed_settlement_exact w a remaining args w' ev :
  execute_callback_authenticated_probe w a remaining args = Ok (w', ev) ->
  let e := re_env a in
  let amount := ra_amount_in args in
  let fee := cx_protocol_fee ev in
  let out := cx_amount_out ev in
  0 < amount /\ w_slot w <= ra_expires_at_slot args /\ 0 < out /\ ra_min_output_credit args <= out /\
  fee_within_limits e amount (ra_max_protocol_fee args) (ra_max_total_input_debit args) fee
    (amount + fee) /\
  solvent w e /\ core_effect w w' e amount fee out /\
  exists settled source,
    token_effect w settled e amount fee out /\
    token_at settled (key (ev_user_source_a e)) = Some source /\
    ta_delegate source = None /\ ta_delegated_amount source = 0 /\
    (ra_timing_mode args = TIMING_SINGLE ->
       (forall k, k <> key (ev_domain e) -> k <> key (ev_fee_ledger e) ->
          w_accounts w' !! k = w_accounts settled !! k) /\
       solvent w' e).
Proof.
  intros (phase & au & w1 & pe & st & w2 & e2 & sd & w3 & ce & Hrun)%execute_routed_Ok. simpl.
  pose proof (run_authorization _ _ _ _ _ _ _ _ _ _ _ _ _ _ _ _ Hrun) as (Hlim & _).
  pose proof (run_settlement _ _ _ _ _ _ _ _ _ _ _ _ _ _ _ _ Hrun)
    as (Hpos & Hmin & Ht & Hc & Hs & (t & Hsrc & Hd & Ha) & Hsame).
  split_and!; try done; [apply Hrun | apply Hrun|].
  exists w2, t. split_and!; try done. intros Hm.
  pose proof (proj1 (proj1 (NoDup_app _ _) (routed_settlement_keys _ (rr_roles Hrun)))) as Hnd.
  destruct Hrun. destruct rr_commit0 as [[Hm' _]|(_ & -> & _)]; [rewrite Hm in Hm'; discriminate|].
  destruct Hsame as (_ & Kd & Kl & _). subst w'.
  split.
  - intros k Hkd Hkl. unfold exit_accounts, commit_accounts, set_data, key in *; simpl.
    rewrite Kd, Kl. by rewrite !lookup_insert_ne by done.
  - eapply effects_solvent; [exact Hs | | exact Hc]. apply token_effect_exit; try done.
    + unfold commit_accounts, set_data, key; simpl. by rewrite Kd.
    + unfold commit_accounts, set_data, key; simpl. by rewrite Kl.
Qed.

(** C3. In both timing modes, on a runtime where a call changes only the
    accounts it passes as writable, the final world of a successful execution
    has the five exact token deltas and the matching accounted balances, and
    every vault covers its accounted balance: what the engine does in the
    COMMIT call after settlement cannot undo it. *)
Theorem routed_execution_settles w a remaining args w' ev :
  cpi_frame ->
  execute_callback_authenticated_probe w a remaining args = Ok (w', ev) ->
  let e := re_env a in
  token_effect w w' e (ra_amount_in args) (cx_protocol_fee ev) (cx_amount_out ev) /\
  core_effect w w' e (ra_amount_in args) (cx_protocol_fee ev) (cx_amount_out ev) /\
  solvent w' e.
Proof.
  intros Hframe (phase & au & w1 & pe & st & w2 & e2 & sd & w3 & ce & Hrun)%execute_routed_Ok.
  simpl.
  pose proof (run_settlement _ _ _ _ _ _ _ _ _ _ _ _ _ _ _ _ Hrun) as (_ & _ & _ & Hc & Hs & _).
  pose proof (run_final_tokens _ _ _ _ _ _ _ _ _ _ _ _ _ _ _ _ Hrun Hframe) as [Ht _].
  split_and!; [done..|]. eapply effects_solvent; eauto.
Qed.

(** C14. An authorization is spent once: after a successful execution, no
    execution from the same source succeeds in any later world where the source
    account is as that execution left it. *)
Theorem routed_replay_rejected w a remaining args w' ev :
  cpi_frame ->
  execute_callback_authenticated_probe w a remaining args = Ok (w', ev) ->
  forall w2 a2 remaining2 args2,
    key (ev_user_source_a (re_env a2)) = key (ev_user_source_a (re_env a)) ->
    token_at w2 (key (ev_user_source_a (re_env a))) =
      token_at w' (key (ev_user_source_a (re_env a))) ->
    is_ok (execute_callback_authenticated_probe w2 a2 remaining2 args2) = false.
Proof. apply spent_source_rejected. Qed.

(** Two different seed lists with one program-derived address. *)
Definition pda_collision (seeds1 seeds2 : list (list Z)) (program : Pubkey) : Prop :=
  seeds1 <> seeds2 /\
  (find_program_address seeds1 program).1 = (find_program_address seeds2 program).1.
Definition spend_seeds (source : Pubkey) (intent_digest : list Z) : list (list Z) :=
  [SPEND_AUTHORITY_SEED_V0; source; intent_digest].

(** C2. A relayer executes only what the user signed. If the user authorized an
    intent for a source, and later, the source account untouched, some execution
    spends it, then the executed intent is the signed one: every account,
    revision, amount, limit, expiry, nonce, capability hash and payload hash;
    unless the two intents collide under SHA-256 or their spend authorities are
    one program-derived address. *)
Theorem relayer_executes_signed_intent w0 au r0 args0 w1 ev1 w2 a remaining args w' ev :
  Forall is_u8 (aa_wire_intent args0) ->
  authorize_spend w0 au r0 args0 = Ok (w1, ev1) ->
  key (ev_user_source_a (re_env a)) = key (as_source au) ->
  token_at w2 (key (as_source au)) = token_at w1 (key (as_source au)) ->
  execute_callback_authenticated_probe w2 a remaining args = Ok (w', ev) ->
  let executed := bound_intent a args (cx_protocol_fee ev) (cx_authorized_capability_hash ev)
    (cx_payload_hash ev) in
  intent_binding_wf executed ->
  exists signed, encode_intent_binding signed = Ok (aa_wire_intent args0) /\
    (executed = signed \/
     sha256_collision (intent_preimage executed) (intent_preimage signed) \/
     pda_collision (spend_seeds (key (as_source au)) (cx_intent_digest ev))
       (spend_seeds (key (as_source au)) (sa_intent_digest ev1)) ID).
Proof.
  intros Hb Ha Hk Hw (phase & x & w3 & pe & st & ws & e2 & sd & w4 & ce & Hrun)%execute_routed_Ok
    executed Hwf.
  pose proof (run_authorization _ _ _ _ _ _ _ _ _ _ _ _ _ _ _ _ Hrun)
    as (_ & Hdel & _ & Hdig & Hpda).
  apply authorize_spend_Ok in Ha as (b & source & source' & bump & Hwfb & Henc & Hdb & _ & _ & _ & _ & _ & _ &
    _ & _ & _ & _ & Hs' & _ & _ & Hcan & Hdel' & _); [|done].
  exists b. split; [done|].
  destruct Hrun. apply envelope_loaded_tokens in rr_loaded0 as ((Hsrc & _) & _).
  simpl in Hsrc. rewrite Hk, Hw, Hs' in Hsrc. injection Hsrc as Hsrc. rewrite Hsrc in Hdel'.
  assert (ai_key (re_spend_authority a) = sa_spend_authority ev1) as Heq by congruence.
  destruct (decide (cx_intent_digest ev = sa_intent_digest ev1)) as [Hd|Hd].
  - rewrite Hd in Hdig. destruct (intent_digest_injective _ _ _ Hwf Hwfb Hdig Hdb); auto.
  - right. right. split; [unfold spend_seeds; congruence|].
    rewrite Hk in Hpda. unfold canonical_spend_authority in *. unfold spend_seeds.
    by rewrite Hpda, Hcan.
Qed.

(** C15. The engine's answers are authenticated phase by phase. The primary call
    returned a receipt set by the engine for the primary phase, this intent and
    the execution digest of this request, with the sequence that phase must
    report (unchanged in PREPARE, one more in TRANSITION); in the two-phase mode
    the COMMIT call starts from the settled world, its request carries the
    digest of that settlement and the prepared sequence, and its receipt repeats
    the output and advances the sequence by one. *)
Theorem routed_phases_authenticated w a remaining args w' ev :
  execute_callback_authenticated_probe w a remaining args = Ok (w', ev) ->
  let e := re_env a in
  exists au phase w1 request receipt bump st settled e2 sd,
    primary_phase (ra_timing_mode args) = Ok phase /\
    au_intent_digest au = cx_intent_digest ev /\
    phase_call w e remaining args au phase (primary_mode phase) (replicate 32 0)
      (ra_expected_engine_sequence args) (re_primary_callback a) request w1 receipt /\
    xr_amount_out receipt = cx_amount_out ev /\
    xr_state_sequence receipt = ra_expected_engine_sequence args +
      (if phase =? PHASE_PREPARE then 0 else 1) /\
    settle_authenticated_intent w1 a (ra_amount_in args) (cx_intent_digest ev) bump st =
      Ok (settled, e2) /\
    (ra_timing_mode args = TIMING_PREPARE_COMMIT ->
     exists request' receipt' receipt_digest w3,
       compute_receipt_digest receipt = Ok receipt_digest /\
       compute_settlement_digest (bound_settlement e2 args st (cx_intent_digest ev)
         (xq_execution_digest request) receipt_digest) = Ok sd /\
       phase_call settled e2 remaining args au PHASE_COMMIT Authorized sd
         (ra_expected_engine_sequence args) (re_commit_callback a) request' w3 receipt' /\
       xr_amount_out receipt' = cx_amount_out ev /\
       xr_state_sequence receipt' = ra_expected_engine_sequence args + 1 /\
       cx_commit_engine_sequence ev = xr_state_sequence receipt').
Proof.
  intros (phase & au & w1 & pe & st & w2 & e2 & sd & w3 & ce & Hrun)%execute_routed_Ok. simpl.
  pose proof (routed_authorization_Ok _ _ _ _ _ (rr_authorization Hrun))
    as (_ & _ & _ & _ & _ & _ & _ & _ & _ & _ & _ & _ & _ & _ & Ecb & _).
  pose proof (run_commit _ _ _ _ _ _ _ _ _ _ _ _ _ _ _ _ Hrun) as Hc.
  destruct Hrun.
  apply routed_primary_Ok in rr_primary0 as (request & Hcall & Eex & Erd & Hseq & _); [|done].
  apply accept_settlement_Ok in rr_accept0 as (_ & _ & Eout & _).
  assert (xr_state_sequence (pe_receipt pe) =
    ra_expected_engine_sequence args + (if phase =? PHASE_PREPARE then 0 else 1)) as Es.
  { unfold validate_primary_sequence in Hseq.
    destruct (Z.eqb_spec phase PHASE_PREPARE); inv_guarded; inv_checked; to_prop; lia. }
  unfold compute_bound_settlement_digest in rr_digest0. inv_guarded.
  exists au, phase, w1, request, (pe_receipt pe), (au_spend_bump au), st, w2, e2, sd.
  rewrite rr_intent0, rr_out0, Eout. split_and!; try done. intros Hm.
  destruct (Hc Hm) as (request' & receipt' & Hcall' & Eo & En & Ec).
  apply primary_phase_Ok in rr_phase0 as [[Hs _]|[_ ->]]; [rewrite Hs in Hm; discriminate|].
  simpl in Es. rewrite Z.add_0_r in Es. rewrite Es in *. rewrite Eex in *.
  exists request', receipt', (pe_receipt_digest pe), w3. by split_and!.
Qed.

(** An engine call in which nobody but the phase's callback PDA signs and
    nothing is writable that the phase may not write. *)
Definition confined_call (a : ExecuteCallbackAuthenticatedProbeV0) (remaining : list AccountInfo)
    (intent_digest : list Z) (phase : Z) (w w' : World) : Prop :=
  exists ix infos seeds,
    invoke_signed w ix infos seeds = Ok w' /\
    ix_program_id ix = ai_key (ev_engine_program (re_env a)) /\
    forall m, m ∈ ix_accounts ix ->
      (am_is_signer m = true ->
       am_pubkey m = cb_key (canonical_callback (re_env a) intent_digest phase)) /\
      (am_is_writable m = true ->
       engine_may_write a remaining phase (primary_mode phase) (am_pubkey m)).

Lemma phase_call_confined w a e remaining args au phase context pre callback request w' receipt :
  validate_opaque_capabilities remaining (routed_fixed_keys a) = Ok (au_opaque au) ->
  ai_key (ev_engine_state e) = ai_key (ev_engine_state (re_env a)) ->
  ai_key (ev_engine_program e) = ai_key (ev_engine_program (re_env a)) ->
  ai_key callback = cb_key (canonical_callback (re_env a) (au_intent_digest au) phase) ->
  phase_call w e remaining args au phase (primary_mode phase) context pre callback request w'
    receipt ->
  confined_call a remaining (au_intent_digest au) phase w w'.
Proof.
  intros Ho Es Ep Ek (h & data & infos & bytes & _ & Hb & _ & Hi & _).
  pose proof (build_engine_request_Ok _ _ _ _ _ _ _ _ _ _ _ Hb) as (Eph & _).
  do 3 eexists. split; [exact Hi|]. split; [exact Ep|]. intros m Hm. rewrite <- Ek.
  exact (phase_metas _ _ _ _ _ _ _ _ _ _ Ho Eph Es Hm).
Qed.

(** C16. The engine is confined in every call of a successful execution: the
    only signer is the callback PDA of that phase and intent, PREPARE writes
    nothing, and the other phases write the engine state and opaque accounts
    that are no fixed role, not Core's, no programs and no token accounts. *)
Theorem routed_engine_confined w a remaining args w' ev :
  execute_callback_authenticated_probe w a remaining args = Ok (w', ev) ->
  exists phase w1 settled e2 bump st w3,
    primary_phase (ra_timing_mode args) = Ok phase /\
    confined_call a remaining (cx_intent_digest ev) phase w w1 /\
    settle_authenticated_intent w1 a (ra_amount_in args) (cx_intent_digest ev) bump st =
      Ok (settled, e2) /\
    (ra_timing_mode args = TIMING_SINGLE -> w3 = settled) /\
    (ra_timing_mode args = TIMING_PREPARE_COMMIT ->
     confined_call a remaining (cx_intent_digest ev) PHASE_COMMIT settled w3) /\
    exists e3, w' = exit_accounts w3 e3.
Proof.
  intros (phase & au & w1 & pe & st & w2 & e2 & sd & w3 & ce & Hrun)%execute_routed_Ok.
  pose proof (routed_authorization_Ok _ _ _ _ _ (rr_authorization Hrun))
    as (_ & _ & _ & Ho & _ & _ & _ & _ & _ & _ & _ & _ & Kp & Kc & Ecb & _).
  pose proof (run_commit _ _ _ _ _ _ _ _ _ _ _ _ _ _ _ _ Hrun) as Hc.
  pose proof (run_settlement _ _ _ _ _ _ _ _ _ _ _ _ _ _ _ _ Hrun)
    as (_ & _ & _ & _ & _ & _ & (_ & _ & _ & Sp & Ss & _)).
  destruct Hrun.
  apply routed_primary_Ok in rr_primary0 as (request & Hcall & _); [|done].
  exists phase, w1, w2, e2, (au_spend_bump au), st, w3. rewrite rr_intent0.
  split_and!; try done; eauto.
  - by eapply phase_call_confined.
  - intros Hm. destruct rr_commit0 as [[Hm' _]|(_ & E & _)]; [|done].
    rewrite Hm in Hm'. discriminate.
  - intros Hm. destruct (Hc Hm) as (request' & receipt' & Hcall' & _).
    eapply phase_call_confined; [exact Ho | | | exact Kc | exact Hcall'];
      [by rewrite Ss | by rewrite Sp].
Qed.

(** C17. PREPARE is read-only: on a runtime where a call changes only the
    accounts it passes as writable, the first phase of the two-phase mode leaves
    every account of the ledger as it was, and settlement starts from there. *)
Theorem prepare_changes_nothing w a remaining args w' ev :
  cpi_frame ->
  execute_callback_authenticated_probe w a remaining args = Ok (w', ev) ->
  ra_timing_mode args = TIMING_PREPARE_COMMIT ->
  exists w1 bump st settled e2,
    w_accounts w1 = w_accounts w /\
    settle_authenticated_intent w1 a (ra_amount_in args) (cx_intent_digest ev) bump st =
      Ok (settled, e2).
Proof.
  intros Hframe (phase & au & w1 & pe & st & w2 & e2 & sd & w3 & ce & Hrun)%execute_routed_Ok Hm.
  pose proof (routed_authorization_Ok _ _ _ _ _ (rr_authorization Hrun))
    as (_ & _ & _ & Ho & _ & _ & _ & _ & _ & _ & _ & _ & Kp & _ & Ecb & _).
  destruct Hrun.
  apply routed_primary_Ok in rr_primary0 as (request & Hcall & _); [|done].
  exists w1, (au_spend_bump au), st, w2, e2. rewrite rr_intent0. split; [|done].
  apply primary_phase_Ok in rr_phase0 as [[Hs _]|[_ ->]]; [rewrite Hs in Hm; discriminate|].
  eapply phase_call_confined in Hcall as (ix & infos & seeds & Hi & _ & Hmetas); [|done..].
  apply map_eq. intros k. apply (Hframe _ _ _ _ _ k Hi). intros m Hin Hwr _.
  destruct (Hmetas m Hin) as [_ Hw]. destruct (Hw Hwr) as [[_ ?]|[? _]]; [done | discriminate].
Qed.
End RoutedProperties.

(** ** A concrete lifecycle: the user authorizes, a relayer executes

    The engine answers 900 in every phase and advances its sequence except in
    PREPARE; it touches no account, so the frame rule holds. *)

Definition answering_engine (w : World) (ix : Instruction) (infos : list AccountInfo)
    (seeds : SignerSeeds) : result World :=
  match @decode_engine_instruction (rt_hasher (Runtime := reference_runtime no_callee))
          (ix_data ix) with
  | Ok request =>
      let b := xq_binding request in
      match encode_receipt
        {| xr_phase := xb_phase b; xr_intent_digest := xb_intent_digest b;
           xr_execution_digest := xq_execution_digest request; xr_amount_out := 900;
           xr_state_sequence := xb_pre_sequence b +
             (if xb_phase b =? PHASE_PREPARE then 0 else 1) |} with
      | Ok bytes => Ok (set_return_data w (ix_program_id ix) bytes)
      | _ => Err (ProgramError 1)
      end
  | _ => Err (ProgramError 2)
  end.

Section Example.
#[local] Instance answering_runtime : Runtime := reference_runtime answering_engine.
#[local] Instance example_config : CoreConfig := routed_config.

Lemma answering_frame : cpi_frame.
Proof.
  intros w ix infos seeds w' k Hi _. simpl in Hi. unfold answering_engine in Hi.
  destruct (decode_engine_instruction _); [|discriminate..].
  destruct (encode_receipt _); [|discriminate..]. by injection Hi as <-.
Qed.

Definition routed_opaque : list AccountInfo :=
  [test_account (test_key 20) engine_k false true false;
   test_account (test_key 21) engine_k false false false].

(** The intent depends on the capability hash, the capabilities on the fixed
    keys, the fixed keys on the intent digest only through the PDAs, which are
    not capabilities: compute the hash first, then the digest, then the PDAs. *)
Definition lifecycle_capability_hash : list Z :=
  let state := test_account engine_state_k engine_k false true false in
  match compute_capability_hash engine_k
    (capability_descriptors state (map (opaque_descriptor routed_opaque) routed_opaque)
       Authorized) with
  | Ok h => h | _ => [] end.
Definition lifecycle_args (mode : Z) : ExecuteCallbackAuthenticatedProbeV0Args := {|
  ra_amount_in := 1000; ra_max_total_input_debit := 1003; ra_min_output_credit := 900;
  ra_max_protocol_fee := 3; ra_expires_at_slot := 100; ra_authorization_nonce := test_key 30;
  ra_expected_engine_sequence := 7; ra_timing_mode := mode;
  ra_expected_capability_hash := lifecycle_capability_hash; ra_opaque_payload := [1; 2; 3] |}.
Definition lifecycle_intent (mode : Z) : IntentBinding :=
  let payload_hash := match compute_payload_hash [1; 2; 3] with Ok h => h | _ => [] end in
  Build_IntentBinding mode ID market_k domain_k engine_k engine_state_k user_k source_k
    destination_k mint_a_k mint_b_k vault_a_k vault_b_k fee_vault_k fee_ledger_k spl_token_ID
    3 0 1000 3 1003 900 3 100 (test_key 30) lifecycle_capability_hash payload_hash.
Definition lifecycle_digest (mode : Z) : list Z :=
  match compute_intent_digest (lifecycle_intent mode) with Ok l => l | _ => [] end.
Definition lifecycle_wire (mode : Z) : list Z :=
  match encode_intent_binding (lifecycle_intent mode) with Ok l => l | _ => [] end.
Definition lifecycle_spend (mode : Z) : AccountInfo :=
  test_account (canonical_spend_authority source_k (lifecycle_digest mode)).1
    system_program_k false false false.

Definition lifecycle_authorize (mode : Z) : AuthorizeSpendV0 := {|
  as_user := user_info; as_source := token_account source_k mint_a_k user_k 1000000;
  as_mint := mint_a_account; as_spend_authority := lifecycle_spend mode;
  as_token_program := token_program_info |}.
Definition authorization (mode : Z) : result (World * SpendAuthorizedV0) :=
  authorize_spend (test_world 50000 70000 6) (lifecycle_authorize mode) []
    {| aa_wire_intent := lifecycle_wire mode |}.
Definition authorized_world (mode : Z) : World :=
  match authorization mode with Ok (w, _) => w | _ => test_world 50000 70000 6 end.

Definition lifecycle_envelope (mode : Z) : Envelope :=
  let e := example_envelope 50000 70000 6 in
  with_tokens e
    (Build_Account (acc_info (ev_user_source_a e))
       (with_delegate (test_token mint_a_k user_k 1000000) (Some (ai_key (lifecycle_spend mode)))
          1003))
    (ev_user_destination_b e) (ev_vault_a e) (ev_vault_b e) (ev_fee_vault e).
Definition lifecycle_callback (mode phase : Z) : AccountInfo :=
  test_account (cb_key (canonical_callback (lifecycle_envelope mode) (lifecycle_digest mode) phase))
    system_program_k false false false.
Definition lifecycle_accounts (mode : Z) : ExecuteCallbackAuthenticatedProbeV0 := {|
  re_env := lifecycle_envelope mode; re_spend_authority := lifecycle_spend mode;
  re_primary_callback := lifecycle_callback mode (if mode =? TIMING_SINGLE then 0 else 1);
  re_commit_callback := lifecycle_callback mode PHASE_COMMIT |}.
Definition execution (mode : Z) : result (World * CallbackAuthenticatedProbeExecutedV0) :=
  execute_callback_authenticated_probe (authorized_world mode) (lifecycle_accounts mode)
    routed_opaque (lifecycle_args mode).

Definition lifecycle_args_wire (mode : Z) : AuthorizeSpendV0Args :=
  {| aa_wire_intent := lifecycle_wire mode |}.

Lemma routed_settlement_exact_witness :
  exists w' ev settled,
    execution 0 = Ok (w', ev) /\
    token_effect (authorized_world 0) settled (lifecycle_envelope 0) 1000 (cx_protocol_fee ev)
      (cx_amount_out ev).
Proof.
  destruct (is_ok_Ok (execution 0)) as [[w' ev] E]; [vm_compute; reflexivity|].
  destruct (routed_settlement_exact _ _ _ _ _ _ E)
    as (_ & _ & _ & _ & _ & _ & _ & settled & source & Ht & _).
  exists w', ev, settled. split; [exact E | exact Ht].
Defined.

Lemma routed_execution_settles_witness :
  exists w' ev, execution 1 = Ok (w', ev) /\ solvent w' (lifecycle_envelope 1).
Proof.
  destruct (is_ok_Ok (execution 1)) as [[w' ev] E]; [vm_compute; reflexivity|].
  destruct (routed_execution_settles _ _ _ _ _ _ answering_frame E) as (_ & _ & Hs).
  exists w', ev. split; [exact E | exact Hs].
Defined.

Lemma routed_replay_rejected_witness :
  exists w' ev, execution 1 = Ok (w', ev) /\
    is_ok (execute_callback_authenticated_probe w' (lifecycle_accounts 1) routed_opaque
      (lifecycle_args 1)) = false.
Proof.
  destruct (is_ok_Ok (execution 1)) as [[w' ev] E]; [vm_compute; reflexivity|].
  exists w', ev. split; [exact E|].
  exact (routed_replay_rejected _ _ _ _ _ _ answering_frame E w' (lifecycle_accounts 1)
    routed_opaque (lifecycle_args 1) eq_refl eq_refl).
Defined.

Definition lifecycle_event (mode : Z) : option CallbackAuthenticatedProbeExecutedV0 :=
  match execution mode with Ok (_, ev) => Some ev | _ => None end.

Definition executed_intent (mode : Z) (ev : CallbackAuthenticatedProbeExecutedV0)
    : IntentBinding :=
  bound_intent (lifecycle_accounts mode) (lifecycle_args mode) (cx_protocol_fee ev)
    (cx_authorized_capability_hash ev) (cx_payload_hash ev).

Lemma executed_intent_wf ev : lifecycle_event 1 = Some ev -> intent_binding_wf (executed_intent 1 ev).
Proof.
  intros E. apply (bool_decide_unpack _).
  assert (match lifecycle_event 1 with
          | Some ev => bool_decide (intent_binding_wf (executed_intent 1 ev)) | None => true end
          = true) as Hd by (vm_compute; reflexivity).
  rewrite E in Hd. by rewrite Hd.
Qed.

Lemma relayer_executes_signed_intent_witness :
  exists w1 ev1 w' ev signed,
    authorization 1 = Ok (w1, ev1) /\ execution 1 = Ok (w', ev) /\
    encode_intent_binding signed = Ok (aa_wire_intent (lifecycle_args_wire 1)) /\
    (executed_intent 1 ev = signed \/
     sha256_collision (intent_preimage (executed_intent 1 ev)) (intent_preimage signed) \/
     pda_collision (spend_seeds (key (as_source (lifecycle_authorize 1))) (cx_intent_digest ev))
       (spend_seeds (key (as_source (lifecycle_authorize 1))) (sa_intent_digest ev1)) ID).
Proof.
  assert (Forall is_u8 (aa_wire_intent (lifecycle_args_wire 1))) as Hb by decide_closed.
  destruct (is_ok_Ok (authorization 1)) as [[w1 ev1] E1]; [vm_compute; reflexivity|].
  destruct (is_ok_Ok (execution 1)) as [[w' ev] E2]; [vm_compute; reflexivity|].
  pose proof E1 as F1. pose proof E2 as F2.
  assert (authorized_world 1 = w1) as Ew by (unfold authorized_world; rewrite E1; reflexivity).
  assert (lifecycle_event 1 = Some ev) as Ee by (unfold lifecycle_event; rewrite E2; reflexivity).
  assert (token_at (authorized_world 1) (key (as_source (lifecycle_authorize 1))) =
          token_at w1 (key (as_source (lifecycle_authorize 1)))) as Et
    by (rewrite Ew; reflexivity).
  assert (key (ev_user_source_a (re_env (lifecycle_accounts 1))) =
          key (as_source (lifecycle_authorize 1))) as Ek by (vm_compute; reflexivity).
  pose proof (executed_intent_wf ev Ee) as Hwf.
  unfold execution in E2. unfold authorization in E1. unfold executed_intent in *.
  destruct (relayer_executes_signed_intent _ _ _ _ _ _ _ _ _ _ _ _ Hb E1 Ek Et E2 Hwf)
    as (signed & Hs & Hd).
  exists w1, ev1, w', ev, signed.
  split; [exact F1|]. split; [exact F2|]. split; [exact Hs | exact Hd].
Defined.

Lemma routed_phases_authenticated_witness :
  exists w' ev w1 request receipt au,
    execution 1 = Ok (w', ev) /\
    phase_call (authorized_world 1) (lifecycle_envelope 1) routed_opaque (lifecycle_args 1) au
      PHASE_PREPARE ReadOnly (replicate 32 0) 7
      (lifecycle_callback 1 1) request w1 receipt.
Proof.
  destruct (is_ok_Ok (execution 1)) as [[w' ev] E]; [vm_compute; reflexivity|].
  destruct (routed_phases_authenticated _ _ _ _ _ _ E)
    as (au & phase & w1 & request & receipt & bump & st & settled & e2 & sd & Hp & _ & Hc & _).
  apply Ok_inj in Hp as <-.
  exists w', ev, w1, request, receipt, au. split; [exact E | exact Hc].
Defined.

Lemma routed_engine_confined_witness :
  exists w' ev w1,
    execution 0 = Ok (w', ev) /\
    confined_call (lifecycle_accounts 0) routed_opaque (cx_intent_digest ev) PHASE_TRANSITION
      (authorized_world 0) w1.
Proof.
  destruct (is_ok_Ok (execution 0)) as [[w' ev] E]; [vm_compute; reflexivity|].
  destruct (routed_engine_confined _ _ _ _ _ _ E)
    as (phase & w1 & settled & e2 & bump & st & w3 & Hp & Hc & _).
  apply Ok_inj in Hp as <-. exists w', ev, w1. split; [exact E | exact Hc].
Defined.

Lemma prepare_changes_nothing_witness :
  exists w' ev w1,
    execution 1 = Ok (w', ev) /\ w_accounts w1 = w_accounts (authorized_world 1).
Proof.
  destruct (is_ok_Ok (execution 1)) as [[w' ev] E]; [vm_compute; reflexivity|].
  destruct (prepare_changes_nothing _ _ _ _ _ _ answering_frame E eq_refl)
    as (w1 & bump & st & settled & e2 & Hw & _).
  exists w', ev, w1. split; [exact E | exact Hw].
Defined.
End Example.
