(* ===== verification/RoutedProgress.v ===== *)
(** * Progress of routed-callback-core

    As in Progress, for execute_callback_authenticated_probe_v0.rs: an execution
    whose guards pass, of an intent the user has authorized, whose engine answers
    every phase of the timing mode, is settled by whoever submits it. Nothing
    between the guards can fail: capability hashes, execution bindings and their
    digests exist, the spend authority can spend exactly the debit and is gone
    afterwards, and the settlement can be encoded and committed. *)
From S2P Require Import Prelude Codec CoreState Solana ReferenceRuntime FeeMath Validation Capability.
From S2P Require Import RoutedWire Settlement Initialize Progress RoutedAuthorize RoutedExecute.
From S2P Require Import RoutedProperties.

(** ** Wire values exist *)

Section Wire.
Context `{Hasher}.

(** A context that is zero in every phase but COMMIT. *)
Definition context_ok (phase : Z) (context : list Z) : Prop :=
  byte_string 32 context /\ (context = replicate 32 0 <-> phase <> PHASE_COMMIT).

Lemma phase_context_require phase context u :
  context_ok phase context ->
  require (Bool.eqb (negb (bool_decide (context = replicate 32 0))) (phase =? PHASE_COMMIT)) u =
    @Ok CodecError unit tt.
Proof.
  intros [_ Hc]. destruct (Z.eqb_spec phase PHASE_COMMIT) as [E|E].
  - rewrite bool_decide_eq_false_2; [done|]. tauto.
  - rewrite bool_decide_eq_true_2; [done|]. tauto.
Qed.

Lemma capability_hash_total program ds :
  (length ds <= MAX_CAPABILITY_DESCRIPTORS)%nat ->
  exists h, compute_capability_hash program ds = Ok h.
Proof.
  intros Hl. unfold compute_capability_hash, capability_hash_with.
  rewrite (proj2 (Nat.ltb_ge _ _)) by done. by eexists.
Qed.

Lemma execution_binding_total phase d context market domain zs ch pch n payload :
  sha256_output -> require_phase phase = Ok tt -> context_ok phase context ->
  Forall (byte_string 32) [d; market; domain; ch; pch] -> Forall is_u64 zs -> length zs = 7%nat ->
  (n <= MAX_OPAQUE_ACCOUNTS)%nat -> (length payload <= MAX_OPAQUE_PAYLOAD_LEN)%nat ->
  Forall is_u8 payload ->
  exists b request data,
    new_execution_binding phase d context market domain (nth 0 zs 0) (nth 1 zs 0) (nth 2 zs 0)
      (nth 3 zs 0) (nth 4 zs 0) (nth 5 zs 0) (nth 6 zs 0) ch pch (Z.of_nat n) payload = Ok b /\
    new_engine_request b = Ok request /\ xq_binding request = b /\
    engine_request_wf request /\ engine_request_valid request /\
    encode_engine_instruction request = Ok data.
Proof.
  intros Hsha Hp Hc Hk Hz Hlz Hn Hl H8. destruct zs as [|z0 [|z1 [|z2 [|z3 [|z4 [|z5 [|z6 [|]]]]]]]];
    try discriminate Hlz. simpl nth.
  destruct (canonical_payload_total _ Hl) as (len & padded & Hcp).
  pose proof (canonical_payload_Ok _ _ _ Hcp) as (-> & _ & Hpl & _ & Hz0 & Hpb).
  unfold MAX_OPAQUE_ACCOUNTS in Hn. unfold MAX_OPAQUE_PAYLOAD_LEN in Hl.
  unfold new_execution_binding, validate_opaque_account_count, MAX_OPAQUE_ACCOUNTS.
  rewrite Hp, bind_ret_l, (proj2 (Z.ltb_ge _ _)), bind_ret_l, Hcp, bind_ret_l by lia.
  match goal with |- context [validate_execution_binding ?x] => set (b := x) end.
  assert (execution_binding_wf b) as Hwf.
  { rewrite !Forall_cons in Hk. rewrite !Forall_cons in Hz. destruct Hc as [Hc _].
    unfold execution_binding_wf. simpl. rewrite !Forall_cons, !Forall_nil.
    assert (is_u16 (Z.of_nat n) /\ is_u16 (Z.of_nat (length payload)) /\ is_u8 phase).
    { unfold require_phase in Hp. unfold in_width, PHASE_TRANSITION, PHASE_PREPARE, PHASE_COMMIT in *.
      split; [lia|]. split; [lia|].
      destruct (Z.eqb_spec phase 0), (Z.eqb_spec phase 1), (Z.eqb_spec phase 2); try discriminate; lia. }
    assert (byte_string MAX_OPAQUE_PAYLOAD_LEN padded) by (split; auto). tauto. }
  assert (execution_binding_valid b) as Hv.
  { unfold execution_binding_valid, validate_execution_binding. cbn [xb_phase b xb_phase_context_digest].
    rewrite Hp, bind_ret_l, phase_context_require, bind_ret_l by done.
    apply validate_payload_fields_Ok. simpl. unfold MAX_OPAQUE_ACCOUNTS, MAX_OPAQUE_PAYLOAD_LEN.
    split_and!; [lia..|done]. }
  set (request := {| xq_binding := b; xq_execution_digest := hashv (execution_preimage b) |}).
  assert (engine_request_wf request) as Hrw by (by split; [|apply Hsha]).
  assert (engine_request_valid request) as Hrv by done.
  destruct (valid_phase_discriminator request Hrv) as [disc Hd].
  exists b, request, (disc ++ engine_request_layout request).
  unfold execution_binding_valid in Hv. rewrite Hv, bind_ret_l. split_and!; try done.
  - unfold new_engine_request, compute_execution_digest.
    rewrite (proj2 (encode_execution_binding_layout _ _ Hwf) (conj Hv eq_refl)), !bind_ret_l. done.
  - unfold encode_engine_instruction.
    rewrite (proj2 (encode_engine_request_layout _ _ Hrw) (conj Hrv eq_refl)), bind_ret_l, Hd, bind_ret_l.
    apply write_pair_ok.
    by rewrite length_app, routed_engine_request_length, (proj2 (engine_phase_discriminator_Ok _ _ Hd)).
Qed.
End Wire.

Section RoutedProgress.
Context `{Runtime} {C : CoreConfig}.

(** ** What progress needs *)

(** The guards of the handler, up to the engine call. *)
Record routed_guards (w : World) (a : ExecuteCallbackAuthenticatedProbeV0)
    (remaining : list AccountInfo) (args : ExecuteCallbackAuthenticatedProbeV0Args) (phase : Z)
    (au : AuthorizedExecution) : Prop := {
  rg_constraints : routed_constraints w a = Ok tt;
  rg_payload : validate_opaque_payload (ra_opaque_payload args) = Ok tt;
  rg_phase : primary_phase (ra_timing_mode args) = Ok phase;
  rg_amount : 0 < ra_amount_in args;
  rg_slot : w_slot w <= ra_expires_at_slot args;
  rg_roles : NoDup (routed_fixed_keys a);
  rg_envelope : validate_execution_envelope a = Ok tt;
  rg_authorization : routed_authorization a remaining args phase = Ok au }.

(** Account data and arguments are machine values, and the next sequence is one. *)
Record representable (e : Envelope) (args : ExecuteCallbackAuthenticatedProbeV0Args) : Prop := {
  rp_payload : Forall is_u8 (ra_opaque_payload args);
  rp_keys : byte_string 32 (key (ev_market e)) /\ byte_string 32 (key (ev_domain e));
  rp_values : Forall is_u64 [m_engine_revision (acc_data (ev_market e)); ra_amount_in args;
    d_accounted_a (acc_data (ev_domain e)); d_accounted_b (acc_data (ev_domain e));
    fl_accounted_fee_a (acc_data (ev_fee_ledger e)); ra_expected_engine_sequence args;
    ra_expected_engine_sequence args + 1];
  rp_amounts : Forall is_u64 [amount_of (ev_user_source_a e); amount_of (ev_user_destination_b e);
    amount_of (ev_vault_a e); amount_of (ev_vault_b e); amount_of (ev_fee_vault e)] }.

(** A phase call the engine answers: its invocation succeeds and returns a receipt
    for this phase, intent and request. *)
Definition engine_call (w : World) (e : Envelope) (remaining : list AccountInfo)
    (descriptors : list CapabilityDescriptor) (callback : AccountInfo) (bump : Z)
    (request : EngineRequest) (w' : World) (receipt : EngineReceipt) : Prop :=
  let b := xq_binding request in
  forall data infos,
    encode_engine_instruction request = Ok data ->
    map_result (normalized_info remaining) descriptors = Ok infos ->
    exists bytes,
      invoke_signed w (phase_instruction e request callback descriptors data)
        (ev_engine_state e :: callback :: infos)
        [callback_seeds e (xb_intent_digest b) (xb_phase b) ++ [[bump]]] = Ok w' /\
      w_return_data w' = Some (ai_key (ev_engine_program e), bytes) /\
      Forall is_u8 bytes /\ decode_receipt bytes = Ok receipt /\
      xr_phase receipt = xb_phase b /\ xr_intent_digest receipt = xb_intent_digest b /\
      xr_execution_digest receipt = xq_execution_digest request.

Definition phase_request (au : AuthorizedExecution)
    (args : ExecuteCallbackAuthenticatedProbeV0Args) (phase : Z) (request : EngineRequest) : Prop :=
  engine_request_wf request /\ engine_request_valid request /\
  xb_phase (xq_binding request) = phase /\
  xb_intent_digest (xq_binding request) = au_intent_digest au /\
  xb_pre_sequence (xq_binding request) = ra_expected_engine_sequence args.

Definition opaque_capabilities (e : Envelope) (au : AuthorizedExecution) (mode : CapabilityMode) :=
  tail (capability_descriptors (ev_engine_state e) (au_opaque au) mode).

(** An engine that serves the execution: it answers the primary phase with an
    output the user and the liquidity allow and the sequence of that phase,
    touching no fixed account but its state; and, in the two-phase mode, it
    answers the COMMIT call after the settlement with the same output and the
    next sequence. *)
Definition engine_serves (w : World) (a : ExecuteCallbackAuthenticatedProbeV0)
    (remaining : list AccountInfo) (args : ExecuteCallbackAuthenticatedProbeV0Args) (phase : Z)
    (au : AuthorizedExecution) : Prop :=
  let e := re_env a in
  forall request, phase_request au args phase request ->
  exists w1 receipt,
    engine_call w e remaining (opaque_capabilities e au (primary_mode phase))
      (re_primary_callback a) (cb_bump (au_primary_callback au)) request w1 receipt /\
    xr_state_sequence receipt = ra_expected_engine_sequence args +
      (if phase =? PHASE_PREPARE then 0 else 1) /\
    0 < xr_amount_out receipt /\ ra_min_output_credit args <= xr_amount_out receipt /\
    xr_amount_out receipt <= d_accounted_b (acc_data (ev_domain e)) /\
    (forall k, k ∈ routed_fixed_keys a -> k <> ai_key (ev_engine_state e) ->
       w_accounts w1 !! k = w_accounts w !! k) /\
    (ra_timing_mode args = TIMING_PREPARE_COMMIT ->
     forall w2 e2 request2,
       (forall k, (k ∉ token_keys e) -> w_accounts w2 !! k = w_accounts w1 !! k) ->
       same_accounts e e2 -> phase_request au args PHASE_COMMIT request2 ->
       exists w3 receipt2,
         engine_call w2 e2 remaining (opaque_capabilities e2 au Authorized)
           (re_commit_callback a) (cb_bump (au_commit_callback au)) request2 w3 receipt2 /\
         xr_amount_out receipt2 = xr_amount_out receipt /\
         xr_state_sequence receipt2 = ra_expected_engine_sequence args + 1).

(** ** One phase *)

Lemma opaque_capabilities_map e au mode :
  exists f, opaque_capabilities e au mode = map f (au_opaque au) /\
    forall d, cd_is_signer d = false -> demotes d (f d).
Proof.
  unfold opaque_capabilities, capability_descriptors. destruct mode; eexists; (split; [reflexivity|]);
    intros d Hd; unfold demotes; simpl; split_and!; done.
Qed.

Lemma invoke_engine_phase_completes w e remaining ds callback bump request w' receipt data infos :
  length ds = length remaining ->
  encode_engine_instruction request = Ok data ->
  map_result (normalized_info remaining) ds = Ok infos ->
  engine_call w e remaining ds callback bump request w' receipt ->
  invoke_engine_phase w e remaining ds request callback bump = Ok (w', receipt) /\
  validate_receipt_binding receipt request (xb_phase (xq_binding request))
    (xb_intent_digest (xq_binding request)) = Ok tt /\
  engine_receipt_wf receipt /\ exists h, compute_receipt_digest receipt = Ok h.
Proof.
  intros Hl He Hi Hc. destruct (Hc _ _ He Hi) as (bytes & Hinv & Hr & H8 & Hd & Ep & Ei & Ex).
  unfold invoke_engine_phase, wire, require_core.
  rewrite (proj2 (Nat.eqb_eq _ _) Hl). cbn [require]. rewrite bind_ret_l, He. cbn [map_err].
  rewrite bind_ret_l, Hi, bind_ret_l, Hinv, bind_ret_l, Hr. cbn [core_ok_or ok_or].
  unfold require_keys_eq. rewrite bind_ret_l, key_eqb_refl. cbn [require].
  rewrite bind_ret_l, Hd. cbn [map_err]. split; [by rewrite bind_ret_l|].
  unfold validate_receipt_binding, require_core.
  rewrite Ep, Ei, Ex, Z.eqb_refl, !bool_decide_eq_true_2 by done. split; [done|].
  apply decode_receipt_layout in Hd as [[Hwf Hph] _]; [|done]. split; [done|].
  unfold compute_receipt_digest.
  rewrite (proj2 (encode_receipt_layout _ _ Hwf) (conj Hph eq_refl)), bind_ret_l. by eexists.
Qed.

(** The request of a phase exists. *)
Lemma phase_request_total a e remaining args phase au p mode context :
  sha256_output -> consistent_infos remaining ->
  routed_authorization a remaining args phase = Ok au ->
  validate_opaque_payload (ra_opaque_payload args) = Ok tt ->
  representable (re_env a) args -> 0 < ra_amount_in args ->
  same_accounts (re_env a) e -> require_phase p = Ok tt -> context_ok p context ->
  exists pch request data infos,
    compute_capability_hash (ai_key (ev_engine_program e))
      (capability_descriptors (ev_engine_state e) (au_opaque au) mode) = Ok pch /\
    build_engine_request e args (au_protocol_fee au) (au_intent_digest au) p context
      (ra_expected_engine_sequence args) (au_capability_hash au) pch (length remaining) = Ok request /\
    phase_request au args p request /\ encode_engine_instruction request = Ok data /\
    length (opaque_capabilities e au mode) = length remaining /\
    map_result (normalized_info remaining) (opaque_capabilities e au mode) = Ok infos.
Proof.
  intros Hsha Hci Hau Hpl [Hp8 [Km Kd] Hz Ha] Hpos Hsame Hp Hc.
  pose proof (routed_authorization_Ok _ _ _ _ _ Hau) as ((Hfee & Htot & _) & Hsrc & _ & Ho & Hch & _ & _ &
    Hd & _).
  pose proof (proj1 (validate_opaque_capabilities_Ok _ _ _) Ho) as (Hn & _ & Hds).
  assert (length (au_opaque au) = length remaining) as Hlen by (by rewrite Hds, length_map).
  destruct (capability_hash_total (ai_key (ev_engine_program e))
    (capability_descriptors (ev_engine_state e) (au_opaque au) mode)) as [pch Hpch].
  { simpl. rewrite length_map, Hlen. unfold MAX_CAPABILITY_DESCRIPTORS, CAPABILITY_PREFIX_ACCOUNTS. lia. }
  destruct (routed_digest_bytes Hsha) as (Bc & Bi & _).
  assert (length (ra_opaque_payload args) <= MAX_OPAQUE_PAYLOAD_LEN)%nat as Hl.
  { unfold validate_opaque_payload in Hpl. inv_guarded. by apply Nat.leb_le. }
  rewrite !Forall_cons in Hz. rewrite !Forall_cons in Ha.
  assert (is_u64 (au_protocol_fee au)) as Hfu.
  { pose proof (fee_ceil_covers _ _ _ Hfee). destruct Ha as ([? ?] & _). unfold in_width in *.
    destruct Hz as (_ & [? ?] & _). simpl in *. lia. }
  edestruct (execution_binding_total p (au_intent_digest au) context (key (ev_market (re_env a)))
    (key (ev_domain (re_env a)))
    [m_engine_revision (acc_data (ev_market (re_env a))); ra_amount_in args; au_protocol_fee au;
     d_accounted_a (acc_data (ev_domain (re_env a))); d_accounted_b (acc_data (ev_domain (re_env a)));
     fl_accounted_fee_a (acc_data (ev_fee_ledger (re_env a))); ra_expected_engine_sequence args]
    (au_capability_hash au) pch (length remaining) (ra_opaque_payload args))
    as (b & request & data & Hb & Hr & Eb & Hwf & Hv & He); try done.
  { rewrite !Forall_cons, Forall_nil. split_and!; eauto. }
  { rewrite !Forall_cons, Forall_nil. tauto. }
  destruct (opaque_capabilities_map e au mode) as (f & Ef & Hf).
  destruct (opaque_infos_available _ _ _ f Hci Ho Hf) as [infos Hi].
  exists pch, request, data, infos. rewrite Ef, length_map. destruct Hsame as (Sm & Sd & Sl & _).
  split; [done|].
  assert (build_engine_request e args (au_protocol_fee au) (au_intent_digest au) p context
    (ra_expected_engine_sequence args) (au_capability_hash au) pch (length remaining) = Ok request) as Hbr.
  { unfold build_engine_request, wire. rewrite Sm, Sd, Sl.
    assert (try_from 16 (Z.of_nat (length remaining)) = Some (Z.of_nat (length remaining))) as ->.
    { apply try_from_Some. unfold in_width. unfold MAX_OPAQUE_ACCOUNTS in Hn. lia. }
    cbn [core_ok_or ok_or]. rewrite bind_ret_l. simpl nth in Hb. rewrite Hb. cbn [map_err].
    by rewrite bind_ret_l, Hr. }
  split; [done|]. apply build_engine_request_Ok in Hbr as (E1 & E2 & _ & E4 & _).
  by split_and!.
Qed.

Lemma delegated_source_common a remaining args phase au :
  routed_authorization a remaining args phase = Ok au ->
  validate_common_token_account (acc_data (ev_user_source_a (re_env a)))
    (key (ev_mint_a (re_env a))) = Ok tt.
Proof.
  unfold routed_authorization. intros Ha. inv_guarded.
  match goal with H : routed_economics _ _ = Ok ?r |- _ => destruct r as [fee total] end.
  inv_guarded. match goal with H : context [canonical_spend_authority ?k ?d] |- _ =>
    destruct (canonical_spend_authority k d) as [authority bump] end.
  inv_guarded. unfold validate_delegated_spend_source in *. by inv_guarded.
Qed.

(** ** The handler, step by step *)

Section Steps.
Context (w : World) (a : ExecuteCallbackAuthenticatedProbeV0) (remaining : list AccountInfo).
Context (args : ExecuteCallbackAuthenticatedProbeV0Args) (phase : Z) (au : AuthorizedExecution).
Hypotheses (Hsha : sha256_output) (Hci : consistent_infos remaining).
Hypotheses (Hg : routed_guards w a remaining args phase au) (Hrep : representable (re_env a) args).

Lemma zero_context p : p <> PHASE_COMMIT -> context_ok p (replicate 32 0).
Proof. intros Hp. split; [|done]. split; [done|]. apply Forall_replicate. unfold in_width. lia. Qed.

(** The primary phase, up to its receipt. *)
Lemma primary_completes :
  engine_serves w a remaining args phase au ->
  exists w1 pe,
    routed_primary w a remaining args phase au = Ok (w1, pe) /\
    xr_state_sequence (pe_receipt pe) = ra_expected_engine_sequence args +
      (if phase =? PHASE_PREPARE then 0 else 1) /\
    0 < xr_amount_out (pe_receipt pe) <= d_accounted_b (acc_data (ev_domain (re_env a))) /\
    byte_string 32 (pe_execution_digest pe) /\ byte_string 32 (pe_receipt_digest pe) /\
    (forall k, k ∈ routed_fixed_keys a -> k <> ai_key (ev_engine_state (re_env a)) ->
       w_accounts w1 !! k = w_accounts w !! k) /\
    (ra_timing_mode args = TIMING_PREPARE_COMMIT ->
     forall w2 e2 request2,
       (forall k, (k ∉ token_keys (re_env a)) -> w_accounts w2 !! k = w_accounts w1 !! k) ->
       same_accounts (re_env a) e2 -> phase_request au args PHASE_COMMIT request2 ->
       exists w3 receipt2,
         engine_call w2 e2 remaining (opaque_capabilities e2 au Authorized)
           (re_commit_callback a) (cb_bump (au_commit_callback au)) request2 w3 receipt2 /\
         xr_amount_out receipt2 = xr_amount_out (pe_receipt pe) /\
         xr_state_sequence receipt2 = ra_expected_engine_sequence args + 1).
Proof.
  destruct Hg as [_ Hpl Hph Hn _ _ _ Hau]. intros Heng.
  assert (require_phase phase = Ok tt /\ phase <> PHASE_COMMIT) as [Hp Hnc].
  { apply primary_phase_Ok in Hph as [[_ ->]|[_ ->]]; by split. }
  destruct (phase_request_total a (re_env a) remaining args phase au phase (primary_mode phase) _ Hsha Hci Hau
    Hpl Hrep Hn ltac:(by split_and!) Hp (zero_context _ Hnc))
    as (pch & request & data & infos & Hpch & Hbr & Hreq & He & Hlen & Hi).
  destruct (Heng request Hreq) as (w1 & receipt & Hcall & Hseq & H0 & Hmin & Hliq & Hfr & Hcommit).
  destruct (invoke_engine_phase_completes _ _ _ _ _ _ _ _ _ _ _ Hlen He Hi Hcall)
    as (Hinv & Hbind & Hwf & h & Hh).
  destruct Hreq as ([_ Hxd] & _ & Ep & Ei & _). rewrite Ep, Ei in Hbind.
  exists w1, {| pe_capability_hash := pch; pe_execution_digest := xq_execution_digest request;
    pe_receipt := receipt; pe_receipt_digest := h |}.
  split_and!; try done.
  - unfold routed_primary, wire. change (if phase =? PHASE_PREPARE then ReadOnly else Authorized) with
      (primary_mode phase). rewrite Hpch. cbn [map_err]. rewrite bind_ret_l, Hbr, bind_ret_l.
    unfold opaque_capabilities in Hinv. rewrite Hinv, bind_ret_l, Hbind, bind_ret_l, Hseq.
    unfold validate_primary_sequence, validate_amount_out, require_core.
    destruct (phase =? PHASE_PREPARE).
    + rewrite Z.add_0_r, Z.eqb_refl. cbn [require].
      rewrite bind_ret_l, (proj2 (Z.ltb_lt _ _)), !(proj2 (Z.leb_le _ _)) by done. cbn [require].
      by rewrite !bind_ret_l, Hh.
    + destruct Hrep as [_ _ Hz _]. rewrite !Forall_cons in Hz. destruct Hz as (_ & _ & _ & _ & _ & _ & [_ Hs] & _).
      rewrite (proj2 (checked_add_Some 64 _ _ _) (conj Hs eq_refl)). cbn [core_ok_or ok_or].
      rewrite bind_ret_l, Z.eqb_refl. cbn [require].
      rewrite bind_ret_l, (proj2 (Z.ltb_lt _ _)), !(proj2 (Z.leb_le _ _)) by done. cbn [require].
      by rewrite !bind_ret_l, Hh.
  - unfold compute_receipt_digest in Hh. apply bind_Ok in Hh as (? & _ & <-%Ok_inj). apply Hsha.
Qed.

(** The settlement, for any output the liquidity covers. *)
Lemma routed_settleable w1 out :
  (forall k, k ∈ routed_fixed_keys a -> k <> ai_key (ev_engine_state (re_env a)) ->
     w_accounts w1 !! k = w_accounts w !! k) ->
  pda_law -> 0 < out <= d_accounted_b (acc_data (ev_domain (re_env a))) ->
  funded (re_env a) (ra_amount_in args) (au_protocol_fee au) out ->
  settleable w1 (re_env a) (re_spend_authority a)
    [[SPEND_AUTHORITY_SEED_V0; key (ev_user_source_a (re_env a)); au_intent_digest au; [au_spend_bump au]]]
    (ra_amount_in args) (au_protocol_fee au) out.
Proof.
  intros Hfr Hpda [H0 Hliq] Hf. destruct Hg as [Hc _ _ Hn _ Hroles Henv Hau].
  pose proof (routed_authorization_Ok _ _ _ _ _ Hau) as ((Hfee & Htot & _) & _ & _ & _ & _ & _ & _ & _ &
    Hpd & _ & Hdel & Hdam & _).
  unfold routed_constraints in Hc. unfold validate_execution_envelope in Henv. inv_guarded. to_prop.
  eapply guards_settleable; try eassumption; try done.
  - intros k Hk. apply Hfr.
    + revert k Hk. unfold routed_fixed_keys. intros k Hk. rewrite !elem_of_cons in *. tauto.
    + refine (NoDup_sublist_ne _ _ _ _ Hroles _ Hk). unfold routed_fixed_keys. simpl. solve_sublist.
  - by eapply delegated_source_common.
  - destruct (spend_as_delegate (acc_data (ev_user_source_a (re_env a))) (ai_key (re_spend_authority a))
      (ra_amount_in args + au_protocol_fee au)) as (t & Ht & _); [done | by rewrite Hdam | by exists t].
  - right. eexists. split; [apply list_elem_of_here|]. apply (Hpda _ _ _ _ Hpd).
  - by apply routed_settlement_keys, NoDup_app in Hroles as [? _].
Qed.
Lemma accept_completes out :
  0 < out <= d_accounted_b (acc_data (ev_domain (re_env a))) ->
  funded (re_env a) (ra_amount_in args) (au_protocol_fee au) out ->
  exists st, accept_settlement (re_env a) args au out = Ok st.
Proof.
  intros [_ Hliq] (_ & Ra & Rf & _). pose proof (rg_envelope _ _ _ _ _ _ Hg) as Henv.
  unfold validate_execution_envelope in Henv. inv_guarded.
  match goal with H : validate_vaults _ = _ |- _ =>
    apply validate_vaults_covers in H as (Ca & _ & Cf) end.
  assert (d_accounted_a (acc_data (ev_domain (re_env a))) + ra_amount_in args < 2 ^ 64) as Ha by lia.
  assert (fl_accounted_fee_a (acc_data (ev_fee_ledger (re_env a))) + au_protocol_fee au < 2 ^ 64) as Hf
    by lia.
  unfold accept_settlement. rewrite (proj2 (checked_add_Some 64 _ _ _) (conj Ha eq_refl)).
  cbn [core_ok_or ok_or]. rewrite bind_ret_l, (proj2 (checked_sub_Some _ _ _) (conj Hliq eq_refl)).
  cbn [core_ok_or ok_or]. rewrite bind_ret_l, (proj2 (checked_add_Some 64 _ _ _) (conj Hf eq_refl)).
  by eexists.
Qed.

(** The delegate spends exactly its allowance and is gone. *)
Lemma settle_intent_completes w1 st :
  transfer_progress ID -> st_protocol_fee st = au_protocol_fee au ->
  st_total_input_debit st = au_total_input_debit au ->
  settleable w1 (re_env a) (re_spend_authority a)
    [[SPEND_AUTHORITY_SEED_V0; key (ev_user_source_a (re_env a)); au_intent_digest au; [au_spend_bump au]]]
    (ra_amount_in args) (au_protocol_fee au) (st_amount_out st) ->
  exists w2 e2,
    settle_authenticated_intent w1 a (ra_amount_in args) (au_intent_digest au) (au_spend_bump au) st =
      Ok (w2, e2) /\
    forall k, (k ∉ token_keys (re_env a)) -> w_accounts w2 !! k = w_accounts w1 !! k.
Proof.
  intros Hlaw Ef Et Hs. pose proof (rg_authorization _ _ _ _ _ _ Hg) as Hau.
  pose proof (routed_authorization_Ok _ _ _ _ _ Hau) as ((_ & Htot & _) & _ & _ & _ & _ & _ & _ & _ &
    _ & _ & Hdel & Hdam & _).
  destruct (settle_completes _ _ _ _ _ _ _ Hlaw Hs) as (w2 & e2 & Hset & Hallow & Hfr).
  destruct (spend_as_delegate _ _ (ra_amount_in args + au_protocol_fee au) Hdel) as (t & Ht & Hn & H0);
    [by rewrite Hdam|].
  destruct (Hallow t Ht) as [En E0]. exists w2, e2. split; [|done].
  unfold settle_authenticated_intent, require_core. rewrite Ef, Et, Htot, Hset, bind_ret_l.
  rewrite En, E0, Hn, H0. done.
Qed.

(** The settlement has an encoding. *)
Lemma settlement_binding_representable w1 w2 e2 st pe :
  accept_settlement (re_env a) args au (st_amount_out st) = Ok st ->
  funded (re_env a) (ra_amount_in args) (au_protocol_fee au) (st_amount_out st) ->
  0 < st_amount_out st <= d_accounted_b (acc_data (ev_domain (re_env a))) ->
  settle_authenticated_intent w1 a (ra_amount_in args) (au_intent_digest au) (au_spend_bump au) st =
    Ok (w2, e2) ->
  byte_string 32 (pe_execution_digest pe) -> byte_string 32 (pe_receipt_digest pe) ->
  settlement_binding_wf (bound_settlement e2 args st (au_intent_digest au) (pe_execution_digest pe)
    (pe_receipt_digest pe)).
Proof.
  intros Hacc (F1 & F2 & F3 & F4) [O1 O2] Hs Bx Br. destruct Hrep as [_ _ Hz Ha].
  pose proof (rg_authorization _ _ _ _ _ _ Hg) as Hau. pose proof (rg_amount _ _ _ _ _ _ Hg) as Hn.
  pose proof (rg_envelope _ _ _ _ _ _ Hg) as Henv. unfold validate_execution_envelope in Henv. inv_guarded.
  match goal with H : validate_vaults _ = _ |- _ =>
    apply validate_vaults_covers in H as (Ca & Cb & Cf) end.
  pose proof (routed_authorization_Ok _ _ _ _ _ Hau) as ((Hfee & Htot & _) & _ & _ & _ & _ & _ & _ & Hd & _).
  destruct (routed_digest_bytes Hsha) as (_ & Bi & _). apply Bi in Hd. apply fee_ceil_covers in Hfee as [Hf0 _].
  apply accept_settlement_Ok in Hacc as (E1 & E2 & _ & E4 & E5 & E6 & _).
  apply settle_authenticated_intent_Ok in Hs as (Hs & _).
  apply settle_Ok in Hs as ((_ & Kd & Kl & _) & _ & S1 & S2 & S3 & S4 & S5).
  rewrite !Forall_cons in Hz. rewrite !Forall_cons in Ha. unfold in_width in *.
  unfold settlement_binding_wf, bound_settlement; simpl. rewrite Kd, Kl, S1, S2, S3, S4, S5, E1, E2, E4, E5, E6, Htot.
  rewrite !Forall_cons, !Forall_nil. split; [tauto|]. destruct_and? Ha. destruct_and? Hz. unfold in_width. split_and!; done || lia.
Qed.

(** The COMMIT phase. *)
Lemma commit_completes w1 w2 e2 receipt sd :
  ra_timing_mode args = TIMING_PREPARE_COMMIT -> same_accounts (re_env a) e2 ->
  xr_state_sequence receipt = ra_expected_engine_sequence args ->
  byte_string 32 sd -> sd <> replicate 32 0 ->
  (forall k, (k ∉ token_keys (re_env a)) -> w_accounts w2 !! k = w_accounts w1 !! k) ->
  (forall w2 e2 request2,
     (forall k, (k ∉ token_keys (re_env a)) -> w_accounts w2 !! k = w_accounts w1 !! k) ->
     same_accounts (re_env a) e2 -> phase_request au args PHASE_COMMIT request2 ->
     exists w3 receipt2,
       engine_call w2 e2 remaining (opaque_capabilities e2 au Authorized)
         (re_commit_callback a) (cb_bump (au_commit_callback au)) request2 w3 receipt2 /\
       xr_amount_out receipt2 = xr_amount_out receipt /\
       xr_state_sequence receipt2 = ra_expected_engine_sequence args + 1) ->
  exists r, routed_commit w2 a e2 remaining args au receipt sd = Ok r.
Proof.
  intros Hm Hsame Hseq Bsd Hsd Hfr Heng. destruct Hg as [_ Hpl Hph Hn _ _ _ Hau].
  destruct (phase_request_total a e2 remaining args phase au PHASE_COMMIT Authorized sd Hsha Hci Hau
    Hpl Hrep Hn Hsame ltac:(done) ltac:(split; [done | split; [by intros ->|by intros []]]))
    as (pch & request & data & infos & Hpch & Hbr & Hreq & He & Hlen & Hi).
  destruct (Heng w2 e2 request Hfr Hsame Hreq) as (w3 & receipt2 & Hcall & Eo & Es).
  destruct (invoke_engine_phase_completes _ _ _ _ _ _ _ _ _ _ _ Hlen He Hi Hcall)
    as (Hinv & Hbind & Hwf & h & Hh).
  destruct Hreq as (_ & _ & Ep & Ei & _). rewrite Ep, Ei in Hbind.
  pose proof (routed_authorization_Ok _ _ _ _ _ Hau) as (_ & _ & _ & _ & Hch & _).
  destruct Hsame as (_ & _ & _ & Sp & Ss & _). assert (pch = au_capability_hash au) as ->.
  { rewrite Sp, Ss, Hch in Hpch. by apply Ok_inj in Hpch. }
  unfold routed_commit, wire, require_core. rewrite Hpch. cbn [map_err].
  rewrite bind_ret_l, bool_decide_eq_true_2 by done. cbn [require]. rewrite bind_ret_l, Hseq, Hbr, bind_ret_l.
  unfold opaque_capabilities in Hinv. rewrite Hinv, bind_ret_l, Hbind, bind_ret_l, Eo, Z.eqb_refl.
  cbn [require]. destruct Hrep as [_ _ Hz _]. rewrite !Forall_cons in Hz.
  destruct Hz as (_ & _ & _ & _ & _ & _ & [_ Hs] & _).
  rewrite bind_ret_l, (proj2 (checked_add_Some 64 _ _ _) (conj Hs eq_refl)). cbn [core_ok_or ok_or].
  rewrite bind_ret_l, Es, Z.eqb_refl. cbn [require]. rewrite bind_ret_l, Hh. cbn [map_err].
  rewrite bind_ret_l. by eexists.
Qed.
End Steps.

(** C8. Progress of the routed execution: whoever submits it, an execution that
    passes the guards (the account constraints, the envelope, the limits, the
    capabilities, and the delegation the user's authorization left) is settled,
    in both timing modes, when its engine serves it and the accounts are funded:
    no check, digest, wire encoding, transfer or COMMIT call after the guards can
    fail. In the two-phase mode the code needs a settlement digest that is not
    all zero, the wire's marker of a missing context. *)
Theorem execute_routed_completes w a remaining args phase au :
  sha256_output -> transfer_progress ID -> pda_law -> consistent_infos remaining ->
  routed_guards w a remaining args phase au -> representable (re_env a) args ->
  engine_serves w a remaining args phase au ->
  (forall out, out <= d_accounted_b (acc_data (ev_domain (re_env a))) ->
     funded (re_env a) (ra_amount_in args) (au_protocol_fee au) out) ->
  (ra_timing_mode args = TIMING_PREPARE_COMMIT -> forall b,
     settlement_binding_wf b -> hashv (settlement_preimage b) <> replicate 32 0) ->
  exists w' ev, execute_callback_authenticated_probe w a remaining args = Ok (w', ev).
Proof.
  intros Hsha Hlaw Hpda Hci Hg Hrep Heng Hf Hnz.
  destruct (primary_completes w a remaining args phase au Hsha Hci Hg Hrep Heng)
    as (w1 & pe & Hprim & Hseq & Hout & Bx & Br & Hfr & Hcommit).
  pose proof (Hf _ (proj2 Hout)) as Hfund.
  destruct (accept_completes w a remaining args phase au Hg _ Hout Hfund) as [st Hacc].
  pose proof (accept_settlement_Ok _ _ _ _ _ Hacc) as (Ef & Et & Eo & _). rewrite <- Eo in Hout, Hfund, Hacc.
  destruct (settle_intent_completes w a remaining args phase au Hg w1 st Hlaw Ef Et
    (routed_settleable w a remaining args phase au Hg w1 _ Hfr Hpda Hout Hfund)) as (w2 & e2 & Hset & Hfr2).
  pose proof (settlement_binding_representable w a remaining args phase au Hsha Hg Hrep _ _ _ _ _ Hacc
    Hfund Hout Hset Bx Br) as Hwf.
  pose proof (settle_authenticated_intent_Ok _ _ _ _ _ _ _ _ Hset) as (Hs & _).
  apply settle_Ok in Hs as (Hsame & _).
  assert (compute_bound_settlement_digest e2 args st (au_intent_digest au) (pe_execution_digest pe)
    (pe_receipt_digest pe) = Ok (hashv (settlement_preimage (bound_settlement e2 args st
      (au_intent_digest au) (pe_execution_digest pe) (pe_receipt_digest pe))))) as Hsd.
  { unfold compute_bound_settlement_digest, compute_settlement_digest.
    by rewrite encode_settlement_binding_ok. }
  assert (exists r, (if ra_timing_mode args =? TIMING_PREPARE_COMMIT
     then routed_commit w2 a e2 remaining args au (pe_receipt pe) (hashv (settlement_preimage
       (bound_settlement e2 args st (au_intent_digest au) (pe_execution_digest pe) (pe_receipt_digest pe))))
     else Ok (w2, {| ce_capability_hash := replicate 32 0; ce_execution_digest := NO_COMMIT_DIGEST_V0;
       ce_receipt_digest := NO_COMMIT_DIGEST_V0; ce_sequence := 0 |})) = Ok r) as [[w3 ce] Hc].
  { destruct (Z.eqb_spec (ra_timing_mode args) TIMING_PREPARE_COMMIT) as [Hm|]; [|by eexists].
    eapply (commit_completes w a remaining args phase au Hsha Hci Hg Hrep w1);
      [exact Hm | exact Hsame | | apply Hsha | by apply Hnz | exact Hfr2 | exact (Hcommit Hm)].
    destruct (primary_phase_Ok _ _ (rg_phase _ _ _ _ _ _ Hg)) as [[E _]|[_ ->]]; [|by rewrite Hseq, Z.add_0_r].
    by rewrite E in Hm. }
  destruct Hg as [Gc Gp Gph Gn Gs Gr Ge Ga].
  pose proof (routed_authorization_Ok _ _ _ _ _ Ga) as (_ & _ & _ & Ho & _).
  pose proof (proj1 (validate_opaque_capabilities_Ok _ _ _) Ho) as (Hlen & _).
  assert (try_from 8 (Z.of_nat (length remaining)) = Some (Z.of_nat (length remaining))) as Htry.
  { apply try_from_Some. unfold in_width. unfold MAX_OPAQUE_ACCOUNTS in Hlen. lia. }
  rewrite Eo in Hacc. unfold execute_callback_authenticated_probe,
    handle_execute_callback_authenticated_probe_v0, require_core.
  rewrite Gc, bind_ret_l, Gp, bind_ret_l, Gph, bind_ret_l, (proj2 (Z.ltb_lt _ _) Gn). cbn [require].
  rewrite bind_ret_l, (proj2 (Z.leb_le _ _) Gs). cbn [require].
  rewrite bind_ret_l, (proj2 (ensure_distinct_roles_Ok _ tt) Gr), bind_ret_l, Ge, bind_ret_l, Ga, bind_ret_l.
  rewrite Hprim, bind_ret_l, Hacc, bind_ret_l, Hset, bind_ret_l, Hsd, bind_ret_l, Hc, bind_ret_l, Htry.
  cbn [core_ok_or ok_or]. rewrite !bind_ret_l. by do 2 eexists.
Qed.
End RoutedProgress.

(** ** The engine of the examples *)

(** A toy digest of a bounded byte string is not zero: it starts with the sum. *)
Lemma toy_digest_nonzero l :
  Forall is_u8 l -> Z.of_nat (length l) < 2 ^ 20 -> toy_digest l <> replicate 32 0.
Proof.
  intros Hl Hlen. assert (forall s1 s2, 0 < s1 -> s1 + 256 * Z.of_nat (length l) < 2 ^ 32 ->
    checksum l s1 s2 <> replicate 32 0) as Hc; [|apply Hc; lia].
  clear Hlen. induction Hl as [|b l [Hb0 Hb1] _ IH]; intros s1 s2 H0 H1; cbn [checksum length] in *.
  - intros Heq. apply (f_equal (take 4)) in Heq. rewrite take_app_length' in Heq by done.
    apply (f_equal from_le_bytes) in Heq. rewrite from_to_le_bytes in Heq by (simpl in *; lia).
    change (from_le_bytes (take 4 (replicate 32 0))) with 0 in Heq. lia.
  - apply IH; lia.
Qed.

Lemma settlement_digest_nonzero callee b :
  settlement_binding_wf b ->
  @hashv (@rt_hasher (reference_runtime callee)) (settlement_preimage b) <> replicate 32 0.
Proof.
  intros Hwf. apply toy_digest_nonzero.
  - unfold settlement_preimage. rewrite concat_pair. apply Forall_app_2; [decide_closed|].
    by apply settlement_binding_bytes.
  - unfold settlement_preimage. rewrite concat_pair, length_app, settlement_binding_length by done.
    vm_compute. reflexivity.
Qed.

Lemma answering_engine_call w e remaining ds callback bump request :
  engine_request_wf request -> require_phase (xb_phase (xq_binding request)) = Ok tt ->
  is_u64 (xb_pre_sequence (xq_binding request) + 1) ->
  exists w' receipt,
    @engine_call answering_runtime w e remaining ds callback bump request w' receipt /\
    xr_amount_out receipt = 900 /\
    xr_state_sequence receipt = xb_pre_sequence (xq_binding request) +
      (if xb_phase (xq_binding request) =? PHASE_PREPARE then 0 else 1) /\
    w_accounts w' = w_accounts w.
Proof.
  intros Hwf Hp Hs. pose proof Hwf as [([Hd _]%Forall_cons & Hz & _ & H8 & _) Hx].
  set (receipt := {| xr_phase := xb_phase (xq_binding request);
    xr_intent_digest := xb_intent_digest (xq_binding request);
    xr_execution_digest := xq_execution_digest request; xr_amount_out := 900;
    xr_state_sequence := xb_pre_sequence (xq_binding request) +
      (if xb_phase (xq_binding request) =? PHASE_PREPARE then 0 else 1) |}).
  assert (engine_receipt_wf receipt) as Hrw.
  { rewrite !Forall_cons in Hz. rewrite !Forall_cons in H8. unfold engine_receipt_wf. simpl.
    rewrite !Forall_cons, !Forall_nil. assert (is_u64 900) by (unfold in_width; lia). destruct (_ =? PHASE_PREPARE); rewrite ?Z.add_0_r; tauto. }
  exists (set_return_data w (ai_key (ev_engine_program e)) (engine_receipt_layout receipt)), receipt.
  split; [|done]. intros data infos He _. exists (engine_receipt_layout receipt).
  pose proof (proj2 (encode_receipt_layout receipt _ Hrw) (conj Hp eq_refl)) as Henc.
  assert (@decode_engine_instruction (@rt_hasher answering_runtime) data = Ok request) as Hdec.
  { apply decode_engine_instruction_encoded; [by eapply encode_engine_instruction_bytes | by split]. }
  split; [|split; [done|]].
  - simpl. unfold answering_engine, phase_instruction. cbn [ix_data ix_program_id].
    change (@rt_hasher (reference_runtime no_callee)) with (@rt_hasher answering_runtime).
    rewrite Hdec. fold receipt. by rewrite Henc.
  - assert (Forall is_u8 (engine_receipt_layout receipt)) as Hb.
    { by apply engine_receipt_bytes. }
    split_and!; try done. by apply decode_receipt_layout.
Qed.

Section Example.
#[local] Existing Instance answering_runtime.
#[local] Existing Instance RoutedProperties.example_config.

Lemma answering_engine_serves w a remaining args phase au :
  primary_phase (ra_timing_mode args) = Ok phase ->
  is_u64 (ra_expected_engine_sequence args + 1) ->
  ra_min_output_credit args <= 900 <= d_accounted_b (acc_data (ev_domain (re_env a))) ->
  engine_serves w a remaining args phase au.
Proof.
  intros Hph Hs [Hmin Hliq] request (Hwf & _ & Ep & _ & Eq). rewrite <- Eq in Hs.
  destruct (answering_engine_call w (re_env a) remaining
    (opaque_capabilities (re_env a) au (primary_mode phase)) (re_primary_callback a)
    (cb_bump (au_primary_callback au)) request Hwf) as (w1 & receipt & Hc & Eo & Es & Ew); [|done|].
  { rewrite Ep. by apply primary_phase_Ok in Hph as [[_ ->]|[_ ->]]. }
  exists w1, receipt. rewrite Eo, Es, Eq, Ep, Ew. split_and!; try done.
  intros _ w2 e2 request2 _ _ (Hwf2 & _ & Ep2 & _ & Eq2). rewrite Eq, <- Eq2 in Hs.
  destruct (answering_engine_call w2 e2 remaining (opaque_capabilities e2 au Authorized)
    (re_commit_callback a) (cb_bump (au_commit_callback au)) request2 Hwf2)
    as (w3 & receipt2 & Hc2 & Eo2 & Es2 & _); [by rewrite Ep2 | done |].
  exists w3, receipt2. by rewrite Eo2, Es2, Ep2, Eq2.
Qed.

Lemma execute_routed_completes_witness : exists w' ev, execution 1 = Ok (w', ev).
Proof.
  destruct (is_ok_Ok (routed_authorization (lifecycle_accounts 1) routed_opaque (lifecycle_args 1)
    PHASE_PREPARE)) as [au Ha]; [vm_compute; reflexivity|].
  assert (match routed_authorization (lifecycle_accounts 1) routed_opaque (lifecycle_args 1)
    PHASE_PREPARE with Ok au => au_protocol_fee au | _ => 0 end = 3) as Hfee by (vm_compute; reflexivity).
  rewrite Ha in Hfee.
  apply (execute_routed_completes _ _ _ _ PHASE_PREPARE au).
  - intros l. apply toy_digest_bytes.
  - apply reference_transfer_progress.
  - apply reference_pda_law.
  - decide_closed.
  - split; [vm_compute; reflexivity | vm_compute; reflexivity | reflexivity | decide_closed |
      decide_closed | decide_closed | vm_compute; reflexivity | exact Ha].
  - split; [decide_closed | split; decide_closed | decide_closed | decide_closed].
  - apply answering_engine_serves; [reflexivity | decide_closed | vm_compute; split; congruence].
  - intros out Ho. rewrite Hfee.
    assert (d_accounted_b (acc_data (ev_domain (re_env (lifecycle_accounts 1)))) = 70000 /\
      ra_amount_in (lifecycle_args 1) = 1000 /\
      amount_of (ev_user_source_a (re_env (lifecycle_accounts 1))) = 1000000 /\
      amount_of (ev_vault_a (re_env (lifecycle_accounts 1))) = 50010 /\
      amount_of (ev_fee_vault (re_env (lifecycle_accounts 1))) = 16 /\
      amount_of (ev_user_destination_b (re_env (lifecycle_accounts 1))) = 1000000)
      as (Hb & Hi & Hs & Hva & Hv & Hd) by (split_and!; vm_compute; reflexivity).
    rewrite Hb in Ho. unfold funded. rewrite Hi, Hs, Hva, Hv, Hd. lia.
  - intros _ b. apply settlement_digest_nonzero.
Defined.
End Example.
