(* ===== verification/RoutedEngine.v ===== *)
(** * routed-callback-auth: test-programs/routed-plan-engine

    The engine of the routed experiment: one evaluator behind the TRANSITION,
    PREPARE and COMMIT entrypoints. It authenticates Core by the phase-scoped
    PDA that must sign, binds the request, the capability closure and its own
    sequence, quotes the constant product, and records the execution in every
    phase but PREPARE. *)
From S2P Require Import Prelude Codec CoreState EngineState Solana ReferenceRuntime EngineFrame.
From S2P Require Import Helpers Capability Cpmm RoutedWire.

Definition routed_engine_ID : Pubkey :=
  Eval vm_compute in pubkey_literal "5UNyG5GQpPwyoDgsvt4JzdqJxJzPh52pVbUDjEa5Gikh".
Definition NO_COMPLETED_PHASE : Z := 255.
Definition U64_MAX : Z := 2 ^ 64 - 1.

Definition MODE_ACCEPT : Z := 0.
Definition MODE_MISSING_RECEIPT : Z := 1.
Definition MODE_WRONG_INTENT_DIGEST : Z := 2.
Definition MODE_WRONG_EXECUTION_DIGEST : Z := 3.
Definition MODE_MALFORMED_RECEIPT : Z := 4.
Definition MODE_ZERO_OUTPUT : Z := 5.
Definition MODE_OVERSIZED_OUTPUT : Z := 6.
Definition MODE_WRONG_RECEIPT_MAGIC : Z := 7.
Definition MODE_WRONG_RECEIPT_VERSION : Z := 8.
Definition MODE_TRAILING_RECEIPT_BYTE : Z := 9.
Definition MODE_WRONG_RECEIPT_PHASE : Z := 10.
Definition MODE_LATE_COMMIT_FAILURE : Z := 11.

Definition is_supported_mode (mode : Z) : bool :=
  existsb (Z.eqb mode)
    [MODE_ACCEPT; MODE_MISSING_RECEIPT; MODE_WRONG_INTENT_DIGEST; MODE_WRONG_EXECUTION_DIGEST;
     MODE_MALFORMED_RECEIPT; MODE_ZERO_OUTPUT; MODE_OVERSIZED_OUTPUT; MODE_WRONG_RECEIPT_MAGIC;
     MODE_WRONG_RECEIPT_VERSION; MODE_TRAILING_RECEIPT_BYTE; MODE_WRONG_RECEIPT_PHASE;
     MODE_LATE_COMMIT_FAILURE].

Definition validate_configured_timing_mode (timing_mode : Z) : engine_result unit :=
  representative_phase ← (if timing_mode =? TIMING_SINGLE then Ok PHASE_TRANSITION
                          else if timing_mode =? TIMING_PREPARE_COMMIT then Ok PHASE_PREPARE
                          else Err InvalidTimingMode);
  map_err (fun _ => InvalidTimingMode) (validate_phase_for_timing timing_mode representative_phase).

Definition routed_state_at (w : World) (k : Pubkey) : option RoutedEngineState :=
  match program_data_at w k with Some (RoutedEngineData s) => Some s | _ => None end.

Section Engine.
Context `{Runtime} (cpi : Cpi).

(** *** initialize and set_mode *)

Definition initial_engine_state (authority market : Pubkey) (revision lp_fee_bps timing_mode : Z)
    : RoutedEngineState := {|
  rs_authority := authority; rs_market := market; rs_revision := revision;
  rs_lp_fee_bps := lp_fee_bps; rs_timing_mode := timing_mode; rs_sequence := 0;
  rs_last_intent_digest := replicate 32 0; rs_last_phase_context_digest := replicate 32 0;
  rs_last_execution_digest := replicate 32 0; rs_last_amount_out := 0;
  rs_last_phase := NO_COMPLETED_PHASE; rs_mode := MODE_ACCEPT |}.

Definition initialize (w : World) (a : InitializeState) (remaining : list AccountInfo)
    (market : Pubkey) (revision lp_fee_bps timing_mode : Z) : engine_result World :=
  _ ← init_keypair w (is_state a);
  _ ← init_payer (is_authority a) (is_system_program a);
  _ ← require_engine (bool_decide (remaining = [])) UnexpectedAccount;
  _ ← require_engine (negb (key_eqb market default_pubkey)) InvalidMarket;
  _ ← require_engine (negb (revision =? 0)) InvalidRevision;
  _ ← require_engine (lp_fee_bps <? ENGINE_BASIS_POINTS_DENOMINATOR) InvalidLpFeeBps;
  _ ← validate_configured_timing_mode timing_mode;
  Ok (store w (ai_key (is_state a)) (OtherProgramData (RoutedEngineData
    (initial_engine_state (ai_key (is_authority a)) market revision lp_fee_bps timing_mode)))).

Definition with_mode (s : RoutedEngineState) (mode : Z) : RoutedEngineState := {|
  rs_authority := rs_authority s; rs_market := rs_market s; rs_revision := rs_revision s;
  rs_lp_fee_bps := rs_lp_fee_bps s; rs_timing_mode := rs_timing_mode s;
  rs_sequence := rs_sequence s; rs_last_intent_digest := rs_last_intent_digest s;
  rs_last_phase_context_digest := rs_last_phase_context_digest s;
  rs_last_execution_digest := rs_last_execution_digest s;
  rs_last_amount_out := rs_last_amount_out s; rs_last_phase := rs_last_phase s;
  rs_mode := mode |}.

Definition set_mode (w : World) (a : SetMode RoutedEngineState) (remaining : list AccountInfo)
    (mode : Z) : engine_result World :=
  _ ← set_mode_constraints routed_state_at rs_authority w routed_engine_ID a;
  _ ← require_engine (bool_decide (remaining = [])) UnexpectedAccount;
  _ ← require_engine (is_supported_mode mode) InvalidMode;
  Ok (store w (key (sm_engine_state a))
        (OtherProgramData (RoutedEngineData (with_mode (acc_data (sm_engine_state a)) mode)))).

(** *** The accounts of a phase *)

(** Two unchecked accounts: everything about them is checked by hand. *)
Record EvaluatePhase := {
  ep_engine_state : AccountInfo;
  ep_callback_authority : AccountInfo }.

(** The loop over the opaque accounts. *)
Fixpoint validate_opaque_privileges (callback : AccountInfo) (phase : Z)
    (opaque_accounts : list AccountInfo) : engine_result unit :=
  match opaque_accounts with
  | [] => Ok tt
  | account :: opaque_accounts =>
      _ ← require_engine (negb (ai_is_signer account)) OpaqueSignerForbidden;
      _ ← require_engine (negb (key_eqb (ai_key account) (ai_key callback)))
            AliasedCallbackAuthority;
      _ ← (if phase =? PHASE_PREPARE
           then require_engine (negb (ai_is_writable account)) PrepareCapabilityWritable
           else Ok tt);
      validate_opaque_privileges callback phase opaque_accounts
  end.

Definition validate_fixed_account_privileges (accounts : EvaluatePhase)
    (opaque_accounts : list AccountInfo) (phase : Z) : engine_result unit :=
  let engine_state := ep_engine_state accounts in
  let callback := ep_callback_authority accounts in
  _ ← require_engine (negb (ai_executable engine_state)) EngineInvalidEngineState;
  _ ← require_engine (negb (ai_is_signer engine_state)) EngineStateSigner;
  _ ← require_engine (ai_is_signer callback && negb (ai_is_writable callback) &&
                      negb (ai_executable callback)) InvalidCallbackPrivileges;
  _ ← require_engine (negb (key_eqb (ai_key engine_state) (ai_key callback)))
        AliasedCallbackAuthority;
  _ ← (if phase =? PHASE_PREPARE
       then require_engine (negb (ai_is_writable engine_state)) PrepareStateMustBeReadOnly
       else if (phase =? PHASE_TRANSITION) || (phase =? PHASE_COMMIT)
       then require_engine (ai_is_writable engine_state) MutationStateMustBeWritable
       else Err EntrypointPhaseMismatch);
  validate_opaque_privileges callback phase opaque_accounts.

(** The callback must be the PDA Core signs with in this phase. *)
Definition expected_callback (engine_state : Pubkey) (binding : ExecutionBinding) : Pubkey :=
  (find_program_address
     [CALLBACK_AUTHORITY_SEED; routed_engine_ID; engine_state; xb_market binding;
      xb_domain binding; xb_intent_digest binding; [xb_phase binding]] routed_ID).1.

Definition authenticate_callback_authority (engine_state callback : AccountInfo)
    (binding : ExecutionBinding) : engine_result unit :=
  require_engine_keys_eq (expected_callback (ai_key engine_state) binding) (ai_key callback)
    EngineInvalidCallbackAuthority.

Definition load_engine_state (w : World) (account : AccountInfo)
    : engine_result RoutedEngineState :=
  _ ← require_engine_keys_eq (ai_owner account) routed_engine_ID EngineInvalidEngineState;
  ok_or (routed_state_at w (ai_key account)) EngineInvalidEngineState.

Definition store_engine_state (w : World) (account : AccountInfo) (state : RoutedEngineState)
    : engine_result World :=
  _ ← require_engine (ai_is_writable account) MutationStateMustBeWritable;
  _ ← require_engine_keys_eq (ai_owner account) routed_engine_ID EngineInvalidEngineState;
  _ ← ok_or (routed_state_at w (ai_key account)) EngineInvalidEngineState;
  Ok (store w (ai_key account) (OtherProgramData (RoutedEngineData state))).

(** *** The helper command *)

(** The guards of the two-account prefix. *)
Definition validate_helper_prefix (helper_program helper_state engine_state callback : AccountInfo)
    : engine_result unit :=
  _ ← require_engine (ai_executable helper_program && negb (ai_is_writable helper_program) &&
                      negb (ai_is_signer helper_program)) InvalidHelperProgram;
  _ ← require_engine_keys_eq (ai_key helper_program) CallbackProbe.ID InvalidHelperProgram;
  _ ← require_engine (ai_is_writable helper_state && negb (ai_is_signer helper_state) &&
                      negb (ai_executable helper_state)) InvalidHelperState;
  _ ← require_engine_keys_eq (ai_owner helper_state) (ai_key helper_program) InvalidHelperState;
  require_engine (negb (key_eqb (ai_key helper_program) (ai_key helper_state)) &&
                  negb (key_eqb (ai_key helper_program) (ai_key callback)) &&
                  negb (key_eqb (ai_key helper_state) (ai_key callback)) &&
                  negb (key_eqb (ai_key helper_program) (ai_key engine_state)) &&
                  negb (key_eqb (ai_key helper_state) (ai_key engine_state)))
    InvalidHelperCapabilityClosure.

Definition maybe_invoke_helper (w : World) (payload : list Z) (opaque_accounts : list AccountInfo)
    (engine_state callback_authority : AccountInfo) : engine_result World :=
  if negb (names_helper payload) then Ok w else
  _ ← require_engine ((2 <=? length opaque_accounts)%nat &&
                      (length opaque_accounts <=? MAX_OPAQUE_ACCOUNTS)%nat)
        InvalidHelperCapabilityClosure;
  match opaque_accounts with
  | helper_program :: helper_state :: _ =>
      _ ← validate_helper_prefix helper_program helper_state engine_state callback_authority;
      amount ← helper_amount payload;
      map_err EngineCpi
        (cpi w {| ix_program_id := ai_key helper_program;
                  ix_accounts := [meta_new (ai_key helper_state) false;
                                  meta_new_readonly (ai_key callback_authority) true];
                  ix_data := helper_increment_data amount |}
           [helper_state; callback_authority; helper_program] [])
  | _ => Panic
  end.

(** *** The receipt *)

Definition flip_intent (r : EngineReceipt) : EngineReceipt := {|
  xr_phase := xr_phase r; xr_intent_digest := flip_bit 0 (xr_intent_digest r);
  xr_execution_digest := xr_execution_digest r; xr_amount_out := xr_amount_out r;
  xr_state_sequence := xr_state_sequence r |}.
Definition flip_execution (r : EngineReceipt) : EngineReceipt := {|
  xr_phase := xr_phase r; xr_intent_digest := xr_intent_digest r;
  xr_execution_digest := flip_bit 0 (xr_execution_digest r); xr_amount_out := xr_amount_out r;
  xr_state_sequence := xr_state_sequence r |}.
Definition flip_phase (r : EngineReceipt) : EngineReceipt := {|
  xr_phase := if xr_phase r =? PHASE_TRANSITION then PHASE_PREPARE else PHASE_TRANSITION;
  xr_intent_digest := xr_intent_digest r; xr_execution_digest := xr_execution_digest r;
  xr_amount_out := xr_amount_out r; xr_state_sequence := xr_state_sequence r |}.

Definition emit_receipt (w : World) (mode : Z) (receipt : EngineReceipt) : engine_result World :=
  if mode =? MODE_MISSING_RECEIPT then Ok w else
  let set data := Ok (set_return_data w routed_engine_ID data) in
  let encode r := map_err (fun _ => InvalidReceiptEncoding) (encode_receipt r) in
  encoded ← encode receipt;
  if existsb (Z.eqb mode)
       [MODE_ACCEPT; MODE_ZERO_OUTPUT; MODE_OVERSIZED_OUTPUT; MODE_LATE_COMMIT_FAILURE]
  then set encoded
  else if mode =? MODE_WRONG_INTENT_DIGEST then wrong ← encode (flip_intent receipt); set wrong
  else if mode =? MODE_WRONG_EXECUTION_DIGEST
  then wrong ← encode (flip_execution receipt); set wrong
  else if mode =? MODE_MALFORMED_RECEIPT then set (take (length encoded - 1) encoded)
  else if mode =? MODE_WRONG_RECEIPT_MAGIC then set (flip_bit 0 encoded)
  else if mode =? MODE_WRONG_RECEIPT_VERSION then set (flip_bit 8 encoded)
  else if mode =? MODE_TRAILING_RECEIPT_BYTE then set (encoded ++ [0])
  else if mode =? MODE_WRONG_RECEIPT_PHASE then wrong ← encode (flip_phase receipt); set wrong
  else Err InvalidMode.

(** *** evaluate_phase *)

Definition offered (mode quoted : Z) : Z :=
  if mode =? MODE_ZERO_OUTPUT then 0
  else if mode =? MODE_OVERSIZED_OUTPUT then U64_MAX else quoted.

(** What TRANSITION and COMMIT record. *)
Definition record_execution (s : RoutedEngineState) (binding : ExecutionBinding)
    (execution_digest : list Z) (amount_out : Z) : engine_result RoutedEngineState :=
  sequence ← ok_or (checked_add 64 (rs_sequence s) 1) SequenceOverflow;
  Ok {| rs_authority := rs_authority s; rs_market := rs_market s; rs_revision := rs_revision s;
        rs_lp_fee_bps := rs_lp_fee_bps s; rs_timing_mode := rs_timing_mode s;
        rs_sequence := sequence; rs_last_intent_digest := xb_intent_digest binding;
        rs_last_phase_context_digest := xb_phase_context_digest binding;
        rs_last_execution_digest := execution_digest; rs_last_amount_out := amount_out;
        rs_last_phase := xb_phase binding; rs_mode := rs_mode s |}.

(** The engine state first, then the opaque accounts: the callback authority is
    not part of the capability closure. *)
Definition observed_descriptors (accounts : EvaluatePhase) (opaque_accounts : list AccountInfo)
    : list CapabilityDescriptor :=
  capability_descriptor (ep_engine_state accounts) :: map capability_descriptor opaque_accounts.

Definition evaluate_phase (w : World) (accounts : EvaluatePhase)
    (opaque_accounts : list AccountInfo) (expected_phase : Z) (wire_request : list Z)
    : engine_result World :=
  request ← map_err (fun _ => InvalidRequestEncoding) (decode_engine_request wire_request);
  let binding := xq_binding request in
  _ ← require_engine (xb_phase binding =? expected_phase) EntrypointPhaseMismatch;
  _ ← require_engine (length opaque_accounts <=? MAX_OPAQUE_ACCOUNTS)%nat TooManyCapabilities;
  _ ← require_engine (Z.of_nat (length opaque_accounts) =? xb_opaque_account_count binding)
        CapabilityCountMismatch;
  _ ← validate_fixed_account_privileges accounts opaque_accounts (xb_phase binding);
  state ← load_engine_state w (ep_engine_state accounts);
  _ ← require_engine (is_supported_mode (rs_mode state)) InvalidMode;
  _ ← require_engine_keys_eq (rs_market state) (xb_market binding) MarketMismatch;
  _ ← require_engine (rs_revision state =? xb_engine_revision binding) RevisionMismatch;
  _ ← map_err (fun _ => EngineInvalidPhaseForTiming)
        (validate_phase_for_timing (rs_timing_mode state) (xb_phase binding));
  _ ← require_engine (rs_sequence state =? xb_pre_sequence binding) SequenceMismatch;
  _ ← authenticate_callback_authority (ep_engine_state accounts) (ep_callback_authority accounts)
        binding;
  observed_capability_hash ← map_err (fun _ => CapabilityHashComputationFailed)
    (compute_capability_hash routed_engine_ID (observed_descriptors accounts opaque_accounts));
  _ ← require_engine (bool_decide (observed_capability_hash = xb_phase_capability_hash binding))
        CapabilityHashMismatch;
  observed_execution_digest ← map_err (fun _ => ExecutionDigestComputationFailed)
    (compute_execution_digest binding);
  _ ← require_engine (bool_decide (observed_execution_digest = xq_execution_digest request))
        EngineExecutionDigestMismatch;
  quote ← quote_exact_in (xb_accounted_input_before binding) (xb_accounted_output_before binding)
    (xb_amount_in binding) (rs_lp_fee_bps state);
  let amount_out := offered (rs_mode state) (cq_amount_out quote) in
  '(w, receipt_sequence) ←
    (if xb_phase binding =? PHASE_PREPARE then Ok (w, rs_sequence state) else
     payload ← map_err (fun _ => InvalidRequestEncoding) (payload_bytes binding);
     w ← maybe_invoke_helper w payload opaque_accounts (ep_engine_state accounts)
       (ep_callback_authority accounts);
     state' ← record_execution state binding (xq_execution_digest request) amount_out;
     w ← store_engine_state w (ep_engine_state accounts) state';
     if (rs_mode state =? MODE_LATE_COMMIT_FAILURE) && (xb_phase binding =? PHASE_COMMIT)
     then Err DeliberateLateCommitFailure
     else Ok (w, rs_sequence state'));
  emit_receipt w (rs_mode state) {|
    xr_phase := xb_phase binding; xr_intent_digest := xb_intent_digest binding;
    xr_execution_digest := xq_execution_digest request; xr_amount_out := amount_out;
    xr_state_sequence := receipt_sequence |}.

(** [transition], [prepare] and [commit]: the evaluator at their phase. *)
Definition phase_handler (phase : Z) : Handler := fun w accounts args =>
  match accounts with
  | engine_state :: callback_authority :: opaque_accounts =>
      _ ← require_engine (ENGINE_REQUEST_LEN <=? length args)%nat EngineConstraint;
      evaluate_phase w
        {| ep_engine_state := engine_state; ep_callback_authority := callback_authority |}
        opaque_accounts phase (take ENGINE_REQUEST_LEN args)
  | _ => Err EngineConstraint
  end.
Definition transition : Handler := phase_handler PHASE_TRANSITION.
Definition prepare : Handler := phase_handler PHASE_PREPARE.
Definition commit : Handler := phase_handler PHASE_COMMIT.
End Engine.

(** ** What a run of the engine does *)

Definition routed_state_wf (s : RoutedEngineState) : Prop :=
  is_u64 (rs_sequence s) /\ is_u16 (rs_lp_fee_bps s).

Definition answering_modes : list Z :=
  [MODE_ACCEPT; MODE_ZERO_OUTPUT; MODE_OVERSIZED_OUTPUT; MODE_LATE_COMMIT_FAILURE].

Lemma emit_receipt_accounts w mode r w' :
  emit_receipt w mode r = Ok w' -> w_accounts w' = w_accounts w.
Proof.
  unfold emit_receipt. intros He.
  repeat (case_match; inv_engine; try discriminate; try done).
Qed.

(** What decodes was encoded from what it decodes to. *)
Lemma reencoded_receipt r rc bytes :
  engine_receipt_wf r -> encode_receipt r = Ok bytes -> decode_receipt bytes = Ok rc -> rc = r.
Proof.
  intros Hwf [Hok <-]%encode_receipt_layout Hdec; [|done].
  rewrite (proj2 (decode_receipt_layout _ r (engine_receipt_bytes r Hwf))) in Hdec by done.
  by injection Hdec.
Qed.

(** The length, magic and version of what decodes are those of any receipt. *)
Lemma decoded_receipt_prefix r rc bytes :
  Forall is_u8 bytes -> decode_receipt bytes = Ok rc ->
  length bytes = ENGINE_RECEIPT_LEN /\ take 9 bytes = take 9 (engine_receipt_layout r).
Proof.
  intros Hu [[Hwf _] <-]%decode_receipt_layout; [|done].
  split; [by apply routed_engine_receipt_length | reflexivity].
Qed.

Lemma flipped_prefix_rejected i r rc :
  engine_receipt_wf r -> (i < 9)%nat -> decode_receipt (flip_bit i (engine_receipt_layout r)) <> Ok rc.
Proof.
  intros Hwf Hi [_ Htake]%(decoded_receipt_prefix r);
    [|by apply flip_bit_u8, engine_receipt_bytes].
  apply (flip_bit_prefix i 9 _ Hi) in Htake; [done|].
  rewrite routed_engine_receipt_length by done. unfold ENGINE_RECEIPT_LEN. lia.
Qed.

Lemma flip_bit_digest l : byte_string 32 l -> flip_bit 0 l <> l.
Proof. intros [Hl _] Heq. apply (flip_bit_prefix 0 32 l); [lia | lia | by rewrite Heq]. Qed.

Lemma flip_phase_neq r : xr_phase (flip_phase r) <> xr_phase r.
Proof.
  unfold flip_phase. cbn [xr_phase].
  destruct (Z.eqb_spec (xr_phase r) PHASE_TRANSITION) as [Ht|Ht]; [by rewrite Ht | by intros Heq].
Qed.

Lemma flips_well_formed r :
  engine_receipt_wf r ->
  engine_receipt_wf (flip_intent r) /\ engine_receipt_wf (flip_execution r) /\
  engine_receipt_wf (flip_phase r).
Proof.
  intros [(Hi & (Hx & _)%Forall_cons)%Forall_cons [H2 H3]].
  split_and!; (split; [|split; [done|]]); try done; repeat apply Forall_cons_2; try done;
    try (by apply flip_bit_bytes); try apply Forall_nil_2.
  simpl. by case_match.
Qed.

(** No mode spoils a receipt into one that Core accepts. *)
Lemma emitted_receipt_answering w mode r w' bytes rc :
  engine_receipt_wf r -> (forall b, w_return_data w <> Some (routed_engine_ID, b)) ->
  emit_receipt w mode r = Ok w' ->
  w_return_data w' = Some (routed_engine_ID, bytes) -> decode_receipt bytes = Ok rc ->
  mode ∈ answering_modes /\ rc = r \/ rc = flip_intent r \/ rc = flip_execution r \/ rc = flip_phase r.
Proof.
  intros Hwf Hb He Hret Hdec. destruct (flips_well_formed r Hwf) as (Hi & Hx & Hp). unfold emit_receipt in He.
  destruct (mode =? MODE_MISSING_RECEIPT); [apply Ok_inj in He as <-; by destruct (Hb bytes)|].
  apply bind_Ok in He as (encoded & Henc%map_err_Ok & He).
  pose proof Henc as [_ <-]%encode_receipt_layout; [|done].
  pose proof (engine_receipt_bytes r Hwf) as Hu8. pose proof (routed_engine_receipt_length r Hwf) as Hlen.
  assert (forall data, Some (routed_engine_ID, data) = Some (routed_engine_ID, bytes) -> data = bytes)
    as Hbytes by congruence.
  destruct (existsb _ _) eqn:E.
  { apply existsb_exists in E as (m & Hm & ->%Z.eqb_eq). apply Ok_inj in He as <-.
    apply Hbytes in Hret as <-. left. split; [by apply list_elem_of_In | by eapply reencoded_receipt]. }
  clear E. repeat case_match; try discriminate He;
    first [apply Ok_inj in He as <- | apply bind_Ok in He as (wrong & Hwrong%map_err_Ok & <-%Ok_inj)];
    apply Hbytes in Hret as <-; clear Hbytes;
    try (right; first [left; by eapply reencoded_receipt | right; left; by eapply reencoded_receipt
      | right; right; by eapply reencoded_receipt]);
    exfalso; try (eapply flipped_prefix_rejected; [exact Hwf | | exact Hdec]; lia).
  - apply (decoded_receipt_prefix r) in Hdec as [Hl _]; [|by apply Forall_take].
    rewrite length_take, Hlen in Hl. discriminate Hl.
  - apply (decoded_receipt_prefix r) in Hdec as [Hl _];
      [|apply Forall_app; split; [done | decide_closed]].
    rewrite length_app, Hlen in Hl. discriminate Hl.
Qed.

(** The receipts Core accepts are the honest ones: of this phase, intent and
    execution, in a mode that does not spoil the encoding. *)
Lemma routed_accepted_receipt w mode r w' bytes rc :
  engine_receipt_wf r -> (forall b, w_return_data w <> Some (routed_engine_ID, b)) ->
  emit_receipt w mode r = Ok w' ->
  w_return_data w' = Some (routed_engine_ID, bytes) -> decode_receipt bytes = Ok rc ->
  xr_phase rc = xr_phase r -> xr_intent_digest rc = xr_intent_digest r ->
  xr_execution_digest rc = xr_execution_digest r ->
  mode ∈ answering_modes /\ rc = r.
Proof.
  intros Hwf Hb He Hret Hdec Hp Hi Hx.
  pose proof Hwf as [(Hwi & (Hwx & _)%Forall_cons)%Forall_cons _].
  destruct (emitted_receipt_answering _ _ _ _ _ _ Hwf Hb He Hret Hdec) as [?|[->|[->| ->]]]; [done| | |].
  - by apply flip_bit_digest in Hi.
  - by apply flip_bit_digest in Hx.
  - by apply flip_phase_neq in Hp.
Qed.

Section Run.
Context `{Runtime} (cpi : Cpi).

(** A successful run of the entrypoint of [phase]. [w1] is the world after the
    helper, [w2] the one the receipt is emitted in. *)
Record PhaseRun (phase : Z) (w : World) (accounts : list AccountInfo) (args : list Z) (w' : World)
    (state callback : AccountInfo) (opaque : list AccountInfo) (s : RoutedEngineState)
    (request : EngineRequest) (q : CpmmQuote) (w1 w2 : World) : Prop := {
  ph_accounts : accounts = state :: callback :: opaque;
  ph_request : decode_engine_request (take ENGINE_REQUEST_LEN args) = Ok request;
  ph_phase : xb_phase (xq_binding request) = phase;
  ph_count : Z.of_nat (length opaque) = xb_opaque_account_count (xq_binding request);
  ph_privileges : validate_fixed_account_privileges
    {| ep_engine_state := state; ep_callback_authority := callback |} opaque phase = Ok tt;
  ph_loaded : routed_state_at w (ai_key state) = Some s;
  ph_owner : ai_owner state = routed_engine_ID;
  ph_market : rs_market s = xb_market (xq_binding request);
  ph_revision : rs_revision s = xb_engine_revision (xq_binding request);
  ph_timing : validate_phase_for_timing (rs_timing_mode s) phase = Ok tt;
  ph_sequence : rs_sequence s = xb_pre_sequence (xq_binding request);
  ph_callback : ai_key callback = expected_callback (ai_key state) (xq_binding request);
  ph_closure : compute_capability_hash routed_engine_ID
    (observed_descriptors {| ep_engine_state := state; ep_callback_authority := callback |} opaque) =
    Ok (xb_phase_capability_hash (xq_binding request));
  ph_quote : quote_exact_in (xb_accounted_input_before (xq_binding request))
    (xb_accounted_output_before (xq_binding request)) (xb_amount_in (xq_binding request))
    (rs_lp_fee_bps s) = Ok q;
  ph_effect : (phase = PHASE_PREPARE /\ w1 = w /\ w2 = w) \/
    (phase <> PHASE_PREPARE /\
     (exists payload, payload_bytes (xq_binding request) = Ok payload /\
        maybe_invoke_helper cpi w payload opaque state callback = Ok w1) /\
     is_Some (routed_state_at w1 (ai_key state)) /\
     (exists s', record_execution s (xq_binding request) (xq_execution_digest request)
          (offered (rs_mode s) (cq_amount_out q)) = Ok s' /\
        w2 = store w1 (ai_key state) (OtherProgramData (RoutedEngineData s'))) /\
     (rs_mode s = MODE_LATE_COMMIT_FAILURE -> phase <> PHASE_COMMIT));
  ph_receipt : emit_receipt w2 (rs_mode s) {|
    xr_phase := phase; xr_intent_digest := xb_intent_digest (xq_binding request);
    xr_execution_digest := xq_execution_digest request;
    xr_amount_out := offered (rs_mode s) (cq_amount_out q);
    xr_state_sequence := rs_sequence s + (if phase =? PHASE_PREPARE then 0 else 1) |} = Ok w' }.

Lemma record_execution_Ok s b d out s' :
  record_execution s b d out = Ok s' -> rs_sequence s + 1 < 2 ^ 64 /\ rs_sequence s' = rs_sequence s + 1.
Proof. unfold record_execution. intros Hr. inv_engine. inv_checked. subst. by split. Qed.

Lemma record_execution_fields s b d out s' :
  record_execution s b d out = Ok s' ->
  rs_sequence s' = rs_sequence s + 1 /\ rs_mode s' = rs_mode s /\
  rs_last_amount_out s' = out /\ rs_last_intent_digest s' = xb_intent_digest b /\
  rs_last_phase_context_digest s' = xb_phase_context_digest b /\
  rs_last_execution_digest s' = d /\ rs_last_phase s' = xb_phase b.
Proof. unfold record_execution. intros Hr. inv_engine. inv_checked. subst. by split_and!. Qed.

(** Assembles a [PhaseRun] but for its effect and its receipt. *)
Local Ltac phase_run :=
  constructor;
    [reflexivity | eassumption | reflexivity | eassumption | eassumption | eassumption |
     eassumption | eassumption | eassumption | eassumption | eassumption |
     symmetry; eassumption | eassumption | eassumption | | ].

Lemma phase_handler_Ok phase w accounts args w' :
  phase_handler cpi phase w accounts args = Ok w' ->
  exists state callback opaque s request q w1 w2,
    PhaseRun phase w accounts args w' state callback opaque s request q w1 w2.
Proof.
  unfold phase_handler. intros Hh.
  destruct accounts as [|state [|callback opaque]]; [discriminate..|].
  apply bind_Ok in Hh as (? & _ & Hh). unfold evaluate_phase in Hh.
  inv_engine.
  match goal with p : World * Z |- _ => destruct p as [w2 n] end.
  unfold load_engine_state, authenticate_callback_authority in *. inv_engine. to_prop.
  cbn [ep_engine_state ep_callback_authority] in *. subst.
  match goal with H : (if _ then _ else _) = Ok (w2, n) |- _ => rename H into Heff end.
  destruct (Z.eqb_spec (xb_phase (xq_binding r)) PHASE_PREPARE) as [Hp|Hp].
  - injection Heff as <- <-. do 6 eexists. exists w, w. phase_run.
    + by left.
    + rewrite Hp in *. rewrite Z.eqb_refl, Z.add_0_r. exact Hh.
  - apply bind_Ok in Heff as (payload & Hpay%map_err_Ok & Heff).
    apply bind_Ok in Heff as (w1 & Hhelp & Heff). apply bind_Ok in Heff as (s' & Hrec & Heff).
    apply bind_Ok in Heff as (w3 & Hst & Heff). unfold store_engine_state in Hst. inv_engine.
    destruct (_ && _) eqn:El; [discriminate|]. inv_engine.
    pose proof (record_execution_Ok _ _ _ _ _ Hrec) as [_ Hsq].
    do 6 eexists. exists w1. eexists. phase_run.
    + right. split; [done|]. split; [eauto|]. split; [eauto|]. split; [eauto|]. intros Hl Hc.
      rewrite Hl, Hc in El. discriminate El.
    + rewrite (proj2 (Z.eqb_neq _ _) Hp), <- Hsq. exact Hh.
Qed.

Lemma emit_receipt_supported w mode r w' :
  emit_receipt w mode r = Ok w' -> is_supported_mode mode = true.
Proof.
  unfold emit_receipt, is_supported_mode. intros He.
  destruct (mode =? MODE_MISSING_RECEIPT) eqn:E1; [cbn [existsb]; by rewrite E1, orb_true_r|].
  apply bind_Ok in He as (encoded & _ & He). apply existsb_exists.
  destruct (existsb _ _) eqn:E.
  - apply existsb_exists in E as (m & Hm & Heq). exists m. split; [|done]. simpl in *. tauto.
  - repeat (match type of He with (if ?b then _ else _) = Ok _ => destruct b eqn:? end;
      [eexists; split; [|eassumption]; simpl; tauto|]). discriminate.
Qed.

(** A decoded request passed the checks the engine repeats. *)
Lemma decoded_request_facts args request :
  decode_engine_request (take ENGINE_REQUEST_LEN args) = Ok request ->
  (ENGINE_REQUEST_LEN <= length args)%nat /\
  xb_opaque_account_count (xq_binding request) <= Z.of_nat MAX_OPAQUE_ACCOUNTS /\
  compute_execution_digest (xq_binding request) = Ok (xq_execution_digest request).
Proof.
  unfold decode_engine_request. intros (? & Hl%require_length_Ok & (b & Hb & Hd)%bind_Ok)%bind_Ok.
  apply bind_Ok in Hd as (u & Hv & <-%Ok_inj).
  unfold validate_engine_request in Hv. apply bind_Ok in Hv as (d & Hd & Hr%require_Ok). to_prop.
  subst d. cbn [xq_binding xq_execution_digest] in *. split_and!; [|clear Hd|done].
  - rewrite length_take in Hl. lia.
  - unfold decode_execution_binding in Hb. apply bind_Ok in Hb as (b' & _ & Hb).
    apply bind_Ok in Hb as (u' & Hv & <-%Ok_inj). unfold validate_execution_binding in Hv.
    inv_ok. unfold validate_payload_fields, validate_opaque_account_count in Hv. inv_ok.
    destruct (Z.ltb_spec (Z.of_nat MAX_OPAQUE_ACCOUNTS) (xb_opaque_account_count b')); [|done].
    discriminate.
Qed.

(** What the helper's counter gains, if the payload names the helper: the key
    that may increment it is Core's callback PDA of this phase. *)
Lemma routed_helper_Ok w payload opaque state callback w' :
  Forall is_u8 payload ->
  runs cpi CallbackProbe.ID HELPER_INCREMENT_DISCRIMINATOR CallbackProbe.increment_handler ->
  maybe_invoke_helper cpi w payload opaque state callback = Ok w' ->
  (names_helper payload = false /\ w' = w) \/
  exists program helper rest hs amount bytes,
    names_helper payload = true /\ opaque = program :: helper :: rest /\
    helper_amount payload = Ok amount /\ ai_owner helper = CallbackProbe.ID /\
    CallbackProbe.state_at w (ai_key helper) = Some hs /\ hs_authority hs = ai_key callback /\
    ai_key helper <> ai_key state /\
    w_accounts w' = <[ai_key helper := OtherProgramData (CallbackHelperData
      (with_counters hs (hs_calls hs + 1) (hs_value hs + amount)))]> (w_accounts w) /\
    w_return_data w' = Some (CallbackProbe.ID, bytes).
Proof.
  intros Hu8 Hruns. unfold maybe_invoke_helper.
  destruct (names_helper payload) eqn:En; cbn [negb]; intros Hm; [right|left].
  2: { split; [done|]. by apply Ok_inj in Hm. }
  apply bind_Ok in Hm as (u & _ & Hm). destruct opaque as [|program [|helper rest]]; [discriminate..|].
  unfold validate_helper_prefix in Hm. inv_engine. to_prop.
  match goal with H : helper_amount _ = Ok ?n |- _ => rename n into amount; rename H into Hamount end.
  match goal with Hp : ai_key program = _ |- _ =>
    pose proof (Hruns w {| ix_program_id := ai_key program; ix_data := helper_increment_data amount |}
      _ _ w' (to_le_bytes 8 amount) Hp eq_refl Hm) as (accounts & w1 & Hacc & Hrun & ->) end.
  apply callee_accounts_keys in Hacc. apply CallbackProbe.callback_increment_Ok in Hrun
    as (st & au & hs & -> & Hst & _ & _ & Hau & _ & _ & _ & _ & Hrun).
  injection Hacc as Kst Kau. rewrite Kst, Kau in *.
  rewrite (helper_amount_read _ (helper_amount_u64 _ _ Hu8 Hamount)) in Hrun.
  destruct Hrun as (_ & _ & _ & Hw & Hr). unfold key_eqb in *. to_prop.
  do 6 eexists. split_and!; try eassumption; try reflexivity; congruence.
Qed.

(** What a successful validation of the privileges grants a mutating phase. *)
Lemma fixed_privileges_Ok accounts opaque phase :
  validate_fixed_account_privileges accounts opaque phase = Ok tt ->
  (phase <> PHASE_PREPARE -> ai_is_writable (ep_engine_state accounts) = true) /\
  (phase = PHASE_PREPARE -> ai_is_writable (ep_engine_state accounts) = false) /\
  ai_is_signer (ep_callback_authority accounts) = true /\
  ai_is_writable (ep_callback_authority accounts) = false.
Proof.
  unfold validate_fixed_account_privileges. intros Hv. inv_engine. to_prop.
  destruct (Z.eqb_spec phase PHASE_PREPARE); [by inv_engine; to_prop; split_and!|].
  destruct (_ || _); [by inv_engine; split_and! | discriminate].
Qed.

(** An entrypoint succeeds in exactly the runs [PhaseRun] describes: none of the
    repeated checks decides. EnginePhases spells the runs out. *)
Lemma phase_handler_iff phase w accounts args w' :
  phase_handler cpi phase w accounts args = Ok w' <->
  exists state callback opaque s request q w1 w2,
    PhaseRun phase w accounts args w' state callback opaque s request q w1 w2.
Proof.
  split; [apply phase_handler_Ok|]. intros (state & cb & opaque & s & request & q & w1 & w2 & Hrun).
  destruct Hrun as [-> Hreq Hphase Hcount Hpriv Hload Howner Hmarket Hrev Htiming Hseq Hcb Hclosure
    Hquote Heffect Hreceipt].
  destruct (decoded_request_facts _ _ Hreq) as (Hlen & Hmax & Hdigest).
  pose proof (emit_receipt_supported _ _ _ _ Hreceipt) as Hmode.
  destruct (fixed_privileges_Ok _ _ _ Hpriv) as (Hwritable & _). cbn [ep_engine_state] in Hwritable.
  unfold phase_handler, require_engine. rewrite (proj2 (Nat.leb_le _ _) Hlen).
  cbn [require]. rewrite bind_ret_l.
  unfold evaluate_phase, load_engine_state, authenticate_callback_authority, require_engine,
    require_engine_keys_eq. cbn [ep_engine_state ep_callback_authority].
  rewrite Hreq. cbn [map_err]. rewrite bind_ret_l, Hphase, Z.eqb_refl.
  assert (length opaque <= MAX_OPAQUE_ACCOUNTS)%nat as Hopaque by lia.
  rewrite (proj2 (Nat.leb_le _ _) Hopaque), Hcount, Z.eqb_refl.
  cbn [require]. rewrite !bind_ret_l, Hpriv, bind_ret_l, Howner, Hload, key_eqb_refl.
  cbn [require ok_or]. rewrite !bind_ret_l, Hmode, Hmarket, Hrev, Hseq, key_eqb_refl, !Z.eqb_refl.
  cbn [require]. rewrite !bind_ret_l, Htiming. cbn [map_err].
  rewrite !bind_ret_l, <- Hcb, key_eqb_refl. cbn [require]. rewrite !bind_ret_l.
  rewrite Hclosure. cbn [map_err]. rewrite bind_ret_l, bool_decide_eq_true_2 by done.
  cbn [require]. rewrite bind_ret_l, Hdigest. cbn [map_err].
  rewrite bind_ret_l, bool_decide_eq_true_2 by done. cbn [require].
  rewrite bind_ret_l, Hquote, bind_ret_l, <- Hseq.
  destruct Heffect as [(Hp & -> & ->)|(Hp & (payload & Hpay & Hhelper) & [s1 Hs1] & (s' & Hrec & ->) & Hlate)].
  - rewrite Hp in *. rewrite Z.eqb_refl in *. rewrite bind_ret_l. by rewrite Z.add_0_r in Hreceipt.
  - rewrite (proj2 (Z.eqb_neq _ _) Hp) in *. rewrite Hpay. cbn [map_err].
    rewrite bind_ret_l, Hhelper, bind_ret_l, Hrec, bind_ret_l.
    unfold store_engine_state, require_engine, require_engine_keys_eq.
    rewrite Hwritable, Howner, key_eqb_refl, Hs1 by done. cbn [require ok_or]. rewrite !bind_ret_l.
    pose proof (record_execution_Ok _ _ _ _ _ Hrec) as [_ Hsq]. rewrite Hsq.
    destruct ((rs_mode s =? MODE_LATE_COMMIT_FAILURE) && (phase =? PHASE_COMMIT)) eqn:El.
    { apply andb_true_iff in El as [Hl%Z.eqb_eq Hc%Z.eqb_eq]. by apply Hlate in Hl. }
    by rewrite bind_ret_l.
Qed.
End Run.
