(* ===== verification/RoutedClosedLoop.v ===== *)
(** * routed-callback-auth: the core and its engine together

    What a successful execution means when the market's engine is
    routed-plan-engine: the settled output is its quote, in every timing mode,
    and the closure it checks is the closure Core hashed. *)
From S2P Require Import Prelude Codec CoreState EngineState Solana ReferenceRuntime FeeMath Validation.
From S2P Require Import EngineFrame Helpers Capability Cpmm RoutedWire Settlement RoutedAuthorize.
From S2P Require Import RoutedExecute RoutedProperties RoutedEngine.

(** The ranges the types of the source give the inputs of an execution. *)
Definition execution_input_wf (e : Envelope) (args : ExecuteCallbackAuthenticatedProbeV0Args)
    : Prop :=
  Forall (byte_string 32) [key (ev_market e); key (ev_domain e)] /\
  Forall is_u64
    [m_engine_revision (acc_data (ev_market e)); ra_amount_in args;
     d_accounted_a (acc_data (ev_domain e)); d_accounted_b (acc_data (ev_domain e));
     fl_accounted_fee_a (acc_data (ev_fee_ledger e)); ra_expected_engine_sequence args] /\
  Forall is_u8 (ra_opaque_payload args).
#[export] Instance execution_input_wf_dec e args : Decision (execution_input_wf e args).
Proof. unfold execution_input_wf. apply _. Defined.

Section ClosedLoop.
Context `{Runtime} {C : CoreConfig} (cpi : Cpi).

(** The runtime runs the engine's three entrypoints. *)
Definition runs_engine : Prop :=
  forall phase discriminator,
    engine_phase_discriminator phase = Ok discriminator ->
    runs invoke_signed routed_engine_ID discriminator (phase_handler cpi phase).

(** ** The requests Core builds are well formed *)

Lemma build_engine_request_fields e args fee d phase context pre cap pcap n request :
  build_engine_request e args fee d phase context pre cap pcap n = Ok request ->
  let b := xq_binding request in
  xb_phase b = phase /\ xb_intent_digest b = d /\ xb_phase_context_digest b = context /\
  xb_market b = key (ev_market e) /\ xb_domain b = key (ev_domain e) /\
  xb_engine_revision b = m_engine_revision (acc_data (ev_market e)) /\
  xb_amount_in b = ra_amount_in args /\
  xb_accounted_input_before b = d_accounted_a (acc_data (ev_domain e)) /\
  xb_accounted_output_before b = d_accounted_b (acc_data (ev_domain e)) /\
  xb_pre_sequence b = pre /\ xb_phase_capability_hash b = pcap.
Proof.
  unfold build_engine_request, wire, new_execution_binding, new_engine_request. intros Hb.
  inv_guarded. match goal with H : canonical_payload _ = Ok ?r |- _ => destruct r end.
  inv_guarded. by split_and!.
Qed.

Lemma build_engine_request_wf e args fee d phase context pre cap pcap n request :
  sha256_output -> execution_input_wf e args -> is_u64 fee -> is_u64 pre ->
  byte_string 32 d -> byte_string 32 context -> byte_string 32 cap -> byte_string 32 pcap ->
  build_engine_request e args fee d phase context pre cap pcap n = Ok request ->
  engine_request_wf request.
Proof.
  intros Hsha (Hk & Hu & Hp) Hfee Hpre Hd Hc Hcap Hpcap.
  unfold build_engine_request, wire, new_execution_binding, new_engine_request. intros Hb.
  inv_guarded. match goal with H : canonical_payload _ = Ok ?r |- _ => destruct r as [len padded] end.
  inv_guarded. inv_checked. unpack.
  match goal with H : canonical_payload _ = _ |- _ =>
    apply canonical_payload_Ok in H as (-> & Hlen & Hpad & _ & _ & Hu8) end.
  destruct (routed_digest_bytes Hsha) as (_ & _ & Hexec & _). split; [|by eapply Hexec].
  assert (is_u8 phase) as Hphase.
  { match goal with H : require_phase phase = _ |- _ => unfold require_phase in H end.
    unfold in_width. destruct (Z.eqb_spec phase PHASE_TRANSITION) as [->|]; [done|].
    destruct (Z.eqb_spec phase PHASE_PREPARE) as [->|]; [done|].
    by destruct (Z.eqb_spec phase PHASE_COMMIT) as [->|]. }
  assert (is_u16 (Z.of_nat (length (ra_opaque_payload args)))).
  { unfold in_width, MAX_OPAQUE_PAYLOAD_LEN in *. lia. }
  cbn [xq_binding]. unfold execution_binding_wf. simpl.
  split_and!; repeat apply Forall_cons_2; try done; subst; done || (split; [done | auto]).
Qed.

(** ** The engine's side of a phase call *)

Lemma routed_phase_run w e remaining args au phase mode context pre callback request w' receipt :
  runs_engine -> ai_key (ev_engine_program e) = routed_engine_ID ->
  engine_request_wf request ->
  phase_call w e remaining args au phase mode context pre callback request w' receipt ->
  exists accounts state cb opaque s q w1 w2 w3,
    ai_key state = ai_key (ev_engine_state e) /\
    PhaseRun cpi phase (enter w) accounts (engine_request_layout request) w3 state cb opaque s
      request q w1 w2 /\
    w' = leave w w3.
Proof.
  intros Hruns Hid Hwf (h & data & infos & bytes & _ & Hb & Hdata & Hi & _).
  apply build_engine_request_fields in Hb as (Hphase & _).
  apply encode_engine_instruction_layout in Hdata as (Hval & disc & Hdisc & ->); [|done].
  rewrite Hphase in Hdisc.
  pose proof (Hruns phase disc Hdisc _ (phase_instruction e request callback _ _) _ _ _ _ Hid
    eq_refl Hi) as (accounts & w3 & Hacc & Hrun & ->).
  apply callee_accounts_keys in Hacc.
  apply phase_handler_Ok in Hrun as (state & cb & opaque & s & request' & q & w1 & w2 & Hrun).
  pose proof (ph_accounts _ _ _ _ _ _ _ _ _ _ _ _ _ _ Hrun) as ->.
  pose proof (ph_request _ _ _ _ _ _ _ _ _ _ _ _ _ _ Hrun) as Hdec.
  rewrite take_ge, decode_engine_request_ok in Hdec
    by (done || by rewrite routed_engine_request_length).
  apply Ok_inj in Hdec as <-. exists (state :: cb :: opaque), state, cb, opaque, s, q, w1, w2, w3.
  split; [|by split].
  unfold phase_instruction in Hacc. cbn [ix_accounts map] in Hacc. injection Hacc as Hk _.
  rewrite Hk. by destruct (_ =? _).
Qed.

(** Only the entrypoint itself sets return data under the engine's address: the
    helper reports under its own. *)
Lemma phase_run_quiet phase w accounts args w' state cb opaque s request q w1 w2 n b :
  runs cpi CallbackProbe.ID HELPER_INCREMENT_DISCRIMINATOR CallbackProbe.increment_handler ->
  byte_string n (xb_payload (xq_binding request)) -> w_return_data w = None ->
  PhaseRun cpi phase w accounts args w' state cb opaque s request q w1 w2 ->
  w_return_data w2 <> Some (routed_engine_ID, b).
Proof.
  intros Hhelper HP Hw Hrun Hr.
  destruct (ph_effect _ _ _ _ _ _ _ _ _ _ _ _ _ _ Hrun)
    as [(_ & _ & ->)|(_ & (payload & Hpay & Hmi) & _ & (s' & _ & ->) & _)]; [congruence|].
  apply (routed_helper_Ok cpi) in Hmi; [| |exact Hhelper].
  - destruct Hmi as [[_ ->]|(?&?&?&?&?&?&_&_&_&_&_&_&_&_&Hd)]; [simpl in Hr; congruence|].
    simpl in Hr. rewrite Hd in Hr. discriminate Hr.
  - unfold payload_bytes in Hpay. inv_engine. apply Forall_take, HP.
Qed.

Lemma phase_run_sequence phase w accounts args w' state cb opaque s request q w1 w2 :
  is_u64 (rs_sequence s) ->
  PhaseRun cpi phase w accounts args w' state cb opaque s request q w1 w2 ->
  is_u64 (rs_sequence s + (if phase =? PHASE_PREPARE then 0 else 1)).
Proof.
  intros Hs Hrun. destruct (Z.eqb_spec phase PHASE_PREPARE); [by rewrite Z.add_0_r|].
  destruct (ph_effect _ _ _ _ _ _ _ _ _ _ _ _ _ _ Hrun)
    as [(? & _)|(_ & _ & _ & (s' & Hrec & _) & _)]; [done|].
  apply record_execution_Ok in Hrec as [? _]. unfold in_width in *. lia.
Qed.

(** An answer Core accepts was offered in a mode that offers the quote. *)
Lemma acceptable_offer mode amount accounted :
  mode ∈ answering_modes -> 0 < offered mode amount -> offered mode amount <= accounted ->
  accounted < U64_MAX ->
  (mode = MODE_ACCEPT \/ mode = MODE_LATE_COMMIT_FAILURE) /\ offered mode amount = amount.
Proof.
  unfold answering_modes, offered, U64_MAX. rewrite !elem_of_cons.
  intros [-> |[-> |[-> |[-> |Hm]]]] Hpos Hle Hmax; simpl in *;
    [by auto | lia | lia | by auto | by apply not_elem_of_nil in Hm].
Qed.

(** What the engine had offered when Core accepted the receipt of a phase. *)
Lemma routed_phase_accepted w e remaining args au phase mode context pre callback request w'
    receipt accounted_b :
  let k := ai_key (ev_engine_state e) in
  runs_engine ->
  runs cpi CallbackProbe.ID HELPER_INCREMENT_DISCRIMINATOR CallbackProbe.increment_handler ->
  ai_key (ev_engine_program e) = routed_engine_ID -> engine_request_wf request ->
  (forall s, routed_state_at w k = Some s -> routed_state_wf s) ->
  phase_call w e remaining args au phase mode context pre callback request w' receipt ->
  0 < xr_amount_out receipt -> xr_amount_out receipt <= accounted_b -> accounted_b < U64_MAX ->
  exists s q,
    routed_state_at w k = Some s /\
    (rs_mode s = MODE_ACCEPT \/ rs_mode s = MODE_LATE_COMMIT_FAILURE /\ phase <> PHASE_COMMIT) /\
    rs_market s = key (ev_market e) /\
    rs_revision s = m_engine_revision (acc_data (ev_market e)) /\
    validate_phase_for_timing (rs_timing_mode s) phase = Ok tt /\ rs_sequence s = pre /\
    quote_exact_in (d_accounted_a (acc_data (ev_domain e))) (d_accounted_b (acc_data (ev_domain e)))
      (ra_amount_in args) (rs_lp_fee_bps s) = Ok q /\
    xr_amount_out receipt = cq_amount_out q /\
    (phase = PHASE_PREPARE -> w_accounts w' = w_accounts w) /\
    (phase <> PHASE_PREPARE -> exists s',
       record_execution s (xq_binding request) (xq_execution_digest request) (cq_amount_out q) =
         Ok s' /\
       routed_state_at w' k = Some s').
Proof.
  intros k Hruns Hhelper Hid Hwf Hst Hcall Hpos Hle Hmax.
  destruct (routed_phase_run _ _ _ _ _ _ _ _ _ _ _ _ _ Hruns Hid Hwf Hcall)
    as (accounts & state & cb & opaque & s & q & w1 & w2 & w3 & Hk & Hrun & ->).
  destruct Hcall as (h & data & infos & bytes & _ & Hb & _ & _ & Hret & Hdec & Hp & Hi & Hx).
  apply build_engine_request_fields in Hb
    as (Bp & Bi & Bc & Bm & Bd & Br & Ba & Bx & By & Bs & Bh).
  pose proof Hrun as []. rewrite Hk in *. change (routed_state_at w k = Some s) in ph_loaded.
  pose proof (Hst s ph_loaded) as [Hseq Hfee].
  pose proof (phase_run_sequence _ _ _ _ _ _ _ _ _ _ _ _ _ Hseq Hrun) as Hseq1.
  rewrite Bm in ph_market. rewrite Br in ph_revision. rewrite Bs in ph_sequence.
  rewrite Ba, Bx, By in ph_quote. rewrite leave_return_data, Hid in Hret.
  pose proof Hwf as [(HK & HU & _ & HP & HPay) Hxwf]. unpack.
  rewrite Ba, Bx, By, Bp, Bi in *.
  pose proof ph_quote as Hout. apply settled_product in Hout as (_ & _ & Hout); [|done..].
  assert (is_u64 (offered (rs_mode s) (cq_amount_out q))) as Hoff.
  { unfold offered, U64_MAX. repeat case_match; unfold in_width in *; lia. }
  assert (forall b, w_return_data w2 <> Some (routed_engine_ID, b)) as Hnone
    by (intros b; by eapply (phase_run_quiet phase (enter w))).
  apply (fun Hwf => routed_accepted_receipt _ _ _ _ _ _ Hwf Hnone ph_receipt Hret Hdec) in Hp
    as [Hm Hrc]; [| by repeat split; repeat apply Forall_cons_2 | simpl; congruence..].
  destruct (acceptable_offer (rs_mode s) (cq_amount_out q) accounted_b) as [Hmode Hoffered];
    [done | by rewrite Hrc in Hpos | by rewrite Hrc in Hle | done|].
  rewrite Hoffered in *. exists s, q. apply emit_receipt_accounts in ph_receipt as Hacc.
  split_and!; try done.
  - destruct Hmode as [?|Hl]; [by left|right]. split; [done|].
    destruct ph_effect as [(-> & _)|(_ & _ & _ & _ & Hlate)]; [done | auto].
  - by rewrite Hrc.
  - intros ->. rewrite leave_accounts, Hacc. by destruct ph_effect as [(_ & _ & ->)|[? _]].
  - intros Hp. destruct ph_effect as [[? _]|(_ & _ & _ & (s' & Hrec & ->) & _)]; [done|].
    exists s'. split; [done|]. unfold routed_state_at, program_data_at.
    rewrite leave_accounts, Hacc. simpl. by rewrite lookup_insert_eq.
Qed.

(** ** The inputs of the requests of an execution *)

Lemma phase_request_wf w e remaining args au phase mode context pre callback request w' receipt :
  sha256_output -> execution_input_wf e args -> is_u64 (au_protocol_fee au) -> is_u64 pre ->
  byte_string 32 (au_intent_digest au) -> byte_string 32 (au_capability_hash au) ->
  byte_string 32 context ->
  phase_call w e remaining args au phase mode context pre callback request w' receipt ->
  engine_request_wf request.
Proof.
  intros Hsha Hin Hfee Hpre Hd Hcap Hc (h & data & infos & bytes & Hh & Hb & _).
  exact (build_engine_request_wf _ _ _ _ _ _ _ _ _ _ _ Hsha Hin Hfee Hpre Hd Hc Hcap
    (proj1 (routed_digest_bytes Hsha) _ _ _ Hh) Hb).
Qed.

Lemma same_accounts_input_wf e e2 args :
  same_accounts e e2 -> execution_input_wf e args -> execution_input_wf e2 args.
Proof.
  intros (Em & Ed & El & _). unfold execution_input_wf, key. by rewrite Em, Ed, El.
Qed.

Lemma timing_of_phase mode phase timing_mode :
  primary_phase mode = Ok phase -> validate_phase_for_timing timing_mode phase = Ok tt ->
  timing_mode = mode.
Proof.
  intros Hp. unfold validate_phase_for_timing, require_timing_mode. intros Hv.
  apply bind_Ok in Hv as (u & Hr & Hv).
  destruct (Z.eqb_spec timing_mode TIMING_SINGLE) as [->|].
  - apply primary_phase_Ok in Hp as [[-> ->]|[-> ->]]; done.
  - destruct (Z.eqb_spec timing_mode TIMING_PREPARE_COMMIT) as [->|]; [|done].
    apply primary_phase_Ok in Hp as [[-> ->]|[-> ->]]; done.
Qed.

Lemma authorization_bytes a remaining args phase au :
  sha256_output -> execution_input_wf (re_env a) args ->
  routed_authorization a remaining args phase = Ok au ->
  is_u64 (au_protocol_fee au) /\ byte_string 32 (au_intent_digest au) /\
  byte_string 32 (au_capability_hash au).
Proof.
  intros Hsha (_ & Hu & _) ((Hfee & -> & Hlt & _) & _ & _ & _ & Hcap & _ & _ & Hd & _)%routed_authorization_Ok.
  destruct (routed_digest_bytes Hsha) as (Hcaps & Hints & _). split_and!; eauto.
  apply fee_ceil_covers in Hfee as [? _]. unpack. unfold in_width in *. lia.
Qed.

Lemma routed_state_not_settled a :
  NoDup (routed_fixed_keys a) ->
  ai_key (ev_engine_state (re_env a)) ∉ settlement_keys (re_env a).
Proof.
  intros (_ & Hd & _)%routed_settlement_keys%NoDup_app Hin. apply (Hd _ Hin).
  by apply list_elem_of_singleton.
Qed.

Lemma routed_state_same w w' k :
  w_accounts w' !! k = w_accounts w !! k -> routed_state_at w' k = routed_state_at w k.
Proof. intros He. unfold routed_state_at, program_data_at. by rewrite He. Qed.

(** What the engine of a settled market recorded. *)
Definition recorded (s s' : RoutedEngineState) (ev : CallbackAuthenticatedProbeExecutedV0)
    (timing_mode : Z) : Prop :=
  rs_sequence s' = rs_sequence s + 1 /\ rs_last_amount_out s' = cx_amount_out ev /\
  rs_last_intent_digest s' = cx_intent_digest ev /\
  rs_last_phase_context_digest s' =
    (if timing_mode =? TIMING_SINGLE then replicate 32 0 else cx_settlement_digest ev) /\
  rs_last_phase s' = (if timing_mode =? TIMING_SINGLE then PHASE_TRANSITION else PHASE_COMMIT).

Section Execution.
Context (w : World) (a : ExecuteCallbackAuthenticatedProbeV0) (remaining : list AccountInfo)
  (args : ExecuteCallbackAuthenticatedProbeV0Args) (w' : World)
  (ev : CallbackAuthenticatedProbeExecutedV0) (phase : Z) (au : AuthorizedExecution)
  (w1 : World) (pe : PrimaryExecution) (st : AcceptedSettlement) (w2 : World) (e2 : Envelope)
  (sd : list Z) (w3 : World) (ce : CommitExecution)
  (Hrun : RoutedRun w a remaining args w' ev phase au w1 pe st w2 e2 sd w3 ce)
  (Hframe : transfer_frame) (Hsha : sha256_output) (Hruns : runs_engine)
  (Hhelper : runs cpi CallbackProbe.ID HELPER_INCREMENT_DISCRIMINATOR
     CallbackProbe.increment_handler)
  (Hid : ai_key (ev_engine_program (re_env a)) = routed_engine_ID)
  (Hin : execution_input_wf (re_env a) args)
  (Hst : forall s, routed_state_at w (ai_key (ev_engine_state (re_env a))) = Some s ->
     routed_state_wf s)
  (Hmax : d_accounted_b (acc_data (ev_domain (re_env a))) < U64_MAX).

Let e := re_env a.
Let k := ai_key (ev_engine_state e).

(** The primary phase. *)
Lemma primary_engine :
  exists s q,
    routed_state_at w k = Some s /\
    (rs_mode s = MODE_ACCEPT \/ rs_mode s = MODE_LATE_COMMIT_FAILURE) /\
    rs_market s = key (ev_market e) /\
    rs_revision s = m_engine_revision (acc_data (ev_market e)) /\
    rs_timing_mode s = ra_timing_mode args /\ rs_sequence s = ra_expected_engine_sequence args /\
    quote_exact_in (d_accounted_a (acc_data (ev_domain e))) (d_accounted_b (acc_data (ev_domain e)))
      (ra_amount_in args) (rs_lp_fee_bps s) = Ok q /\
    cx_amount_out ev = cq_amount_out q /\ xr_amount_out (pe_receipt pe) = cq_amount_out q /\
    0 < cq_amount_out q <= d_accounted_b (acc_data (ev_domain e)) /\
    (ra_timing_mode args = TIMING_PREPARE_COMMIT ->
       w_accounts w1 = w_accounts w /\
       xr_state_sequence (pe_receipt pe) = ra_expected_engine_sequence args) /\
    (ra_timing_mode args = TIMING_SINGLE -> exists s',
       routed_state_at w1 k = Some s' /\ recorded s s' ev (ra_timing_mode args)).
Proof.
  pose proof (routed_authorization_Ok _ _ _ _ _ (rr_authorization _ _ _ _ _ _ _ _ _ _ _ _ _ _ _ _ Hrun))
    as (_ & _ & _ & _ & _ & _ & _ & _ & _ & _ & _ & _ & _ & _ & Ecb & _).
  destruct Hrun. pose proof (authorization_bytes _ _ _ _ _ Hsha Hin rr_authorization)
    as (Hfee & Hd & Hcap).
  apply routed_primary_Ok in rr_primary as (request & Hcall & _ & _ & Hseq & Hpos & _ & Hle);
    [|done].
  assert (is_u64 (ra_expected_engine_sequence args)) as Hpre by (destruct Hin as (_ & ? & _); by unpack).
  assert (byte_string 32 (replicate 32 0)) as Hz by decide_closed.
  pose proof (phase_request_wf _ _ _ _ _ _ _ _ _ _ _ _ _ Hsha Hin Hfee Hpre Hd Hcap Hz Hcall) as Hwf.
  destruct (routed_phase_accepted _ _ _ _ _ _ _ _ _ _ _ _ _ _ Hruns Hhelper Hid Hwf Hst Hcall Hpos
    Hle Hmax) as (s & q & Hs & Hm & Hmk & Hrev & Ht & Hsq & Hq & Ho & Hprep & Htrans).
  pose proof (timing_of_phase _ _ _ rr_phase Ht) as Htm.
  apply accept_settlement_Ok in rr_accept as (_ & _ & Eo & _).
  destruct Hcall as (h & data & infos & bytes & _ & Hb & _).
  apply build_engine_request_fields in Hb as (Bp & Bi & Bc & _).
  exists s, q. split_and!; try done.
  - tauto.
  - by rewrite rr_out, Eo.
  - by rewrite <- Ho.
  - by rewrite <- Ho.
  - intros Hpc. apply primary_phase_Ok in rr_phase as [[Hx _]|[_ ->]]; [by rewrite Hx in Hpc|].
    split; [auto|]. unfold validate_primary_sequence in Hseq. simpl in Hseq. inv_guarded. by to_prop.
  - intros Hsg. apply primary_phase_Ok in rr_phase as [[_ Ep]|[Hx _]]; [|by rewrite Hx in Hsg].
    rewrite Ep in *. destruct (Htrans ltac:(done)) as (s' & Hrec & Hs').
    exists s'. split; [done|]. apply record_execution_fields in Hrec as (F1 & _ & F2 & F3 & F4 & _ & F5).
    unfold recorded. rewrite Hsg, Z.eqb_refl. split_and!; congruence.
Qed.

(** The COMMIT phase of the two-phase mode. *)
Lemma commit_engine s q :
  ra_timing_mode args = TIMING_PREPARE_COMMIT ->
  routed_state_at w k = Some s ->
  (rs_mode s = MODE_ACCEPT \/ rs_mode s = MODE_LATE_COMMIT_FAILURE) ->
  rs_sequence s = ra_expected_engine_sequence args ->
  quote_exact_in (d_accounted_a (acc_data (ev_domain e))) (d_accounted_b (acc_data (ev_domain e)))
    (ra_amount_in args) (rs_lp_fee_bps s) = Ok q ->
  xr_amount_out (pe_receipt pe) = cq_amount_out q -> cx_amount_out ev = cq_amount_out q ->
  0 < cq_amount_out q <= d_accounted_b (acc_data (ev_domain e)) ->
  w_accounts w1 = w_accounts w ->
  xr_state_sequence (pe_receipt pe) = ra_expected_engine_sequence args ->
  rs_mode s = MODE_ACCEPT /\
  exists s', routed_state_at w3 k = Some s' /\ recorded s s' ev (ra_timing_mode args).
Proof.
  intros Hm Hs Hmode Hsq Hq Ho Hev [Hpos Hle] Hprep Hseq.
  pose proof (run_settlement _ _ _ _ _ _ _ _ _ _ _ _ _ _ _ _ Hrun)
    as (_ & _ & _ & _ & _ & _ & Hsame).
  destruct (run_commit _ _ _ _ _ _ _ _ _ _ _ _ _ _ _ _ Hrun Hm)
    as (request & receipt & Hcall & Eo & _).
  destruct Hrun. pose proof (authorization_bytes _ _ _ _ _ Hsha Hin rr_authorization)
    as (Hfee & Hd & Hcap).
  pose proof (same_accounts_input_wf _ _ _ Hsame Hin) as Hin2.
  pose proof Hsame as (_ & Ed & _ & Ep & Es & _).
  assert (routed_state_at w2 k = Some s) as Hs2.
  { apply settle_authenticated_intent_Ok in rr_settle as (Hset & _).
    rewrite (routed_state_same w1), (routed_state_same w); [done | by rewrite Hprep|].
    eapply settle_world_frame; [done | exact Hset|]. by apply routed_state_not_settled. }
  assert (is_u64 (xr_state_sequence (pe_receipt pe))) as Hpre
    by (rewrite Hseq; destruct Hin as (_ & ? & _); by unpack).
  unfold compute_bound_settlement_digest in rr_digest. inv_guarded.
  pose proof (phase_request_wf _ _ _ _ _ _ _ _ _ _ _ _ _ Hsha Hin2 Hfee Hpre Hd Hcap
    (proj2 (proj2 (proj2 (routed_digest_bytes Hsha))) _ _ rr_digest) Hcall) as Hwf.
  assert (ai_key (ev_engine_state e2) = k) as Ek by (unfold k; by rewrite Es).
  rewrite Ho in Eo. rewrite <- Eo in Hpos, Hle. rewrite <- Ek in Hs2 |- *.
  assert (forall s2, routed_state_at w2 (ai_key (ev_engine_state e2)) = Some s2 -> routed_state_wf s2)
    as Hst2 by (intros s2 H2; rewrite Hs2 in H2; injection H2 as <-; by apply Hst).
  destruct (routed_phase_accepted _ _ _ _ _ _ _ _ _ _ _ _ _ _ Hruns Hhelper
    (eq_trans (f_equal ai_key Ep) Hid) Hwf Hst2 Hcall Hpos Hle Hmax)
    as (s2 & q2 & E2 & Hm2 & _ & _ & _ & _ & _ & Ho2 & _ & Htrans).
  rewrite Hs2 in E2. injection E2 as <-.
  split; [by destruct Hm2 as [?|[_ ?]]|]. destruct (Htrans ltac:(done)) as (s' & Hrec & Hs').
  exists s'. split; [done|]. destruct Hcall as (h & data & infos & bytes & _ & Hb & _).
  apply build_engine_request_fields in Hb as (Bp & Bi & Bc & _).
  apply record_execution_fields in Hrec as (F1 & _ & F2 & F3 & F4 & _ & F5).
  unfold recorded. rewrite Hm. cbn -[replicate]. split_and!; congruence.
Qed.
End Execution.

(** ** Properties *)

(** C7. Core and its engine together: when the market's engine is this program
    and the helper behind it the repository's, a successful execution settled
    exactly the constant-product quote of the accounted reserves at the
    engine's fee. The engine was in [MODE_ACCEPT] (or, in the single-phase mode,
    in the mode that only fails COMMIT), configured for the timing mode of the
    execution, at the sequence the user expected; afterwards it is one sequence
    further and has recorded the output, the intent digest and, in the two-phase
    mode, the digest of the settlement Core committed. The product of the
    accounted reserves does not decrease and the output reserve stays positive. *)
Theorem routed_closed_loop w a remaining args w' ev :
  let e := re_env a in
  let k := ai_key (ev_engine_state e) in
  let before := acc_data (ev_domain e) in
  transfer_frame -> sha256_output -> runs_engine ->
  runs cpi CallbackProbe.ID HELPER_INCREMENT_DISCRIMINATOR CallbackProbe.increment_handler ->
  ai_key (ev_engine_program e) = routed_engine_ID ->
  execution_input_wf e args ->
  (forall s, routed_state_at w k = Some s -> routed_state_wf s) ->
  d_accounted_b before < U64_MAX ->
  execute_callback_authenticated_probe w a remaining args = Ok (w', ev) ->
  exists s q s' after,
    routed_state_at w k = Some s /\
    (rs_mode s = MODE_ACCEPT \/
     rs_mode s = MODE_LATE_COMMIT_FAILURE /\ ra_timing_mode args = TIMING_SINGLE) /\
    rs_market s = key (ev_market e) /\
    rs_revision s = m_engine_revision (acc_data (ev_market e)) /\
    rs_timing_mode s = ra_timing_mode args /\ rs_sequence s = ra_expected_engine_sequence args /\
    quote_exact_in (d_accounted_a before) (d_accounted_b before) (ra_amount_in args)
      (rs_lp_fee_bps s) = Ok q /\
    cx_amount_out ev = cq_amount_out q /\
    routed_state_at w' k = Some s' /\ recorded s s' ev (ra_timing_mode args) /\
    domain_at w' (key (ev_domain e)) = Some after /\
    d_accounted_a after * d_accounted_b after >= d_accounted_a before * d_accounted_b before /\
    0 < d_accounted_b after.
Proof.
  intros e k before Hframe Hsha Hruns Hhelper Hid Hin Hst Hmax
    (phase & au & w1 & pe & st & w2 & e2 & sd & w3 & ce & Hrun)%execute_routed_Ok.
  destruct (primary_engine _ _ _ _ _ _ _ _ _ _ _ _ _ _ _ _ Hrun Hsha Hruns Hhelper Hid Hin Hst Hmax)
    as (s & q & Hs & Hmode & Hmk & Hrev & Ht & Hsq & Hq & Ho & Hx & Hb & Hprep & Htrans).
  pose proof (run_settlement _ _ _ _ _ _ _ _ _ _ _ _ _ _ _ _ Hrun)
    as (_ & _ & _ & (d & l & Hd & _ & Hd' & _) & _ & _ & Hsame).
  pose proof (commit_engine _ _ _ _ _ _ _ _ _ _ _ _ _ _ _ _ Hrun Hframe Hsha Hruns Hhelper Hid
    Hin Hst Hmax s q) as Hcommit.
  destruct Hrun. apply envelope_loaded_tokens in rr_loaded as (_ & Hdom & _).
  rewrite Hdom in Hd. injection Hd as <-.
  pose proof (routed_state_not_settled _ rr_roles) as Hk.
  pose proof (exit_frame _ _ w3 (st_post_accounted_a st) (st_post_accounted_b st)
    (st_post_accounted_fee_a st) _ Hsame Hk) as Hexit. rewrite <- rr_exit in Hexit.
  destruct (Hst s Hs) as [_ Hfee]. pose proof Hin as (_ & Hu & _).
  rewrite !Forall_cons in Hu. destruct_and! Hu.
  pose proof Hq as Hprod. apply settled_product in Hprod as (Hprod & Hleft & _); [|done..].
  apply settle_authenticated_intent_Ok in rr_settle as (Hset & _).
  assert ((rs_mode s = MODE_ACCEPT \/
           rs_mode s = MODE_LATE_COMMIT_FAILURE /\ ra_timing_mode args = TIMING_SINGLE) /\
    exists s', routed_state_at w3 k = Some s' /\ recorded s s' ev (ra_timing_mode args))
    as [Hmode' (s' & Hs' & Hrec)].
  { apply primary_phase_Ok in rr_phase as [[Hm _]|[Hm _]].
    - destruct rr_commit as [[Hm' _]|(_ & -> & _)]; [by rewrite Hm in Hm'|].
      split; [tauto|]. destruct (Htrans Hm) as (s' & Hs' & Hr). exists s'. split; [|done].
      rewrite (routed_state_same w1); [done|]. eapply settle_world_frame; eauto.
    - destruct (Hprep Hm) as [Hacc Hseq].
      destruct (Hcommit Hm Hs Hmode Hsq Hq Hx Ho Hb Hacc Hseq) as [? Hs']. split; [by left | done]. }
  exists s, q, s'. eexists. split_and!; try eassumption.
  - by rewrite (routed_state_same w3).
  - cbn [set_accounted_a set_accounted_b d_accounted_a d_accounted_b]. by rewrite Ho.
  - cbn [set_accounted_a set_accounted_b d_accounted_a d_accounted_b]. by rewrite Ho.
Qed.
End ClosedLoop.

(** ** The closure

    The opaque part of the descriptors of either mode. *)
Definition grants_writable (mode : CapabilityMode) : bool :=
  match mode with Authorized => true | ReadOnly => false end.
Lemma routed_granted state remaining mode :
  tail (capability_descriptors state (map (opaque_descriptor remaining) remaining) mode) =
  map (granted (grants_writable mode) remaining) remaining.
Proof.
  unfold capability_descriptors. cbn [tail]. rewrite map_map. apply map_ext. intros a.
  by destruct mode.
Qed.

(** The closure the engine checks is the closure Core hashed, in every
    phase: for any opaque accounts that pass Core's validation, the descriptors
    of the accounts the runtime hands the engine, the callback left out, are in
    order the descriptors Core hashed for the phase's mode, privileges united
    over repeated keys and demoted to read-only in PREPARE; so an honest call
    never fails the engine's capability check. *)
Theorem routed_closure_observed `{Runtime} {C : CoreConfig} e remaining fixed opaque request callback
    mode data infos state cb rest :
  let metas := tail (capability_descriptors (ev_engine_state e) opaque mode) in
  ai_key (ev_engine_state e) ∈ fixed -> ai_key callback ∈ fixed ->
  ai_key (ev_engine_state e) <> ai_key callback ->
  consistent_infos remaining -> ai_executable (ev_engine_state e) = false ->
  validate_opaque_capabilities remaining fixed = Ok opaque ->
  map_result (normalized_info remaining) metas = Ok infos ->
  grants_writable mode = negb (xb_phase (xq_binding request) =? PHASE_PREPARE) ->
  callee_accounts (phase_instruction e request callback metas data)
    (ev_engine_state e :: callback :: infos) = Some (state :: cb :: rest) ->
  observed_descriptors {| ep_engine_state := state; ep_callback_authority := cb |} rest =
    capability_descriptors (ev_engine_state e) opaque mode.
Proof.
  intros metas Is Ic Hne Hc Hx Hv Hinfos Hmode Hacc. subst metas.
  apply validate_opaque_capabilities_Ok in Hv as (_ & Hf & ->).
  assert (forall b, b ∈ remaining -> ai_key b ∉ fixed) as Hfix.
  { intros b Hb. rewrite Forall_forall in Hf. by apply Hf. }
  assert (capability_descriptors (ev_engine_state e)
      (map (opaque_descriptor remaining) remaining) mode =
    {| cd_key := ai_key (ev_engine_state e); cd_owner := ai_owner (ev_engine_state e);
       cd_is_writable := grants_writable mode; cd_is_signer := false; cd_is_executable := false |}
    :: map (granted (grants_writable mode) remaining) remaining) as -> by
    (rewrite <- (routed_granted (ev_engine_state e)); by destruct mode).
  rewrite routed_granted in *. set (opaque := map (granted _ remaining) remaining) in *.
  assert (forall flag k, k ∈ fixed -> meta_flag flag (map descriptor_meta opaque) k = false) as Habs.
  { intros flag k Hk. apply meta_flag_absent. intros Hin%list_elem_of_In.
    apply in_map_iff in Hin as (m & <- & (d & <- & Hd)%in_map_iff).
    apply in_map_iff in Hd as (b & <- & Hb%list_elem_of_In).
    rewrite descriptor_meta_key in Hk. by apply (Hfix b Hb). }
  unfold callee_accounts, phase_instruction in Hacc. cbn [ix_accounts] in Hacc.
  rewrite <- Hmode in Hacc. set (m0 := if grants_writable mode then _ else _) in Hacc.
  assert (am_pubkey m0 = ai_key (ev_engine_state e) /\ am_is_signer m0 = false /\
          am_is_writable m0 = grants_writable mode) as (Km & Sm & Wm)
    by (unfold m0; by destruct mode).
  apply bind_Some in Hacc as (i1 & H1 & Hacc). apply bind_Some in Hacc as (l & Hl & Hacc).
  injection Hacc as -> ->. apply bind_Some in Hl as (i2 & _ & Hl).
  apply bind_Some in Hl as (rest' & H3 & [= _ ->]).
  unfold callee_info in H1. cbn [find] in H1. rewrite Km, key_eqb_refl in H1. injection H1 as <-.
  unfold observed_descriptors. cbn [ep_engine_state]. apply (f_equal2 cons).
  - unfold capability_descriptor. cbn [ai_key ai_owner ai_is_writable ai_is_signer ai_executable].
    rewrite !Habs, Km, Sm, Wm, key_eqb_refl, (key_eqb_ne (ai_key callback)) by congruence || done.
    by rewrite Hx, !orb_false_r.
  - eapply (opaque_callee_descriptors _ [m0; meta_new_readonly (ai_key callback) true]
      [ev_engine_state e; callback]); [exact Hc | exact Hfix | | | exact Hinfos | exact H3];
      cbn [map ai_key am_pubkey meta_new_readonly]; rewrite ?Km; clear - Is Ic; set_solver.
Qed.

(** ** A concrete market of this engine, in the two-phase mode, with a helper

    PREPARE quotes, Core settles as the user's delegate, COMMIT calls the helper
    with Core's commit callback and records the settlement. *)
Section Example.
Definition helper_cpi : Cpi :=
  table_cpi [(CallbackProbe.ID, HELPER_INCREMENT_DISCRIMINATOR, CallbackProbe.increment_handler)].
Definition routed_phase_handler (phase : Z) : Handler :=
  phase_handler (H := reference_runtime helper_cpi) helper_cpi phase.
#[local] Instance closed_runtime : Runtime := reference_runtime (table_cpi
  [(routed_engine_ID, ENGINE_TRANSITION_DISCRIMINATOR, routed_phase_handler PHASE_TRANSITION);
   (routed_engine_ID, ENGINE_PREPARE_DISCRIMINATOR, routed_phase_handler PHASE_PREPARE);
   (routed_engine_ID, ENGINE_COMMIT_DISCRIMINATOR, routed_phase_handler PHASE_COMMIT)]).
#[local] Instance closed_config : CoreConfig := routed_config.

Definition helper_state_k : Pubkey := test_key 31.
Definition closed_opaque : list AccountInfo :=
  [test_account CallbackProbe.ID system_program_k false false true;
   test_account helper_state_k CallbackProbe.ID false true false].
Definition closed_payload : list Z := encode_helper_payload 25.
Definition closed_capability_hash : list Z :=
  match compute_capability_hash routed_engine_ID
    (capability_descriptors (test_account engine_state_k routed_engine_ID false true false)
       (map (opaque_descriptor closed_opaque) closed_opaque) Authorized) with
  | Ok h => h | _ => [] end.
Definition closed_args : ExecuteCallbackAuthenticatedProbeV0Args := {|
  ra_amount_in := 1000; ra_max_total_input_debit := 1003; ra_min_output_credit := 900;
  ra_max_protocol_fee := 3; ra_expires_at_slot := 100; ra_authorization_nonce := test_key 30;
  ra_expected_engine_sequence := 7; ra_timing_mode := TIMING_PREPARE_COMMIT;
  ra_expected_capability_hash := closed_capability_hash; ra_opaque_payload := closed_payload |}.

Definition base_envelope : Envelope := envelope_of_engine routed_engine_ID 50000 70000 6.
Definition closed_digest : list Z :=
  let a := {| re_env := base_envelope; re_spend_authority := user_info;
              re_primary_callback := user_info; re_commit_callback := user_info |} in
  match (payload_hash ← wire (compute_payload_hash closed_payload);
         compute_bound_intent_digest a closed_args 3 closed_capability_hash payload_hash) with
  | Ok d => d | _ => [] end.
Definition closed_spend : AccountInfo :=
  test_account (canonical_spend_authority source_k closed_digest).1 system_program_k false false
    false.
Definition closed_source : TokenAccount :=
  with_delegate (test_token mint_a_k user_k 1000000) (Some (ai_key closed_spend)) 1003.
Definition closed_callback (phase : Z) : AccountInfo :=
  test_account (cb_key (canonical_callback base_envelope closed_digest phase)) system_program_k
    false false false.
Definition closed_accounts : ExecuteCallbackAuthenticatedProbeV0 := {|
  re_env := with_tokens base_envelope
    (Build_Account (acc_info (ev_user_source_a base_envelope)) closed_source)
    (ev_user_destination_b base_envelope) (ev_vault_a base_envelope) (ev_vault_b base_envelope)
    (ev_fee_vault base_envelope);
  re_spend_authority := closed_spend;
  re_primary_callback := closed_callback PHASE_PREPARE;
  re_commit_callback := closed_callback PHASE_COMMIT |}.
Definition closed_state : RoutedEngineState := {|
  rs_authority := user_k; rs_market := market_k; rs_revision := 3; rs_lp_fee_bps := 30;
  rs_timing_mode := TIMING_PREPARE_COMMIT; rs_sequence := 7;
  rs_last_intent_digest := replicate 32 0; rs_last_phase_context_digest := replicate 32 0;
  rs_last_execution_digest := replicate 32 0; rs_last_amount_out := 0;
  rs_last_phase := NO_COMPLETED_PHASE; rs_mode := MODE_ACCEPT |}.
Definition closed_world : World :=
  store (store (world_of_engine routed_engine_ID (RoutedEngineData closed_state) 50000 70000 6)
    source_k (TokenData closed_source))
    helper_state_k (OtherProgramData (CallbackHelperData
      {| hs_authority := ai_key (closed_callback PHASE_COMMIT); hs_calls := 4; hs_value := 40 |})).
Definition closed_run : result (World * CallbackAuthenticatedProbeExecutedV0) :=
  execute_callback_authenticated_probe closed_world closed_accounts closed_opaque closed_args.

(** The run settles the quote, the helper counted 25 once. *)
Example routed_closed_run_outcome :
  match closed_run with
  | Ok (w, ev) => (cx_amount_out ev, cx_commit_engine_sequence ev,
                   CallbackProbe.state_at w helper_state_k)
  | _ => (0, 0, None)
  end = (1368, 8, Some {| hs_authority := ai_key (closed_callback PHASE_COMMIT); hs_calls := 5;
                          hs_value := 65 |}).
Proof. vm_compute. reflexivity. Qed.

Lemma closed_runs_engine : runs_engine helper_cpi.
Proof.
  intros phase disc Hd. unfold engine_phase_discriminator in Hd.
  destruct (Z.eqb_spec phase PHASE_TRANSITION) as [->|_]; [injection Hd as <-; apply table_cpi_runs|].
  destruct (Z.eqb_spec phase PHASE_PREPARE) as [->|_].
  { injection Hd as <-. apply table_cpi_skip; [by right | apply table_cpi_runs]. }
  destruct (Z.eqb_spec phase PHASE_COMMIT) as [->|_]; [|discriminate].
  injection Hd as <-. do 2 (apply table_cpi_skip; [by right|]). apply table_cpi_runs.
Qed.

Lemma toy_sha256 : sha256_output.
Proof.
  intros l. cbn [hashv rt_hasher closed_runtime reference_runtime]. apply toy_digest_bytes.
Qed.

Lemma routed_closed_loop_witness :
  exists w' ev, closed_run = Ok (w', ev) /\ exists q,
    quote_exact_in 50000 70000 1000 30 = Ok q /\ cx_amount_out ev = cq_amount_out q.
Proof.
  destruct (is_ok_Ok closed_run) as [[w' ev] E]; [vm_compute; reflexivity|].
  exists w', ev. split; [exact E|].
  assert (forall s, routed_state_at closed_world engine_state_k = Some s -> s = closed_state) as Hload.
  { intros s Hs. assert (routed_state_at closed_world engine_state_k = Some closed_state) as Hs'
      by (vm_compute; reflexivity).
    rewrite Hs' in Hs. by injection Hs as <-. }
  destruct (routed_closed_loop helper_cpi closed_world closed_accounts closed_opaque closed_args w' ev)
    as (s & q & s' & after & Hs & _ & _ & _ & _ & _ & Hq & Ho & _).
  - apply reference_transfer_frame.
  - apply toy_sha256.
  - apply closed_runs_engine.
  - apply table_cpi_runs.
  - reflexivity.
  - decide_closed.
  - intros s Hs. apply Hload in Hs as ->. split; unfold in_width; simpl; lia.
  - reflexivity.
  - exact E.
  - apply Hload in Hs as ->. exists q. split; [exact Hq | exact Ho].
Defined.

Definition prepare_request : EngineRequest :=
  {| xq_binding := {|
       xb_phase := PHASE_PREPARE; xb_intent_digest := closed_digest;
       xb_phase_context_digest := replicate 32 0; xb_market := market_k; xb_domain := domain_k;
       xb_engine_revision := 3; xb_amount_in := 1000; xb_protocol_fee := 3;
       xb_accounted_input_before := 50000; xb_accounted_output_before := 70000;
       xb_accounted_fee_before := 6; xb_pre_sequence := 7;
       xb_authorized_capability_hash := closed_capability_hash;
       xb_phase_capability_hash := closed_capability_hash; xb_opaque_account_count := 2;
       xb_payload_len := 0; xb_payload := replicate 128 0 |};
     xq_execution_digest := replicate 32 0 |}.
Definition prepare_descriptors : list CapabilityDescriptor :=
  capability_descriptors (ev_engine_state base_envelope)
    (map (opaque_descriptor closed_opaque) closed_opaque) ReadOnly.
Definition prepare_callee : option (list AccountInfo) :=
  callee_accounts
    (phase_instruction base_envelope prepare_request (closed_callback PHASE_PREPARE)
       (tail prepare_descriptors) [])
    (ev_engine_state base_envelope :: closed_callback PHASE_PREPARE :: closed_opaque).

Lemma routed_closure_observed_witness :
  exists state cb rest, prepare_callee = Some (state :: cb :: rest) /\
    observed_descriptors {| ep_engine_state := state; ep_callback_authority := cb |} rest =
      prepare_descriptors.
Proof.
  destruct prepare_callee as [[|state [|cb rest]]|] eqn:E;
    [vm_compute in E; discriminate E | vm_compute in E; discriminate E | | vm_compute in E; discriminate E].
  exists state, cb, rest. split; [reflexivity|].
  apply (routed_closure_observed base_envelope closed_opaque (routed_fixed_keys closed_accounts)
    (map (opaque_descriptor closed_opaque) closed_opaque) prepare_request
    (closed_callback PHASE_PREPARE) ReadOnly [] closed_opaque state cb rest).
  - decide_closed.
  - decide_closed.
  - decide_closed.
  - decide_closed.
  - reflexivity.
  - vm_compute. reflexivity.
  - vm_compute. reflexivity.
  - reflexivity.
  - exact E.
Defined.
End Example.
