(* ===== verification/RoutedLifecycle.v ===== *)
(** * The lifecycle of a routed-plan-engine state

    The instructions of routed-plan-engine, and anything other programs do that
    the ownership rule allows, as a labelled step relation on the ledger. The
    invariant every engine state satisfies from its creation on, and what a
    history of steps leaves unchanged or counts, by induction on the history. *)
From S2P Require Import Prelude Codec CoreState EngineState Solana ReferenceRuntime.
From S2P Require Import EngineFrame Helpers Capability Cpmm RoutedWire RoutedEngine.

(** The phase that completes an execution. *)
Definition completing_phase (timing_mode : Z) : Z :=
  if timing_mode =? TIMING_SINGLE then PHASE_TRANSITION else PHASE_COMMIT.

(** What holds of an engine state whatever its history: it was configured
    within bounds, and its last phase and context are those of the executions
    its timing mode allows. *)
Definition engine_state_ok (s : RoutedEngineState) : Prop :=
  rs_market s <> default_pubkey /\ rs_revision s <> 0 /\
  0 <= rs_lp_fee_bps s < ENGINE_BASIS_POINTS_DENOMINATOR /\
  (rs_timing_mode s = TIMING_SINGLE \/ rs_timing_mode s = TIMING_PREPARE_COMMIT) /\
  is_supported_mode (rs_mode s) = true /\ is_u64 (rs_sequence s) /\
  (rs_sequence s = 0 -> rs_last_phase s = NO_COMPLETED_PHASE) /\
  (0 < rs_sequence s -> rs_last_phase s = completing_phase (rs_timing_mode s)) /\
  (rs_last_phase_context_digest s = replicate 32 0 <-> rs_last_phase s <> PHASE_COMMIT).

Definition engine_invariant (w : World) : Prop :=
  forall k s, routed_state_at w k = Some s -> engine_state_ok s.

(** What no instruction changes after [initialize]. *)
Definition same_configuration (s s' : RoutedEngineState) : Prop :=
  rs_authority s' = rs_authority s /\ rs_market s' = rs_market s /\
  rs_revision s' = rs_revision s /\ rs_lp_fee_bps s' = rs_lp_fee_bps s /\
  rs_timing_mode s' = rs_timing_mode s.

Lemma timing_phase timing_mode phase :
  validate_phase_for_timing timing_mode phase = Ok tt -> phase <> PHASE_PREPARE ->
  phase = completing_phase timing_mode.
Proof.
  unfold validate_phase_for_timing, require_timing_mode, require_phase, completing_phase.
  intros (u & Hm & (u' & Hp & Hv)%bind_Ok)%bind_Ok Hn.
  destruct (Z.eqb_spec phase PHASE_PREPARE) as [->|_]; [done|].
  destruct (Z.eqb_spec timing_mode TIMING_SINGLE) as [->|_].
  - by destruct (Z.eqb_spec phase PHASE_TRANSITION).
  - destruct (Z.eqb_spec timing_mode TIMING_PREPARE_COMMIT) as [->|_]; [|done].
    by destruct (Z.eqb_spec phase PHASE_COMMIT).
Qed.

(** A decoded binding has a context exactly in COMMIT. *)
Lemma decoded_context `{Hasher} args request :
  decode_engine_request args = Ok request ->
  let b := xq_binding request in
  xb_phase_context_digest b = replicate 32 0 <-> xb_phase b <> PHASE_COMMIT.
Proof.
  unfold decode_engine_request. intros (? & _ & (b & Hb & Hd)%bind_Ok)%bind_Ok.
  apply bind_Ok in Hd as (u & _ & <-%Ok_inj). unfold decode_execution_binding in Hb.
  apply bind_Ok in Hb as (b' & _ & Hb). apply bind_Ok in Hb as (u' & Hv & <-%Ok_inj).
  unfold validate_execution_binding in Hv. cbn [xq_binding].
  apply bind_Ok in Hv as (? & _ & (? & Hr%require_Ok & _)%bind_Ok).
  apply eqb_prop in Hr. destruct (Z.eqb_spec (xb_phase b') PHASE_COMMIT);
    [apply negb_true_iff in Hr | apply negb_false_iff in Hr]; to_prop; tauto.
Qed.

Section Lifecycle.
Context `{Runtime} (cpi : Cpi).
Hypothesis helper_runs :
  runs cpi CallbackProbe.ID HELPER_INCREMENT_DISCRIMINATOR CallbackProbe.increment_handler.

(** One instruction. An execution is labelled by the engine state it records
    in. [step_other] is any instruction that leaves the accounts of this
    program alone, as the runtime demands of every other program. *)
Inductive engine_step (w : World) : option Pubkey -> World -> Prop :=
  | step_initialize a remaining market revision lp_fee_bps timing_mode w' :
      is_u64 revision -> is_u16 lp_fee_bps ->
      initialize w a remaining market revision lp_fee_bps timing_mode = Ok w' ->
      engine_step w None w'
  | step_set_mode a remaining mode w' :
      set_mode w a remaining mode = Ok w' -> engine_step w None w'
  | step_prepare accounts args w' :
      prepare cpi w accounts args = Ok w' -> engine_step w None w'
  | step_execute phase state accounts args w' :
      phase <> PHASE_PREPARE -> Forall is_u8 args ->
      phase_handler cpi phase w (state :: accounts) args = Ok w' ->
      engine_step w (Some (ai_key state)) w'
  | step_other w' :
      (forall k, routed_state_at w' k = routed_state_at w k) -> engine_step w None w'.

(** A history, with the executions it made, oldest first. *)
Inductive engine_history (w : World) : list Pubkey -> World -> Prop :=
  | history_start : engine_history w [] w
  | history_step l w1 label w2 :
      engine_history w l w1 -> engine_step w1 label w2 ->
      engine_history w (l ++ option_list label) w2.

Definition executions (k : Pubkey) (l : list Pubkey) : Z :=
  Z.of_nat (length (filter (fun k' => k' = k) l)).

Lemma executions_one k k' : executions k [k'] = if decide (k' = k) then 1 else 0.
Proof.
  unfold executions. destruct (decide (k' = k)) as [Hk|Hk];
    [by rewrite filter_cons_True | by rewrite filter_cons_False].
Qed.
Lemma executions_none k : executions k (option_list None) = 0.
Proof. done. Qed.
Lemma executions_some k k' : executions k (option_list (Some k')) = if decide (k' = k) then 1 else 0.
Proof. apply (executions_one k k'). Qed.
Lemma executions_app k l1 l2 : executions k (l1 ++ l2) = executions k l1 + executions k l2.
Proof. unfold executions. rewrite filter_app, length_app. lia. Qed.

(** ** One step *)

(** A world whose one change is the data at [k]. *)
Definition writes (w w' : World) (k : Pubkey) (d : AccountData) : Prop :=
  w_accounts w' = <[k := d]> (w_accounts w).

Lemma writes_state w w' k s k' :
  writes w w' k (OtherProgramData (RoutedEngineData s)) ->
  routed_state_at w' k' = if decide (k' = k) then Some s else routed_state_at w k'.
Proof.
  unfold routed_state_at, program_data_at. intros ->. destruct (decide (k' = k)) as [->|];
    [by rewrite lookup_insert_eq | by rewrite lookup_insert_ne].
Qed.

(** The helper's counter is not an engine state, before or after. *)
Lemma helper_keeps_states w payload opaque state callback w' k :
  Forall is_u8 payload -> maybe_invoke_helper cpi w payload opaque state callback = Ok w' ->
  routed_state_at w' k = routed_state_at w k.
Proof.
  intros Hu8 [[_ ->]|(_ & helper & _ & hs & amount & bytes & _ & _ & _ & _ & Hs & _ & _ & Hw & _)]
    %(routed_helper_Ok cpi); [done| |done|done].
  unfold CallbackProbe.state_at, routed_state_at, program_data_at in *. rewrite Hw.
  destruct (decide (k = ai_key helper)) as [->|]; [|by rewrite lookup_insert_ne].
  rewrite lookup_insert_eq. repeat case_match; congruence.
Qed.

(** The effect of a step on the engine states, by its kind. *)
Inductive state_effect (w : World) : option Pubkey -> World -> Prop :=
  | effect_none w' : (forall k, routed_state_at w' k = routed_state_at w k) -> state_effect w None w'
  | effect_create w' k s :
      routed_state_at w k = None -> engine_state_ok s ->
      (forall k', routed_state_at w' k' = if decide (k' = k) then Some s else routed_state_at w k') ->
      state_effect w None w'
  | effect_mode w' k s mode :
      routed_state_at w k = Some s -> is_supported_mode mode = true ->
      (forall k', routed_state_at w' k' =
         if decide (k' = k) then Some (with_mode s mode) else routed_state_at w k') ->
      state_effect w None w'
  | effect_execute w' k s s' b d out :
      routed_state_at w k = Some s -> record_execution s b d out = Ok s' ->
      xb_phase b = completing_phase (rs_timing_mode s) ->
      (xb_phase_context_digest b = replicate 32 0 <-> xb_phase b <> PHASE_COMMIT) ->
      (forall k', routed_state_at w' k' = if decide (k' = k) then Some s' else routed_state_at w k') ->
      state_effect w (Some k) w'.

Lemma initial_state_ok authority market revision lp_fee_bps timing_mode :
  key_eqb market default_pubkey = false -> revision <> 0 -> is_u16 lp_fee_bps ->
  lp_fee_bps < ENGINE_BASIS_POINTS_DENOMINATOR ->
  validate_configured_timing_mode timing_mode = Ok tt ->
  engine_state_ok (initial_engine_state authority market revision lp_fee_bps timing_mode).
Proof.
  unfold validate_configured_timing_mode, key_eqb. intros Hm Hr [Hf _] Hb Ht. inv_engine. to_prop.
  unfold engine_state_ok, initial_engine_state; cbn -[replicate default_pubkey].
  split_and!; try done.
  destruct (Z.eqb_spec timing_mode TIMING_SINGLE); [by left|].
  destruct (Z.eqb_spec timing_mode TIMING_PREPARE_COMMIT); [by right | discriminate].
Qed.

Lemma engine_step_effect w label w' : engine_step w label w' -> state_effect w label w'.
Proof.
  intros [a remaining market revision fee timing w2 _ Hfee Hi | a remaining mode w2 Hs
    | accounts args w2 Hp | phase state accounts args w2 Hph Hu8 Hp | w2 Hw].
  - unfold initialize, init_keypair in Hi. inv_engine. to_prop.
    eapply effect_create; [|by eapply initial_state_ok|by intros; eapply writes_state].
    unfold routed_state_at, program_data_at. by match goal with H : _ !! _ = None |- _ => rewrite H end.
  - unfold set_mode, set_mode_constraints in Hs. inv_engine. to_prop.
    eapply effect_mode; [by eapply is_account_loaded | done | by intros; eapply writes_state].
  - apply phase_handler_Ok in Hp as (? & ? & ? & s & request & q & w1 & w3 & Hrun). destruct Hrun.
    apply emit_receipt_accounts in ph_receipt. apply effect_none. intros k.
    destruct ph_effect as [(_ & _ & ->)|[? _]]; [|done].
    unfold routed_state_at, program_data_at. by rewrite ph_receipt.
  - apply phase_handler_Ok in Hp as (st & cb & opaque & s & request & q & w1 & w3 & Hrun).
    destruct Hrun. injection ph_accounts as <- ->. apply emit_receipt_accounts in ph_receipt.
    destruct ph_effect as [[? _]|(_ & (payload & Hpay & Hh) & _ & (s' & Hrec & ->) & _)]; [done|].
    assert (Forall is_u8 payload) as Hp8.
    { unfold payload_bytes in Hpay. inv_engine. apply Forall_take.
      apply decode_engine_request_layout in ph_request as ([Hwf _] & _); [|by apply Forall_take].
      destruct Hwf as (_ & _ & _ & _ & (Hb & _)%Forall_cons). apply Hb. }
    eapply effect_execute; [exact ph_loaded | exact Hrec | | by eapply decoded_context|].
    + rewrite ph_phase. by apply timing_phase.
    + intros k'. rewrite (writes_state w1 _ (ai_key state) s') by exact ph_receipt.
      destruct (decide _); [done|]. by eapply helper_keeps_states.
  - by apply effect_none.
Qed.

(** ** What an effect preserves *)

Lemma same_configuration_refl s : same_configuration s s.
Proof. by split_and!. Qed.
Lemma same_configuration_trans s1 s2 s3 :
  same_configuration s1 s2 -> same_configuration s2 s3 -> same_configuration s1 s3.
Proof. unfold same_configuration. intros (?&?&?&?&?) (?&?&?&?&?). split_and!; congruence. Qed.

Lemma executed_state_ok s s' b d out :
  engine_state_ok s -> record_execution s b d out = Ok s' ->
  xb_phase b = completing_phase (rs_timing_mode s) ->
  (xb_phase_context_digest b = replicate 32 0 <-> xb_phase b <> PHASE_COMMIT) ->
  engine_state_ok s' /\ same_configuration s s'.
Proof.
  unfold record_execution. intros (? & ? & ? & ? & ? & [? ?] & _ & _ & _) Hr Hp Hc.
  inv_engine. inv_checked. subst. unfold engine_state_ok, same_configuration, in_width; simpl.
  split_and!; try done; try lia; apply Hc.
Qed.

Lemma with_mode_ok s mode :
  engine_state_ok s -> is_supported_mode mode = true ->
  engine_state_ok (with_mode s mode) /\ same_configuration s (with_mode s mode).
Proof. unfold engine_state_ok. simpl. split; [tauto | by split_and!]. Qed.

Lemma effect_invariant w label w' :
  state_effect w label w' -> engine_invariant w -> engine_invariant w'.
Proof.
  intros [w2 He | w2 k s Hn Hs He | w2 k s mode Hs Hm He | w2 k s s2 b d out Hs Hr Hp Hc He] Hi k' s';
    rewrite He; try (destruct (decide (k' = k)) as [->|]; [intros [= <-] | exact (Hi _ _)]).
  - exact (Hi _ _).
  - done.
  - apply with_mode_ok; [exact (Hi _ _ Hs) | done].
  - exact (proj1 (executed_state_ok _ _ _ _ _ (Hi _ _ Hs) Hr Hp Hc)).
Qed.

Lemma effect_counts w label w' k s :
  state_effect w label w' -> engine_invariant w -> routed_state_at w k = Some s ->
  exists s', routed_state_at w' k = Some s' /\ same_configuration s s' /\
    rs_sequence s' = rs_sequence s + executions k (option_list label).
Proof.
  intros [w2 He | w2 k0 s0 Hn Hs0 He | w2 k0 s0 mode Hs0 Hm He | w2 k0 s0 s2 b d out Hs0 Hr Hp Hc He]
    Hi Hs; rewrite He; rewrite ?executions_none, ?executions_some, ?Z.add_0_r.
  - exists s. by split_and!.
  - destruct (decide (k = k0)) as [->|]; [congruence|]. exists s. by split_and!.
  - destruct (decide (k = k0)) as [->|]; [|exists s; by split_and!].
    rewrite Hs in Hs0. injection Hs0 as <-. exists (with_mode s mode). split; [done|].
    split; [apply (with_mode_ok s mode); [exact (Hi _ _ Hs) | done] | done].
  - destruct (decide (k = k0)) as [->|Hne].
    + rewrite Hs in Hs0. injection Hs0 as <-. exists s2. split; [done|].
      split; [exact (proj2 (executed_state_ok _ _ _ _ _ (Hi _ _ Hs) Hr Hp Hc))|].
      apply record_execution_Ok in Hr as [_ ->]. by rewrite decide_True.
    + exists s. rewrite decide_False, Z.add_0_r by congruence. by split_and!.
Qed.

Lemma history_invariant w l w' :
  engine_invariant w -> engine_history w l w' -> engine_invariant w'.
Proof.
  intros Hi Hh. induction Hh as [|l w1 label w2 _ IH Hstep]; [done|].
  eapply effect_invariant; [by eapply engine_step_effect | done].
Qed.

(** ** Properties *)

(** C31. Every engine state is well formed throughout its life: in any history of
    this program's instructions and of whatever other programs do, every state
    keeps a market, a revision and a fee below 100%, a timing mode and a
    supported test mode, a [u64] sequence; its last phase is none before its
    first execution and the completing phase of its timing mode after; and the
    last context digest is zero unless that phase was COMMIT. *)
Theorem engine_states_well_formed w l w' :
  engine_invariant w -> engine_history w l w' -> engine_invariant w'.
Proof. apply history_invariant. Qed.

(** C32. The sequence of an engine state counts its executions: over any history
    its configuration never changes and its sequence grows by exactly the number
    of TRANSITION and COMMIT calls recorded in it; [initialize], [set_mode] and
    PREPARE do not count. *)
Theorem engine_sequence_counts w l w' k s :
  engine_invariant w -> engine_history w l w' -> routed_state_at w k = Some s ->
  exists s', routed_state_at w' k = Some s' /\ same_configuration s s' /\
    rs_sequence s' = rs_sequence s + executions k l.
Proof.
  intros Hi Hh Hs. induction Hh as [|l w1 label w2 Hh IH Hstep].
  - exists s. split; [done|]. split; [apply same_configuration_refl|]. unfold executions. simpl. lia.
  - destruct IH as (s1 & Hs1 & Hc1 & Hq1). apply engine_step_effect in Hstep.
    destruct (effect_counts _ _ _ _ _ Hstep (history_invariant _ _ _ Hi Hh) Hs1) as (s2 & Hs2 & Hc2 & Hq2).
    exists s2. split; [done|]. split; [by eapply same_configuration_trans|].
    rewrite executions_app. lia.
Qed.
End Lifecycle.

(** ** A concrete life: created, then one TRANSITION *)

#[export] Instance engine_state_ok_dec s : Decision (engine_state_ok s).
Proof. unfold engine_state_ok. apply _. Defined.

Definition account_ok (d : AccountData) : Prop :=
  match d with OtherProgramData (RoutedEngineData s) => engine_state_ok s | _ => True end.
#[export] Instance account_ok_dec d : Decision (account_ok d).
Proof. destruct d as [| | | | |[]|]; simpl; apply _. Defined.

Lemma engine_invariant_check w :
  bool_decide (map_Forall (fun _ => account_ok) (w_accounts w)) = true -> engine_invariant w.
Proof.
  intros Hf%bool_decide_eq_true k s Hs. unfold routed_state_at, program_data_at in Hs.
  destruct (w_accounts w !! k) as [d|] eqn:E; [|discriminate]. specialize (Hf k d E).
  by destruct d as [| | | | |[]|]; try discriminate; injection Hs as <-.
Qed.

Section Example.
Definition helper_cpi : Cpi :=
  table_cpi [(CallbackProbe.ID, HELPER_INCREMENT_DISCRIMINATOR, CallbackProbe.increment_handler)].
#[local] Instance life_runtime : Runtime := reference_runtime helper_cpi.
#[local] Instance life_config : CoreConfig := routed_config.

Definition life_k : Pubkey := test_key 40.
Definition life_world : World := test_world 50000 70000 6.
Definition life_initialize : InitializeState := {|
  is_state := test_account life_k system_program_k true true false;
  is_authority := user_info;
  is_system_program := test_account system_program_ID system_program_k false false true |}.
Definition created : engine_result World :=
  initialize life_world life_initialize [] market_k 3 30 TIMING_SINGLE.
Definition created_world : World := match created with Ok w => w | _ => life_world end.

Definition life_account : AccountInfo := test_account life_k routed_engine_ID false true false.
Definition life_binding : outcome CodecError ExecutionBinding :=
  h ← compute_capability_hash routed_engine_ID [capability_descriptor life_account];
  new_execution_binding PHASE_TRANSITION (test_key 50) (replicate 32 0) market_k domain_k 3 1000 3
    50000 70000 6 0 h h 0 [].
Definition life_args : list Z :=
  match (b ← life_binding; r ← new_engine_request b; encode_engine_request r) with
  | Ok data => data | _ => [] end.
Definition life_callback : AccountInfo :=
  match life_binding with
  | Ok b => test_account (expected_callback life_k b) system_program_k true false false
  | _ => life_account end.
Definition executed : engine_result World :=
  transition helper_cpi created_world [life_account; life_callback] life_args.

Lemma life_helper_runs :
  runs helper_cpi CallbackProbe.ID HELPER_INCREMENT_DISCRIMINATOR CallbackProbe.increment_handler.
Proof. apply table_cpi_runs. Qed.

Lemma life_history w : executed = Ok w -> engine_history helper_cpi life_world [life_k] w.
Proof.
  intros E. apply (history_step _ _ [] created_world (Some life_k)).
  - apply (history_step _ _ [] life_world None); [constructor|].
    eapply (step_initialize _ _ life_initialize [] market_k 3 30 TIMING_SINGLE);
      [unfold in_width; lia..|]. unfold created_world.
    destruct (is_ok_Ok created) as [w1 E1]; [vm_compute; reflexivity|]. rewrite E1. exact E1.
  - eapply (step_execute _ _ PHASE_TRANSITION life_account); [done | | exact E]. decide_closed.
Qed.

Lemma engine_states_well_formed_witness :
  exists w', executed = Ok w' /\ engine_invariant w'.
Proof.
  destruct (is_ok_Ok executed) as [w' E]; [vm_compute; reflexivity|]. exists w'. split; [exact E|].
  apply (engine_states_well_formed helper_cpi life_helper_runs life_world [life_k] w').
  - apply engine_invariant_check. vm_compute. reflexivity.
  - apply life_history. exact E.
Defined.

Lemma engine_sequence_counts_witness :
  exists w' s', executed = Ok w' /\ routed_state_at w' life_k = Some s' /\ rs_sequence s' = 1.
Proof.
  destruct (is_ok_Ok executed) as [w' E]; [vm_compute; reflexivity|].
  assert (engine_history helper_cpi created_world [life_k] w') as Hh.
  { apply (history_step _ _ [] created_world (Some life_k)); [constructor|].
    eapply (step_execute _ _ PHASE_TRANSITION life_account); [done | | exact E]. decide_closed. }
  destruct (engine_sequence_counts helper_cpi life_helper_runs created_world [life_k] w' life_k
    (initial_engine_state user_k market_k 3 30 TIMING_SINGLE)) as (s' & Hs' & _ & Hq).
  - apply engine_invariant_check. vm_compute. reflexivity.
  - exact Hh.
  - vm_compute. reflexivity.
  - exists w', s'. split; [exact E|]. split; [exact Hs'|]. rewrite Hq, executions_one. reflexivity.
Defined.
End Example.
