(* ===== verification/Router.v ===== *)
(** * routed-callback-auth: test-programs/hostile-router-probe

    A permissionless router in front of the routed core. It forwards Core's
    instruction with the privileges it was handed, or tries the three attacks
    the experiment is about: execute twice, drain the delegated source itself,
    and reuse the callback signer after Core returned. *)
From S2P Require Import Prelude Codec CoreState EngineState Solana ReferenceRuntime EngineFrame.
From S2P Require Import Helpers Capability Cpmm RoutedWire Validation Settlement RoutedAuthorize.
From S2P Require Import RoutedExecute RoutedProperties.

Inductive RouterError :=
  | InvalidCoreProgram | TooManyForwardedAccounts | InvalidCoreInstructionData
  | InvalidAccountIndex | AliasedAttackRole | InvalidProbeAmount | InvalidDrainClosure
  | SpendAuthorityUnexpectedlyPrivileged | RouterInvalidTokenProgram
  | ReplayUnexpectedlySucceeded | SpendDrainUnexpectedlySucceeded | RouterInvalidHelperProgram
  | RouterInvalidHelperState | CallbackSignerLeaked | CallbackReuseUnexpectedlySucceeded
  | RouterCpi (e : Error).            (** the error of a nested invocation *)
#[export] Instance RouterError_eq_dec : EqDecision RouterError.
Proof. solve_decision. Defined.

Abbreviation router_result := (outcome RouterError).
Definition require_router (b : bool) (e : RouterError) : router_result unit := require b e.

(** [declare_id!] *)
Definition router_ID : Pubkey :=
  Eval vm_compute in pubkey_literal "F62maceZqpLAayyBLsXNGdrmKg9cZWdpSDbzoHuNgk6Q".

Definition MAX_FORWARDED_ACCOUNTS : nat := 64.
Definition MAX_FORWARDED_INSTRUCTION_DATA_LEN : nat := Z.to_nat 10240.
Definition CLASSIC_TOKEN_TRANSFER_TAG : Z := 3.

Inductive RouterMode :=
  | ForwardOnce
  | ForwardTwice
  | AttemptSpendDrain (source_index destination_index spend_authority_index token_program_index
      amount : Z)
  | ForwardThenReuseCallback (helper_program_index helper_state_index callback_authority_index
      amount : Z).

Record RouteProbeArgs := {
  rp_mode : RouterMode;
  rp_core_instruction_data : list Z }.

(** ** Normalized privileges *)

(** The fold over the positions that repeat the account's key. *)
Definition normalized_privileges (account : AccountInfo) (accounts : list AccountInfo)
    : bool * bool :=
  fold_left (fun '(writable, signer) candidate =>
      (writable || ai_is_writable candidate, signer || ai_is_signer candidate))
    (filter (fun candidate => ai_key candidate = ai_key account) accounts) (false, false).

Definition normalized_meta (account : AccountInfo) (accounts : list AccountInfo) : AccountMeta :=
  let '(is_writable, is_signer) := normalized_privileges account accounts in
  if is_writable then meta_new (ai_key account) is_signer
  else meta_new_readonly (ai_key account) is_signer.

Definition normalized_metas (accounts : list AccountInfo) : list AccountMeta :=
  map (fun account => normalized_meta account accounts) accounts.

Definition account_at (accounts : list AccountInfo) (index : Z) : router_result AccountInfo :=
  ok_or (accounts !! Z.to_nat index) InvalidAccountIndex.

Fixpoint require_distinct (keys : list Pubkey) : router_result unit :=
  match keys with
  | [] => Ok tt
  | k :: keys =>
      _ ← require_router (negb (bool_decide (k ∈ keys))) AliasedAttackRole;
      require_distinct keys
  end.

Section Router.
Context `{Runtime} (cpi : Cpi).

Definition validate_router_envelope (core_program : AccountInfo) (remaining : list AccountInfo)
    : router_result unit :=
  _ ← require_router (key_eqb (ai_key core_program) routed_ID) InvalidCoreProgram;
  _ ← require_router (ai_executable core_program) InvalidCoreProgram;
  _ ← require_router (negb (ai_is_signer core_program) && negb (ai_is_writable core_program))
        InvalidCoreProgram;
  require_router (length remaining <=? MAX_FORWARDED_ACCOUNTS)%nat TooManyForwardedAccounts.

Definition forward_instruction (accounts : list AccountInfo) (instruction_data : list Z)
    : Instruction :=
  {| ix_program_id := routed_ID; ix_accounts := normalized_metas accounts;
     ix_data := instruction_data |}.

Definition forward_core (w : World) (core_program : AccountInfo) (accounts : list AccountInfo)
    (instruction_data : list Z) : router_result World :=
  _ ← require_router (negb (length instruction_data =? 0)%nat &&
                      (length instruction_data <=? MAX_FORWARDED_INSTRUCTION_DATA_LEN)%nat)
        InvalidCoreInstructionData;
  map_err RouterCpi
    (cpi w (forward_instruction accounts instruction_data) (accounts ++ [core_program]) []).

Definition attempt_spend_drain (w : World) (accounts : list AccountInfo)
    (source_index destination_index spend_authority_index token_program_index amount : Z)
    : router_result World :=
  _ ← require_router (0 <? amount) InvalidProbeAmount;
  source ← account_at accounts source_index;
  destination ← account_at accounts destination_index;
  spend_authority ← account_at accounts spend_authority_index;
  token_program ← account_at accounts token_program_index;
  _ ← require_distinct [ai_key source; ai_key destination; ai_key spend_authority;
                        ai_key token_program];
  _ ← require_router (ai_is_writable source && negb (ai_is_signer source) &&
                      negb (ai_executable source)) InvalidDrainClosure;
  _ ← require_router (ai_is_writable destination && negb (ai_is_signer destination) &&
                      negb (ai_executable destination)) InvalidDrainClosure;
  _ ← require_router (negb (ai_is_writable spend_authority) &&
                      negb (ai_is_signer spend_authority) &&
                      negb (ai_executable spend_authority)) SpendAuthorityUnexpectedlyPrivileged;
  _ ← require_router (key_eqb (ai_key token_program) spl_token_ID) RouterInvalidTokenProgram;
  _ ← require_router (ai_executable token_program && negb (ai_is_writable token_program) &&
                      negb (ai_is_signer token_program)) RouterInvalidTokenProgram;
  _ ← map_err RouterCpi
    (cpi w {| ix_program_id := spl_token_ID;
                 ix_accounts := [normalized_meta source accounts;
                                 normalized_meta destination accounts;
                                 normalized_meta spend_authority accounts];
                 ix_data := CLASSIC_TOKEN_TRANSFER_TAG :: to_le_bytes 8 amount |}
       [source; destination; spend_authority; token_program] []);
  Err SpendDrainUnexpectedlySucceeded.

Definition attempt_callback_reuse (w : World) (accounts : list AccountInfo)
    (helper_program_index helper_state_index callback_authority_index amount : Z)
    : router_result World :=
  _ ← require_router (0 <? amount) InvalidProbeAmount;
  helper_program ← account_at accounts helper_program_index;
  helper_state ← account_at accounts helper_state_index;
  callback_authority ← account_at accounts callback_authority_index;
  _ ← require_distinct [ai_key helper_program; ai_key helper_state; ai_key callback_authority];
  _ ← require_router (key_eqb (ai_key helper_program) CallbackProbe.ID) RouterInvalidHelperProgram;
  _ ← require_router (ai_executable helper_program && negb (ai_is_writable helper_program) &&
                      negb (ai_is_signer helper_program)) RouterInvalidHelperProgram;
  _ ← require_router (ai_is_writable helper_state && negb (ai_is_signer helper_state) &&
                      negb (ai_executable helper_state)) RouterInvalidHelperState;
  _ ← require_router (key_eqb (ai_owner helper_state) CallbackProbe.ID) RouterInvalidHelperState;
  _ ← require_router (negb (ai_is_writable callback_authority) &&
                      negb (ai_is_signer callback_authority) &&
                      negb (ai_executable callback_authority)) CallbackSignerLeaked;
  _ ← map_err RouterCpi
    (cpi w {| ix_program_id := CallbackProbe.ID;
                 ix_accounts := [normalized_meta helper_state accounts;
                                 normalized_meta callback_authority accounts];
                 ix_data := helper_increment_data amount |}
       [helper_state; callback_authority; helper_program] []);
  Err CallbackReuseUnexpectedlySucceeded.

Definition route (w : World) (core_program : AccountInfo) (remaining : list AccountInfo)
    (args : RouteProbeArgs) : router_result World :=
  _ ← validate_router_envelope core_program remaining;
  let data := rp_core_instruction_data args in
  match rp_mode args with
  | ForwardOnce => forward_core w core_program remaining data
  | ForwardTwice =>
      w ← forward_core w core_program remaining data;
      _ ← forward_core w core_program remaining data;
      Err ReplayUnexpectedlySucceeded
  | AttemptSpendDrain source destination spend_authority token_program amount =>
      attempt_spend_drain w remaining source destination spend_authority token_program amount
  | ForwardThenReuseCallback helper_program helper_state callback_authority amount =>
      w ← forward_core w core_program remaining data;
      attempt_callback_reuse w remaining helper_program helper_state callback_authority amount
  end.
End Router.

(** ** Core as a callee *)

(** The [#[derive(Accounts)]] struct of the execute instruction: the accounts in
    field order, each typed field loaded from the ledger. *)
Definition load_account {T} (at_ : World -> Pubkey -> option T) (w : World) (a : AccountInfo)
    : option (Account T) :=
  d ← at_ w (ai_key a); Some (Build_Account a d).

Definition routed_accounts (w : World) (accounts : list AccountInfo)
    : option (ExecuteCallbackAuthenticatedProbeV0 * list AccountInfo) :=
  match accounts with
  | market :: domain :: fee_ledger :: mint_a :: mint_b :: source :: destination :: vault_a ::
    vault_b :: fee_vault :: engine_program :: engine_state :: spend_authority :: primary_callback ::
    commit_callback :: token_program :: remaining =>
      market ← load_account market_at w market;
      domain ← load_account domain_at w domain;
      fee_ledger ← load_account fee_ledger_at w fee_ledger;
      mint_a ← load_account mint_at w mint_a;
      mint_b ← load_account mint_at w mint_b;
      source ← load_account token_at w source;
      destination ← load_account token_at w destination;
      vault_a ← load_account token_at w vault_a;
      vault_b ← load_account token_at w vault_b;
      fee_vault ← load_account token_at w fee_vault;
      Some ({| re_env := Build_Envelope market domain fee_ledger mint_a mint_b source destination
                 vault_a vault_b fee_vault engine_program engine_state token_program;
               re_spend_authority := spend_authority; re_primary_callback := primary_callback;
               re_commit_callback := commit_callback |}, remaining)
  | _ => None
  end.

Section Core.
Context `{Runtime} {C : CoreConfig}.
(** Borsh decoding of the arguments is Anchor's. *)
Context (decode_args : list Z -> option ExecuteCallbackAuthenticatedProbeV0Args).

Definition core_handler : ProgramHandler Error := fun w accounts data =>
  '(a, remaining) ← ok_or (routed_accounts w accounts) AccountNotLoaded;
  args ← ok_or (decode_args data) (ProgramError 102);
  '(w', _) ← execute_callback_authenticated_probe w a remaining args;
  Ok w'.

Lemma routed_accounts_source w accounts a remaining :
  routed_accounts w accounts = Some (a, remaining) ->
  ai_key <$> accounts !! 5%nat = Some (key (ev_user_source_a (re_env a))).
Proof.
  unfold routed_accounts, load_account. intros Ha.
  do 16 (destruct accounts as [|? accounts]; [discriminate|]).
  repeat match goal with
  | H : _ ≫= _ = Some _ |- _ => apply bind_Some in H as (? & ? & H)
  | H : Some _ = Some _ |- _ => injection H; clear H; intros; subst
  end. done.
Qed.

Lemma core_handler_Ok w accounts data w' :
  core_handler w accounts data = Ok w' ->
  exists a remaining args ev,
    ai_key <$> accounts !! 5%nat = Some (key (ev_user_source_a (re_env a))) /\
    execute_callback_authenticated_probe w a remaining args = Ok (w', ev).
Proof.
  unfold core_handler. intros ([a remaining] & Ha%ok_or_Ok & Hh)%bind_Ok.
  apply bind_Ok in Hh as (args & _ & Hh). apply bind_Ok in Hh as ([w1 ev] & Hx & [= <-]).
  apply routed_accounts_source in Ha. eauto 6.
Qed.
End Core.

(** ** What the router forwards *)

(** The accounts as the runtime presents them: the positions of one address
    carry the same metadata, privileges united. *)
Definition presented (accounts : list AccountInfo) : Prop :=
  forall a b, a ∈ accounts -> b ∈ accounts -> ai_key a = ai_key b -> a = b.

Lemma normalized_privileges_eq a l :
  normalized_privileges a l = (effective_flag ai_is_writable l a, effective_flag ai_is_signer l a).
Proof.
  unfold normalized_privileges, effective_flag.
  assert (forall w s,
    fold_left (fun '(writable, signer) candidate =>
        (writable || ai_is_writable candidate, signer || ai_is_signer candidate))
      (filter (fun candidate => ai_key candidate = ai_key a) l) (w, s) =
    (w || existsb (fun c => key_eqb (ai_key c) (ai_key a) && ai_is_writable c) l,
     s || existsb (fun c => key_eqb (ai_key c) (ai_key a) && ai_is_signer c) l)) as Hg; [|apply Hg].
  induction l as [|c l IH]; intros w s; cbn [existsb]; [by rewrite !orb_false_r|].
  destruct (decide (ai_key c = ai_key a)) as [E|E].
  - rewrite filter_cons_True by done. cbn [fold_left]. rewrite IH, E, key_eqb_refl.
    by rewrite !orb_assoc.
  - rewrite filter_cons_False by done. by rewrite IH, !(key_eqb_ne _ _ E).
Qed.

Lemma normalized_meta_eq a l :
  normalized_meta a l =
  {| am_pubkey := ai_key a; am_is_signer := effective_flag ai_is_signer l a;
     am_is_writable := effective_flag ai_is_writable l a |}.
Proof.
  unfold normalized_meta. rewrite normalized_privileges_eq.
  by destruct (effective_flag ai_is_writable l a).
Qed.

Lemma presented_flag flag l a :
  presented l -> a ∈ l -> effective_flag flag l a = flag a.
Proof.
  intros Hp Ha. apply Bool.eq_iff_eq_true. rewrite effective_flag_true. split; [|eauto].
  intros (c & Hc & Hk & Hf). by rewrite <- (Hp c a Hc Ha Hk).
Qed.

Lemma normalized_flag flag mflag l a :
  (forall b, mflag (normalized_meta b l) = effective_flag flag l b) ->
  presented l -> a ∈ l -> meta_flag mflag (normalized_metas l) (ai_key a) = flag a.
Proof.
  intros Hm Hp Ha. apply Bool.eq_iff_eq_true. unfold meta_flag, normalized_metas.
  rewrite existsb_exists. setoid_rewrite in_map_iff. split.
  - intros (m & (b & <- & Hb%list_elem_of_In) & Hk). rewrite Hm, presented_flag in Hk by done.
    rewrite normalized_meta_eq in Hk. unfold key_eqb in Hk. to_prop. cbn [am_pubkey] in *.
    by rewrite <- (Hp b a Hb Ha).
  - intros Hf. exists (normalized_meta a l). split; [exists a; split; [done | by apply list_elem_of_In]|].
    rewrite Hm, presented_flag, Hf by done. by rewrite normalized_meta_eq; cbn [am_pubkey]; rewrite key_eqb_refl.
Qed.

(** C29. The router is transparent: for accounts as the runtime presents them, the
    accounts Core is handed by the forwarding instruction are exactly the ones
    the router was handed, in order, with the same owners and privileges;
    nothing is added, dropped or escalated. *)
Theorem router_forward_transparent accounts core_program data :
  presented accounts ->
  callee_accounts (forward_instruction accounts data) (accounts ++ [core_program]) = Some accounts.
Proof.
  intros Hp. unfold callee_accounts, forward_instruction. cbn [ix_accounts].
  assert (forall l, (forall a, a ∈ l -> a ∈ accounts) ->
    mapM (callee_info (normalized_metas accounts) (accounts ++ [core_program]))
      (map (fun a => normalized_meta a accounts) l) = Some l) as Hl; [|by apply Hl].
  induction l as [|a l IH]; intros Hsub; [done|]. cbn [map mapM].
  assert (a ∈ accounts) as Ha by (apply Hsub, elem_of_cons; by left).
  assert (callee_info (normalized_metas accounts) (accounts ++ [core_program])
    (normalized_meta a accounts) = Some a) as ->.
  { unfold callee_info. rewrite normalized_meta_eq; cbn [am_pubkey].
    destruct (find_first (fun i => key_eqb (ai_key i) (ai_key a)) (accounts ++ [core_program]) a)
      as [b Hb]; [by apply elem_of_app; left | apply key_eqb_refl |].
    assert (b = a) as ->.
    { clear - Hb Hp Ha. induction accounts as [|c l IH]; [by apply not_elem_of_nil in Ha|].
      simpl in Hb. destruct (key_eqb (ai_key c) (ai_key a)) eqn:E.
      - injection Hb as <-. unfold key_eqb in E. to_prop. apply Hp; [by left | done | done].
      - apply elem_of_cons in Ha as [->|Ha]; [by rewrite key_eqb_refl in E|].
        apply IH; [|done|done]. intros x y Hx Hy. apply Hp; by right. }
    rewrite Hb. cbn [mbind option_bind].
    rewrite (normalized_flag ai_is_signer), (normalized_flag ai_is_writable);
      try done; [by destruct a | intros; by rewrite normalized_meta_eq..]. }
  cbn [mbind option_bind]. rewrite IH; [done|]. intros b Hb. apply Hsub. by right.
Qed.

(** ** The attacks *)

Lemma require_distinct_Ok keys : require_distinct keys = Ok tt -> NoDup keys.
Proof.
  induction keys as [|k keys IH]; simpl; [constructor|].
  intros (? & Hk%require_Ok & Hr)%bind_Ok. to_prop. constructor; auto.
Qed.

Lemma require_distinct_Err keys e : require_distinct keys = Err e -> e = AliasedAttackRole.
Proof.
  induction keys as [|k keys IH]; simpl; [discriminate|].
  intros [[_ ->]%require_Err|(? & _ & Hr)]%bind_Err; auto.
Qed.

(** The errors that report a successful attack. *)
Definition unexpected (e : RouterError) : bool :=
  bool_decide (e ∈ [ReplayUnexpectedlySucceeded; SpendDrainUnexpectedlySucceeded;
                    CallbackReuseUnexpectedlySucceeded]).

(** Invert a run of an attack that ended in such an error, and the guards it
    passed. *)
Ltac inv_attack :=
  repeat match goal with
  | Hu : unexpected ?e = true, H : (_ ≫= _) = Err ?e |- _ =>
      apply bind_Err in H as [H|(? & ? & H)];
      [exfalso; revert H Hu; unfold require_router, account_at, map_err, ok_or, require;
       first [intros H; apply require_distinct_Err in H; subst; discriminate
             | repeat case_match; intros H Hu; try discriminate H;
               injection H as <-; discriminate Hu] |]
  end.
Ltac inv_router :=
  repeat match goal with
  | H : require_router _ _ = Ok _ |- _ => apply require_Ok in H
  | H : require_distinct _ = Ok ?u |- _ => destruct u; apply require_distinct_Ok in H
  | H : map_err _ _ = Ok _ |- _ => apply map_err_Ok in H
  end.

(** An unsigned position stays unsigned in the meta the router builds for it. *)
Lemma unsigned_meta accounts index a :
  presented accounts -> account_at accounts index = Ok a -> ai_is_signer a = false ->
  am_is_signer (normalized_meta a accounts) = false.
Proof.
  intros Hp Ha%ok_or_Ok%list_elem_of_lookup_2 Hs. rewrite normalized_meta_eq. cbn [am_is_signer].
  by rewrite presented_flag.
Qed.

Section Attacks.
Context `{Runtime} {C : CoreConfig} (cpi : Cpi) (execute_discriminator : list Z).
Context (decode_args : list Z -> option ExecuteCallbackAuthenticatedProbeV0Args).

(** The classic token program asks a single transfer authority to sign: some
    meta of its key must. *)
Definition transfer_authority_signs : Prop :=
  forall w ix infos seeds w' args source destination authority,
    ix_program_id ix = spl_token_ID -> ix_data ix = CLASSIC_TOKEN_TRANSFER_TAG :: args ->
    ix_accounts ix = [source; destination; authority] -> cpi w ix infos seeds = Ok w' ->
    meta_flag am_is_signer (ix_accounts ix) (am_pubkey authority) = true.

Hypothesis core_runs : runs cpi routed_ID execute_discriminator (core_handler decode_args).
Hypothesis helper_runs :
  runs cpi CallbackProbe.ID HELPER_INCREMENT_DISCRIMINATOR CallbackProbe.increment_handler.
Hypothesis token_signs : transfer_authority_signs.

(** The attack ran to its end: every guard passed, and the nested call. *)
Lemma drain_fails w accounts i1 i2 i3 i4 amount e :
  presented accounts -> attempt_spend_drain cpi w accounts i1 i2 i3 i4 amount = Err e ->
  unexpected e = false.
Proof.
  intros Hp Hd. apply not_true_iff_false. intros Hu. unfold attempt_spend_drain in Hd. inv_attack. inv_router. to_prop.
  match goal with H : cpi _ _ _ _ = Ok _ |- _ =>
    eapply token_signs in H; [|reflexivity|reflexivity|reflexivity]; cbn [ix_accounts] in H;
    unfold meta_flag in H; cbn [existsb] in H; rename H into Hs end.
  match goal with H : NoDup [_; _; _; _] |- _ =>
    distinct_entries H 0%nat 2%nat; distinct_entries H 1%nat 2%nat end.
  match goal with H : account_at accounts i3 = Ok _ |- _ =>
    rewrite (unsigned_meta accounts i3 _ Hp H) in Hs by done end.
  rewrite !normalized_meta_eq in Hs. cbn [am_pubkey] in Hs.
  rewrite !key_eqb_ne, andb_false_r in Hs by done. discriminate.
Qed.

Lemma reuse_fails w accounts i1 i2 i3 amount e :
  presented accounts -> attempt_callback_reuse cpi w accounts i1 i2 i3 amount = Err e ->
  unexpected e = false.
Proof.
  intros Hp Hd. apply not_true_iff_false. intros Hu. unfold attempt_callback_reuse in Hd. inv_attack. inv_router. to_prop.
  match goal with H : cpi _ _ _ _ = Ok _ |- _ =>
    eapply helper_runs in H as (infos & w1 & Hacc & Hrun & _); [|reflexivity|reflexivity] end.
  apply CallbackProbe.callback_increment_Ok in Hrun as (st & cb & hs & -> & _ & _ & _ & _ & Hs & _).
  unfold callee_accounts in Hacc. cbn [ix_accounts mapM] in Hacc.
  apply bind_Some in Hacc as (j1 & _ & Hacc). apply bind_Some in Hacc as (l & Hl & [= -> ->]).
  apply bind_Some in Hl as (j2 & Hcb & Hl). injection Hl as ->.
  apply callee_info_signer in Hcb. rewrite Hcb in Hs. unfold meta_flag in Hs. cbn [existsb] in Hs.
  match goal with H : NoDup [_; _; _] |- _ => distinct_entries H 1%nat 2%nat end.
  match goal with H : account_at accounts i3 = Ok _ |- _ =>
    rewrite (unsigned_meta accounts i3 _ Hp H) in Hs by done end.
  rewrite !normalized_meta_eq in Hs. cbn [am_pubkey] in Hs.
  rewrite key_eqb_ne, andb_false_r in Hs by done. discriminate.
Qed.

(** Core called twice with the same accounts: the source is spent. *)
Lemma replay_fails w core_program accounts data w1 w2 rest :
  cpi_frame -> data = execute_discriminator ++ rest ->
  forward_core cpi w core_program accounts data = Ok w1 ->
  forward_core cpi w1 core_program accounts data = Ok w2 -> False.
Proof.
  intros Hframe -> H1 H2. unfold forward_core in H1, H2. inv_handler. inv_router.
  assert (forall w w', cpi w (forward_instruction accounts (execute_discriminator ++ rest))
      (accounts ++ [core_program]) [] = Ok w' ->
    exists v a remaining args ev,
      (ai_key <$> accounts) !! 5%nat = Some (key (ev_user_source_a (re_env a))) /\
      execute_callback_authenticated_probe (enter w) a remaining args = Ok (v, ev) /\
      w' = leave w v) as Hrun.
  { intros v v' Hc. eapply core_runs in Hc as (infos & v1 & Hacc & Hh & ->); [|reflexivity|reflexivity].
    apply callee_accounts_keys in Hacc. apply core_handler_Ok in Hh as (a & r & x & ev & Hk & Hx).
    exists v1, a, r, x, ev. split_and!; [|done|done].
    rewrite <- list_lookup_fmap in Hk. change (ai_key <$> infos) with (map ai_key infos) in Hk.
    rewrite Hacc in Hk. unfold forward_instruction, normalized_metas in Hk. cbn [ix_accounts] in Hk.
    rewrite map_map in Hk. rewrite <- Hk. f_equal. apply map_ext. intros b.
    by rewrite normalized_meta_eq. }
  apply Hrun in H1 as (v1 & a1 & r1 & x1 & ev1 & K1 & E1 & ->).
  apply Hrun in H2 as (v2 & a2 & r2 & x2 & ev2 & K2 & E2 & _).
  rewrite K1 in K2. injection K2 as K2.
  pose proof (spent_source_rejected _ _ _ _ _ _ Hframe E1 (enter (leave w v1)) a2 r2 x2
    (eq_sym K2) eq_refl) as Hf. by rewrite E2 in Hf.
Qed.

Lemma forward_core_Err w core_program accounts data e :
  forward_core cpi w core_program accounts data = Err e -> unexpected e = false.
Proof.
  unfold forward_core. intros He. apply not_true_iff_false. intros Hu. inv_attack.
  unfold map_err in He. case_match; try discriminate He. injection He as <-. discriminate Hu.
Qed.

(** C10. No attack through the router works: it succeeds only by forwarding Core's
    instruction once, and it never reports that an attack went through. A second
    execution from the same source fails, because the first left no delegate; a
    token transfer by the spend authority fails, and so does a helper increment
    by the callback authority after Core returned, because neither signs for
    the router and the router cannot make it sign. *)
Theorem router_attacks_fail w core_program remaining args :
  cpi_frame -> presented remaining ->
  (rp_mode args = ForwardTwice ->
   exists rest, rp_core_instruction_data args = execute_discriminator ++ rest) ->
  (forall w', route cpi w core_program remaining args = Ok w' ->
     rp_mode args = ForwardOnce /\
     cpi w (forward_instruction remaining (rp_core_instruction_data args))
       (remaining ++ [core_program]) [] = Ok w') /\
  (forall e, route cpi w core_program remaining args = Err e -> unexpected e = false).
Proof.
  intros Hframe Hp Hdata. unfold route. split.
  - intros w' (? & _ & Hr)%bind_Ok. destruct (rp_mode args) as [| |? ? ? ? ?|? ? ? ?].
    + unfold forward_core in Hr. by inv_handler.
    + by inv_handler.
    + unfold attempt_spend_drain in Hr. by inv_handler.
    + unfold attempt_callback_reuse in Hr. by inv_handler.
  - intros e [He|(? & _ & Hr)]%bind_Err.
    { unfold validate_router_envelope in He. apply not_true_iff_false. intros Hu. inv_attack.
      revert He Hu. unfold require_router, require. case_match; [discriminate|].
      intros [= <-]. discriminate. }
    destruct (rp_mode args) as [| |? ? ? ? ?|? ? ? ?].
    + by eapply forward_core_Err.
    + destruct (Hdata eq_refl) as [rest Hrest].
      apply bind_Err in Hr as [Hr|(w1 & H1 & Hr)]; [by eapply forward_core_Err|].
      apply bind_Err in Hr as [Hr|(w2 & H2 & _)]; [by eapply forward_core_Err|].
      destruct (replay_fails _ _ _ _ _ _ _ Hframe Hrest H1 H2).
    + by eapply drain_fails.
    + apply bind_Err in Hr as [Hr|(w1 & H1 & Hr)]; [by eapply forward_core_Err|].
      by eapply reuse_fails.
Qed.
End Attacks.

(** ** The routed lifecycle behind the router

    Core, the callback probe and a token program that checks its authority, on
    the runtime of the lifecycle of RoutedProperties. *)
#[export] Instance AccountInfo_eq_dec : EqDecision AccountInfo.
Proof. solve_decision. Defined.
Lemma presented_check l :
  forallb (fun a => forallb (fun b =>
    negb (key_eqb (ai_key a) (ai_key b)) || bool_decide (a = b)) l) l = true -> presented l.
Proof.
  rewrite forallb_forall. intros Hl a b Ha Hb Hk. apply list_elem_of_In in Ha, Hb.
  specialize (Hl a Ha). rewrite forallb_forall in Hl. specialize (Hl b Hb).
  rewrite Hk, key_eqb_refl in Hl. cbn [negb orb] in Hl. by apply bool_decide_eq_true in Hl.
Qed.

Section Example.
#[local] Instance router_runtime : Runtime := answering_runtime.
#[local] Instance router_config : CoreConfig := routed_config.

Definition EXECUTE_DISCRIMINATOR : list Z := [0x56; 0xfc; 0x03; 0x93; 0xae; 0x1c; 0x70; 0x46].
Definition transfer_handler : Handler := fun w accounts args =>
  match accounts with
  | [_; _; authority] => _ ← require_engine (ai_is_signer authority) InvalidAuthority; Ok w
  | _ => Err EngineConstraint
  end.
Definition decode_lifecycle : list Z -> option ExecuteCallbackAuthenticatedProbeV0Args :=
  fun data => if bool_decide (data = []) then Some (lifecycle_args 0) else None.
Definition router_cpi : Cpi :=
  table_cpi [(routed_ID, EXECUTE_DISCRIMINATOR, wrap EngineCpi (core_handler decode_lifecycle));
             (CallbackProbe.ID, HELPER_INCREMENT_DISCRIMINATOR, CallbackProbe.increment_handler);
             (spl_token_ID, [CLASSIC_TOKEN_TRANSFER_TAG], transfer_handler)].

Definition router_accounts : list AccountInfo :=
  let a := lifecycle_accounts 0 in
  let e := re_env a in
  [acc_info (ev_market e); acc_info (ev_domain e); acc_info (ev_fee_ledger e);
   acc_info (ev_mint_a e); acc_info (ev_mint_b e); acc_info (ev_user_source_a e);
   acc_info (ev_user_destination_b e); acc_info (ev_vault_a e); acc_info (ev_vault_b e);
   acc_info (ev_fee_vault e); ev_engine_program e; ev_engine_state e; re_spend_authority a;
   re_primary_callback a; re_commit_callback a; ev_token_program e] ++ routed_opaque.
Definition core_info : AccountInfo := test_account routed_ID system_program_k false false true.
Definition router_run (mode : RouterMode) : router_result World :=
  route router_cpi (authorized_world 0) core_info router_accounts
    {| rp_mode := mode; rp_core_instruction_data := EXECUTE_DISCRIMINATOR |}.

(** A relayer's one forward settles; the second of two is refused by Core. *)
Example router_forwards_once :
  (is_ok (router_run ForwardOnce), is_ok (router_run ForwardTwice)) = (true, false).
Proof. vm_compute. reflexivity. Qed.

Lemma router_forward_transparent_witness :
  callee_accounts (forward_instruction router_accounts []) (router_accounts ++ [core_info]) =
    Some router_accounts.
Proof. apply router_forward_transparent. apply presented_check. vm_compute. reflexivity. Defined.

Lemma router_core_runs : runs router_cpi routed_ID EXECUTE_DISCRIMINATOR (core_handler decode_lifecycle).
Proof. apply (runs_wrapped _ _ _ EngineCpi), table_cpi_runs. Qed.
Lemma router_helper_runs :
  runs router_cpi CallbackProbe.ID HELPER_INCREMENT_DISCRIMINATOR CallbackProbe.increment_handler.
Proof. apply table_cpi_skip; [by left | apply table_cpi_runs]. Qed.
Lemma router_token_signs : transfer_authority_signs router_cpi.
Proof.
  intros w ix infos seeds w' args source destination authority Hid Hdata Hix Hc.
  assert (runs router_cpi spl_token_ID [CLASSIC_TOKEN_TRANSFER_TAG] transfer_handler) as Hr.
  { do 2 (apply table_cpi_skip; [left; vm_compute; discriminate|]). apply table_cpi_runs. }
  destruct (Hr w ix infos seeds w' args Hid Hdata Hc) as (accounts & w1 & Hacc & Hh & _).
  unfold callee_accounts in Hacc. rewrite Hix in Hacc. cbn [mapM] in Hacc. rewrite Hix.
  repeat match goal with
  | H : _ ≫= _ = Some _ |- _ => apply bind_Some in H as (? & ? & H)
  | H : mret _ = Some _ |- _ => injection H; clear H; intros; subst
  end.
  unfold transfer_handler in Hh. inv_engine.
  match goal with H : callee_info _ _ authority = Some _, Hs : ai_is_signer _ = true |- _ =>
    apply callee_info_signer in H; rewrite H in Hs; exact Hs end.
Qed.

Lemma router_attacks_fail_witness :
  exists e, router_run ForwardTwice = Err e /\ unexpected e = false.
Proof.
  destruct (router_run ForwardTwice) as [w|e|] eqn:E;
    [assert (is_ok (router_run ForwardTwice) = false) as Hf by (vm_compute; reflexivity);
     rewrite E in Hf; discriminate Hf | |
     assert (match router_run ForwardTwice with Panic => false | _ => true end = true) as Hf
       by (vm_compute; reflexivity); rewrite E in Hf; discriminate Hf].
  exists e. split; [reflexivity|].
  apply (proj2 (router_attacks_fail router_cpi EXECUTE_DISCRIMINATOR decode_lifecycle
    router_core_runs router_helper_runs router_token_signs (authorized_world 0) core_info
    router_accounts {| rp_mode := ForwardTwice; rp_core_instruction_data := EXECUTE_DISCRIMINATOR |}
    answering_frame ltac:(apply presented_check; vm_compute; reflexivity)
    (fun _ => ex_intro _ [] eq_refl)) e E).
Defined.
End Example.
