(* ===== verification/Ledger.v ===== *)
(** * The books of one market, as an abstract ledger

    What the instructions of a core program promise together: an abstract
    ledger of three accounted balances with two transitions, a deposit and a
    settlement, and a simulation: every successful instruction on a market is
    the transition its arguments name, and everything else leaves the books
    alone, so every reachable ledger stays solvent and the books equal the
    deposits and settlements that happened.

    The settlement instruction is the class [SettlementProgram]; the three
    cores are its instances at the end of the file. *)
From S2P Require Import Prelude Codec CoreState Solana ReferenceRuntime FeeMath Validation.
From S2P Require Import Deposit Settlement Initialize EngineProbe GeneratedCore.
From S2P Require Import RoutedExecute RoutedProperties.

(** ** The abstract ledger *)

Record Book := { bk_a : Z; bk_b : Z; bk_fee : Z }.
Definition empty_book : Book := {| bk_a := 0; bk_b := 0; bk_fee := 0 |}.

Inductive action :=
  | ActDeposit (asset_index amount : Z)
  | ActSettle (amount_in fee amount_out : Z)
  | ActOther.

(** One transition; [None] where the ledger refuses it. *)
Definition book_step (b : Book) (x : action) : option Book :=
  match x with
  | ActDeposit i n =>
      if negb (0 <? n) then None
      else if i =? ASSET_A_INDEX_V0 then
        if bk_a b + n <? 2 ^ 64
        then Some {| bk_a := bk_a b + n; bk_b := bk_b b; bk_fee := bk_fee b |} else None
      else if i =? ASSET_B_INDEX_V0 then
        if bk_b b + n <? 2 ^ 64
        then Some {| bk_a := bk_a b; bk_b := bk_b b + n; bk_fee := bk_fee b |} else None
      else None
  | ActSettle n fee out =>
      if (0 <? n) && (0 <? out) && bool_decide (fee_ceil n PROTOCOL_FEE_BPS_V0 = Ok fee) &&
         (bk_a b + n <? 2 ^ 64) && (out <=? bk_b b) && (bk_fee b + fee <? 2 ^ 64)
      then Some {| bk_a := bk_a b + n; bk_b := bk_b b - out; bk_fee := bk_fee b + fee |}
      else None
  | ActOther => Some b
  end.

Fixpoint book_run (b : Book) (xs : list action) : option Book :=
  match xs with
  | [] => Some b
  | x :: xs => b' ← book_step b x; book_run b' xs
  end.

(** What a history adds to the books. *)
Definition deposited (asset_index : Z) (xs : list action) : Z :=
  foldr (fun x s => match x with ActDeposit i n => if i =? asset_index then n + s else s
                               | _ => s end) 0 xs.
Definition settled_in (xs : list action) : Z :=
  foldr (fun x s => match x with ActSettle n _ _ => n + s | _ => s end) 0 xs.
Definition settled_fee (xs : list action) : Z :=
  foldr (fun x s => match x with ActSettle _ f _ => f + s | _ => s end) 0 xs.
Definition settled_out (xs : list action) : Z :=
  foldr (fun x s => match x with ActSettle _ _ o => o + s | _ => s end) 0 xs.

Lemma book_step_totals b x b' :
  book_step b x = Some b' ->
  bk_a b' = bk_a b + deposited 0 [x] + settled_in [x] /\
  bk_b b' = bk_b b + deposited 1 [x] - settled_out [x] /\
  bk_fee b' = bk_fee b + settled_fee [x] /\
  (0 <= bk_b b -> 0 <= bk_b b') /\
  settled_in [x] * PROTOCOL_FEE_BPS_V0 <= settled_fee [x] * 10000.
Proof.
  unfold book_step, ASSET_A_INDEX_V0, ASSET_B_INDEX_V0. destruct x as [i n|n fee out|]; simpl.
  - destruct (Z.ltb_spec 0 n); simpl; [|discriminate].
    destruct (Z.eqb_spec i 0) as [->|]; [|destruct (Z.eqb_spec i 1) as [->|]; [|discriminate]].
    + destruct (_ <? _); intros [= <-]; simpl; lia.
    + destruct (_ <? _); intros [= <-]; simpl; lia.
  - destruct (_ && _) eqn:E; [|discriminate]. intros [= <-]. to_prop. simpl.
    match goal with H : fee_ceil _ _ = Ok _ |- _ => apply fee_ceil_covers in H end. lia.
  - intros [= <-]. lia.
Qed.

Lemma book_run_totals b xs b' :
  book_run b xs = Some b' ->
  bk_a b' = bk_a b + deposited 0 xs + settled_in xs /\
  bk_b b' = bk_b b + deposited 1 xs - settled_out xs /\
  bk_fee b' = bk_fee b + settled_fee xs /\
  (0 <= bk_b b -> 0 <= bk_b b') /\
  settled_in xs * PROTOCOL_FEE_BPS_V0 <= settled_fee xs * 10000.
Proof.
  revert b. induction xs as [|x xs IH]; intros b; simpl.
  - intros [= <-]. lia.
  - intros (b1 & H1 & H2)%bind_Some. apply IH in H2. apply book_step_totals in H1.
    destruct x; simpl in *; repeat case_match; lia.
Qed.

(** ** The accounts of one market *)

Record Site := {
  s_domain : Pubkey;
  s_ledger : Pubkey;
  s_vault_a : Pubkey;
  s_vault_b : Pubkey;
  s_fee_vault : Pubkey }.

Definition site_keys (s : Site) : list Pubkey :=
  [s_domain s; s_ledger s; s_vault_a s; s_vault_b s; s_fee_vault s].
Definition site_vaults (s : Site) : list Pubkey := [s_vault_a s; s_vault_b s; s_fee_vault s].

Definition on_site (s : Site) (e : Envelope) : Prop :=
  key (ev_domain e) = s_domain s /\ key (ev_fee_ledger e) = s_ledger s /\
  key (ev_vault_a e) = s_vault_a s /\ key (ev_vault_b e) = s_vault_b s /\
  key (ev_fee_vault e) = s_fee_vault s.

(** What a settlement instruction promises the ledger. *)
Definition settles (w w' : World) (e : Envelope) (amount_in fee amount_out : Z) : Prop :=
  0 < amount_in /\ 0 < amount_out /\ fee_ceil amount_in PROTOCOL_FEE_BPS_V0 = Ok fee /\
  token_effect w w' e amount_in fee amount_out /\ core_effect w w' e amount_in fee amount_out.

Class SettlementProgram (Req Ev : Type) := {
  sp_execute : World -> Req -> result (World * Ev);
  sp_envelope : Req -> Envelope;
  sp_amount_in : Req -> Z;
  sp_fee : Ev -> Z;
  sp_amount_out : Req -> Ev -> Z;
  sp_settles : forall w r w' ev,
    sp_execute w r = Ok (w', ev) ->
    settles w w' (sp_envelope r) (sp_amount_in r) (sp_fee ev) (sp_amount_out r ev) }.

Section Ledger.
Context `{Runtime} {C : CoreConfig}.

(** The abstraction: a world holds a book for a market when the stored domain
    and fee ledger are the book and every vault covers its balance. *)
Definition holds (s : Site) (w : World) (b : Book) : Prop :=
  NoDup (site_keys s) /\
  exists d l va vb vf,
    domain_at w (s_domain s) = Some d /\ fee_ledger_at w (s_ledger s) = Some l /\
    canonical_domain_vault (s_domain s) ASSET_A_INDEX_V0 (d_vault_a_bump d) = Ok (s_vault_a s) /\
    canonical_domain_vault (s_domain s) ASSET_B_INDEX_V0 (d_vault_b_bump d) = Ok (s_vault_b s) /\
    d_accounted_a d = bk_a b /\ d_accounted_b d = bk_b b /\ fl_accounted_fee_a l = bk_fee b /\
    balance w (s_vault_a s) = Some va /\ bk_a b <= va /\
    balance w (s_vault_b s) = Some vb /\ bk_b b <= vb /\
    balance w (s_fee_vault s) = Some vf /\ bk_fee b <= vf.

(** Anything else that happens on chain: only Core writes the domain and the
    fee ledger, and only Core signs for the vaults, so their balances can only
    grow. *)
Definition untouched (s : Site) (w w' : World) : Prop :=
  domain_at w' (s_domain s) = domain_at w (s_domain s) /\
  fee_ledger_at w' (s_ledger s) = fee_ledger_at w (s_ledger s) /\
  forall k b, k ∈ site_vaults s -> balance w k = Some b ->
    exists b', balance w' k = Some b' /\ b <= b'.

Context `{P : SettlementProgram Req Ev}.

(** The steps of a market: its two instructions, applied to any accounts, and
    everything else. The provider's own account is not one of the market's:
    a token account whose owner signed is not owned by a Core PDA. *)
Inductive step (s : Site) : World -> action -> World -> Prop :=
  | step_deposit w a remaining args w' ev :
      deposit w a remaining args = Ok (w', ev) ->
      key (dp_domain a) = s_domain s ->
      (key (dp_provider_source a) ∉ site_keys s) ->
      step s w (ActDeposit (dpa_asset_index args) (dpa_amount args)) w'
  | step_settle w r w' ev :
      sp_execute w r = Ok (w', ev) ->
      on_site s (sp_envelope r) ->
      step s w (ActSettle (sp_amount_in r) (sp_fee ev) (sp_amount_out r ev)) w'
  | step_other w w' : untouched s w w' -> step s w ActOther w'.

Inductive history (s : Site) : World -> list action -> World -> Prop :=
  | history_nil w : history s w [] w
  | history_cons w x w1 xs w' : step s w x w1 -> history s w1 xs w' -> history s w (x :: xs) w'.

(** ** Simulation *)

Lemma deposit_vault_and_frame w a remaining args w' ev :
  transfer_frame ->
  deposit w a remaining args = Ok (w', ev) ->
  let i := dpa_asset_index args in
  let domain := acc_data (dp_domain a) in
  domain_at w (key (dp_domain a)) = Some domain /\
  canonical_domain_vault (key (dp_domain a)) i
    (if i =? ASSET_A_INDEX_V0 then d_vault_a_bump domain else d_vault_b_bump domain) =
    Ok (key (dp_domain_vault a)) /\
  forall k, k <> key (dp_domain a) -> k <> key (dp_provider_source a) ->
    k <> key (dp_domain_vault a) -> w_accounts w' !! k = w_accounts w !! k.
Proof.
  intros Hframe Hd. unfold deposit, handle_deposit_v0 in Hd. inv_guarded.
  match goal with H : select_asset _ _ _ = Ok ?r |- _ =>
    destruct r as [[mint bump] before]; unfold select_asset in H end.
  simpl in *. inv_guarded. simpl in *. subst. split; [|split].
  - match goal with H : deposit_constraints _ _ = true |- _ => unfold deposit_constraints in H end.
    to_prop. by eapply (is_account_loaded domain_at).
  - destruct (_ =? ASSET_A_INDEX_V0); [inv_ok; congruence|].
    destruct (_ =? ASSET_B_INDEX_V0); [inv_ok; congruence | discriminate].
  - intros k Hk1 Hk2 Hk3. unfold key in *; simpl. rewrite lookup_insert_ne by done.
    eapply Hframe; [eassumption|done..].
Qed.

Lemma balance_lookup w w' k :
  w_accounts w' !! k = w_accounts w !! k -> balance w' k = balance w k.
Proof. intros Hk. unfold balance, token_at. by rewrite Hk. Qed.
Lemma fee_ledger_lookup w w' k :
  w_accounts w' !! k = w_accounts w !! k -> fee_ledger_at w' k = fee_ledger_at w k.
Proof. intros Hk. unfold fee_ledger_at. by rewrite Hk. Qed.

Lemma deposit_refines s w b a remaining args w' ev :
  transfer_frame -> holds s w b ->
  deposit w a remaining args = Ok (w', ev) ->
  key (dp_domain a) = s_domain s -> (key (dp_provider_source a) ∉ site_keys s) ->
  exists b', book_step b (ActDeposit (dpa_asset_index args) (dpa_amount args)) = Some b' /\
    holds s w' b'.
Proof.
  intros Hframe (Hnd & d & l & va & vb & vf & Hd & Hl & Ca & Cb & Ea & Eb & Ef & Ba & La & Bb & Lb &
    Bf & Lf) Hx Kd Ksrc.
  pose proof (deposit_vault_and_frame _ _ _ _ _ _ Hframe Hx) as (Hd0 & Hv & Hfr).
  apply deposit_effects in Hx as (Hi & Hn & d1 & src & v & d' & src' & v' & Hd1 & _ & Hv1 & Hd' & _ &
    Hv1' & _ & Eva & Ed' & Hcov & Hlt & _).
  rewrite Kd in *. assert (d1 = d) as -> by congruence.
  assert (acc_data (dp_domain a) = d) as Ead by congruence. rewrite Ead in Hv.
  pose proof Hnd as Hkeys.
  unfold site_keys in Hnd, Ksrc. rewrite !NoDup_cons, !not_elem_of_cons in Hnd.
  rewrite !not_elem_of_cons in Ksrc. destruct_and! Hnd. destruct_and! Ksrc.
  unfold book_step, accounted_of, ASSET_A_INDEX_V0, ASSET_B_INDEX_V0 in *.
  rewrite (proj2 (Z.ltb_lt 0 _)) by done. simpl.
  destruct Hi as [Hi | Hi]; rewrite Hi in *; simpl in *.
  - assert (key (dp_domain_vault a) = s_vault_a s) as Kv by congruence. rewrite Kv in *.
    subst d'. simpl in *. rewrite (proj2 (Z.ltb_lt _ _)) by lia.
    eexists. split; [reflexivity|]. split; [done|].
    exists (set_accounted_a d (d_accounted_a d + dpa_amount args)), l, (va + dpa_amount args), vb, vf.
    assert (ta_amount v = va) as <- by (unfold balance in Ba; rewrite Hv1 in Ba; by injection Ba).
    rewrite (fee_ledger_lookup w w'), (balance_lookup w w' (s_vault_b s)),
      (balance_lookup w w' (s_fee_vault s)) by (apply Hfr; congruence).
    unfold balance at 1. rewrite Hv1'. simpl. rewrite Eva. split_and!; try done; lia.
  - assert (key (dp_domain_vault a) = s_vault_b s) as Kv by congruence. rewrite Kv in *.
    subst d'. simpl in *. rewrite (proj2 (Z.ltb_lt _ _)) by lia.
    eexists. split; [reflexivity|]. split; [done|].
    exists (set_accounted_b d (d_accounted_b d + dpa_amount args)), l, va, (vb + dpa_amount args), vf.
    assert (ta_amount v = vb) as <- by (unfold balance in Bb; rewrite Hv1 in Bb; by injection Bb).
    rewrite (fee_ledger_lookup w w'), (balance_lookup w w' (s_vault_a s)),
      (balance_lookup w w' (s_fee_vault s)) by (apply Hfr; congruence).
    unfold balance at 2. rewrite Hv1'. simpl. rewrite Eva. split_and!; try done; lia.
Qed.

Lemma settle_refines s w b w' e amount fee out :
  holds s w b -> settles w w' e amount fee out -> on_site s e ->
  exists b', book_step b (ActSettle amount fee out) = Some b' /\ holds s w' b'.
Proof.
  intros (Hnd & d & l & va & vb & vf & Hd & Hl & Ca & Cb & Ea & Eb & Ef & Ba & La & Bb & Lb &
    Bf & Lf) (Hn & Ho & Hfee & (_ & (a0 & Ma & Ma') & (f0 & Mf & Mf') & (b0 & Mb & Mb') & _) &
    (d0 & l0 & Cd & Cl & Cd' & Cl' & B1 & B2 & B3)) (Kd & Kl & Ka & Kb & Kf).
  rewrite Kd, Kl, Ka, Kb, Kf in *. simplify_eq.
  exists {| bk_a := bk_a b + amount; bk_b := bk_b b - out; bk_fee := bk_fee b + fee |}. split.
  - unfold book_step. rewrite (bool_decide_eq_true_2 _ Hfee).
    rewrite !(proj2 (Z.ltb_lt _ _)), (proj2 (Z.leb_le _ _)) by lia. done.
  - split; [done|]. do 5 eexists. split_and!; try eassumption; simpl; try done; lia.
Qed.

Lemma untouched_refines s w b w' :
  holds s w b -> untouched s w w' -> holds s w' b.
Proof.
  intros (Hnd & d & l & va & vb & vf & Hd & Hl & Ca & Cb & Ea & Eb & Ef & Ba & La & Bb & Lb &
    Bf & Lf) (Ud & Ul & Uv).
  destruct (Uv (s_vault_a s) va) as (va' & ? & ?); [unfold site_vaults; set_solver | done|].
  destruct (Uv (s_vault_b s) vb) as (vb' & ? & ?); [unfold site_vaults; set_solver | done|].
  destruct (Uv (s_fee_vault s) vf) as (vf' & ? & ?); [unfold site_vaults; set_solver | done|].
  split; [done|]. exists d, l, va', vb', vf'. rewrite Ud, Ul. split_and!; try done; lia.
Qed.

Lemma step_refines s w b x w' :
  transfer_frame -> holds s w b -> step s w x w' ->
  exists b', book_step b x = Some b' /\ holds s w' b'.
Proof.
  intros Hframe Hh Hs. inversion Hs; subst; clear Hs.
  - eapply deposit_refines; eauto.
  - eapply settle_refines; eauto using sp_settles.
  - exists b. split; [done|]. by eapply untouched_refines.
Qed.

Lemma history_refines s w b xs w' :
  transfer_frame -> holds s w b -> history s w xs w' ->
  exists b', book_run b xs = Some b' /\ holds s w' b'.
Proof.
  intros Hframe Hh Hs. revert b Hh. induction Hs as [w|w x w1 xs w' Hstep _ IH]; intros b Hh.
  - exists b. by split.
  - destruct (step_refines _ _ _ _ _ Hframe Hh Hstep) as (b1 & Hb1 & Hh1).
    destruct (IH b1 Hh1) as (b' & Hb' & Hh'). exists b'. split; [|done]. simpl. by rewrite Hb1.
Qed.
End Ledger.

(** ** The three settlement programs *)

Section Programs.
Context `{Runtime} {C : CoreConfig}.

Lemma kernel_settles w a remaining args w' ev :
  execute_engine_probe w a remaining args = Ok (w', ev) ->
  settles w w' (ee_env a) (ea_amount_in args) (epx_protocol_fee ev) (ea_amount_out args).
Proof.
  intros Hx. pose proof Hx as (plan & digest & w1 & rc & w2 & e2 & _ & Henv & _)%execute_engine_probe_Ok.
  unfold probe_envelope in Henv. inv_guarded.
  match goal with H : validate_envelope_state _ = _ |- _ =>
    apply validate_envelope_state_bps in H as Hbps end.
  apply execute_probe_effects in Hx
    as (fee & _ & _ & Hn & Ho & _ & (Hfee & _) & Ht & Hc & _ & _ & ->).
  rewrite Hbps in Hfee. by split_and!.
Qed.

Lemma generated_settles w a remaining args w' ev :
  execute_engine_generated_probe w a remaining args = Ok (w', ev) ->
  settles w w' (ge_env a) (ga_amount_in args) (gx_protocol_fee ev) (gx_amount_out ev).
Proof.
  intros Hx. pose proof Hx as [_ Henv _]%execute_generated_Ok.
  unfold generated_envelope in Henv. inv_guarded.
  match goal with H : validate_envelope_state _ = _ |- _ =>
    apply validate_envelope_state_bps in H as Hbps end.
  apply generated_execution_effects in Hx as (_ & _ & Hn & Ho & _ & (Hfee & _) & Ht & Hc & _).
  rewrite Hbps in Hfee. by split_and!.
Qed.

Lemma routed_settles (Hcpi : cpi_frame) w a remaining args w' ev :
  execute_callback_authenticated_probe w a remaining args = Ok (w', ev) ->
  settles w w' (re_env a) (ra_amount_in args) (cx_protocol_fee ev) (cx_amount_out ev).
Proof.
  intros (phase & au & w1 & pe & st & w2 & e2 & sd & w3 & ce & Hrun)%execute_routed_Ok.
  pose proof (run_authorization _ _ _ _ _ _ _ _ _ _ _ _ _ _ _ _ Hrun) as ((Hfee & _) & _).
  pose proof (run_settlement _ _ _ _ _ _ _ _ _ _ _ _ _ _ _ _ Hrun) as (Ho & _ & _ & Hc & _).
  pose proof (run_final_tokens _ _ _ _ _ _ _ _ _ _ _ _ _ _ _ _ Hrun Hcpi) as [Ht _].
  destruct Hrun. unfold validate_execution_envelope in rr_envelope. inv_guarded.
  match goal with H : validate_envelope_state _ = _ |- _ =>
    apply validate_envelope_state_bps in H as Hbps end.
  rewrite Hbps in Hfee. by split_and!.
Qed.

#[export] Instance kernel_program :
  SettlementProgram (ExecuteEngineProbeV0 * list AccountInfo * ExecuteEngineProbeV0Args)
    EngineProbeExecutedV0 := {|
  sp_execute := fun w '(a, remaining, args) => execute_engine_probe w a remaining args;
  sp_envelope := fun '(a, _, _) => ee_env a;
  sp_amount_in := fun '(_, _, args) => ea_amount_in args;
  sp_fee := epx_protocol_fee;
  sp_amount_out := fun '(_, _, args) _ => ea_amount_out args;
  sp_settles := fun w '(a, remaining, args) w' ev => kernel_settles w a remaining args w' ev |}.

#[export] Instance generated_program :
  SettlementProgram
    (ExecuteEngineGeneratedProbeV0 * list AccountInfo * ExecuteEngineGeneratedProbeV0Args)
    EngineGeneratedProbeExecutedV0 := {|
  sp_execute := fun w '(a, remaining, args) => execute_engine_generated_probe w a remaining args;
  sp_envelope := fun '(a, _, _) => ge_env a;
  sp_amount_in := fun '(_, _, args) => ga_amount_in args;
  sp_fee := gx_protocol_fee;
  sp_amount_out := fun _ ev => gx_amount_out ev;
  sp_settles := fun w '(a, remaining, args) w' ev => generated_settles w a remaining args w' ev |}.

Definition routed_program (Hcpi : cpi_frame) :
  SettlementProgram
    (ExecuteCallbackAuthenticatedProbeV0 * list AccountInfo *
       ExecuteCallbackAuthenticatedProbeV0Args)
    CallbackAuthenticatedProbeExecutedV0 := {|
  sp_execute := fun w '(a, remaining, args) =>
    execute_callback_authenticated_probe w a remaining args;
  sp_envelope := fun '(a, _, _) => re_env a;
  sp_amount_in := fun '(_, _, args) => ra_amount_in args;
  sp_fee := cx_protocol_fee;
  sp_amount_out := fun _ ev => cx_amount_out ev;
  sp_settles := fun w '(a, remaining, args) w' ev =>
    routed_settles Hcpi w a remaining args w' ev |}.

(** ** From initialization *)

Definition site_of (a : InitializeMarketDomainV0) : Site := {|
  s_domain := ai_key (in_domain a); s_ledger := ai_key (in_fee_ledger a);
  s_vault_a := ai_key (in_vault_a a); s_vault_b := ai_key (in_vault_b a);
  s_fee_vault := ai_key (in_fee_vault a) |}.

Lemma initialize_holds w a remaining args w' ev :
  pda_law ->
  initialize_market_domain w a remaining args = Ok (w', ev) ->
  holds (site_of a) w' empty_book.
Proof.
  intros Hpda (bumps & (_ & Ld & Ll & La & Lb & Lf) & (_ & _ & Va & Vb & _) & Hnd & _)
    %(initialize_ledger Hpda).
  split.
  - eapply sublist_NoDup; [exact Hnd|]. unfold initialize_roles, site_keys, site_of; simpl.
    solve_sublist.
  - exists (initial_domain a args bumps), (initial_fee_ledger a bumps), 0, 0, 0.
    unfold balance, site_of; simpl in *. rewrite La, Lb, Lf. by split_and!.
Qed.
End Programs.

(** ** Properties *)

Section Properties.
Context `{Runtime} {C : CoreConfig} `{P : SettlementProgram Req Ev}.

(** Simulation: the concrete instructions implement the abstract ledger.
    From any world that holds a book for a market, any interleaving of
    successful deposits and settlements on it, by the program, and of
    whatever else happens on chain, is a run of the abstract ledger, and the
    world it ends in holds the book of that run; in particular every vault
    covers its accounted balance in every reachable world. *)
Theorem ledger_refines_book s w b xs w' :
  transfer_frame -> holds s w b -> history s w xs w' ->
  exists b', book_run b xs = Some b' /\ holds s w' b'.
Proof. apply history_refines. Qed.

(** The books of a market are its history: from initialization on, the
    accounted balances are exactly the deposits plus the settled inputs, minus
    the settled outputs; no history pays out more of asset B than was
    deposited; the fee ledger is the sum of the fees, at least 30 basis points
    of everything that went in; and every vault covers its balance. *)
Theorem books_equal_history w0 a remaining args w ev xs w' :
  pda_law -> transfer_frame ->
  initialize_market_domain w0 a remaining args = Ok (w, ev) ->
  history (site_of a) w xs w' ->
  exists d l va vb vf,
    domain_at w' (ai_key (in_domain a)) = Some d /\
    fee_ledger_at w' (ai_key (in_fee_ledger a)) = Some l /\
    d_accounted_a d = deposited 0 xs + settled_in xs /\
    d_accounted_b d = deposited 1 xs - settled_out xs /\ settled_out xs <= deposited 1 xs /\
    fl_accounted_fee_a l = settled_fee xs /\
    settled_in xs * PROTOCOL_FEE_BPS_V0 <= settled_fee xs * 10000 /\
    balance w' (ai_key (in_vault_a a)) = Some va /\ d_accounted_a d <= va /\
    balance w' (ai_key (in_vault_b a)) = Some vb /\ d_accounted_b d <= vb /\
    balance w' (ai_key (in_fee_vault a)) = Some vf /\ fl_accounted_fee_a l <= vf.
Proof.
  intros Hpda Hframe Hi Hs.
  destruct (history_refines _ _ _ _ _ Hframe (initialize_holds _ _ _ _ _ _ Hpda Hi) Hs)
    as (b & Hb & _ & d & l & va & vb & vf & Hd & Hl & _ & _ & Ea & Eb & Ef & Ba & La & Bb & Lb & Bf &
        Lf).
  apply book_run_totals in Hb as (Ta & Tb & Tf & Hpos & Hfee). simpl in *.
  exists d, l, va, vb, vf. split_and!; try done; lia.
Qed.
End Properties.

(** ** A concrete history: initialize, deposit 5000, settle 1000 for 900 *)

Section Example.
#[local] Instance history_runtime : Runtime := EngineProbe.example_runtime.
#[local] Instance history_config : CoreConfig := kernel_config.

Definition history_start : World := {|
  w_slot := 0; w_stack_height := 1; w_return_data := None;
  w_accounts := list_to_map [
    (mint_a_k, MintData (test_mint 6)); (mint_b_k, MintData (test_mint 9));
    (source_k, TokenData (test_token mint_a_k user_k 1000000));
    (destination_k, TokenData (test_token mint_b_k user_k 1000000))] |}.
Definition history_initialize : InitializeMarketDomainV0 := initialize_example kernel_config.
Definition history_initialized : result (World * MarketDomainInitializedV0) :=
  initialize_market_domain history_start history_initialize []
    {| ia_market_id := test_key 9; ia_engine_revision := 3 |}.
Definition history_deposit : DepositV0 := {|
  dp_provider := user_info; dp_market := market_account;
  dp_domain := Build_Account (test_account domain_k ID false true false) (test_domain 0 0);
  dp_mint := mint_b_account;
  dp_provider_source := token_account destination_k mint_b_k user_k 1000000;
  dp_domain_vault := token_account vault_b_k mint_b_k domain_k 0;
  dp_token_program := token_program_info |}.
Definition history_probe : ExecuteEngineProbeV0 :=
  let e := example_envelope 0 5000 0 in {|
  ee_user := user_info;
  ee_env := with_tokens e (ev_user_source_a e)
    (token_account destination_k mint_b_k user_k 995000)
    (token_account vault_a_k mint_a_k domain_k 0) (token_account vault_b_k mint_b_k domain_k 5000)
    (token_account fee_vault_k mint_a_k fee_ledger_k 0);
  ee_instructions_sysvar := sysvar_info |}.
Definition history_settle_request :
  ExecuteEngineProbeV0 * list AccountInfo * ExecuteEngineProbeV0Args :=
  (history_probe, [], example_probe_args).

Definition world_of {A} (r : result (World * A)) : World :=
  match r with Ok (w, _) => w | _ => history_start end.
Definition history_deposited : result (World * LiquidityDepositedV0) :=
  deposit (world_of history_initialized) history_deposit []
    {| dpa_asset_index := 1; dpa_amount := 5000 |}.
Definition history_settled : result (World * EngineProbeExecutedV0) :=
  sp_execute (world_of history_deposited) history_settle_request.

Lemma world_of_Ok {A} (r : result (World * A)) w x : r = Ok (w, x) -> world_of r = w.
Proof. by intros ->. Qed.

Definition history_actions : list action := [ActDeposit 1 5000; ActSettle 1000 3 900].

Lemma example_history :
  history (P := kernel_program) (site_of history_initialize) (world_of history_initialized)
    history_actions (world_of history_settled).
Proof.
  destruct (is_ok_Ok history_deposited) as [[w1 ev1] E1]; [vm_compute; reflexivity|].
  destruct (is_ok_Ok history_settled) as [[w2 ev2] E2]; [vm_compute; reflexivity|].
  assert (epx_protocol_fee ev2 = 3) as Hfee.
  { assert (match history_settled with Ok (_, e) => epx_protocol_fee e | _ => 0 end = 3) as Hf
      by (vm_compute; reflexivity).
    rewrite E2 in Hf. exact Hf. }
  rewrite (world_of_Ok _ _ _ E2). unfold history_actions.
  eapply history_cons; [|eapply history_cons; [|apply history_nil]].
  - eapply (step_deposit _ _ _ _ {| dpa_asset_index := 1; dpa_amount := 5000 |}); [exact E1 | |].
    + vm_compute. reflexivity.
    + apply (bool_decide_unpack _). vm_compute. exact I.
  - rewrite <- Hfee. rewrite <- (world_of_Ok _ _ _ E1).
    apply (step_settle (site_of history_initialize) _ history_settle_request _ _ E2).
    split_and!; vm_compute; reflexivity.
Qed.

Lemma ledger_refines_book_witness :
  exists b', book_run empty_book history_actions = Some b' /\
    holds (site_of history_initialize) (world_of history_settled) b'.
Proof.
  destruct (is_ok_Ok history_initialized) as [[w ev] E]; [vm_compute; reflexivity|].
  apply (ledger_refines_book (P := kernel_program) _ (world_of history_initialized)).
  - apply reference_transfer_frame.
  - rewrite (world_of_Ok _ _ _ E).
    exact (initialize_holds _ _ _ _ _ _ (reference_pda_law _) E).
  - exact example_history.
Defined.

Lemma books_equal_history_witness :
  exists d, domain_at (world_of history_settled) domain_k = Some d /\
    d_accounted_a d = 1000 /\ d_accounted_b d = 4100.
Proof.
  destruct (is_ok_Ok history_initialized) as [[w ev] E]; [vm_compute; reflexivity|].
  pose proof example_history as Hh. rewrite (world_of_Ok _ _ _ E) in Hh.
  destruct (books_equal_history (P := kernel_program) _ _ _ _ _ _ _ _ (reference_pda_law _)
    (reference_transfer_frame _) E Hh)
    as (d & l & va & vb & vf & Hd & _ & Ha & Hb & _).
  exists d. split; [exact Hd|]. split; [exact Ha | exact Hb].
Defined.
End Example.
