(* ===== verification/Isolation.v ===== *)
(** * What an execution leaves alone

    A core program keeps the books of many markets, and every instruction names
    its accounts itself. This file proves for the three settlement
    instructions that a successful execution touches no Core account and no
    token account but the seven its envelope declares, whatever the engine does
    and whatever opaque accounts it is handed, and that no token account changes
    hands. Ledger's interface [SettlementProgram] is extended by this promise. *)
From S2P Require Import Prelude Codec CoreState Solana FeeMath Validation Deposit Settlement Initialize.
From S2P Require Import EngineProbe Capability GeneratedCore RoutedAuthorize RoutedExecute.
From S2P Require Import RoutedProperties Ledger.

Section Isolation.
Context `{Runtime} {C : CoreConfig}.

(** ** Facts of the runtime, named *)

(** TransferChecked and ApproveChecked hand no account over: the owner stays,
    and a transfer appoints no delegate. *)
Definition keeps_owner (w w' : World) : Prop :=
  forall k t, token_at w k = Some t ->
    exists t', token_at w' k = Some t' /\ ta_owner t' = ta_owner t /\
      (ta_delegate t = None -> ta_delegate t' = None).

#[export] Instance keeps_owner_preorder : PreOrder keeps_owner.
Proof.
  split; [by intros w k t Ht; exists t|].
  intros w1 w2 w3 H12 H23 k t Ht. destruct (H12 k t Ht) as (t2 & Ht2 & O2 & D2).
  destruct (H23 k t2 Ht2) as (t3 & Ht3 & O3 & D3). exists t3. split; [done|]. split; [congruence|auto].
Qed.

Definition transfer_keeps : Prop :=
  forall w args seeds amount decimals w',
    transfer_checked w args seeds amount decimals = Ok w' -> keeps_owner w w'.

(** What Core stores. *)
Definition core_data (d : AccountData) : Prop :=
  match d with MarketData _ | DomainData _ | FeeLedgerData _ => True | _ => False end.

(** Only Core writes what Core owns: nothing of Core's is created or changed. *)
Definition no_new_core (w w' : World) : Prop :=
  forall k d, core_data d -> w_accounts w' !! k = Some d -> w_accounts w !! k = Some d.

#[export] Instance no_new_core_preorder : PreOrder no_new_core.
Proof. split; [by intros w k d|]. intros w1 w2 w3 H12 H23 k d Hd Hk. by apply H12, H23. Qed.

(** The laws the market theorems use: calls and token instructions write the
    accounts they are given as writable, and none of Core's (a program that runs
    under Core cannot call Core); derived addresses are found again. *)
Record chain_laws : Prop := {
  cl_cpi : cpi_frame;
  cl_cpi_core : forall w ix infos seeds w',
    invoke_signed w ix infos seeds = Ok w' -> no_new_core w w';
  cl_transfer : transfer_frame;
  cl_keeps : transfer_keeps;
  cl_transfer_core : forall w args seeds amount decimals w',
    transfer_checked w args seeds amount decimals = Ok w' -> no_new_core w w';
  cl_approve : forall w args seeds amount decimals w' k,
    approve_checked w args seeds amount decimals = Ok w' -> k <> ai_key (ac_to args) ->
    w_accounts w' !! k = w_accounts w !! k;
  cl_approve_core : forall w args seeds amount decimals w',
    approve_checked w args seeds amount decimals = Ok w' -> no_new_core w w';
  cl_pda : pda_law }.

(** An address derived for the core program. Nobody holds its key, so it signs
    no transaction. *)
Definition core_pda (k : Pubkey) : Prop := exists seeds, create_program_address seeds ID = Some k.
Definition key_holder (i : AccountInfo) : Prop := ai_is_signer i = true -> ~ core_pda (ai_key i).

(** The owner an account is presented with is its owner on the ledger: Core's
    accounts are Core's, token accounts the token program's. *)
Definition presented (w : World) (i : AccountInfo) : Prop :=
  match w_accounts w !! ai_key i with
  | Some (MarketData _ | DomainData _ | FeeLedgerData _) => ai_owner i = ID
  | Some (TokenData _) => ai_owner i = spl_token_ID
  | _ => True
  end.

(** ** The promise *)

Definition core_or_token (w : World) (k : Pubkey) : Prop :=
  match w_accounts w !! k with
  | Some (MarketData _ | DomainData _ | FeeLedgerData _ | TokenData _) => True
  | _ => False
  end.

Definition isolated (w w' : World) (e : Envelope) : Prop :=
  (forall k, core_or_token w k -> (k ∉ settlement_keys e) -> w_accounts w' !! k = w_accounts w !! k) /\
  keeps_owner w w' /\
  (forall k d, core_data d -> k <> key (ev_domain e) -> k <> key (ev_fee_ledger e) ->
     w_accounts w' !! k = Some d -> w_accounts w !! k = Some d).

Lemma presented_foreign w i :
  presented w i -> ai_owner i <> ID -> ai_owner i <> spl_token_ID -> ~ core_or_token w (ai_key i).
Proof.
  unfold presented, core_or_token. intros Hp Hid Htok. destruct (w_accounts w !! ai_key i) as [[]|]; tauto.
Qed.

(** An engine state that passes the envelope checks is neither. *)
Lemma engine_state_foreign w e :
  presented w (ev_engine_state e) -> validate_engine_accounts e = Ok tt ->
  is_token_program (ev_token_program e) = true ->
  ai_key (ev_engine_program e) <> ai_key (ev_token_program e) ->
  ~ core_or_token w (ai_key (ev_engine_state e)).
Proof.
  unfold validate_engine_accounts, is_token_program, key_eqb. intros Hp Hv Ht Hne. inv_guarded. to_prop.
  apply presented_foreign; congruence.
Qed.

(** A call whose writable accounts are all foreign changes no such account. *)
Lemma foreign_call_frame w ix infos seeds w' :
  cpi_frame -> invoke_signed w ix infos seeds = Ok w' ->
  (forall m, m ∈ ix_accounts ix -> am_is_writable m = true -> ~ core_or_token w (am_pubkey m)) ->
  forall k, core_or_token w k -> w_accounts w' !! k = w_accounts w !! k.
Proof. intros Hf Hi Hm k Hk. apply (Hf _ _ _ _ _ k Hi). intros m Hin Hw <-. by apply (Hm m). Qed.

Lemma token_core w k t : token_at w k = Some t -> core_or_token w k.
Proof. unfold token_at, core_or_token. by destruct (w_accounts w !! k) as [[]|]. Qed.
Lemma token_frame w0 w w' k t :
  (forall k, core_or_token w0 k -> w_accounts w' !! k = w_accounts w !! k) ->
  core_or_token w0 k -> token_at w k = Some t -> token_at w' k = Some t.
Proof. intros Hf Hk Ht. unfold token_at in *. by rewrite Hf. Qed.

Lemma settle_keeps w e auth seeds amount_in fee total amount_out w' e' :
  transfer_keeps -> settle w e auth seeds amount_in fee total amount_out = Ok (w', e') ->
  keeps_owner w w'.
Proof.
  intros Hk Hs. unfold settle in Hs. inv_guarded.
  match goal with H : settle_transfers _ _ _ _ _ _ _ = Ok _ |- _ =>
    unfold settle_transfers in H; inv_guarded end.
  repeat match goal with H : transfer_checked _ _ _ _ _ = Ok _ |- _ => apply Hk in H end.
  etransitivity; [eassumption|]. by etransitivity.
Qed.

Lemma settle_core w e auth seeds amount_in fee total amount_out w' e' :
  chain_laws -> settle w e auth seeds amount_in fee total amount_out = Ok (w', e') ->
  no_new_core w w'.
Proof.
  intros Hlaws Hs. unfold settle in Hs. inv_guarded.
  match goal with H : settle_transfers _ _ _ _ _ _ _ = Ok _ |- _ =>
    unfold settle_transfers in H; inv_guarded end.
  repeat match goal with H : transfer_checked _ _ _ _ _ = Ok _ |- _ =>
    apply (cl_transfer_core Hlaws) in H end.
  etransitivity; [eassumption|]. by etransitivity.
Qed.

(** One address holds one kind of account. *)
Lemma token_domain_ne w k k' t d : token_at w k = Some t -> domain_at w k' = Some d -> k <> k'.
Proof. unfold token_at, domain_at. intros Ht Hd ->. by destruct (w_accounts w !! k') as [[]|]. Qed.
Lemma token_ledger_ne w k k' t l : token_at w k = Some t -> fee_ledger_at w k' = Some l -> k <> k'.
Proof. unfold token_at, fee_ledger_at. intros Ht Hl ->. by destruct (w_accounts w !! k') as [[]|]. Qed.
Lemma domain_ledger_ne w k k' d l : domain_at w k = Some d -> fee_ledger_at w k' = Some l -> k <> k'.
Proof. unfold domain_at, fee_ledger_at. intros Hd Hl ->. by destruct (w_accounts w !! k') as [[]|]. Qed.

(** Engine call, settlement, a second engine call or none, Core's exit. *)
Lemma settled_isolated w w1 w2 w3 e e2 auth seeds amount_in fee total amount_out pa pb pf :
  chain_laws -> envelope_loaded w e = true ->
  (forall k, core_or_token w k -> w_accounts w1 !! k = w_accounts w !! k) -> no_new_core w w1 ->
  settle w1 e auth seeds amount_in fee total amount_out = Ok (w2, e2) ->
  (forall k, core_or_token w k -> w_accounts w3 !! k = w_accounts w2 !! k) -> no_new_core w2 w3 ->
  isolated w (exit_accounts w3 (commit_accounts e2 pa pb pf)) e.
Proof.
  intros Hlaws Hl H1 N1 Hs H3 N3. pose proof (cl_transfer Hlaws) as Hframe.
  pose proof (cl_keeps Hlaws) as Hkeeps. pose proof (settle_Ok _ _ _ _ _ _ _ _ _ _ Hs) as (Hsame & _).
  apply envelope_loaded_tokens in Hl as (_ & Hd & Hf). split; [|split].
  - intros k Hk Hn. rewrite (exit_frame e e2), H3, (settle_world_frame _ _ _ _ _ _ _ _ _ _ _ Hframe Hs)
      by done. by apply H1.
  - intros k t Ht. pose proof (token_core _ _ _ Ht) as Hk.
    destruct (settle_keeps _ _ _ _ _ _ _ _ _ _ Hkeeps Hs k t) as (t2 & Ht2 & Ho & Hdel);
      [by eapply token_frame|].
    exists t2. split; [|done]. destruct Hsame as (_ & Kd & Kl & _).
    unfold exit_accounts, commit_accounts, set_data, key in *; simpl. rewrite Kd, Kl.
    rewrite !token_at_store_ne; [by eapply token_frame | |].
    + exact (not_eq_sym (token_domain_ne _ _ _ _ _ Ht Hd)).
    + exact (not_eq_sym (token_ledger_ne _ _ _ _ _ Ht Hf)).
  - intros k d Hcd Hkd Hkl Hk. apply N1; [done|]. apply (settle_core _ _ _ _ _ _ _ _ _ _ Hlaws Hs); [done|].
    apply N3; [done|]. destruct Hsame as (_ & Kd & Kl & _).
    unfold exit_accounts, commit_accounts, set_data, key in *; simpl in *. rewrite Kd, Kl in *.
    by rewrite !lookup_insert_ne in Hk by done.
Qed.

Section Programs.
Hypothesis Hlaws : chain_laws.

Lemma kernel_isolated w a remaining args w' ev :
  presented w (ev_engine_state (ee_env a)) ->
  execute_engine_probe w a remaining args = Ok (w', ev) -> isolated w w' (ee_env a).
Proof.
  intros Hp (plan & digest & w1 & rc & w2 & e2 & Hl & Henv & _ & _ & Hi & _ & Hs & -> & _)
    %execute_engine_probe_Ok.
  unfold probe_invoke in Hi. inv_guarded.
  eapply (settled_isolated w w1 w2 w2); [done | done | | | exact Hs | done | reflexivity];
    [|by eapply (cl_cpi_core Hlaws)].
  eapply foreign_call_frame; [apply (cl_cpi Hlaws) | eassumption |].
  pose proof Hl as Htok. unfold envelope_loaded in Htok. unfold probe_envelope in Henv. inv_guarded.
  to_prop. match goal with H : NoDup (probe_roles _) |- _ => distinct_entries H 11%nat 14%nat end.
  intros m Hm Hw. apply elem_of_cons in Hm as [->|Hm]; [by eapply engine_state_foreign|].
  apply list_elem_of_singleton in Hm as ->. discriminate.
Qed.

Lemma generated_isolated w a remaining args w' ev :
  presented w (ev_engine_state (ge_env a)) -> Forall (presented w) remaining ->
  execute_engine_generated_probe w a remaining args = Ok (w', ev) -> isolated w w' (ge_env a).
Proof.
  intros Hp Hrem Hx. pose proof (execute_generated_Ok _ _ _ _ _ _ Hx) as [Hl Henv _].
  destruct (generated_call_and_settlement _ _ _ _ _ _ Hx)
    as (opaque & data & infos & w1 & w2 & e2 & fee & total & pa & pb & pf & Ho & Hi & Hs & ->).
  eapply (settled_isolated w w1 w2 w2); [done | done | | | exact Hs | done | reflexivity];
    [|by eapply (cl_cpi_core Hlaws)].
  eapply foreign_call_frame; [apply (cl_cpi Hlaws) | exact Hi |]. intros m Hm Hw.
  destruct (generated_metas _ _ _ _ _ Ho Hm) as [_ Hmay]. destruct (Hmay Hw) as [->|(_ & i & Hin & <- & Hi1 & _ & Hi2 & _)].
  - pose proof Hl as Htok. unfold envelope_loaded in Htok. unfold generated_envelope in Henv. inv_guarded.
    to_prop. match goal with H : NoDup (generated_fixed_keys _) |- _ => distinct_entries H 11%nat 14%nat end.
    by eapply engine_state_foreign.
  - rewrite Forall_forall in Hrem. apply presented_foreign; auto.
Qed.

(** One engine phase. *)
Lemma phase_call_isolated w0 w a e remaining args au phase mode context pre callback request w' receipt :
  validate_opaque_capabilities remaining (routed_fixed_keys a) = Ok (au_opaque au) ->
  ai_key (ev_engine_state e) = ai_key (ev_engine_state (re_env a)) ->
  (forall k mode p, engine_may_write a remaining p mode k -> ~ core_or_token w0 k) ->
  phase_call w e remaining args au phase mode context pre callback request w' receipt ->
  (forall k, core_or_token w0 k -> w_accounts w' !! k = w_accounts w !! k) /\ no_new_core w w'.
Proof.
  intros Ho Ek Hmay (h & data & infos & bytes & _ & Hb & _ & Hi & _).
  split; [|by eapply (cl_cpi_core Hlaws)]. intros k Hk. apply (cl_cpi Hlaws _ _ _ _ _ k Hi). intros m Hm Hw <-.
  pose proof (build_engine_request_Ok _ _ _ _ _ _ _ _ _ _ _ Hb) as (Ep & _).
  destruct (phase_metas _ _ _ _ _ _ _ _ _ _ Ho Ep Ek Hm) as [_ Hmw]. by apply (Hmay _ _ _ (Hmw Hw)).
Qed.

Lemma routed_isolated w a remaining args w' ev :
  presented w (ev_engine_state (re_env a)) -> Forall (presented w) remaining ->
  execute_callback_authenticated_probe w a remaining args = Ok (w', ev) -> isolated w w' (re_env a).
Proof.
  intros Hp Hrem (phase & au & w1 & pe & st & w2 & e2 & sd & w3 & ce & Hrun)%execute_routed_Ok.
  assert (forall k mode p, engine_may_write a remaining p mode k -> ~ core_or_token w k) as Hmay.
  { intros k mode p [[-> _]|(_ & _ & i & Hin & <- & Hi1 & _ & Hi2 & _)].
    - destruct Hrun. unfold envelope_loaded in rr_loaded.
      unfold validate_execution_envelope in rr_envelope. inv_guarded. to_prop.
      distinct_entries rr_roles 10%nat 15%nat. by eapply engine_state_foreign.
    - rewrite Forall_forall in Hrem. apply presented_foreign; auto. }
  pose proof (run_settlement _ _ _ _ _ _ _ _ _ _ _ _ _ _ _ _ Hrun)
    as (_ & _ & _ & _ & _ & _ & (_ & _ & _ & _ & Es & _)).
  pose proof (run_commit _ _ _ _ _ _ _ _ _ _ _ _ _ _ _ _ Hrun) as Hcommit. destruct Hrun.
  pose proof (routed_authorization_Ok _ _ _ _ _ rr_authorization)
    as (_ & _ & _ & Ho & _ & _ & _ & _ & _ & _ & _ & _ & _ & _ & Ecb & _).
  apply routed_primary_Ok in rr_primary as (request & Hcall & _); [|done].
  apply settle_authenticated_intent_Ok in rr_settle as (Hs & _). subst w'.
  eapply (phase_call_isolated w) in Hcall as [F1 N1]; [|done..].
  assert ((forall k, core_or_token w k -> w_accounts w3 !! k = w_accounts w2 !! k) /\ no_new_core w2 w3)
    as [F3 N3].
  { destruct rr_commit as [[Hm _]|(_ & -> & _)]; [|by split].
    destruct (Hcommit Hm) as (request' & receipt' & Hcall' & _).
    eapply (phase_call_isolated w w2 a e2); [exact Ho | by rewrite Es | exact Hmay | exact Hcall']. }
  by eapply (settled_isolated w w1 w2 w3).
Qed.

(** ** The interface of a market's settlement program *)

(** What the guards establish about the accounts of an envelope. *)
Record admitted (w : World) (e : Envelope) : Prop := {
  ad_loaded : envelope_loaded w e = true;
  ad_state : validate_envelope_state e = Ok tt;
  ad_vaults : validate_vaults e = Ok tt;
  ad_keys : NoDup (settlement_keys e);
  ad_source : ~ core_pda (ta_owner (acc_data (ev_user_source_a e))) \/
              ta_delegate (acc_data (ev_user_source_a e)) <> None }.

Lemma kernel_admitted w a remaining args w' ev :
  key_holder (ee_user a) -> execute_engine_probe w a remaining args = Ok (w', ev) ->
  admitted w (ee_env a).
Proof.
  intros Hu Hx. pose proof Hx as (plan & digest & w1 & rc & w2 & e2 & Hl & Henv & _)
    %execute_engine_probe_Ok.
  pose proof (probe_envelope_Ok _ _ _ _ Henv) as (_ & Hnd & _).
  unfold execute_engine_probe, probe_constraints in Hx. inv_guarded.
  unfold probe_envelope, validate_protected_token_account in Henv. inv_guarded.
  constructor; try done; [by apply probe_roles_settlement_keys|]. left.
  match goal with H : ta_owner _ = _ |- _ => rewrite H end. auto.
Qed.

Lemma generated_admitted w a remaining args w' ev :
  key_holder (ge_user a) -> execute_engine_generated_probe w a remaining args = Ok (w', ev) ->
  admitted w (ge_env a).
Proof.
  intros Hu Hx. pose proof (execute_generated_Ok _ _ _ _ _ _ Hx) as [Hl Henv _].
  pose proof (generated_envelope_Ok _ _ _ _ Henv) as (_ & Hnd & _).
  unfold execute_engine_generated_probe, generated_constraints in Hx. inv_guarded.
  unfold generated_envelope, validate_protected_token_account in Henv. inv_guarded.
  constructor; try done; [by apply generated_fixed_settlement_keys|]. left.
  match goal with H : ta_owner _ = _ |- _ => rewrite H end. auto.
Qed.

Lemma routed_admitted w a remaining args w' ev :
  execute_callback_authenticated_probe w a remaining args = Ok (w', ev) -> admitted w (re_env a).
Proof.
  intros (phase & au & w1 & pe & st & w2 & e2 & sd & w3 & ce & Hrun)%execute_routed_Ok.
  pose proof (run_authorization _ _ _ _ _ _ _ _ _ _ _ _ _ _ _ _ Hrun) as (_ & Hdel & _).
  destruct Hrun. unfold validate_execution_envelope in rr_envelope. inv_guarded.
  constructor; try done; [|right; simpl in Hdel; congruence].
  by apply routed_settlement_keys, NoDup_app in rr_roles as [? _].
Qed.
End Programs.
End Isolation.

Arguments core_data d /.

(** A settlement program that keeps to its envelope, when the accounts of the
    request are presented as they are on the ledger. *)
Class MarketProgram `{Runtime} {C : CoreConfig} {Req Ev} (P : SettlementProgram Req Ev) := {
  mp_presented : World -> Req -> Prop;
  mp_market : forall w r w' ev, mp_presented w r -> sp_execute w r = Ok (w', ev) ->
    admitted w (sp_envelope r) /\ isolated w w' (sp_envelope r) }.

Section MarketPrograms.
Context `{Runtime} {C : CoreConfig} (Hlaws : chain_laws).

Definition kernel_market : MarketProgram kernel_program.
Proof.
  refine {| mp_presented := fun w '(a, _, _) =>
    key_holder (ee_user a) /\ presented w (ev_engine_state (ee_env a)) |}.
  intros w [[a remaining] args] w' ev [Hu Hp] Hx. split.
  - exact (kernel_admitted _ _ _ _ _ _ Hu Hx).
  - exact (kernel_isolated Hlaws _ _ _ _ _ _ Hp Hx).
Defined.

Definition generated_market : MarketProgram generated_program.
Proof.
  refine {| mp_presented := fun w '(a, remaining, _) =>
    key_holder (ge_user a) /\ presented w (ev_engine_state (ge_env a)) /\
    Forall (presented w) remaining |}.
  intros w [[a remaining] args] w' ev (Hu & Hp & Hr) Hx. split.
  - exact (generated_admitted _ _ _ _ _ _ Hu Hx).
  - exact (generated_isolated Hlaws _ _ _ _ _ _ Hp Hr Hx).
Defined.

Definition routed_market : MarketProgram (routed_program (cl_cpi Hlaws)).
Proof.
  refine {| mp_presented := fun w '(a, remaining, _) =>
    presented w (ev_engine_state (re_env a)) /\ Forall (presented w) remaining |}.
  intros w [[a remaining] args] w' ev (Hp & Hr) Hx. split.
  - exact (routed_admitted _ _ _ _ _ _ Hx).
  - exact (routed_isolated Hlaws _ _ _ _ _ _ Hp Hr Hx).
Defined.
End MarketPrograms.
