(* ===== verification/Markets.v ===== *)
(** * Every market of a program keeps its own books

    Ledger follows one market through its own instructions and assumes that
    nothing else touches it. This file discharges the assumption: it follows a
    whole deployment of a core program, any instructions on any accounts of any
    markets, interleaved with foreign transactions, and proves that each market's
    books are the deposits and settlements of that market alone. The accounts
    an instruction names are arbitrary; what ties them to a market are the
    program's own checks: canonical addresses, the stored market, the vault
    authorities. *)
From S2P Require Import Prelude Codec CoreState Solana FeeMath Validation Deposit Settlement Initialize.
From S2P Require Import EngineProbe RoutedAuthorize RoutedProperties Ledger Isolation ReferenceRuntime.

Section Markets.
Context `{Runtime} {C : CoreConfig}.

(** ** The invariants *)

(** Every domain and every fee ledger is at the one address its market has for
    it. *)
Definition canonical (w : World) : Prop :=
  (forall k d, domain_at w k = Some d ->
     (find_program_address [DOMAIN_SEED_V0; d_market d] ID).1 = k) /\
  (forall k l, fee_ledger_at w k = Some l ->
     (find_program_address [FEE_LEDGER_SEED_V0; fl_market l; fl_mint_a l] ID).1 = k).

Definition vault_of (w : World) (k authority : Pubkey) : Prop :=
  exists t, token_at w k = Some t /\ ta_owner t = authority /\ ta_delegate t = None.

(** The accounts of a site belong to one market and to nobody else. *)
Record kept (s : Site) (w : World) : Prop := {
  kp_pdas : core_pda (s_domain s) /\ core_pda (s_ledger s);
  kp_books : exists d l m,
    domain_at w (s_domain s) = Some d /\ fee_ledger_at w (s_ledger s) = Some l /\
    market_at w (d_market d) = Some m /\ fl_market l = d_market d /\ fl_mint_a l = m_mint_a m /\
    canonical_fee_vault (s_ledger s) (fl_fee_vault_bump l) = Ok (s_fee_vault s);
  kp_vaults : vault_of w (s_vault_a s) (s_domain s) /\ vault_of w (s_vault_b s) (s_domain s) /\
    vault_of w (s_fee_vault s) (s_ledger s) }.

(** ** Transactions that are not the market's *)

(** The market's accounts are as before, its vaults possibly fuller. *)
Record leaves (s : Site) (w w' : World) : Prop := {
  lv_domain : domain_at w' (s_domain s) = domain_at w (s_domain s);
  lv_ledger : fee_ledger_at w' (s_ledger s) = fee_ledger_at w (s_ledger s);
  lv_market : forall k m, market_at w k = Some m -> market_at w' k = Some m;
  lv_vaults : forall k t, k ∈ site_vaults s -> token_at w k = Some t ->
    exists t', token_at w' k = Some t' /\ ta_owner t' = ta_owner t /\
      (ta_delegate t = None -> ta_delegate t' = None) /\ ta_amount t <= ta_amount t' }.

Lemma site_vaults_elem s :
  s_vault_a s ∈ site_vaults s /\ s_vault_b s ∈ site_vaults s /\ s_fee_vault s ∈ site_vaults s.
Proof. unfold site_vaults. set_solver. Qed.

Lemma leaves_kept s w w' : kept s w -> leaves s w w' -> kept s w'.
Proof.
  intros [Hp (d & l & m & Hd & Hl & Hm & Hrest) Hv] [Ld Ll Lm Lv].
  destruct (site_vaults_elem s) as (Ea & Eb & Ef).
  split; [done | exists d, l, m; rewrite Ld, Ll; auto 10 |].
  assert (forall k authority, k ∈ site_vaults s -> vault_of w k authority -> vault_of w' k authority)
    as Hvault; [|destruct Hv as (? & ? & ?); auto].
  intros k authority Hk (t & Ht & Ho & Hdel). destruct (Lv k t Hk Ht) as (t' & Ht' & Ho' & Hd' & _).
  exists t'. split_and!; [done | congruence | auto].
Qed.

Lemma leaves_holds s w w' b : holds s w b -> leaves s w w' -> holds s w' b.
Proof.
  intros Hh [Ld Ll _ Lv]. eapply untouched_refines; [exact Hh|]. split; [done|]. split; [done|].
  intros k n Hk (t & Ht & ->)%fmap_Some. destruct (Lv k t Hk Ht) as (t' & Ht' & _ & _ & Hle).
  exists (ta_amount t'). unfold balance. by rewrite Ht'.
Qed.

(** A transaction that writes none of the accounts in question. *)
Lemma frame_leaves s w w' :
  kept s w ->
  (forall k, core_or_token w k -> k = s_domain s \/ k = s_ledger s \/ k ∈ site_vaults s \/
     is_Some (market_at w k) -> w_accounts w' !! k = w_accounts w !! k) ->
  leaves s w w'.
Proof.
  intros [_ (d & l & m & Hd & Hl & _) _] Hf.
  assert (forall k, k = s_domain s \/ k = s_ledger s -> core_or_token w k) as Hcore.
  { unfold domain_at, fee_ledger_at, core_or_token in *. intros k [-> | ->]; by repeat case_match. }
  split.
  - unfold domain_at. rewrite Hf; auto.
  - unfold fee_ledger_at. rewrite Hf; auto.
  - intros k m' Hm. unfold market_at in *. rewrite Hf; [done| |].
    + unfold core_or_token. by repeat case_match.
    + do 3 right. unfold market_at. by rewrite Hm.
  - intros k t Hk Ht. exists t. split; [|by split_and!]. unfold token_at. rewrite Hf; auto.
    by eapply token_core.
Qed.

(** *** Foreign transactions: nothing of Core's is written, and the tokens of
    Core's addresses are not spent. *)
Definition foreign (w w' : World) : Prop :=
  (forall k d, core_data d -> w_accounts w' !! k = Some d <-> w_accounts w !! k = Some d) /\
  (forall k t, token_at w k = Some t -> core_pda (ta_owner t) -> ta_delegate t = None ->
     exists t', token_at w' k = Some t' /\ ta_owner t' = ta_owner t /\ ta_delegate t' = None /\
       ta_amount t <= ta_amount t').

Lemma domain_at_data w k d : domain_at w k = Some d <-> w_accounts w !! k = Some (DomainData d).
Proof. unfold domain_at. destruct (w_accounts w !! k) as [[]|]; naive_solver. Qed.
Lemma fee_ledger_at_data w k l : fee_ledger_at w k = Some l <-> w_accounts w !! k = Some (FeeLedgerData l).
Proof. unfold fee_ledger_at. destruct (w_accounts w !! k) as [[]|]; naive_solver. Qed.
Lemma market_at_data w k m : market_at w k = Some m <-> w_accounts w !! k = Some (MarketData m).
Proof. unfold market_at. destruct (w_accounts w !! k) as [[]|]; naive_solver. Qed.

Lemma site_vault_owner s w k t :
  kept s w -> k ∈ site_vaults s -> token_at w k = Some t ->
  (ta_owner t = s_domain s \/ ta_owner t = s_ledger s) /\ ta_delegate t = None.
Proof.
  intros [_ _ (Va & Vb & Vf)] Hk Ht.
  assert (forall a, vault_of w k a -> ta_owner t = a /\ ta_delegate t = None) as Hv.
  { intros a (t' & Ht' & ? & ?). assert (t' = t) as -> by congruence. done. }
  unfold site_vaults in Hk. rewrite !elem_of_cons, elem_of_nil in Hk.
  destruct Hk as [->|[->|[->|[]]]];
    [destruct (Hv _ Va) | destruct (Hv _ Vb) | destruct (Hv _ Vf)]; auto.
Qed.

Lemma site_vault_token s w k : kept s w -> k ∈ site_vaults s -> exists t, token_at w k = Some t.
Proof.
  intros [_ _ ((ta & Va & _) & (tb & Vb & _) & (tf & Vf & _))] Hk.
  unfold site_vaults in Hk. rewrite !elem_of_cons, elem_of_nil in Hk.
  destruct Hk as [->|[->|[->|[]]]]; eauto.
Qed.

(** The token account of somebody who can sign is none of a market's accounts. *)
Lemma holder_account_foreign s w k t :
  kept s w -> token_at w k = Some t -> ~ core_pda (ta_owner t) ->
  forall k', k' = s_domain s \/ k' = s_ledger s \/ k' ∈ site_vaults s \/ is_Some (market_at w k') ->
  k <> k'.
Proof.
  intros Hk Ht Hn k' Hor <-. destruct (kp_books _ _ Hk) as (d & l & _ & Hd & Hl & _).
  destruct Hor as [E|[E|[Hin|[m Hm]]]].
  - exact (token_domain_ne _ _ _ _ _ Ht Hd E).
  - exact (token_ledger_ne _ _ _ _ _ Ht Hl E).
  - destruct (site_vault_owner _ _ _ _ Hk Hin Ht) as [Hown _]. apply Hn.
    destruct (kp_pdas _ _ Hk). by destruct Hown as [-> | ->].
  - rewrite market_at_data in Hm. unfold token_at in Ht. by rewrite Hm in Ht.
Qed.

Lemma foreign_leaves s w w' : kept s w -> foreign w w' -> leaves s w w'.
Proof.
  intros Hkept [Hcore Htok]. split.
  - apply option_eq. intros d. rewrite !domain_at_data. by apply Hcore.
  - apply option_eq. intros l. rewrite !fee_ledger_at_data. by apply Hcore.
  - intros k m. rewrite !market_at_data. intros Hm. by apply Hcore.
  - intros k t Hk Ht. destruct (site_vault_owner _ _ _ _ Hkept Hk Ht) as [Ho Hdel].
    destruct (Htok k t Ht) as (t' & ? & ? & ? & ?);
      [destruct (kp_pdas _ _ Hkept); by destruct Ho as [-> | ->] | done |].
    by exists t'.
Qed.

Lemma no_new_core_canonical w w' : no_new_core w w' -> canonical w -> canonical w'.
Proof.
  intros Hn [Cd Cl]. split; intros k x.
  - rewrite domain_at_data. intros Hx%Hn; [|done]. apply Cd. by apply domain_at_data.
  - rewrite fee_ledger_at_data. intros Hx%Hn; [|done]. apply Cl. by apply fee_ledger_at_data.
Qed.

Lemma foreign_canonical w w' : foreign w w' -> canonical w -> canonical w'.
Proof. intros [Hcore _]. apply no_new_core_canonical. intros k d Hd. by apply Hcore. Qed.

(** *** Initialization creates its six accounts where none was. *)
Lemma init_pda_fresh w seeds a bump :
  init_pda w seeds a = Ok bump ->
  find_program_address seeds ID = (ai_key a, bump) /\ w_accounts w !! ai_key a = None.
Proof.
  unfold init_pda. destruct (find_program_address seeds ID) as [k b]. intros Hi. inv_guarded.
  unfold key_eqb in *. to_prop. by subst.
Qed.

Lemma initialize_frame w a remaining args w' ev :
  initialize_market_domain w a remaining args = Ok (w', ev) ->
  (forall k d, w_accounts w !! k = Some d -> w_accounts w' !! k = Some d) /\
  (canonical w -> canonical w').
Proof.
  unfold initialize_market_domain. intros Hi. inv_guarded.
  match goal with H : initialize_accounts _ _ _ = Ok ?r |- _ =>
    destruct r as [w1 bumps]; unfold initialize_accounts in H end.
  inv_guarded.
  match goal with H : handle_initialize_market_domain_v0 _ _ _ _ = Ok ?r |- _ =>
    destruct r as [[[m d] l] ev']; apply handle_initialize_Ok in H
      as (_ & _ & _ & _ & -> & -> & -> & _) end.
  inv_guarded.
  repeat match goal with H : init_pda _ _ _ = Ok _ |- _ => apply init_pda_fresh in H as [? ?] end.
  simpl in *. rewrite !lookup_insert_None in *. destruct_and?. split.
  - intros k d Hk. rewrite !lookup_insert_ne by congruence. done.
  - intros [Cd Cl]. split; intros k x.
    + rewrite domain_at_data; simpl. rewrite !lookup_insert_Some.
      intros Hk. repeat destruct Hk as [[? ?]|[? Hk]]; simplify_eq/=; 
        [match goal with E : find_program_address _ _ = _ |- _ => by rewrite E end|].
      apply Cd. by apply domain_at_data.
    + rewrite fee_ledger_at_data; simpl. rewrite !lookup_insert_Some.
      intros Hk. repeat destruct Hk as [[? ?]|[? Hk]]; simplify_eq/=; 
        [match goal with E : find_program_address _ _ = _ |- _ => by rewrite E end|].
      apply Cl. by apply fee_ledger_at_data.
Qed.

Lemma initialize_leaves s w a remaining args w' ev :
  kept s w -> initialize_market_domain w a remaining args = Ok (w', ev) -> leaves s w w'.
Proof.
  intros Hk (Hf & _)%initialize_frame. apply frame_leaves; [done|]. intros k Hc _.
  unfold core_or_token in Hc. destruct (w_accounts w !! k) eqn:E; [by apply Hf | done].
Qed.

(** *** An authorization writes the source of the user who signs it. *)
Lemma authorize_frame (Hlaws : chain_laws) w a remaining args w' ev :
  authorize_spend w a remaining args = Ok (w', ev) ->
  (forall k, k <> key (as_source a) -> w_accounts w' !! k = w_accounts w !! k) /\
  no_new_core w w' /\ ai_is_signer (as_user a) = true /\
  token_at w (key (as_source a)) = Some (acc_data (as_source a)) /\
  ta_owner (acc_data (as_source a)) = ai_key (as_user a).
Proof.
  unfold authorize_spend, handle_authorize_spend_v0, authorize_constraints. intros Hx. inv_guarded.
  match goal with H : (_ && _) = true |- _ => rename H into Hc end.
  unfold is_token, key_eqb in Hc. to_prop.
  split_and!; try done.
  - intros k Hk. by eapply (cl_approve Hlaws).
  - by eapply (cl_approve_core Hlaws).
  - by eapply (is_account_loaded token_at).
Qed.

Lemma authorize_leaves (Hlaws : chain_laws) s w a remaining args w' ev :
  kept s w -> key_holder (as_user a) -> authorize_spend w a remaining args = Ok (w', ev) ->
  leaves s w w'.
Proof.
  intros Hk Hu (Hf & _ & Hs & Ht & Ho)%(authorize_frame Hlaws).
  apply frame_leaves; [done|]. intros k _ Hor. apply Hf, not_eq_sym.
  eapply holder_account_foreign; [exact Hk | exact Ht | rewrite Ho; auto | exact Hor].
Qed.

(** ** Deposits *)

Record DepositRun (w : World) (a : DepositV0) (w' : World) : Prop := {
  dr_domain : domain_at w (key (dp_domain a)) = Some (acc_data (dp_domain a));
  dr_domain' : exists d', domain_at w' (key (dp_domain a)) = Some d' /\
    d_market d' = d_market (acc_data (dp_domain a));
  dr_source : token_at w (key (dp_provider_source a)) = Some (acc_data (dp_provider_source a));
  dr_provider : ai_is_signer (dp_provider a) = true /\
    ta_owner (acc_data (dp_provider_source a)) = ai_key (dp_provider a);
  dr_vault : token_at w (key (dp_domain_vault a)) = Some (acc_data (dp_domain_vault a)) /\
    ta_owner (acc_data (dp_domain_vault a)) = key (dp_domain a);
  dr_keeps : keeps_owner w w';
  dr_frame : forall k, k <> key (dp_domain a) -> k <> key (dp_provider_source a) ->
    k <> key (dp_domain_vault a) -> w_accounts w' !! k = w_accounts w !! k;
  dr_core : forall k d, core_data d -> k <> key (dp_domain a) ->
    w_accounts w' !! k = Some d -> w_accounts w !! k = Some d }.

Lemma deposit_run (Hlaws : chain_laws) w a remaining args w' ev :
  deposit w a remaining args = Ok (w', ev) -> DepositRun w a w'.
Proof.
  intros Hx. pose proof (deposit_vault_and_frame _ _ _ _ _ _ (cl_transfer Hlaws) Hx) as (Hd & _ & Hfr).
  pose proof (deposit_effects _ _ _ _ _ _ Hx) as (_ & _ & d & s & v & d' & s' & v' & Hd1 & _ & _ & Hd' &
    _ & _ & _ & _ & Ed' & _).
  assert (d = acc_data (dp_domain a)) as -> by congruence.
  assert (d_market d' = d_market (acc_data (dp_domain a))) as Em by (subst d'; by destruct (_ =? 0)).
  clear Ed'. unfold deposit, handle_deposit_v0, deposit_constraints in Hx. inv_guarded.
  match goal with H : select_asset _ _ _ = Ok ?r |- _ => destruct r as [[mint bump] before] end.
  unfold validate_protected_token_account in *. inv_guarded. to_prop. simpl in *.
  repeat match goal with H : is_account _ _ _ _ = true |- _ => apply is_account_loaded in H end.
  match goal with H : transfer_checked _ _ _ _ _ = Ok ?w1 |- _ =>
    pose proof (cl_keeps Hlaws _ _ _ _ _ _ H) as Hk1;
    pose proof (cl_transfer_core Hlaws _ _ _ _ _ _ H) as Hn1 end.
  split; try done.
  - by exists d'.
  - intros k t Ht. destruct (Hk1 k t Ht) as (t' & Ht' & ? & ?). exists t'. split; [|done].
    rewrite token_at_store_ne; [done|]. exact (not_eq_sym (token_domain_ne _ _ _ _ _ Ht Hd)).
  - intros k dat Hdat Hk Hl. apply Hn1; [done|]. unfold key in *; simpl in *.
    by rewrite lookup_insert_ne in Hl by done.
Qed.

(** No market's account is a provider's. *)
Lemma deposit_source_foreign s w a w' k :
  kept s w -> key_holder (dp_provider a) -> DepositRun w a w' ->
  k = s_domain s \/ k = s_ledger s \/ k ∈ site_vaults s \/ is_Some (market_at w k) ->
  key (dp_provider_source a) <> k.
Proof.
  intros Hk Hu [_ _ Ht [Hs Ho] _ _ _ _].
  eapply holder_account_foreign; [exact Hk | exact Ht | rewrite Ho; auto].
Qed.

Lemma deposit_canonical w a w' : DepositRun w a w' -> canonical w -> canonical w'.
Proof.
  intros [Hd (d' & Hd' & Em) _ _ _ _ _ Hcore] [Cd Cl]. split; intros k x Hx.
  - destruct (decide (k = key (dp_domain a))) as [->|Hne].
    + assert (x = d') as -> by congruence. rewrite Em. by apply Cd.
    + apply Cd. apply domain_at_data. apply Hcore; [done..|]. by apply domain_at_data.
  - apply Cl. apply fee_ledger_at_data. apply Hcore; [done| |by apply fee_ledger_at_data].
    intros ->. apply (domain_ledger_ne _ _ _ _ _ Hd' Hx). done.
Qed.

(** A deposit into another domain. *)
Lemma deposit_leaves s w a w' :
  kept s w -> key_holder (dp_provider a) -> DepositRun w a w' -> key (dp_domain a) <> s_domain s ->
  leaves s w w'.
Proof.
  intros Hk Hu Hr Hne. pose proof (fun k => deposit_source_foreign _ _ _ _ k Hk Hu Hr) as Hsrc.
  destruct Hr as [Hd _ Ht _ [Hv Hvo] _ Hfr _].
  destruct (kp_books _ _ Hk) as (d & l & m & Hsd & Hsl & _).
  apply frame_leaves; [done|]. intros k _ Hor.
  destruct Hor as [->|[->|[Hin|[m' Hm]]]].
  - apply Hfr; [done | apply not_eq_sym; auto | exact (not_eq_sym (token_domain_ne _ _ _ _ _ Hv Hsd))].
  - apply Hfr; [exact (not_eq_sym (domain_ledger_ne _ _ _ _ _ Hd Hsl)) | apply not_eq_sym; auto |
      exact (not_eq_sym (token_ledger_ne _ _ _ _ _ Hv Hsl))].
  - apply Hfr; [| apply not_eq_sym; auto |]; intros ->.
    + destruct (site_vault_token _ _ _ Hk Hin) as [t Hkt].
      exact (token_domain_ne _ _ _ _ _ Hkt Hd eq_refl).
    + destruct (site_vault_owner _ _ _ _ Hk Hin Hv) as [[E|E] _]; [congruence|].
      rewrite Hvo in E. exact (domain_ledger_ne _ _ _ _ _ Hd Hsl E).
  - rewrite market_at_data in Hm. apply Hfr; intros ->.
    + rewrite domain_at_data in Hd. congruence.
    + unfold token_at in Ht. by rewrite Hm in Ht.
    + unfold token_at in Hv. by rewrite Hm in Hv.
Qed.

Lemma keeps_vault w w' k authority :
  keeps_owner w w' -> vault_of w k authority -> vault_of w' k authority.
Proof.
  intros Hk (t & Ht & <- & Hd). destruct (Hk k t Ht) as (t' & Ht' & Ho & Hd'). exists t'. auto.
Qed.

(** A market's own instruction keeps its accounts. *)
Lemma own_step_kept s w w' d l m d' l' :
  kept s w -> keeps_owner w w' ->
  domain_at w (s_domain s) = Some d -> fee_ledger_at w (s_ledger s) = Some l ->
  market_at w (d_market d) = Some m -> market_at w' (d_market d) = Some m ->
  domain_at w' (s_domain s) = Some d' -> d_market d' = d_market d ->
  fee_ledger_at w' (s_ledger s) = Some l' -> fl_market l' = fl_market l ->
  fl_mint_a l' = fl_mint_a l -> fl_fee_vault_bump l' = fl_fee_vault_bump l ->
  kept s w'.
Proof.
  intros [Hp (d0 & l0 & m0 & Hd0 & Hl0 & Hm0 & E1 & E2 & E3) (Va & Vb & Vf)] Hk Hd Hl Hm Hm' Hd' Ed Hl'
    El1 El2 El3. simplify_eq. split; [done | | split_and!; by eapply keeps_vault].
  exists d', l', m0. rewrite Ed, El1, El2, El3. by split_and!.
Qed.

Lemma deposit_kept s w a w' :
  kept s w -> key_holder (dp_provider a) -> DepositRun w a w' -> key (dp_domain a) = s_domain s ->
  kept s w'.
Proof.
  intros Hk Hu Hr Kd. pose proof (fun k => deposit_source_foreign _ _ _ _ k Hk Hu Hr) as Hsrc.
  destruct Hr as [Hd (d' & Hd' & Em) Ht _ [Hv _] Hkeep Hfr _].
  destruct (kp_books _ _ Hk) as (d & l & m & Hsd & Hsl & Hm & _). rewrite Kd in *.
  assert (d = acc_data (dp_domain a)) as -> by congruence.
  eapply own_step_kept; try eassumption; try reflexivity.
  - rewrite market_at_data in *. rewrite Hfr; [done|..]; intros E; rewrite E in Hm.
    + rewrite domain_at_data in Hsd. congruence.
    + unfold token_at in Ht. by rewrite Hm in Ht.
    + unfold token_at in Hv. by rewrite Hm in Hv.
  - unfold fee_ledger_at. rewrite Hfr; [exact Hsl | | apply not_eq_sym; auto |].
    + exact (not_eq_sym (domain_ledger_ne _ _ _ _ _ Hsd Hsl)).
    + exact (not_eq_sym (token_ledger_ne _ _ _ _ _ Hv Hsl)).
Qed.

(** ** Settlements *)

(** The domain, the fee ledger and the market of an admitted envelope. *)
Lemma admitted_books w e :
  admitted w e ->
  let d := acc_data (ev_domain e) in
  let l := acc_data (ev_fee_ledger e) in
  domain_at w (key (ev_domain e)) = Some d /\ fee_ledger_at w (key (ev_fee_ledger e)) = Some l /\
  tokens_loaded w e /\ market_at w (d_market d) = Some (acc_data (ev_market e)) /\
  fl_market l = d_market d /\ fl_mint_a l = m_mint_a (acc_data (ev_market e)) /\
  canonical_domain_vault (key (ev_domain e)) ASSET_A_INDEX_V0 (d_vault_a_bump d) =
    Ok (key (ev_vault_a e)) /\
  canonical_domain_vault (key (ev_domain e)) ASSET_B_INDEX_V0 (d_vault_b_bump d) =
    Ok (key (ev_vault_b e)) /\
  canonical_fee_vault (key (ev_fee_ledger e)) (fl_fee_vault_bump l) = Ok (key (ev_fee_vault e)).
Proof.
  intros [Hl Hs _ _ _]. pose proof (envelope_loaded_tokens _ _ Hl) as (Ht & Hd & Hf).
  unfold envelope_loaded in Hl. to_prop.
  match goal with H : is_account market_at _ _ _ = true |- _ => apply is_account_loaded in H end.
  unfold validate_envelope_state, validate_market_domain, validate_fee_ledger in Hs. inv_guarded.
  split_and!; congruence || done.
Qed.

Lemma admitted_vaults w e :
  admitted w e ->
  ta_owner (acc_data (ev_vault_a e)) = key (ev_domain e) /\
  ta_owner (acc_data (ev_vault_b e)) = key (ev_domain e) /\
  ta_owner (acc_data (ev_fee_vault e)) = key (ev_fee_ledger e).
Proof.
  intros [_ _ Hv _ _]. unfold validate_vaults, validate_protected_token_account in Hv. by inv_guarded.
Qed.

(** An envelope that names the domain of a site names all of its accounts. *)
Lemma admitted_on_site s w b e :
  canonical w -> kept s w -> holds s w b -> admitted w e -> key (ev_domain e) = s_domain s ->
  on_site s e.
Proof.
  intros [_ Cl] [_ (d & l & m & Hd & Hl & Hm & E1 & E2 & E3) _]
    (_ & d0 & l0 & va & vb & vf & Hd0 & Hl0 & Ca & Cb & _)
    (Ad & Al & _ & Am & A1 & A2 & A3 & A4 & A5)%admitted_books Kd. simpl in *.
  rewrite Kd in *. simplify_eq.
  assert (key (ev_fee_ledger e) = s_ledger s) as Kl.
  { rewrite <- (Cl _ _ Al), <- (Cl _ _ Hl). congruence. }
  rewrite Kl in *. simplify_eq. split_and!; congruence.
Qed.

(** The fee ledger of one market is not that of another. *)
Lemma other_ledger s w e :
  canonical w -> kept s w -> admitted w e -> key (ev_domain e) <> s_domain s ->
  key (ev_fee_ledger e) <> s_ledger s.
Proof.
  intros [Cd _] Hk (Ad & Al & _ & _ & A1 & _)%admitted_books Hne E.
  destruct (kp_books _ _ Hk) as (d & l & m & Hd & Hl & _ & E1 & _). simpl in *. rewrite E in *.
  apply Hne. rewrite <- (Cd _ _ Ad), <- (Cd _ _ Hd). congruence.
Qed.

(** Of a site's vaults another market's settlement can only fill one. *)
Lemma other_vault s w e k :
  canonical w -> kept s w -> admitted w e -> key (ev_domain e) <> s_domain s ->
  k ∈ site_vaults s -> (k ∉ settlement_keys e) \/ k = key (ev_user_destination_b e).
Proof.
  intros Hc Hk Ha Hne Hin. pose proof (other_ledger _ _ _ Hc Hk Ha Hne) as Hnl.
  destruct (site_vault_token _ _ _ Hk Hin) as [t Ht].
  destruct (site_vault_owner _ _ _ _ Hk Hin Ht) as [Hown Hdel].
  pose proof (admitted_books _ _ Ha) as (Ad & Al & (T1 & T2 & T3 & T4 & T5) & _).
  pose proof (admitted_vaults _ _ Ha) as (O3 & O4 & O5).
  destruct (kp_books _ _ Hk) as (d & l & m & Hd & Hl & _).
  pose proof (domain_ledger_ne _ _ _ _ _ Ad Hl) as N1. pose proof (domain_ledger_ne _ _ _ _ _ Hd Al) as N2.
  destruct (kp_pdas _ _ Hk) as [Pd Pl].
  destruct (decide (k = key (ev_user_destination_b e))) as [->|Hnd]; [by right|left].
  unfold settlement_keys. rewrite !elem_of_cons, elem_of_nil.
  intros [E|[E|[E|[E|[E|[E|[E|[]]]]]]]]; try rewrite E in Ht; simplify_eq.
  - exact (token_domain_ne _ _ _ _ _ Ht Ad eq_refl).
  - exact (token_ledger_ne _ _ _ _ _ Ht Al eq_refl).
  - destruct (ad_source _ _ Ha) as [Hs|Hs]; [|congruence]. apply Hs. by destruct Hown as [-> | ->].
  - destruct Hown; congruence.
  - destruct Hown; congruence.
  - destruct Hown; congruence.
Qed.

Lemma settlement_key_kind w e k :
  admitted w e -> k ∈ settlement_keys e ->
  k = key (ev_domain e) \/ k = key (ev_fee_ledger e) \/ exists t, token_at w k = Some t.
Proof.
  intros (_ & _ & (T1 & T2 & T3 & T4 & T5) & _)%admitted_books. unfold settlement_keys.
  rewrite !elem_of_cons, elem_of_nil.
  intros [->|[->|[->|[->|[->|[->|[->|[]]]]]]]]; eauto.
Qed.

Lemma market_not_settled w e k m : admitted w e -> market_at w k = Some m -> (k ∉ settlement_keys e).
Proof.
  intros Ha Hm Hin. rewrite market_at_data in Hm.
  pose proof (admitted_books _ _ Ha) as (Ad & Al & _). rewrite domain_at_data in Ad.
  rewrite fee_ledger_at_data in Al.
  destruct (settlement_key_kind _ _ _ Ha Hin) as [->|[->|[t Ht]]]; [congruence..|].
  unfold token_at in Ht. by rewrite Hm in Ht.
Qed.

Lemma settle_leaves s w w' e amount_in fee amount_out :
  canonical w -> kept s w -> admitted w e -> isolated w w' e -> 0 < amount_out ->
  token_effect w w' e amount_in fee amount_out -> key (ev_domain e) <> s_domain s -> leaves s w w'.
Proof.
  intros Hc Hk Ha (Hfr & Hkeep & _) Ho (_ & _ & _ & _ & (n & Bn & Bn')) Hne.
  pose proof (other_ledger _ _ _ Hc Hk Ha Hne) as Hnl.
  pose proof (admitted_books _ _ Ha) as (Ad & Al & _).
  destruct (kp_books _ _ Hk) as (d & l & m & Hd & Hl & _).
  assert (forall k, k = s_domain s \/ k = s_ledger s -> w_accounts w' !! k = w_accounts w !! k) as Hbooks.
  { intros k Hor. apply Hfr.
    - unfold core_or_token. rewrite domain_at_data in Hd. rewrite fee_ledger_at_data in Hl.
      destruct Hor as [-> | ->]; [by rewrite Hd | by rewrite Hl].
    - intros Hin. destruct (settlement_key_kind _ _ _ Ha Hin) as [E|[E|[t Ht]]], Hor as [-> | ->];
        try congruence.
      + exact (domain_ledger_ne _ _ _ _ _ Ad Hl (eq_sym E)).
      + exact (domain_ledger_ne _ _ _ _ _ Hd Al E).
      + exact (token_domain_ne _ _ _ _ _ Ht Hd eq_refl).
      + exact (token_ledger_ne _ _ _ _ _ Ht Hl eq_refl). }
  split.
  - unfold domain_at. rewrite Hbooks; auto.
  - unfold fee_ledger_at. rewrite Hbooks; auto.
  - intros k m' Hm. rewrite !market_at_data in *. rewrite Hfr; [done|..].
    + unfold core_or_token. by rewrite Hm.
    + eapply market_not_settled; [exact Ha|]. by rewrite market_at_data.
  - intros k t Hin Ht. destruct (Hkeep k t Ht) as (t' & Ht' & Hot & Hdt). exists t'.
    split_and!; try done. unfold balance in *.
    destruct (other_vault _ _ _ _ Hc Hk Ha Hne Hin) as [Hn|E].
    + unfold token_at in *. rewrite Hfr in Ht'; [|by eapply token_core | done].
      rewrite Ht' in Ht. simplify_eq. lia.
    + rewrite <- E, Ht in Bn. rewrite <- E, Ht' in Bn'. simpl in *. simplify_eq. lia.
Qed.

Lemma settle_kept s w w' e amount_in fee amount_out :
  kept s w -> admitted w e -> isolated w w' e -> on_site s e ->
  core_effect w w' e amount_in fee amount_out -> kept s w'.
Proof.
  intros Hk Ha (Hfr & Hkeep & _) (Kd & Kl & _) (d & l & Cd & Cl & Cd' & Cl' & _).
  destruct (kp_books _ _ Hk) as (d0 & l0 & m & _ & _ & _).
  pose proof (admitted_books _ _ Ha) as (Ad & _ & _ & Am & _). rewrite Kd, Kl in *. simplify_eq.
  eapply own_step_kept; try eassumption; try reflexivity.
  pose proof (market_not_settled _ _ _ _ Ha Am) as Hn. rewrite market_at_data in *.
  rewrite Hfr; [done | | done]. unfold core_or_token. by rewrite Am.
Qed.

Lemma settle_canonical w w' e amount_in fee amount_out :
  isolated w w' e -> core_effect w w' e amount_in fee amount_out -> canonical w -> canonical w'.
Proof.
  intros (_ & _ & Hcore) (d & l & Cd & Cl & Cd' & Cl' & _) [Hd Hl].
  split; intros k x Hx.
  - destruct (decide (k = key (ev_domain e))) as [->|Hne]; [simplify_eq; simpl; auto|].
    apply Hd, domain_at_data, (Hcore _ (DomainData x)); try done; [|by apply domain_at_data].
    intros ->. exact (domain_ledger_ne _ _ _ _ _ Hx Cl' eq_refl).
  - destruct (decide (k = key (ev_fee_ledger e))) as [->|Hne]; [simplify_eq; simpl; auto|].
    apply Hl, fee_ledger_at_data, (Hcore _ (FeeLedgerData x)); try done; [|by apply fee_ledger_at_data].
    intros ->. exact (domain_ledger_ne _ _ _ _ _ Cd' Hx eq_refl).
Qed.
End Markets.

(** ** The deployment of a program *)

(** What a transaction did: a deposit into or a settlement by the market of a
    domain, or neither. *)
Inductive event :=
  | EvDeposit (domain : Pubkey) (asset_index amount : Z)
  | EvSettle (domain : Pubkey) (amount_in fee amount_out : Z)
  | EvNeutral.

(** The part of it that concerns the market of [domain]. *)
Definition action_of (domain : Pubkey) (ev : event) : action :=
  match ev with
  | EvDeposit k i n => if key_eqb k domain then ActDeposit i n else ActOther
  | EvSettle k n fee out => if key_eqb k domain then ActSettle n fee out else ActOther
  | EvNeutral => ActOther
  end.

Section Deployment.
Context `{Runtime} {C : CoreConfig} `{P : SettlementProgram Req Ev} {M : MarketProgram P}.

(** Any instruction of the program, on any accounts, or a foreign transaction. *)
Inductive chain_step : World -> event -> World -> Prop :=
  | chain_initialize w a remaining args w' ev :
      initialize_market_domain w a remaining args = Ok (w', ev) -> chain_step w EvNeutral w'
  | chain_deposit w a remaining args w' ev :
      key_holder (dp_provider a) -> deposit w a remaining args = Ok (w', ev) ->
      chain_step w (EvDeposit (key (dp_domain a)) (dpa_asset_index args) (dpa_amount args)) w'
  | chain_execute w r w' ev :
      mp_presented w r -> sp_execute w r = Ok (w', ev) ->
      chain_step w (EvSettle (key (ev_domain (sp_envelope r))) (sp_amount_in r) (sp_fee ev)
                      (sp_amount_out r ev)) w'
  | chain_authorize w a remaining args w' ev :
      key_holder (as_user a) -> authorize_spend w a remaining args = Ok (w', ev) ->
      chain_step w EvNeutral w'
  | chain_foreign w w' : foreign w w' -> chain_step w EvNeutral w'.

Inductive chain : World -> list event -> World -> Prop :=
  | chain_nil w : chain w [] w
  | chain_cons w x w1 xs w' : chain_step w x w1 -> chain w1 xs w' -> chain w (x :: xs) w'.

Hypothesis Hlaws : chain_laws.

Lemma chain_step_canonical w x w' : canonical w -> chain_step w x w' -> canonical w'.
Proof.
  intros Hc Hs. inversion Hs as [? a rem args ? ev Hx|? a rem args ? ev Hh Hx|? r ? ev Hp Hx|
    ? a rem args ? ev Hh Hx|? ? Hf]; subst; clear Hs.
  - by apply initialize_frame in Hx as [_ Hx]; auto.
  - eapply deposit_canonical; [by eapply deposit_run | done].
  - destruct (mp_market _ _ _ _ Hp Hx) as [_ Hi]. destruct (sp_settles _ _ _ _ Hx) as (_ & _ & _ & _ & Hce).
    by eapply settle_canonical.
  - destruct (authorize_frame Hlaws _ _ _ _ _ _ Hx) as (_ & Hn & _). by eapply no_new_core_canonical.
  - by eapply foreign_canonical.
Qed.

(** One transaction, seen from one market. *)
Lemma chain_step_refines s w b x w' :
  canonical w -> kept s w -> holds s w b -> chain_step w x w' ->
  exists b', book_step b (action_of (s_domain s) x) = Some b' /\ holds s w' b' /\ kept s w'.
Proof.
  intros Hc Hk Hh Hs.
  assert (leaves s w w' -> action_of (s_domain s) x = ActOther ->
    exists b', book_step b (action_of (s_domain s) x) = Some b' /\ holds s w' b' /\ kept s w') as Hleave.
  { intros Hl ->. exists b. split; [done|]. split; [by eapply leaves_holds | by eapply leaves_kept]. }
  inversion Hs as [? a rem args ? ev Hx|? a rem args ? ev Hu Hx|? r ? ev Hp Hx|
    ? a rem args ? ev Hu Hx|? ? Hf]; subst; clear Hs; unfold action_of, key_eqb in *.
  - apply Hleave; [by eapply initialize_leaves | done].
  - pose proof (deposit_run Hlaws _ _ _ _ _ _ Hx) as Hr. case_bool_decide as Kd.
    + destruct (deposit_refines s w b a rem args w' ev (cl_transfer Hlaws) Hh Hx Kd) as (b' & Hb & Hh').
      { intros Hin. eapply (deposit_source_foreign _ _ _ _ _ Hk Hu Hr); [|reflexivity].
        unfold site_keys, site_vaults in *. rewrite !elem_of_cons, elem_of_nil in *. tauto. }
      exists b'. split; [done|]. split; [done | by eapply deposit_kept].
    + apply Hleave; [by eapply deposit_leaves | done].
  - destruct (mp_market _ _ _ _ Hp Hx) as [Ha Hi].
    pose proof (sp_settles _ _ _ _ Hx) as Hset. pose proof Hset as (_ & Ho & _ & Hte & Hce).
    case_bool_decide as Kd.
    + pose proof (admitted_on_site _ _ _ _ Hc Hk Hh Ha Kd) as Hon.
      destruct (settle_refines _ _ _ _ _ _ _ _ Hh Hset Hon) as (b' & Hb & Hh').
      exists b'. split; [done|]. split; [done | by eapply settle_kept].
    + apply Hleave; [by eapply settle_leaves | done].
  - apply Hleave; [by eapply authorize_leaves | done].
  - apply Hleave; [by apply foreign_leaves | done].
Qed.

Lemma chain_canonical w xs w' : canonical w -> chain w xs w' -> canonical w'.
Proof. intros Hc Hs. induction Hs; eauto using chain_step_canonical. Qed.

Lemma chain_refines s w b xs w' :
  canonical w -> kept s w -> holds s w b -> chain w xs w' ->
  exists b', book_run b (map (action_of (s_domain s)) xs) = Some b' /\ holds s w' b' /\ kept s w'.
Proof.
  intros Hc Hk Hh Hs. revert b Hh. induction Hs as [w|w x w1 xs w' Hx _ IH]; intros b Hh.
  - by exists b.
  - destruct (chain_step_refines _ _ _ _ _ Hc Hk Hh Hx) as (b1 & Hb1 & Hh1 & Hk1).
    destruct (IH (chain_step_canonical _ _ _ Hc Hx) Hk1 b1 Hh1) as (b' & Hb' & Hh').
    exists b'. split; [|done]. simpl. by rewrite Hb1.
Qed.
End Deployment.

(** ** From an empty deployment *)

Section Genesis.
Context `{Runtime} {C : CoreConfig}.

(** No account of the program exists yet. *)
Definition genesis (w : World) : Prop := forall k d, core_data d -> w_accounts w !! k <> Some d.

Lemma genesis_canonical w : genesis w -> canonical w.
Proof.
  intros Hg. split; intros k x; [rewrite domain_at_data | rewrite fee_ledger_at_data]; intros Hx;
    by apply Hg in Hx.
Qed.

Lemma validated_domain_pda mk m dk d u : validate_market_domain mk m dk d = Ok u -> core_pda dk.
Proof.
  unfold validate_market_domain. intros Hv. inv_guarded.
  exists [DOMAIN_SEED_V0; mk; [d_bump d]]. congruence.
Qed.
Lemma validated_ledger_pda mk m lk l u : validate_fee_ledger mk m lk l = Ok u -> core_pda lk.
Proof.
  unfold validate_fee_ledger. intros Hv. inv_guarded.
  exists [FEE_LEDGER_SEED_V0; mk; m_mint_a m; [fl_bump l]]. congruence.
Qed.

Lemma initialize_kept (Hpda : pda_law) w a remaining args w' ev :
  initialize_market_domain w a remaining args = Ok (w', ev) -> kept (site_of a) w'.
Proof.
  intros (bumps & (Lm & Ld & Ll & La & Lb & Lf) & (Vm & Vl & _ & _ & Vf) & _)
    %(initialize_ledger Hpda). simpl in *.
  split; [split; [by eapply validated_domain_pda | by eapply validated_ledger_pda] | |].
  - exists (initial_domain a args bumps), (initial_fee_ledger a bumps), (initial_market a args bumps).
    by split_and!.
  - split_and!; eexists; (split; [eassumption|by split]).
Qed.
End Genesis.

Section Life.
Context `{Runtime} {C : CoreConfig} `{P : SettlementProgram Req Ev} {M : MarketProgram P}.

(** Everything a market goes through from the start of the deployment. *)
Lemma market_life w0 ys w1 a remaining args w2 ev xs w' :
  chain_laws -> genesis w0 -> chain w0 ys w1 ->
  initialize_market_domain w1 a remaining args = Ok (w2, ev) -> chain w2 xs w' ->
  exists b, book_run empty_book (map (action_of (ai_key (in_domain a))) xs) = Some b /\
    holds (site_of a) w' b /\ kept (site_of a) w'.
Proof.
  intros Hlaws Hg Hys Hi. pose proof (cl_pda Hlaws) as Hpda.
  apply (chain_refines Hlaws (site_of a)).
  - apply (initialize_frame _ _ _ _ _ _ Hi). eapply chain_canonical; [done | | exact Hys].
    by apply genesis_canonical.
  - exact (initialize_kept Hpda _ _ _ _ _ _ Hi).
  - exact (initialize_holds _ _ _ _ _ _ Hpda Hi).
Qed.
End Life.

(** ** Properties *)

Section Properties.
Context `{Runtime} {C : CoreConfig} `{P : SettlementProgram Req Ev} {M : MarketProgram P}.

(** C6. Market isolation: in a deployment of a core program where any
    instructions run on any accounts of any markets, interleaved with foreign
    transactions, the books of one market are a run of the abstract ledger on
    exactly the deposits into and settlements by its domain; every other
    transaction leaves them alone, and its vaults cover them throughout. *)
Theorem markets_refine_books s w b xs w' :
  chain_laws -> canonical w -> kept s w -> holds s w b -> chain w xs w' ->
  exists b', book_run b (map (action_of (s_domain s)) xs) = Some b' /\ holds s w' b'.
Proof.
  intros Hlaws Hc Hk Hh Hs. destruct (chain_refines Hlaws _ _ _ _ _ Hc Hk Hh Hs) as (b' & ? & ? & _).
  by exists b'.
Qed.

(** The whole life of a market: in a deployment that starts with no account
    of the program, a market created at any point has, after any further
    transactions, accounted balances that are exactly its own deposits plus its
    settled inputs minus its settled outputs, a fee ledger that is the sum of
    its fees, at least 30 basis points of its inputs, and vaults that cover
    them; it never pays out more of asset B than was deposited into it. *)
Theorem market_lives_on_its_books w0 ys w1 a remaining args w2 ev xs w' :
  chain_laws -> genesis w0 -> chain w0 ys w1 ->
  initialize_market_domain w1 a remaining args = Ok (w2, ev) -> chain w2 xs w' ->
  let own := map (action_of (ai_key (in_domain a))) xs in
  exists d l va vb vf,
    domain_at w' (ai_key (in_domain a)) = Some d /\
    fee_ledger_at w' (ai_key (in_fee_ledger a)) = Some l /\
    d_accounted_a d = deposited 0 own + settled_in own /\
    d_accounted_b d = deposited 1 own - settled_out own /\ settled_out own <= deposited 1 own /\
    fl_accounted_fee_a l = settled_fee own /\
    settled_in own * PROTOCOL_FEE_BPS_V0 <= settled_fee own * 10000 /\
    balance w' (ai_key (in_vault_a a)) = Some va /\ d_accounted_a d <= va /\
    balance w' (ai_key (in_vault_b a)) = Some vb /\ d_accounted_b d <= vb /\
    balance w' (ai_key (in_fee_vault a)) = Some vf /\ fl_accounted_fee_a l <= vf.
Proof.
  intros Hlaws Hg Hys Hi Hxs own.
  destruct (market_life _ _ _ _ _ _ _ _ _ _ Hlaws Hg Hys Hi Hxs)
    as (b & Hb & (_ & d & l & va & vb & vf & Hd & Hl & _ & _ & Ea & Eb & Ef & Ba & La & Bb & Lb & Bf &
        Lf) & _).
  apply book_run_totals in Hb as (Ta & Tb & Tf & Hpos & Hfee). simpl in *.
  exists d, l, va, vb, vf. unfold own. split_and!; try done; lia.
Qed.
End Properties.

(** ** A concrete deployment *)

Lemma reference_transfer_shape w args seeds amount decimals w' :
  reference_transfer w args seeds amount decimals = Ok w' ->
  exists s s' d, token_at w (ai_key (tc_from args)) = Some s /\
    token_at w (ai_key (tc_to args)) = Some d /\ ai_key (tc_from args) <> ai_key (tc_to args) /\
    ta_owner s' = ta_owner s /\ (ta_delegate s = None -> ta_delegate s' = None) /\
    w_accounts w' = <[ai_key (tc_to args) := TokenData (with_amount d (ta_amount d + amount))]>
      (<[ai_key (tc_from args) := TokenData (with_amount s' (ta_amount s' - amount))]> (w_accounts w)).
Proof.
  unfold reference_transfer. intros Ht. inv_handler. unfold key_eqb in *. to_prop.
  match goal with H : spend_as _ _ _ = Some _ |- _ =>
    apply spend_as_frame in H as (_ & _ & _ & ? & ?) end.
  by do 3 eexists; split_and!.
Qed.

Lemma reference_approve_shape w args seeds amount decimals w' :
  reference_approve w args seeds amount decimals = Ok w' ->
  exists t, w' = store w (ai_key (ac_to args)) (TokenData t).
Proof. unfold reference_approve. intros Ha. inv_handler. by eexists. Qed.

Lemma reference_chain_laws callee :
  (forall w ix infos seeds w', callee w ix infos seeds = Ok w' -> w_accounts w' = w_accounts w) ->
  @chain_laws (reference_runtime callee).
Proof.
  intros Hcallee. split; simpl.
  - intros w ix infos seeds w' k Hi _. by rewrite (Hcallee _ _ _ _ _ Hi).
  - intros w ix infos seeds w' Hi k d _. by rewrite (Hcallee _ _ _ _ _ Hi).
  - apply reference_transfer_frame.
  - intros w args seeds amount decimals w'
      (s & s' & d & Hs & Hd & Hne & Ho & Hdel & Hw)%reference_transfer_shape k t Ht.
    unfold token_at. rewrite Hw.
    destruct (decide (k = ai_key (tc_to args))) as [->|]; [|destruct (decide (k = ai_key (tc_from args)))
      as [->|]]; rewrite ?lookup_insert_eq, ?lookup_insert_ne, ?lookup_insert_eq by done; simplify_eq;
      eauto.
  - intros w args seeds amount decimals w'
      (s & s' & d & Hs & Hd & Hne & _ & _ & Hw)%reference_transfer_shape k x Hx. rewrite Hw.
    rewrite !lookup_insert_Some. intros Hk. by repeat destruct Hk as [[? <-]|[? Hk]].
  - intros w args seeds amount decimals w' k (t & ->)%reference_approve_shape Hk.
    by apply lookup_insert_ne, not_eq_sym.
  - intros w args seeds amount decimals w' (t & ->)%reference_approve_shape k x Hx.
    simpl. rewrite lookup_insert_Some. by intros [[_ <-]|[_ Hk]].
  - apply reference_pda_law.
Qed.

(** No derived address is the user's key: a toy digest ends in zero bytes. *)
Lemma toy_digest_tail l : drop 8 (toy_digest l) = replicate 24 0.
Proof.
  unfold toy_digest. assert (forall s1 s2, drop 8 (checksum l s1 s2) = replicate 24 0) as Hc; [|done].
  induction l as [|b l IH]; intros s1 s2; [|apply IH].
  cbn [checksum]. rewrite app_assoc, drop_app_length'; [done|].
  by rewrite length_app, !length_to_le_bytes.
Qed.

Section Example.
#[local] Instance markets_runtime : Runtime := EngineProbe.example_runtime.
#[local] Instance markets_config : CoreConfig := kernel_config.

Lemma example_chain_laws : chain_laws.
Proof.
  refine (reference_chain_laws _ _); simpl. intros w ix infos seeds w'. unfold acknowledging_engine. intros Ha.
  repeat case_match; by simplify_eq.
Qed.
#[local] Instance example_market : MarketProgram kernel_program := kernel_market example_chain_laws.

Lemma user_holds_key i : ai_key i = user_k -> key_holder i.
Proof.
  intros Hi _ [seeds Hs]. assert (drop 8 user_k = replicate 24 0) as Hu; [|discriminate Hu].
  rewrite <- Hi. injection Hs as <-. apply toy_digest_tail.
Qed.

Definition market_events : list event := [EvDeposit domain_k 1 5000; EvSettle domain_k 1000 3 900].

Lemma example_chain :
  chain (P := kernel_program) (world_of history_initialized) market_events (world_of history_settled).
Proof.
  destruct (is_ok_Ok history_deposited) as [[w1 ev1] E1]; [vm_compute; reflexivity|].
  destruct (is_ok_Ok history_settled) as [[w2 ev2] E2]; [vm_compute; reflexivity|].
  assert (epx_protocol_fee ev2 = 3) as Hfee.
  { assert (match history_settled with Ok (_, e) => epx_protocol_fee e | _ => 0 end = 3) as Hf
      by (vm_compute; reflexivity).
    rewrite E2 in Hf. exact Hf. }
  rewrite (world_of_Ok _ _ _ E2). unfold market_events.
  eapply chain_cons; [|eapply chain_cons; [|apply chain_nil]].
  - exact (chain_deposit _ history_deposit _ {| dpa_asset_index := 1; dpa_amount := 5000 |} _ _
      (user_holds_key user_info eq_refl) E1).
  - rewrite <- Hfee. rewrite <- (world_of_Ok _ _ _ E1).
    assert (mp_presented (world_of history_deposited) history_settle_request) as Hp.
    { split; [exact (user_holds_key user_info eq_refl) | vm_compute; exact I]. }
    pose proof (chain_execute _ _ _ _ Hp E2) as Hs.
    assert (key (ev_domain (sp_envelope history_settle_request)) = domain_k) as Hk
      by (vm_compute; reflexivity).
    rewrite Hk in Hs. exact Hs.
Qed.

Lemma genesis_start : genesis history_start.
Proof.
  intros k d Hd Hk. simpl in Hk. rewrite !lookup_insert_Some in Hk.
  rewrite lookup_empty in Hk. repeat destruct Hk as [[_ <-]|[_ Hk]]; done.
Qed.

Lemma market_lives_on_its_books_witness :
  exists d, domain_at (world_of history_settled) domain_k = Some d /\
    d_accounted_a d = 1000 /\ d_accounted_b d = 4100.
Proof.
  destruct (is_ok_Ok history_initialized) as [[w ev] E]; [vm_compute; reflexivity|].
  pose proof example_chain as Hh. rewrite (world_of_Ok _ _ _ E) in Hh.
  pose proof (market_lives_on_its_books (P := kernel_program) history_start [] history_start
    history_initialize [] {| ia_market_id := test_key 9; ia_engine_revision := 3 |} w ev
    market_events (world_of history_settled) example_chain_laws genesis_start (chain_nil _) E Hh) as Hb.
  cbv zeta in Hb. destruct Hb as (d & l & va & vb & vf & Hd & _ & Ha & Hb & _).
  exists d. split; [exact Hd|]. split; [exact Ha | exact Hb].
Defined.

Lemma markets_refine_books_witness :
  exists b', book_run empty_book (map (action_of domain_k) market_events) = Some b' /\
    holds (site_of history_initialize) (world_of history_settled) b'.
Proof.
  destruct (is_ok_Ok history_initialized) as [[w ev] E]; [vm_compute; reflexivity|].
  pose proof (cl_pda example_chain_laws) as Hpda.
  assert (domain_k = s_domain (site_of history_initialize)) as Hk by (vm_compute; reflexivity).
  rewrite Hk. apply (markets_refine_books (P := kernel_program) _ (world_of history_initialized)).
  - exact example_chain_laws.
  - rewrite (world_of_Ok _ _ _ E). apply (initialize_frame _ _ _ _ _ _ E).
    apply genesis_canonical, genesis_start.
  - rewrite (world_of_Ok _ _ _ E). exact (initialize_kept Hpda _ _ _ _ _ _ E).
  - rewrite (world_of_Ok _ _ _ E). exact (initialize_holds _ _ _ _ _ _ Hpda E).
  - exact example_chain.
Defined.
End Example.
