(* ===== verification/Programs.v ===== *)
(** * The programs' entry points and their event log

    The [#[program]] modules of the three lib.rs files: each instruction of a
    program dispatches to its handler and emits one event. The two experiment
    cores carry their own copies of initialize_market_domain_v0.rs and
    deposit_v0.rs, which are the kernel's with their own constants and [ID]; they
    are the shared definitions at the program's configuration. On top of the
    entry points: what every event reports, runs of submitted transactions in
    which failures roll back, and the theorem that the emitted events are enough
    to keep a market's books. *)
From S2P Require Import Prelude Codec CoreState Solana FeeMath Validation Deposit Settlement Initialize.
From S2P Require Import EngineProbe GeneratedCore RoutedAuthorize RoutedExecute RoutedProperties.
From S2P Require Import Ledger Isolation Markets ReferenceRuntime.

(** ** Events *)

Inductive CoreEvent :=
  | MarketDomainInitialized (e : MarketDomainInitializedV0)
  | LiquidityDeposited (e : LiquidityDepositedV0)
  | SpendAuthorized (e : SpendAuthorizedV0)
  | EngineProbeExecuted (e : EngineProbeExecutedV0)
  | EngineGeneratedProbeExecuted (e : EngineGeneratedProbeExecutedV0)
  | CallbackAuthenticatedProbeExecuted (e : CallbackAuthenticatedProbeExecutedV0).

(** The fields the three execution events share. *)
Record SettlementReport := {
  sr_market : Pubkey; sr_domain : Pubkey;
  sr_amount_in : Z; sr_protocol_fee : Z; sr_amount_out : Z;
  sr_post_accounted_a : Z; sr_post_accounted_b : Z; sr_post_accounted_fee_a : Z }.

Definition probe_report (e : EngineProbeExecutedV0) : SettlementReport := {|
  sr_market := epx_market e; sr_domain := epx_domain e;
  sr_amount_in := epx_amount_in e; sr_protocol_fee := epx_protocol_fee e;
  sr_amount_out := epx_amount_out e; sr_post_accounted_a := epx_post_accounted_a e;
  sr_post_accounted_b := epx_post_accounted_b e;
  sr_post_accounted_fee_a := epx_post_accounted_fee_a e |}.
Definition generated_report (e : EngineGeneratedProbeExecutedV0) : SettlementReport := {|
  sr_market := gx_market e; sr_domain := gx_domain e;
  sr_amount_in := gx_amount_in e; sr_protocol_fee := gx_protocol_fee e;
  sr_amount_out := gx_amount_out e; sr_post_accounted_a := gx_post_accounted_a e;
  sr_post_accounted_b := gx_post_accounted_b e;
  sr_post_accounted_fee_a := gx_post_accounted_fee_a e |}.
Definition callback_report (e : CallbackAuthenticatedProbeExecutedV0) : SettlementReport := {|
  sr_market := cx_market e; sr_domain := cx_domain e;
  sr_amount_in := cx_amount_in e; sr_protocol_fee := cx_protocol_fee e;
  sr_amount_out := cx_amount_out e; sr_post_accounted_a := cx_post_accounted_a e;
  sr_post_accounted_b := cx_post_accounted_b e;
  sr_post_accounted_fee_a := cx_post_accounted_fee_a e |}.

Definition report_of (e : CoreEvent) : option SettlementReport :=
  match e with
  | EngineProbeExecuted e => Some (probe_report e)
  | EngineGeneratedProbeExecuted e => Some (generated_report e)
  | CallbackAuthenticatedProbeExecuted e => Some (callback_report e)
  | _ => None
  end.

(** What a reader of the log enters in the books. *)
Definition book_entry (e : CoreEvent) : event :=
  match e with
  | LiquidityDeposited e => EvDeposit (ld_domain e) (ld_asset_index e) (ld_amount e)
  | _ => match report_of e with
         | Some r => EvSettle (sr_domain r) (sr_amount_in r) (sr_protocol_fee r) (sr_amount_out r)
         | None => EvNeutral
         end
  end.

(** ** The entry points *)

Module ProgrammableCore.
Section Program.
Context `{Runtime}.

Definition initialize_market_domain := Initialize.initialize_market_domain (C := kernel_config).
Definition deposit := Deposit.deposit (C := kernel_config).
Definition execute_engine_probe := EngineProbe.execute_engine_probe (C := kernel_config).

Inductive instruction :=
  | InitializeMarketDomain (a : InitializeMarketDomainV0) (remaining : list AccountInfo)
      (args : InitializeMarketDomainV0Args)
  | DepositLiquidity (a : DepositV0) (remaining : list AccountInfo) (args : DepositV0Args)
  | ExecuteEngineProbe (a : ExecuteEngineProbeV0) (remaining : list AccountInfo)
      (args : ExecuteEngineProbeV0Args).

Definition entry (w : World) (i : instruction) : result (World * CoreEvent) :=
  match i with
  | InitializeMarketDomain a remaining args =>
      '(w, e) ← initialize_market_domain w a remaining args; Ok (w, MarketDomainInitialized e)
  | DepositLiquidity a remaining args =>
      '(w, e) ← deposit w a remaining args; Ok (w, LiquidityDeposited e)
  | ExecuteEngineProbe a remaining args =>
      '(w, e) ← execute_engine_probe w a remaining args; Ok (w, EngineProbeExecuted e)
  end.

(** The accounts come as the runtime presents them: only key holders sign, and
    engine states have the owner they have on the ledger. *)
Definition well_presented (w : World) (i : instruction) : Prop :=
  match i with
  | InitializeMarketDomain _ _ _ => True
  | DepositLiquidity a _ _ => key_holder (C := kernel_config) (dp_provider a)
  | ExecuteEngineProbe a _ _ => key_holder (C := kernel_config) (ee_user a) /\
      presented (C := kernel_config) w (ev_engine_state (ee_env a))
  end.
End Program.
End ProgrammableCore.

Module ProgrammableGeneratedCore.
Section Program.
Context `{Runtime}.

Definition initialize_market_domain := Initialize.initialize_market_domain (C := generated_config).
Definition deposit := Deposit.deposit (C := generated_config).
Definition validate_market_domain := Validation.validate_market_domain (C := generated_config).
Definition validate_fee_ledger := Validation.validate_fee_ledger (C := generated_config).
Definition canonical_domain_vault := Validation.canonical_domain_vault (C := generated_config).
Definition canonical_fee_vault := Validation.canonical_fee_vault (C := generated_config).
Definition execute_engine_generated_probe :=
  GeneratedCore.execute_engine_generated_probe (C := generated_config).

Inductive instruction :=
  | InitializeMarketDomain (a : InitializeMarketDomainV0) (remaining : list AccountInfo)
      (args : InitializeMarketDomainV0Args)
  | DepositLiquidity (a : DepositV0) (remaining : list AccountInfo) (args : DepositV0Args)
  | ExecuteEngineGeneratedProbe (a : ExecuteEngineGeneratedProbeV0) (remaining : list AccountInfo)
      (args : ExecuteEngineGeneratedProbeV0Args).

Definition entry (w : World) (i : instruction) : result (World * CoreEvent) :=
  match i with
  | InitializeMarketDomain a remaining args =>
      '(w, e) ← initialize_market_domain w a remaining args; Ok (w, MarketDomainInitialized e)
  | DepositLiquidity a remaining args =>
      '(w, e) ← deposit w a remaining args; Ok (w, LiquidityDeposited e)
  | ExecuteEngineGeneratedProbe a remaining args =>
      '(w, e) ← execute_engine_generated_probe w a remaining args;
      Ok (w, EngineGeneratedProbeExecuted e)
  end.

Definition well_presented (w : World) (i : instruction) : Prop :=
  match i with
  | InitializeMarketDomain _ _ _ => True
  | DepositLiquidity a _ _ => key_holder (C := generated_config) (dp_provider a)
  | ExecuteEngineGeneratedProbe a remaining _ => key_holder (C := generated_config) (ge_user a) /\
      presented (C := generated_config) w (ev_engine_state (ge_env a)) /\
      Forall (presented (C := generated_config) w) remaining
  end.
End Program.
End ProgrammableGeneratedCore.

Module ProgrammableRoutedCallbackCore.
Section Program.
Context `{Runtime}.

Definition initialize_market_domain := Initialize.initialize_market_domain (C := routed_config).
Definition deposit := Deposit.deposit (C := routed_config).
Definition validate_market_domain := Validation.validate_market_domain (C := routed_config).
Definition validate_fee_ledger := Validation.validate_fee_ledger (C := routed_config).
Definition canonical_domain_vault := Validation.canonical_domain_vault (C := routed_config).
Definition canonical_fee_vault := Validation.canonical_fee_vault (C := routed_config).
Definition authorize_spend_v0 := RoutedAuthorize.authorize_spend (C := routed_config).
Definition execute_callback_authenticated_probe_v0 :=
  RoutedExecute.execute_callback_authenticated_probe (C := routed_config).

Inductive instruction :=
  | InitializeMarketDomain (a : InitializeMarketDomainV0) (remaining : list AccountInfo)
      (args : InitializeMarketDomainV0Args)
  | DepositLiquidity (a : DepositV0) (remaining : list AccountInfo) (args : DepositV0Args)
  | AuthorizeSpend (a : AuthorizeSpendV0) (remaining : list AccountInfo)
      (args : AuthorizeSpendV0Args)
  | ExecuteCallbackAuthenticatedProbe (a : ExecuteCallbackAuthenticatedProbeV0)
      (remaining : list AccountInfo) (args : ExecuteCallbackAuthenticatedProbeV0Args).

Definition entry (w : World) (i : instruction) : result (World * CoreEvent) :=
  match i with
  | InitializeMarketDomain a remaining args =>
      '(w, e) ← initialize_market_domain w a remaining args; Ok (w, MarketDomainInitialized e)
  | DepositLiquidity a remaining args =>
      '(w, e) ← deposit w a remaining args; Ok (w, LiquidityDeposited e)
  | AuthorizeSpend a remaining args =>
      '(w, e) ← authorize_spend_v0 w a remaining args; Ok (w, SpendAuthorized e)
  | ExecuteCallbackAuthenticatedProbe a remaining args =>
      '(w, e) ← execute_callback_authenticated_probe_v0 w a remaining args;
      Ok (w, CallbackAuthenticatedProbeExecuted e)
  end.

Definition well_presented (w : World) (i : instruction) : Prop :=
  match i with
  | InitializeMarketDomain _ _ _ => True
  | DepositLiquidity a _ _ => key_holder (C := routed_config) (dp_provider a)
  | AuthorizeSpend a _ _ => key_holder (C := routed_config) (as_user a)
  | ExecuteCallbackAuthenticatedProbe a remaining _ =>
      presented (C := routed_config) w (ev_engine_state (re_env a)) /\
      Forall (presented (C := routed_config) w) remaining
  end.
End Program.
End ProgrammableRoutedCallbackCore.

(** *** A market belongs to one program *)

Section Addresses.
Context `{Runtime}.

(** One address derived twice, from other seeds or for another program. *)
Definition address_collision : Prop := exists seeds1 program1 seeds2 program2 k,
  (seeds1, program1) <> (seeds2, program2) /\
  create_program_address seeds1 program1 = Some k /\ create_program_address seeds2 program2 = Some k.

Lemma validated_market_address (C : CoreConfig) mk m dk d u :
  Validation.validate_market_domain mk m dk d = Ok u ->
  create_program_address [MARKET_SEED_V0; m_initializer m; m_market_id m; [m_bump m]] ID = Some mk.
Proof. unfold Validation.validate_market_domain. intros Hv. inv_guarded. congruence. Qed.

Lemma market_of_one_program (C1 C2 : CoreConfig) mk m1 dk1 d1 u1 m2 dk2 d2 u2 :
  @ID C1 <> @ID C2 ->
  Validation.validate_market_domain (C := C1) mk m1 dk1 d1 = Ok u1 ->
  Validation.validate_market_domain (C := C2) mk m2 dk2 d2 = Ok u2 -> address_collision.
Proof.
  intros Hne V1%validated_market_address V2%validated_market_address.
  do 5 eexists. split; [|split; [exact V1 | exact V2]]. intros [= _ E]. by apply Hne.
Qed.

(** No market account passes the validation of two of the three programs, unless
    the runtime derives one address twice. *)
Theorem programs_share_no_market mk m1 dk1 d1 m2 dk2 d2 m3 dk3 d3 :
  let kernel := is_ok (Validation.validate_market_domain (C := kernel_config) mk m1 dk1 d1) in
  let generated := is_ok (ProgrammableGeneratedCore.validate_market_domain mk m2 dk2 d2) in
  let routed := is_ok (ProgrammableRoutedCallbackCore.validate_market_domain mk m3 dk3 d3) in
  (kernel && generated) || (kernel && routed) || (generated && routed) = true -> address_collision.
Proof.
  intros k g r Hany. unfold k, g, r in Hany.
  assert (forall (C1 C2 : CoreConfig) n1 n2 x1 x2 y1 y2, @ID C1 <> @ID C2 ->
    is_ok (Validation.validate_market_domain (C := C1) mk n1 x1 y1) &&
    is_ok (Validation.validate_market_domain (C := C2) mk n2 x2 y2) = true -> address_collision) as Hpair.
  { intros C1 C2 n1 n2 x1 x2 y1 y2 Hne [[u1 V1]%is_ok_Ok [u2 V2]%is_ok_Ok]%andb_true_iff.
    exact (market_of_one_program C1 C2 _ _ _ _ _ _ _ _ _ Hne V1 V2). }
  apply orb_true_iff in Hany as [[Hkg|Hkr]%orb_true_iff|Hgr];
    (eapply Hpair; [|eassumption]; by apply (bool_decide_unpack _); vm_compute).
Qed.
End Addresses.

(** ** What the events report *)

(** A settlement program whose event reports the envelope's market and the
    balances it stored. *)
Class ReportingProgram `{Runtime} {C : CoreConfig} {Req Ev} (P : SettlementProgram Req Ev) := {
  sp_report : Ev -> SettlementReport;
  sp_reports : forall w r w' ev, sp_execute w r = Ok (w', ev) ->
    let e := sp_envelope r in
    sr_market (sp_report ev) = key (ev_market e) /\ sr_domain (sp_report ev) = key (ev_domain e) /\
    sr_amount_in (sp_report ev) = sp_amount_in r /\ sr_protocol_fee (sp_report ev) = sp_fee ev /\
    sr_amount_out (sp_report ev) = sp_amount_out r ev /\
    exists w2 e2, same_accounts e e2 /\ w' = exit_accounts w2 (commit_accounts e2
      (sr_post_accounted_a (sp_report ev)) (sr_post_accounted_b (sp_report ev))
      (sr_post_accounted_fee_a (sp_report ev))) }.

#[export] Instance kernel_reporting `{Runtime} {C : CoreConfig} : ReportingProgram kernel_program.
Proof.
  refine {| sp_report := probe_report |}. intros w [[a remaining] args] w' ev Hx.
  apply execute_engine_probe_Ok in Hx as (plan & digest & w1 & rc & w2 & e2 & _ & _ & _ & _ & _ & _ &
    Hs & -> & ->).
  apply settle_Ok in Hs as (Hsame & _). simpl. split_and!; [done..|]. by do 2 eexists.
Defined.

#[export] Instance generated_reporting `{Runtime} {C : CoreConfig} : ReportingProgram generated_program.
Proof.
  refine {| sp_report := generated_report |}. intros w [[a remaining] args] w' ev Hx.
  destruct (generated_event_fields _ _ _ _ _ _ Hx) as (? & ? & ? & ?). by split_and!.
Defined.

#[export] Instance routed_reporting `{Runtime} {C : CoreConfig} (Hcpi : cpi_frame) :
  ReportingProgram (routed_program Hcpi).
Proof.
  refine {| sp_report := callback_report |}. intros w [[a remaining] args] w' ev Hx.
  apply execute_routed_Ok in Hx as (phase & au & w1 & pe & st & w2 & e2 & sd & w3 & ce & Hrun).
  pose proof (run_settlement _ _ _ _ _ _ _ _ _ _ _ _ _ _ _ _ Hrun)
    as (_ & _ & _ & _ & _ & _ & Hsame).
  pose proof Hsame as (Em & Ed & _). destruct Hrun. destruct rr_report as (Rm & Rd & Ra & Pa & Pb & Pf).
  simpl. rewrite Rm, Rd, Ra, Pa, Pb, Pf, Em, Ed. split_and!; [done..|]. by do 2 eexists.
Defined.

(** A core program seen through its entry point: whatever it accepts is one of
    the modelled instructions, with its event. *)
Inductive accepted `{Runtime} {C : CoreConfig} `{P : SettlementProgram Req Ev}
    {M : MarketProgram P} {R : ReportingProgram P} (w : World) : CoreEvent -> World -> Prop :=
  | accepted_initialize a remaining args w' e :
      Initialize.initialize_market_domain w a remaining args = Ok (w', e) ->
      accepted w (MarketDomainInitialized e) w'
  | accepted_deposit a remaining args w' e :
      key_holder (dp_provider a) -> Deposit.deposit w a remaining args = Ok (w', e) ->
      accepted w (LiquidityDeposited e) w'
  | accepted_authorize a remaining args w' e :
      key_holder (as_user a) -> authorize_spend w a remaining args = Ok (w', e) ->
      accepted w (SpendAuthorized e) w'
  | accepted_execute r w' ev e :
      mp_presented w r -> sp_execute w r = Ok (w', ev) -> report_of e = Some (sp_report ev) ->
      accepted w e w'.

Class CoreProgram `{Runtime} {C : CoreConfig} `{P : SettlementProgram Req Ev}
    {M : MarketProgram P} {R : ReportingProgram P} (I : Type) := {
  cp_entry : World -> I -> result (World * CoreEvent);
  cp_presented : World -> I -> Prop;
  cp_accepts : forall w i w' e, cp_presented w i -> cp_entry w i = Ok (w', e) -> accepted w e w' }.

Section Cores.
Context `{Runtime}.

Definition programmable_core (Hlaws : chain_laws) :
  CoreProgram (C := kernel_config) (M := kernel_market Hlaws) ProgrammableCore.instruction.
Proof.
  refine {| cp_entry := ProgrammableCore.entry; cp_presented := ProgrammableCore.well_presented |}.
  intros w [a remaining args|a remaining args|a remaining args] w' e Hp Hx;
    apply bind_Ok in Hx as ([w1 ev] & Hx & [= <- <-]).
  - by eapply accepted_initialize.
  - by eapply accepted_deposit.
  - by eapply (accepted_execute w (a, remaining, args)).
Defined.

Definition programmable_generated_core (Hlaws : chain_laws) :
  CoreProgram (C := generated_config) (M := generated_market Hlaws) ProgrammableGeneratedCore.instruction.
Proof.
  refine {| cp_entry := ProgrammableGeneratedCore.entry;
            cp_presented := ProgrammableGeneratedCore.well_presented |}.
  intros w [a remaining args|a remaining args|a remaining args] w' e Hp Hx;
    apply bind_Ok in Hx as ([w1 ev] & Hx & [= <- <-]).
  - by eapply accepted_initialize.
  - by eapply accepted_deposit.
  - by eapply (accepted_execute w (a, remaining, args)).
Defined.

Definition programmable_routed_callback_core (Hlaws : chain_laws) :
  CoreProgram (C := routed_config) (M := routed_market Hlaws) (R := routed_reporting (cl_cpi Hlaws))
    ProgrammableRoutedCallbackCore.instruction.
Proof.
  refine {| cp_entry := ProgrammableRoutedCallbackCore.entry;
            cp_presented := ProgrammableRoutedCallbackCore.well_presented |}.
  intros w [a remaining args|a remaining args|a remaining args|a remaining args] w' e Hp Hx;
    apply bind_Ok in Hx as ([w1 ev] & Hx & [= <- <-]).
  - by eapply accepted_initialize.
  - by eapply accepted_deposit.
  - by eapply accepted_authorize.
  - by eapply (accepted_execute w (a, remaining, args)).
Defined.
End Cores.

(** What an event says of the world it leaves behind. *)
Definition reports (w : World) (e : CoreEvent) : Prop :=
  match e with
  | MarketDomainInitialized e => exists m d l,
      market_at w (mdi_market e) = Some m /\ domain_at w (mdi_domain e) = Some d /\
      fee_ledger_at w (mdi_fee_ledger e) = Some l /\
      d_market d = mdi_market e /\ fl_market l = mdi_market e /\
      m_engine_program m = mdi_engine_program e /\ m_engine_state m = mdi_engine_state e /\
      m_engine_revision m = mdi_engine_revision e /\ m_mint_a m = mdi_mint_a e /\
      m_mint_b m = mdi_mint_b e /\ m_fee_bps m = mdi_fee_bps e /\
      d_accounted_a d = 0 /\ d_accounted_b d = 0 /\ fl_accounted_fee_a l = 0
  | LiquidityDeposited e => exists d,
      domain_at w (ld_domain e) = Some d /\ d_market d = ld_market e /\
      accounted_of d (ld_asset_index e) = ld_post_accounted_balance e
  | SpendAuthorized e => exists t,
      token_at w (sa_user_input e) = Some t /\ ta_delegate t = Some (sa_spend_authority e) /\
      ta_delegated_amount t = sa_exact_total_debit e
  | _ => exists r k d l, report_of e = Some r /\
      domain_at w (sr_domain r) = Some d /\ d_market d = sr_market r /\
      d_accounted_a d = sr_post_accounted_a r /\ d_accounted_b d = sr_post_accounted_b r /\
      fee_ledger_at w k = Some l /\ fl_market l = sr_market r /\
      fl_accounted_fee_a l = sr_post_accounted_fee_a r
  end.

Section Events.
Context `{Runtime} {C : CoreConfig}.

Lemma initialize_event_fields w a remaining args w' e :
  Initialize.initialize_market_domain w a remaining args = Ok (w', e) ->
  e = {| mdi_market := ai_key (in_market a); mdi_domain := ai_key (in_domain a);
         mdi_engine_program := ai_key (in_engine_program a);
         mdi_engine_state := ai_key (in_engine_state a);
         mdi_engine_revision := ia_engine_revision args;
         mdi_mint_a := key (in_mint_a a); mdi_mint_b := key (in_mint_b a);
         mdi_fee_ledger := ai_key (in_fee_ledger a); mdi_fee_bps := PROTOCOL_FEE_BPS_V0 |}.
Proof.
  unfold Initialize.initialize_market_domain. intros Hi. inv_guarded.
  match goal with H : initialize_accounts _ _ _ = Ok ?r |- _ => destruct r as [w1 bumps] end.
  inv_guarded.
  match goal with H : handle_initialize_market_domain_v0 _ _ _ _ = Ok ?r |- _ =>
    destruct r as [[[m d] l] ev']; unfold handle_initialize_market_domain_v0 in H end.
  by inv_guarded.
Qed.

Lemma initialize_reports (Hpda : pda_law) w a remaining args w' e :
  Initialize.initialize_market_domain w a remaining args = Ok (w', e) ->
  reports w' (MarketDomainInitialized e).
Proof.
  intros Hi. rewrite (initialize_event_fields _ _ _ _ _ _ Hi).
  apply (initialize_ledger Hpda) in Hi as (bumps & (Lm & Ld & Ll & _) & _).
  exists (initial_market a args bumps), (initial_domain a args bumps), (initial_fee_ledger a bumps).
  by split_and!.
Qed.

Lemma deposit_event_fields w a remaining args w' e :
  Deposit.deposit w a remaining args = Ok (w', e) ->
  ld_domain e = key (dp_domain a) /\ ld_asset_index e = dpa_asset_index args /\
  ld_amount e = dpa_amount args /\ d_market (acc_data (dp_domain a)) = ld_market e.
Proof.
  unfold Deposit.deposit. intros Hx. inv_guarded.
  match goal with H : handle_deposit_v0 _ _ _ _ = Ok ?r |- _ =>
    destruct r as [[w1 dom] ev1]; unfold handle_deposit_v0 in H end.
  inv_guarded. match goal with H : select_asset _ _ _ = Ok ?r |- _ => destruct r as [[mint bump] before] end.
  unfold validate_market_domain in *. by inv_guarded.
Qed.

Lemma deposit_reports (Hlaws : chain_laws) w a remaining args w' e :
  Deposit.deposit w a remaining args = Ok (w', e) -> reports w' (LiquidityDeposited e).
Proof.
  intros Hx. pose proof (deposit_event_fields _ _ _ _ _ _ Hx) as (Ed & Ei & _ & Em).
  pose proof (deposit_run Hlaws _ _ _ _ _ _ Hx) as [_ (d' & Hd' & Edm) _ _ _ _ _ _].
  apply deposit_effects in Hx as (_ & _ & d & s & v & d2 & s2 & v2 & _ & _ & _ & Hd2 & _ & _ & _ & _ &
    _ & _ & _ & _ & Hpost).
  exists d'. rewrite Ed, Ei. split; [done|]. split; [congruence|]. rewrite Hpost. congruence.
Qed.

Lemma authorize_reports w a remaining args w' e :
  authorize_spend w a remaining args = Ok (w', e) -> reports w' (SpendAuthorized e).
Proof.
  unfold authorize_spend, handle_authorize_spend_v0. intros Hx. inv_guarded. to_prop.
  eexists. by split_and!.
Qed.

Context `{P : SettlementProgram Req Ev} {M : MarketProgram P} {R : ReportingProgram P}.

Lemma execute_reports w r w' ev e :
  mp_presented w r -> sp_execute w r = Ok (w', ev) -> report_of e = Some (sp_report ev) ->
  reports w' e.
Proof.
  intros Hp Hx He. destruct (mp_market _ _ _ _ Hp Hx) as [[_ Hst _ _ _] _].
  destruct (sp_settles _ _ _ _ Hx) as (_ & _ & _ & _ & (d & l & _ & _ & Cd & Cl & _)).
  pose proof (domain_ledger_ne _ _ _ _ _ Cd Cl) as Hne.
  destruct (sp_reports _ _ _ _ Hx) as (Rm & Rd & _ & _ & _ & w2 & e2 & Hsame & ->).
  destruct Hsame as (_ & Kd & Kl & _).
  unfold validate_envelope_state, validate_market_domain, validate_fee_ledger in Hst. inv_guarded.
  unfold exit_accounts, commit_accounts, key, set_data in *; simpl in *.
  unfold reports. destruct e; try discriminate He; rewrite Kd, Kl;
    exists (sp_report ev), (ai_key (acc_info (ev_fee_ledger (sp_envelope r)))); rewrite Rd, Rm;
    do 2 eexists; rewrite domain_at_store_ne, domain_at_store_eq, fee_ledger_at_store_eq by done;
    by split_and!.
Qed.
End Events.

(** ** Runs of submitted transactions *)

(** One instruction per transaction, or a world another program has made. *)
Inductive transaction (I : Type) :=
  | Submit (i : I)
  | Elsewhere (w' : World).
Arguments Submit {I} i.
Arguments Elsewhere {I} w'.

Section Runs.
Context `{Runtime} {C : CoreConfig} `{P : SettlementProgram Req Ev} {M : MarketProgram P}.
Context {R : ReportingProgram P} {I : Type} {A : CoreProgram (M := M) (R := R) I}.

(** A failed transaction changes nothing and emits nothing. *)
Definition process (w : World) (t : transaction I) : World * list CoreEvent :=
  match t with
  | Submit i => match cp_entry w i with Ok (w', e) => (w', [e]) | _ => (w, []) end
  | Elsewhere w' => (w', [])
  end.

Fixpoint run (w : World) (ts : list (transaction I)) : World * list CoreEvent :=
  match ts with
  | [] => (w, [])
  | t :: ts =>
      let '(w1, e) := process w t in
      let '(w2, log) := run w1 ts in (w2, e ++ log)
  end.

(** Accounts are presented as they are, and other programs respect ownership. *)
Definition honest_transaction (w : World) (t : transaction I) : Prop :=
  match t with Submit i => cp_presented w i | Elsewhere w' => foreign w w' end.
Fixpoint honest (w : World) (ts : list (transaction I)) : Prop :=
  match ts with
  | [] => True
  | t :: ts => honest_transaction w t /\ honest (process w t).1 ts
  end.

Lemma accepted_chain_step w e w' : accepted w e w' -> chain_step w (book_entry e) w'.
Proof.
  intros [a remaining args w1 e1 Hx|a remaining args w1 e1 Hu Hx|a remaining args w1 e1 Hu Hx|
    r w1 ev e1 Hp Hx Hr].
  - by eapply chain_initialize.
  - destruct (deposit_event_fields _ _ _ _ _ _ Hx) as (Ed & Ei & En & _). simpl.
    rewrite Ed, Ei, En. by eapply chain_deposit.
  - by eapply chain_authorize.
  - destruct (sp_reports _ _ _ _ Hx) as (_ & Rd & Ra & Rf & Ro & _).
    assert (book_entry e1 = EvSettle (key (ev_domain (sp_envelope r))) (sp_amount_in r) (sp_fee ev)
      (sp_amount_out r ev)) as ->; [|by eapply chain_execute].
    rewrite <- Rd, <- Ra, <- Rf, <- Ro. unfold book_entry. rewrite Hr. by destruct e1.
Qed.

(** What happened in one transaction. *)
Lemma process_cases w t w' log :
  honest_transaction w t -> process w t = (w', log) ->
  (log = [] /\ (w' = w \/ foreign w w')) \/ (exists e, log = [e] /\ accepted w e w').
Proof.
  destruct t as [i|w1]; simpl.
  - intros Hp. destruct (cp_entry w i) as [[w1 e]| |] eqn:E; intros [= <- <-]; [right|by auto..].
    exists e. split; [done | by eapply cp_accepts].
  - intros Hf [= <- <-]. auto.
Qed.

(** A run is a chain whose books are those of its log. *)
Lemma run_chain w ts w' log :
  honest w ts -> run w ts = (w', log) ->
  exists xs, chain w xs w' /\ forall k b,
    book_run b (map (action_of k) xs) = book_run b (map (action_of k) (map book_entry log)).
Proof.
  revert w log. induction ts as [|t ts IH]; simpl; intros w log Hh Hr.
  { injection Hr as <- <-. exists []. split; [apply chain_nil | done]. }
  destruct Hh as [Ht Hts]. destruct (process w t) as [w1 l1] eqn:E1.
  destruct (run w1 ts) as [w2 l2] eqn:E2. injection Hr as <- <-.
  destruct (IH _ _ Hts E2) as (xs & Hxs & Hb).
  destruct (process_cases _ _ _ _ Ht E1) as [[-> [->|Hf]]|(e & -> & He)].
  - by exists xs.
  - exists (EvNeutral :: xs). split; [by eapply chain_cons; [apply chain_foreign|] | by simpl].
  - exists (book_entry e :: xs). split; [by eapply chain_cons; [apply accepted_chain_step|]|].
    intros k b. simpl. destruct (book_step b _) as [b1|]; [apply Hb | done].
Qed.

(** The moment an event was emitted. *)
Lemma run_split w ts w' before e after :
  honest w ts -> run w ts = (w', before ++ e :: after) ->
  exists ts1 w1 w2 ts2, honest w ts1 /\ run w ts1 = (w1, before) /\ accepted w1 e w2 /\
    honest w2 ts2 /\ run w2 ts2 = (w', after).
Proof.
  revert w before. induction ts as [|t ts IH]; simpl; intros w before Hh Hr.
  { by destruct before. }
  destruct Hh as [Ht Hts]. destruct (process w t) as [w1 l1] eqn:E1.
  destruct (run w1 ts) as [w2 l2] eqn:E2. injection Hr as <- Hlog.
  destruct (process_cases _ _ _ _ Ht E1) as [[-> _]|(e1 & -> & He)]; simpl in Hlog, Hts.
  - subst l2. destruct (IH _ _ Hts E2) as (ts1 & w3 & w4 & ts2 & H1 & R1 & Ha & H2 & R2).
    exists (t :: ts1), w3, w4, ts2. split_and!; try done; simpl; rewrite ?E1; [done|by rewrite R1].
  - destruct before as [|x before]; simpl in Hlog; injection Hlog as -> Hlog.
    + subst l2. exists [], w, w1, ts. by split_and!.
    + subst l2. destruct (IH _ _ Hts E2) as (ts1 & w3 & w4 & ts2 & H1 & R1 & Ha & H2 & R2).
      exists (t :: ts1), w3, w4, ts2. split_and!; try done; simpl; rewrite ?E1; [done|by rewrite R1].
Qed.

Lemma submit_run w i w1 e ts w' log :
  cp_presented w i -> cp_entry w i = Ok (w1, e) -> honest w1 ts -> run w1 ts = (w', log) ->
  honest w (Submit i :: ts) /\ run w (Submit i :: ts) = (w', e :: log).
Proof. intros Hp He Hh Hr. simpl. rewrite He. simpl. by rewrite Hr. Qed.

Lemma accepted_initialization w e w' :
  accepted w (MarketDomainInitialized e) w' ->
  exists a remaining args, Initialize.initialize_market_domain w a remaining args = Ok (w', e).
Proof. intros Ha. inversion Ha; simplify_eq/=; eauto. Qed.

Lemma accepted_reports (Hlaws : chain_laws) w e w' : accepted w e w' -> reports w' e.
Proof.
  intros [a remaining args w1 e1 Hx|a remaining args w1 e1 Hu Hx|a remaining args w1 e1 Hu Hx|
    r w1 ev e1 Hp Hx Hr].
  - by eapply initialize_reports; [apply (cl_pda Hlaws)|].
  - by eapply deposit_reports.
  - by eapply authorize_reports.
  - by eapply execute_reports.
Qed.

(** ** Properties *)

(** C18. Every event a program emits tells the truth about the accounts it leaves:
    the market as configured, with empty books; the accounted balance of the
    deposited asset; the delegation of an authorized spend; the market's
    accounted balances and collected fees after an execution. *)
Theorem events_report_the_books w i w' e :
  chain_laws -> cp_presented w i -> cp_entry w i = Ok (w', e) -> reports w' e.
Proof. intros Hlaws Hp Hx. eapply accepted_reports; [done|]. by eapply cp_accepts. Qed.

(** C5. The event log keeps the books: however many transactions are submitted to
    a core program, successful or not, among whatever other programs do, the
    accounted balances of every market that was created equal the sums of the
    deposits and executions logged for its domain since, the fees are their
    sum and at least 30 basis points of the inputs, and token accounts under
    the domain's and the ledger's authority hold at least that much. *)
Theorem event_log_keeps_the_books w0 ts w' before e after :
  chain_laws -> genesis w0 -> honest w0 ts ->
  run w0 ts = (w', before ++ MarketDomainInitialized e :: after) ->
  let own := map (action_of (mdi_domain e)) (map book_entry after) in
  exists d l ka kb kf ta tb tf,
    domain_at w' (mdi_domain e) = Some d /\ fee_ledger_at w' (mdi_fee_ledger e) = Some l /\
    d_accounted_a d = deposited 0 own + settled_in own /\
    d_accounted_b d = deposited 1 own - settled_out own /\ settled_out own <= deposited 1 own /\
    fl_accounted_fee_a l = settled_fee own /\
    settled_in own * PROTOCOL_FEE_BPS_V0 <= settled_fee own * 10000 /\
    NoDup [ka; kb; kf] /\
    token_at w' ka = Some ta /\ ta_owner ta = mdi_domain e /\ d_accounted_a d <= ta_amount ta /\
    token_at w' kb = Some tb /\ ta_owner tb = mdi_domain e /\ d_accounted_b d <= ta_amount tb /\
    token_at w' kf = Some tf /\ ta_owner tf = mdi_fee_ledger e /\
      fl_accounted_fee_a l <= ta_amount tf.
Proof.
  intros Hlaws Hg Hh Hr own.
  destruct (run_split _ _ _ _ _ _ Hh Hr) as (ts1 & w1 & w2 & ts2 & H1 & R1 & Ha & H2 & R2).
  apply accepted_initialization in Ha as (a & remaining & args & Hi).
  destruct (run_chain _ _ _ _ H1 R1) as (ys & Hys & _).
  destruct (run_chain _ _ _ _ H2 R2) as (xs & Hxs & Hb).
  destruct (market_life _ _ _ _ _ _ _ _ _ _ Hlaws Hg Hys Hi Hxs) as (b & Hbook & Hholds & Hkept).
  assert (mdi_domain e = ai_key (in_domain a) /\ mdi_fee_ledger e = ai_key (in_fee_ledger a))
    as [Ed El] by (by rewrite (initialize_event_fields _ _ _ _ _ _ Hi)).
  rewrite Hb, <- Ed in Hbook. fold own in Hbook.
  apply book_run_totals in Hbook as (Ta & Tb & Tf & Hpos & Hfee). simpl in *.
  destruct Hholds as (Hnd & d & l & va & vb & vf & Hd & Hl & _ & _ & Ea & Eb & Ef & Ba & La & Bb & Lb &
    Bf & Lf).
  destruct Hkept as [_ _ ((ta & Ha & Oa & _) & (tb & Hb' & Ob & _) & (tf & Hf & Of & _))].
  unfold balance in *. simpl in *. rewrite Ha in Ba. rewrite Hb' in Bb. rewrite Hf in Bf.
  injection Ba as <-. injection Bb as <-. injection Bf as <-.
  exists d, l, (ai_key (in_vault_a a)), (ai_key (in_vault_b a)), (ai_key (in_fee_vault a)), ta, tb, tf.
  rewrite Ed, El. split_and!; try done; try lia.
  eapply sublist_NoDup; [exact Hnd|]. unfold site_keys; simpl. solve_sublist.
Qed.
End Runs.

(** ** A concrete run *)

Section Example.
#[local] Instance programs_runtime : Runtime := EngineProbe.example_runtime.
#[local] Instance programs_config : CoreConfig := kernel_config.
#[local] Instance example_core :
  CoreProgram (M := kernel_market example_chain_laws) ProgrammableCore.instruction :=
  programmable_core example_chain_laws.

Definition run_initialize : ProgrammableCore.instruction :=
  ProgrammableCore.InitializeMarketDomain history_initialize []
    {| ia_market_id := test_key 9; ia_engine_revision := 3 |}.
Definition run_deposit : ProgrammableCore.instruction :=
  ProgrammableCore.DepositLiquidity history_deposit [] {| dpa_asset_index := 1; dpa_amount := 5000 |}.
Definition run_execute : ProgrammableCore.instruction :=
  ProgrammableCore.ExecuteEngineProbe history_probe [] example_probe_args.

Definition run_transactions : list (transaction ProgrammableCore.instruction) :=
  [Submit run_initialize; Submit run_deposit; Submit run_execute].

(** The run succeeds, and its events are in the order of its transactions. *)
Lemma example_run :
  exists w' e e1 e2, honest (A := example_core) history_start run_transactions /\
    run (A := example_core) history_start run_transactions =
      (w', [MarketDomainInitialized e; LiquidityDeposited e1; EngineProbeExecuted e2]).
Proof.
  destruct (is_ok_Ok history_initialized) as [[w1 e] E]; [vm_compute; reflexivity|].
  destruct (is_ok_Ok history_deposited) as [[w2 e1] E1]; [vm_compute; reflexivity|].
  destruct (is_ok_Ok history_settled) as [[w3 e2] E2]; [vm_compute; reflexivity|].
  assert (presented (world_of history_deposited) (ev_engine_state (ee_env history_probe))) as Hp
    by (vm_compute; exact I).
  unfold history_settled in E2. rewrite (world_of_Ok _ _ _ E1) in E2, Hp.
  unfold history_deposited in E1. rewrite (world_of_Ok _ _ _ E) in E1.
  exists w3, e, e1, e2.
  destruct (submit_run (A := example_core) w2 run_execute w3 (EngineProbeExecuted e2) [] w3 [])
    as [H3 R3]; [by split; [exact (user_holds_key user_info eq_refl)|] | | done | done |].
  { exact (f_equal (fun r => '(w, e) ← r; Ok (w, EngineProbeExecuted e)) E2). }
  destruct (submit_run (A := example_core) w1 run_deposit w2 (LiquidityDeposited e1) _ _ _
    (user_holds_key user_info eq_refl)
    (f_equal (fun r => '(w, e) ← r; Ok (w, LiquidityDeposited e)) E1) H3 R3) as [H2 R2].
  exact (submit_run (A := example_core) history_start run_initialize w1 (MarketDomainInitialized e)
    _ _ _ I (f_equal (fun r => '(w, e) ← r; Ok (w, MarketDomainInitialized e)) E) H2 R2).
Qed.

Lemma event_log_keeps_the_books_witness :
  exists w' e after d,
    run (A := example_core) history_start run_transactions =
      (w', MarketDomainInitialized e :: after) /\ length after = 2%nat /\
    domain_at w' (mdi_domain e) = Some d /\
    let own := map (action_of (mdi_domain e)) (map book_entry after) in
    d_accounted_a d = deposited 0 own + settled_in own.
Proof.
  destruct example_run as (w' & e & e1 & e2 & Hh & Hr).
  destruct (event_log_keeps_the_books (A := example_core) history_start run_transactions w' [] e
    [LiquidityDeposited e1; EngineProbeExecuted e2] example_chain_laws genesis_start Hh Hr)
    as (d & l & ka & kb & kf & ta & tb & tf & Hd & _ & Ha & _).
  exists w', e, [LiquidityDeposited e1; EngineProbeExecuted e2], d. split_and!; done.
Defined.

Lemma events_report_the_books_witness :
  exists w' e, cp_entry (CoreProgram := example_core) history_start run_initialize = Ok (w', e) /\
    reports w' e.
Proof.
  destruct (is_ok_Ok history_initialized) as [[w e] E]; [vm_compute; reflexivity|].
  assert (cp_entry (CoreProgram := example_core) history_start run_initialize =
    Ok (w, MarketDomainInitialized e)) as He
    by exact (f_equal (fun r => '(w, e) ← r; Ok (w, MarketDomainInitialized e)) E).
  exists w, (MarketDomainInitialized e). split; [exact He|].
  exact (events_report_the_books (A := example_core) history_start run_initialize w _
    example_chain_laws I He).
Defined.
End Example.
