(* ===== verification/NoPanic.v ===== *)
(** * No instruction panics

    [Panic] stands for what aborts a Rust program: a slice index out of range, a
    length mismatch in [copy_from_slice], a failed [debug_assert!], an
    [unreachable] slice pattern. The wire codecs are full of indexing and the
    cores call encoders that have no [Result]; this file shows that none of it is
    reachable: every decoder returns [Ok] or an error on every byte string, every
    encoder returns on keys and digests of 32 bytes, and every instruction of the
    three cores and of the three engines returns [Ok] or an error whenever the
    calls it makes do.

    A computation that cannot panic is an instance of the class [NoPanic], a
    reader that stays inside its slice an instance of [Advances]; the proofs are
    instance search along the structure of the code. *)
From S2P Require Import Prelude Codec ProbeInterface CoreState EngineState Solana FeeMath.
From S2P Require Import EngineFrame Validation Capability Cpmm Deposit Settlement Initialize.
From S2P Require GeneratedWire RoutedWire.
From S2P Require Import EngineProbe GeneratedCore RoutedAuthorize RoutedExecute RoutedProperties.
From S2P Require SpikeEngine GeneratedEngine RoutedEngine Helpers Router.
From S2P Require Import ReferenceRuntime Ledger Isolation Markets Programs.

Class NoPanic {E A} (m : outcome E A) : Prop := no_panic : m <> Panic.

(** ** The combinators *)

Section Combinators.
Context {E : Type}.

#[export] Instance no_panic_Ok {A} (a : A) : NoPanic (E := E) (Ok a).
Proof. discriminate. Qed.
#[export] Instance no_panic_Err {A} (e : E) : NoPanic (A := A) (Err e).
Proof. discriminate. Qed.
#[export] Instance no_panic_require b (e : E) : NoPanic (require b e).
Proof. unfold require. destruct b; apply _. Qed.
#[export] Instance no_panic_ok_or {A} (o : option A) (e : E) : NoPanic (ok_or o e).
Proof. unfold ok_or. destruct o; apply _. Qed.
#[export] Instance no_panic_map_err {E' A} (f : E -> E') (m : outcome E A) :
  NoPanic m -> NoPanic (map_err f m).
Proof. unfold NoPanic. by destruct m. Qed.

Lemma no_panic_bind {A B} (m : outcome E A) (f : A -> outcome E B) :
  NoPanic m -> (forall a, m = Ok a -> NoPanic (f a)) -> NoPanic (m ≫= f).
Proof. intros Hm Hf. destruct m as [a|e|]; [exact (Hf a eq_refl) | discriminate | by destruct Hm]. Qed.
End Combinators.

#[export] Instance no_panic_map_result {A B} (f : A -> result B) l :
  (forall a, NoPanic (f a)) -> NoPanic (map_result f l).
Proof.
  intros Hf. induction l as [|a l IH]; [apply _|].
  cbn [map_result]. apply no_panic_bind; [apply _|]. intros b _.
  apply no_panic_bind; [exact IH|]. intros bs _. apply _.
Qed.

(** An encoder without a [Result] neither fails nor panics. *)
Lemma no_panic_infallible {E A} (m : outcome CodecError A) a :
  m = Ok a -> NoPanic (infallible (E := E) m).
Proof. by intros ->. Qed.

(** One step along the code: a sequence, a branch, or a call that is an
    instance. *)
Ltac no_panic_step :=
  lazymatch goal with
  | |- NoPanic (_ ≫= _) => apply no_panic_bind; [|intros ? ?]
  | |- NoPanic (map_err _ _) => apply no_panic_map_err
  | |- NoPanic (let _ := _ in _) => cbv zeta
  | |- NoPanic (match ?x with _ => _ end) => destruct x eqn:?
  | |- _ => solve [apply _ | auto with panic_free]
  end.
Ltac no_panic := repeat no_panic_step.
Create HintDb panic_free.

(** ** Readers and writers *)

(** [r] consumes [n] bytes when it succeeds, and panics only past the end. *)
Class Advances {A} (r : reader A) (n : nat) : Prop := advances : forall data c,
  match r data c with
  | Ok (_, c') => c' = (c + n)%nat
  | Err _ => True
  | Panic => (length data < c + n)%nat
  end.

Section Advances.
#[export] Instance advances_u8 : Advances read_u8 1.
Proof.
  intros data c. unfold read_u8. destruct (data !! c) eqn:E; [lia|].
  apply lookup_ge_None in E. lia.
Qed.
#[export] Instance advances_array n : Advances (read_array n) n.
Proof. intros data c. unfold read_array. destruct (Nat.leb_spec (c + n) (length data)); lia. Qed.
#[export] Instance advances_pubkey : Advances read_pubkey 32 := advances_array 32.
#[export] Instance advances_ret {A} (a : A) : Advances (mret a) 0.
Proof. intros data c. unfold mret, reader_ret. lia. Qed.
#[export] Instance advances_lift {A} (m : outcome CodecError A) : NoPanic m -> Advances (lift m) 0.
Proof.
  intros Hm data c. unfold lift. destruct m; simpl; [lia | done | by destruct Hm].
Qed.
#[export] Instance advances_bind {A B} (r : reader A) (f : A -> reader B) n m :
  Advances r n -> (forall a, Advances (f a) m) -> Advances (r ≫= f) (n + m).
Proof.
  intros Hr Hf data c. unfold mbind at 1, reader_bind. specialize (Hr data c).
  destruct (r data c) as [[a c']|e|]; simpl; [|done|lia].
  subst. specialize (Hf a data (c + n)%nat). destruct (f a data _) as [[b c'']|e|]; [lia|done|lia].
Qed.
#[export] Instance advances_u64 : Advances read_u64 8.
Proof. apply (advances_bind (read_array 8) _ 8 0); apply _. Qed.
#[export] Instance advances_u16 : Advances read_u16 2.
Proof. apply (advances_bind (read_array 2) _ 2 0); apply _. Qed.

(** A decoder: the length guard, then a reader of that many bytes. *)
Lemma no_panic_decode {A} N n (r : reader A) data :
  Advances r n -> n = N -> NoPanic (_ ← require_length data N; run_reader N r data).
Proof.
  intros Hr ->. apply no_panic_bind; [unfold require_length; by case_match|].
  intros u Hl%require_length_Ok. unfold run_reader. specialize (Hr data 0%nat).
  destruct (r data 0%nat) as [[a c]|e|]; simpl in *; [|done|lia].
  subst. rewrite Nat.eqb_refl. discriminate.
Qed.

(** An encoder: the fields fill the array. *)
Lemma no_panic_encode N w bs : Writes w bs -> length bs = N -> NoPanic (run_writer N w).
Proof. intros Hw Hl. by rewrite (run_writer_ok N w bs Hw Hl). Qed.
Lemma encoded_length N w bs l :
  Writes w bs -> length bs = N -> run_writer N w = Ok l -> length l = N.
Proof. intros Hw Hl. rewrite (run_writer_ok N w bs Hw Hl). by intros <-%Ok_inj. Qed.
(** A fixed prefix before an encoded body. *)
Lemma no_panic_pair N a b : (length a + length b)%nat = N ->
  NoPanic (run_writer N (put_bytes a ;> put_bytes b)).
Proof. intros Hl. rewrite write_pair_ok; [apply _|]. by rewrite length_app. Qed.
End Advances.

#[export] Instance no_panic_length data n : NoPanic (require_length data n).
Proof. unfold require_length. no_panic. Qed.
#[export] Instance no_panic_version v : NoPanic (require_version v).
Proof. unfold require_version. no_panic. Qed.

(** ** The wire crates *)

(** An address, digest or nonce: [[u8; 32]]. *)
Definition sized (k : list Z) : Prop := length k = 32%nat.
#[export] Instance sized_dec k : Decision (sized k).
Proof. unfold sized. apply _. Defined.

Ltac sized_fields H := repeat (let H1 := fresh "Hs" in apply Forall_cons in H as [H1 H]).
(** The length of a layout whose variable fields are sized. *)
Ltac sized_length :=
  unfold sized in *; repeat rewrite length_app; repeat rewrite length_to_le_bytes;
  repeat match goal with H : length ?x = _ |- context [length ?x] => rewrite H end; reflexivity.

Section ProbeInterface.
Import ProbeInterface.

#[export] Instance no_panic_decode_request data : NoPanic (decode_request data).
Proof. eapply (no_panic_decode _ _ read_request); [apply _ | reflexivity]. Qed.
#[export] Instance no_panic_decode_receipt data : NoPanic (decode_receipt data).
Proof. eapply (no_panic_decode _ _ read_receipt); [apply _ | reflexivity]. Qed.
#[export] Instance no_panic_decode_evaluate data : NoPanic (decode_evaluate_instruction data).
Proof. unfold decode_evaluate_instruction. no_panic. Qed.

Lemma plan_hash_total `{Hasher} b :
  Forall sized [pb_core_program b; pb_market b; pb_domain b; pb_engine_program b;
    pb_engine_state b; pb_user_authority b; pb_user_input b; pb_user_output b; pb_mint_in b;
    pb_mint_out b; pb_domain_input_vault b; pb_domain_output_vault b; pb_protocol_fee_vault b;
    pb_fee_ledger b; pb_token_program b] ->
  exists bytes, compute_plan_hash b = Ok (hashv [PLAN_DOMAIN; bytes]).
Proof.
  intros Hs. sized_fields Hs. exists (plan_binding_layout b). unfold compute_plan_hash.
  assert (encode_plan_binding b = Ok (plan_binding_layout b)) as ->; [|done].
  apply run_writer_ok; [apply _|]. unfold plan_binding_layout. sized_length.
Qed.

Lemma evaluate_instruction_total r :
  Forall sized [er_plan_hash r; er_market r; er_domain r] ->
  exists bytes, encode_evaluate_instruction r = Ok bytes.
Proof.
  intros Hs. sized_fields Hs. unfold encode_evaluate_instruction.
  assert (length (engine_request_layout r) = ENGINE_REQUEST_LEN) as Hl
    by (unfold engine_request_layout; sized_length).
  assert (encode_request r = Ok (engine_request_layout r)) as -> by (apply run_writer_ok; [apply _ | done]).
  rewrite bind_ret_l.
  eexists. apply write_pair_ok. by rewrite length_app, Hl.
Qed.

Lemma receipt_total r : sized (rc_plan_hash r) -> exists bytes, encode_receipt r = Ok bytes.
Proof.
  intros Hs. exists (engine_receipt_layout r). apply run_writer_ok; [apply _|].
  unfold engine_receipt_layout. sized_length.
Qed.

Lemma decoded_request_sized data r : decode_request data = Ok r -> sized (er_plan_hash r).
Proof.
  unfold decode_request. intros (u & Hl%require_length_Ok & Hd%run_reader_Ok)%bind_Ok.
  unfold read_request, request_fields in Hd. inv_reader Hd. subst. cbn [er_plan_hash].
  unfold sized. rewrite length_take, length_drop, Hl. reflexivity.
Qed.
End ProbeInterface.

Section GeneratedWire.
Import GeneratedWire.

#[export] Instance no_panic_account_count n : NoPanic (validate_opaque_account_count n).
Proof. unfold validate_opaque_account_count. no_panic. Qed.
#[export] Instance no_panic_payload_fields count len payload :
  NoPanic (validate_payload_fields count len payload).
Proof. unfold validate_payload_fields. no_panic. Qed.
#[export] Instance no_panic_capability_hash `{Hasher} domain maximum engine descriptors :
  NoPanic (capability_hash_with domain maximum engine descriptors).
Proof. unfold capability_hash_with. no_panic. Qed.
#[export] Instance no_panic_payload_hash `{Hasher} domain payload :
  NoPanic (payload_hash_with domain payload).
Proof. unfold payload_hash_with. no_panic. Qed.
#[export] Instance no_panic_canonical_payload payload : NoPanic (canonical_payload payload).
Proof. unfold canonical_payload. no_panic. Qed.

#[export] Instance no_panic_decode_request_binding data : NoPanic (decode_request_binding data).
Proof. eapply (no_panic_decode _ _ read_request_binding); [apply _ | reflexivity]. Qed.
#[export] Instance no_panic_generated_receipt data : NoPanic (decode_receipt data).
Proof. eapply (no_panic_decode _ _ read_receipt); [apply _ | reflexivity]. Qed.
#[export] Instance no_panic_generated_request data : NoPanic (decode_request data).
Proof.
  unfold decode_request, validate_engine_request. apply no_panic_bind; [|intros; no_panic].
  eapply (no_panic_decode _ _ read_engine_request); [apply _ | reflexivity].
Qed.
#[export] Instance no_panic_generated_evaluate data : NoPanic (decode_evaluate_instruction data).
Proof. unfold decode_evaluate_instruction. no_panic. Qed.

Lemma request_hash_total `{Hasher} b :
  Forall sized [rb_core_program b; rb_market b; rb_domain b; rb_engine_program b;
    rb_engine_state b; rb_user_authority b; rb_user_input b; rb_user_output b; rb_mint_in b;
    rb_mint_out b; rb_domain_input_vault b; rb_domain_output_vault b; rb_protocol_fee_vault b;
    rb_fee_ledger b; rb_token_program b; rb_capability_hash b; rb_payload_hash b] ->
  exists bytes, compute_request_hash b = Ok (hashv [REQUEST_HASH_DOMAIN; bytes]).
Proof.
  intros Hs. sized_fields Hs. exists (request_binding_layout b). unfold compute_request_hash.
  assert (encode_request_binding b = Ok (request_binding_layout b)) as ->; [|done].
  apply run_writer_ok; [apply _|]. unfold request_binding_layout. sized_length.
Qed.

Lemma generated_instruction_total r :
  Forall sized [gq_request_hash r; gq_market r; gq_domain r; gq_capability_hash r] ->
  length (gq_payload r) = MAX_OPAQUE_PAYLOAD_LEN -> NoPanic (encode_evaluate_instruction r).
Proof.
  intros Hs Hp. sized_fields Hs.
  assert (length (engine_request_layout r) = ENGINE_REQUEST_LEN) as Hl
    by (unfold engine_request_layout; sized_length).
  unfold encode_evaluate_instruction, encode_request, validate_engine_request.
  apply no_panic_bind.
  - apply no_panic_bind; [apply _|]. intros u _. eapply no_panic_encode; [apply _ | exact Hl].
  - intros bytes (u & _ & He)%bind_Ok. apply no_panic_pair.
    eapply encoded_length in He as ->; [reflexivity | apply _ | exact Hl].
Qed.

Lemma generated_receipt_total r :
  sized (gr_request_hash r) -> exists bytes, encode_receipt r = Ok bytes.
Proof.
  intros Hs. exists (engine_receipt_layout r). apply run_writer_ok; [apply _|].
  unfold engine_receipt_layout. sized_length.
Qed.

Lemma decoded_generated_request_sized data r :
  decode_request data = Ok r -> sized (gq_request_hash r).
Proof.
  unfold decode_request. intros (x & Hd & (u & _ & [= ->])%bind_Ok)%bind_Ok.
  apply bind_Ok in Hd as (u' & Hl%require_length_Ok & Hd%run_reader_Ok).
  unfold read_engine_request, engine_request_fields in Hd. inv_reader Hd. subst.
  cbn [gq_request_hash]. unfold sized. rewrite length_take, length_drop, Hl. reflexivity.
Qed.
End GeneratedWire.

Section RoutedWire.
Import RoutedWire.

#[export] Instance no_panic_timing_mode m : NoPanic (require_timing_mode m).
Proof. unfold require_timing_mode. no_panic. Qed.
#[export] Instance no_panic_phase p : NoPanic (require_phase p).
Proof. unfold require_phase. no_panic. Qed.
#[export] Instance no_panic_phase_for_timing m p : NoPanic (validate_phase_for_timing m p).
Proof. unfold validate_phase_for_timing. no_panic. Qed.
#[export] Instance no_panic_discriminator p : NoPanic (engine_phase_discriminator p).
Proof. unfold engine_phase_discriminator. no_panic. Qed.
#[export] Instance no_panic_execution_binding b : NoPanic (validate_execution_binding b).
Proof. unfold validate_execution_binding. no_panic. Qed.

#[export] Instance no_panic_decode_intent data : NoPanic (decode_intent_binding data).
Proof. eapply (no_panic_decode _ _ read_intent_binding); [apply _ | reflexivity]. Qed.
#[export] Instance no_panic_routed_receipt data : NoPanic (decode_receipt data).
Proof. eapply (no_panic_decode _ _ read_receipt); [apply _ | reflexivity]. Qed.
#[export] Instance no_panic_decode_settlement data : NoPanic (decode_settlement_binding data).
Proof. eapply (no_panic_decode _ _ read_settlement_binding); [apply _ | reflexivity]. Qed.
#[export] Instance no_panic_decode_execution data : NoPanic (decode_execution_binding data).
Proof.
  unfold decode_execution_binding. apply no_panic_bind; [|intros; no_panic].
  eapply (no_panic_decode _ _ read_execution_binding); [apply _ | reflexivity].
Qed.

(** *** The execution binding and its request *)

Definition execution_sized (b : ExecutionBinding) : Prop :=
  Forall sized [xb_intent_digest b; xb_phase_context_digest b; xb_market b; xb_domain b;
    xb_authorized_capability_hash b; xb_phase_capability_hash b] /\
  length (xb_payload b) = MAX_OPAQUE_PAYLOAD_LEN.

Lemma execution_layout_sized b :
  execution_sized b -> length (execution_binding_layout b) = EXECUTION_BINDING_LEN.
Proof.
  intros [Hs Hp]. sized_fields Hs. unfold execution_binding_layout. sized_length.
Qed.

Lemma decoded_execution_sized data b : decode_execution_binding data = Ok b -> execution_sized b.
Proof.
  unfold decode_execution_binding. intros (x & Hd & (u & _ & [= ->])%bind_Ok)%bind_Ok.
  apply bind_Ok in Hd as (u' & Hl%require_length_Ok & Hd%run_reader_Ok).
  unfold read_execution_binding, execution_binding_fields in Hd. inv_reader Hd. subst.
  unfold execution_sized. cbn [xb_intent_digest xb_phase_context_digest xb_market xb_domain
    xb_authorized_capability_hash xb_phase_capability_hash xb_payload].
  split; [repeat apply Forall_cons_2; [..|apply Forall_nil_2]|];
    unfold sized; rewrite length_take, length_drop, Hl; reflexivity.
Qed.

Lemma no_panic_execution_digest `{Hasher} b :
  execution_sized b -> NoPanic (compute_execution_digest b).
Proof.
  intros Hs. unfold compute_execution_digest, encode_execution_binding. no_panic.
  eapply no_panic_encode; [apply _ | by apply execution_layout_sized].
Qed.

Lemma no_panic_engine_request `{Hasher} r :
  execution_sized (xq_binding r) -> NoPanic (validate_engine_request r).
Proof.
  intros Hs. unfold validate_engine_request. apply no_panic_bind; [|intros; no_panic].
  by apply no_panic_execution_digest.
Qed.

#[export] Instance no_panic_decode_engine_request `{Hasher} data : NoPanic (decode_engine_request data).
Proof.
  unfold decode_engine_request. no_panic. apply no_panic_engine_request.
  by eapply decoded_execution_sized.
Qed.
#[export] Instance no_panic_decode_engine_instruction `{Hasher} data :
  NoPanic (decode_engine_instruction data).
Proof. unfold decode_engine_instruction. no_panic. Qed.

Lemma no_panic_encode_instruction `{Hasher} r :
  execution_sized (xq_binding r) -> sized (xq_execution_digest r) ->
  NoPanic (encode_engine_instruction r).
Proof.
  intros Hb Hd. assert (forall l, encode_execution_binding (xq_binding r) = Ok l ->
    length l = EXECUTION_BINDING_LEN) as Hl.
  { intros l (u & _ & He)%bind_Ok. eapply encoded_length in He; [exact He | apply _|].
    by apply execution_layout_sized. }
  unfold encode_engine_instruction. apply no_panic_bind.
  - unfold encode_engine_request. apply no_panic_bind; [by apply no_panic_engine_request|].
    intros u _. apply no_panic_bind.
    + unfold encode_execution_binding. no_panic.
      eapply no_panic_encode; [apply _ | by apply execution_layout_sized].
    + intros l He%Hl. apply no_panic_pair. by rewrite He, Hd.
  - intros l (u & _ & (eb & He%Hl & Hw)%bind_Ok)%bind_Ok. no_panic.
    match goal with H : engine_phase_discriminator _ = Ok ?d |- _ =>
      assert (length d = 8%nat) as Hd8 end.
    { match goal with H : engine_phase_discriminator _ = Ok _ |- _ =>
        unfold engine_phase_discriminator in H; repeat case_match; by simplify_eq end. }
    apply no_panic_pair. eapply encoded_length in Hw as ->; [by rewrite Hd8 | apply _|].
    by rewrite length_app, He, Hd.
Qed.

(** *** The intent, the receipt, the settlement *)

Definition intent_keys (b : IntentBinding) : list (list Z) :=
  [ib_core_program b; ib_market b; ib_domain b; ib_engine_program b; ib_engine_state b;
   ib_user_authority b; ib_user_input b; ib_user_output b; ib_mint_in b; ib_mint_out b;
   ib_domain_input_vault b; ib_domain_output_vault b; ib_protocol_fee_vault b; ib_fee_ledger b;
   ib_token_program b; ib_authorization_nonce b; ib_authorized_capability_hash b;
   ib_payload_hash b].

Lemma no_panic_intent_digest `{Hasher} b :
  Forall sized (intent_keys b) -> NoPanic (compute_intent_digest b).
Proof.
  intros Hs. unfold intent_keys in Hs. sized_fields Hs.
  unfold compute_intent_digest, encode_intent_binding. no_panic.
  eapply (no_panic_encode _ _ (intent_binding_layout b)); [apply _|].
  unfold intent_binding_layout. sized_length.
Qed.

Lemma decoded_intent_sized data b :
  decode_intent_binding data = Ok b -> Forall sized (intent_keys b).
Proof.
  unfold decode_intent_binding. intros (u & Hl%require_length_Ok & Hd%run_reader_Ok)%bind_Ok.
  unfold read_intent_binding, intent_binding_fields in Hd. inv_reader Hd. subst.
  unfold intent_keys. cbn [ib_core_program ib_market ib_domain ib_engine_program ib_engine_state
    ib_user_authority ib_user_input ib_user_output ib_mint_in ib_mint_out ib_domain_input_vault
    ib_domain_output_vault ib_protocol_fee_vault ib_fee_ledger ib_token_program
    ib_authorization_nonce ib_authorized_capability_hash ib_payload_hash].
  repeat apply Forall_cons_2; [..|apply Forall_nil_2];
    unfold sized; rewrite length_take, length_drop, Hl; reflexivity.
Qed.

Definition receipt_sized (r : EngineReceipt) : Prop :=
  sized (xr_intent_digest r) /\ sized (xr_execution_digest r).

Lemma no_panic_encode_receipt r : receipt_sized r -> NoPanic (encode_receipt r).
Proof.
  intros [Hi Hx]. unfold encode_receipt. no_panic.
  eapply (no_panic_encode _ _ (engine_receipt_layout r)); [apply _|].
  unfold engine_receipt_layout. sized_length.
Qed.

Lemma no_panic_receipt_digest `{Hasher} r : receipt_sized r -> NoPanic (compute_receipt_digest r).
Proof.
  intros Hs. unfold compute_receipt_digest. apply no_panic_bind; [|intros; no_panic].
  by apply no_panic_encode_receipt.
Qed.

Lemma decoded_receipt_sized data r : decode_receipt data = Ok r -> receipt_sized r.
Proof.
  unfold decode_receipt. intros (u & Hl%require_length_Ok & Hd%run_reader_Ok)%bind_Ok.
  unfold read_receipt, receipt_fields in Hd. inv_reader Hd. subst.
  unfold receipt_sized. cbn [xr_intent_digest xr_execution_digest].
  split; unfold sized; rewrite length_take, length_drop, Hl; reflexivity.
Qed.

Lemma settlement_digest_total `{Hasher} b :
  Forall sized [sb_intent_digest b; sb_primary_execution_digest b; sb_primary_receipt_digest b] ->
  exists bytes, compute_settlement_digest b = Ok (hashv [SETTLEMENT_HASH_DOMAIN; bytes]).
Proof.
  intros Hs. sized_fields Hs. exists (settlement_binding_layout b).
  unfold compute_settlement_digest.
  assert (encode_settlement_binding b = Ok (settlement_binding_layout b)) as ->; [|done].
  apply run_writer_ok; [apply _|]. unfold settlement_binding_layout. sized_length.
Qed.
End RoutedWire.

(** C22. No decoder of the three wire crates panics: on every byte string, of any
    length and content, each returns a value or a [CodecError]. *)
Theorem wire_decoders_never_panic `{Hasher} (data : list Z) :
  (NoPanic (ProbeInterface.decode_request data) /\
   NoPanic (ProbeInterface.decode_evaluate_instruction data) /\
   NoPanic (ProbeInterface.decode_receipt data)) /\
  (NoPanic (GeneratedWire.decode_request_binding data) /\
   NoPanic (GeneratedWire.decode_request data) /\
   NoPanic (GeneratedWire.decode_evaluate_instruction data) /\
   NoPanic (GeneratedWire.decode_receipt data)) /\
  (NoPanic (RoutedWire.decode_intent_binding data) /\
   NoPanic (RoutedWire.decode_execution_binding data) /\
   NoPanic (RoutedWire.decode_engine_request data) /\
   NoPanic (RoutedWire.decode_engine_instruction data) /\
   NoPanic (RoutedWire.decode_receipt data) /\
   NoPanic (RoutedWire.decode_settlement_binding data)).
Proof. split_and!; apply _. Qed.

(** ** The cores *)

(** The calls into the runtime return. *)
Class Returning `{Runtime} : Prop := {
  invoke_returns :: forall w ix infos seeds, NoPanic (invoke_signed w ix infos seeds);
  transfer_returns :: forall w t seeds amount decimals,
    NoPanic (transfer_checked w t seeds amount decimals);
  approve_returns :: forall w t seeds amount decimals,
    NoPanic (approve_checked w t seeds amount decimals) }.

#[export] Instance no_panic_reload w a : NoPanic (reload w a).
Proof. unfold reload. no_panic. Qed.
#[export] Instance no_panic_core b e : NoPanic (require_core b e) := no_panic_require _ _.
#[export] Instance no_panic_keys_eq a b e : NoPanic (require_keys_eq a b e) := no_panic_require _ _.
#[export] Instance no_panic_keys_neq a b e : NoPanic (require_keys_neq a b e) := no_panic_require _ _.
#[export] Instance no_panic_core_ok_or {A} (o : option A) e : NoPanic (core_ok_or o e) :=
  no_panic_ok_or _ _.

#[export] Instance no_panic_distinct keys : NoPanic (ensure_distinct_roles keys).
Proof. apply ensure_distinct_roles_total. Qed.
(** Instance search must not evaluate it on a concrete key list. *)
#[export] Typeclasses Opaque ensure_distinct_roles.

Section Cores.
Context `{Returning} {C : CoreConfig}.

(** The guards and the settlement the three cores share. *)
#[local] Ltac guards := no_panic.

#[export] Instance no_panic_market_domain mk m dk d : NoPanic (validate_market_domain mk m dk d).
Proof. unfold validate_market_domain. guards. Qed.
#[export] Instance no_panic_fee_ledger mk m lk l : NoPanic (validate_fee_ledger mk m lk l).
Proof. unfold validate_fee_ledger. guards. Qed.
#[export] Instance no_panic_mint k m : NoPanic (validate_classic_mint k m).
Proof. unfold validate_classic_mint. guards. Qed.
#[export] Instance no_panic_common t m : NoPanic (validate_common_token_account t m).
Proof. unfold validate_common_token_account. guards. Qed.
#[export] Instance no_panic_protected t m k : NoPanic (validate_protected_token_account t m k).
Proof. unfold validate_protected_token_account. guards. Qed.
#[export] Instance no_panic_debit b a x e : NoPanic (exact_debit b a x e).
Proof. unfold exact_debit. guards. Qed.
#[export] Instance no_panic_credit b a x e : NoPanic (exact_credit b a x e).
Proof. unfold exact_credit. guards. Qed.
#[export] Instance no_panic_fee amount bps : NoPanic (fee_ceil amount bps).
Proof. unfold fee_ceil. guards. Qed.
#[export] Instance no_panic_quote e x y z : NoPanic (quote_fee e x y z).
Proof. unfold quote_fee. guards. Qed.
#[export] Instance no_panic_envelope_state e : NoPanic (validate_envelope_state e).
Proof. unfold validate_envelope_state, canonical_domain_vault, canonical_fee_vault. guards. Qed.
#[export] Instance no_panic_engine_accounts e : NoPanic (validate_engine_accounts e).
Proof. unfold validate_engine_accounts. guards. Qed.
#[export] Instance no_panic_mints e : NoPanic (validate_mints e).
Proof. unfold validate_mints. guards. Qed.
#[export] Instance no_panic_vaults e : NoPanic (validate_vaults e).
Proof. unfold validate_vaults, validate_credit_destination, require_raw_covers_accounted. guards. Qed.
#[export] Instance no_panic_envelope_constraints e : NoPanic (envelope_state_constraints e).
Proof. unfold envelope_state_constraints. guards. Qed.
#[export] Instance no_panic_vault_constraints e : NoPanic (envelope_vault_constraints e).
Proof. unfold envelope_vault_constraints. guards. Qed.
#[export] Instance no_panic_engine_constraints e : NoPanic (envelope_engine_constraints e).
Proof. unfold envelope_engine_constraints. guards. Qed.
#[export] Instance no_panic_opaque_payload p : NoPanic (validate_opaque_payload p).
Proof. unfold validate_opaque_payload. guards. Qed.
#[export] Instance no_panic_opaque_account l keys a : NoPanic (validate_opaque_account l keys a).
Proof. unfold validate_opaque_account. guards. Qed.
#[export] Instance no_panic_opaque l keys : NoPanic (validate_opaque_capabilities l keys).
Proof. unfold validate_opaque_capabilities. guards. Qed.
#[export] Instance no_panic_normalized l d : NoPanic (normalized_info l d).
Proof. unfold normalized_info. guards. Qed.

#[export] Instance no_panic_settle w e auth seeds x f t y : NoPanic (settle w e auth seeds x f t y).
Proof. unfold settle, settle_transfers, reload_tokens, exact_deltas. guards. Qed.

Lemma no_panic_initialize w a remaining args : NoPanic (initialize_market_domain w a remaining args).
Proof.
  unfold initialize_market_domain, initialize_accounts, handle_initialize_market_domain_v0,
    init_pda, ensure_no_remaining_accounts. guards.
Qed.
Lemma no_panic_deposit w a remaining args : NoPanic (deposit w a remaining args).
Proof.
  unfold deposit, handle_deposit_v0, ensure_no_remaining_accounts, select_asset, credit_asset,
    canonical_domain_vault, require_raw_covers_accounted. guards.
Qed.

(** *** The three execute instructions *)

Hypothesis Hhash : sha256_output.
Hypothesis Hid : sized ID.

Lemma hash_sized l : sized (hashv l).
Proof. apply (Hhash l). Qed.
(** Every digest is a hash of an encoding. *)
Lemma digest_sized (m : outcome CodecError (list Z)) domain h :
  (encoded ← m; Ok (hashv [domain; encoded])) = Ok h -> sized h.
Proof. intros (x & _ & <-%Ok_inj)%bind_Ok. apply hash_sized. Qed.
Lemma capability_hash_sized domain maximum engine ds h :
  capability_hash_with domain maximum engine ds = Ok h -> sized h.
Proof. unfold capability_hash_with. case_match; [discriminate|]. intros <-%Ok_inj. apply hash_sized. Qed.
Lemma payload_hash_sized domain payload h : payload_hash_with domain payload = Ok h -> sized h.
Proof. unfold payload_hash_with. case_match; [discriminate|]. intros <-%Ok_inj. apply hash_sized. Qed.
Lemma canonical_payload_sized p n p' :
  canonical_payload p = Ok (n, p') -> length p' = MAX_OPAQUE_PAYLOAD_LEN.
Proof.
  unfold canonical_payload. destruct (Nat.ltb_spec MAX_OPAQUE_PAYLOAD_LEN (length p)); [discriminate|].
  intros [= _ <-]. rewrite length_app, length_replicate. lia.
Qed.

#[local] Instance no_panic_probe_constraints w a : NoPanic (probe_constraints w a).
Proof. unfold probe_constraints. guards. Qed.
#[local] Instance no_panic_probe_envelope w a remaining : NoPanic (probe_envelope w a remaining).
Proof. unfold probe_envelope, ensure_no_remaining_accounts. guards. Qed.
#[local] Instance no_panic_probe_economics w e args : NoPanic (probe_economics w e args).
Proof. unfold probe_economics. guards. Qed.
#[local] Instance no_panic_probe_receipt w e digest : NoPanic (probe_receipt w e digest).
Proof. unfold probe_receipt. guards. Qed.

Lemma no_panic_probe w a remaining args :
  Forall sized (probe_roles a) -> NoPanic (execute_engine_probe w a remaining args).
Proof.
  intros Hk. unfold probe_roles in Hk. sized_fields Hk.
  unfold execute_engine_probe, handle_execute_engine_probe_v0, probe_invoke. guards.
  - destruct (plan_hash_total (probe_plan_binding a args (pp_protocol_fee a2))) as [bytes Hb];
      [by repeat constructor | by eapply no_panic_infallible].
  - match goal with H : infallible _ = Ok a3 |- _ => apply infallible_Ok, digest_sized in H end.
    destruct (evaluate_instruction_total (probe_request (ee_env a) args (pp_protocol_fee a2) a3))
      as [bytes Hb]; [by repeat constructor | by eapply no_panic_infallible].
Qed.

(** *** execute_engine_generated_probe *)

#[local] Instance no_panic_generated_wire {A} (m : outcome CodecError A) :
  NoPanic m -> NoPanic (GeneratedCore.wire m).
Proof. apply no_panic_map_err. Qed.
#[local] Instance no_panic_new_request rh e args ch count :
  NoPanic (generated_engine_request e args rh ch count).
Proof.
  unfold generated_engine_request, GeneratedCore.wire, GeneratedWire.new_engine_request. guards.
Qed.
#[local] Instance no_panic_generated_constraints w a : NoPanic (generated_constraints w a).
Proof. unfold generated_constraints. guards. Qed.
#[local] Instance no_panic_generated_envelope w a args : NoPanic (generated_envelope w a args).
Proof. unfold generated_envelope, generated_privileges. guards. Qed.
#[local] Instance no_panic_generated_economics w e args : NoPanic (generated_economics w e args).
Proof. unfold generated_economics. guards. Qed.
#[local] Instance no_panic_accept_receipt w e args h : NoPanic (generated_receipt w e args h).
Proof. unfold generated_receipt. guards. Qed.

Lemma generated_request_sized e args rh ch count r :
  generated_engine_request e args rh ch count = Ok r ->
  sized rh -> sized ch -> sized (key (ev_market e)) -> sized (key (ev_domain e)) ->
  NoPanic (GeneratedWire.encode_evaluate_instruction r).
Proof.
  intros Hr%map_err_Ok ? ? ? ?.
  apply bind_Ok in Hr as (u & _ & ([n p] & Hp%canonical_payload_sized & <-%Ok_inj)%bind_Ok).
  by apply generated_instruction_total; [repeat constructor|].
Qed.

Lemma no_panic_generated w a remaining args :
  Forall sized (generated_fixed_keys a) ->
  NoPanic (execute_engine_generated_probe w a remaining args).
Proof.
  intros Hk. unfold generated_fixed_keys in Hk. sized_fields Hk.
  unfold execute_engine_generated_probe, handle_execute_engine_generated_probe_v0,
    settle_engine_generated_probe, generated_invoke. guards.
  all: repeat match goal with
    | H : GeneratedCore.wire (GeneratedWire.compute_capability_hash _ _) = Ok _ |- _ =>
        apply map_err_Ok, capability_hash_sized in H
    | H : GeneratedCore.wire (GeneratedWire.compute_payload_hash _) = Ok _ |- _ =>
        apply map_err_Ok, payload_hash_sized in H
    | H : infallible (GeneratedWire.compute_request_hash _) = Ok _ |- _ =>
        apply infallible_Ok, digest_sized in H
    end.
  - match goal with |- NoPanic (infallible (GeneratedWire.compute_request_hash ?b)) =>
      destruct (request_hash_total b) as [bytes Hb] end;
      [by repeat constructor | by eapply no_panic_infallible].
  - apply no_panic_generated_wire. by eapply generated_request_sized.
Qed.

(** *** authorize_spend and execute_callback_authenticated_probe *)

Lemma no_panic_authorize w a remaining args : NoPanic (authorize_spend w a remaining args).
Proof.
  unfold authorize_spend, handle_authorize_spend_v0, authorize_intent, authorize_accounts,
    ensure_no_remaining_accounts, validate_user_source_before_authorization. guards.
  apply no_panic_intent_digest. by eapply decoded_intent_sized, map_err_Ok.
Qed.

#[local] Instance no_panic_routed_wire {A} (m : outcome CodecError A) :
  NoPanic m -> NoPanic (RoutedExecute.wire m).
Proof. apply no_panic_map_err. Qed.
#[local] Ltac guards ::= repeat first [no_panic_step | apply no_panic_routed_wire].
#[local] Instance no_panic_primary_phase t : NoPanic (primary_phase t).
Proof. unfold primary_phase. guards. Qed.
#[local] Instance no_panic_callback_account c k : NoPanic (validate_callback_account c k).
Proof. unfold validate_callback_account. guards. Qed.
#[local] Instance no_panic_receipt_binding r q p d : NoPanic (validate_receipt_binding r q p d).
Proof. unfold validate_receipt_binding. guards. Qed.
#[local] Instance no_panic_primary_sequence p x y : NoPanic (validate_primary_sequence p x y).
Proof. unfold validate_primary_sequence. guards. Qed.
#[local] Instance no_panic_amount_out x y z : NoPanic (validate_amount_out x y z).
Proof. unfold validate_amount_out. guards. Qed.
#[local] Instance no_panic_routed_constraints w a : NoPanic (routed_constraints w a).
Proof. unfold routed_constraints. guards. Qed.
#[local] Instance no_panic_execution_envelope a : NoPanic (validate_execution_envelope a).
Proof. unfold validate_execution_envelope, routed_privileges. guards. Qed.
#[local] Instance no_panic_routed_economics e args : NoPanic (routed_economics e args).
Proof. unfold routed_economics. guards. Qed.
#[local] Instance no_panic_accept_settlement e args au x : NoPanic (accept_settlement e args au x).
Proof. unfold accept_settlement. guards. Qed.
#[local] Instance no_panic_settle_intent w a x d b st :
  NoPanic (settle_authenticated_intent w a x d b st).
Proof. unfold settle_authenticated_intent. guards. Qed.
#[local] Instance no_panic_delegated t m k x : NoPanic (validate_delegated_spend_source t m k x).
Proof. unfold validate_delegated_spend_source. guards. Qed.

(** The keys of the instruction and the two arrays the intent takes from its
    arguments and its source. *)
Definition routed_sized (a : ExecuteCallbackAuthenticatedProbeV0)
    (args : ExecuteCallbackAuthenticatedProbeV0Args) : Prop :=
  Forall sized (routed_fixed_keys a) /\ sized (ta_owner (acc_data (ev_user_source_a (re_env a)))) /\
  sized (ra_authorization_nonce args).

Lemma no_panic_authorization a remaining args phase :
  routed_sized a args -> NoPanic (routed_authorization a remaining args phase).
Proof.
  intros (Hk & Ho & Hn). unfold routed_fixed_keys in Hk. sized_fields Hk.
  unfold routed_authorization, compute_bound_intent_digest. guards.
  apply no_panic_intent_digest.
  repeat match goal with
  | H : RoutedExecute.wire (RoutedWire.compute_capability_hash _ _) = Ok _ |- _ =>
      apply map_err_Ok, capability_hash_sized in H
  | H : RoutedExecute.wire (RoutedWire.compute_payload_hash _) = Ok _ |- _ =>
      apply map_err_Ok, payload_hash_sized in H
  end.
  by repeat constructor.
Qed.

Definition authorized_sized (au : AuthorizedExecution) : Prop :=
  sized (au_capability_hash au) /\ sized (au_intent_digest au).

Lemma authorization_sized a remaining args phase au :
  routed_authorization a remaining args phase = Ok au -> authorized_sized au.
Proof.
  intros (_ & _ & _ & _ & Hc & _ & _ & Hi & _)%routed_authorization_Ok.
  split; [by eapply capability_hash_sized | by eapply digest_sized].
Qed.

(** A request Core builds encodes. *)
Lemma no_panic_build e args fee d phase context pre cap pcap n :
  Forall sized [d; context; key (ev_market e); key (ev_domain e); cap; pcap] ->
  NoPanic (build_engine_request e args fee d phase context pre cap pcap n) /\
  (forall r, build_engine_request e args fee d phase context pre cap pcap n = Ok r ->
     execution_sized (RoutedWire.xq_binding r) /\ sized (RoutedWire.xq_execution_digest r)).
Proof.
  intros Hs. unfold build_engine_request, RoutedWire.new_engine_request.
  assert (forall count b, RoutedExecute.wire (RoutedWire.new_execution_binding phase d context
    (key (ev_market e)) (key (ev_domain e)) (m_engine_revision (acc_data (ev_market e)))
    (ra_amount_in args) fee (d_accounted_a (acc_data (ev_domain e)))
    (d_accounted_b (acc_data (ev_domain e))) (fl_accounted_fee_a (acc_data (ev_fee_ledger e)))
    pre cap pcap count (ra_opaque_payload args)) = Ok b -> execution_sized b) as Hb.
  { intros count b Hn%map_err_Ok. unfold RoutedWire.new_execution_binding in Hn. inv_guarded.
    destruct r1 as [len payload]. inv_guarded.
    split; [exact Hs | by eapply canonical_payload_sized]. }
  split.
  - guards; [unfold RoutedWire.new_execution_binding; guards|].
    apply no_panic_execution_digest. by eapply Hb.
  - intros r (count & _ & (b & Hn%Hb & Hr)%bind_Ok)%bind_Ok.
    apply map_err_Ok, bind_Ok in Hr as (digest & Hd%digest_sized & <-%Ok_inj). by split.
Qed.

Lemma no_panic_phase_call w e opaque ds r callback bump :
  execution_sized (RoutedWire.xq_binding r) -> sized (RoutedWire.xq_execution_digest r) ->
  NoPanic (invoke_engine_phase w e opaque ds r callback bump).
Proof.
  intros Hb Hd. unfold invoke_engine_phase. guards.
  by apply no_panic_encode_instruction.
Qed.
Lemma phase_receipt_sized w e opaque ds r callback bump w' receipt :
  invoke_engine_phase w e opaque ds r callback bump = Ok (w', receipt) -> receipt_sized receipt.
Proof.
  intros (data & infos & bytes & _ & _ & _ & Hd)%invoke_engine_phase_Ok.
  by eapply decoded_receipt_sized.
Qed.

(** The phase requests are sized when the context is. *)
Lemma phase_request_sized a args au context pcap :
  routed_sized a args -> authorized_sized au -> sized context -> sized pcap ->
  Forall sized [au_intent_digest au; context; key (ev_market (re_env a));
    key (ev_domain (re_env a)); au_capability_hash au; pcap].
Proof.
  intros (Hk & _) [Hc Hi] Hx Hp. unfold routed_fixed_keys in Hk. sized_fields Hk.
  by repeat constructor.
Qed.

Lemma no_panic_primary w a remaining args phase au :
  routed_sized a args -> authorized_sized au ->
  NoPanic (routed_primary w a remaining args phase au) /\
  (forall w' pe, routed_primary w a remaining args phase au = Ok (w', pe) ->
     sized (pe_execution_digest pe) /\ sized (pe_receipt_digest pe)).
Proof.
  intros Ha Hau. assert (sized (replicate 32 0)) as Hz by reflexivity.
  assert (forall pcap pre, sized pcap -> _) as Hbuild by
    exact (fun pcap pre Hp => no_panic_build (re_env a) args (au_protocol_fee au)
      (au_intent_digest au) phase (replicate 32 0) pre (au_capability_hash au) pcap
      (length remaining) (phase_request_sized _ _ _ _ _ Ha Hau Hz Hp)).
  unfold routed_primary. split.
  - guards.
    all: match goal with H : RoutedExecute.wire (RoutedWire.compute_capability_hash _ _) = Ok _ |- _ =>
      apply map_err_Ok, capability_hash_sized in H; pose proof (Hbuild _ (ra_expected_engine_sequence args) H) as [Hn Hs] end.
    + exact Hn.
    + match goal with H : build_engine_request _ _ _ _ _ _ _ _ _ _ = Ok _ |- _ =>
        destruct (Hs _ H) end. by apply no_panic_phase_call.
    + match goal with H : invoke_engine_phase _ _ _ _ _ _ _ = Ok _ |- _ =>
        apply phase_receipt_sized in H end. by apply no_panic_receipt_digest.
  - intros w' pe Hp. inv_guarded. destruct r1 as [w1 receipt]. inv_guarded.
    match goal with H : RoutedExecute.wire (RoutedWire.compute_capability_hash _ _) = Ok _ |- _ =>
      apply map_err_Ok, capability_hash_sized in H; pose proof (Hbuild _ (ra_expected_engine_sequence args) H) as [_ Hs] end.
    match goal with H : build_engine_request _ _ _ _ _ _ _ _ _ _ = Ok _ |- _ =>
      destruct (Hs _ H) end. simpl. split; [done|]. by eapply digest_sized.
Qed.

Lemma no_panic_commit w a e remaining args au primary sd :
  routed_sized a args -> authorized_sized au -> sized sd ->
  ev_market e = ev_market (re_env a) -> ev_domain e = ev_domain (re_env a) ->
  NoPanic (routed_commit w a e remaining args au primary sd).
Proof.
  intros Ha Hau Hsd Em Ed. unfold routed_commit. guards.
  all: match goal with H : RoutedExecute.wire (RoutedWire.compute_capability_hash _ _) = Ok _ |- _ =>
    apply map_err_Ok, capability_hash_sized in H;
    pose proof (phase_request_sized _ _ _ _ _ Ha Hau Hsd H) as Hr; rewrite <- Em, <- Ed in Hr;
    destruct (no_panic_build e args (au_protocol_fee au) (au_intent_digest au)
      RoutedWire.PHASE_COMMIT sd (RoutedWire.xr_state_sequence primary) (au_capability_hash au) _
      (length remaining) Hr) as [Hn Hs] end.
  - exact Hn.
  - match goal with H : build_engine_request _ _ _ _ _ _ _ _ _ _ = Ok _ |- _ =>
      destruct (Hs _ H) end. by apply no_panic_phase_call.
  - match goal with H : invoke_engine_phase _ _ _ _ _ _ _ = Ok _ |- _ =>
      apply phase_receipt_sized in H end. by apply no_panic_receipt_digest.
Qed.

Lemma no_panic_routed w a remaining args :
  routed_sized a args -> NoPanic (execute_callback_authenticated_probe w a remaining args).
Proof.
  intros Ha. unfold execute_callback_authenticated_probe,
    handle_execute_callback_authenticated_probe_v0, compute_bound_settlement_digest. guards.
  all: try by apply no_panic_authorization.
  all: match goal with H : routed_authorization _ _ _ _ = Ok _ |- _ =>
    apply authorization_sized in H end.
  all: try by apply no_panic_primary.
  all: match goal with H : routed_primary _ _ _ _ _ _ = Ok _ |- _ =>
    apply no_panic_primary in H as [? ?]; [|done..] end.
  - match goal with |- NoPanic (infallible (RoutedWire.compute_settlement_digest ?b)) =>
      destruct (settlement_digest_total b) as [bytes Hb] end; [|by eapply no_panic_infallible].
    match goal with H : authorized_sized _ |- _ => destruct H end. by repeat constructor.
  - match goal with H : settle_authenticated_intent _ _ _ _ _ _ = Ok _ |- _ =>
      apply settle_authenticated_intent_Ok in H as [(Hsame & _)%settle_Ok _];
      destruct Hsame as (Em & Ed & _) end.
    apply no_panic_commit; try done. by eapply digest_sized, infallible_Ok.
Qed.
End Cores.

(** ** The engines and their helpers

    Called with any accounts, any argument bytes and any ledger. *)
Section Engines.
Context `{Runtime} `{Introspection} (cpi : Cpi) (escalation_data : list Z).
Hypothesis Hcpi : forall w ix infos seeds, NoPanic (cpi w ix infos seeds).

#[local] Instance no_panic_cpi w ix infos seeds : NoPanic (cpi w ix infos seeds).
Proof. apply Hcpi. Qed.
#[local] Instance no_panic_engine b e : NoPanic (require_engine b e) := no_panic_require _ _.
#[local] Instance no_panic_engine_keys a b e : NoPanic (require_engine_keys_eq a b e) :=
  no_panic_require _ _.
#[local] Instance no_panic_direct id d w : NoPanic (require_direct_core_cpi id d w).
Proof. unfold require_direct_core_cpi. no_panic. Qed.
#[local] Instance no_panic_cpmm x y g bps : NoPanic (quote_exact_in x y g bps).
Proof. unfold quote_exact_in. no_panic. Qed.
#[local] Instance no_panic_helper_amount payload : NoPanic (helper_amount payload).
Proof. unfold helper_amount. no_panic. Qed.

Lemma no_panic_spike w accounts args :
  NoPanic (SpikeEngine.evaluate_handler cpi escalation_data w accounts args).
Proof.
  unfold SpikeEngine.evaluate_handler, SpikeEngine.evaluate_accounts, SpikeEngine.evaluate,
    SpikeEngine.attempt_readonly_to_writable_self_cpi. no_panic.
  match goal with H : map_err _ _ = Ok ?r |- NoPanic (infallible (encode_receipt ?rc)) =>
    apply map_err_Ok, decoded_request_sized in H; destruct (receipt_total rc H) as [bytes Hb] end.
  by eapply no_panic_infallible.
Qed.

(** The slice pattern after a length guard. *)
#[local] Instance no_panic_generated_helper w payload accounts state bump :
  NoPanic (GeneratedEngine.maybe_invoke_helper cpi w payload accounts state bump).
Proof.
  unfold GeneratedEngine.maybe_invoke_helper. no_panic_step; [no_panic|].
  apply no_panic_bind; [apply _|]. intros u Hl%require_engine_Ok.
  destruct accounts as [|x [|y [|z accounts]]]; [discriminate Hl..|]. clear Hl. no_panic.
Qed.
#[local] Instance no_panic_routed_helper w payload accounts state callback :
  NoPanic (RoutedEngine.maybe_invoke_helper cpi w payload accounts state callback).
Proof.
  unfold RoutedEngine.maybe_invoke_helper, RoutedEngine.validate_helper_prefix.
  no_panic_step; [no_panic|].
  apply no_panic_bind; [apply _|]. intros u Hl%require_engine_Ok.
  destruct accounts as [|x [|y accounts]]; [discriminate Hl..|]. clear Hl. no_panic.
Qed.

Lemma no_panic_generated_engine w accounts args :
  NoPanic (GeneratedEngine.evaluate_handler cpi escalation_data w accounts args).
Proof.
  unfold GeneratedEngine.evaluate_handler, GeneratedEngine.evaluate_accounts,
    GeneratedEngine.evaluate, GeneratedEngine.attempt_readonly_to_writable_self_cpi,
    GeneratedEngine.record_evaluation, GeneratedEngine.emit, GeneratedWire.payload_bytes,
    GeneratedWire.validate_engine_request. no_panic.
  match goal with H : map_err _ (GeneratedWire.decode_request _) = Ok ?r
    |- NoPanic (infallible (GeneratedWire.encode_receipt ?rc)) =>
    apply map_err_Ok, decoded_generated_request_sized in H;
    destruct (generated_receipt_total rc H) as [bytes Hb] end.
  by eapply no_panic_infallible.
Qed.

#[local] Instance no_panic_opaque_privileges c p l :
  NoPanic (RoutedEngine.validate_opaque_privileges c p l).
Proof.
  induction l as [|a l IH]; cbn [RoutedEngine.validate_opaque_privileges]; [apply _|].
  no_panic.
Qed.

Lemma flip_bit_sized i data : sized data -> sized (flip_bit i data).
Proof. unfold sized, flip_bit. by rewrite length_alter. Qed.

Lemma no_panic_emit w mode r : receipt_sized r -> NoPanic (RoutedEngine.emit_receipt w mode r).
Proof.
  intros [Hi Hx]. unfold RoutedEngine.emit_receipt.
  assert (NoPanic (RoutedWire.encode_receipt r)) by by apply no_panic_encode_receipt.
  assert (NoPanic (RoutedWire.encode_receipt (RoutedEngine.flip_intent r)))
    by (apply no_panic_encode_receipt; split; [by apply flip_bit_sized | done]).
  assert (NoPanic (RoutedWire.encode_receipt (RoutedEngine.flip_execution r)))
    by (apply no_panic_encode_receipt; split; [done | by apply flip_bit_sized]).
  assert (NoPanic (RoutedWire.encode_receipt (RoutedEngine.flip_phase r)))
    by by apply no_panic_encode_receipt.
  no_panic.
Qed.

Lemma decoded_engine_request_sized data r :
  RoutedWire.decode_engine_request data = Ok r ->
  execution_sized (RoutedWire.xq_binding r) /\ sized (RoutedWire.xq_execution_digest r).
Proof.
  unfold RoutedWire.decode_engine_request.
  intros (u & Hl%require_length_Ok & (b & Hb%decoded_execution_sized & Hr)%bind_Ok)%bind_Ok.
  apply bind_Ok in Hr as (u' & _ & <-%Ok_inj). split; [done|].
  simpl. unfold sized. rewrite length_drop, Hl. reflexivity.
Qed.

Lemma no_panic_phase_handler phase w accounts args :
  NoPanic (RoutedEngine.phase_handler cpi phase w accounts args).
Proof.
  unfold RoutedEngine.phase_handler, RoutedEngine.evaluate_phase,
    RoutedEngine.validate_fixed_account_privileges, RoutedEngine.load_engine_state,
    RoutedEngine.authenticate_callback_authority, RoutedEngine.record_execution,
    RoutedEngine.store_engine_state, RoutedWire.payload_bytes.
  no_panic; match goal with H : map_err _ (RoutedWire.decode_engine_request _) = Ok ?r |- _ =>
    apply map_err_Ok, decoded_engine_request_sized in H as [Hb Hd] end.
  - by apply no_panic_execution_digest.
  - apply no_panic_emit. destruct Hb as [Hs _]. sized_fields Hs. by split.
Qed.

Lemma no_panic_opaque_probe w accounts args :
  NoPanic (Helpers.OpaqueProbe.increment_handler w accounts args).
Proof.
  unfold Helpers.OpaqueProbe.increment_handler, Helpers.OpaqueProbe.increment_accounts,
    Helpers.OpaqueProbe.increment, Helpers.increment_arguments, Helpers.counters. no_panic.
Qed.
Lemma no_panic_callback_probe w accounts args :
  NoPanic (Helpers.CallbackProbe.increment_handler w accounts args).
Proof.
  unfold Helpers.CallbackProbe.increment_handler, Helpers.CallbackProbe.increment_accounts,
    Helpers.CallbackProbe.increment, Helpers.CallbackProbe.validate_increment,
    Helpers.CallbackProbe.apply_increment, Helpers.increment_arguments, Helpers.counters. no_panic.
Qed.

(** *** The instructions that configure the engines and the helpers *)

#[local] Instance no_panic_init_keypair w a : NoPanic (init_keypair w a).
Proof. unfold init_keypair. no_panic. Qed.
#[local] Instance no_panic_init_payer a b : NoPanic (init_payer a b).
Proof. unfold init_payer. no_panic. Qed.
#[local] Instance no_panic_set_mode_constraints {S} `{EqDecision S} at_ auth w program
    (a : SetMode S) : NoPanic (set_mode_constraints at_ auth w program a).
Proof. unfold set_mode_constraints. no_panic. Qed.

Lemma no_panic_spike_configuration w init set remaining market revision mode :
  NoPanic (SpikeEngine.initialize w init remaining market revision) /\
  NoPanic (SpikeEngine.set_mode w set remaining mode).
Proof. unfold SpikeEngine.initialize, SpikeEngine.set_mode. split; no_panic. Qed.
Lemma no_panic_generated_configuration w init set remaining market revision bps mode :
  NoPanic (GeneratedEngine.initialize w init remaining market revision bps) /\
  NoPanic (GeneratedEngine.set_mode w set remaining mode).
Proof. unfold GeneratedEngine.initialize, GeneratedEngine.set_mode. split; no_panic. Qed.
Lemma no_panic_routed_configuration w init set remaining market revision bps timing mode :
  NoPanic (RoutedEngine.initialize w init remaining market revision bps timing) /\
  NoPanic (RoutedEngine.set_mode w set remaining mode).
Proof.
  unfold RoutedEngine.initialize, RoutedEngine.set_mode,
    RoutedEngine.validate_configured_timing_mode. split; no_panic.
Qed.
Lemma no_panic_helper_configuration w init remaining authority :
  NoPanic (Helpers.OpaqueProbe.initialize w init remaining authority) /\
  NoPanic (Helpers.CallbackProbe.initialize w init remaining authority).
Proof.
  unfold Helpers.OpaqueProbe.initialize, Helpers.CallbackProbe.initialize. split; no_panic.
Qed.
Lemma no_panic_increment_and_fail w a remaining amount :
  NoPanic (Helpers.CallbackProbe.increment_and_fail w a remaining amount).
Proof.
  unfold Helpers.CallbackProbe.increment_and_fail, Helpers.CallbackProbe.increment,
    Helpers.CallbackProbe.validate_increment, Helpers.CallbackProbe.apply_increment,
    Helpers.counters. no_panic.
Qed.

(** *** The router *)

#[local] Instance no_panic_require_router b e : NoPanic (Router.require_router b e) :=
  no_panic_require _ _.
#[local] Instance no_panic_account_at accounts i : NoPanic (Router.account_at accounts i) :=
  no_panic_ok_or _ _.
#[local] Instance no_panic_router_distinct keys : NoPanic (Router.require_distinct keys).
Proof. induction keys as [|k keys IH]; cbn [Router.require_distinct]; no_panic. Qed.
Lemma no_panic_route w core remaining args : NoPanic (Router.route cpi w core remaining args).
Proof.
  unfold Router.route, Router.validate_router_envelope, Router.forward_core,
    Router.attempt_spend_drain, Router.attempt_callback_reuse. no_panic.
Qed.
End Engines.

(** ** Properties of the programs *)

(** The arrays an instruction brings have 32 bytes, as their types say. *)
Definition kernel_sized (i : ProgrammableCore.instruction) : Prop :=
  match i with
  | ProgrammableCore.ExecuteEngineProbe a _ _ => Forall sized (probe_roles a)
  | _ => True
  end.
Definition generated_sized (i : ProgrammableGeneratedCore.instruction) : Prop :=
  match i with
  | ProgrammableGeneratedCore.ExecuteEngineGeneratedProbe a _ _ =>
      Forall sized (generated_fixed_keys (C := generated_config) a)
  | _ => True
  end.
Definition routed_instruction_sized (i : ProgrammableRoutedCallbackCore.instruction) : Prop :=
  match i with
  | ProgrammableRoutedCallbackCore.ExecuteCallbackAuthenticatedProbe a _ args =>
      routed_sized (C := routed_config) a args
  | _ => True
  end.

(** C21. Nothing panics: on every ledger, with every account list and every
    argument, each of the instructions of the three core programs, of the three
    engines ([initialize], [set_mode], the evaluators and the hostile probes), of
    the two helper programs ([initialize], [increment], [increment_and_fail]) and
    the router's [route] returns its result or an error, provided the calls into
    the runtime and into other programs return. *)
Theorem programs_never_panic `{Returning} `{Introspection} (cpi : Cpi) escalation_data :
  sha256_output -> (forall w ix infos seeds, NoPanic (cpi w ix infos seeds)) ->
  (forall w i, kernel_sized i -> NoPanic (ProgrammableCore.entry w i)) /\
  (forall w i, generated_sized i -> NoPanic (ProgrammableGeneratedCore.entry w i)) /\
  (forall w i, routed_instruction_sized i -> NoPanic (ProgrammableRoutedCallbackCore.entry w i)) /\
  (forall w remaining init set market revision mode,
    NoPanic (SpikeEngine.initialize w init remaining market revision) /\
    NoPanic (SpikeEngine.set_mode w set remaining mode) /\
    NoPanic SpikeEngine.hostile_escalation_probe) /\
  (forall w remaining init set market revision lp_fee_bps mode,
    NoPanic (GeneratedEngine.initialize w init remaining market revision lp_fee_bps) /\
    NoPanic (GeneratedEngine.set_mode w set remaining mode) /\
    NoPanic GeneratedEngine.hostile_escalation_probe) /\
  (forall w remaining init set market revision lp_fee_bps timing_mode mode,
    NoPanic (RoutedEngine.initialize w init remaining market revision lp_fee_bps timing_mode) /\
    NoPanic (RoutedEngine.set_mode w set remaining mode)) /\
  (forall w remaining init authority a amount,
    NoPanic (Helpers.OpaqueProbe.initialize w init remaining authority) /\
    NoPanic (Helpers.CallbackProbe.initialize w init remaining authority) /\
    NoPanic (Helpers.CallbackProbe.increment_and_fail w a remaining amount)) /\
  (forall w accounts args,
    NoPanic (SpikeEngine.evaluate_handler cpi escalation_data w accounts args) /\
    NoPanic (GeneratedEngine.evaluate_handler cpi escalation_data w accounts args) /\
    (forall phase, NoPanic (RoutedEngine.phase_handler cpi phase w accounts args)) /\
    NoPanic (Helpers.OpaqueProbe.increment_handler w accounts args) /\
    NoPanic (Helpers.CallbackProbe.increment_handler w accounts args)) /\
  (forall w core remaining args, NoPanic (Router.route cpi w core remaining args)).
Proof.
  intros Hhash Hcpi. split_and!; [intros w i Hi..|intros|intros|intros|intros|intros|intros].
  1-3: destruct i; (apply no_panic_bind; [|intros [? ?] _; apply _]);
    first [apply no_panic_initialize | apply no_panic_deposit
    | by apply (no_panic_probe Hhash) | by apply (no_panic_generated Hhash)
    | apply no_panic_authorize | by apply (no_panic_routed Hhash)].
  - apply and_assoc. split; [by apply no_panic_spike_configuration | apply _].
  - apply and_assoc. split; [by apply no_panic_generated_configuration | apply _].
  - by apply no_panic_routed_configuration.
  - apply and_assoc.
    split; [apply no_panic_helper_configuration | apply no_panic_increment_and_fail].
  - split_and!; [by apply no_panic_spike | by apply no_panic_generated_engine
      | intros phase; by apply no_panic_phase_handler | apply no_panic_opaque_probe
      | apply no_panic_callback_probe].
  - by apply no_panic_route.
Qed.

(** ** A concrete runtime whose calls return *)

Lemma reference_returns callee :
  (forall w ix infos seeds, NoPanic (callee w ix infos seeds)) ->
  Returning (H := reference_runtime callee).
Proof.
  intros Hc. constructor; cbn [invoke_signed transfer_checked approve_checked reference_runtime].
  - exact Hc.
  - intros. unfold reference_transfer. no_panic.
  - intros. unfold reference_approve. no_panic.
Qed.

(** A table of handlers returns when each handler does. *)
Lemma no_panic_table table :
  Forall (fun entry => forall w accounts args, NoPanic (entry.2 w accounts args)) table ->
  forall w ix infos seeds, NoPanic (table_cpi table w ix infos seeds).
Proof.
  rewrite Forall_forall. intros Ht w ix infos seeds. unfold table_cpi.
  match goal with |- context [find ?f table] =>
    destruct (find f table) as [[[p d] h]|] eqn:E; [|apply _] end.
  apply find_some in E as [Hin%list_elem_of_In _]. pose proof (Ht _ Hin) as Hh. simpl in Hh. no_panic.
Qed.

(** A deposit-funded execution that settles, and an engine called with nothing. *)
Lemma programs_never_panic_witness :
  exists w w' e, let entry := ProgrammableCore.entry (H := EngineProbe.example_runtime) in
    kernel_sized run_execute /\ NoPanic (entry w run_execute) /\ entry w run_execute = Ok (w', e) /\
    NoPanic (SpikeEngine.evaluate_handler (H := SpikeEngine.spike_introspection)
      GeneratedEngine.helper_cpi [] w [] []).
Proof.
  assert (kernel_sized run_execute) as Hs by decide_closed.
  destruct (is_ok_Ok history_deposited) as [[w1 e1] E1]; [vm_compute; reflexivity|].
  destruct (is_ok_Ok history_settled) as [[w2 e2] E2]; [vm_compute; reflexivity|].
  unfold history_settled in E2. rewrite (world_of_Ok _ _ _ E1) in E2.
  assert (Returning (H := EngineProbe.example_runtime)) as Hret.
  { apply reference_returns. intros. unfold acknowledging_engine. no_panic. }
  assert (forall w ix infos seeds, NoPanic (GeneratedEngine.helper_cpi w ix infos seeds)) as Hcpi.
  { apply no_panic_table. repeat constructor. intros. apply no_panic_opaque_probe. }
  pose proof (programs_never_panic (H0 := Hret) (H1 := SpikeEngine.spike_introspection)
    GeneratedEngine.helper_cpi [] (fun l => toy_digest_bytes (concat l)) Hcpi)
    as (Hkernel & _ & _ & _ & _ & _ & _ & Hengines & _).
  exists w1, w2, (EngineProbeExecuted e2). split_and!; [exact Hs | exact (Hkernel _ _ Hs) | |].
  - exact (f_equal (fun r => '(w, e) ← r; Ok (w, EngineProbeExecuted e)) E2).
  - exact (proj1 (Hengines w1 [] [])).
Defined.
