(* ===== verification/EnginePhases.v ===== *)
(** * What the routed engine's entrypoints do, spelled out

    The specification of TRANSITION, PREPARE and COMMIT of the routed engine in
    plain terms: which accounts with which privileges, which state, which
    request; what is written to the engine state, what the helper is called
    with, and which bytes are returned in which mode. The handlers are shown to
    succeed exactly when it holds, with exactly the world it names. *)
From S2P Require Import Prelude Codec CoreState EngineState Solana ReferenceRuntime EngineFrame.
From S2P Require Import Helpers Capability Cpmm RoutedWire RoutedEngine NoPanic.

Lemma guard_Ok {A} b e (m : engine_result A) x :
  (_ ← require_engine b e; m) = Ok x <-> b = true /\ m = Ok x.
Proof. unfold require_engine. destruct b; simpl; [tauto | by split; [|intros []]]. Qed.
Lemma guard_keys_Ok {A} a b e (m : engine_result A) x :
  (_ ← require_engine_keys_eq a b e; m) = Ok x <-> a = b /\ m = Ok x.
Proof.
  unfold require_engine_keys_eq, key_eqb. case_bool_decide; simpl; [tauto | by split; [|intros []]].
Qed.

(** ** Privileges *)

Definition opaque_privileged (callback : AccountInfo) (phase : Z) (account : AccountInfo) : Prop :=
  ai_is_signer account = false /\ ai_key account <> ai_key callback /\
  (phase = PHASE_PREPARE -> ai_is_writable account = false).

Lemma opaque_privileges_iff callback phase opaque :
  validate_opaque_privileges callback phase opaque = Ok tt <->
  Forall (opaque_privileged callback phase) opaque.
Proof.
  unfold opaque_privileged. induction opaque as [|a opaque IH]; cbn [validate_opaque_privileges].
  { by rewrite Forall_nil. }
  rewrite Forall_cons, !guard_Ok, !negb_true_iff, <- IH. unfold key_eqb.
  rewrite bool_decide_eq_false. destruct (Z.eqb_spec phase PHASE_PREPARE) as [Hp|Hp].
  - rewrite guard_Ok, negb_true_iff. tauto.
  - rewrite bind_ret_l. tauto.
Qed.

(** The accounts of a phase: the state is written in every phase but PREPARE, the
    callback authority signs and nothing else, the opaque accounts never sign. *)
Definition phase_privileges (phase : Z) (state callback : AccountInfo)
    (opaque : list AccountInfo) : Prop :=
  (phase = PHASE_TRANSITION \/ phase = PHASE_PREPARE \/ phase = PHASE_COMMIT) /\
  (ai_executable state = false /\ ai_is_signer state = false /\
   ai_is_writable state = negb (phase =? PHASE_PREPARE)) /\
  (ai_is_signer callback = true /\ ai_is_writable callback = false /\
   ai_executable callback = false /\ ai_key state <> ai_key callback) /\
  Forall (opaque_privileged callback phase) opaque.

Lemma fixed_privileges_iff phase state callback opaque :
  validate_fixed_account_privileges
    {| ep_engine_state := state; ep_callback_authority := callback |} opaque phase = Ok tt <->
  phase_privileges phase state callback opaque.
Proof.
  unfold validate_fixed_account_privileges, phase_privileges.
  cbn [ep_engine_state ep_callback_authority].
  rewrite !guard_Ok, !andb_true_iff, !negb_true_iff. unfold key_eqb. rewrite bool_decide_eq_false.
  rewrite <- opaque_privileges_iff.
  destruct (Z.eqb_spec phase PHASE_PREPARE) as [->|Hp]; cbn [negb].
  { rewrite guard_Ok, negb_true_iff. intuition. }
  destruct (Z.eqb_spec phase PHASE_TRANSITION) as [->|Ht]; cbn [orb].
  { rewrite guard_Ok. intuition. }
  destruct (Z.eqb_spec phase PHASE_COMMIT) as [->|Hc].
  { rewrite guard_Ok. intuition. }
  split; [intros (_ & _ & _ & _ & Hm); discriminate Hm | tauto].
Qed.

Lemma phase_for_timing_iff timing phase :
  validate_phase_for_timing timing phase = Ok tt <->
  (timing = TIMING_SINGLE /\ phase = PHASE_TRANSITION) \/
  (timing = TIMING_PREPARE_COMMIT /\ (phase = PHASE_PREPARE \/ phase = PHASE_COMMIT)).
Proof.
  unfold validate_phase_for_timing, require_timing_mode, require_phase.
  unfold TIMING_SINGLE, TIMING_PREPARE_COMMIT, PHASE_TRANSITION, PHASE_PREPARE, PHASE_COMMIT.
  destruct (Z.eqb_spec timing 0), (Z.eqb_spec timing 1), (Z.eqb_spec phase 0),
    (Z.eqb_spec phase 1), (Z.eqb_spec phase 2); simpl; split; intros Ht;
    try discriminate Ht; (lia || done).
Qed.

(** ** The receipt *)

(** How a mode spoils the ninety bytes of the honest receipt: magic at 0, version
    at 8, phase at 9, intent digest at 10, execution digest at 42. *)
Definition spoiled (mode : Z) (honest : list Z) : list Z :=
  if mode =? MODE_WRONG_RECEIPT_MAGIC then flip_bit 0 honest
  else if mode =? MODE_WRONG_RECEIPT_VERSION then flip_bit 8 honest
  else if mode =? MODE_WRONG_RECEIPT_PHASE
  then alter (fun phase => if phase =? PHASE_TRANSITION then PHASE_PREPARE else PHASE_TRANSITION)
         9%nat honest
  else if mode =? MODE_WRONG_INTENT_DIGEST then flip_bit 10 honest
  else if mode =? MODE_WRONG_EXECUTION_DIGEST then flip_bit 42 honest
  else if mode =? MODE_MALFORMED_RECEIPT then take 89 honest
  else if mode =? MODE_TRAILING_RECEIPT_BYTE then honest ++ [0]
  else honest.

Lemma sized_receipt_length r :
  receipt_sized r -> length (engine_receipt_layout r) = ENGINE_RECEIPT_LEN.
Proof. intros [Hi Hx]. unfold engine_receipt_layout. sized_length. Qed.

Lemma encode_sized_receipt r :
  receipt_sized r -> require_phase (xr_phase r) = Ok tt ->
  encode_receipt r = Ok (engine_receipt_layout r).
Proof.
  intros Hs Hp. unfold encode_receipt. rewrite Hp, bind_ret_l.
  apply run_writer_ok; [apply _ | by apply sized_receipt_length].
Qed.

Lemma flip_bit_field i pre field post :
  length pre = i -> (0 < length field)%nat ->
  flip_bit i (pre ++ field ++ post) = pre ++ flip_bit 0 field ++ post.
Proof.
  intros <- Hf. unfold flip_bit.
  by rewrite <- (Nat.add_0_r (length pre)), alter_app_r, alter_app_l.
Qed.

Definition receipt_prefix (r : EngineReceipt) : list Z :=
  RECEIPT_MAGIC ++ [PROBE_WIRE_VERSION] ++ [xr_phase r].

Lemma receipt_layout_prefix r :
  engine_receipt_layout r = receipt_prefix r ++ xr_intent_digest r ++ xr_execution_digest r ++
    to_le_bytes 8 (xr_amount_out r) ++ to_le_bytes 8 (xr_state_sequence r).
Proof. reflexivity. Qed.

Lemma flip_intent_layout r : receipt_sized r ->
  engine_receipt_layout (flip_intent r) = flip_bit 10 (engine_receipt_layout r).
Proof.
  intros [Hi _]. rewrite !receipt_layout_prefix, flip_bit_field; [done..|]. rewrite Hi. lia.
Qed.

Lemma flip_execution_layout r : receipt_sized r ->
  engine_receipt_layout (flip_execution r) = flip_bit 42 (engine_receipt_layout r).
Proof.
  intros [Hi Hx]. rewrite !receipt_layout_prefix, !(app_assoc (receipt_prefix _)).
  rewrite flip_bit_field; [done| |rewrite Hx; lia]. by rewrite length_app, Hi.
Qed.

Lemma flip_phase_layout r :
  engine_receipt_layout (flip_phase r) =
  alter (fun phase => if phase =? PHASE_TRANSITION then PHASE_PREPARE else PHASE_TRANSITION)
    9%nat (engine_receipt_layout r).
Proof. reflexivity. Qed.

(** Every mode but the silent one returns the honest bytes, spoiled. *)
Lemma emit_receipt_eq w mode r :
  receipt_sized r -> require_phase (xr_phase r) = Ok tt -> 0 <= mode <= 11 ->
  emit_receipt w mode r =
    Ok (if mode =? MODE_MISSING_RECEIPT then w
        else set_return_data w routed_engine_ID (spoiled mode (engine_receipt_layout r))).
Proof.
  intros Hs Hp Hm. pose proof (sized_receipt_length r Hs) as Hl.
  assert (forall r', receipt_sized r' -> require_phase (xr_phase r') = Ok tt ->
    map_err (fun _ => InvalidReceiptEncoding) (encode_receipt r') = Ok (engine_receipt_layout r'))
    as Henc by (intros; by rewrite encode_sized_receipt).
  assert (receipt_sized (flip_intent r) /\ receipt_sized (flip_execution r)) as [Hi Hx].
  { destruct Hs. split; split; try done; by apply flip_bit_sized. }
  assert (require_phase (xr_phase (flip_phase r)) = Ok tt) as Hf
    by (cbn [flip_phase xr_phase]; by destruct (xr_phase r =? PHASE_TRANSITION)).
  unfold emit_receipt. rewrite !Henc by done. rewrite !bind_ret_l, Hl.
  rewrite flip_intent_layout, flip_execution_layout, flip_phase_layout by done.
  assert (mode = 0 \/ mode = 1 \/ mode = 2 \/ mode = 3 \/ mode = 4 \/ mode = 5 \/ mode = 6 \/
    mode = 7 \/ mode = 8 \/ mode = 9 \/ mode = 10 \/ mode = 11) as Hcases by lia.
  destruct_or! Hcases; subst mode; reflexivity.
Qed.

Lemma supported_mode_iff mode : is_supported_mode mode = true <-> 0 <= mode <= 11.
Proof.
  unfold is_supported_mode. rewrite existsb_exists. setoid_rewrite Z.eqb_eq. split.
  - intros (m & Hin & <-). revert mode Hin. apply List.Forall_forall. decide_closed.
  - intros Hm. exists mode. split; [|done].
    unfold MODE_ACCEPT, MODE_MISSING_RECEIPT, MODE_WRONG_INTENT_DIGEST, MODE_WRONG_EXECUTION_DIGEST,
      MODE_MALFORMED_RECEIPT, MODE_ZERO_OUTPUT, MODE_OVERSIZED_OUTPUT, MODE_WRONG_RECEIPT_MAGIC,
      MODE_WRONG_RECEIPT_VERSION, MODE_TRAILING_RECEIPT_BYTE, MODE_WRONG_RECEIPT_PHASE,
      MODE_LATE_COMMIT_FAILURE. simpl. lia.
Qed.

Section Spec.
Context `{Runtime} (cpi : Cpi).

(** ** The helper command of a payload *)

(** A payload that starts with the helper tag names the first two opaque accounts
    as the helper program and its state; the engine calls it with Core's callback
    signature and the payload's amount. Any other payload calls nothing. *)
Definition helper_command (w w1 : World) (payload : list Z) (state callback : AccountInfo)
    (opaque : list AccountInfo) : Prop :=
  (payload !! 0%nat <> Some HELPER_PAYLOAD_TAG /\ w1 = w) \/
  exists program helper rest amount,
    payload !! 0%nat = Some HELPER_PAYLOAD_TAG /\ helper_amount payload = Ok amount /\
    opaque = program :: helper :: rest /\ (length opaque <= MAX_OPAQUE_ACCOUNTS)%nat /\
    (ai_executable program = true /\ ai_is_writable program = false /\
     ai_is_signer program = false /\ ai_key program = CallbackProbe.ID) /\
    (ai_is_writable helper = true /\ ai_is_signer helper = false /\ ai_executable helper = false /\
     ai_owner helper = CallbackProbe.ID) /\
    (ai_key program <> ai_key helper /\ ai_key program <> ai_key callback /\
     ai_key helper <> ai_key callback /\ ai_key program <> ai_key state /\
     ai_key helper <> ai_key state) /\
    cpi w {| ix_program_id := CallbackProbe.ID;
             ix_accounts := [meta_new (ai_key helper) false;
                             meta_new_readonly (ai_key callback) true];
             ix_data := helper_increment_data amount |}
      [helper; callback; program] [] = Ok w1.

Lemma helper_prefix_iff program helper state callback :
  validate_helper_prefix program helper state callback = Ok tt <->
  (ai_executable program = true /\ ai_is_writable program = false /\
   ai_is_signer program = false /\ ai_key program = CallbackProbe.ID) /\
  (ai_is_writable helper = true /\ ai_is_signer helper = false /\ ai_executable helper = false /\
   ai_owner helper = ai_key program) /\
  (ai_key program <> ai_key helper /\ ai_key program <> ai_key callback /\
   ai_key helper <> ai_key callback /\ ai_key program <> ai_key state /\
   ai_key helper <> ai_key state).
Proof.
  unfold validate_helper_prefix. rewrite !guard_Ok, !guard_keys_Ok, guard_Ok, guard_keys_Ok.
  rewrite require_engine_Ok, !andb_true_iff, !negb_true_iff. unfold key_eqb.
  rewrite !bool_decide_eq_false. tauto.
Qed.

Lemma helper_command_iff w w1 payload state callback opaque :
  maybe_invoke_helper cpi w payload opaque state callback = Ok w1 <->
  helper_command w w1 payload state callback opaque.
Proof.
  unfold maybe_invoke_helper, helper_command, names_helper.
  case_bool_decide as Ht; cbn [negb]; [|split].
  2: { intros <-%Ok_inj. by left. }
  2: { intros [[_ ->]|(program & helper & rest & amount & Htag & _)]; [done | by destruct Ht]. }
  rewrite guard_Ok, andb_true_iff, !Nat.leb_le. split.
  - intros [[H2 Hm] Hc]. destruct opaque as [|program [|helper rest]]; [simpl in H2; lia..|].
    right. apply bind_Ok in Hc as ([] & Hp%helper_prefix_iff & Hc).
    apply bind_Ok in Hc as (amount & Ha & Hc%map_err_Ok).
    destruct Hp as ((? & ? & ? & Hid) & (? & ? & ? & Ho) & ?). rewrite Hid in Hc, Ho.
    exists program, helper, rest, amount. tauto.
  - intros [[Hn _]|(program & helper & rest & amount & _ & Ha & -> & Hm & Hp & Hh & Hk & Hc)];
      [by destruct Hn|].
    split; [split; [simpl; lia | exact Hm]|]. destruct Hp as (? & ? & ? & Hid).
    rewrite (proj2 (helper_prefix_iff program helper state callback)), bind_ret_l, Ha, bind_ret_l, Hid
      by (destruct Hh as (? & ? & ? & Ho); rewrite <- Hid in Ho; tauto).
    by rewrite Hc.
Qed.

(** ** A phase *)

(** The state after a recorded execution: the configuration and the mode stay, the
    sequence advances by one, and the record is the request's. *)
Definition recorded_state (s : RoutedEngineState) (request : EngineRequest) (amount_out : Z)
    : RoutedEngineState := {|
  rs_authority := rs_authority s; rs_market := rs_market s; rs_revision := rs_revision s;
  rs_lp_fee_bps := rs_lp_fee_bps s; rs_timing_mode := rs_timing_mode s;
  rs_sequence := rs_sequence s + 1;
  rs_last_intent_digest := xb_intent_digest (xq_binding request);
  rs_last_phase_context_digest := xb_phase_context_digest (xq_binding request);
  rs_last_execution_digest := xq_execution_digest request;
  rs_last_amount_out := amount_out;
  rs_last_phase := xb_phase (xq_binding request); rs_mode := rs_mode s |}.

(** The output a mode answers. *)
Definition answered (mode quoted amount_out : Z) : Prop :=
  (mode = MODE_ZERO_OUTPUT -> amount_out = 0) /\
  (mode = MODE_OVERSIZED_OUTPUT -> amount_out = 2 ^ 64 - 1) /\
  (mode <> MODE_ZERO_OUTPUT -> mode <> MODE_OVERSIZED_OUTPUT -> amount_out = quoted).

(** The whole of a successful phase on a request. *)
Record PhaseSpec (phase : Z) (w : World) (state callback : AccountInfo)
    (opaque : list AccountInfo) (request : EngineRequest) (w' : World)
    (s : RoutedEngineState) (q : CpmmQuote) (amount_out : Z) (w1 w2 : World) : Prop := {
  (** the accounts *)
  sp_privileges : phase_privileges phase state callback opaque;
  sp_callback : ai_key callback = (find_program_address
    [CALLBACK_AUTHORITY_SEED; routed_engine_ID; ai_key state; xb_market (xq_binding request);
     xb_domain (xq_binding request); xb_intent_digest (xq_binding request); [phase]] routed_ID).1;
  sp_state : ai_owner state = routed_engine_ID /\ routed_state_at w (ai_key state) = Some s;
  (** the request against the accounts and the state *)
  sp_phase : xb_phase (xq_binding request) = phase;
  sp_count : xb_opaque_account_count (xq_binding request) = Z.of_nat (length opaque);
  sp_closure : compute_capability_hash routed_engine_ID
    (map capability_descriptor (state :: opaque)) =
    Ok (xb_phase_capability_hash (xq_binding request));
  sp_market : xb_market (xq_binding request) = rs_market s;
  sp_revision : xb_engine_revision (xq_binding request) = rs_revision s;
  sp_sequence : xb_pre_sequence (xq_binding request) = rs_sequence s;
  sp_timing : (rs_timing_mode s = TIMING_SINGLE /\ phase = PHASE_TRANSITION) \/
    (rs_timing_mode s = TIMING_PREPARE_COMMIT /\ (phase = PHASE_PREPARE \/ phase = PHASE_COMMIT));
  sp_mode : 0 <= rs_mode s <= 11;
  (** the answer *)
  sp_quote : quote_exact_in (xb_accounted_input_before (xq_binding request))
    (xb_accounted_output_before (xq_binding request)) (xb_amount_in (xq_binding request))
    (rs_lp_fee_bps s) = Ok q;
  sp_output : answered (rs_mode s) (cq_amount_out q) amount_out;
  (** the effect: none in PREPARE; elsewhere the helper command, then the record *)
  sp_prepare : phase = PHASE_PREPARE -> w1 = w /\ w2 = w;
  sp_mutation : phase <> PHASE_PREPARE ->
    helper_command w w1 (take (Z.to_nat (xb_payload_len (xq_binding request)))
      (xb_payload (xq_binding request))) state callback opaque /\
    is_Some (routed_state_at w1 (ai_key state)) /\ rs_sequence s + 1 < 2 ^ 64 /\
    w2 = store w1 (ai_key state)
      (OtherProgramData (RoutedEngineData (recorded_state s request amount_out))) /\
    ~ (rs_mode s = MODE_LATE_COMMIT_FAILURE /\ phase = PHASE_COMMIT);
  (** the receipt: its bytes, spoiled as the mode says *)
  sp_receipt : w' = (
    if rs_mode s =? MODE_MISSING_RECEIPT then w2
    else set_return_data w2 routed_engine_ID (spoiled (rs_mode s)
      (RECEIPT_MAGIC ++ [PROBE_WIRE_VERSION] ++ [phase] ++ xb_intent_digest (xq_binding request) ++
       xq_execution_digest request ++ to_le_bytes 8 amount_out ++
       to_le_bytes 8 (if phase =? PHASE_PREPARE then rs_sequence s else rs_sequence s + 1)))) }.

Lemma offered_iff mode quoted amount_out :
  offered mode quoted = amount_out <-> answered mode quoted amount_out.
Proof.
  unfold offered, answered, U64_MAX, MODE_ZERO_OUTPUT, MODE_OVERSIZED_OUTPUT.
  destruct (Z.eqb_spec mode 5); [|destruct (Z.eqb_spec mode 6)]; lia.
Qed.

Lemma record_execution_iff s request amount_out s' :
  record_execution s (xq_binding request) (xq_execution_digest request) amount_out = Ok s' <->
  rs_sequence s + 1 < 2 ^ 64 /\ s' = recorded_state s request amount_out.
Proof.
  unfold record_execution, checked_add, recorded_state.
  destruct (Z.ltb_spec (rs_sequence s + 1) (2 ^ 64)); simpl; split; try lia.
  - intros <-%Ok_inj. by split.
  - by intros [_ ->].
  - discriminate.
Qed.

(** What decoding a request already established. *)
Lemma decoded_request_valid args request :
  decode_engine_request (take ENGINE_REQUEST_LEN args) = Ok request ->
  payload_bytes (xq_binding request) =
    Ok (take (Z.to_nat (xb_payload_len (xq_binding request))) (xb_payload (xq_binding request))) /\
  require_phase (xb_phase (xq_binding request)) = Ok tt /\
  sized (xb_intent_digest (xq_binding request)) /\ sized (xq_execution_digest request).
Proof.
  intros Hd. pose proof (decoded_engine_request_sized _ _ Hd) as [[Hs _] Hx].
  apply decoded_request_facts in Hd as (_ & _ & Hd).
  unfold compute_execution_digest, encode_execution_binding in Hd.
  apply bind_Ok in Hd as (bytes & ([] & Hv & _)%bind_Ok & _).
  unfold payload_bytes. rewrite Hv. split; [done|]. split_and!; [|by sized_fields Hs|done].
  unfold validate_execution_binding in Hv. by apply bind_Ok in Hv as ([] & Hp & _).
Qed.

(** The receipt a phase emits, on a decoded request. *)
Lemma phase_receipt_iff args request mode amount_out sequence w2 w' :
  decode_engine_request (take ENGINE_REQUEST_LEN args) = Ok request ->
  emit_receipt w2 mode {|
    xr_phase := xb_phase (xq_binding request);
    xr_intent_digest := xb_intent_digest (xq_binding request);
    xr_execution_digest := xq_execution_digest request;
    xr_amount_out := amount_out; xr_state_sequence := sequence |} = Ok w' <->
  0 <= mode <= 11 /\
  w' = (if mode =? MODE_MISSING_RECEIPT then w2
        else set_return_data w2 routed_engine_ID (spoiled mode
          (RECEIPT_MAGIC ++ [PROBE_WIRE_VERSION] ++ [xb_phase (xq_binding request)] ++
           xb_intent_digest (xq_binding request) ++ xq_execution_digest request ++
           to_le_bytes 8 amount_out ++ to_le_bytes 8 sequence))).
Proof.
  intros (_ & Hp & Hi & Hx)%decoded_request_valid. split.
  - intros He. pose proof (emit_receipt_supported _ _ _ _ He) as Hm%supported_mode_iff.
    split; [done|]. rewrite emit_receipt_eq in He by done. by apply Ok_inj in He.
  - intros [Hm ->]. by rewrite emit_receipt_eq.
Qed.

Lemma phase_run_spec phase w args state callback opaque s request q w1 w2 w' :
  PhaseRun cpi phase w (state :: callback :: opaque) args w' state callback opaque s request q w1 w2 ->
  PhaseSpec phase w state callback opaque request w' s q
    (offered (rs_mode s) (cq_amount_out q)) w1 w2.
Proof.
  intros [_ Hreq Hphase Hcount Hpriv Hload Howner Hmarket Hrev Htiming Hseq Hcb Hclosure
    Hquote Heffect Hreceipt]. subst phase.
  apply fixed_privileges_iff in Hpriv. apply phase_for_timing_iff in Htiming.
  apply (phase_receipt_iff _ _ _ _ _ _ _ Hreq) in Hreceipt as [Hmode Hreceipt].
  destruct (decoded_request_valid _ _ Hreq) as (Hpay & _).
  constructor; try done.
  - by apply offered_iff.
  - intros Hp. by destruct Heffect as [(_ & -> & ->)|[Hn _]].
  - intros Hn. destruct Heffect as [[Hp _]|(_ & (payload & Hpl & Hhelper) & Hs & (s' & Hrec & ->) & Hl)];
      [done|].
    rewrite Hpay in Hpl. apply Ok_inj in Hpl as <-. apply helper_command_iff in Hhelper.
    apply record_execution_iff in Hrec as [Hmax ->]. split_and!; try done. intros [Hm Hc]. by apply Hl.
  - rewrite Hreceipt. by destruct (xb_phase (xq_binding request) =? PHASE_PREPARE);
      rewrite ?Z.add_0_r.
Qed.

Lemma phase_spec_run phase w args state callback opaque s request q amount_out w1 w2 w' :
  decode_engine_request (take ENGINE_REQUEST_LEN args) = Ok request ->
  PhaseSpec phase w state callback opaque request w' s q amount_out w1 w2 ->
  PhaseRun cpi phase w (state :: callback :: opaque) args w' state callback opaque s request q w1 w2.
Proof.
  intros Hreq [Hpriv Hcb [Howner Hload] Hphase Hcount Hclosure Hmarket Hrev Hseq Htiming Hmode
    Hquote Hout Hprepare Hmutation Hreceipt]. subst phase.
  destruct (decoded_request_valid _ _ Hreq) as (Hpay & _).
  apply offered_iff in Hout as <-. constructor; try done.
  - by apply fixed_privileges_iff.
  - by apply phase_for_timing_iff.
  - destruct (decide (xb_phase (xq_binding request) = PHASE_PREPARE)) as [Hp|Hp]; [left|right].
    { by destruct (Hprepare Hp). }
    destruct (Hmutation Hp) as (Hhelper & Hs & Hmax & Hw & Hlate). split; [done|].
    split; [eexists; split; [exact Hpay | by apply helper_command_iff]|]. split; [done|].
    split; [eexists; split; [by apply record_execution_iff | exact Hw]|].
    intros Hm Hc. by apply Hlate.
  - apply (phase_receipt_iff _ _ _ _ _ _ _ Hreq). split; [done|]. rewrite Hreceipt.
    by destruct (xb_phase (xq_binding request) =? PHASE_PREPARE); rewrite ?Z.add_0_r.
Qed.

(** C30. The entrypoints TRANSITION, PREPARE and COMMIT of the routed engine do
    exactly what [PhaseSpec] says: on an engine state, a callback authority, opaque
    accounts and a request that decodes, they succeed iff the accounts have the
    phase's privileges, the state is this program's, for the request's market,
    revision, sequence and timing, the callback authority is Core's PDA of the
    phase, the capability closure is the hashed one and the quote exists; and the
    world they leave is then the one with the helper command run, the execution
    recorded field by field (nothing in PREPARE) and the mode's receipt bytes
    returned. *)
Theorem routed_phase_exact phase w accounts args w' :
  phase_handler cpi phase w accounts args = Ok w' <->
  exists state callback opaque request s q amount_out w1 w2,
    accounts = state :: callback :: opaque /\
    decode_engine_request (take ENGINE_REQUEST_LEN args) = Ok request /\
    PhaseSpec phase w state callback opaque request w' s q amount_out w1 w2.
Proof.
  rewrite phase_handler_iff. split.
  - intros (state & callback & opaque & s & request & q & w1 & w2 & Hrun).
    pose proof (ph_accounts _ _ _ _ _ _ _ _ _ _ _ _ _ _ Hrun) as ->.
    do 9 eexists. split_and!; [done | exact (ph_request _ _ _ _ _ _ _ _ _ _ _ _ _ _ Hrun) |].
    by apply phase_run_spec in Hrun.
  - intros (state & callback & opaque & request & s & q & amount_out & w1 & w2 & -> & Hreq & Hspec).
    do 8 eexists. by eapply phase_spec_run.
Qed.
End Spec.
