(* ===== verification/Errors.v ===== *)
(** * The errors a program returns are its own

    The model merges the error enums of the three cores in one type and those of
    the test programs in another, as the code they share is modelled once. This
    file separates them again: each crate's enum is a list of variants in
    declaration order, a variant's error number is its position, and every
    instruction of a program returns only variants its own crate declares, or an
    error that the runtime, Anchor or another program returned to it.

    A computation that raises only errors of a set is an instance of [Raises]. *)
From S2P Require Import Prelude Codec CoreState EngineState Solana FeeMath.
From S2P Require Import Validation Capability Deposit Settlement Initialize.
From S2P Require Import EngineProbe GeneratedCore RoutedAuthorize RoutedExecute ReferenceRuntime.
From S2P Require EngineFrame Cpmm Helpers SpikeEngine GeneratedEngine RoutedEngine.
From S2P Require Import Ledger Programs.

Class Raises {E A} (P : E -> Prop) (m : outcome E A) : Prop := raises : forall e, m = Err e -> P e.

(** ** The combinators *)

Section Combinators.
Context {E : Type} (P : E -> Prop).

#[export] Instance raises_Ok {A} (a : A) : Raises P (Ok a).
Proof. discriminate. Qed.
#[export] Instance raises_Panic {A} : Raises P (@Panic E A).
Proof. discriminate. Qed.
#[export] Instance raises_infallible {A} (m : outcome CodecError A) : Raises P (infallible m).
Proof. unfold infallible. case_match; discriminate. Qed.
Lemma raises_Err {A} e : P e -> Raises P (@Err E A e).
Proof. intros He e' [= <-]. exact He. Qed.
Lemma raises_require b e : P e -> Raises P (require b e).
Proof. intros He e' [_ ->]%require_Err. exact He. Qed.
Lemma raises_ok_or {A} (o : option A) e : P e -> Raises P (ok_or o e).
Proof. intros He e'. destruct o; simpl; [discriminate|]. by intros [= <-]. Qed.
Lemma raises_map_err {E' A} (f : E' -> E) (m : outcome E' A) :
  (forall e, P (f e)) -> Raises P (map_err f m).
Proof. intros Hf e. destruct m; simpl; try discriminate. by intros [= <-]. Qed.
Lemma raises_bind {A B} (m : outcome E A) (f : A -> outcome E B) :
  Raises P m -> (forall a, Raises P (f a)) -> Raises P (m ≫= f).
Proof. intros Hm Hf e [He|(a & _ & He)]%bind_Err; [by apply Hm | by apply (Hf a)]. Qed.
End Combinators.

Lemma raises_map_result {A B} (P : Error -> Prop) (f : A -> result B) l :
  (forall a, Raises P (f a)) -> Raises P (map_result f l).
Proof.
  intros Hf. induction l as [|a l IH]; [apply _|]. cbn [map_result].
  apply raises_bind; [apply Hf|]. intros b. apply raises_bind; [exact IH|]. intros bs. apply _.
Qed.

(** One step along the code; [member] decides whether an error is declared. *)
Ltac raises_step member :=
  lazymatch goal with
  | |- Raises _ (_ ≫= _) => apply raises_bind; [|intros ?]
  | |- Raises _ (let _ := _ in _) => cbv zeta
  | |- Raises _ (match ?x with _ => _ end) => destruct x
  | |- Raises _ (Err _) => apply raises_Err; member
  | |- Raises _ (require _ _) => apply raises_require; member
  | |- Raises _ (ok_or _ _) => apply raises_ok_or; member
  | |- Raises _ (map_err _ _) => apply raises_map_err; intros ?; member
  | |- Raises _ (map_result _ _) => apply raises_map_result; intros ?
  | |- _ => solve [apply _]
  end.

(** ** The cores *)

(** Declared by the crate: the variant has a number. What the runtime returns
    carries its own. *)
Definition declared (variants : list CoreError) (e : Error) : Prop :=
  match e with
  | Core e => is_Some (error_number variants e)
  | ProgramError _ | ConstraintViolated | AccountNotLoaded => True
  end.

Definition cores : list (list CoreError) := [kernel_errors; generated_errors; routed_errors].
Definition experiments : list (list CoreError) := [generated_errors; routed_errors].

Class Among (crates : list (list CoreError)) (variants : list CoreError) : Prop :=
  among : variants ∈ crates.
#[export] Instance among_head v l : Among (v :: l) v.
Proof. apply list_elem_of_here. Qed.
#[export] Instance among_tail v u l : Among l v -> Among (u :: l) v.
Proof. apply list_elem_of_further. Qed.
#[export] Instance among_experiments v : Among experiments v -> Among cores v.
Proof. apply list_elem_of_further. Qed.

(** A variant every crate of the list declares. *)
Definition common (crates : list (list CoreError)) (e : CoreError) : bool :=
  forallb (fun v => match error_number v e with Some _ => true | None => false end) crates.
Lemma common_declared crates v e : Among crates v -> common crates e = true -> declared v (Core e).
Proof.
  intros Hv Hc. unfold common in Hc. rewrite forallb_forall in Hc.
  specialize (Hc v (proj1 (list_elem_of_In _ _) Hv)). simpl.
  destruct (error_number v e); [eauto | discriminate].
Qed.

Ltac core_member :=
  first [exact I
    | apply (common_declared cores); [apply _ | vm_compute; reflexivity]
    | apply (common_declared experiments); [apply _ | vm_compute; reflexivity]
    | vm_compute; eexists; reflexivity].
Ltac core_step :=
  lazymatch goal with
  | |- Raises _ (require_core _ _) => apply raises_require; core_member
  | |- Raises _ (require_keys_eq _ _ _) => apply raises_require; core_member
  | |- Raises _ (require_keys_neq _ _ _) => apply raises_require; core_member
  | |- Raises _ (core_ok_or _ _) => apply raises_ok_or; core_member
  | |- _ => raises_step core_member
  end.
Ltac core_raises := repeat core_step.

(** The calls into the runtime return no variant of the core. *)
Class ForeignErrors `{Runtime} : Prop := {
  invoke_foreign : forall w ix infos seeds e, invoke_signed w ix infos seeds <> Err (Core e);
  transfer_foreign : forall w t seeds amount decimals e,
    transfer_checked w t seeds amount decimals <> Err (Core e);
  approve_foreign : forall w t seeds amount decimals e,
    approve_checked w t seeds amount decimals <> Err (Core e) }.

Section Cores.
Context `{ForeignErrors} {C : CoreConfig} {v : list CoreError}.

#[export] Instance raises_invoke w ix infos seeds :
  Raises (declared v) (invoke_signed w ix infos seeds).
Proof. intros [e| | |] He; [by apply invoke_foreign in He | done..]. Qed.
#[export] Instance raises_transfer w t seeds amount decimals :
  Raises (declared v) (transfer_checked w t seeds amount decimals).
Proof. intros [e| | |] He; [by apply transfer_foreign in He | done..]. Qed.
#[export] Instance raises_approve w t seeds amount decimals :
  Raises (declared v) (approve_checked w t seeds amount decimals).
Proof. intros [e| | |] He; [by apply approve_foreign in He | done..]. Qed.
#[export] Instance raises_reload w a : Raises (declared v) (reload w a).
Proof. unfold reload. core_raises. Qed.

(** *** What all three crates declare *)

Context {Hv : Among cores v}.

#[export] Instance raises_distinct keys : Raises (declared v) (ensure_distinct_roles keys).
Proof.
  intros e [-> _]%ensure_distinct_roles_Err. core_member.
Qed.
#[export] Instance raises_no_remaining l : Raises (declared v) (ensure_no_remaining_accounts l).
Proof. unfold ensure_no_remaining_accounts. core_raises. Qed.
#[export] Instance raises_market_domain mk m dk d :
  Raises (declared v) (validate_market_domain mk m dk d).
Proof. unfold validate_market_domain. core_raises. Qed.
#[export] Instance raises_fee_ledger mk m lk l : Raises (declared v) (validate_fee_ledger mk m lk l).
Proof. unfold validate_fee_ledger. core_raises. Qed.
#[export] Instance raises_mint k m : Raises (declared v) (validate_classic_mint k m).
Proof. unfold validate_classic_mint. core_raises. Qed.
#[export] Instance raises_common t m : Raises (declared v) (validate_common_token_account t m).
Proof. unfold validate_common_token_account. core_raises. Qed.
#[export] Instance raises_protected t m k : Raises (declared v) (validate_protected_token_account t m k).
Proof. unfold validate_protected_token_account. core_raises. Qed.
#[export] Instance raises_covers raw accounted : Raises (declared v) (require_raw_covers_accounted raw accounted).
Proof. unfold require_raw_covers_accounted. core_raises. Qed.
#[export] Instance raises_fee amount bps : Raises (declared v) (fee_ceil amount bps).
Proof. unfold fee_ceil. core_raises. Qed.
#[export] Instance raises_quote e x y z : Raises (declared v) (quote_fee e x y z).
Proof. unfold quote_fee. core_raises. Qed.
#[export] Instance raises_envelope_state e : Raises (declared v) (validate_envelope_state e).
Proof. unfold validate_envelope_state, canonical_domain_vault, canonical_fee_vault. core_raises. Qed.
#[export] Instance raises_engine_accounts e : Raises (declared v) (validate_engine_accounts e).
Proof. unfold validate_engine_accounts. core_raises. Qed.
#[export] Instance raises_mints e : Raises (declared v) (validate_mints e).
Proof. unfold validate_mints. core_raises. Qed.
#[export] Instance raises_vaults e : Raises (declared v) (validate_vaults e).
Proof. unfold validate_vaults, validate_credit_destination. core_raises. Qed.
#[export] Instance raises_envelope_constraints e : Raises (declared v) (envelope_state_constraints e).
Proof. unfold envelope_state_constraints. core_raises. Qed.
#[export] Instance raises_vault_constraints e : Raises (declared v) (envelope_vault_constraints e).
Proof. unfold envelope_vault_constraints. core_raises. Qed.
#[export] Instance raises_engine_constraints e : Raises (declared v) (envelope_engine_constraints e).
Proof. unfold envelope_engine_constraints. core_raises. Qed.
#[export] Instance raises_settle w e auth seeds x f t y :
  Raises (declared v) (settle w e auth seeds x f t y).
Proof.
  unfold settle, settle_transfers, reload_tokens, exact_deltas, exact_debit, exact_credit. core_raises.
Qed.

Lemma raises_initialize w a remaining args :
  Raises (declared v) (initialize_market_domain w a remaining args).
Proof.
  unfold initialize_market_domain, initialize_accounts, handle_initialize_market_domain_v0,
    init_pda. core_raises.
Qed.
Lemma raises_deposit w a remaining args : Raises (declared v) (deposit w a remaining args).
Proof.
  unfold deposit, handle_deposit_v0, select_asset, credit_asset, canonical_domain_vault,
    exact_debit, exact_credit. core_raises.
Qed.
End Cores.
#[export] Typeclasses Opaque ensure_distinct_roles.

(** *** The opaque capabilities, which the two experiments declare *)

Section Opaque.
Context `{ForeignErrors} {C : CoreConfig} {v : list CoreError} {Hv : Among experiments v}.

#[export] Instance raises_opaque_payload p : Raises (declared v) (validate_opaque_payload p).
Proof. unfold validate_opaque_payload. core_raises. Qed.
#[export] Instance raises_opaque l keys : Raises (declared v) (validate_opaque_capabilities l keys).
Proof. unfold validate_opaque_capabilities, validate_opaque_account. core_raises. Qed.
#[export] Instance raises_normalized l d : Raises (declared v) (normalized_info l d).
Proof. unfold normalized_info. core_raises. Qed.
End Opaque.

(** *** The instructions of each core *)

Section Instructions.
Context `{ForeignErrors} {C : CoreConfig}.

Lemma raises_probe w a remaining args :
  Raises (declared kernel_errors) (execute_engine_probe w a remaining args).
Proof.
  unfold execute_engine_probe, probe_constraints, handle_execute_engine_probe_v0, probe_envelope,
    probe_economics, probe_invoke, invoke, probe_receipt. core_raises.
Qed.

Lemma raises_generated w a remaining args :
  Raises (declared generated_errors) (execute_engine_generated_probe w a remaining args).
Proof.
  unfold execute_engine_generated_probe, generated_constraints,
    handle_execute_engine_generated_probe_v0, generated_envelope, generated_privileges,
    generated_economics, generated_engine_request, generated_invoke, invoke, generated_receipt,
    settle_engine_generated_probe, GeneratedCore.wire. core_raises.
Qed.

Lemma raises_authorize w a remaining args :
  Raises (declared routed_errors) (authorize_spend w a remaining args).
Proof.
  unfold authorize_spend, handle_authorize_spend_v0, authorize_intent, authorize_accounts,
    validate_user_source_before_authorization. core_raises.
Qed.

#[local] Instance raises_phase w e opaque ds r callback bump :
  Raises (declared routed_errors) (invoke_engine_phase w e opaque ds r callback bump).
Proof. unfold invoke_engine_phase, RoutedExecute.wire. core_raises. Qed.
#[local] Instance raises_build e args fee d phase context pre cap pcap n :
  Raises (declared routed_errors) (build_engine_request e args fee d phase context pre cap pcap n).
Proof. unfold build_engine_request, RoutedExecute.wire. core_raises. Qed.
#[local] Instance raises_binding r q p d :
  Raises (declared routed_errors) (validate_receipt_binding r q p d).
Proof. unfold validate_receipt_binding. core_raises. Qed.
#[local] Instance raises_authorization a remaining args phase :
  Raises (declared routed_errors) (routed_authorization a remaining args phase).
Proof.
  unfold routed_authorization, routed_economics, compute_bound_intent_digest, RoutedExecute.wire,
    validate_delegated_spend_source, validate_callback_account. core_raises.
Qed.
#[local] Instance raises_primary w a remaining args phase au :
  Raises (declared routed_errors) (routed_primary w a remaining args phase au).
Proof.
  unfold routed_primary, RoutedExecute.wire, validate_primary_sequence, validate_amount_out.
  core_raises.
Qed.
#[local] Instance raises_commit w a e remaining args au primary sd :
  Raises (declared routed_errors) (routed_commit w a e remaining args au primary sd).
Proof. unfold routed_commit, RoutedExecute.wire. core_raises. Qed.

Lemma raises_routed w a remaining args :
  Raises (declared routed_errors) (execute_callback_authenticated_probe w a remaining args).
Proof.
  unfold execute_callback_authenticated_probe, routed_constraints,
    handle_execute_callback_authenticated_probe_v0, primary_phase, validate_execution_envelope,
    routed_privileges, accept_settlement, settle_authenticated_intent,
    compute_bound_settlement_digest. core_raises.
Qed.
End Instructions.

(** ** The test programs *)

Section Enums.
Import EngineFrame.

Definition spike_errors : list EngineError := [
  UnexpectedAccount; EngineFrame.InvalidMarket; InvalidRevision; InvalidCoreCaller;
  InvalidCoreInstruction; InvalidInvocationDepth; InvalidInstructionsSysvar;
  InvalidRequestEncoding; MarketMismatch; RevisionMismatch; SequenceOverflow; InvalidAuthority;
  InvalidMode; HostileCpiUnexpectedlySucceeded].

Definition generated_engine_errors : list EngineError := [
  UnexpectedAccount; EngineFrame.InvalidMarket; InvalidRevision; InvalidLpFeeBps; InvalidAuthority;
  InvalidMode; InvalidRequestEncoding; MarketMismatch; RevisionMismatch; TooManyCapabilities;
  CapabilityCountMismatch; CapabilityHashMismatch; CapabilityHashComputationFailed; ZeroReserve;
  ZeroInput; EffectiveInputZero; OutputAmountZero; OutputReserveExceeded;
  EngineArithmeticOverflow; EngineIntegerConversionFailed; SequenceOverflow;
  InvalidInvocationDepth; InvalidCoreCaller; InvalidCoreInstruction; InvalidInstructionsSysvar;
  InvalidHelperCapabilityClosure; InvalidHelperProgram; InvalidHelperState;
  InvalidCapabilityAuthority; InvalidHelperPayload; HostileCpiUnexpectedlySucceeded].

Definition routed_engine_errors : list EngineError := [
  UnexpectedAccount; EngineFrame.InvalidMarket; InvalidRevision; InvalidLpFeeBps;
  InvalidTimingMode; InvalidAuthority; InvalidMode; InvalidRequestEncoding;
  EntrypointPhaseMismatch; EngineInvalidPhaseForTiming; EngineInvalidEngineState;
  EngineStateSigner; PrepareStateMustBeReadOnly; MutationStateMustBeWritable;
  InvalidCallbackPrivileges; EngineInvalidCallbackAuthority; AliasedCallbackAuthority;
  EngineFrame.OpaqueSignerForbidden; PrepareCapabilityWritable; MarketMismatch; RevisionMismatch;
  SequenceMismatch; TooManyCapabilities; CapabilityCountMismatch; CapabilityHashMismatch;
  CapabilityHashComputationFailed; ExecutionDigestComputationFailed;
  EngineExecutionDigestMismatch; ZeroReserve; ZeroInput; EffectiveInputZero; OutputAmountZero;
  OutputReserveExceeded; EngineArithmeticOverflow; EngineIntegerConversionFailed;
  SequenceOverflow; InvalidHelperCapabilityClosure; InvalidHelperProgram; InvalidHelperState;
  InvalidHelperPayload; InvalidReceiptEncoding; DeliberateLateCommitFailure].

Definition opaque_probe_errors : list EngineError := [
  UnexpectedAccount; InvalidAuthority; EngineArithmeticOverflow].

Definition callback_probe_errors : list EngineError := [
  UnexpectedAccount; InvalidCallback; CallbackNotSigner; CallbackWritable; CallbackExecutable;
  InvalidAmount; EngineArithmeticOverflow; DeliberateFailure].

#[export] Instance EngineError_eq_dec : EqDecision EngineError.
Proof. solve_decision. Defined.

Definition engine_error_number (variants : list EngineError) (e : EngineError) : option nat :=
  fst <$> list_find (eq e) variants.

(** A variant of the crate, an account constraint, or a callee's error. *)
Definition engine_declared (variants : list EngineError) (e : EngineError) : Prop :=
  match e with
  | EngineCpi _ | EngineConstraint => True
  | e => is_Some (engine_error_number variants e)
  end.

Ltac engine_member := first [exact I | vm_compute; eexists; reflexivity].
Ltac engine_step :=
  lazymatch goal with
  | |- Raises _ (require_engine _ _) => apply raises_require; engine_member
  | |- Raises _ (require_engine_keys_eq _ _ _) => apply raises_require; engine_member
  | |- _ => raises_step engine_member
  end.
Ltac engine_raises := repeat engine_step.

Context `{Runtime} `{Introspection} (cpi : Cpi) (escalation_data : list Z).

Lemma raises_spike w accounts args :
  Raises (engine_declared spike_errors)
    (SpikeEngine.evaluate_handler cpi escalation_data w accounts args).
Proof.
  unfold SpikeEngine.evaluate_handler, SpikeEngine.evaluate_accounts, SpikeEngine.evaluate,
    SpikeEngine.attempt_readonly_to_writable_self_cpi, require_direct_core_cpi. engine_raises.
Qed.

Lemma raises_generated_engine w accounts args :
  Raises (engine_declared generated_engine_errors)
    (GeneratedEngine.evaluate_handler cpi escalation_data w accounts args).
Proof.
  unfold GeneratedEngine.evaluate_handler, GeneratedEngine.evaluate_accounts,
    GeneratedEngine.evaluate, GeneratedEngine.attempt_readonly_to_writable_self_cpi,
    GeneratedEngine.maybe_invoke_helper, GeneratedEngine.record_evaluation, GeneratedEngine.emit,
    require_direct_core_cpi, Cpmm.quote_exact_in, Cpmm.helper_amount. engine_raises.
Qed.

#[local] Instance raises_opaque_privileges c p l :
  Raises (engine_declared routed_engine_errors) (RoutedEngine.validate_opaque_privileges c p l).
Proof.
  induction l as [|a l IH]; cbn [RoutedEngine.validate_opaque_privileges]; engine_raises.
Qed.

Lemma raises_phase_handler phase w accounts args :
  Raises (engine_declared routed_engine_errors)
    (RoutedEngine.phase_handler cpi phase w accounts args).
Proof.
  unfold RoutedEngine.phase_handler, RoutedEngine.evaluate_phase,
    RoutedEngine.validate_fixed_account_privileges, RoutedEngine.load_engine_state,
    RoutedEngine.authenticate_callback_authority, RoutedEngine.record_execution,
    RoutedEngine.store_engine_state, RoutedEngine.maybe_invoke_helper,
    RoutedEngine.validate_helper_prefix, RoutedEngine.emit_receipt, Cpmm.quote_exact_in,
    Cpmm.helper_amount. engine_raises.
Qed.

(** The administration of the engines. *)
Lemma raises_administration w a remaining :
  (forall market revision, Raises (engine_declared spike_errors)
    (SpikeEngine.initialize w a remaining market revision)) /\
  (forall b mode, Raises (engine_declared spike_errors) (SpikeEngine.set_mode w b remaining mode)) /\
  (forall c market revision bps, Raises (engine_declared generated_engine_errors)
    (GeneratedEngine.initialize w c remaining market revision bps)) /\
  (forall b mode, Raises (engine_declared generated_engine_errors)
    (GeneratedEngine.set_mode w b remaining mode)) /\
  (forall market revision bps timing, Raises (engine_declared routed_engine_errors)
    (RoutedEngine.initialize w a remaining market revision bps timing)) /\
  (forall b mode, Raises (engine_declared routed_engine_errors)
    (RoutedEngine.set_mode w b remaining mode)).
Proof.
  split_and!; intros; unfold SpikeEngine.initialize, SpikeEngine.set_mode,
    GeneratedEngine.initialize, GeneratedEngine.set_mode, RoutedEngine.initialize,
    RoutedEngine.set_mode, RoutedEngine.validate_configured_timing_mode, init_keypair, init_payer,
    set_mode_constraints; engine_raises.
Qed.

Lemma raises_opaque_probe w :
  (forall a remaining authority, Raises (engine_declared opaque_probe_errors)
    (Helpers.OpaqueProbe.initialize w a remaining authority)) /\
  (forall accounts args, Raises (engine_declared opaque_probe_errors)
    (Helpers.OpaqueProbe.increment_handler w accounts args)).
Proof.
  split; intros; unfold Helpers.OpaqueProbe.initialize, Helpers.OpaqueProbe.increment_handler,
    Helpers.OpaqueProbe.increment_accounts, Helpers.OpaqueProbe.increment,
    Helpers.increment_arguments, Helpers.counters, init_keypair, init_payer; engine_raises.
Qed.

Lemma raises_callback_probe w :
  (forall a remaining callback, Raises (engine_declared callback_probe_errors)
    (Helpers.CallbackProbe.initialize w a remaining callback)) /\
  (forall accounts args, Raises (engine_declared callback_probe_errors)
    (Helpers.CallbackProbe.increment_handler w accounts args)) /\
  (forall a remaining amount, Raises (engine_declared callback_probe_errors)
    (Helpers.CallbackProbe.increment_and_fail w a remaining amount)).
Proof.
  split_and!; intros; unfold Helpers.CallbackProbe.initialize,
    Helpers.CallbackProbe.increment_handler, Helpers.CallbackProbe.increment_accounts,
    Helpers.CallbackProbe.increment_and_fail, Helpers.CallbackProbe.increment,
    Helpers.CallbackProbe.validate_increment, Helpers.CallbackProbe.apply_increment,
    Helpers.increment_arguments, Helpers.counters, init_keypair, init_payer; engine_raises.
Qed.
End Enums.

(** ** Properties *)

(** No two variants of a crate's enum share a number, and every instruction of
    the three cores, of the three engines and of the two helpers fails only with a
    variant its own crate declares, or with an error the runtime, Anchor or a
    callee returned to it. Which error an input gets is stated elsewhere
    (Rejections, and the exact characterisations of the components). *)
Theorem programs_raise_their_own_errors `{ForeignErrors} `{EngineFrame.Introspection}
    (cpi : EngineFrame.Cpi) escalation_data :
  Forall NoDup cores /\
  Forall NoDup [spike_errors; generated_engine_errors; routed_engine_errors;
                opaque_probe_errors; callback_probe_errors] /\
  (forall w i, Raises (declared kernel_errors) (ProgrammableCore.entry w i)) /\
  (forall w i, Raises (declared generated_errors) (ProgrammableGeneratedCore.entry w i)) /\
  (forall w i, Raises (declared routed_errors) (ProgrammableRoutedCallbackCore.entry w i)) /\
  (forall w accounts args,
    Raises (engine_declared spike_errors)
      (SpikeEngine.evaluate_handler cpi escalation_data w accounts args) /\
    Raises (engine_declared generated_engine_errors)
      (GeneratedEngine.evaluate_handler cpi escalation_data w accounts args) /\
    (forall phase, Raises (engine_declared routed_engine_errors)
      (RoutedEngine.phase_handler cpi phase w accounts args))) /\
  (forall w init set remaining market revision mode,
    Raises (engine_declared spike_errors)
      (SpikeEngine.initialize w init remaining market revision) /\
    Raises (engine_declared spike_errors) (SpikeEngine.set_mode w set remaining mode)) /\
  (forall w init set remaining market revision bps mode,
    Raises (engine_declared generated_engine_errors)
      (GeneratedEngine.initialize w init remaining market revision bps) /\
    Raises (engine_declared generated_engine_errors)
      (GeneratedEngine.set_mode w set remaining mode)) /\
  (forall w init set remaining market revision bps timing mode,
    Raises (engine_declared routed_engine_errors)
      (RoutedEngine.initialize w init remaining market revision bps timing) /\
    Raises (engine_declared routed_engine_errors) (RoutedEngine.set_mode w set remaining mode)) /\
  (forall w init remaining authority accounts args,
    Raises (engine_declared opaque_probe_errors)
      (Helpers.OpaqueProbe.initialize w init remaining authority) /\
    Raises (engine_declared opaque_probe_errors)
      (Helpers.OpaqueProbe.increment_handler w accounts args)) /\
  (forall w init remaining callback accounts args a amount,
    Raises (engine_declared callback_probe_errors)
      (Helpers.CallbackProbe.initialize w init remaining callback) /\
    Raises (engine_declared callback_probe_errors)
      (Helpers.CallbackProbe.increment_handler w accounts args) /\
    Raises (engine_declared callback_probe_errors)
      (Helpers.CallbackProbe.increment_and_fail w a remaining amount)).
Proof.
  split; [decide_closed|]. split; [decide_closed|].
  split_and!; [intros w i..|intros|intros|intros|intros|intros|intros].
  1-3: destruct i; (apply raises_bind; [|intros [? ?]; apply _]);
    first [apply raises_initialize; apply _ | apply raises_deposit; apply _ | apply raises_probe
      | apply raises_generated | apply raises_authorize | apply raises_routed]; apply _.
  { split_and!; [apply raises_spike | apply raises_generated_engine
    | intros phase; apply raises_phase_handler]. }
  - by destruct (raises_administration w init remaining) as (? & ? & ? & ? & ? & ?).
  - destruct (raises_administration w (GeneratedEngine.ie_state init) remaining)
      as (_ & _ & ? & ? & _). auto.
  - by destruct (raises_administration w init remaining) as (? & ? & ? & ? & ? & ?).
  - by destruct (raises_opaque_probe w).
  - by destruct (raises_callback_probe w) as (? & ? & ?).
Qed.

(** ** A concrete failure: an expired request *)

Definition expired_world : World :=
  let w := test_world (H := EngineProbe.example_runtime) (C := kernel_config) 50000 70000 6 in
  {| w_slot := 1000000; w_stack_height := 1; w_return_data := None; w_accounts := w_accounts w |}.
Definition expired_execute : ProgrammableCore.instruction :=
  ProgrammableCore.ExecuteEngineProbe (example_probe kernel_config) [] example_probe_args.

Lemma reference_foreign callee :
  (forall w ix infos seeds e, callee w ix infos seeds <> Err (Core e)) ->
  ForeignErrors (H := reference_runtime callee).
Proof.
  intros Hc. constructor; cbn [invoke_signed transfer_checked approve_checked reference_runtime].
  - exact Hc.
  - intros w t seeds amount decimals e He.
    assert (Raises (fun x => forall c, x <> Core c) (reference_transfer w t seeds amount decimals)) as Hr
      by (unfold reference_transfer; repeat raises_step ltac:(discriminate)).
    by apply (Hr _ He e).
  - intros w t seeds amount decimals e He.
    assert (Raises (fun x => forall c, x <> Core c) (reference_approve w t seeds amount decimals)) as Hr
      by (unfold reference_approve; repeat raises_step ltac:(discriminate)).
    by apply (Hr _ He e).
Qed.

Lemma programs_raise_their_own_errors_witness :
  let entry := ProgrammableCore.entry (H := EngineProbe.example_runtime) in
  entry expired_world expired_execute = Err (Core RequestExpired) /\
  is_Some (error_number kernel_errors RequestExpired).
Proof.
  assert (ProgrammableCore.entry (H := EngineProbe.example_runtime) expired_world expired_execute =
    Err (Core RequestExpired)) as He by (vm_compute; reflexivity).
  assert (ForeignErrors (H := EngineProbe.example_runtime)) as Hf.
  { apply reference_foreign. intros w ix infos seeds e. unfold acknowledging_engine.
    repeat case_match; discriminate. }
  split; [exact He|].
  destruct (programs_raise_their_own_errors (H0 := Hf) (H1 := SpikeEngine.spike_introspection)
    no_callee []) as (_ & _ & Hk & _).
  exact (Hk _ _ _ He).
Defined.
