(* ===== verification/Sha256.v ===== *)
(** * SHA-256

    The programs hash with the SHA-256 syscall, which is not part of the
    repository: [Hasher] is a parameter of every definition that hashes. This
    file gives the instance the pinned test vectors of the wire crates are
    evaluated with: the function of FIPS 180-4, on the machine integers of the
    kernel. No theorem about the programs depends on it. *)
From S2P Require Import Prelude Codec.
From Stdlib Require Import Uint63.
#[local] Open Scope uint63_scope.

(** ** Words of 32 bits in integers of 63 *)

Definition mask32 (x : int) : int := x land 0xffffffff.

Definition rotr (n x : int) : int := (x >> n) lor ((x << (32 - n)) land 0xffffffff).

Definition ch (x y z : int) : int := (x land y) lxor ((x lxor 0xffffffff) land z).
Definition maj (x y z : int) : int := (x land y) lxor (x land z) lxor (y land z).
Definition big_sigma0 (x : int) : int := rotr 2 x lxor rotr 13 x lxor rotr 22 x.
Definition big_sigma1 (x : int) : int := rotr 6 x lxor rotr 11 x lxor rotr 25 x.
Definition small_sigma0 (x : int) : int := rotr 7 x lxor rotr 18 x lxor (x >> 3).
Definition small_sigma1 (x : int) : int := rotr 17 x lxor rotr 19 x lxor (x >> 10).

(** The constants are the first 32 bits of the fractional parts of the cube roots
    and the square roots of the first primes. [cube_root n] is the integer part,
    found bit by bit below [2 ^ 35]. *)
Fixpoint cube_root_bits (bits : nat) (root n : Z) : Z :=
  match bits with
  | O => root
  | S bits =>
      let candidate := (root + 2 ^ Z.of_nat bits)%Z in
      cube_root_bits bits (if (candidate * candidate * candidate <=? n)%Z then candidate else root) n
  end.
Definition primes : list Z := filter (fun n =>
  forallb (fun d => negb (n mod Z.of_nat d =? 0)%Z) (seq 2 (Z.to_nat n - 2)) = true)
  (Z.of_nat <$> seq 2 310).

Definition round_constants : list int := Eval vm_compute in
  (fun p => of_Z (cube_root_bits 35 0 (p * 2 ^ 96) mod 2 ^ 32)%Z) <$> primes.
Definition initial_state : list int := Eval vm_compute in
  (fun p => of_Z (Z.sqrt (p * 2 ^ 64) mod 2 ^ 32)%Z) <$> take 8 primes.

(** ** Compression *)

(** The message schedule, latest word first. *)
Fixpoint schedule (n : nat) (ws : list int) : list int :=
  match n, ws with
  | S n, _ :: w2 :: _ :: _ :: _ :: _ :: w7 :: _ :: _ :: _ :: _ :: _ :: _ :: _ :: w15 :: w16 :: _ =>
      schedule n (mask32 (small_sigma1 w2 + w7 + small_sigma0 w15 + w16) :: ws)
  | _, _ => ws
  end.

Definition round (state : list int) (kw : int * int) : list int :=
  match state with
  | [a; b; c; d; e; f; g; h] =>
      let t1 := h + big_sigma1 e + ch e f g + kw.1 + kw.2 in
      let t2 := big_sigma0 a + maj a b c in
      [mask32 (t1 + t2); a; b; c; mask32 (d + t1); e; f; g]
  | _ => state
  end.

Definition compress (state block : list int) : list int :=
  zip_with (fun x y => mask32 (x + y)) state
    (foldl round state (zip round_constants (reverse (schedule 48 (reverse block))))).

(** ** Padding and parsing *)

Definition pad (message : list Z) : list Z :=
  let n := Z.of_nat (length message) in
  message ++ [0x80%Z] ++ replicate (Z.to_nat ((55 - n) mod 64)%Z) 0%Z ++
  reverse (to_le_bytes 8 (8 * n)%Z).

Fixpoint words (bytes : list Z) : list int :=
  match bytes with
  | a :: b :: c :: d :: rest =>
      ((of_Z a << 24) lor (of_Z b << 16) lor (of_Z c << 8) lor of_Z d) :: words rest
  | _ => []
  end.

Fixpoint blocks (n : nat) (state ws : list int) : list int :=
  match n with
  | O => state
  | S n => blocks n (compress state (take 16 ws)) (drop 16 ws)
  end.

Definition word_bytes (w : int) : list Z := reverse (to_le_bytes 4 (to_Z w)).

Definition sha256 (message : list Z) : list Z :=
  let padded := pad message in
  mjoin (word_bytes <$> blocks (length padded / 64) initial_state (words padded)).

(** [hashv] hashes the concatenation of its slices. *)
Definition sha256_hasher : Hasher := {| hashv := fun slices => sha256 (mjoin slices) |}.

(** The two examples of the standard. *)
Example sha256_abc : sha256 (bytes_of_string "abc") =
  [0xba; 0x78; 0x16; 0xbf; 0x8f; 0x01; 0xcf; 0xea; 0x41; 0x41; 0x40; 0xde; 0x5d; 0xae; 0x22; 0x23;
   0xb0; 0x03; 0x61; 0xa3; 0x96; 0x17; 0x7a; 0x9c; 0xb4; 0x10; 0xff; 0x61; 0xf2; 0x00; 0x15; 0xad]%Z.
Proof. vm_compute. reflexivity. Qed.

Example sha256_two_blocks :
  sha256 (bytes_of_string "abcdbcdecdefdefgefghfghighijhijkijkljklmklmnlmnomnopnopq") =
  [0x24; 0x8d; 0x6a; 0x61; 0xd2; 0x06; 0x38; 0xb8; 0xe5; 0xc0; 0x26; 0x93; 0x0c; 0x3e; 0x60; 0x39;
   0xa3; 0x3c; 0xe4; 0x59; 0x64; 0xff; 0x21; 0x67; 0xf6; 0xec; 0xed; 0xd4; 0x19; 0xdb; 0x06; 0xc1]%Z.
Proof. vm_compute. reflexivity. Qed.

(** ** It is a hash as the development assumes *)

Lemma length_round state kw : length (round state kw) = length state.
Proof. by do 9 (destruct state as [|? state]; [done|]). Qed.

Lemma length_rounds kws state : length (foldl round state kws) = length state.
Proof. revert state. induction kws as [|kw kws IH]; intros state; simpl; [done|]. by rewrite IH, length_round. Qed.

Lemma length_blocks n state ws : length (blocks n state ws) = length state.
Proof.
  revert state ws. induction n as [|n IH]; intros state ws; simpl; [done|].
  rewrite IH. unfold compress. rewrite length_zip_with, length_rounds. lia.
Qed.

Lemma word_bytes_string w : byte_string 4 (word_bytes w).
Proof.
  unfold word_bytes. split; [by rewrite length_reverse, length_to_le_bytes|].
  apply Forall_reverse, to_le_bytes_u8.
Qed.

Lemma byte_string_words ws : byte_string (4 * length ws) (mjoin (word_bytes <$> ws)).
Proof.
  induction ws as [|w ws [Hl Hu]]; [done|]. destruct (word_bytes_string w) as [Hl' Hu'].
  change (mjoin (word_bytes <$> w :: ws)) with (word_bytes w ++ mjoin (word_bytes <$> ws)).
  split; [|by apply Forall_app]. rewrite length_app, Hl', Hl. simpl. lia.
Qed.

Lemma sha256_hasher_output : sha256_output (H := sha256_hasher).
Proof.
  intros slices. cbn [hashv sha256_hasher]. unfold sha256.
  pose proof (byte_string_words (blocks (length (pad (mjoin slices)) / 64) initial_state
    (words (pad (mjoin slices))))) as Hb.
  by rewrite length_blocks in Hb.
Qed.
