(* ===== verification/UnitTest.v ===== *)
(** * Unit tests as programs

    The repository's own unit tests are programs too: they build values, call
    the code and panic where an assertion fails. They are translated like the
    rest, so that running them in the kernel tests the definitions of this
    development against what the authors expect of the code. *)
From S2P Require Import Prelude Codec CoreState.

(** A [#[test]] function returns or panics. *)
Abbreviation run := (outcome Empty_set).
Abbreviation test := (run unit).
Definition passes (t : test) : Prop := t = Ok tt.

#[export] Instance passes_dec t : Decision (passes t).
Proof. unfold passes. apply _. Defined.

(** ** Assertions *)

(** [Result::unwrap]; also the call of a function without [Result], which in the
    model may panic. *)
Definition unwrap {E A} (m : outcome E A) : run A :=
  match m with Ok a => Ok a | _ => Panic end.
(** [Result::unwrap_err] does not occur; [is_err] does not catch a panic. *)
Definition is_err {E A} (m : outcome E A) : run bool :=
  match m with Ok _ => Ok false | Err _ => Ok true | Panic => Panic end.

Definition assert (b : bool) : test := if b then Ok tt else Panic.
Definition assert_eq {A} `{EqDecision A} (x y : A) : test := assert (bool_decide (x = y)).
Definition assert_ne {A} `{EqDecision A} (x y : A) : test := assert (bool_decide (x <> y)).
Definition assert_err {E A} (m : outcome E A) : test := b ← is_err m; assert b.
Definition assert_ok {E A} (m : outcome E A) : test := b ← is_err m; assert (negb b).

(** [for x in xs { .. }] *)
Fixpoint for_each {A} (xs : list A) (body : A -> test) : test :=
  match xs with [] => Ok tt | x :: xs => body x ;; for_each xs body end.

Lemma passes_seq (t u : test) : passes t -> passes u -> passes (t ;; u).
Proof. unfold passes. by intros -> ->. Qed.
Lemma passes_assert (b : bool) : b = true -> passes (assert b).
Proof. by intros ->. Qed.
Lemma passes_assert_eq {A} `{EqDecision A} (x y : A) : x = y -> passes (assert_eq x y).
Proof. intros ->. by apply passes_assert, bool_decide_true. Qed.
Lemma passes_assert_ok {E A} (m : outcome E A) a : m = Ok a -> passes (assert_ok m).
Proof. by intros ->. Qed.
Lemma passes_assert_err {E A} (m : outcome E A) e : m = Err e -> passes (assert_err m).
Proof. by intros ->. Qed.
Lemma passes_for_each {A} (xs : list A) body :
  (forall x, x ∈ xs -> passes (body x)) -> passes (for_each xs body).
Proof.
  induction xs as [|x xs IH]; intros Hb; [done|].
  apply passes_seq; [apply Hb; by left | apply IH; intros y Hy; apply Hb; by right].
Qed.

(** ** Slices *)

(** [data[start..stop]], which panics out of range. *)
Definition slice (data : list Z) (start stop : nat) : run (list Z) :=
  if ((start <=? stop)%nat && (stop <=? length data)%nat)
  then Ok (take (stop - start) (drop start data)) else Panic.
(** [data[i]] *)
Definition byte_at (data : list Z) (i : nat) : run Z :=
  match data !! i with Some b => Ok b | None => Panic end.
(** [data[i..i + bytes.len()].copy_from_slice(bytes)] *)
Definition overwrite (data : list Z) (i : nat) (bytes : list Z) : run (list Z) :=
  if (i + length bytes <=? length data)%nat
  then Ok (take i data ++ bytes ++ drop (i + length bytes) data) else Panic.
(** [data[i] ^= 1] *)
Definition flip (data : list Z) (i : nat) : run (list Z) :=
  b ← byte_at data i; overwrite data i [Z.lxor b 1].

(** ** Keys and fields *)

(** [Pubkey::new_from_array([byte; 32])] *)
Definition pubkey (byte : Z) : Pubkey := replicate 32 byte.

(** A new value for a field of a wire struct. *)
Inductive field := Bytes (l : list Z) | Number (n : Z).
(** The struct update [mutated.field = value], a struct being updated by the
    position of the field: [bytes_field i j v old] and [number_field i j v old]
    are the [j]th field after the [i]th was set to [v]. *)
Definition bytes_field (i j : nat) (v : field) (old : list Z) : list Z :=
  match v with Bytes l => if (i =? j)%nat then l else old | Number _ => old end.
Definition number_field (i j : nat) (v : field) (old : Z) : Z :=
  match v with Number n => if (i =? j)%nat then n else old | Bytes _ => old end.

(** [Pubkey::to_string]: base 58 without leading zero digits, a ["1"] for each
    leading zero byte. 44 digits hold any 32 bytes. *)
Fixpoint base58_digits (fuel : nat) (n : Z) (digits : list Z) : list Z :=
  match fuel with
  | O => digits
  | S fuel =>
      if n =? 0 then digits
      else base58_digits fuel (n / 58) (default 0 (base58_alphabet !! Z.to_nat (n mod 58)) :: digits)
  end.
Fixpoint leading_zeros (l : list Z) : nat :=
  match l with 0 :: l => S (leading_zeros l) | _ => O end.
Definition to_string (key : Pubkey) : list Z :=
  replicate (leading_zeros key) (default 0 (base58_alphabet !! 0%nat)) ++
  base58_digits 44 (from_le_bytes (reverse key)) [].
