(* ===== verification/WireTests.v ===== *)
(** * The unit tests of the three wire crates

    The [tests] modules at the end of the three lib.rs, function by function.
    They pin what no theorem about an abstract hash can: the domain strings, the
    order and width of every encoded field and the discriminators, by the bytes
    SHA-256 gives for them. *)
From S2P Require Import Prelude Codec CoreState Solana Validation Capability.
From S2P Require Import ProbeInterface GeneratedWire RoutedWire EngineFrame Helpers SpikeEngine.
From S2P Require Import GeneratedEngine RoutedEngine Router UnitTest Sha256.

(** The fields [first], [first + 1], .. each replaced by a value of its own: the
    digest is not the one before. *)
Definition each_field_is_bound {B} (digest : B -> run (list Z)) (set : nat -> field -> B -> B)
    (baseline : B) (first : nat) (values : list field) : test :=
  expected ← digest baseline;
  for_each (zip (seq first (length values)) values) (fun '(i, v) =>
    digest' ← digest (set i v baseline); assert_ne digest' expected).

(** Consecutive keys, digests or numbers. *)
Definition keys_from (first count : nat) : list field :=
  (fun i => Bytes (pubkey (Z.of_nat i))) <$> seq first count.
Definition numbers_from (first count : nat) : list field :=
  (fun i => Number (Z.of_nat i)) <$> seq first count.

(** ** crates/engine-probe-interface *)
Module EngineProbeInterface.
Import ProbeInterface.

#[export] Instance PlanBinding_eq_dec : EqDecision PlanBinding.
Proof. solve_decision. Defined.
#[export] Instance EngineRequest_eq_dec : EqDecision EngineRequest.
Proof. solve_decision. Defined.
#[export] Instance EngineReceipt_eq_dec : EqDecision EngineReceipt.
Proof. solve_decision. Defined.

Definition DISPOSABLE_CORE_PROGRAM_ID : Pubkey :=
  pubkey_literal "CfBnUaJwALVpd5Dtkt39zsvY9nwNTdrNxDvoxuCtKiR3".
Definition DISPOSABLE_ENGINE_PROGRAM_ID : Pubkey :=
  pubkey_literal "HAhZQp2iaVWfP2mbSpSJvwMqUGaES4S5i4PxwHr6bNkQ".

Section Tests.
Context `{Hasher}.

Definition handler_discriminators_are_pinned_to_exact_names : test :=
  evaluate ← slice (hashv [bytes_of_string "global:evaluate"]) 0 8;
  execute ← slice (hashv [bytes_of_string "global:execute_engine_probe"]) 0 8;
  assert_eq evaluate EVALUATE_DISCRIMINATOR ;;
  assert_eq execute CORE_EXECUTE_ENGINE_PROBE_DISCRIMINATOR.

Definition request : EngineRequest := {|
  er_plan_hash := replicate 32 0xa5; er_market := pubkey 1; er_domain := pubkey 2;
  er_engine_revision := 3; er_amount_in := 4; er_amount_out := 5; er_protocol_fee := 6;
  er_accounted_input_before := 7; er_accounted_output_before := 8; er_accounted_fee_before := 9 |}.

Definition binding : PlanBinding := {|
  pb_core_program := pubkey 1; pb_market := pubkey 2; pb_domain := pubkey 3; pb_engine_program
  := pubkey 4; pb_engine_state := pubkey 5; pb_user_authority := pubkey 6; pb_user_input :=
  pubkey 7; pb_user_output := pubkey 8; pb_mint_in := pubkey 9; pb_mint_out := pubkey 10;
  pb_domain_input_vault := pubkey 11; pb_domain_output_vault := pubkey 12; pb_protocol_fee_vault
  := pubkey 13; pb_fee_ledger := pubkey 14; pb_token_program := pubkey 15; pb_engine_revision :=
  16; pb_fee_policy_revision := 17; pb_amount_in := 18; pb_amount_out := 19; pb_protocol_fee :=
  20; pb_max_total_input_debit := 21; pb_min_output_credit := 22; pb_max_protocol_fee := 23;
  pb_accounted_input_before := 24; pb_accounted_output_before := 25; pb_accounted_fee_before :=
  26; pb_expires_at_slot := 27 |}.
Definition set_binding (i : nat) (v : field) (b : PlanBinding) : PlanBinding := {|
  pb_core_program := bytes_field i 0 v (pb_core_program b);
  pb_market := bytes_field i 1 v (pb_market b);
  pb_domain := bytes_field i 2 v (pb_domain b);
  pb_engine_program := bytes_field i 3 v (pb_engine_program b);
  pb_engine_state := bytes_field i 4 v (pb_engine_state b);
  pb_user_authority := bytes_field i 5 v (pb_user_authority b);
  pb_user_input := bytes_field i 6 v (pb_user_input b);
  pb_user_output := bytes_field i 7 v (pb_user_output b);
  pb_mint_in := bytes_field i 8 v (pb_mint_in b);
  pb_mint_out := bytes_field i 9 v (pb_mint_out b);
  pb_domain_input_vault := bytes_field i 10 v (pb_domain_input_vault b);
  pb_domain_output_vault := bytes_field i 11 v (pb_domain_output_vault b);
  pb_protocol_fee_vault := bytes_field i 12 v (pb_protocol_fee_vault b);
  pb_fee_ledger := bytes_field i 13 v (pb_fee_ledger b);
  pb_token_program := bytes_field i 14 v (pb_token_program b);
  pb_engine_revision := number_field i 15 v (pb_engine_revision b);
  pb_fee_policy_revision := number_field i 16 v (pb_fee_policy_revision b);
  pb_amount_in := number_field i 17 v (pb_amount_in b);
  pb_amount_out := number_field i 18 v (pb_amount_out b);
  pb_protocol_fee := number_field i 19 v (pb_protocol_fee b);
  pb_max_total_input_debit := number_field i 20 v (pb_max_total_input_debit b);
  pb_min_output_credit := number_field i 21 v (pb_min_output_credit b);
  pb_max_protocol_fee := number_field i 22 v (pb_max_protocol_fee b);
  pb_accounted_input_before := number_field i 23 v (pb_accounted_input_before b);
  pb_accounted_output_before := number_field i 24 v (pb_accounted_output_before b);
  pb_accounted_fee_before := number_field i 25 v (pb_accounted_fee_before b);
  pb_expires_at_slot := number_field i 26 v (pb_expires_at_slot b) |}.
Definition request_codec_is_exact_and_round_trips : test :=
  let expected := request in
  encoded ← unwrap (encode_request expected);
  assert_eq (length encoded) ENGINE_REQUEST_LEN ;;
  version ← byte_at encoded 0;
  assert_eq version PROBE_WIRE_VERSION ;;
  plan_hash ← slice encoded 1 33;
  assert_eq plan_hash (replicate 32 0xa5) ;;
  assert_eq (decode_request encoded) (Ok expected) ;;
  instruction ← unwrap (encode_evaluate_instruction expected);
  discriminator ← slice instruction 0 8;
  assert_eq discriminator EVALUATE_DISCRIMINATOR ;;
  assert_eq (decode_evaluate_instruction instruction) (Ok expected).

Definition decoders_fail_closed_on_shape_tag_and_version : test :=
  encoded ← unwrap (encode_request request);
  short ← slice encoded 0 (length encoded - 1);
  assert_eq (decode_request short)
    (Err (InvalidLength (Z.of_nat ENGINE_REQUEST_LEN) (Z.of_nat ENGINE_REQUEST_LEN - 1))) ;;
  instruction ← unwrap (encode_evaluate_instruction request);
  instruction ← flip instruction 0;
  assert_eq (decode_evaluate_instruction instruction) (Err InvalidDiscriminator) ;;
  versioned ← overwrite encoded 0 [1];
  assert_eq (decode_request versioned) (Err (UnsupportedVersion PROBE_WIRE_VERSION 1)) ;;
  let receipt := {| rc_plan_hash := replicate 32 9; rc_state_sequence := 10 |} in
  receipt_bytes ← unwrap (encode_receipt receipt);
  receipt_bytes ← flip receipt_bytes 0;
  assert_eq (decode_receipt receipt_bytes) (Err InvalidMagic).

Definition receipt_codec_is_exact_and_round_trips : test :=
  let expected :=
    {| rc_plan_hash := replicate 32 0x5a; rc_state_sequence := 0x0102030405060708 |} in
  encoded ← unwrap (encode_receipt expected);
  magic ← slice encoded 0 8;
  assert_eq magic (bytes_of_string "PMBRCP00") ;;
  version ← byte_at encoded 8;
  assert_eq version PROBE_WIRE_VERSION ;;
  sequence ← slice encoded 41 (length encoded);
  assert_eq sequence (to_le_bytes 8 (rc_state_sequence expected)) ;;
  assert_eq (decode_receipt encoded) (Ok expected).

Definition plan_binding_encoding_is_ordered_and_hash_is_stable : test :=
  encoded ← unwrap (encode_plan_binding binding);
  assert_eq (length encoded) PLAN_BINDING_LEN ;;
  version ← byte_at encoded 0;
  assert_eq version PROBE_WIRE_VERSION ;;
  for_each (seq 1 15) (fun byte =>
    let start := (1 + (byte - 1) * 32)%nat in
    key ← slice encoded start (start + 32);
    assert_eq key (replicate 32 (Z.of_nat byte))) ;;
  for_each (seq 16 12) (fun value =>
    let start := (1 + 15 * 32 + (value - 16) * 8)%nat in
    number ← slice encoded start (start + 8);
    assert_eq number (to_le_bytes 8 (Z.of_nat value))) ;;
  hash ← unwrap (compute_plan_hash binding);
  assert_eq hash
    [105; 20; 110; 43; 125; 224; 200; 63; 65; 198; 155; 100; 47; 0; 190; 36; 128; 201;
     69; 244; 156; 184; 117; 51; 250; 57; 177; 22; 105; 69; 19; 239].

Definition every_bound_field_changes_the_plan_hash : test :=
  each_field_is_bound (fun b => unwrap (compute_plan_hash b)) set_binding binding 0
    (keys_from 31 15 ++ numbers_from 116 12).

Definition tests : list test := [
  handler_discriminators_are_pinned_to_exact_names; request_codec_is_exact_and_round_trips;
  decoders_fail_closed_on_shape_tag_and_version; receipt_codec_is_exact_and_round_trips;
  plan_binding_encoding_is_ordered_and_hash_is_stable; every_bound_field_changes_the_plan_hash].
End Tests.
End EngineProbeInterface.

(** ** Capability descriptors, in the tests of both experiments *)

(** [byte.wrapping_add(32)] *)
Definition descriptor (byte : Z) : CapabilityDescriptor := {|
  cd_key := pubkey byte; cd_owner := pubkey ((byte + 32) mod 256);
  cd_is_writable := false; cd_is_signer := false; cd_is_executable := false |}.

Definition set_writable (d : CapabilityDescriptor) : CapabilityDescriptor := {|
  cd_key := cd_key d; cd_owner := cd_owner d; cd_is_writable := true;
  cd_is_signer := cd_is_signer d; cd_is_executable := cd_is_executable d |}.
Definition set_executable (d : CapabilityDescriptor) : CapabilityDescriptor := {|
  cd_key := cd_key d; cd_owner := cd_owner d; cd_is_writable := cd_is_writable d;
  cd_is_signer := cd_is_signer d; cd_is_executable := true |}.

(** [first] with another key, another owner, and each flag set. *)
Definition changed_descriptors (first : CapabilityDescriptor) : list CapabilityDescriptor := [
  {| cd_key := pubkey 3; cd_owner := cd_owner first; cd_is_writable := cd_is_writable first;
     cd_is_signer := cd_is_signer first; cd_is_executable := cd_is_executable first |};
  {| cd_key := cd_key first; cd_owner := pubkey 4; cd_is_writable := cd_is_writable first;
     cd_is_signer := cd_is_signer first; cd_is_executable := cd_is_executable first |};
  set_writable first;
  {| cd_key := cd_key first; cd_owner := cd_owner first; cd_is_writable := cd_is_writable first;
     cd_is_signer := true; cd_is_executable := cd_is_executable first |};
  set_executable first].

(** ** crates/generated-settlement-probe-wire *)
Module GeneratedSettlementProbeWire.
Import GeneratedWire.

#[export] Instance RequestBinding_eq_dec : EqDecision RequestBinding.
Proof. solve_decision. Defined.
#[export] Instance EngineRequest_eq_dec : EqDecision EngineRequest.
Proof. solve_decision. Defined.
#[export] Instance EngineReceipt_eq_dec : EqDecision EngineReceipt.
Proof. solve_decision. Defined.

Definition DISPOSABLE_CORE_PROGRAM_ID : Pubkey :=
  pubkey_literal "EJKx7XFp6CZQuAHD6AC14g7nUKeczJMr2TX9XRUEjs36".
Definition DISPOSABLE_ENGINE_PROGRAM_ID : Pubkey :=
  pubkey_literal "EAX2oQEejkYYTxaVCbQ3pfy9bySj3WMwtV36gvf77Mj1".
Definition DISPOSABLE_HELPER_PROGRAM_ID : Pubkey :=
  pubkey_literal "EsZGEzu3NgpwumgwdsjxW3c6xB9wR6gy3qj9Y86nZ7Uv".

Definition ENGINE_REQUEST_OPAQUE_COUNT_OFFSET : nat := (1 + 32 + 2 * 32 + 4 * 8)%nat.
Definition ENGINE_REQUEST_PAYLOAD_LEN_OFFSET : nat :=
  (ENGINE_REQUEST_OPAQUE_COUNT_OFFSET + 2 + 32)%nat.
Definition ENGINE_REQUEST_PAYLOAD_OFFSET : nat := (ENGINE_REQUEST_PAYLOAD_LEN_OFFSET + 2)%nat.

Definition binding : RequestBinding := {|
  rb_core_program := pubkey 1; rb_market := pubkey 2; rb_domain := pubkey 3; rb_engine_program
  := pubkey 4; rb_engine_state := pubkey 5; rb_user_authority := pubkey 6; rb_user_input :=
  pubkey 7; rb_user_output := pubkey 8; rb_mint_in := pubkey 9; rb_mint_out := pubkey 10;
  rb_domain_input_vault := pubkey 11; rb_domain_output_vault := pubkey 12; rb_protocol_fee_vault
  := pubkey 13; rb_fee_ledger := pubkey 14; rb_token_program := pubkey 15; rb_engine_revision :=
  16; rb_fee_policy_revision := 17; rb_amount_in := 18; rb_protocol_fee := 19;
  rb_max_total_input_debit := 20; rb_min_output_credit := 21; rb_max_protocol_fee := 22;
  rb_accounted_input_before := 23; rb_accounted_output_before := 24; rb_accounted_fee_before :=
  25; rb_expires_at_slot := 26; rb_capability_hash := replicate 32 27; rb_payload_hash :=
  replicate 32 28 |}.
Definition set_binding (i : nat) (v : field) (b : RequestBinding) : RequestBinding := {|
  rb_core_program := bytes_field i 0 v (rb_core_program b);
  rb_market := bytes_field i 1 v (rb_market b);
  rb_domain := bytes_field i 2 v (rb_domain b);
  rb_engine_program := bytes_field i 3 v (rb_engine_program b);
  rb_engine_state := bytes_field i 4 v (rb_engine_state b);
  rb_user_authority := bytes_field i 5 v (rb_user_authority b);
  rb_user_input := bytes_field i 6 v (rb_user_input b);
  rb_user_output := bytes_field i 7 v (rb_user_output b);
  rb_mint_in := bytes_field i 8 v (rb_mint_in b);
  rb_mint_out := bytes_field i 9 v (rb_mint_out b);
  rb_domain_input_vault := bytes_field i 10 v (rb_domain_input_vault b);
  rb_domain_output_vault := bytes_field i 11 v (rb_domain_output_vault b);
  rb_protocol_fee_vault := bytes_field i 12 v (rb_protocol_fee_vault b);
  rb_fee_ledger := bytes_field i 13 v (rb_fee_ledger b);
  rb_token_program := bytes_field i 14 v (rb_token_program b);
  rb_engine_revision := number_field i 15 v (rb_engine_revision b);
  rb_fee_policy_revision := number_field i 16 v (rb_fee_policy_revision b);
  rb_amount_in := number_field i 17 v (rb_amount_in b);
  rb_protocol_fee := number_field i 18 v (rb_protocol_fee b);
  rb_max_total_input_debit := number_field i 19 v (rb_max_total_input_debit b);
  rb_min_output_credit := number_field i 20 v (rb_min_output_credit b);
  rb_max_protocol_fee := number_field i 21 v (rb_max_protocol_fee b);
  rb_accounted_input_before := number_field i 22 v (rb_accounted_input_before b);
  rb_accounted_output_before := number_field i 23 v (rb_accounted_output_before b);
  rb_accounted_fee_before := number_field i 24 v (rb_accounted_fee_before b);
  rb_expires_at_slot := number_field i 25 v (rb_expires_at_slot b);
  rb_capability_hash := bytes_field i 26 v (rb_capability_hash b);
  rb_payload_hash := bytes_field i 27 v (rb_payload_hash b) |}.
Section Tests.
Context `{Hasher}.

Definition request : run EngineRequest :=
  unwrap (new_engine_request (replicate 32 0xa5) (pubkey 1) (pubkey 2) 3 4 5 6 2
    (replicate 32 0x5a) (bytes_of_string "curve:constant-product")).

Definition identities_and_discriminator_are_stable : test :=
  assert_eq (to_string DISPOSABLE_CORE_PROGRAM_ID)
    (bytes_of_string "EJKx7XFp6CZQuAHD6AC14g7nUKeczJMr2TX9XRUEjs36") ;;
  assert_eq (to_string DISPOSABLE_ENGINE_PROGRAM_ID)
    (bytes_of_string "EAX2oQEejkYYTxaVCbQ3pfy9bySj3WMwtV36gvf77Mj1") ;;
  assert_eq (to_string DISPOSABLE_HELPER_PROGRAM_ID)
    (bytes_of_string "EsZGEzu3NgpwumgwdsjxW3c6xB9wR6gy3qj9Y86nZ7Uv") ;;
  digest ← slice (hashv [bytes_of_string "global:evaluate"]) 0 8;
  assert_eq digest EVALUATE_DISCRIMINATOR ;;
  execute ← slice (hashv [bytes_of_string "global:execute_engine_generated_probe"]) 0 8;
  assert_eq execute CORE_EXECUTE_ENGINE_GENERATED_PROBE_DISCRIMINATOR.

Definition capability_hash (engine : Pubkey) (ds : list CapabilityDescriptor) : run (list Z) :=
  unwrap (compute_capability_hash engine ds).
Definition payload_hash (payload : list Z) : run (list Z) := unwrap (compute_payload_hash payload).

Definition capability_hash_binds_target_order_position_and_every_flag : test :=
  let first := descriptor 1 in
  let second := descriptor 2 in
  baseline ← capability_hash (pubkey 9) [first; second];
  for_each (
    (pubkey 8, [first; second]) :: (pubkey 9, [second; first]) :: (pubkey 9, [first]) ::
    ((fun changed => (pubkey 9, [changed; second])) <$> changed_descriptors first))
    (fun '(engine, ds) => other ← capability_hash engine ds; assert_ne baseline other).

Definition duplicate_capability_positions_are_preserved_not_deduplicated : test :=
  let read_only := descriptor 1 in
  let writable := set_writable read_only in
  duplicate ← capability_hash (pubkey 9) [read_only; read_only];
  single ← capability_hash (pubkey 9) [read_only];
  assert_ne duplicate single ;;
  x ← capability_hash (pubkey 9) [read_only; writable];
  y ← capability_hash (pubkey 9) [writable; read_only];
  assert_ne x y.

Definition capability_count_and_payload_length_are_bounded : test :=
  let maximum := Z.of_nat MAX_CAPABILITY_DESCRIPTORS in
  assert_eq (compute_capability_hash (pubkey 9)
      (replicate (MAX_CAPABILITY_DESCRIPTORS + 1) (descriptor 1)))
    (Err (TooManyCapabilityDescriptors maximum (maximum + 1))) ;;
  assert_ok (compute_capability_hash (pubkey 9)
    (replicate MAX_CAPABILITY_DESCRIPTORS (descriptor 1))) ;;
  assert_eq (compute_payload_hash (replicate (MAX_OPAQUE_PAYLOAD_LEN + 1) 7))
    (Err (PayloadTooLong (Z.of_nat MAX_OPAQUE_PAYLOAD_LEN) (Z.of_nat MAX_OPAQUE_PAYLOAD_LEN + 1))) ;;
  assert_eq (new_engine_request (replicate 32 0) (pubkey 1) (pubkey 2) 3 4 5 6
      (Z.of_nat MAX_OPAQUE_ACCOUNTS + 1) (replicate 32 0) [])
    (Err (InvalidOpaqueAccountCount (Z.of_nat MAX_OPAQUE_ACCOUNTS)
      (Z.of_nat MAX_OPAQUE_ACCOUNTS + 1))).

Definition payload_hash_binds_length_and_bytes : test :=
  baseline ← payload_hash (bytes_of_string "abc");
  for_each [bytes_of_string "abd"; bytes_of_string "abc" ++ [0]; []] (fun other =>
    hash ← payload_hash other; assert_ne baseline hash) ;;
  let maximum := replicate MAX_OPAQUE_PAYLOAD_LEN 0x5a in
  maximum_hash ← payload_hash maximum;
  for_each [0%nat; (MAX_OPAQUE_PAYLOAD_LEN / 2)%nat; (MAX_OPAQUE_PAYLOAD_LEN - 1)%nat] (fun index =>
    changed ← flip maximum index;
    hash ← payload_hash changed;
    assert_ne maximum_hash hash).

Definition request_binding_codec_is_exact_and_round_trips : test :=
  encoded ← unwrap (encode_request_binding binding);
  assert_eq (length encoded) REQUEST_BINDING_LEN ;;
  version ← byte_at encoded 0;
  assert_eq version PROBE_WIRE_VERSION ;;
  assert_eq (decode_request_binding encoded) (Ok binding).

Definition request_hash_changes_for_every_binding_field : test :=
  each_field_is_bound (fun b => unwrap (compute_request_hash b)) set_binding binding 0
    (keys_from 101 15 ++ numbers_from 116 11 ++ keys_from 127 2).

Definition engine_request_codec_is_fixed_padded_and_round_trips : test :=
  expected ← request;
  encoded ← unwrap (encode_request expected);
  assert_eq (length encoded) ENGINE_REQUEST_LEN ;;
  version ← byte_at encoded 0;
  assert_eq version PROBE_WIRE_VERSION ;;
  let stop := (ENGINE_REQUEST_PAYLOAD_OFFSET + Z.to_nat (gq_payload_len expected))%nat in
  encoded_payload ← slice encoded ENGINE_REQUEST_PAYLOAD_OFFSET stop;
  payload ← unwrap (payload_bytes expected);
  assert_eq encoded_payload payload ;;
  padding ← slice encoded stop (length encoded);
  assert (forallb (fun byte => byte =? 0) padding) ;;
  assert_eq (decode_request encoded) (Ok expected) ;;
  instruction ← unwrap (encode_evaluate_instruction expected);
  discriminator ← slice instruction 0 8;
  assert_eq discriminator EVALUATE_DISCRIMINATOR ;;
  assert_eq (decode_evaluate_instruction instruction) (Ok expected).

Definition request_decoders_reject_wrong_shape_version_count_and_padding : test :=
  expected ← request;
  encoded ← unwrap (encode_request expected);
  short ← slice encoded 0 (length encoded - 1);
  assert_eq (decode_request short)
    (Err (InvalidLength (Z.of_nat ENGINE_REQUEST_LEN) (Z.of_nat ENGINE_REQUEST_LEN - 1))) ;;
  versioned ← overwrite encoded 0 [1];
  assert_eq (decode_request versioned) (Err (UnsupportedVersion PROBE_WIRE_VERSION 1)) ;;
  let count := Z.of_nat MAX_OPAQUE_ACCOUNTS in
  too_many ← overwrite encoded ENGINE_REQUEST_OPAQUE_COUNT_OFFSET (to_le_bytes 2 (count + 1));
  assert_eq (decode_request too_many) (Err (InvalidOpaqueAccountCount count (count + 1))) ;;
  let len := Z.of_nat MAX_OPAQUE_PAYLOAD_LEN in
  invalid_payload_len ← overwrite encoded ENGINE_REQUEST_PAYLOAD_LEN_OFFSET (to_le_bytes 2 (len + 1));
  assert_eq (decode_request invalid_payload_len) (Err (InvalidPayloadLength len (len + 1))) ;;
  noncanonical ← overwrite encoded (ENGINE_REQUEST_LEN - 1) [1];
  assert_eq (decode_request noncanonical) (Err NonCanonicalPayloadPadding) ;;
  payload ← overwrite (gq_payload expected) (MAX_OPAQUE_PAYLOAD_LEN - 1) [1];
  assert_eq (encode_request {|
      gq_request_hash := gq_request_hash expected; gq_market := gq_market expected;
      gq_domain := gq_domain expected; gq_engine_revision := gq_engine_revision expected;
      gq_amount_in := gq_amount_in expected;
      gq_accounted_input_before := gq_accounted_input_before expected;
      gq_accounted_output_before := gq_accounted_output_before expected;
      gq_opaque_account_count := gq_opaque_account_count expected;
      gq_capability_hash := gq_capability_hash expected;
      gq_payload_len := gq_payload_len expected; gq_payload := payload |})
    (Err NonCanonicalPayloadPadding).

Definition evaluate_decoder_rejects_discriminator_and_trailing_data : test :=
  expected ← request;
  instruction ← unwrap (encode_evaluate_instruction expected);
  instruction ← flip instruction 0;
  assert_eq (decode_evaluate_instruction instruction) (Err InvalidDiscriminator) ;;
  assert_eq (decode_evaluate_instruction (instruction ++ [0]))
    (Err (InvalidLength (Z.of_nat EVALUATE_INSTRUCTION_LEN) (Z.of_nat EVALUATE_INSTRUCTION_LEN + 1))).

Definition example_receipt : EngineReceipt := {|
  gr_request_hash := replicate 32 0x5a; gr_amount_out := 0x0102030405060708;
  gr_state_sequence := 0x1112131415161718 |}.

Definition binding_and_receipt_decoders_fail_closed : test :=
  binding_bytes ← unwrap (encode_request_binding binding);
  short ← slice binding_bytes 0 (length binding_bytes - 1);
  assert_eq (decode_request_binding short)
    (Err (InvalidLength (Z.of_nat REQUEST_BINDING_LEN) (Z.of_nat REQUEST_BINDING_LEN - 1))) ;;
  let receipt := example_receipt in
  let len := Z.of_nat ENGINE_RECEIPT_LEN in
  encoded ← unwrap (encode_receipt receipt);
  assert_eq (length encoded) ENGINE_RECEIPT_LEN ;;
  assert_eq (decode_receipt encoded) (Ok receipt) ;;
  wrong_magic ← flip encoded 0;
  assert_eq (decode_receipt wrong_magic) (Err InvalidMagic) ;;
  wrong_version ← overwrite encoded (length RECEIPT_MAGIC) [1];
  assert_eq (decode_receipt wrong_version) (Err (UnsupportedVersion PROBE_WIRE_VERSION 1)) ;;
  short ← slice encoded 0 (length encoded - 1);
  assert_eq (decode_receipt short) (Err (InvalidLength len (len - 1))) ;;
  assert_eq (decode_receipt (encoded ++ [0])) (Err (InvalidLength len (len + 1))).

Definition stable_hash_and_wire_vectors_do_not_drift : test :=
  let capabilities := [descriptor 1; set_writable (descriptor 2); set_executable (descriptor 3)] in
  hash ← capability_hash (pubkey 9) capabilities;
  assert_eq hash
    [244; 242; 31; 214; 199; 131; 36; 22; 95; 17; 28; 180; 112; 17; 175; 20; 232; 24;
     145; 66; 89; 229; 6; 239; 1; 117; 151; 220; 138; 216; 186; 6] ;;
  hash ← payload_hash (bytes_of_string "stable payload");
  assert_eq hash
    [190; 15; 69; 58; 199; 21; 83; 243; 118; 47; 178; 101; 7; 228; 149; 59; 158; 255;
     154; 214; 207; 26; 53; 8; 94; 234; 68; 25; 213; 71; 116; 66] ;;
  hash ← unwrap (compute_request_hash binding);
  assert_eq hash
    [137; 208; 162; 57; 12; 85; 187; 5; 220; 147; 150; 29; 27; 75; 26; 173; 203; 207;
     221; 58; 98; 218; 222; 62; 94; 146; 57; 69; 66; 18; 42; 139] ;;
  receipt ← unwrap (encode_receipt example_receipt);
  magic ← slice receipt 0 9;
  assert_eq magic (bytes_of_string "PMBGSR00" ++ [0]) ;;
  amount_out ← slice receipt 41 49;
  assert_eq amount_out (to_le_bytes 8 0x0102030405060708) ;;
  sequence ← slice receipt 49 57;
  assert_eq sequence (to_le_bytes 8 0x1112131415161718).

Definition tests : list test := [
  identities_and_discriminator_are_stable;
  capability_hash_binds_target_order_position_and_every_flag;
  duplicate_capability_positions_are_preserved_not_deduplicated;
  capability_count_and_payload_length_are_bounded; payload_hash_binds_length_and_bytes;
  request_binding_codec_is_exact_and_round_trips; request_hash_changes_for_every_binding_field;
  engine_request_codec_is_fixed_padded_and_round_trips;
  request_decoders_reject_wrong_shape_version_count_and_padding;
  evaluate_decoder_rejects_discriminator_and_trailing_data;
  binding_and_receipt_decoders_fail_closed; stable_hash_and_wire_vectors_do_not_drift].
End Tests.
End GeneratedSettlementProbeWire.

(** ** crates/routed-callback-probe-wire *)
Module RoutedCallbackProbeWire.
Import RoutedWire.

#[export] Instance IntentBinding_eq_dec : EqDecision IntentBinding.
Proof. solve_decision. Defined.
#[export] Instance ExecutionBinding_eq_dec : EqDecision ExecutionBinding.
Proof. solve_decision. Defined.
#[export] Instance EngineRequest_eq_dec : EqDecision EngineRequest.
Proof. solve_decision. Defined.
#[export] Instance EngineReceipt_eq_dec : EqDecision EngineReceipt.
Proof. solve_decision. Defined.
#[export] Instance SettlementBinding_eq_dec : EqDecision SettlementBinding.
Proof. solve_decision. Defined.

Definition DISPOSABLE_CORE_PROGRAM_ID : Pubkey :=
  pubkey_literal "Bwhiw9S9ZdHkEhFF2Ps89HMxa5dHX1xSbdsGZ8W3qR2b".
Definition DISPOSABLE_ENGINE_PROGRAM_ID : Pubkey :=
  pubkey_literal "5UNyG5GQpPwyoDgsvt4JzdqJxJzPh52pVbUDjEa5Gikh".
Definition DISPOSABLE_ROUTER_PROGRAM_ID : Pubkey :=
  pubkey_literal "F62maceZqpLAayyBLsXNGdrmKg9cZWdpSDbzoHuNgk6Q".
Definition DISPOSABLE_HELPER_PROGRAM_ID : Pubkey :=
  pubkey_literal "6QXXm7aqjRxQGJ6V3nvtS5taHuojM9SisVrHg3Xrj1Vj".

Definition INTENT_TIMING_OFFSET : nat := 1.
Definition EXECUTION_PHASE_OFFSET : nat := 1.
Definition EXECUTION_PHASE_CONTEXT_OFFSET : nat := (2 + 32)%nat.
Definition EXECUTION_OPAQUE_COUNT_OFFSET : nat := (2 + 2 * 32 + 7 * 8 + 4 * 32)%nat.
Definition EXECUTION_PAYLOAD_LEN_OFFSET : nat := (EXECUTION_OPAQUE_COUNT_OFFSET + 2)%nat.
Definition EXECUTION_PAYLOAD_OFFSET : nat := (EXECUTION_PAYLOAD_LEN_OFFSET + 2)%nat.

Definition intent : IntentBinding := {|
  ib_timing_mode := TIMING_SINGLE; ib_core_program := pubkey 1; ib_market := pubkey 2; ib_domain
  := pubkey 3; ib_engine_program := pubkey 4; ib_engine_state := pubkey 5; ib_user_authority :=
  pubkey 6; ib_user_input := pubkey 7; ib_user_output := pubkey 8; ib_mint_in := pubkey 9;
  ib_mint_out := pubkey 10; ib_domain_input_vault := pubkey 11; ib_domain_output_vault := pubkey
  12; ib_protocol_fee_vault := pubkey 13; ib_fee_ledger := pubkey 14; ib_token_program := pubkey
  15; ib_engine_revision := 16; ib_fee_policy_revision := 17; ib_amount_in := 18;
  ib_protocol_fee := 19; ib_max_total_input_debit := 20; ib_min_output_credit := 21;
  ib_max_protocol_fee := 22; ib_expires_at_slot := 23; ib_authorization_nonce := replicate 32
  24; ib_authorized_capability_hash := replicate 32 25; ib_payload_hash := replicate 32 26 |}.
Definition set_intent (i : nat) (v : field) (b : IntentBinding) : IntentBinding := {|
  ib_timing_mode := number_field i 0 v (ib_timing_mode b);
  ib_core_program := bytes_field i 1 v (ib_core_program b);
  ib_market := bytes_field i 2 v (ib_market b);
  ib_domain := bytes_field i 3 v (ib_domain b);
  ib_engine_program := bytes_field i 4 v (ib_engine_program b);
  ib_engine_state := bytes_field i 5 v (ib_engine_state b);
  ib_user_authority := bytes_field i 6 v (ib_user_authority b);
  ib_user_input := bytes_field i 7 v (ib_user_input b);
  ib_user_output := bytes_field i 8 v (ib_user_output b);
  ib_mint_in := bytes_field i 9 v (ib_mint_in b);
  ib_mint_out := bytes_field i 10 v (ib_mint_out b);
  ib_domain_input_vault := bytes_field i 11 v (ib_domain_input_vault b);
  ib_domain_output_vault := bytes_field i 12 v (ib_domain_output_vault b);
  ib_protocol_fee_vault := bytes_field i 13 v (ib_protocol_fee_vault b);
  ib_fee_ledger := bytes_field i 14 v (ib_fee_ledger b);
  ib_token_program := bytes_field i 15 v (ib_token_program b);
  ib_engine_revision := number_field i 16 v (ib_engine_revision b);
  ib_fee_policy_revision := number_field i 17 v (ib_fee_policy_revision b);
  ib_amount_in := number_field i 18 v (ib_amount_in b);
  ib_protocol_fee := number_field i 19 v (ib_protocol_fee b);
  ib_max_total_input_debit := number_field i 20 v (ib_max_total_input_debit b);
  ib_min_output_credit := number_field i 21 v (ib_min_output_credit b);
  ib_max_protocol_fee := number_field i 22 v (ib_max_protocol_fee b);
  ib_expires_at_slot := number_field i 23 v (ib_expires_at_slot b);
  ib_authorization_nonce := bytes_field i 24 v (ib_authorization_nonce b);
  ib_authorized_capability_hash := bytes_field i 25 v (ib_authorized_capability_hash b);
  ib_payload_hash := bytes_field i 26 v (ib_payload_hash b) |}.
Definition settlement : SettlementBinding := {|
  sb_intent_digest := replicate 32 1; sb_primary_execution_digest := replicate 32 2;
  sb_primary_receipt_digest := replicate 32 3; sb_amount_in := 4; sb_amount_out := 5;
  sb_protocol_fee := 6; sb_total_input_debit := 7; sb_accounted_input_before := 8;
  sb_accounted_output_before := 9; sb_accounted_fee_before := 10; sb_accounted_input_after :=
  11; sb_accounted_output_after := 12; sb_accounted_fee_after := 13; sb_observed_source_after :=
  14; sb_observed_destination_after := 15; sb_observed_input_vault_after := 16;
  sb_observed_output_vault_after := 17; sb_observed_fee_vault_after := 18 |}.
Definition set_settlement (i : nat) (v : field) (b : SettlementBinding) : SettlementBinding := {|
  sb_intent_digest := bytes_field i 0 v (sb_intent_digest b);
  sb_primary_execution_digest := bytes_field i 1 v (sb_primary_execution_digest b);
  sb_primary_receipt_digest := bytes_field i 2 v (sb_primary_receipt_digest b);
  sb_amount_in := number_field i 3 v (sb_amount_in b);
  sb_amount_out := number_field i 4 v (sb_amount_out b);
  sb_protocol_fee := number_field i 5 v (sb_protocol_fee b);
  sb_total_input_debit := number_field i 6 v (sb_total_input_debit b);
  sb_accounted_input_before := number_field i 7 v (sb_accounted_input_before b);
  sb_accounted_output_before := number_field i 8 v (sb_accounted_output_before b);
  sb_accounted_fee_before := number_field i 9 v (sb_accounted_fee_before b);
  sb_accounted_input_after := number_field i 10 v (sb_accounted_input_after b);
  sb_accounted_output_after := number_field i 11 v (sb_accounted_output_after b);
  sb_accounted_fee_after := number_field i 12 v (sb_accounted_fee_after b);
  sb_observed_source_after := number_field i 13 v (sb_observed_source_after b);
  sb_observed_destination_after := number_field i 14 v (sb_observed_destination_after b);
  sb_observed_input_vault_after := number_field i 15 v (sb_observed_input_vault_after b);
  sb_observed_output_vault_after := number_field i 16 v (sb_observed_output_vault_after b);
  sb_observed_fee_vault_after := number_field i 17 v (sb_observed_fee_vault_after b) |}.
Definition set_execution (i : nat) (v : field) (b : ExecutionBinding) : ExecutionBinding := {|
  xb_phase := number_field i 0 v (xb_phase b);
  xb_intent_digest := bytes_field i 1 v (xb_intent_digest b);
  xb_phase_context_digest := bytes_field i 2 v (xb_phase_context_digest b);
  xb_market := bytes_field i 3 v (xb_market b);
  xb_domain := bytes_field i 4 v (xb_domain b);
  xb_engine_revision := number_field i 5 v (xb_engine_revision b);
  xb_amount_in := number_field i 6 v (xb_amount_in b);
  xb_protocol_fee := number_field i 7 v (xb_protocol_fee b);
  xb_accounted_input_before := number_field i 8 v (xb_accounted_input_before b);
  xb_accounted_output_before := number_field i 9 v (xb_accounted_output_before b);
  xb_accounted_fee_before := number_field i 10 v (xb_accounted_fee_before b);
  xb_pre_sequence := number_field i 11 v (xb_pre_sequence b);
  xb_authorized_capability_hash := bytes_field i 12 v (xb_authorized_capability_hash b);
  xb_phase_capability_hash := bytes_field i 13 v (xb_phase_capability_hash b);
  xb_opaque_account_count := number_field i 14 v (xb_opaque_account_count b);
  xb_payload_len := number_field i 15 v (xb_payload_len b);
  xb_payload := bytes_field i 16 v (xb_payload b) |}.
Definition execution : run ExecutionBinding :=
  unwrap (new_execution_binding PHASE_TRANSITION (replicate 32 1) (replicate 32 0) (pubkey 2)
    (pubkey 3) 4 5 6 7 8 9 10 (replicate 32 11) (replicate 32 12) 2
    (bytes_of_string "curve:constant-product")).

Section Tests.
Context `{Hasher}.

Definition request : run EngineRequest := b ← execution; unwrap (new_engine_request b).

Definition identities_seeds_discriminators_and_lengths_are_stable : test :=
  assert_eq (to_string DISPOSABLE_CORE_PROGRAM_ID)
    (bytes_of_string "Bwhiw9S9ZdHkEhFF2Ps89HMxa5dHX1xSbdsGZ8W3qR2b") ;;
  assert_eq (to_string DISPOSABLE_ENGINE_PROGRAM_ID)
    (bytes_of_string "5UNyG5GQpPwyoDgsvt4JzdqJxJzPh52pVbUDjEa5Gikh") ;;
  assert_eq (to_string DISPOSABLE_ROUTER_PROGRAM_ID)
    (bytes_of_string "F62maceZqpLAayyBLsXNGdrmKg9cZWdpSDbzoHuNgk6Q") ;;
  assert_eq (to_string DISPOSABLE_HELPER_PROGRAM_ID)
    (bytes_of_string "6QXXm7aqjRxQGJ6V3nvtS5taHuojM9SisVrHg3Xrj1Vj") ;;
  assert_eq SPEND_AUTHORITY_SEED (bytes_of_string "spend:v0") ;;
  assert_eq CALLBACK_AUTHORITY_SEED (bytes_of_string "engine-callback:v0") ;;
  for_each [
    (bytes_of_string "global:transition", ENGINE_TRANSITION_DISCRIMINATOR);
    (bytes_of_string "global:prepare", ENGINE_PREPARE_DISCRIMINATOR);
    (bytes_of_string "global:commit", ENGINE_COMMIT_DISCRIMINATOR)] (fun '(name, expected) =>
    digest ← slice (hashv [name]) 0 8; assert_eq digest expected) ;;
  assert_eq INTENT_BINDING_LEN 642%nat ;;
  assert_eq EXECUTION_BINDING_LEN 382%nat ;;
  assert_eq ENGINE_REQUEST_LEN 414%nat ;;
  assert_eq ENGINE_INSTRUCTION_LEN 422%nat ;;
  assert_eq ENGINE_RECEIPT_LEN 90%nat ;;
  assert_eq SETTLEMENT_BINDING_LEN 217%nat.

Definition timing_phase_matrix_is_explicit_and_fail_closed : test :=
  assert_eq (validate_phase_for_timing TIMING_SINGLE PHASE_TRANSITION) (Ok tt) ;;
  assert_eq (validate_phase_for_timing TIMING_PREPARE_COMMIT PHASE_PREPARE) (Ok tt) ;;
  assert_eq (validate_phase_for_timing TIMING_PREPARE_COMMIT PHASE_COMMIT) (Ok tt) ;;
  assert_eq (validate_phase_for_timing TIMING_SINGLE PHASE_PREPARE)
    (Err (InvalidPhaseForTiming TIMING_SINGLE PHASE_PREPARE)) ;;
  assert_eq (validate_phase_for_timing TIMING_PREPARE_COMMIT PHASE_TRANSITION)
    (Err (InvalidPhaseForTiming TIMING_PREPARE_COMMIT PHASE_TRANSITION)) ;;
  assert_eq (validate_phase_for_timing 9 PHASE_TRANSITION) (Err (Codec.UnsupportedTimingMode 9)) ;;
  assert_eq (validate_phase_for_timing TIMING_SINGLE 9) (Err (UnsupportedPhase 9)).

Definition capability_hash (engine : Pubkey) (ds : list CapabilityDescriptor) : run (list Z) :=
  unwrap (compute_capability_hash engine ds).
Definition payload_hash (payload : list Z) : run (list Z) := unwrap (compute_payload_hash payload).

Definition capability_hash_binds_target_order_position_duplicates_and_flags : test :=
  let first := descriptor 1 in
  let second := descriptor 2 in
  baseline ← capability_hash (pubkey 9) [first; second];
  for_each (
    (pubkey 8, [first; second]) :: (pubkey 9, [second; first]) :: (pubkey 9, [first]) ::
    ((fun changed => (pubkey 9, [changed; second])) <$> changed_descriptors first))
    (fun '(engine, ds) => other ← capability_hash engine ds; assert_ne baseline other) ;;
  duplicate ← capability_hash (pubkey 9) [first; first];
  single ← capability_hash (pubkey 9) [first];
  assert_ne duplicate single ;;
  let maximum := Z.of_nat MAX_CAPABILITY_DESCRIPTORS in
  assert_ok (compute_capability_hash (pubkey 9)
    (replicate MAX_CAPABILITY_DESCRIPTORS (descriptor 1))) ;;
  assert_eq (compute_capability_hash (pubkey 9)
      (replicate (MAX_CAPABILITY_DESCRIPTORS + 1) (descriptor 1)))
    (Err (TooManyCapabilityDescriptors maximum (maximum + 1))).

Definition payload_hash_binds_exact_length_and_bytes : test :=
  baseline ← payload_hash (bytes_of_string "abc");
  for_each [bytes_of_string "abd"; bytes_of_string "abc" ++ [0]; []] (fun other =>
    hash ← payload_hash other; assert_ne baseline hash) ;;
  assert_eq (compute_payload_hash (replicate (MAX_OPAQUE_PAYLOAD_LEN + 1) 7))
    (Err (PayloadTooLong (Z.of_nat MAX_OPAQUE_PAYLOAD_LEN) (Z.of_nat MAX_OPAQUE_PAYLOAD_LEN + 1))).

Definition intent_codec_is_fixed_and_digest_binds_every_field : test :=
  encoded ← unwrap (encode_intent_binding intent);
  version ← byte_at encoded 0;
  assert_eq version PROBE_WIRE_VERSION ;;
  timing ← byte_at encoded INTENT_TIMING_OFFSET;
  assert_eq timing TIMING_SINGLE ;;
  assert_eq (decode_intent_binding encoded) (Ok intent) ;;
  each_field_is_bound (fun b => unwrap (compute_intent_digest b)) set_intent intent 0
    (Number TIMING_PREPARE_COMMIT :: keys_from 101 15 ++ numbers_from 116 8 ++ keys_from 124 3).

Definition intent_decoder_rejects_shape_version_and_unknown_timing : test :=
  encoded ← unwrap (encode_intent_binding intent);
  short ← slice encoded 0 (length encoded - 1);
  assert_eq (decode_intent_binding short)
    (Err (InvalidLength (Z.of_nat INTENT_BINDING_LEN) (Z.of_nat INTENT_BINDING_LEN - 1))) ;;
  wrong_version ← overwrite encoded 0 [7];
  assert_eq (decode_intent_binding wrong_version) (Err (UnsupportedVersion PROBE_WIRE_VERSION 7)) ;;
  unknown_timing ← overwrite encoded INTENT_TIMING_OFFSET [7];
  assert_eq (decode_intent_binding unknown_timing) (Err (Codec.UnsupportedTimingMode 7)) ;;
  assert_eq (encode_intent_binding (set_intent 0 (Number 7) intent))
    (Err (Codec.UnsupportedTimingMode 7)).

Definition execution_codec_is_padded_and_digest_binds_every_field : test :=
  expected ← execution;
  encoded ← unwrap (encode_execution_binding expected);
  version ← byte_at encoded 0;
  assert_eq version PROBE_WIRE_VERSION ;;
  phase ← byte_at encoded EXECUTION_PHASE_OFFSET;
  assert_eq phase PHASE_TRANSITION ;;
  let stop := (EXECUTION_PAYLOAD_OFFSET + Z.to_nat (xb_payload_len expected))%nat in
  encoded_payload ← slice encoded EXECUTION_PAYLOAD_OFFSET stop;
  payload ← unwrap (payload_bytes expected);
  assert_eq encoded_payload payload ;;
  padding ← slice encoded stop (length encoded);
  assert (forallb (fun byte => byte =? 0) padding) ;;
  assert_eq (decode_execution_binding encoded) (Ok expected) ;;
  let digest := fun b => unwrap (compute_execution_digest b) in
  each_field_is_bound digest set_execution expected 0 [Number PHASE_PREPARE; Bytes (replicate 32 101)] ;;
  each_field_is_bound digest set_execution expected 3
    (keys_from 102 2 ++ numbers_from 104 7 ++ keys_from 111 2 ++
     [Number 3; Number (xb_payload_len expected + 1)]) ;;
  baseline ← digest expected;
  changed_payload ← flip (xb_payload expected) 0;
  changed ← digest (set_execution 16 (Bytes changed_payload) expected);
  assert_ne baseline changed ;;
  let commit := set_execution 2 (Bytes (replicate 32 1))
    (set_execution 0 (Number PHASE_COMMIT) expected) in
  commit_baseline ← digest commit;
  commit_changed ← digest (set_execution 2 (Bytes (replicate 32 2)) commit);
  assert_ne commit_baseline commit_changed.

Definition execution_decoder_rejects_unknowns_count_length_and_padding : test :=
  expected ← execution;
  encoded ← unwrap (encode_execution_binding expected);
  unknown_phase ← overwrite encoded EXECUTION_PHASE_OFFSET [9];
  assert_eq (decode_execution_binding unknown_phase) (Err (UnsupportedPhase 9)) ;;
  unexpected_context ← overwrite encoded EXECUTION_PHASE_CONTEXT_OFFSET [1];
  assert_eq (decode_execution_binding unexpected_context)
    (Err (InvalidPhaseContext PHASE_TRANSITION false)) ;;
  let zeros := replicate 32 0 in
  assert_eq (new_execution_binding PHASE_COMMIT zeros zeros (pubkey 1) (pubkey 2) 3 4 5 6 7 8 9
      zeros zeros 0 [])
    (Err (InvalidPhaseContext PHASE_COMMIT true)) ;;
  let count := Z.of_nat MAX_OPAQUE_ACCOUNTS in
  too_many ← overwrite encoded EXECUTION_OPAQUE_COUNT_OFFSET (to_le_bytes 2 (count + 1));
  assert_eq (decode_execution_binding too_many)
    (Err (InvalidOpaqueAccountCount count (count + 1))) ;;
  let len := Z.of_nat MAX_OPAQUE_PAYLOAD_LEN in
  invalid_payload_len ← overwrite encoded EXECUTION_PAYLOAD_LEN_OFFSET (to_le_bytes 2 (len + 1));
  assert_eq (decode_execution_binding invalid_payload_len)
    (Err (InvalidPayloadLength len (len + 1))) ;;
  noncanonical ← overwrite encoded (EXECUTION_BINDING_LEN - 1) [1];
  assert_eq (decode_execution_binding noncanonical) (Err NonCanonicalPayloadPadding) ;;
  assert_eq (new_execution_binding PHASE_TRANSITION zeros zeros (pubkey 1) (pubkey 2) 3 4 5 6 7 8 9
      zeros zeros 0 (replicate (MAX_OPAQUE_PAYLOAD_LEN + 1) 1))
    (Err (PayloadTooLong len (len + 1))).

Definition engine_request_and_instruction_verify_digest_and_phase_discriminator : test :=
  for_each [PHASE_TRANSITION; PHASE_PREPARE; PHASE_COMMIT] (fun phase =>
    binding ← execution;
    let context := if phase =? PHASE_COMMIT then replicate 32 0x5a else replicate 32 0 in
    let binding := set_execution 2 (Bytes context) (set_execution 0 (Number phase) binding) in
    expected ← unwrap (new_engine_request binding);
    encoded ← unwrap (encode_engine_request expected);
    assert_eq (decode_engine_request encoded) (Ok expected) ;;
    instruction ← unwrap (encode_engine_instruction expected);
    discriminator ← slice instruction 0 8;
    phase_discriminator ← unwrap (engine_phase_discriminator phase);
    assert_eq discriminator phase_discriminator ;;
    assert_eq (decode_engine_instruction instruction) (Ok expected)) ;;
  request ← request;
  encoded ← unwrap (encode_engine_request request);
  wrong_digest ← flip encoded (ENGINE_REQUEST_LEN - 1);
  assert_eq (decode_engine_request wrong_digest) (Err ExecutionDigestMismatch) ;;
  digest ← flip (xq_execution_digest request) 0;
  let inconsistent := {| xq_binding := xq_binding request; xq_execution_digest := digest |} in
  assert_eq (encode_engine_request inconsistent) (Err ExecutionDigestMismatch) ;;
  instruction ← unwrap (encode_engine_instruction request);
  wrong_discriminator ← flip instruction 0;
  assert_eq (decode_engine_instruction wrong_discriminator) (Err InvalidDiscriminator) ;;
  assert_eq (decode_engine_instruction (instruction ++ [0]))
    (Err (InvalidLength (Z.of_nat ENGINE_INSTRUCTION_LEN) (Z.of_nat ENGINE_INSTRUCTION_LEN + 1))).

Definition receipt_codec_binds_phase_and_both_digest_layers : test :=
  let expected := {|
    xr_phase := PHASE_COMMIT; xr_intent_digest := replicate 32 0x5a;
    xr_execution_digest := replicate 32 0xa5; xr_amount_out := 0x0102030405060708;
    xr_state_sequence := 0x1112131415161718 |} in
  encoded ← unwrap (encode_receipt expected);
  magic ← slice encoded 0 8;
  assert_eq magic RECEIPT_MAGIC ;;
  assert_eq (decode_receipt encoded) (Ok expected) ;;
  baseline_digest ← unwrap (compute_receipt_digest expected);
  let changed_receipt := {|
    xr_phase := xr_phase expected; xr_intent_digest := xr_intent_digest expected;
    xr_execution_digest := xr_execution_digest expected;
    xr_amount_out := xr_amount_out expected + 1;
    xr_state_sequence := xr_state_sequence expected |} in
  changed_digest ← unwrap (compute_receipt_digest changed_receipt);
  assert_ne baseline_digest changed_digest ;;
  wrong_magic ← flip encoded 0;
  assert_eq (decode_receipt wrong_magic) (Err InvalidMagic) ;;
  wrong_version ← overwrite encoded (length RECEIPT_MAGIC) [1];
  assert_eq (decode_receipt wrong_version) (Err (UnsupportedVersion PROBE_WIRE_VERSION 1)) ;;
  unknown_phase ← overwrite encoded (length RECEIPT_MAGIC + 1) [9];
  assert_eq (decode_receipt unknown_phase) (Err (UnsupportedPhase 9)) ;;
  let invalid_struct := {|
    xr_phase := 9; xr_intent_digest := xr_intent_digest expected;
    xr_execution_digest := xr_execution_digest expected; xr_amount_out := xr_amount_out expected;
    xr_state_sequence := xr_state_sequence expected |} in
  assert_eq (encode_receipt invalid_struct) (Err (UnsupportedPhase 9)) ;;
  short ← slice encoded 0 (length encoded - 1);
  assert_eq (decode_receipt short)
    (Err (InvalidLength (Z.of_nat ENGINE_RECEIPT_LEN) (Z.of_nat ENGINE_RECEIPT_LEN - 1))).

Definition settlement_codec_is_fixed_and_digest_binds_every_observation : test :=
  encoded ← unwrap (encode_settlement_binding settlement);
  version ← byte_at encoded 0;
  assert_eq version PROBE_WIRE_VERSION ;;
  assert_eq (decode_settlement_binding encoded) (Ok settlement) ;;
  each_field_is_bound (fun b => unwrap (compute_settlement_digest b)) set_settlement settlement 0
    (keys_from 101 3 ++ numbers_from 104 15) ;;
  wrong_version ← overwrite encoded 0 [9];
  assert_eq (decode_settlement_binding wrong_version)
    (Err (UnsupportedVersion PROBE_WIRE_VERSION 9)) ;;
  short ← slice encoded 0 (length encoded - 1);
  assert_eq (decode_settlement_binding short)
    (Err (InvalidLength (Z.of_nat SETTLEMENT_BINDING_LEN) (Z.of_nat SETTLEMENT_BINDING_LEN - 1))).

Definition tests : list test := [
  identities_seeds_discriminators_and_lengths_are_stable;
  timing_phase_matrix_is_explicit_and_fail_closed;
  capability_hash_binds_target_order_position_duplicates_and_flags;
  payload_hash_binds_exact_length_and_bytes; intent_codec_is_fixed_and_digest_binds_every_field;
  intent_decoder_rejects_shape_version_and_unknown_timing;
  execution_codec_is_padded_and_digest_binds_every_field;
  execution_decoder_rejects_unknowns_count_length_and_padding;
  engine_request_and_instruction_verify_digest_and_phase_discriminator;
  receipt_codec_binds_phase_and_both_digest_layers;
  settlement_codec_is_fixed_and_digest_binds_every_observation].
End Tests.
End RoutedCallbackProbeWire.

(** ** Properties *)

(** Under SHA-256 every unit test of the three wire crates passes: among them
    the pinned hash vectors, the discriminators derived from the instruction
    names, and for each hashed struct that replacing any one field changes its
    digest. The program ids the wire crates pin are those the programs declare. *)
Theorem wire_unit_tests_pass :
  Forall passes
    (EngineProbeInterface.tests (H := sha256_hasher) ++
     GeneratedSettlementProbeWire.tests (H := sha256_hasher) ++
     RoutedCallbackProbeWire.tests (H := sha256_hasher)) /\
  [EngineProbeInterface.DISPOSABLE_CORE_PROGRAM_ID; EngineProbeInterface.DISPOSABLE_ENGINE_PROGRAM_ID] =
    [kernel_ID; spike_engine_ID] /\
  [GeneratedSettlementProbeWire.DISPOSABLE_CORE_PROGRAM_ID;
   GeneratedSettlementProbeWire.DISPOSABLE_ENGINE_PROGRAM_ID;
   GeneratedSettlementProbeWire.DISPOSABLE_HELPER_PROGRAM_ID] =
    [generated_ID; generated_engine_ID; OpaqueProbe.ID] /\
  [RoutedCallbackProbeWire.DISPOSABLE_CORE_PROGRAM_ID;
   RoutedCallbackProbeWire.DISPOSABLE_ENGINE_PROGRAM_ID;
   RoutedCallbackProbeWire.DISPOSABLE_ROUTER_PROGRAM_ID;
   RoutedCallbackProbeWire.DISPOSABLE_HELPER_PROGRAM_ID] =
    [routed_ID; routed_engine_ID; router_ID; CallbackProbe.ID].
Proof. split; [decide_closed|]. split_and!; vm_compute; reflexivity. Qed.
