(* ===== verification/CoreTests.v ===== *)
(** * The unit tests of the three cores

    The [tests] modules of math.rs, validation.rs, authorize_spend_v0.rs and
    execute_callback_authenticated_probe_v0.rs. The keys the tests take from
    [Pubkey::new_unique] are distinct 32-byte keys here, the second of them not a
    program's.

    Left out is the one test of programs/core/src/lib.rs,
    [execute_discriminator_matches_engine_authentication_constant]: it is about
    the instruction data Anchor generates. *)
From S2P Require Import Prelude Codec CoreState Solana ReferenceRuntime FeeMath Validation Capability.
From S2P Require Import Settlement Initialize EngineProbe RoutedWire RoutedAuthorize RoutedExecute Programs NoPanic.
From S2P Require Import UnitTest.

Definition u64_MAX : Z := 2 ^ 64 - 1.
Definition u16_MAX : Z := 2 ^ 16 - 1.
Definition u8_MAX : Z := 2 ^ 8 - 1.

(** ** programs/core *)
Module ProgrammableCore.
Section Tests.
(** The keys [Pubkey::new_unique] returns, in the order of the calls. *)
Variable new_unique : nat -> Pubkey.

Definition rounds_dust_up_to_one_unit : test :=
  fee ← unwrap (fee_ceil 1 30);
  assert_eq fee 1 ;;
  fee ← unwrap (fee_ceil 333 30);
  assert_eq fee 1 ;;
  fee ← unwrap (fee_ceil 334 30);
  assert_eq fee 2.

Definition computes_exact_multiples_without_extra_unit : test :=
  fee ← unwrap (fee_ceil 10000 30);
  assert_eq fee 30 ;;
  fee ← unwrap (fee_ceil 1000000 30);
  assert_eq fee 3000.

Definition rejects_zero_amount_and_overflow : test :=
  assert_err (fee_ceil 0 30) ;; assert_err (fee_ceil u64_MAX u16_MAX).

Definition rejects_duplicate_semantic_roles : test :=
  let first := new_unique 0 in
  let second := new_unique 1 in
  assert_err (ensure_distinct_roles [first; second; first]).

Definition accepts_unique_semantic_roles : test :=
  let keys := [new_unique 0; new_unique 1; new_unique 2] in
  assert_ok (ensure_distinct_roles keys).

Definition exact_delta_helpers_reject_reversed_or_wrong_deltas : test :=
  assert_ok (exact_debit 10 5 5 UnexpectedSourceDebit) ;;
  assert_err (exact_debit 5 10 5 UnexpectedSourceDebit) ;;
  assert_ok (exact_credit 5 10 5 UnexpectedVaultCredit) ;;
  assert_err (exact_credit 10 5 5 UnexpectedVaultCredit).

Definition tests : list test := [
  rounds_dust_up_to_one_unit; computes_exact_multiples_without_extra_unit;
  rejects_zero_amount_and_overflow; rejects_duplicate_semantic_roles;
  accepts_unique_semantic_roles; exact_delta_helpers_reject_reversed_or_wrong_deltas].
End Tests.
End ProgrammableCore.

(** ** The experiment cores

    math.rs and validation.rs of the two crates carry the same tests. *)
Section Experiments.
Context `{Runtime} {C : CoreConfig} (new_unique : nat -> Pubkey).

Definition fee_rounds_up_and_rejects_overflow : test :=
  fee ← unwrap (fee_ceil 1 30);
  assert_eq fee 1 ;;
  fee ← unwrap (fee_ceil 334 30);
  assert_eq fee 2 ;;
  fee ← unwrap (fee_ceil 10000 30);
  assert_eq fee 30 ;;
  assert_err (fee_ceil 0 30) ;;
  assert_err (fee_ceil u64_MAX u16_MAX).

Definition account_info (key owner : Pubkey) (is_signer is_writable executable : bool) : AccountInfo := {|
  ai_key := key; ai_owner := owner; ai_is_signer := is_signer; ai_is_writable := is_writable;
  ai_executable := executable |}.

(** [descriptors[i]] *)
Definition descriptor_at (descriptors : list CapabilityDescriptor) (i : nat) : run CapabilityDescriptor :=
  match descriptors !! i with Some d => Ok d | None => Panic end.

Definition opaque_duplicates_preserve_positions_and_effective_flags : test :=
  let key := new_unique 0 in
  let owner := new_unique 1 in
  let accounts := [account_info key owner false false false; account_info key owner false true false] in
  descriptors ← unwrap (validate_opaque_capabilities accounts []);
  assert_eq (length descriptors) 2%nat ;;
  d0 ← descriptor_at descriptors 0;
  d1 ← descriptor_at descriptors 1;
  assert_eq (cd_key d0) (cd_key d1) ;;
  assert (cd_is_writable d0) ;;
  assert (cd_is_writable d1).

Definition duplicate_signer_privilege_is_rejected_for_every_position : test :=
  let key := new_unique 0 in
  let owner := new_unique 1 in
  let accounts := [account_info key owner false false false; account_info key owner true false false] in
  assert_err (validate_opaque_capabilities accounts []).

Definition normalized_writable_privilege_rejects_executables_and_token_accounts : test :=
  let executable_key := new_unique 0 in
  let executable_owner := new_unique 1 in
  let executable_duplicate := [
    account_info executable_key executable_owner false false true;
    account_info executable_key executable_owner false true false] in
  assert_err (validate_opaque_capabilities executable_duplicate []) ;;
  for_each [(2%nat, spl_token_ID); (3%nat, token_2022_ID)] (fun '(i, token_owner) =>
    let token_key := new_unique i in
    let token_account := account_info token_key token_owner false true false in
    assert_err (validate_opaque_capabilities [token_account] [])).

Definition payload_and_capability_count_limits_fail_closed : test :=
  assert_err (validate_opaque_payload (replicate (MAX_OPAQUE_PAYLOAD_LEN + 1) 0)) ;;
  let owner := new_unique 0 in
  let accounts := (fun i => account_info (new_unique (S i)) owner false false false) <$>
    seq 0 (MAX_OPAQUE_ACCOUNTS + 1) in
  assert_err (validate_opaque_capabilities accounts []).

Definition opaque_closure_rejects_signers_fixed_aliases_and_core_owners : test :=
  let external_key := new_unique 0 in
  let external_owner := new_unique 1 in
  let signer := account_info external_key external_owner true false false in
  assert_err (validate_opaque_capabilities [signer] []) ;;
  let alias_key := new_unique 2 in
  let alias := account_info alias_key external_owner false false false in
  assert_err (validate_opaque_capabilities [alias] [alias_key]) ;;
  let core_owned := account_info external_key ID false false false in
  assert_err (validate_opaque_capabilities [core_owned] []).

Definition rejects_duplicate_fixed_roles_and_wrong_deltas : test :=
  let first := new_unique 0 in
  let second := new_unique 1 in
  assert_err (ensure_distinct_roles [first; second; first]) ;;
  assert_ok (exact_debit 10 5 5 UnexpectedSourceDebit) ;;
  assert_err (exact_debit 5 10 5 UnexpectedSourceDebit) ;;
  assert_ok (exact_credit 5 10 5 UnexpectedVaultCredit).

Definition experiment_tests : list test := [
  fee_rounds_up_and_rejects_overflow;
  opaque_duplicates_preserve_positions_and_effective_flags;
  duplicate_signer_privilege_is_rejected_for_every_position;
  normalized_writable_privilege_rejects_executables_and_token_accounts;
  payload_and_capability_count_limits_fail_closed;
  opaque_closure_rejects_signers_fixed_aliases_and_core_owners;
  rejects_duplicate_fixed_roles_and_wrong_deltas].

(** A failure the code reports, and does not panic over. *)
Lemma passes_not_ok {E A} (m : outcome E A) : NoPanic m -> (forall a, m <> Ok a) -> passes (assert_err m).
Proof. intros Hn Hm. destruct m as [a|e|]; [by destruct (Hm a) | done | by destruct Hn]. Qed.

(** One forwarded account that is not [forwardable] spoils the closure. *)
Lemma opaque_rejected accounts fixed a :
  a ∈ accounts -> ~ forwardable accounts fixed a ->
  passes (assert_err (validate_opaque_capabilities accounts fixed)).
Proof.
  intros Ha Hf. apply passes_not_ok; [apply _|]. intros ds (_ & Hall & _)%validate_opaque_capabilities_Ok.
  rewrite Forall_forall in Hall. by apply Hf, Hall.
Qed.

Lemma duplicates_pass :
  new_unique 1%nat ∉ [ID; spl_token_ID; token_2022_ID] ->
  passes opaque_duplicates_preserve_positions_and_effective_flags.
Proof.
  rewrite !not_elem_of_cons. intros (Hid & Htok & Htok' & _).
  unfold passes, opaque_duplicates_preserve_positions_and_effective_flags.
  set (accounts := [_; _]).
  assert (validate_opaque_capabilities accounts [] = Ok (map (opaque_descriptor accounts) accounts)) as ->.
  { apply validate_opaque_capabilities_Ok. split_and!; [simpl; unfold MAX_OPAQUE_ACCOUNTS; lia | | done].
    repeat constructor; simpl; try done; try apply not_elem_of_nil;
      intros c [->|[->|[]%not_elem_of_nil]%elem_of_cons]%elem_of_cons; done. }
  assert (forall a, a ∈ accounts -> effective_flag ai_is_writable accounts a = true) as Hw.
  { intros a Ha. apply effective_flag_true. eexists. split; [right; left; reflexivity|].
    by repeat (apply elem_of_cons in Ha as [->|Ha]); [..|by apply not_elem_of_nil in Ha]. }
  cbn [unwrap]. rewrite bind_ret_l. cbn [map accounts].
  apply passes_seq; [by apply passes_assert_eq|]. cbn [descriptor_at lookup list_lookup].
  unfold passes. rewrite !bind_ret_l. unfold opaque_descriptor. cbn [cd_key cd_is_writable].
  repeat apply passes_seq; [by apply passes_assert_eq | apply passes_assert, Hw; by left
    | apply passes_assert, Hw; right; by left].
Qed.

Lemma privileges_pass :
  passes duplicate_signer_privilege_is_rejected_for_every_position /\
  passes normalized_writable_privilege_rejects_executables_and_token_accounts.
Proof.
  split; [|apply passes_seq].
  - eapply opaque_rejected; [by left|]. intros [Hs _].
    discriminate (Hs _ (list_elem_of_further _ _ _ (list_elem_of_here _ _)) eq_refl).
  - eapply opaque_rejected; [by left|]. intros (_ & _ & _ & Hw).
    destruct Hw as (He & _); [|discriminate He].
    eexists. split; [right; left; reflexivity|]. done.
  - apply passes_for_each. intros [i owner] Hi.
    eapply opaque_rejected; [by left|]. intros (_ & _ & _ & Hw).
    destruct Hw as (_ & H1 & H2); [eexists; split; [by left | done]|]. cbn in H1, H2.
    by repeat (apply elem_of_cons in Hi as [[= -> ->]|Hi]); [..|by apply not_elem_of_nil in Hi].
Qed.

Lemma limits_pass : passes payload_and_capability_count_limits_fail_closed.
Proof.
  apply passes_seq; [done|]. apply passes_not_ok; [apply _|].
  intros ds (Hl & _)%validate_opaque_capabilities_Ok.
  rewrite length_fmap, length_seq in Hl. lia.
Qed.

Lemma closure_passes : passes opaque_closure_rejects_signers_fixed_aliases_and_core_owners.
Proof.
  apply passes_seq; [|apply passes_seq].
  - eapply opaque_rejected; [by left|]. intros [Hs _]. discriminate (Hs _ (list_elem_of_here _ _) eq_refl).
  - eapply opaque_rejected; [by left|]. intros (_ & Hk & _). by apply Hk; left.
  - eapply opaque_rejected; [by left|]. by intros (_ & _ & Ho & _).
Qed.

(** A repeated key is found whatever the keys are. *)
Lemma repeated_role_rejected first second :
  passes (assert_err (ensure_distinct_roles [first; second; first])).
Proof.
  apply passes_not_ok; [apply _|]. intros u Hd%ensure_distinct_roles_Ok.
  apply NoDup_cons in Hd as [Hd _]. apply Hd. right. by left.
Qed.

Lemma experiment_tests_pass :
  new_unique 1%nat ∉ [ID; spl_token_ID; token_2022_ID] -> Forall passes experiment_tests.
Proof.
  intros Hu. destruct privileges_pass. unfold experiment_tests.
  repeat (apply Forall_cons_2; [first [done | by apply duplicates_pass | apply closure_passes
    | apply limits_pass | by apply passes_seq; [apply repeated_role_rejected|]]|]).
  apply Forall_nil_2.
Qed.
End Experiments.

Lemma kernel_tests_pass new_unique :
  NoDup [new_unique 0%nat; new_unique 1%nat; new_unique 2%nat] ->
  Forall passes (ProgrammableCore.tests new_unique).
Proof.
  intros Hd. repeat apply Forall_cons_2; try apply Forall_nil_2; try done.
  - apply repeated_role_rejected.
  - eapply passes_assert_ok. by apply (proj2 (ensure_distinct_roles_Ok _ tt)).
Qed.

(** ** The two crates *)

Module GeneratedSettlementCore.
Definition tests `{Runtime} (new_unique : nat -> Pubkey) : list test :=
  experiment_tests (C := generated_config) new_unique.
End GeneratedSettlementCore.

Module RoutedCallbackCore.
Section Tests.
Context `{Runtime} (new_unique : nat -> Pubkey).
#[local] Existing Instance routed_config.

(** The text of math.rs and validation.rs, over this crate's constants and [ID]. *)
Definition fee_rounds_up_and_rejects_overflow : test := CoreTests.fee_rounds_up_and_rejects_overflow.
Definition opaque_duplicates_preserve_positions_and_effective_flags : test :=
  CoreTests.opaque_duplicates_preserve_positions_and_effective_flags new_unique.
Definition duplicate_signer_privilege_is_rejected_for_every_position : test :=
  CoreTests.duplicate_signer_privilege_is_rejected_for_every_position new_unique.
Definition normalized_writable_privilege_rejects_executables_and_token_accounts : test :=
  CoreTests.normalized_writable_privilege_rejects_executables_and_token_accounts new_unique.
Definition payload_and_capability_count_limits_fail_closed : test :=
  CoreTests.payload_and_capability_count_limits_fail_closed new_unique.
Definition opaque_closure_rejects_signers_fixed_aliases_and_core_owners : test :=
  CoreTests.opaque_closure_rejects_signers_fixed_aliases_and_core_owners new_unique.
Definition rejects_duplicate_fixed_roles_and_wrong_deltas : test :=
  CoreTests.rejects_duplicate_fixed_roles_and_wrong_deltas new_unique.

Definition timing_modes_select_distinct_primary_phases : test :=
  phase ← unwrap (primary_phase TIMING_SINGLE);
  assert_eq phase PHASE_TRANSITION ;;
  phase ← unwrap (primary_phase TIMING_PREPARE_COMMIT);
  assert_eq phase PHASE_PREPARE ;;
  assert_err (primary_phase u8_MAX).

Definition prepare_sequence_stays_fixed_while_transition_advances_once : test :=
  assert_ok (validate_primary_sequence PHASE_PREPARE 9 9) ;;
  assert_err (validate_primary_sequence PHASE_PREPARE 9 10) ;;
  assert_ok (validate_primary_sequence PHASE_TRANSITION 9 10) ;;
  assert_err (validate_primary_sequence PHASE_TRANSITION 9 9).

Definition spend_authority_is_bound_to_source_and_intent : test :=
  let source := new_unique 0 in
  let first_intent := replicate 32 7 in
  let second_intent := replicate 32 8 in
  let '(first, _) := find_program_address [SPEND_AUTHORITY_SEED_V0; source; first_intent] ID in
  let '(second, _) := find_program_address [SPEND_AUTHORITY_SEED_V0; source; second_intent] ID in
  assert_ne first second.

Definition spend_and_callback_namespaces_cannot_collide : test :=
  let source := new_unique 0 in
  let intent_digest := replicate 32 11 in
  let '(spend, _) := canonical_spend_authority source intent_digest in
  let engine_program := new_unique 1 in
  let engine_state := new_unique 2 in
  let market := new_unique 3 in
  let domain := new_unique 4 in
  let '(callback, _) := find_program_address
    [CALLBACK_AUTHORITY_SEED_V0; engine_program; engine_state; market; domain; intent_digest;
     [PHASE_TRANSITION]] ID in
  assert_ne spend callback.

Definition tests : list test := [
   timing_modes_select_distinct_primary_phases;
   prepare_sequence_stays_fixed_while_transition_advances_once;
   fee_rounds_up_and_rejects_overflow;
   opaque_duplicates_preserve_positions_and_effective_flags;
   duplicate_signer_privilege_is_rejected_for_every_position;
   normalized_writable_privilege_rejects_executables_and_token_accounts;
   payload_and_capability_count_limits_fail_closed;
   opaque_closure_rejects_signers_fixed_aliases_and_core_owners;
   rejects_duplicate_fixed_roles_and_wrong_deltas].
Definition address_tests : list test :=
  [spend_authority_is_bound_to_source_and_intent; spend_and_callback_namespaces_cannot_collide].
End Tests.
End RoutedCallbackCore.

(** *** Derived addresses *)

(** Seeds of different bytes, joined as the derivation joins them, that give one
    address. *)
Definition derivation_collision `{Runtime} : Prop := exists seeds1 seeds2 program k,
  mjoin seeds1 <> mjoin seeds2 /\
  create_program_address seeds1 program = Some k /\ create_program_address seeds2 program = Some k.

Lemma addresses_differ `{Runtime} (Hpda : pda_law) seeds1 seeds2 program :
  (forall b1 b2 : Z, mjoin (seeds1 ++ [[b1]]) <> mjoin (seeds2 ++ [[b2]])) ->
  passes (let '(k1, _) := find_program_address seeds1 program in
          let '(k2, _) := find_program_address seeds2 program in assert_ne k1 k2) \/
  derivation_collision.
Proof.
  intros Hne. destruct (find_program_address seeds1 program) as [k1 b1] eqn:E1.
  destruct (find_program_address seeds2 program) as [k2 b2] eqn:E2.
  destruct (decide (k1 = k2)) as [->|Hk]; [right | left; by apply passes_assert, bool_decide_eq_true].
  exists (seeds1 ++ [[b1]]), (seeds2 ++ [[b2]]), program, k2. split; [by apply Hne|].
  split; by apply Hpda.
Qed.

Lemma address_tests_pass `{Runtime} (Hpda : pda_law) new_unique t :
  (forall i, length (new_unique i) = 32%nat) ->
  t ∈ RoutedCallbackCore.address_tests new_unique -> passes t \/ derivation_collision.
Proof.
  intros Hl Ht. unfold RoutedCallbackCore.address_tests in Ht. rewrite !elem_of_cons in Ht.
  destruct Ht as [-> |[-> |[]%not_elem_of_nil]]; apply (addresses_differ Hpda); intros b1 b2 Heq;
    cbn [mjoin list_join app] in Heq.
  - apply app_inv_head, app_inv_head in Heq. discriminate Heq.
  - apply (f_equal length) in Heq. rewrite !length_app, !Hl in Heq. discriminate Heq.
Qed.

(** ** Properties *)

(** C38. The unit tests in math.rs, validation.rs and the instruction files of the
    three cores (all but the one in programs/core/src/lib.rs, which is about data
    Anchor generates) pass on every runtime whose [find_program_address] finds
    what [create_program_address] gives, for any three distinct 32-byte keys from
    [Pubkey::new_unique] of which the second is not the id of an experiment's core
    or of a token program; those about derived addresses pass unless two different
    seed strings derive one address. *)
Theorem core_unit_tests_pass `{Runtime} (new_unique : nat -> Pubkey) :
  NoDup [new_unique 0%nat; new_unique 1%nat; new_unique 2%nat] ->
  (forall i, length (new_unique i) = 32%nat) ->
  new_unique 1%nat ∉ [generated_ID; routed_ID; spl_token_ID; token_2022_ID] -> pda_law ->
  Forall passes (ProgrammableCore.tests new_unique ++ GeneratedSettlementCore.tests new_unique ++
                 RoutedCallbackCore.tests new_unique) /\
  (forall t, t ∈ RoutedCallbackCore.address_tests new_unique -> passes t \/ derivation_collision).
Proof.
  rewrite !not_elem_of_cons. intros Hd Hl (Hg & Hr & Ht & Ht' & _) Hpda.
  split; [|intros t; by apply address_tests_pass].
  assert (forall C : CoreConfig, new_unique 1%nat <> ID ->
    Forall passes (experiment_tests (C := C) new_unique)) as He.
  { intros C Hc. apply experiment_tests_pass. rewrite !not_elem_of_cons.
    by repeat split; [..|apply not_elem_of_nil]. }
  apply Forall_app; split; [by apply kernel_tests_pass|].
  apply Forall_app; split; [by apply He|].
  do 2 (apply Forall_cons_2; [done|]). exact (He routed_config Hr).
Qed.

(** Keys of one repeated byte; the program ids repeat none. *)
Definition counted_key (i : nat) : Pubkey := pubkey (Z.of_nat i).

Lemma core_unit_tests_pass_witness :
  let H := EngineProbe.example_runtime in
  Forall passes (RoutedCallbackCore.tests (H := H) counted_key).
Proof.
  intros H. destruct (core_unit_tests_pass (H := H) counted_key) as [Hp _].
  - decide_closed.
  - intros i. apply length_replicate.
  - decide_closed.
  - apply reference_pda_law.
  - apply Forall_app in Hp as [_ Hp]. apply Forall_app in Hp as [_ Hp]. exact Hp.
Defined.
