(* ===== verification/EngineTests.v ===== *)
(** * The unit tests of the engines, the helpers and the router

    The [tests] modules of generated-plan-engine, routed-plan-engine,
    opaque-capability-probe, callback-capability-probe and hostile-router-probe.
    The two engines repeat the same quote and the same tests of it; among them a
    second implementation of the quote, which the tests compare with the first
    on random inputs and this file on all inputs.

    Two tests are left out, as they are about derived code: the Borsh round trip
    of the router's arguments and the size of the callback helper's account. *)
From S2P Require Import GeneratedEngine RoutedEngine Router.
From S2P Require Import Prelude Codec CoreState EngineState Solana EngineFrame Helpers Cpmm UnitTest.
From S2P Require Import NoPanic.
From Stdlib Require Import Sorted.

#[export] Instance CpmmQuote_eq_dec : EqDecision CpmmQuote.
Proof. solve_decision. Defined.

Definition u64_MAX : Z := 2 ^ 64 - 1.
Definition u32_MAX : Z := 2 ^ 32 - 1.
Definition u16_MAX : Z := 2 ^ 16 - 1.

(** [Option::unwrap], and arithmetic in a debug build: an overflow panics. *)
Definition unwrap_option {A} (o : option A) : run A :=
  match o with Some a => Ok a | None => Panic end.

(** ** The quote tests both engines carry *)
Module QuoteTests.

Definition assert_invariant (reserve_in reserve_out gross_input amount_out : Z) : test :=
  pre_k ← unwrap_option (checked_mul 128 reserve_in reserve_out);
  post_in ← unwrap_option (checked_add 64 reserve_in gross_input);
  post_out ← unwrap_option (checked_sub reserve_out amount_out);
  post_k ← unwrap_option (checked_mul 128 post_in post_out);
  assert (pre_k <=? post_k).

Definition golden_quote_separates_implicit_lp_fee : test :=
  quote ← unwrap (quote_exact_in 1000000 1000000 100000 30);
  assert_eq quote
    {| cq_effective_input := 99700; cq_lp_fee_retained := 300; cq_amount_out := 90661 |} ;;
  assert_invariant 1000000 1000000 100000 (cq_amount_out quote).

Definition zero_fee_quote_has_no_retained_input : test :=
  quote ← unwrap (quote_exact_in 1000000 1000000 100000 0);
  assert_eq (cq_effective_input quote) 100000 ;;
  assert_eq (cq_lp_fee_retained quote) 0 ;;
  assert_eq (cq_amount_out quote) 90909.

Definition lp_fee_rounding_is_explicitly_pool_favouring : test :=
  quote ← unwrap (quote_exact_in 1000000 1000000 334 30);
  assert_eq (cq_effective_input quote) 332 ;;
  assert_eq (cq_lp_fee_retained quote) 2 ;;
  assert_eq (cq_amount_out quote) 331.

Definition helper_payload_encoding_is_fixed_width_and_little_endian : test :=
  let amount := 0x0102030405060708 in
  let payload := encode_helper_payload amount in
  assert_eq (length payload) HELPER_INCREMENT_PAYLOAD_LEN ;;
  tag ← byte_at payload 0;
  assert_eq tag HELPER_PAYLOAD_TAG ;;
  encoded ← slice payload 1 (length payload);
  assert_eq encoded (to_le_bytes 8 amount).

Definition rejects_invalid_and_unrepresentable_quotes : test :=
  assert_err (quote_exact_in 0 1 1 0) ;;
  assert_err (quote_exact_in 1 0 1 0) ;;
  assert_err (quote_exact_in 1 1 0 0) ;;
  assert_err (quote_exact_in 1 1 1 10000) ;;
  assert_err (quote_exact_in 1 1 1 u16_MAX) ;;
  assert_err (quote_exact_in 1000 1000 1 30) ;;
  assert_err (quote_exact_in u64_MAX 1 1 0) ;;
  assert_err (quote_exact_in 1 1 1 0).

Definition maximum_width_products_remain_checked : test :=
  quote ← unwrap (quote_exact_in 1 u64_MAX (u64_MAX - 1) 0);
  assert_eq (cq_effective_input quote) (u64_MAX - 1) ;;
  assert_eq (cq_amount_out quote) (u64_MAX - 1) ;;
  assert_invariant 1 u64_MAX (u64_MAX - 1) (cq_amount_out quote).

(** The innermost loop of the grid: the successful outputs never grow with the fee. *)
Fixpoint fees_loop (reserve_in reserve_out gross_input : Z) (fees : list Z) (prior : option Z) : test :=
  match fees with
  | [] => Ok tt
  | fee :: fees =>
      match quote_exact_in reserve_in reserve_out gross_input fee with
      | Panic => Panic
      | Err _ => fees_loop reserve_in reserve_out gross_input fees prior
      | Ok quote =>
          assert (cq_effective_input quote <=? gross_input) ;;
          retained ← unwrap_option (checked_sub gross_input (cq_effective_input quote));
          assert_eq (cq_lp_fee_retained quote) retained ;;
          assert (cq_amount_out quote <? reserve_out) ;;
          assert_invariant reserve_in reserve_out gross_input (cq_amount_out quote) ;;
          match prior with Some output => assert (cq_amount_out quote <=? output) | None => Ok tt end ;;
          fees_loop reserve_in reserve_out gross_input fees (Some (cq_amount_out quote))
      end
  end.

Definition deterministic_property_grid_preserves_cpmm_and_monotonicity : test :=
  let reserves := [1; 2; 3; 10; 997; 10000; 1000000; u32_MAX] in
  let inputs := [1; 2; 3; 10; 334; 10000; 100000; u32_MAX] in
  let fees := [0; 1; 30; 100; 1000; 5000; 9999] in
  for_each reserves (fun reserve_in => for_each reserves (fun reserve_out =>
    for_each inputs (fun gross_input =>
      match checked_add 64 reserve_in gross_input with
      | None => Ok tt
      | Some _ => fees_loop reserve_in reserve_out gross_input fees None
      end))).

Fixpoint inputs_loop (inputs : list Z) (prior : option Z) : test :=
  match inputs with
  | [] => Ok tt
  | gross_input :: inputs =>
      match quote_exact_in 1000000 1000000 gross_input 30 with
      | Panic => Panic
      | Err _ => inputs_loop inputs prior
      | Ok quote =>
          match prior with Some output => assert (output <=? cq_amount_out quote) | None => Ok tt end ;;
          inputs_loop inputs (Some (cq_amount_out quote))
      end
  end.

Definition output_is_monotone_in_successful_exact_inputs : test :=
  inputs_loop [1; 2; 3; 10; 100; 1000; 10000; 100000] None.

(** *** The second implementation *)

Definition as_u64 (n : Z) : Z := n mod 2 ^ 64.

Definition independent_quote_model (reserve_in reserve_out gross_input lp_fee_bps : Z)
    : run (option CpmmQuote) :=
  if (reserve_in =? 0) || (reserve_out =? 0) || (gross_input =? 0) || (10000 <=? lp_fee_bps) ||
     negb (bool_decide (is_Some (checked_add 64 reserve_in gross_input)))
  then Ok None else
  retained_bps ← unwrap_option (checked_sub 10000 lp_fee_bps);
  product ← unwrap_option (checked_mul 128 gross_input retained_bps);
  let effective_input := as_u64 (product / 10000) in
  if effective_input =? 0 then Ok None else
  product ← unwrap_option (checked_mul 128 reserve_out effective_input);
  sum ← unwrap_option (checked_add 128 reserve_in effective_input);
  let amount_out := as_u64 (product / sum) in
  if (amount_out =? 0) || (reserve_out <=? amount_out) then Ok None else
  lp_fee_retained ← unwrap_option (checked_sub gross_input effective_input);
  Ok (Some {| cq_effective_input := effective_input; cq_lp_fee_retained := lp_fee_retained;
              cq_amount_out := amount_out |}).

Definition assert_matches_independent_model (reserve_in reserve_out gross_input lp_fee_bps : Z) : test :=
  expected ← independent_quote_model reserve_in reserve_out gross_input lp_fee_bps;
  match quote_exact_in reserve_in reserve_out gross_input lp_fee_bps, expected with
  | Ok actual, Some expected => assert_eq actual expected
  | Err _, None => Ok tt
  | _, _ => Panic
  end.

Definition next_xorshift64 (state : Z) : Z :=
  let state := Z.lxor state (as_u64 (Z.shiftl state 13)) in
  let state := Z.lxor state (Z.shiftr state 7) in
  Z.lxor state (as_u64 (Z.shiftl state 17)).

(** [for index in index..index + count], the generator threaded through. *)
Fixpoint random_loop (count : nat) (index state : Z) : test :=
  match count with
  | O => Ok tt
  | S count =>
      let reserve_in := next_xorshift64 state in
      let reserve_out := next_xorshift64 reserve_in in
      let gross_input := next_xorshift64 reserve_out in
      let state := next_xorshift64 gross_input in
      let fee := state mod 10001 in
      assert_matches_independent_model reserve_in reserve_out gross_input fee ;;
      (if index mod 257 =? 0 then
        assert_matches_independent_model 1 reserve_out gross_input fee ;;
        assert_matches_independent_model reserve_in 1 gross_input fee ;;
        assert_matches_independent_model reserve_in reserve_out 1 fee
       else Ok tt) ;;
      random_loop count (index + 1) state
  end.

Definition deterministic_randomized_quotes_match_an_independent_integer_model : test :=
  for_each [(0, 1, 1, 0); (1, 0, 1, 0); (1, 1, 0, 0); (1, 1, 1, 0); (1000, 1000, 1, 30);
            (1, u64_MAX, u64_MAX - 1, 0); (u64_MAX, 1, 1, 0); (u64_MAX - 1, u64_MAX, 1, 9999);
            (1000000, 1000000, 100000, 10000)]
    (fun '(reserve_in, reserve_out, gross_input, fee) =>
       assert_matches_independent_model reserve_in reserve_out gross_input fee) ;;
  random_loop 4096 0 0x5e771e5d0c0de5a1.
End QuoteTests.

(** ** What is each program's own *)

Module GeneratedPlanEngine.
Import GeneratedEngine.
Definition hostile_receipt_mode_values_are_stable_and_supported : test :=
  let modes := [MODE_WRONG_RECEIPT_MAGIC; MODE_WRONG_RECEIPT_VERSION; MODE_TRAILING_RECEIPT_BYTE] in
  assert_eq modes [7; 8; 9] ;;
  assert (forallb is_supported_mode modes) ;;
  assert (negb (is_supported_mode 10)).
End GeneratedPlanEngine.

Module RoutedPlanEngine.
Import RoutedEngine.
(** The quote tests are the same text over this crate's [quote_exact_in], which is
    the same text too. *)
Definition golden_quote_separates_implicit_lp_fee : test :=
  QuoteTests.golden_quote_separates_implicit_lp_fee.
Definition zero_fee_quote_has_no_retained_input : test :=
  QuoteTests.zero_fee_quote_has_no_retained_input.
Definition lp_fee_rounding_is_explicitly_pool_favouring : test :=
  QuoteTests.lp_fee_rounding_is_explicitly_pool_favouring.
Definition helper_payload_encoding_is_fixed_width_and_little_endian : test :=
  QuoteTests.helper_payload_encoding_is_fixed_width_and_little_endian.
Definition rejects_invalid_and_unrepresentable_quotes : test :=
  QuoteTests.rejects_invalid_and_unrepresentable_quotes.
Definition maximum_width_products_remain_checked : test :=
  QuoteTests.maximum_width_products_remain_checked.
Definition deterministic_property_grid_preserves_cpmm_and_monotonicity : test :=
  QuoteTests.deterministic_property_grid_preserves_cpmm_and_monotonicity.
Definition deterministic_randomized_quotes_match_an_independent_integer_model : test :=
  QuoteTests.deterministic_randomized_quotes_match_an_independent_integer_model.
Definition output_is_monotone_in_successful_exact_inputs : test :=
  QuoteTests.output_is_monotone_in_successful_exact_inputs.
Definition independent_quote_model := QuoteTests.independent_quote_model.
Definition assert_matches_independent_model := QuoteTests.assert_matches_independent_model.

Definition hostile_receipt_mode_values_are_stable_and_supported : test :=
  let modes := [
    MODE_MISSING_RECEIPT; MODE_WRONG_INTENT_DIGEST; MODE_WRONG_EXECUTION_DIGEST;
    MODE_MALFORMED_RECEIPT; MODE_ZERO_OUTPUT; MODE_OVERSIZED_OUTPUT; MODE_WRONG_RECEIPT_MAGIC;
    MODE_WRONG_RECEIPT_VERSION; MODE_TRAILING_RECEIPT_BYTE; MODE_WRONG_RECEIPT_PHASE;
    MODE_LATE_COMMIT_FAILURE] in
  assert_eq modes [1; 2; 3; 4; 5; 6; 7; 8; 9; 10; 11] ;;
  assert (forallb is_supported_mode modes) ;;
  assert (negb (is_supported_mode 12)).
End RoutedPlanEngine.

(** The text of the two helpers' test is the same. *)
Definition return_data_is_distinctive (encode_probe_return_data : Z -> Z -> list Z)
    (PROBE_RETURN_DATA_LEN : nat) (PROBE_RETURN_MAGIC : list Z) : test :=
  let data := encode_probe_return_data 0x0102030405060708 0x1112131415161718 in
  assert_eq (length data) PROBE_RETURN_DATA_LEN ;;
  magic ← slice data 0 8;
  assert_eq magic PROBE_RETURN_MAGIC ;;
  calls ← slice data 8 16;
  assert_eq calls (to_le_bytes 8 0x0102030405060708) ;;
  value ← slice data 16 24;
  assert_eq value (to_le_bytes 8 0x1112131415161718).

Module OpaqueCapabilityProbe.
Import Helpers.OpaqueProbe.
Definition PROBE_RETURN_DATA_LEN : nat := (8 + 8 + 8)%nat.
Definition return_data_is_distinctive_and_fixed_width : test :=
  return_data_is_distinctive encode_probe_return_data PROBE_RETURN_DATA_LEN PROBE_RETURN_MAGIC.
End OpaqueCapabilityProbe.

Module CallbackCapabilityProbe.
Import Helpers.CallbackProbe.
Definition PROBE_RETURN_DATA_LEN : nat := (8 + 8 + 8)%nat.
Definition return_data_is_distinctive_and_fixed_width : test :=
  return_data_is_distinctive encode_probe_return_data PROBE_RETURN_DATA_LEN PROBE_RETURN_MAGIC.
Definition callback_probe_program_id_is_stable : test :=
  assert_eq (to_string ID) (bytes_of_string "6QXXm7aqjRxQGJ6V3nvtS5taHuojM9SisVrHg3Xrj1Vj").
End CallbackCapabilityProbe.

Module HostileRouterProbe.
Import Router.
Definition CLASSIC_TOKEN_TRANSFER_DATA_LEN : nat := (1 + 8)%nat.
Definition classic_transfer_probe_encoding_is_fixed : test :=
  let amount := 0x0102030405060708 in
  data ← overwrite (replicate CLASSIC_TOKEN_TRANSFER_DATA_LEN 0) 0 [CLASSIC_TOKEN_TRANSFER_TAG];
  data ← overwrite data 1 (to_le_bytes 8 amount);
  assert_eq data [3; 8; 7; 6; 5; 4; 3; 2; 1].
Definition router_program_id_is_stable : test :=
  assert_eq (to_string router_ID) (bytes_of_string "F62maceZqpLAayyBLsXNGdrmKg9cZWdpSDbzoHuNgk6Q").
End HostileRouterProbe.

Definition quick_tests : list test := [
  QuoteTests.golden_quote_separates_implicit_lp_fee;
  QuoteTests.zero_fee_quote_has_no_retained_input;
  QuoteTests.lp_fee_rounding_is_explicitly_pool_favouring;
  QuoteTests.helper_payload_encoding_is_fixed_width_and_little_endian;
  QuoteTests.rejects_invalid_and_unrepresentable_quotes;
  QuoteTests.maximum_width_products_remain_checked;
  QuoteTests.output_is_monotone_in_successful_exact_inputs;
  GeneratedPlanEngine.hostile_receipt_mode_values_are_stable_and_supported;
  RoutedPlanEngine.hostile_receipt_mode_values_are_stable_and_supported;
  OpaqueCapabilityProbe.return_data_is_distinctive_and_fixed_width;
  CallbackCapabilityProbe.return_data_is_distinctive_and_fixed_width;
  CallbackCapabilityProbe.callback_probe_program_id_is_stable;
  HostileRouterProbe.classic_transfer_probe_encoding_is_fixed;
  HostileRouterProbe.router_program_id_is_stable].

(** *** The two implementations agree *)
Section Agreement.
Import QuoteTests.

Lemma as_u64_small n : is_u64 n -> as_u64 n = n.
Proof. intros Hn. by apply Z.mod_small. Qed.

(** The model never overflows, and is the two floors as well. *)
Lemma independent_quote_model_eq r s g bps :
  is_u64 r -> is_u64 s -> is_u64 g -> is_u16 bps ->
  let x := effective_of g bps in
  independent_quote_model r s g bps = Ok (
    if bool_decide (0 < r /\ 0 < s /\ 0 < g /\ bps < 10000 /\ r + g < 2 ^ 64 /\
                    0 < x /\ 0 < output_of r s x)
    then Some {| cq_effective_input := x; cq_lp_fee_retained := g - x;
                 cq_amount_out := output_of r s x |}
    else None).
Proof.
  intros Hr Hs Hg Hb x. unfold in_width in *. unfold independent_quote_model.
  destruct (decide (0 < r /\ 0 < s /\ 0 < g /\ bps < 10000 /\ r + g < 2 ^ 64))
    as [(H1 & H2 & H3 & H4 & H5)|Hn].
  2:{ rewrite (bool_decide_false (_ /\ _)) by tauto.
      destruct (checked_add 64 r g) as [v|] eqn:E.
      - apply checked_add_Some in E as [? _]. case_match eqn:Ec; [done|].
        exfalso. apply Hn. rewrite !orb_false_iff in Ec. to_prop. lia.
      - rewrite (bool_decide_false (is_Some None)) by (intros [? [=]]).
        by rewrite !orb_true_r. }
  pose proof (effective_bounds g bps ltac:(lia) ltac:(lia)) as Hx. fold x in Hx.
  rewrite (proj2 (Z.eqb_neq r 0)), (proj2 (Z.eqb_neq s 0)), (proj2 (Z.eqb_neq g 0)),
    (proj2 (Z.leb_gt 10000 bps)) by lia.
  rewrite (proj2 (checked_add_Some 64 r g _) (conj H5 eq_refl)).
  rewrite bool_decide_true by (by eexists). cbn [negb orb].
  rewrite (proj2 (checked_sub_Some 10000 bps _)) by (split; [lia | reflexivity]).
  cbn [unwrap_option]. rewrite bind_ret_l.
  rewrite (proj2 (checked_mul_Some 128 g (10000 - bps) _)) by (split; [nia | reflexivity]).
  cbn [unwrap_option]. rewrite bind_ret_l. change (g * (10000 - bps) / 10000) with x.
  rewrite as_u64_small by (unfold in_width; lia).
  destruct (Z.eqb_spec x 0) as [H0|H0]; [by rewrite bool_decide_false by lia|].
  pose proof (output_product r s x H1 H2 ltac:(lia)) as (Ho & _ & Hlt).
  rewrite (proj2 (checked_mul_Some 128 s x _)) by (split; [nia | reflexivity]).
  cbn [unwrap_option]. rewrite bind_ret_l.
  rewrite (proj2 (checked_add_Some 128 r x _)) by (split; [lia | reflexivity]).
  cbn [unwrap_option]. rewrite bind_ret_l. change (s * x / (r + x)) with (output_of r s x).
  rewrite as_u64_small by (unfold in_width; lia).
  destruct (Z.eqb_spec (output_of r s x) 0) as [Hz|Hz]; [by rewrite bool_decide_false by lia|].
  rewrite (proj2 (Z.leb_gt s _)) by done. cbn [orb].
  rewrite (proj2 (checked_sub_Some g x _)) by (split; [lia | reflexivity]).
  cbn [unwrap_option]. rewrite bind_ret_l. by rewrite bool_decide_true by lia.
Qed.

Lemma quote_agrees r s g bps :
  is_u64 r -> is_u64 s -> is_u64 g -> is_u16 bps ->
  exists m, independent_quote_model r s g bps = Ok m /\
    match quote_exact_in r s g bps with
    | Ok q => m = Some q
    | Err _ => m = None
    | Panic => False
    end.
Proof.
  intros Hr Hs Hg Hb. eexists. split; [by apply independent_quote_model_eq|].
  pose proof (fun q => quote_exact_in_Ok r s g bps q Hr Hs Hg Hb) as Hq.
  destruct (quote_exact_in r s g bps) as [q|e|] eqn:E.
  - destruct (proj1 (Hq q) eq_refl) as (? & ? & ? & ? & ? & ? & ? & ->). by rewrite bool_decide_true.
  - case_bool_decide as Hc; [|done]. destruct Hc as (? & ? & ? & ? & ? & ? & ?).
    by assert (Err e = Ok (E := EngineError) _) by (by apply Hq; split_and!).
  - assert (NoPanic (quote_exact_in r s g bps)) as Hn by (unfold quote_exact_in; no_panic).
    by apply Hn.
Qed.

Lemma assert_matches_passes r s g bps :
  is_u64 r -> is_u64 s -> is_u64 g -> is_u16 bps ->
  passes (assert_matches_independent_model r s g bps).
Proof.
  intros Hr Hs Hg Hb. destruct (quote_agrees r s g bps Hr Hs Hg Hb) as (m & Hm & Hq).
  unfold passes, assert_matches_independent_model. rewrite Hm, bind_ret_l.
  destruct (quote_exact_in r s g bps); [subst m; by apply passes_assert_eq | by subst m | done].
Qed.

(** The generator stays in its 64 bits, so every draw is covered. *)
Lemma lxor_u64 a b : is_u64 a -> is_u64 b -> is_u64 (Z.lxor a b).
Proof.
  intros [Ha Ha'] [Hb Hb']. assert (0 <= Z.lxor a b) by (apply Z.lxor_nonneg; lia).
  split; [done|]. apply Z.bounded_iff_bits_nonneg; [lia | done|]. intros l Hl.
  rewrite Z.lxor_spec. rewrite Z.bounded_iff_bits_nonneg in Ha', Hb' by lia.
  by rewrite Ha', Hb'.
Qed.
Lemma as_u64_u64 n : is_u64 (as_u64 n).
Proof. apply Z.mod_pos_bound. lia. Qed.
Lemma xorshift_u64 state : is_u64 state -> is_u64 (next_xorshift64 state).
Proof.
  intros Hs. unfold next_xorshift64.
  assert (forall n, is_u64 n -> is_u64 (Z.shiftr n 7)) as Hshift.
  { intros n [Hn Hn']. rewrite Z.shiftr_div_pow2 by lia. unfold in_width.
    split; [apply Z.div_pos; lia | apply Z.div_lt_upper_bound; lia]. }
  auto using lxor_u64, as_u64_u64.
Qed.

(** The random test passes from any seed and for any number of inputs. *)
Lemma random_loop_passes count index state : is_u64 state -> passes (random_loop count index state).
Proof.
  revert index state. induction count as [|count IH]; intros index state Hs; [done|].
  assert (is_u64 1) by (unfold in_width; lia).
  assert (forall n, is_u16 (n mod 10001)) as Hfee
    by (intros n; unfold in_width; pose proof (Z.mod_pos_bound n 10001); lia).
  cbn [random_loop].
  apply passes_seq; [|apply passes_seq; [|apply IH; auto using xorshift_u64]].
  - apply assert_matches_passes; auto 6 using xorshift_u64.
  - case_match; [|done].
    repeat apply passes_seq; apply assert_matches_passes; auto 6 using xorshift_u64.
Qed.

(** *** The grid *)

Lemma effective_antitone g b b' : 0 <= g -> b <= b' -> effective_of g b' <= effective_of g b.
Proof. intros Hg Hb. unfold effective_of. apply Z.div_le_mono; nia. Qed.

(** A larger fee never gives a larger output. *)
Lemma quote_fee_antitone r s g b b' q q' :
  is_u64 r -> is_u64 s -> is_u64 g -> is_u16 b -> is_u16 b' -> b <= b' ->
  quote_exact_in r s g b = Ok q -> quote_exact_in r s g b' = Ok q' ->
  cq_amount_out q' <= cq_amount_out q.
Proof.
  intros Hr Hs Hg Hb Hb' Hle (H1 & H2 & H3 & _ & _ & _ & _ & ->)%quote_exact_in_Ok; [|done..].
  intros (_ & _ & _ & _ & _ & H6 & _ & ->)%quote_exact_in_Ok; [|done..]. cbn [cq_amount_out].
  apply output_mono; [done..|]. split; [lia|]. apply effective_antitone; lia.
Qed.

Lemma assert_invariant_passes r s g b q :
  is_u64 r -> is_u64 s -> is_u64 g -> is_u16 b -> quote_exact_in r s g b = Ok q ->
  passes (assert_invariant r s g (cq_amount_out q)).
Proof.
  intros Hr Hs Hg Hb Hq. pose proof (settled_product _ _ _ _ _ Hr Hs Hg Hb Hq) as (Hk & Ho & _).
  pose proof (quote_facts _ _ _ _ _ Hr Hs Hg Hb Hq) as (Ho' & _).
  apply quote_exact_in_Ok in Hq as (_ & _ & _ & _ & Hsum & _); [|done..].
  unfold in_width in *. unfold passes, assert_invariant.
  rewrite (proj2 (checked_mul_Some 128 r s _)) by (split; [nia | reflexivity]).
  rewrite (proj2 (checked_add_Some 64 r g _)) by (split; [lia | reflexivity]).
  rewrite (proj2 (checked_sub_Some s (cq_amount_out q) _)) by (split; [lia | reflexivity]).
  cbn [unwrap_option]. rewrite !bind_ret_l.
  rewrite (proj2 (checked_mul_Some 128 (r + g) (s - cq_amount_out q) _))
    by (split; [nia | reflexivity]).
  cbn [unwrap_option]. rewrite bind_ret_l. apply passes_assert, Z.leb_le. lia.
Qed.

(** The inner loop passes for any reserves and input, over any ascending fees. *)
Lemma fees_loop_passes r s g fees prior :
  is_u64 r -> is_u64 s -> is_u64 g -> Forall is_u16 fees -> StronglySorted Z.le fees ->
  (forall output, prior = Some output -> exists b q,
     is_u16 b /\ Forall (Z.le b) fees /\ quote_exact_in r s g b = Ok q /\ output = cq_amount_out q) ->
  passes (fees_loop r s g fees prior).
Proof.
  intros Hr Hs Hg. revert prior. induction fees as [|fee fees IH]; intros prior Hu Hsort Hprior; [done|].
  apply Forall_cons in Hu as [Hb Hu]. apply StronglySorted_inv in Hsort as [Hsort Hle].
  cbn [fees_loop]. pose proof (quote_agrees r s g fee Hr Hs Hg Hb) as (m & _ & Hm).
  destruct (quote_exact_in r s g fee) as [q|e|] eqn:Hq; [|apply IH; [done..|]|done].
  - pose proof (quote_facts _ _ _ _ _ Hr Hs Hg Hb Hq) as (Ho & He & Hf & _).
    apply passes_seq; [apply passes_assert, Z.leb_le; lia|].
    rewrite (proj2 (checked_sub_Some g (cq_effective_input q) _)) by (split; [lia | reflexivity]).
    cbn [unwrap_option]. unfold passes. rewrite bind_ret_l.
    apply passes_seq; [by apply passes_assert_eq|].
    apply passes_seq; [apply passes_assert, Z.ltb_lt; lia|].
    apply passes_seq; [by eapply assert_invariant_passes|].
    apply passes_seq; [|apply IH; [done..|]; intros output [= <-]; by exists fee, q].
    destruct prior as [output|]; [|done].
    destruct (Hprior output eq_refl) as (b & q' & Hb' & (Hbf & _)%Forall_cons & Hq' & ->).
    apply passes_assert, Z.leb_le. by apply (quote_fee_antitone r s g b fee).
  - intros output Ho. destruct (Hprior output Ho) as (b & q & ? & (_ & ?)%Forall_cons & ? & ?).
    by exists b, q.
Qed.

#[local] Ltac literals := unfold in_width, u32_MAX; repeat (apply Forall_cons_2; [lia|]); constructor.

Lemma grid_passes : passes deterministic_property_grid_preserves_cpmm_and_monotonicity.
Proof.
  apply passes_for_each. intros r Hr. apply passes_for_each. intros s Hs.
  apply passes_for_each. intros g Hg. case_match; [|done].
  assert (forall l, Forall is_u64 l -> forall n, n ∈ l -> is_u64 n) as Hl
    by (intros l Hf n; by apply Forall_forall).
  apply fees_loop_passes;
    [eapply Hl, Hr; literals | eapply Hl, Hs; literals | eapply Hl, Hg; literals | literals | | done].
  repeat (constructor; [|literals]). constructor.
Qed.
End Agreement.

(** ** Properties *)

(** C35. The two implementations of the quote agree: on all [u64] reserves and
    inputs and all [u16] fees the second one of the test modules neither
    overflows nor truncates, returns a quote exactly when [quote_exact_in] does,
    and returns the same one; and neither panics. So the random comparison
    passes from every seed, for every number of inputs. *)
Theorem quote_matches_independent_model r s g bps :
  is_u64 r -> is_u64 s -> is_u64 g -> is_u16 bps ->
  (exists m, QuoteTests.independent_quote_model r s g bps = Ok m /\
     match quote_exact_in r s g bps with
     | Ok q => m = Some q
     | Err _ => m = None
     | Panic => False
     end) /\
  (forall count index seed, is_u64 seed -> passes (QuoteTests.random_loop count index seed)).
Proof.
  intros Hr Hs Hg Hb. split; [by apply quote_agrees|].
  intros count index seed. apply random_loop_passes.
Qed.

Lemma quote_matches_independent_model_witness :
  QuoteTests.independent_quote_model 1 (2 ^ 64 - 1) (2 ^ 64 - 2) 0 =
    Ok (Some {| cq_effective_input := 2 ^ 64 - 2; cq_lp_fee_retained := 0;
                cq_amount_out := 2 ^ 64 - 2 |}).
Proof.
  destruct (quote_matches_independent_model 1 (2 ^ 64 - 1) (2 ^ 64 - 2) 0) as [(m & Hm & Hq) _];
    [unfold in_width; lia..|].
  rewrite Hm. revert Hq. vm_compute. intros ->. reflexivity.
Defined.

(** The unit tests of the engines, the helpers and the router pass: the
    golden quotes, the boundaries, the grid of quotes that keep the product and
    shrink with the fee, the comparison with the second implementation, the
    modes, the return data and the program ids. *)
Theorem engine_unit_tests_pass :
  Forall passes
    (QuoteTests.deterministic_property_grid_preserves_cpmm_and_monotonicity ::
     QuoteTests.deterministic_randomized_quotes_match_an_independent_integer_model :: quick_tests).
Proof.
  apply Forall_cons_2; [apply grid_passes|]. apply Forall_cons_2; [|decide_closed].
  apply passes_seq; [decide_closed|]. apply random_loop_passes. unfold in_width. lia.
Qed.
